(* ===== verification/_CoqProject ===== *)
-Q . S2P
Prelude.v
Words.v
Structs.v
RuntimeConfig.v
Statistics.v
HexDump.v
Heap.v
Ringbuffer.v
RingbufferConc.v
Crc.v
Murmur.v
Probe.v
IndexMap.v
IdTable.v
FlowTable.v
FlowTableConc.v
SessionTable.v
DnsTable.v
BloomFilter.v
FlowDb.v
FlowDbSessions.v
DpApi.v
Features.v
Dataplane.v
PacketHandler.v
DnsDb.v
Export.v
Prepare.v
Benchmark.v
Evaluation.v
Controller.v
Modes.v
System.v
Startup.v
