(* ===== verification/Prelude.v ===== *)
(** * Marina controller: root of the development

    Marina extracts features of network flows on a programmable switch. Its
    controller, the C program under [src/controller/], runs on the CPU of the switch:
    it decides which flows the data plane observes, reads the registers of the
    features once per round and exports them. This library models the controller and
    proves what each part promises to the others.

    ** The program and where it is modelled

    Four ring buffers and three hash tables connect the threads:

    - [packet_handler/packet_handler.c] (PacketHandler.v) parses a captured packet and
      puts commands for its flow in the packet ring buffer, and expired addresses in the
      DNS ring buffer. [hexDump], its debug output, is HexDump.v.
    - [dns_db/dns_db.c] (DnsDb.v) takes DNS responses and expired addresses from the DNS
      ring buffer and maintains [datastructures/dns_hashtable.c] (DnsTable.v).
    - [flow_db/flow_db.c] (FlowDb.v) takes the commands of the packet ring buffer. It owns
      the flow table [datastructures/flow_hashtable.c] (FlowTable.v), the session table
      [datastructures/session_hashtable.c] (SessionTable.v), two arrays of heaps of free
      ids [datastructures/heap.c] (Heap.v) and the Bloom filter counters
      [datastructures/bloom_filter.c] (BloomFilter.v), and puts commands in the data
      plane ring buffer.
    - [dataplane/dataplane.c] (Dataplane.v) executes those commands through
      [dataplane/dp_api.c] (DpApi.v), which [dataplane/prepare_dataplane.c] (Prepare.v)
      also uses to fill the static tables.
    - [export/export_features.c] (Export.v) waits for its interval, has
      [dataplane/features.c] (Features.v) read the registers, update the totals and time
      out idle sessions (again a command in the packet ring buffer), and prints a line
      per session.
    - [controller.c] starts the threads: Controller.v has the flow database and the data
      plane thread in any interleaving; Modes.v the same in both modes of the session
      table; System.v all threads, a handler or a command per step; Startup.v the
      initialisation, and the threads while the data plane thread still prepares the
      switch and the registers.

    [benchmark.c] (Benchmark.v) is another program on the same parts: its loops insert and
    remove entries, reset registers, copy and export sessions while it measures the time;
    its start prepares the switch before the one thread that it runs. The programs under
    [evaluation/] (Evaluation.v) put items in the ring buffer of one thread without end,
    in any interleaving with it, fill a table while the exporter runs, or prepare the
    switch and give mock packets to the packet handler.

    Shared code: Structs.v ([datastructures/structs.h], [config.h] and the item types of
    the ring buffers), Ringbuffer.v and RingbufferConc.v ([mk_ringbuffer.h]: one call at
    a time, and the stores of several threads interleaved), FlowTableConc.v (the stores of
    the flow database in the flow table, interleaved with the loads of the packet
    handler's lookups, which take no lock), Crc.v and Murmur.v
    ([hashes/], on the words and blocks of Words.v), Probe.v (the linear probing that the
    three tables share), IndexMap.v and IdTable.v (the reverse indices of the tables and
    the interface of a table of ids), RuntimeConfig.v and Statistics.v ([runtime_config/], [logging/statistics.c]). This
    file holds the machine integers, the outcomes of C code, arrays and the lemmas that
    all of them use.

    ** How the code is translated

    Every C function is a Coq function of the same name on explicit state; its result is a
    [res]: [Ok], [UB] (an access outside of an array or of a captured packet, an
    indeterminate value used as an index) or [Hang] (a loop that does not end). Unsigned
    integers are [Z] with the wrap-around written out ([u8] to [u64], [i8] to [i32] for
    the conversions to signed types). An [arr] is a function with a length; [rd] and [wr]
    test the bounds. Structures are records, commands with a union are inductive types.
    Loops over an index are recursive in the number of iterations left. Loops without a
    bound in the text (probing, sifting in the heap, the busy wait of
    [ringbuffer_ensure_put], the waiting of the exporter) are [while], whose fuel is
    [2 ^ 40] rounds; the rule [while_rule] asks for a measure below that fuel, so that a
    theorem with the result [Ok] also says that the loop ends. The largest measure is the
    number of slots of a table, at most [2 ^ 23]. Where a loop does not end the theorem
    says [Hang]; its proof is an invariant under which the loop never leaves, whatever
    the fuel.

    [use_sessions] is the runtime switch of [runtime_config.c]; the functions of the flow
    database and of the session table take it as an argument. The session table and the
    flow database are refined in both modes: FlowDb.v with sessions disabled, and
    FlowDbSessions.v with sessions enabled, the default, where the removal of a flow uses
    an uninitialised id ([FlowDb.session_cleanup_uses_indeterminate_id]) that the
    theorems take as an argument. Controller.v composes the flow database with the data
    plane thread for sessions disabled, Modes.v in either mode, and System.v, all threads,
    is on Modes.v; Startup.v runs the steps of System.v before, during and after the
    preparation. There the abstract state remembers the session that each flow joined.
    With sessions disabled that is the flow's own. With sessions enabled the theorem of
    System.v takes for granted that the packets of a session arrive on one pipe, that a
    new flow finds a session or a free id for one ([FlowDbSessions.lone_flows_use_up_the_sessions]
    says when there is none), and that the uninitialised id lies inside of the counts.

    Parameters: the class [Switch] with [SwitchLaws] stands for the SDK of the switch. Its
    classification tables are finite maps with distinct handles and match exactly, as
    [p4/include/classification.p4] declares them: an addition is refused for a match
    specification that the pipe already has, succeeds as long as a usable entry is left,
    and may be refused beyond that. How many of the declared entries are usable is a
    parameter of its own, [TableSizes], at most the declared size: a comment in
    [benchmark.c] reports fewer. A write or reset of registers takes effect when its
    status says so, and a read returns the copy of the counters that the last successful
    synchronisation made. A concrete instance, [model_sw], satisfies the laws and serves
    the witnesses.
    [Resolver] stands for libresolv, [inet_ntop], the random numbers of [rand()], the
    clocks and libuuid are arguments, and so are the values of uninitialised variables,
    named [garbage].

    ** What is proved

    - Start: Startup.v shows, for every interleaving of the threads with the preparation,
      that the controller starts into the state in which the configured entries are in the
      switch and the theorems about all threads hold, provided that the exporter comes
      after the preparation; without that proviso it reads through null pointers.
    - The flow database: FlowDb.v and FlowDbSessions.v give each command as a function on
      the abstract state (the flows, the sessions, the free ids, the queue and the
      counters of the Bloom filter) and prove that the code computes it, under the
      conditions that the rest of the controller has to establish: a port below 512 of the
      pipe of its flow (and of the session), room in the queue for a timeout, an
      uninitialised id inside of the counts. The code checks none of them;
      [unchecked_port_over_reads] and [fin_on_other_pipe_overflows_heap] say what happens
      without.
    - Composition: Controller.v shows, for sessions disabled, that the switch mirrors the
      flow table in every interleaving, that a packet on the wire becomes the entry in the
      switch, and that timeouts remove the idle session; Modes.v, for both modes, that the
      entry of the packet leads to the registers of its client's session, and that with
      sessions enabled a timeout removes a flow of another client; System.v that in both
      modes all threads together never leave an array nor hang, that each acts on the
      shared state as its specification says, the printed totals included, and that the
      switch counts each flow in the registers of the session that it joined.
    - Refinements of abstract specifications: heaps of sorted lists, ring buffers of
      bounded queues, the three hash tables of finite maps, the flow database, the packet
      handler, the Bloom filter and the data plane thread of transitions on sets, maps
      and queues.
    - Invariants and conservation: no id is lost or handed out twice; every command in
      the queue is executable when its turn comes.
    - Lock-free access: in every interleaving of stores and loads the ring buffers stay
      queues and the flow table stays within its arrays; lookups are linearizable while
      flows are only added, and every flow behind its home slot can be hidden from them by
      the removal of the flow in the slot before. The statistics thread reads each counter
      three times per round while the others count: its rates are those of its own
      reads, and Statistics.v says which events they miss.
    - Equivalences with reference definitions: CRC, hex dump; round
      trips: parsing of encoded packets, the bytes of keys, the packing of register
      indices and ids.
    - Bounds and wrap-around: totals of the 32 bit registers, export intervals, counters.
    - Errors: where the code can leave an array, hang, lose or misdirect a command, a
      theorem exhibits the exact condition (the theorems named [unchecked_port_over_reads],
      [dns_branch_port_and_over_read], [dropped_add_misdirects_timeouts],
      [fin_clears_other_totals], [removal_after_failed_add_deletes_other_flow],
      [two_consumers_underflow], [early_export_undefined], [early_flow_leads_to_pipe_0],
      [removal_hides_stored_flow], [session_timeout_removes_other_flow] and others).

    ** Not modelled

    The creation and joining of threads, the loop of libpcap and signal handling (glue);
    logging macros; the opening of the output file and the Python export [EXPORT_NUMPY],
    which does not compile; the statistics and condition variables of the evaluation
    programs; tests and mocks; the P4 program, which is the other side of [Switch]; the
    static tables that a script generates, which are an argument of [prepare_dataplane].
    Memory is sequentially consistent. An interleaving switches threads between handlers;
    inside of the ring buffer functions and of the flow table it switches between stores
    (RingbufferConc.v, FlowTableConc.v), but the other shared data, the session and DNS
    tables and the registers, are accessed a handler at a time. What a round of the
    exporter reads from the switch is an input of the specification of all threads
    (Features.v says how it depends on the switch). [prepare_dataplane] and
    [prepare_features] are one step each, so that Startup.v does not have the threads that
    read [DEVPORT_MAPPING] while it is being filled. *)

From stdpp Require Export base tactics numbers list gmap sorting.
From Stdlib Require Export ZArith Lia.
#[export] Set Default Goal Selector "!".
Open Scope Z_scope.

(** ** Machine integers *)

(** Wrap-around of the unsigned types: [uintN_t] is a [Z] kept modulo [2^N]. *)
Definition u8 (z : Z) : Z := z mod 2 ^ 8.
Definition u16 (z : Z) : Z := z mod 2 ^ 16.
Definition u32 (z : Z) : Z := z mod 2 ^ 32.
Definition u64 (z : Z) : Z := z mod 2 ^ 64.
(** Two's complement conversion to the signed types. *)
Definition i8 (z : Z) : Z := (z + 2 ^ 7) mod 2 ^ 8 - 2 ^ 7.
Definition i16 (z : Z) : Z := (z + 2 ^ 15) mod 2 ^ 16 - 2 ^ 15.
Definition i32 (z : Z) : Z := (z + 2 ^ 31) mod 2 ^ 32 - 2 ^ 31.

(** ** Outcomes of C code

    [Ok a] is a normal return, [UB] undefined behaviour (an access out of the
    bounds of an array, a read of an indeterminate value used as an index),
    [Hang] a loop that does not leave within its fuel. *)
Inductive res (A : Type) : Type :=
  | Ok (a : A)
  | UB
  | Hang.
Arguments Ok {A} a.
Arguments UB {A}.
Arguments Hang {A}.

Definition rbind {A B} (m : res A) (k : A -> res B) : res B :=
  match m with Ok a => k a | UB => UB | Hang => Hang end.

Declare Scope c_scope.
Delimit Scope c_scope with c.
Notation "'let!' x := m 'in' k" := (rbind m (fun x => k))
  (at level 10, x name, m at level 100, k at level 200) : c_scope.
Notation "'let!' ' p := m 'in' k" := (rbind m (fun x => match x with p => k end))
  (at level 10, p strict pattern, m at level 100, k at level 200) : c_scope.
Open Scope c_scope.

Lemma rbind_Ok {A B} (m : res A) (k : A -> res B) b :
  rbind m k = Ok b <-> exists a, m = Ok a /\ k a = Ok b.
Proof.
  destruct m as [x| |]; simpl; split.
  - eauto.
  - by intros (a & [= ->] & ?).
  - done.
  - by intros (? & ? & ?).
  - done.
  - by intros (? & ? & ?).
Qed.

Lemma rbind_assoc {A B C} (m : res A) (f : A -> res B) (g : B -> res C) :
  rbind (rbind m f) g = rbind m (fun a => rbind (f a) g).
Proof. by destruct m. Qed.

Definition is_Ok {A} (m : res A) : Prop := exists a, m = Ok a.

(** A [for] loop over the list of its index values. *)
Fixpoint foldM {A S} (body : A -> S -> res S) (l : list A) (s : S) : res S :=
  match l with
  | [] => Ok s
  | x :: l' => let! s' := body x s in foldM body l' s'
  end.

Lemma foldM_app {A S} (body : A -> S -> res S) l1 l2 s :
  foldM body (l1 ++ l2) s = rbind (foldM body l1 s) (foldM body l2).
Proof.
  revert s; induction l1 as [|x l1 IH]; intros s; simpl; [done|].
  destruct (body x s); simpl; auto.
Qed.

(** Invariant rule of [foldM]: [P] is indexed by the values already handled. *)
Lemma foldM_rule {A S} (P : list A -> S -> Prop) (body : A -> S -> res S) l :
  (forall done x rest s, l = done ++ x :: rest -> P done s ->
     exists s', body x s = Ok s' /\ P (done ++ [x]) s') ->
  forall s, P [] s -> exists s', foldM body l s = Ok s' /\ P l s'.
Proof.
  intros Hstep s HP.
  enough (forall rest dn s0, l = dn ++ rest -> P dn s0 ->
            exists s', foldM body rest s0 = Ok s' /\ P l s') as Hgen
    by (by apply (Hgen l [])).
  induction rest as [|x rest IH]; intros dn s0 Hl HP0; simpl.
  - rewrite app_nil_r in Hl; subst; eauto.
  - destruct (Hstep dn x rest s0) as (s1 & -> & HP1); auto; simpl.
    apply (IH (dn ++ [x])); [by rewrite <- app_assoc | done].
Qed.

(** ** Loops

    [while body s] runs [body] until it leaves with [inr]; the fuel is a binary
    number, so that it can be larger than any table of the program and still be
    cheap to evaluate. *)
Fixpoint iter_pos {S R} (p : positive) (body : S -> res (S + R)) (s : S) : res (S + R) :=
  match p with
  | xH => body s
  | xO q =>
      let! r := iter_pos q body s in
      match r with inl s' => iter_pos q body s' | inr v => Ok (inr v) end
  | xI q =>
      let! r := body s in
      match r with
      | inl s' =>
          let! r' := iter_pos q body s' in
          match r' with inl s'' => iter_pos q body s'' | inr v => Ok (inr v) end
      | inr v => Ok (inr v)
      end
  end.

Definition LOOP_FUEL : positive := (2 ^ 40)%positive.

Definition while {S R} (body : S -> res (S + R)) (s : S) : res R :=
  let! r := iter_pos LOOP_FUEL body s in
  match r with inl _ => Hang | inr v => Ok v end.

(** The same loop counted in unary, on which the rules are proved. *)
Fixpoint iter_nat {S R} (n : nat) (body : S -> res (S + R)) (s : S) : res (S + R) :=
  match n with
  | O => Ok (inl s)
  | Datatypes.S n' =>
      let! r := body s in
      match r with inl s' => iter_nat n' body s' | inr v => Ok (inr v) end
  end.

Lemma iter_nat_add {S R} n m (body : S -> res (S + R)) s :
  iter_nat (n + m) body s =
  rbind (iter_nat n body s)
        (fun r => match r with inl s' => iter_nat m body s' | inr v => Ok (inr v) end).
Proof.
  revert s; induction n as [|n IH]; intros s; simpl; [done|].
  destruct (body s) as [[s'|v]| |]; simpl; auto.
Qed.

Lemma iter_pos_nat {S R} p (body : S -> res (S + R)) s :
  iter_pos p body s = iter_nat (Pos.to_nat p) body s.
Proof.
  revert s; induction p as [q IH|q IH|]; intros s; cbn [iter_pos].
  - rewrite Pos2Nat.inj_xI. cbn [iter_nat].
    destruct (body s) as [[s'|v]| |]; cbn [rbind]; auto.
    replace (2 * Pos.to_nat q)%nat with (Pos.to_nat q + Pos.to_nat q)%nat by lia.
    rewrite iter_nat_add, IH. destruct (iter_nat _ _ _) as [[?|?]| |]; simpl; auto.
  - rewrite Pos2Nat.inj_xO.
    replace (2 * Pos.to_nat q)%nat with (Pos.to_nat q + Pos.to_nat q)%nat by lia.
    rewrite iter_nat_add, IH. destruct (iter_nat _ _ _) as [[?|?]| |]; simpl; auto.
  - change (Pos.to_nat 1) with 1%nat; simpl. by destruct (body s) as [[?|?]| |].
Qed.

(** Total correctness: an invariant and a measure that decreases below the fuel. *)
Lemma while_rule {S R} (I : S -> Prop) (Q : R -> Prop) (m : S -> Z) (body : S -> res (S + R)) :
  (forall s, I s -> 0 <= m s) ->
  (forall s, I s ->
     (exists r, body s = Ok (inr r) /\ Q r) \/
     (exists s', body s = Ok (inl s') /\ I s' /\ m s' < m s)) ->
  forall s, I s -> m s < 2 ^ 40 -> exists r, while body s = Ok r /\ Q r.
Proof.
  intros Hm Hstep s HI Hlt. unfold while. rewrite iter_pos_nat.
  enough (forall n s0, I s0 -> m s0 < Z.of_nat n ->
            exists r, iter_nat n body s0 = Ok (inr r) /\ Q r) as Hgen.
  { destruct (Hgen (Pos.to_nat LOOP_FUEL) s HI) as (r & -> & HQ).
    - rewrite positive_nat_Z. unfold LOOP_FUEL. by change (Z.pos (2 ^ 40)) with (2 ^ 40).
    - simpl; eauto. }
  induction n as [|n IH]; intros s0 HI0 Hlt0.
  - specialize (Hm _ HI0). lia.
  - simpl. destruct (Hstep _ HI0) as [(r & -> & HQ)|(s' & -> & HI' & Hdec)]; simpl.
    + eauto.
    + apply IH; [done | lia].
Qed.

(** A loop that returns does so after some number of iterations. *)
Lemma while_returns {S R} (body : S -> res (S + R)) s r :
  while body s = Ok r -> exists n, iter_nat n body s = Ok (inr r).
Proof.
  unfold while. rewrite iter_pos_nat. generalize (Pos.to_nat LOOP_FUEL). intros n H. exists n.
  destruct (iter_nat n body s) as [[s'|v]| |]; simpl in H; [discriminate|congruence|discriminate|discriminate].
Qed.

(** A loop whose body always continues never returns. *)
Lemma while_hang {S R} (I : S -> Prop) (body : S -> res (S + R)) :
  (forall s, I s -> exists s', body s = Ok (inl s') /\ I s') ->
  forall s, I s -> while body s = Hang.
Proof.
  intros Hstep s HI. unfold while. rewrite iter_pos_nat.
  enough (forall n s0, I s0 -> exists s', iter_nat n body s0 = Ok (inl s')) as Hgen.
  { by destruct (Hgen (Pos.to_nat LOOP_FUEL) s HI) as (s' & ->). }
  induction n as [|n IH]; intros s0 HI0; simpl; [eauto|].
  destruct (Hstep _ HI0) as (s' & -> & HI'); simpl; auto.
Qed.

(** ** Arrays

    A C array of [alen] elements: a sparse map over a default, so that an array
    of the size of the program is cheap; [memset] and static initialisation make
    the map empty. An access out of bounds is [UB]. *)
Record arr (A : Type) : Type := MkArr { alen : Z; adef : A; adata : gmap Z A }.
Arguments MkArr {A} _ _ _.
Arguments alen {A} _.
Arguments adef {A} _.
Arguments adata {A} _.

Definition amake {A} (n : Z) (v : A) : arr A := MkArr n v ∅.
Definition aget {A} (a : arr A) (i : Z) : A := default (adef a) (adata a !! i).
Definition aset {A} (a : arr A) (i : Z) (v : A) : arr A :=
  MkArr (alen a) (adef a) (<[i := v]> (adata a)).
Definition in_bounds {A} (a : arr A) (i : Z) : bool := (0 <=? i) && (i <? alen a).
Definition rd {A} (a : arr A) (i : Z) : res A :=
  if in_bounds a i then Ok (aget a i) else UB.
Definition wr {A} (a : arr A) (i : Z) (v : A) : res (arr A) :=
  if in_bounds a i then Ok (aset a i v) else UB.

(** Two arrays with the same elements need not be the same map. *)
Definition arr_eq {A} (a b : arr A) : Prop :=
  alen a = alen b /\ forall i, aget a i = aget b i.

Section arrays.
Context {A : Type}.
Implicit Types (a : arr A) (i j n : Z) (v : A).

Lemma alen_amake n v : alen (amake n v) = n.
Proof. done. Qed.
Lemma aget_amake n v i : aget (amake n v) i = v.
Proof. unfold aget, amake; simpl. by rewrite lookup_empty. Qed.
Lemma alen_aset a i v : alen (aset a i v) = alen a.
Proof. done. Qed.
Lemma aget_aset_eq a i v : aget (aset a i v) i = v.
Proof. unfold aget, aset; simpl. by rewrite lookup_insert_eq. Qed.
Lemma aget_aset_ne a i j v : i <> j -> aget (aset a i v) j = aget a j.
Proof. intros. unfold aget, aset; simpl. by rewrite lookup_insert_ne. Qed.
Lemma aget_aset a i j v :
  aget (aset a i v) j = if decide (i = j) then v else aget a j.
Proof. case_decide; subst; auto using aget_aset_eq, aget_aset_ne. Qed.

Lemma in_bounds_true a i : in_bounds a i = true <-> 0 <= i < alen a.
Proof. unfold in_bounds. rewrite andb_true_iff, Z.leb_le, Z.ltb_lt. done. Qed.

Lemma rd_ok a i : 0 <= i < alen a -> rd a i = Ok (aget a i).
Proof. intros H. unfold rd. by rewrite (proj2 (in_bounds_true a i) H). Qed.
Lemma wr_ok a i v : 0 <= i < alen a -> wr a i v = Ok (aset a i v).
Proof. intros H. unfold wr. by rewrite (proj2 (in_bounds_true a i) H). Qed.
Lemma rd_UB a i : ~ (0 <= i < alen a) -> rd a i = UB.
Proof.
  intros H. unfold rd. destruct (in_bounds a i) eqn:E; [|done].
  by apply in_bounds_true in E.
Qed.
Lemma rd_inv a i v : rd a i = Ok v -> 0 <= i < alen a /\ v = aget a i.
Proof.
  unfold rd. destruct (in_bounds a i) eqn:E; intros [= <-].
  by apply in_bounds_true in E.
Qed.
Lemma wr_inv a i v a' : wr a i v = Ok a' -> 0 <= i < alen a /\ a' = aset a i v.
Proof.
  unfold wr. destruct (in_bounds a i) eqn:E; intros [= <-].
  by apply in_bounds_true in E.
Qed.

#[global] Instance arr_eq_equiv : Equivalence (@arr_eq A).
Proof.
  split.
  - by split.
  - intros a b [? ?]; by split.
  - intros a b c [? H1] [? H2]; split; [congruence|]. intros; by rewrite H1.
Qed.
End arrays.

#[global] Instance alen_proper {A} : Proper (@arr_eq A ==> eq) alen.
Proof. by intros a b [? _]. Qed.
#[global] Instance aget_proper {A} : Proper (@arr_eq A ==> eq ==> eq) aget.
Proof. intros a b [_ H] i ? <-; apply H. Qed.
#[global] Instance rd_proper {A} : Proper (@arr_eq A ==> eq ==> eq) rd.
Proof.
  intros a b [Hl H] i ? <-. unfold rd, in_bounds. by rewrite Hl, H.
Qed.
#[global] Instance aset_proper {A} : Proper (@arr_eq A ==> eq ==> eq ==> arr_eq) aset.
Proof.
  intros a b [Hl H] i ? <- v ? <-. split; [done|]. intros j. rewrite !aget_aset.
  by case_decide.
Qed.

Create Rewrite HintDb arr.
Create Rewrite HintDb arr_ok.
#[export] Hint Rewrite @alen_amake @aget_amake @alen_aset @aget_aset_eq : arr.
#[export] Hint Rewrite @aget_aset_ne using (first [lia | congruence]) : arr.
#[export] Hint Rewrite @rd_ok @wr_ok using (autorewrite with arr; lia) : arr_ok.

(** Simplify array accesses, discharging the bounds by [lia]. *)
Ltac arr_simpl := autorewrite with arr arr_ok in *; cbn [rbind] in *.
Ltac arr_goal := repeat (progress (autorewrite with arr arr_ok; cbn [rbind])).

(** The first [n] elements of an array, and its swaps. *)
Definition aprefix {A} (a : arr A) (n : Z) : list A := aget a <$> seqZ 0 n.
Definition aswap {A} (a : arr A) (i j : Z) : arr A :=
  aset (aset a i (aget a j)) j (aget a i).

Definition zswap (i j k : Z) : Z :=
  if decide (k = i) then j else if decide (k = j) then i else k.

Lemma elem_of_seqZ0 n k : k ∈ seqZ 0 n <-> 0 <= k < n.
Proof. rewrite elem_of_seqZ. lia. Qed.

Lemma aget_aswap {A} (a : arr A) i j k : aget (aswap a i j) k = aget a (zswap i j k).
Proof.
  unfold aswap, zswap. rewrite aget_aset, aget_aset.
  repeat case_decide; subst; congruence.
Qed.

Lemma aprefix_swap {A} (a : arr A) i j n :
  0 <= i < n -> 0 <= j < n -> aprefix (aswap a i j) n ≡ₚ aprefix a n.
Proof.
  intros Hi Hj. unfold aprefix.
  rewrite (list_fmap_ext (aget (aswap a i j)) (aget a ∘ zswap i j))
    by (intros; apply aget_aswap).
  rewrite list_fmap_compose. apply fmap_Permutation, NoDup_Permutation.
  - apply NoDup_fmap_2; [|apply NoDup_seqZ].
    intros x y. unfold zswap. repeat case_decide; congruence.
  - apply NoDup_seqZ.
  - intros k. rewrite list_elem_of_fmap, elem_of_seqZ0. split.
    + intros (y & -> & Hy%elem_of_seqZ0). unfold zswap. repeat case_decide; lia.
    + intros Hk. exists (zswap i j k). rewrite elem_of_seqZ0. unfold zswap.
      repeat case_decide; subst; lia || (split; [congruence|lia]).
Qed.

Lemma aprefix_ext {A} (a b : arr A) n :
  (forall k, 0 <= k < n -> aget a k = aget b k) -> aprefix a n = aprefix b n.
Proof.
  intros H. unfold aprefix. apply list_fmap_ext; intros i k Hk.
  apply H. apply elem_of_seqZ0, list_elem_of_lookup. eauto.
Qed.

Lemma aprefix_S {A} (a : arr A) n :
  0 <= n -> aprefix a (n + 1) = aprefix a n ++ [aget a n].
Proof.
  intros Hn. unfold aprefix. rewrite seqZ_app by lia. by rewrite fmap_app.
Qed.

Lemma length_aprefix {A} (a : arr A) n : length (aprefix a n) = Z.to_nat n.
Proof. unfold aprefix. by rewrite length_fmap, length_seqZ. Qed.

Lemma elem_of_aprefix {A} (a : arr A) n (x : A) :
  x ∈ aprefix a n <-> exists k, 0 <= k < n /\ x = aget a k.
Proof.
  unfold aprefix. rewrite list_elem_of_fmap. setoid_rewrite elem_of_seqZ0.
  split; intros (k & ? & ?); exists k; done.
Qed.

(** ** Bytes of integers, as they lie in memory (little endian) *)
Fixpoint le_bytes (n : nat) (z : Z) : list Z :=
  match n with
  | O => []
  | Datatypes.S n' => z mod 2 ^ 8 :: le_bytes n' (z / 2 ^ 8)
  end.

Fixpoint le_value (bs : list Z) : Z :=
  match bs with
  | [] => 0
  | b :: bs' => b + 2 ^ 8 * le_value bs'
  end.

Lemma length_le_bytes n z : length (le_bytes n z) = n.
Proof. revert z; induction n; intros; simpl; auto. Qed.

Lemma le_value_bytes n z : le_value (le_bytes n z) = z mod 2 ^ (8 * Z.of_nat n).
Proof.
  revert z; induction n as [|n IH]; intros z; cbn [le_bytes le_value].
  - by rewrite Z.mod_1_r.
  - rewrite IH. replace (8 * Z.of_nat (Datatypes.S n)) with (8 + 8 * Z.of_nat n) by lia.
    rewrite Z.pow_add_r, Z.rem_mul_r by lia. done.
Qed.

Lemma le_bytes_range n z : Forall (fun b => 0 <= b < 256) (le_bytes n z).
Proof.
  revert z; induction n; intros; simpl; constructor; auto.
  by apply Z.mod_pos_bound.
Qed.

Lemma le_bytes_inj n x y :
  0 <= x < 2 ^ (8 * Z.of_nat n) -> 0 <= y < 2 ^ (8 * Z.of_nat n) ->
  le_bytes n x = le_bytes n y -> x = y.
Proof.
  intros Hx Hy E. apply (f_equal le_value) in E.
  by rewrite !le_value_bytes, !Z.mod_small in E.
Qed.

Definition is_byte (b : Z) : Prop := 0 <= b < 256.

Lemma le_bytes_value bs : Forall is_byte bs -> le_bytes (length bs) (le_value bs) = bs.
Proof.
  induction 1 as [|b bs Hb _ IH]; cbn [length le_bytes le_value]; [done|].
  unfold is_byte in Hb. change (2 ^ 8) with 256.
  rewrite (Z.mul_comm 256), Z.mod_add, Z.div_add, Z.mod_small, Z.div_small, Z.add_0_l by lia.
  by rewrite IH.
Qed.

Lemma le_value_bound bs : Forall is_byte bs -> 0 <= le_value bs < 2 ^ (8 * Z.of_nat (length bs)).
Proof.
  intros H. rewrite <- (le_bytes_value bs H) at 1 2. rewrite le_value_bytes.
  apply Z.mod_pos_bound. lia.
Qed.

(** ** Bitwise reasoning *)

Create Rewrite HintDb testbit.
#[export] Hint Rewrite Z.lxor_spec Z.lor_spec Z.land_spec Z.testbit_0_l : testbit.
#[export] Hint Rewrite Z.shiftr_spec Z.shiftl_spec using lia : testbit.

(** Equality of integers, bit by bit. *)
Ltac bitwise :=
  apply Z.bits_inj'; let i := fresh "i" in intros i ?; autorewrite with testbit;
  repeat match goal with |- context [Z.testbit ?a ?k] => destruct (Z.testbit a k) end;
  try reflexivity.

Lemma testbit_small n a i : 0 <= a < 2 ^ n -> 0 <= n <= i -> Z.testbit a i = false.
Proof.
  intros Ha Hi. rewrite <- (Z.mod_small a (2 ^ n)) by done.
  by apply Z.mod_pow2_bits_high.
Qed.

Lemma lt_pow2_testbit n a :
  0 <= n -> (forall i, n <= i -> Z.testbit a i = false) -> a < 2 ^ n.
Proof.
  intros Hn Hb. replace a with (a mod 2 ^ n); [apply Z.mod_pos_bound; lia|].
  apply Z.bits_inj'. intros i Hi. destruct (decide (n <= i)).
  - rewrite Z.mod_pow2_bits_high by lia. by rewrite Hb.
  - by rewrite Z.mod_pow2_bits_low by lia.
Qed.

Lemma lxor_bound n a b :
  0 <= n -> 0 <= a < 2 ^ n -> 0 <= b < 2 ^ n -> 0 <= Z.lxor a b < 2 ^ n.
Proof.
  intros Hn Ha Hb. assert (0 <= Z.lxor a b) by (apply Z.lxor_nonneg; lia).
  split; [done|]. apply lt_pow2_testbit; auto. intros i Hi.
  by rewrite Z.lxor_spec, !(testbit_small n) by lia.
Qed.

Lemma u8_land z : u8 z = Z.land z 0xFF.
Proof. change 0xFF with (Z.ones 8). by rewrite Z.land_ones. Qed.
Lemma u32_land z : u32 z = Z.land z 0xFFFFFFFF.
Proof. change 0xFFFFFFFF with (Z.ones 32). by rewrite Z.land_ones. Qed.
Lemma u8_bound z : 0 <= u8 z < 256.
Proof. by apply Z.mod_pos_bound. Qed.
Lemma u16_bound z : 0 <= u16 z < 2 ^ 16.
Proof. by apply Z.mod_pos_bound. Qed.
Lemma u32_bound z : 0 <= u32 z < 2 ^ 32.
Proof. by apply Z.mod_pos_bound. Qed.
Lemma u64_bound z : 0 <= u64 z < 2 ^ 64.
Proof. by apply Z.mod_pos_bound. Qed.
Lemma u32_small z : 0 <= z < 2 ^ 32 -> u32 z = z.
Proof. intros. by apply Z.mod_small. Qed.
Lemma u64_small z : 0 <= z < 2 ^ 64 -> u64 z = z.
Proof. intros. by apply Z.mod_small. Qed.

(** A disjunction of disjoint bits is a sum. *)
Lemma lor_shiftl_add a b n : 0 <= n -> 0 <= b < 2 ^ n -> Z.lor (Z.shiftl a n) b = a * 2 ^ n + b.
Proof.
  intros Hn Hb. rewrite <- Z.shiftl_mul_pow2 by done. symmetry.
  assert (Z.land (Z.shiftl a n) b = 0) as Hl.
  { apply Z.bits_inj'. intros i Hi. rewrite Z.land_spec, Z.bits_0.
    destruct (decide (i < n)); [by rewrite Z.shiftl_spec_low|].
    by rewrite (testbit_small n b) by lia; rewrite andb_false_r. }
  rewrite Z.add_nocarry_lxor by done. by apply Z.lxor_lor.
Qed.

(** Big-endian bytes, as on the network. *)
Definition be_bytes (n : nat) (z : Z) : list Z := rev (le_bytes n z).

Lemma length_be_bytes n z : length (be_bytes n z) = n.
Proof. unfold be_bytes. by rewrite length_rev, length_le_bytes. Qed.
