(* ===== verification/Words.v ===== *)
(** * Words and blocks of the hash functions

    Words of [w] bits as integers, the steps of a multiplicative hash and their
    injectivity, the division of a key into blocks of [n] bytes, and the interface
    of a hash that folds a mixing function over the blocks. *)

From S2P Require Import Prelude.

(** ** Words of [w] bits *)

Definition word (w x : Z) : Prop := 0 <= x < 2 ^ w.
Definition uw (w z : Z) : Z := z mod 2 ^ w.
Definition rotl (w x r : Z) : Z := Z.lor (uw w (Z.shiftl x r)) (Z.shiftr x (w - r)).
Definition xorshift (x k : Z) : Z := Z.lxor x (Z.shiftr x k).

Lemma lxor_inj_l a b c : Z.lxor a c = Z.lxor b c -> a = b.
Proof.
  intros E. apply (f_equal (fun z => Z.lxor z c)) in E.
  by rewrite !Z.lxor_assoc, Z.lxor_nilpotent, !Z.lxor_0_r in E.
Qed.

Lemma lxor_inj_r a b c : Z.lxor c a = Z.lxor c b -> a = b.
Proof. rewrite !(Z.lxor_comm c). apply lxor_inj_l. Qed.

Section words.
Context (w : Z) (w_pos : 0 < w).
#[local] Notation word := (word w).
#[local] Notation uw := (uw w).
#[local] Notation rotl := (rotl w).

Lemma uw_word z : word (uw z).
Proof using w_pos. apply Z.mod_pos_bound. lia. Qed.

Lemma uw_small z : word z -> uw z = z.
Proof using. intros. by apply Z.mod_small. Qed.

Lemma lxor_word a b : word a -> word b -> word (Z.lxor a b).
Proof using w_pos. apply lxor_bound; lia. Qed.

Lemma shiftr_word a k : 0 <= k -> word a -> word (Z.shiftr a k).
Proof using w_pos.
  unfold Words.word. intros Hk [? ?]. rewrite Z.shiftr_div_pow2 by done.
  assert (0 < 2 ^ k) by lia.
  split; [apply Z.div_pos; lia|]. apply Z.div_lt_upper_bound; nia.
Qed.

Lemma xorshift_word a k : 0 <= k -> word a -> word (xorshift a k).
Proof using w_pos. intros. by apply lxor_word, shiftr_word. Qed.

(** The bits of a rotation. *)
Lemma rotl_spec x r i :
  word x -> 0 < r < w -> 0 <= i ->
  Z.testbit (rotl x r) i =
  if decide (i < r) then Z.testbit x (i + w - r)
  else if decide (i < w) then Z.testbit x (i - r) else false.
Proof using w_pos.
  intros Hx Hr Hi. unfold Words.rotl, Words.uw. rewrite <- Z.land_ones by lia.
  autorewrite with testbit. replace (i + (w - r)) with (i + w - r) by lia.
  repeat case_decide.
  - by rewrite (Z.testbit_neg_r _ (i - r)) by lia.
  - rewrite Z.ones_spec_low by lia.
    by rewrite (testbit_small w x (i + w - r)), orb_false_r, andb_true_r by (auto; lia).
  - rewrite Z.ones_spec_high by lia.
    by rewrite (testbit_small w x (i + w - r)), andb_false_r by (auto; lia).
Qed.

Lemma rotl_word x r : word x -> 0 < r < w -> word (rotl x r).
Proof using w_pos.
  intros Hx Hr. split.
  - unfold Words.rotl. apply Z.lor_nonneg. split; [apply uw_word|].
    apply Z.shiftr_nonneg. apply Hx.
  - apply lt_pow2_testbit; [lia|]. intros i Hi. rewrite rotl_spec by (auto; lia).
    repeat case_decide; done || lia.
Qed.

Lemma rotl_inverse x r : word x -> 0 < r < w -> rotl (rotl x r) (w - r) = x.
Proof using w_pos.
  intros Hx Hr. pose proof (rotl_word x r Hx Hr).
  apply Z.bits_inj'. intros i Hi. rewrite rotl_spec by (auto; lia).
  destruct (decide (i < w)).
  - repeat case_decide; rewrite rotl_spec by (auto; lia);
      repeat case_decide; try lia; f_equal; lia.
  - rewrite (testbit_small w x i) by (auto; lia). repeat case_decide; done || lia.
Qed.

Lemma rotl_inj a b r : word a -> word b -> 0 < r < w -> rotl a r = rotl b r -> a = b.
Proof using w_pos.
  intros Ha Hb Hr E. rewrite <- (rotl_inverse a r), <- (rotl_inverse b r) by done.
  by rewrite E.
Qed.

(** Multiplication by an odd constant, undone by its inverse modulo [2^w]. *)
Lemma uw_mul_inverse x c d : word x -> uw (c * d) = 1 -> uw (uw (x * c) * d) = x.
Proof using w_pos.
  unfold Words.uw. intros Hx E. rewrite Z.mul_mod_idemp_l, <- Z.mul_assoc by lia.
  rewrite <- Z.mul_mod_idemp_r, E, Z.mul_1_r by lia. by apply Z.mod_small.
Qed.

Lemma uw_mul_inj a b c d : uw (c * d) = 1 -> word a -> word b -> uw (a * c) = uw (b * c) -> a = b.
Proof using w_pos.
  intros Hd Ha Hb E. by rewrite <- (uw_mul_inverse a c d), <- (uw_mul_inverse b c d), E.
Qed.

Lemma uw_add_inj a b c : word a -> word b -> uw (a + c) = uw (b + c) -> a = b.
Proof using w_pos.
  intros Ha Hb E. apply (f_equal (fun z => uw (z - c))) in E. revert E. unfold Words.uw.
  rewrite !Zminus_mod_idemp_l. replace (a + c - c) with a by lia. replace (b + c - c) with b by lia.
  by rewrite !Z.mod_small.
Qed.

(** [x ^= x >> k] loses nothing. *)
Lemma xorshift_inj_half a b k :
  0 <= k -> w <= 2 * k -> word a -> word b -> xorshift a k = xorshift b k -> a = b.
Proof using w_pos.
  intros Hk Hw Ha Hb E.
  assert (forall x, word x -> xorshift (xorshift x k) k = x) as Hi; [|by rewrite <- (Hi a), <- (Hi b), E].
  intros x Hx. unfold xorshift. apply Z.bits_inj'. intros i Hn. autorewrite with testbit.
  rewrite (testbit_small w x (i + k + k)) by (auto; lia).
  by destruct (Z.testbit x i), (Z.testbit x (i + k)).
Qed.

Lemma xorshift_inj_third a b k :
  0 <= k -> w <= 3 * k -> word a -> word b -> xorshift a k = xorshift b k -> a = b.
Proof using w_pos.
  intros Hk Hw Ha Hb E.
  assert (forall x, word x -> Z.lxor (xorshift (xorshift x k) k) (Z.shiftr (xorshift x k) (k + k)) = x) as Hi;
    [|by rewrite <- (Hi a), <- (Hi b), E].
  intros x Hx. unfold xorshift. apply Z.bits_inj'. intros i Hn. autorewrite with testbit.
  replace (i + (k + k) + k) with (i + k + k + k) by lia. replace (i + (k + k)) with (i + k + k) by lia.
  rewrite (testbit_small w x (i + k + k + k)) by (auto; lia).
  by destruct (Z.testbit x i), (Z.testbit x (i + k)), (Z.testbit x (i + k + k)).
Qed.

(** *** The two steps of the hash *)

(** [k *= c; k = ROTL(k, r); k *= c'] *)
Definition scramble (c r c' k : Z) : Z := uw (rotl (uw (k * c)) r * c').

(** [h ^= k; h = ROTL(h, r); h += next; h = h * 5 + c] *)
Definition mix (r c next h k : Z) : Z := uw (uw (rotl (Z.lxor h k) r + next) * 5 + c).

Lemma scramble_word c r c' k : word (scramble c r c' k).
Proof using w_pos. apply uw_word. Qed.

Lemma mix_word r c next h k : word (mix r c next h k).
Proof using w_pos. apply uw_word. Qed.

Lemma scramble_inj c d r c' d' a b :
  uw (c * d) = 1 -> uw (c' * d') = 1 -> 0 < r < w -> word a -> word b ->
  scramble c r c' a = scramble c r c' b -> a = b.
Proof using w_pos.
  intros Hc Hc' Hr Ha Hb E. unfold scramble in E.
  assert (forall x, word (uw x)) as Hu by (intros; apply uw_word).
  apply (uw_mul_inj _ _ c' d') in E; [|done|by apply rotl_word..].
  apply rotl_inj in E; [|done..]. by apply (uw_mul_inj _ _ c d) in E.
Qed.

Lemma mix_inj d r c next h1 h2 k1 k2 :
  uw (5 * d) = 1 -> 0 < r < w -> word h1 -> word h2 -> word k1 -> word k2 ->
  mix r c next h1 k1 = mix r c next h2 k2 -> Z.lxor h1 k1 = Z.lxor h2 k2.
Proof using w_pos.
  intros Hd Hr ???? E. unfold mix in E.
  assert (forall x, word (uw x)) as Hu by (intros; apply uw_word).
  assert (word (Z.lxor h1 k1)) by (by apply lxor_word). assert (word (Z.lxor h2 k2)) by (by apply lxor_word).
  assert (forall x, uw (x * 5) = uw (uw (x * 5 + c) - c)) as Hx.
  { intros x. unfold Words.uw. rewrite Zminus_mod_idemp_l. f_equal. lia. }
  assert (forall x y, word x -> word y -> uw (x * 5 + c) = uw (y * 5 + c) -> x = y) as H5.
  { intros x y ?? Exy. apply (uw_mul_inj x y 5 d); [done..|]. by rewrite (Hx x), (Hx y), Exy. }
  apply H5 in E; [|done..]. apply uw_add_inj in E; [|by apply rotl_word..]. by apply rotl_inj in E.
Qed.
End words.

(** ** Keys as blocks of [n] bytes *)

Definition block (n : nat) (key : list Z) (i : Z) : list Z := take n (drop (n * Z.to_nat i) key).
Definition blocks (n : nat) (key : list Z) : list (list Z) :=
  block n key <$> seqZ 0 (Z.of_nat (length key) / Z.of_nat n).
(** The bytes after the last block. *)
Definition rest (n : nat) (key : list Z) : list Z := drop (length key / n * n) key.

Section blocks.
Context (n : nat) (n_pos : (0 < n)%nat).

Lemma blocks_app p q : (length p mod n = 0)%nat -> blocks n (p ++ q) = blocks n p ++ blocks n q.
Proof using n_pos.
  intros Hp. assert (exists m, length p = (n * m)%nat) as [m Hm].
  { exists (length p / n)%nat. pose proof (Nat.div_mod_eq (length p) n). lia. }
  unfold blocks. rewrite length_app, Nat2Z.inj_add, Hm, Nat2Z.inj_mul.
  rewrite (Z.mul_comm (Z.of_nat n)), Z.div_add_l, Z.div_mul by lia.
  rewrite seqZ_app, fmap_app by (try apply Z.div_pos; lia). f_equal.
  - apply list_fmap_ext. intros k i Hi%list_elem_of_lookup_2%elem_of_seqZ0. unfold block.
    assert (n * Z.to_nat i + n <= n * m)%nat by nia.
    rewrite drop_app_le, take_app_le; [done| |lia]. rewrite length_drop. lia.
  - rewrite <- (Z.add_0_r (0 + Z.of_nat m)), <- fmap_add_seqZ, <- list_fmap_compose.
    apply list_fmap_ext. intros k i Hi%list_elem_of_lookup_2%elem_of_seqZ0. unfold block. simpl.
    replace (n * Z.to_nat (0 + Z.of_nat m + i))%nat with (length p + n * Z.to_nat i)%nat by nia.
    by rewrite drop_app_add.
Qed.

Lemma blocks_one b : length b = n -> blocks n b = [b].
Proof using n_pos.
  intros Hb. unfold blocks. rewrite Hb, Z.div_same by lia. change (seqZ 0 1) with [0].
  rewrite list_fmap_singleton. unfold block. rewrite Nat.mul_0_r, drop_0, take_ge; [done|lia].
Qed.

Lemma rest_app p q : (length p mod n = 0)%nat -> rest n (p ++ q) = rest n q.
Proof using n_pos.
  intros Hp. pose proof (Nat.div_mod_eq (length p) n). unfold rest. rewrite length_app.
  replace (length p + length q)%nat with (length q + length p / n * n)%nat by lia.
  rewrite Nat.div_add by lia.
  replace ((length q / n + length p / n) * n)%nat with (length p + length q / n * n)%nat by lia.
  by rewrite drop_app_add.
Qed.
End blocks.

(** ** Hashes that mix a state with one block after the other *)

Class BlockMixer {S} (n : nat) (valid : S -> Prop) (body : S -> list Z -> S) : Prop := {
  mixer_pos : (0 < n)%nat;
  mixer_valid s b : valid s -> valid (body s b);
  mixer_state s1 s2 b : valid s1 -> valid s2 -> body s1 b = body s2 b -> s1 = s2;
  mixer_block s b1 b2 : valid s -> length b1 = n -> length b2 = n ->
    Forall is_byte b1 -> Forall is_byte b2 -> body s b1 = body s b2 -> b1 = b2 }.

Section mixer.
Context {S : Type} (n : nat) (valid : S -> Prop) (body : S -> list Z -> S) `{!BlockMixer n valid body}.

Lemma mixer_fold_valid bs s : valid s -> valid (foldl body s bs).
Proof using BlockMixer0.
  revert s. induction bs as [|b bs IH]; intros s Hs; cbn [foldl]; [done|]. by apply IH, mixer_valid.
Qed.

Lemma mixer_fold_inj bs : forall s1 s2,
  valid s1 -> valid s2 -> foldl body s1 bs = foldl body s2 bs -> s1 = s2.
Proof using BlockMixer0.
  induction bs as [|b bs IH]; intros s1 s2 H1 H2 E; cbn [foldl] in E; [done|].
  apply IH in E; [|by apply mixer_valid..]. by apply mixer_state in E.
Qed.

(** Keys that differ in one block lead to different states, and leave the same rest. *)
Lemma one_block_differs p b1 b2 s h :
  (length p mod n = 0)%nat -> length b1 = n -> length b2 = n ->
  Forall is_byte b1 -> Forall is_byte b2 -> valid h -> b1 <> b2 ->
  foldl body h (blocks n (p ++ b1 ++ s)) <> foldl body h (blocks n (p ++ b2 ++ s)) /\
  rest n (p ++ b1 ++ s) = rest n (p ++ b2 ++ s).
Proof using BlockMixer0.
  intros Hp H1 H2 Hb1 Hb2 Hh Hne. pose proof mixer_pos as Hn.
  assert (forall b : list Z, length b = n -> (length b mod n = 0)%nat) as Hmod
    by (intros b ->; apply Nat.Div0.mod_same).
  split; [|by rewrite !(rest_app n Hn) by auto].
  rewrite !(blocks_app n Hn), (blocks_one n Hn b1), (blocks_one n Hn b2), !foldl_app by auto. cbn [foldl]. intros E.
  apply mixer_fold_inj in E; [|by apply mixer_valid, mixer_fold_valid..].
  apply mixer_block in E; [done| |done..]. by apply mixer_fold_valid.
Qed.
End mixer.
