(* ===== verification/Structs.v ===== *)
(** * Configuration and shared data ([p4/config.p4], [config.h], [datastructures/structs.h])

    The compile-time constants, the five tuples that travel through the ring
    buffers, and their bytes in memory, which the hash functions and [memcmp]
    see. The enumerations are kept as integers, since the code hashes, compares
    and zero-initialises them as such. *)

From S2P Require Import Prelude.
From stdpp Require strings.

(** ** Constants *)

Definition MAX_FLOWS : Z := 131072.
Definition NUM_BLOOMFILTERS : Z := 4.
Definition BLOOMFILTER_WIDTH : Z := 1048576.
Definition NUM_PIPES : Z := 4.
Definition MURMUR_SEED : Z := 0xDEADBEEF.
Definition FLOW_HASHTABLE_MULTIPLIER : Z := 16.
Definition DNS_HASHTABLE_SIZE : Z := Z.shiftl 1 16.
Definition FLOW_TIMEOUT : Z := 30.
Definition MAX_DEV_PORT_ID : Z := 512.
Definition DATAPLANE_RINGBUFFER_SIZE : Z := Z.shiftl 1 12.
Definition PACKET_RINGBUFFER_SIZE : Z := Z.shiftl 1 16.
Definition DNS_RINGBUFFER_SIZE : Z := Z.shiftl 1 12.
Definition FEATURE_SIZE : Z := MAX_FLOWS * NUM_PIPES.
Definition MIN_SESSION_ID : Z := 4.

(** The characters of a literal. *)
Definition chars (s : String.string) : list Z :=
  (fun c => Z.of_N (Ascii.N_of_ascii c)) <$> String.list_ascii_of_string s.

(** ** Protocols and addresses *)

Definition L3_IPV4 : Z := 2.
Definition L3_IPV6 : Z := 10.
Definition L4_TCP : Z := 1.
Definition L4_UDP : Z := 0.

(** [union address_t]: its 16 bytes as one little-endian integer. The member
    [ipv4] is the first four bytes, [ipv6] all of them. *)
Definition address_t : Type := Z.
Definition addr_ipv4 (a : address_t) : Z := u32 a.
Definition addr_set_ipv4 (a : address_t) (v : Z) : address_t := a - u32 a + u32 v.
Definition addr_ipv6 (a : address_t) : list Z := le_bytes 16 a.

Record five_tuple_for_hash_t : Type := FiveTupleForHash {
  src_addr : address_t;
  dst_addr : address_t;
  src_port : Z;
  dst_port : Z;
  l3_proto : Z;
  l4_proto : Z }.

Record five_tuple_for_session_hash_t : Type := FiveTupleForSessionHash {
  client_addr : address_t;
  to_server : bool }.

Record five_tuple_t : Type := FiveTuple {
  ft_h : five_tuple_for_hash_t;
  ft_sh : five_tuple_for_session_hash_t;
  ingress_ts : Z;
  dev_port : Z;
  session_id_egress_offset : Z }.

#[global] Instance five_tuple_for_hash_eq_dec : EqDecision five_tuple_for_hash_t.
Proof. solve_decision. Defined.
#[global] Instance five_tuple_for_session_hash_eq_dec : EqDecision five_tuple_for_session_hash_t.
Proof. solve_decision. Defined.
#[global] Instance five_tuple_eq_dec : EqDecision five_tuple_t.
Proof. solve_decision. Defined.

(** All-zero structures, the state of static memory. *)
Definition zero_h : five_tuple_for_hash_t := FiveTupleForHash 0 0 0 0 0 0.
Definition zero_sh : five_tuple_for_session_hash_t := FiveTupleForSessionHash 0 false.
Definition zero_five_tuple : five_tuple_t := FiveTuple zero_h zero_sh 0 0 0.

(** ** Bytes in memory

    [five_tuple_for_hash_t] has no padding: 16 + 16 + 2 + 2 + 4 + 4 = 44 bytes.
    [five_tuple_for_session_hash_t] has three bytes of padding after the flag,
    which the packet handler clears. *)
Definition h_bytes (h : five_tuple_for_hash_t) : list Z :=
  le_bytes 16 (src_addr h) ++ le_bytes 16 (dst_addr h) ++
  le_bytes 2 (src_port h) ++ le_bytes 2 (dst_port h) ++
  le_bytes 4 (l3_proto h) ++ le_bytes 4 (l4_proto h).

Definition sh_bytes (sh : five_tuple_for_session_hash_t) : list Z :=
  le_bytes 16 (client_addr sh) ++ le_bytes 1 (Z.b2z (to_server sh)) ++ le_bytes 3 0.

(** The field ranges of a tuple in memory. *)
Record h_wf (h : five_tuple_for_hash_t) : Prop := {
  h_wf_src : 0 <= src_addr h < 2 ^ 128;
  h_wf_dst : 0 <= dst_addr h < 2 ^ 128;
  h_wf_sport : 0 <= src_port h < 2 ^ 16;
  h_wf_dport : 0 <= dst_port h < 2 ^ 16;
  h_wf_l3 : 0 <= l3_proto h < 2 ^ 32;
  h_wf_l4 : 0 <= l4_proto h < 2 ^ 32 }.

Lemma length_h_bytes h : length (h_bytes h) = 44%nat.
Proof. unfold h_bytes. by rewrite !length_app, !length_le_bytes. Qed.

Lemma app_inj_len {A} (a1 a2 b1 b2 : list A) :
  length a1 = length a2 -> a1 ++ b1 = a2 ++ b2 -> a1 = a2 /\ b1 = b2.
Proof. intros Hl E. by apply app_inj_1 in E. Qed.

(** [memcmp] of two tuples in memory decides their equality. *)
Lemma h_bytes_inj h1 h2 : h_wf h1 -> h_wf h2 -> h_bytes h1 = h_bytes h2 -> h1 = h2.
Proof.
  intros [] [] E. unfold h_bytes in E.
  do 5 (apply app_inj_len in E as [?%le_bytes_inj E]; [|lia|lia|by rewrite !length_le_bytes]).
  apply le_bytes_inj in E; [|lia|lia]. destruct h1, h2; simpl in *; congruence.
Qed.

(** ** Ports, pipes and identifiers *)

(** [dev_port_to_pipe] outside the model build. *)
Definition dev_port_to_pipe (dev_port : Z) : Z := Z.shiftr dev_port 7.
Definition flow_id_to_pipe (flow_id : Z) : Z := Z.rem flow_id 4.
Definition flow_id_to_register_index (flow_id : Z) : Z := Z.quot flow_id 4.

Definition SWAP_ENDIAN_16 (x : Z) : Z :=
  Z.lor (Z.shiftl (Z.land x 0xFF) 8) (Z.shiftr (Z.land x 0xFF00) 8).
Definition SWAP_ENDIAN_32 (x : Z) : Z :=
  Z.lor (Z.lor (Z.shiftl (Z.land x 0xFF) 24) (Z.shiftl (Z.land x 0xFF00) 8))
        (Z.lor (Z.shiftr (Z.land x 0xFF0000) 8) (Z.shiftr (Z.land x 0xFF000000) 24)).

(** ** Commands *)

(** [dataplane_command_t]: the tag of the command and the member of the union it
    uses. *)
Record match_table_cmd : Type := MatchTableCmd {
  mt_five_tuple : five_tuple_t;
  mt_flow_id : Z;
  mt_session_id : Z }.
Record bloom_filter_cmd : Type := BloomFilterCmd {
  bloom_filter_indices : list Z;
  pipe_id : Z }.

Inductive dataplane_command_t : Type :=
  | DP_ADD_FLOW (c : match_table_cmd)
  | DP_REMOVE_FLOW (c : match_table_cmd)
  | DP_CLEAR_REGISTERS (c : match_table_cmd)
  | DP_ADD_BLOOM_FILTER (c : bloom_filter_cmd)
  | DP_REMOVE_BLOOM_FILTER (c : bloom_filter_cmd).

(** [packet_item_t]. *)
Inductive packet_item_t : Type :=
  | PKT_ADD_FLOW (ft : five_tuple_t)
  | PKT_REMOVE_FLOW (ft : five_tuple_t)
  | PKT_ADD_BLOOM_FILTER_IRRELEVANT (ft : five_tuple_t)
  | PKT_FIX_BLOOM_FILTER_RELEVANT (ft : five_tuple_t)
  | PKT_REMOVE_BLOOM_FILTER (ft : five_tuple_t)
  | PKT_TIMEOUT_FLOW (flow_id : Z).

#[global] Instance match_table_cmd_eq_dec : EqDecision match_table_cmd.
Proof. solve_decision. Defined.
#[global] Instance bloom_filter_cmd_eq_dec : EqDecision bloom_filter_cmd.
Proof. solve_decision. Defined.
#[global] Instance dataplane_command_eq_dec : EqDecision dataplane_command_t.
Proof. solve_decision. Defined.
#[global] Instance packet_item_eq_dec : EqDecision packet_item_t.
Proof. solve_decision. Defined.

Lemma FEATURE_SIZE_val : FEATURE_SIZE = 524288.
Proof. done. Qed.

(** ** Arithmetic of ids: four ids per register index, one for each pipe *)

Lemma flow_id_decompose id :
  0 <= id -> id = 4 * flow_id_to_register_index id + flow_id_to_pipe id /\
  0 <= flow_id_to_pipe id < NUM_PIPES.
Proof.
  intros. unfold flow_id_to_register_index, flow_id_to_pipe, NUM_PIPES.
  rewrite Z.quot_div_nonneg, Z.rem_mod_nonneg by lia.
  pose proof (Z.div_mod id 4). pose proof (Z.mod_pos_bound id 4). lia.
Qed.

Lemma dev_port_to_pipe_bound p : 0 <= p < MAX_DEV_PORT_ID -> 0 <= dev_port_to_pipe p < NUM_PIPES.
Proof.
  unfold MAX_DEV_PORT_ID, dev_port_to_pipe, NUM_PIPES. intros.
  rewrite Z.shiftr_div_pow2 by lia. change (2 ^ 7) with 128.
  pose proof (Z.div_mod p 128). pose proof (Z.mod_pos_bound p 128). lia.
Qed.

(** Swapping what the machine reads of two bytes of the network gives their value. *)
Lemma SWAP_ENDIAN_16_bytes a b :
  is_byte a -> is_byte b -> SWAP_ENDIAN_16 (a + 256 * b) = a * 256 + b.
Proof.
  unfold is_byte, SWAP_ENDIAN_16. intros Ha Hb.
  assert (Z.land (a + 256 * b) 0xFF = a) as ->.
  { change 0xFF with (Z.ones 8). rewrite Z.land_ones by lia. change (2 ^ 8) with 256.
    rewrite (Z.mul_comm 256), Z.mod_add, Z.mod_small by lia. done. }
  assert (Z.shiftr (Z.land (a + 256 * b) 0xFF00) 8 = b) as ->.
  { rewrite Z.shiftr_land. change (Z.shiftr 0xFF00 8) with (Z.ones 8). rewrite Z.land_ones by lia.
    rewrite Z.shiftr_div_pow2 by lia. change (2 ^ 8) with 256.
    rewrite (Z.mul_comm 256), Z.div_add, Z.div_small, Z.mod_small by lia. lia. }
  rewrite lor_shiftl_add by lia. done.
Qed.

Lemma SWAP_ENDIAN_16_be x :
  0 <= x < 2 ^ 16 -> SWAP_ENDIAN_16 (le_value (be_bytes 2 x)) = x.
Proof.
  intros Hx. change (be_bytes 2 x) with [x / 2 ^ 8 mod 2 ^ 8; x mod 2 ^ 8].
  unfold le_value. change (2 ^ 8) with 256.
  pose proof (Z.div_mod x 256). pose proof (Z.mod_pos_bound x 256). 
  rewrite (Z.mod_small (x / 256)) by (split; [apply Z.div_pos; lia|apply Z.div_lt_upper_bound; lia]).
  replace (x / 256 + 256 * (x mod 256 + 256 * 0)) with (x / 256 + 256 * (x mod 256)) by lia.
  rewrite SWAP_ENDIAN_16_bytes; [lia| |unfold is_byte; lia].
  split; [apply Z.div_pos; lia|apply Z.div_lt_upper_bound; lia].
Qed.

(** The bytes of a 32-bit value are reversed, bit by bit. *)
Ltac eval_bits :=
  repeat match goal with
  | |- context [Z.testbit (Zpos ?c) ?m] =>
      let v := eval vm_compute in (Z.testbit (Zpos c) m) in change (Z.testbit (Zpos c) m) with v
  end.

Lemma SWAP_ENDIAN_32_testbit x n :
  0 <= n < 32 -> Z.testbit (SWAP_ENDIAN_32 x) n = Z.testbit x (8 * (3 - n / 8) + n mod 8).
Proof.
  intros Hn. unfold SWAP_ENDIAN_32.
  rewrite !Z.lor_spec, !Z.shiftl_spec, !Z.shiftr_spec, !Z.land_spec by lia.
  assert (exists k, (k < 32)%nat /\ n = Z.of_nat k) as (k & Hk & ->) by (exists (Z.to_nat n); lia).
  do 32 (destruct k as [|k];
    [eval_bits; rewrite ?andb_true_r, ?andb_false_r, ?orb_false_r, ?orb_false_l; reflexivity|]).
  exfalso. lia.
Qed.

Lemma SWAP_ENDIAN_32_inj x y :
  0 <= x < 2 ^ 32 -> 0 <= y < 2 ^ 32 -> SWAP_ENDIAN_32 x = SWAP_ENDIAN_32 y -> x = y.
Proof.
  intros Hx Hy E. apply Z.bits_inj'. intros n Hn. destruct (Z.lt_ge_cases n 32) as [Hlt|Hge].
  - assert (8 * (3 - n / 8) + n mod 8 = 8 * (3 - n / 8) + n mod 8 /\ n / 8 <= 3 /\ 0 <= n / 8) as (_ & H3 & H0)
      by (split; [done|]; split; [|by apply Z.div_pos]; apply Z.lt_succ_r, Z.div_lt_upper_bound; lia).
    pose proof (Z.mod_pos_bound n 8 ltac:(lia)) as Hm. pose proof (Z.div_mod n 8 ltac:(lia)) as Hd.
    set (k := 8 * (3 - n / 8) + n mod 8).
    assert (k / 8 = 3 - n / 8 /\ k mod 8 = n mod 8) as [Ek Em].
    { unfold k. rewrite Z.mul_comm, Z.add_comm, Z.div_add, Z.mod_add, Z.mod_mod by lia.
      rewrite (Z.div_small (n mod 8)) by lia. lia. }
    assert (8 * (3 - k / 8) + k mod 8 = n) as En by lia.
    rewrite <- En. rewrite <- !SWAP_ENDIAN_32_testbit by (unfold k; lia). by rewrite E.
  - assert (forall z, 0 <= z < 2 ^ 32 -> Z.testbit z n = false) as Hz; [|by rewrite !Hz].
    intros z Hz. destruct (decide (z = 0)) as [->|]; [apply Z.bits_0|].
    apply Z.bits_above_log2; [lia|]. apply Z.log2_lt_pow2; [lia|].
    eapply Z.lt_le_trans; [apply Hz|]. by apply Z.pow_le_mono_r.
Qed.

(** An IPv4 address leaves the rest of its union zero, as in every parsed tuple. *)
Definition addr_ok (ft : five_tuple_t) : Prop :=
  l3_proto (ft_h ft) = L3_IPV4 -> 0 <= src_addr (ft_h ft) < 2 ^ 32 /\ 0 <= dst_addr (ft_h ft) < 2 ^ 32.

(** A tuple that arrives on the given port, for examples. *)
Definition sample_tuple (port : Z) : five_tuple_t :=
  FiveTuple (FiveTupleForHash 0x0A000001 0x0A000002 1234 443 L3_IPV4 L4_TCP) zero_sh 7 port 0.
