(* ===== verification/RuntimeConfig.v ===== *)
(** * Runtime configuration ([runtime_config/runtime_config.c])

    Whether the session table groups flows by client is decided once, by a file in the
    working directory. [access] is the result of the system call on a name with [F_OK]. *)

From S2P Require Import Prelude.
From stdpp Require Import strings.
#[local] Open Scope Z_scope.

Section config.
Context (access : string -> Z).

Definition file_exists (file_name : string) : bool := access file_name =? 0.
Definition is_enabled (option_name : string) : bool := file_exists option_name.

(** [use_sessions_cached] after [load_runtime_config]; before the call it is true. *)
Definition use_sessions_default : bool := true.
Definition load_runtime_config : bool := negb (is_enabled "controller_disable_sessions").

Lemma sessions_disabled_iff : load_runtime_config = false <-> access "controller_disable_sessions" = 0.
Proof.
  unfold load_runtime_config, is_enabled, file_exists. rewrite negb_false_iff. apply Z.eqb_eq.
Qed.
End config.
