(* ===== verification/Statistics.v ===== *)
(** * Statistics ([logging/statistics.c], [logging/statistics.h])

    The counters that the other threads increment, and the thread that once per second
    prints each counter and its increase since the last time. The other threads do not
    wait: [READ_STAT] reads the counter three times, and an event may be counted before
    any of them. A printed line is the name with the two numbers as [%d] shows them. The
    libpcap counters ([PCAP_STATISTICS]) are off by default and left out. *)

From S2P Require Import Prelude.
From stdpp Require Import strings.
#[local] Open Scope Z_scope.

(** ** Counters *)

Inductive stat : Type :=
  | stat_packet_ringbuffer | stat_dns_ringbuffer | stat_dp_ringbuffer
  | stat_packet_handler | stat_dnsdb | stat_flowdb | stat_dataplane_commands
  | stat_dataplane_add | stat_dataplane_remove | stat_dataplane_reset
  | stat_dataplane_bloom_add | stat_dataplane_bloom_remove.

#[export] Instance stat_eq_dec : EqDecision stat.
Proof. solve_decision. Defined.

(** [_stat_name] and [_last_name]. *)
Definition counters : Type := stat -> Z.
Definition set_counter (s : stat) (v : Z) (c : counters) : counters := fun x => if decide (x = s) then v else c x.

Definition INC_STAT (s : stat) (c : counters) : counters := set_counter s (u32 (c s + 1)) c.
Definition static_counters : counters := fun _ => 0.

Record stat_line : Type := StatLine { sl_text : string; sl_total : Z; sl_rate : Z }.

(** The order in which the thread prints. *)
Definition printed_stats : list (stat * string) := [
  (stat_dns_ringbuffer, "DNS ringbuffer drop stats"); (stat_packet_ringbuffer, "packet ringbuffer drop stats");
  (stat_dp_ringbuffer, "data plane ringbuffer drop stats"); (stat_packet_handler, "packet handler stats");
  (stat_dnsdb, "DNSdb stats"); (stat_flowdb, "Flowdb stats"); (stat_dataplane_commands, "data plane stats");
  (stat_dataplane_add, "DP add"); (stat_dataplane_remove, "DP remove"); (stat_dataplane_reset, "DP reset");
  (stat_dataplane_bloom_add, "DP bloom set"); (stat_dataplane_bloom_remove, "DP bloom clear")]%string.

(** ** The thread *)

(** The accesses of [READ_STAT(name, string)] to [_stat_name]: for the printed total, for
    the printed rate, and, after [INFO_LOG], for [_last_name]. *)
Inductive stat_access : Type :=
  | ReadTotal (s : stat)
  | ReadRate (s : stat)
  | ReadLast (s : stat) (text : string).

(** What happens: another thread counts an event, or the statistics thread makes its next
    access. *)
Inductive stat_event : Type := StatInc (s : stat) | StatAccess.

#[export] Instance stat_event_eq_dec : EqDecision stat_event.
Proof. solve_decision. Defined.

(** [_stat_name], [_last_name], the position of the thread in its round, the arguments of
    the present [INFO_LOG], and the printed lines. *)
Record stats_t : Type := Stats {
  st_counters : counters;
  st_last : counters;
  st_pc : nat;
  st_total : Z;
  st_rate : Z;
  st_lines : list stat_line }.

Section thread.
(** In which order the compiler evaluates the arguments of [INFO_LOG]. *)
Context (rate_first : bool).
Implicit Types (x : stats_t) (es : list stat_event).

Definition READ_STAT (p : stat * string) : list stat_access :=
  (if rate_first then [ReadRate (fst p); ReadTotal (fst p)] else [ReadTotal (fst p); ReadRate (fst p)]) ++
  [ReadLast (fst p) (snd p)].

(** The body of the loop of [statistics_thread]. *)
Definition statistics_round : list stat_access := concat (READ_STAT <$> printed_stats).

Definition do_access (a : stat_access) x : stats_t :=
  let pc := if (S (st_pc x) =? length statistics_round)%nat then O else S (st_pc x) in
  match a with
  | ReadTotal s => Stats (st_counters x) (st_last x) pc (st_counters x s) (st_rate x) (st_lines x)
  | ReadRate s => Stats (st_counters x) (st_last x) pc (st_total x) (u32 (st_counters x s - st_last x s)) (st_lines x)
  | ReadLast s text =>
      Stats (st_counters x) (set_counter s (st_counters x s) (st_last x)) pc (st_total x) (st_rate x)
        (st_lines x ++ [StatLine text (i32 (st_total x)) (i32 (st_rate x))])
  end.

Definition statistics_step x (e : stat_event) : stats_t :=
  match e with
  | StatInc s => Stats (INC_STAT s (st_counters x)) (st_last x) (st_pc x) (st_total x) (st_rate x) (st_lines x)
  | StatAccess => match statistics_round !! st_pc x with Some a => do_access a x | None => x end
  end.

(** [PREP_READ_STAT] and the rounds, interleaved with the other threads. *)
Definition statistics_thread es : stats_t :=
  foldl statistics_step (Stats static_counters static_counters 0 0 0 []) es.

(** ** Specification *)

(** How often [s] was counted, how many accesses there were, and the history before the
    access of the number [k]. *)
Definition counted (s : stat) es : Z := Z.of_nat (length (filter (fun e => e = StatInc s) es)).
Definition accesses es : nat := length (filter (fun e => e = StatAccess) es).
Fixpoint before (k : nat) es : list stat_event :=
  match es with
  | [] => []
  | StatInc s :: es => StatInc s :: before k es
  | StatAccess :: es => match k with O => [] | S k => StatAccess :: before k es end
  end.

(** The three accesses of the round [n] to the counter at place [i]. *)
Definition total_offset : nat := if rate_first then 1 else 0.
Definition rate_offset : nat := if rate_first then 0 else 1.
Definition total_access (n i : nat) : nat := (36 * n + 3 * i + total_offset)%nat.
Definition rate_access (n i : nat) : nat := (36 * n + 3 * i + rate_offset)%nat.
Definition last_access (n i : nat) : nat := (36 * n + 3 * i + 2)%nat.

(** The events between the store of the round before and the rate of the round [n]; and
    those between the rate of the round and its store. *)
Definition stored_count es (s : stat) (n i : nat) : Z :=
  match n with O => 0 | S m => counted s (before (last_access m i) es) end.
Definition rated es (s : stat) (n i : nat) : Z := counted s (before (rate_access n i) es) - stored_count es s n i.
Definition unrated es (s : stat) (n i : nat) : Z :=
  counted s (before (last_access n i) es) - counted s (before (rate_access n i) es).

Definition sum (f : nat -> Z) (n : nat) : Z := foldr Z.add 0 (f <$> seq 0 n).
Definition printed_rate (lines : list stat_line) (i n : nat) : Z :=
  match lines !! (12 * n + i)%nat with Some l => sl_rate l | None => 0 end.

(** ** Proofs *)

Lemma round_access i s t :
  printed_stats !! i = Some (s, t) ->
  statistics_round !! (3 * i + total_offset)%nat = Some (ReadTotal s) /\
  statistics_round !! (3 * i + rate_offset)%nat = Some (ReadRate s) /\
  statistics_round !! (3 * i + 2)%nat = Some (ReadLast s t).
Proof using.
  intros E. unfold statistics_round, READ_STAT, total_offset, rate_offset. do 12 (destruct i as [|i]; [by (simpl in E; simplify_eq; destruct rate_first)|]). discriminate.
Qed.

Lemma offsets : (total_offset + rate_offset = 1)%nat.
Proof using. unfold total_offset, rate_offset. by destruct rate_first. Qed.

Lemma round_length : length statistics_round = 36%nat.
Proof using. unfold statistics_round, READ_STAT. by destruct rate_first. Qed.

Lemma printed_lt i p : printed_stats !! i = Some p -> (i < 12)%nat.
Proof using. exact (lookup_lt_Some printed_stats i p). Qed.

Lemma printed_distinct i j s t t' :
  printed_stats !! i = Some (s, t) -> printed_stats !! j = Some (s, t') -> i = j.
Proof using.
  intros Hi Hj. assert (NoDup (printed_stats.*1)) as Hn by (apply (bool_decide_eq_true_1 (NoDup printed_stats.*1)); vm_compute; reflexivity).
  apply (proj1 (NoDup_alt _) Hn i j s); by rewrite list_lookup_fmap, ?Hi, ?Hj.
Qed.

Lemma accesses_inc es s : accesses (es ++ [StatInc s]) = accesses es.
Proof using. unfold accesses. rewrite filter_app, length_app, filter_cons_False by done. apply Nat.add_0_r. Qed.

Lemma accesses_access es : accesses (es ++ [StatAccess]) = S (accesses es).
Proof using. unfold accesses. rewrite filter_app, length_app, filter_cons_True by done. cbn. lia. Qed.

Lemma counted_inc s s0 es : counted s (es ++ [StatInc s0]) = counted s es + if decide (s = s0) then 1 else 0.
Proof using.
  unfold counted. rewrite filter_app, length_app, filter_cons. repeat case_decide; simplify_eq; cbn; lia.
Qed.

Lemma counted_access s es : counted s (es ++ [StatAccess]) = counted s es.
Proof using. unfold counted. rewrite filter_app, length_app, filter_cons_False by done. cbn. lia. Qed.

Lemma before_all es : before (accesses es) es = es.
Proof using. unfold accesses. induction es as [|[s|] es IH]; cbn [before]; [done|f_equal; exact IH|f_equal; exact IH]. Qed.

Lemma before_app k es es' : (k < accesses es)%nat -> before k (es ++ es') = before k es.
Proof using.
  revert k. induction es as [|[s|] es IH]; intros k Hk; [by apply Nat.nlt_0_r in Hk| |]; cbn [app before].
  - f_equal. by apply IH.
  - destruct k as [|k]; [done|]. f_equal. apply IH. revert Hk. unfold accesses. rewrite filter_cons_True by done. cbn. lia.
Qed.

Lemma before_now es : before (accesses es) (es ++ [StatAccess]) = es.
Proof using.
  induction es as [|[s|] es IH]; [done| |]; cbn [app before]; unfold accesses in *;
    [rewrite filter_cons_False by done; f_equal; exact IH|rewrite filter_cons_True by done; cbn; f_equal; exact IH].
Qed.

(** The state after the history [es]. *)
Record stats_rep es x : Prop := StatsRep {
  so_counters s : st_counters x s = u32 (counted s es);
  so_pc : exists n, accesses es = (36 * n + st_pc x)%nat /\ (st_pc x < 36)%nat;
  so_last i s t n : printed_stats !! i = Some (s, t) ->
    (accesses es <= last_access n i)%nat -> (last_access n i < accesses es + 36)%nat ->
    st_last x s = u32 (stored_count es s n i);
  so_total i s t n : printed_stats !! i = Some (s, t) ->
    (total_access n i < accesses es)%nat -> (accesses es <= last_access n i)%nat ->
    st_total x = u32 (counted s (before (total_access n i) es));
  so_rate i s t n : printed_stats !! i = Some (s, t) ->
    (rate_access n i < accesses es)%nat -> (accesses es <= last_access n i)%nat ->
    st_rate x = u32 (rated es s n i);
  so_length : (3 * length (st_lines x) <= accesses es)%nat /\ (accesses es < 3 * length (st_lines x) + 3)%nat;
  so_lines i s t n : printed_stats !! i = Some (s, t) -> (last_access n i < accesses es)%nat ->
    st_lines x !! (12 * n + i)%nat =
      Some (StatLine t (i32 (u32 (counted s (before (total_access n i) es)))) (i32 (u32 (rated es s n i)))) }.

(** What was accessed before does not change. *)
Lemma stored_app es es' s n i :
  (last_access n i < accesses es + 36)%nat -> stored_count (es ++ es') s n i = stored_count es s n i.
Proof using.
  intros Hk. destruct n as [|m]; [done|]. cbn [stored_count]. rewrite before_app; [done|].
  unfold last_access in *. lia.
Qed.

Lemma rated_app es es' s n i :
  (rate_access n i < accesses es)%nat -> (i < 12)%nat -> rated (es ++ es') s n i = rated es s n i.
Proof using.
  intros Hk Hi. unfold rated. rewrite before_app by done. rewrite stored_app; [done|].
  pose proof offsets. unfold rate_access, last_access in *. lia.
Qed.

(** An event of another thread. *)
Lemma inc_rep es x s0 : stats_rep es x -> stats_rep (es ++ [StatInc s0]) (statistics_step x (StatInc s0)).
Proof using.
  intros [Hc Hpc Hl Ht Hr Hn Hout].
  split; rewrite ?accesses_inc; cbn [statistics_step st_counters st_last st_pc st_total st_rate st_lines]; try done.
  - intros s. rewrite counted_inc. unfold INC_STAT, set_counter. rewrite !Hc. unfold u32.
    case_decide; [subst s; by rewrite Zplus_mod_idemp_l|by rewrite Z.add_0_r].
  - intros i s t n E H1 H2. rewrite stored_app by done. exact (Hl i s t n E H1 H2).
  - intros i s t n E H1 H2. rewrite before_app by done. exact (Ht i s t n E H1 H2).
  - intros i s t n E H1 H2. rewrite rated_app by (done || exact (printed_lt _ _ E)). exact (Hr i s t n E H1 H2).
  - intros i s t n E H1. pose proof (printed_lt _ _ E). pose proof offsets.
    rewrite before_app by (unfold total_access, last_access in *; lia).
    rewrite rated_app by (done || unfold rate_access, last_access in *; lia). exact (Hout i s t n E H1).
Qed.

(** The three accesses. *)
Ltac places := pose proof offsets; unfold total_access, rate_access, last_access in *; lia.

(** The position moves on. *)
Lemma pc_moves k x :
  (exists n, k = (36 * n + st_pc x)%nat /\ (st_pc x < 36)%nat) ->
  exists n, S k = (36 * n + if (S (st_pc x) =? length statistics_round)%nat then O else S (st_pc x))%nat /\
    ((if (S (st_pc x) =? length statistics_round)%nat then O else S (st_pc x)) < 36)%nat.
Proof using.
  intros (n & -> & Hpc). rewrite round_length. destruct (Nat.eqb_spec (S (st_pc x)) 36); [exists (S n)|exists n]; lia.
Qed.

Lemma total_rep es x s0 t0 n0 i0 :
  stats_rep es x -> printed_stats !! i0 = Some (s0, t0) -> accesses es = total_access n0 i0 ->
  stats_rep (es ++ [StatAccess]) (do_access (ReadTotal s0) x).
Proof using.
  intros [Hc Hpc Hl Ht Hr Hn Hout] E0 Ek. pose proof (printed_lt _ _ E0) as Hi0.
  split; rewrite ?accesses_access; cbn [do_access st_counters st_last st_pc st_total st_rate st_lines].
  - intros s. by rewrite counted_access.
  - by apply pc_moves.
  - intros i s t n E H1 H2. pose proof (printed_lt _ _ E). rewrite stored_app by places. apply (Hl i s t n E); places.
  - intros i s t n E H1 H2. pose proof (printed_lt _ _ E). assert (n = n0 /\ i = i0) as [-> ->] by places.
    rewrite E0 in E. injection E as <- <-. by rewrite <- Ek, before_now.
  - intros i s t n E H1 H2. pose proof (printed_lt _ _ E). rewrite rated_app by places. apply (Hr i s t n E); places.
  - destruct Hn. places.
  - intros i s t n E H1. pose proof (printed_lt _ _ E). rewrite before_app, rated_app by places. apply (Hout i s t n E); places.
Qed.

Lemma rate_rep es x s0 t0 n0 i0 :
  stats_rep es x -> printed_stats !! i0 = Some (s0, t0) -> accesses es = rate_access n0 i0 ->
  stats_rep (es ++ [StatAccess]) (do_access (ReadRate s0) x).
Proof using.
  intros [Hc Hpc Hl Ht Hr Hn Hout] E0 Ek. pose proof (printed_lt _ _ E0) as Hi0.
  split; rewrite ?accesses_access; cbn [do_access st_counters st_last st_pc st_total st_rate st_lines].
  - intros s. by rewrite counted_access.
  - by apply pc_moves.
  - intros i s t n E H1 H2. pose proof (printed_lt _ _ E). rewrite stored_app by places. apply (Hl i s t n E); places.
  - intros i s t n E H1 H2. pose proof (printed_lt _ _ E). rewrite before_app by places. apply (Ht i s t n E); places.
  - intros i s t n E H1 H2. pose proof (printed_lt _ _ E). assert (n = n0 /\ i = i0) as [-> ->] by places.
    rewrite E0 in E. injection E as <- <-. unfold rated. rewrite <- Ek, before_now, stored_app by places.
    rewrite Hc, (Hl i0 s0 t0 n0 E0) by places. unfold u32. by rewrite <- Zminus_mod.
  - destruct Hn. places.
  - intros i s t n E H1. pose proof (printed_lt _ _ E). rewrite before_app, rated_app by places. apply (Hout i s t n E); places.
Qed.

Lemma last_rep es x s0 t0 n0 i0 :
  stats_rep es x -> printed_stats !! i0 = Some (s0, t0) -> accesses es = last_access n0 i0 ->
  stats_rep (es ++ [StatAccess]) (do_access (ReadLast s0 t0) x).
Proof using.
  intros [Hc Hpc Hl Ht Hr [Hn1 Hn2] Hout] E0 Ek. pose proof (printed_lt _ _ E0) as Hi0.
  assert (length (st_lines x) = 12 * n0 + i0)%nat as Elen by places.
  split; rewrite ?accesses_access; cbn [do_access st_counters st_last st_pc st_total st_rate st_lines].
  - intros s. by rewrite counted_access.
  - by apply pc_moves.
  - intros i s t n E H1 H2. pose proof (printed_lt _ _ E). unfold set_counter. case_decide as Hs.
    + subst s. pose proof (printed_distinct _ _ _ _ _ E E0) as ->. assert (n = S n0) as -> by places.
      cbn [stored_count]. by rewrite <- Ek, before_now.
    + assert (i <> i0) by (intros ->; rewrite E0 in E; congruence).
      rewrite stored_app by places. apply (Hl i s t n E); places.
  - intros i s t n E H1 H2. pose proof (printed_lt _ _ E). exfalso. places.
  - intros i s t n E H1 H2. pose proof (printed_lt _ _ E). exfalso. places.
  - rewrite length_app. cbn [length]. places.
  - intros i s t n E H1. pose proof (printed_lt _ _ E). rewrite before_app, rated_app by places.
    destruct (decide (n = n0 /\ i = i0)) as [[-> ->]|Hne].
    + rewrite E0 in E. injection E as <- <-. rewrite lookup_app_r, Elen, Nat.sub_diag by lia. cbn [lookup list_lookup].
      rewrite (Ht i0 s0 t0 n0 E0), (Hr i0 s0 t0 n0 E0) by places. done.
    + rewrite lookup_app_l by places. apply (Hout i s t n E). places.
Qed.

Lemma access_rep es x : stats_rep es x -> stats_rep (es ++ [StatAccess]) (statistics_step x StatAccess).
Proof using.
  intros Hx. destruct (so_pc _ _ Hx) as (n0 & Hk & Hpc).
  assert (exists i0 o, st_pc x = (3 * i0 + o)%nat /\ (i0 < 12)%nat /\ (o < 3)%nat) as (i0 & o & Epc & Hi0 & Ho).
  { exists (st_pc x / 3)%nat, (st_pc x mod 3)%nat. pose proof (Nat.div_mod_eq (st_pc x) 3).
    pose proof (Nat.mod_upper_bound (st_pc x) 3). lia. }
  destruct (lookup_lt_is_Some_2 printed_stats i0 Hi0) as [[s0 t0] E0].
  destruct (round_access i0 s0 t0 E0) as (R1 & R2 & R3). cbn [statistics_step]. rewrite Epc. pose proof offsets.
  destruct (decide (o = total_offset)) as [->|H1]; [rewrite R1; apply (total_rep es x s0 t0 n0 i0 Hx E0); places|].
  destruct (decide (o = rate_offset)) as [->|H2]; [rewrite R2; apply (rate_rep es x s0 t0 n0 i0 Hx E0); places|].
  assert (o = 2)%nat as -> by lia. rewrite R3. apply (last_rep es x s0 t0 n0 i0 Hx E0). places.
Qed.

Lemma thread_rep es : stats_rep es (statistics_thread es).
Proof using.
  induction es as [|e es IH] using rev_ind.
  - split; cbn; try done; try lia.
    + exists 0%nat. cbn. lia.
    + intros i s t n E H1 H2. destruct n as [|n]; [done|]. places.
  - unfold statistics_thread in *. rewrite foldl_app. cbn [foldl]. destruct e as [s0|]; [by apply inc_rep|by apply access_rep].
Qed.

Lemma counted_mono s es : forall j k, (j <= k)%nat -> counted s (before j es) <= counted s (before k es).
Proof using.
  induction es as [|[s0|] es IH]; intros j k Hjk; cbn [before]; [lia| |].
  - pose proof (IH j k Hjk). unfold counted in *. rewrite !filter_cons. case_decide; cbn [length]; lia.
  - destruct j as [|j]; [unfold counted at 1; cbn; unfold counted; lia|]. destruct k as [|k]; [lia|].
    pose proof (IH j k ltac:(lia)). unfold counted in *. by rewrite !filter_cons_False by done.
Qed.

Lemma rated_nonneg es s n i : (i < 12)%nat -> 0 <= rated es s n i.
Proof using.
  intros Hi. unfold rated. destruct n as [|m]; cbn [stored_count]; [unfold counted; lia|].
  apply Z.le_0_sub, counted_mono. places.
Qed.

Lemma sum_S f n : sum f (S n) = sum f n + f n.
Proof using.
  unfold sum. rewrite seq_S, fmap_app, foldr_app. rewrite Nat.add_0_l. cbn.
  induction (f <$> seq 0 n) as [|m l IH]; cbn; lia.
Qed.

(** The rates and the events that are in none of them are all events. *)
Lemma rates_add_up es s i n :
  sum (fun m => rated es s m i) (S n) + sum (fun m => unrated es s m i) n = counted s (before (rate_access n i) es).
Proof using.
  induction n as [|n IH].
  - rewrite sum_S. change (0 + rated es s 0 i + 0 = counted s (before (rate_access 0 i) es)).
    unfold rated. cbn [stored_count]. lia.
  - rewrite (sum_S (fun m => rated es s m i) (S n)), (sum_S (fun m => unrated es s m i) n).
    assert (rated es s (S n) i + unrated es s n i =
      counted s (before (rate_access (S n) i) es) - counted s (before (rate_access n i) es)); [|lia].
    unfold rated, unrated. cbn [stored_count]. lia.
Qed.

Lemma small_rate d : 0 <= d < 2 ^ 31 -> i32 (u32 d) = d.
Proof using. intros Hd. unfold u32, i32. rewrite (Z.mod_small d) by lia. rewrite Z.mod_small by lia. lia. Qed.

(** ** Properties *)

(** Claim C32. Whatever the other threads count between the accesses of the statistics
    thread, the rate that a round prints is the number of events between the store of
    the round before, or the start, and its own read, also when the 32 bit counter has
    wrapped around, as long as these are fewer than [2^31]. The events between the read
    for the rate and the store that follows [INFO_LOG] are in the rate of no round: with
    them the rates of all rounds add up to the number of events. *)
Theorem statistics_rate_survives_wrap es i s t n :
  printed_stats !! i = Some (s, t) -> (last_access n i < accesses es)%nat ->
  (forall m, (m <= n)%nat -> rated es s m i < 2 ^ 31) ->
  let lines := st_lines (statistics_thread es) in
  lines !! (12 * n + i)%nat =
    Some (StatLine t (i32 (u32 (counted s (before (total_access n i) es)))) (rated es s n i)) /\
  sum (printed_rate lines i) (S n) + sum (fun m => unrated es s m i) n = counted s (before (rate_access n i) es).
Proof using.
  intros E Hn Hr lines. pose proof (printed_lt _ _ E) as Hi.
  assert (forall m, (m <= n)%nat -> lines !! (12 * m + i)%nat =
    Some (StatLine t (i32 (u32 (counted s (before (total_access m i) es)))) (rated es s m i))) as Hl.
  { intros m Hm. pose proof (so_lines _ _ (thread_rep es) i s t m E ltac:(places)) as El.
    rewrite (small_rate (rated es s m i)) in El; [exact El|]. split; [by apply rated_nonneg|by apply Hr]. }
  split; [by apply Hl|]. rewrite <- (rates_add_up es s i n). f_equal. unfold sum. f_equal.
  apply list_fmap_ext. intros j m Hj. apply lookup_seq in Hj as [-> Hj]. unfold printed_rate. rewrite Hl by lia. done.
Qed.
End thread.

(** One event before the first round; one between the rate and the store of the first
    round; two before the second. *)
Definition sample_history : list stat_event :=
  StatInc stat_flowdb :: repeat StatAccess 17 ++ StatInc stat_flowdb :: StatAccess ::
  StatInc stat_flowdb :: StatInc stat_flowdb :: repeat StatAccess 36.

(** The second line shows two events of three. *)
Lemma statistics_rate_survives_wrap_witness :
  let lines := st_lines (statistics_thread false sample_history) in
  lines !! 5%nat = Some (StatLine "Flowdb stats" 1 1) /\ lines !! 17%nat = Some (StatLine "Flowdb stats" 4 2) /\
  sum (printed_rate lines 5) 2 + 1 = counted stat_flowdb sample_history.
Proof.
  destruct (statistics_rate_survives_wrap false sample_history 5 stat_flowdb "Flowdb stats" 1) as [E2 Es].
  - reflexivity.
  - apply Nat.ltb_lt. vm_compute. reflexivity.
  - intros [|[|m]] Hm; [vm_compute; reflexivity..|lia].
  - split; [vm_compute; reflexivity|]. split; [exact E2|exact Es].
Defined.
