(* ===== verification/HexDump.v ===== *)
(** * The hex dump of a packet ([packet_handler/packet_handler.c])

    [hexDump] writes sixteen bytes per line, with the offset in front and the printable
    characters behind, which it collects in a buffer of 17 characters on the way. The
    output is the list of the characters; the buffer starts indeterminate. *)

From S2P Require Import Prelude Structs.
From stdpp Require Import strings pretty.
#[local] Open Scope Z_scope.

(** ** [printf] *)

Definition hex_digit (d : Z) : Z := if d <? 10 then 48 + d else 87 + d.
Fixpoint hex_digits (fuel : nat) (n : Z) {struct fuel} : list Z :=
  match fuel with
  | O => []
  | S fuel => (if n / 16 =? 0 then [] else hex_digits fuel (n / 16)) ++ [hex_digit (n mod 16)]
  end.
(** [%0wx] of an [int] that is not negative. *)
Definition format_hex (w : nat) (n : Z) : list Z :=
  let l := hex_digits 8 n in replicate (w - length l) 48 ++ l.

(** [%s] of an array: the characters up to the first zero. *)
Fixpoint read_string (fuel : nat) (a : arr Z) (i : Z) {struct fuel} : res (list Z) :=
  match fuel with
  | O => UB
  | S fuel =>
      let! c := rd a i in
      if c =? 0 then Ok [] else let! l := read_string fuel a (i + 1) in Ok (c :: l)
  end.
Definition format_string (a : arr Z) : res (list Z) := read_string (Z.to_nat (alen a) + 1) a 0.

Definition newline : list Z := [10].

(** ** Operations *)

Definition printable (c : Z) : Z := if (c <? 0x20) || (0x7e <? c) then 46 else c.

(** The [%s] line end. *)
Definition print_ascii (buff : arr Z) : res (list Z) :=
  let! s := format_string buff in Ok (chars "  " ++ s ++ newline).

(** The body of the loop over the bytes; the state is the output and the buffer. *)
Definition dump_byte (addr : list Z) (i : Z) (st : list Z * arr Z) : res (list Z * arr Z) :=
  let '(out, buff) := st in
  let! out :=
    if i mod 16 =? 0 then
      let! last := if negb (i =? 0) then print_ascii buff else Ok [] in
      Ok (out ++ last ++ chars "  " ++ format_hex 4 i ++ chars " ")
    else Ok out in
  match addr !! Z.to_nat i with
  | None => UB
  | Some c =>
      let! buff := wr buff (i mod 16) (printable c) in
      let! buff := wr buff (i mod 16 + 1) 0 in
      Ok (out ++ chars " " ++ format_hex 2 c, buff)
  end.

(** The padding of the last line. *)
Definition pad_body (st : list Z * Z) : res (list Z * Z + list Z) :=
  let '(out, i) := st in
  if negb (i mod 16 =? 0) then Ok (inl (out ++ chars "   ", i + 1)) else Ok (inr out).

Definition hexDump (desc : option (list Z)) (addr : list Z) (len : Z) (buff : arr Z) : res (list Z) :=
  let out := match desc with Some s => s ++ chars ":" ++ newline | None => [] end in
  if len =? 0 then Ok (out ++ chars "  ZERO LENGTH" ++ newline)
  else if len <? 0 then Ok (out ++ chars "  NEGATIVE LENGTH: " ++ chars (pretty len) ++ newline)
  else
    let! '(out, buff) := foldM (dump_byte addr) (seqZ 0 len) (out, buff) in
    let! out := while pad_body (out, len) in
    let! last := print_ascii buff in
    Ok (out ++ last).

(** ** Reference: the lines one after the other *)

Definition hex_bytes (l : list Z) : list Z := concat ((fun c => chars " " ++ format_hex 2 c) <$> l).
Definition line_start (k : nat) : list Z := chars "  " ++ format_hex 4 (16 * Z.of_nat k) ++ chars " ".
Definition line_end (l : list Z) : list Z := chars "  " ++ (printable <$> l) ++ newline.

(** The line of the bytes from [16 * k] on. *)
Definition row (k : nat) (bytes : list Z) : list Z := take 16 (drop (16 * k) bytes).
Definition dump_line (bytes : list Z) (k : nat) : list Z :=
  line_start k ++ hex_bytes (row k bytes) ++ replicate (3 * (16 - length (row k bytes))) 32 ++
  line_end (row k bytes).
Definition dump_lines (bytes : list Z) (n : nat) : list Z := concat (dump_line bytes <$> seq 0 n).

(** ** Proofs *)

Lemma printable_pos c : 0 <= c -> printable c <> 0.
Proof. intros Hc. unfold printable. destruct (_ || _) eqn:E; [done|]. apply orb_false_iff in E. lia. Qed.

(** The buffer holds the printable characters of a line. *)
Record holds (buff : arr Z) (l : list Z) : Prop := Holds {
  ho_len : alen buff = 17;
  ho_short : (length l <= 16)%nat;
  ho_char : forall j c, l !! j = Some c -> aget buff (Z.of_nat j) = printable c;
  ho_zero : aget buff (Z.of_nat (length l)) = 0 }.

Lemma read_string_ok a l : forall fuel i,
  0 <= i -> i + Z.of_nat (length l) < alen a -> (length l < fuel)%nat ->
  (forall j c, l !! j = Some c -> aget a (i + Z.of_nat j) = c /\ c <> 0) ->
  aget a (i + Z.of_nat (length l)) = 0 -> read_string fuel a i = Ok l.
Proof.
  induction l as [|c l IH]; intros [|fuel] i Hi Hlen Hf Hc Hz; cbn [length] in *; try lia; cbn [read_string].
  - rewrite rd_ok by lia. cbn [rbind]. by rewrite Z.add_0_r in Hz; rewrite Hz.
  - destruct (Hc 0%nat c eq_refl) as [Ec Hne]. rewrite Z.add_0_r in Ec.
    rewrite rd_ok by lia. cbn [rbind]. rewrite Ec. rewrite (proj2 (Z.eqb_neq c 0) Hne).
    rewrite IH; [done|lia|lia|lia| |].
    + intros j x Hx. destruct (Hc (S j) x Hx) as [E Hx0]. split; [|done]. rewrite <- E. f_equal. lia.
    + rewrite <- Hz. f_equal. lia.
Qed.

Lemma print_ascii_ok buff l :
  holds buff l -> Forall is_byte l -> print_ascii buff = Ok (line_end l).
Proof.
  intros [Hl Hs Hc Hz] Hb. unfold print_ascii, format_string.
  rewrite (read_string_ok buff (printable <$> l)); [done|lia| | | |]; rewrite ?length_fmap; try lia.
  - intros j c Hj. apply list_lookup_fmap_Some in Hj as (x & -> & Hj). rewrite Z.add_0_l.
    split; [by apply Hc|]. apply printable_pos. rewrite Forall_lookup in Hb. apply (Hb j x Hj).
  - by rewrite Z.add_0_l.
Qed.

(** One byte into the buffer. *)
Lemma holds_snoc buff l c :
  alen buff = 17 -> (length l < 16)%nat -> (forall j x, l !! j = Some x -> aget buff (Z.of_nat j) = printable x) ->
  holds (aset (aset buff (Z.of_nat (length l)) (printable c)) (Z.of_nat (length l) + 1) 0) (l ++ [c]).
Proof.
  intros Hb Hs Hc. split; [done|rewrite length_app; cbn; lia| |].
  - intros j x Hj. pose proof (lookup_lt_Some _ _ _ Hj) as Hlt. rewrite length_app in Hlt. cbn in Hlt.
    rewrite aget_aset_ne by lia. apply lookup_app_Some in Hj as [Hj|[Hle Hj]].
    + pose proof (lookup_lt_Some _ _ _ Hj). rewrite aget_aset_ne by lia. by apply Hc.
    + replace (j - length l)%nat with 0%nat in Hj by lia. injection Hj as <-.
      replace j with (length l) by lia. apply aget_aset_eq.
  - rewrite length_app. cbn [length]. replace (Z.of_nat (length l + 1)) with (Z.of_nat (length l) + 1) by lia.
    apply aget_aset_eq.
Qed.

Lemma hex_bytes_snoc l c : hex_bytes (l ++ [c]) = hex_bytes l ++ chars " " ++ format_hex 2 c.
Proof. unfold hex_bytes. rewrite fmap_app, concat_app. cbn [fmap list_fmap concat]. by rewrite app_nil_r. Qed.

Lemma dump_lines_S bytes n : dump_lines bytes (S n) = dump_lines bytes n ++ dump_line bytes n.
Proof.
  unfold dump_lines. rewrite seq_S, fmap_app, concat_app. cbn [fmap list_fmap concat plus]. by rewrite app_nil_r.
Qed.

(** A line without padding. *)
Lemma dump_line_full bytes k :
  length (row k bytes) = 16%nat -> dump_line bytes k = line_start k ++ hex_bytes (row k bytes) ++ line_end (row k bytes).
Proof. intros E. unfold dump_line. by rewrite E. Qed.

Section dump.
Context (addr bytes out0 : list Z) (Hbytes : forall j c, bytes !! j = Some c -> addr !! j = Some c).
Context (Hrange : Forall is_byte bytes).

(** [m] bytes of the line [k] are there. *)
Record dumped (k m : nat) (st : list Z * arr Z) : Prop := Dumped {
  du_out : fst st = out0 ++ dump_lines bytes k ++ line_start k ++ hex_bytes (take m (drop (16 * k) bytes));
  du_buff : holds (snd st) (take m (drop (16 * k) bytes)) }.

Lemma suffix_byte k m c : bytes !! (16 * k + m)%nat = Some c -> drop (16 * k) bytes !! m = Some c.
Proof. intros E. by rewrite lookup_drop. Qed.

Lemma length_current k m c :
  bytes !! (16 * k + m)%nat = Some c -> length (take m (drop (16 * k) bytes)) = m.
Proof. intros E%suffix_byte%lookup_lt_Some. rewrite length_take. lia. Qed.

Lemma current_range k m : Forall is_byte (take m (drop (16 * k) bytes)).
Proof using Hrange. by apply Forall_take, Forall_drop. Qed.

(** The first byte of a line. *)
Lemma dump_first k buff out c last :
  bytes !! (16 * k)%nat = Some c -> alen buff = 17 ->
  (if negb (16 * Z.of_nat k =? 0) then print_ascii buff else Ok []) = Ok last ->
  out ++ last = out0 ++ dump_lines bytes k ->
  exists st, dump_byte addr (16 * Z.of_nat k) (out, buff) = Ok st /\ dumped k 1 st.
Proof using Hbytes.
  intros Hc Hb Hlast Hout. unfold dump_byte.
  replace (16 * Z.of_nat k mod 16) with 0 by (rewrite Z.mul_comm, Z_mod_mult; done).
  cbn [Z.eqb]. rewrite Hlast. cbn [rbind].
  replace (Z.to_nat (16 * Z.of_nat k)) with (16 * k)%nat by lia. rewrite (Hbytes _ _ Hc).
  rewrite wr_ok by lia. cbn [rbind]. rewrite wr_ok by (rewrite alen_aset; lia). cbn [rbind].
  eexists. split; [reflexivity|].
  assert (take 1 (drop (16 * k) bytes) = [] ++ [c]) as E.
  { rewrite (take_S_r _ 0 c); [by rewrite take_0|]. apply suffix_byte. by rewrite Nat.add_0_r. }
  split; cbn [fst snd]; rewrite E.
  - rewrite hex_bytes_snoc, (app_assoc out0), <- Hout. unfold line_start. by rewrite <- !app_assoc.
  - apply (holds_snoc buff [] c); [done|cbn; lia|]. intros j x Hj. by rewrite lookup_nil in Hj.
Qed.

(** A further byte of the line. *)
Lemma dump_next k m st c :
  bytes !! (16 * k + m)%nat = Some c -> (1 <= m < 16)%nat -> dumped k m st ->
  exists st', dump_byte addr (16 * Z.of_nat k + Z.of_nat m) st = Ok st' /\ dumped k (S m) st'.
Proof using Hbytes.
  intros Hc Hm [Hout Hb]. destruct st as [out buff]. cbn [fst snd] in *. unfold dump_byte.
  replace ((16 * Z.of_nat k + Z.of_nat m) mod 16) with (Z.of_nat m)
    by (rewrite Z.mul_comm, Z.add_comm, Z_mod_plus_full, Z.mod_small by lia; lia).
  destruct (Z.eqb_spec (Z.of_nat m) 0); [lia|]. cbn [rbind].
  replace (Z.to_nat (16 * Z.of_nat k + Z.of_nat m)) with (16 * k + m)%nat by lia. rewrite (Hbytes _ _ Hc).
  pose proof (ho_len _ _ Hb) as Hl.
  rewrite wr_ok by lia. cbn [rbind]. rewrite wr_ok by (rewrite alen_aset; lia). cbn [rbind].
  eexists. split; [reflexivity|].
  pose proof (length_current k m c Hc) as Hcur.
  split; cbn [fst snd]; rewrite (take_S_r _ m c) by (by apply suffix_byte).
  - rewrite hex_bytes_snoc, Hout. by rewrite <- !app_assoc.
  - pose proof (holds_snoc buff (take m (drop (16 * k) bytes)) c Hl ltac:(lia) (ho_char _ _ Hb)) as H.
    by rewrite Hcur in H.
Qed.

Lemma dump_bytes_ok buff n :
  alen buff = 17 -> (S n <= length bytes)%nat ->
  exists k m st, S n = (16 * k + m)%nat /\ (1 <= m <= 16)%nat /\
    foldM (dump_byte addr) (seqZ 0 (Z.of_nat (S n))) (out0, buff) = Ok st /\ dumped k m st.
Proof using Hbytes Hrange.
  intros Hb. induction n as [|n IH]; intros Hn.
  - destruct (lookup_lt_is_Some_2 bytes 0) as [c Hc]; [lia|].
    destruct (dump_first 0 buff out0 c []) as (st & E & Hst); [done|done|done|done|].
    exists 0%nat, 1%nat, st. split; [lia|]. split; [lia|]. split; [|done]. cbn [foldM seqZ].
    change (seqZ 0 (Z.of_nat 1)) with [0]. cbn [foldM]. change (16 * Z.of_nat 0) with 0 in E. by rewrite E.
  - destruct IH as (k & m & st & E & Hm & Hf & Hst); [lia|].
    destruct (lookup_lt_is_Some_2 bytes (S n)) as [c Hc]; [lia|].
    assert (seqZ 0 (Z.of_nat (S (S n))) = seqZ 0 (Z.of_nat (S n)) ++ [Z.of_nat (S n)]) as ->.
    { rewrite (Nat2Z.inj_succ (S n)), <- Z.add_1_r, seqZ_app by lia. done. }
    rewrite foldM_app, Hf. cbn [rbind foldM].
    destruct (decide (m = 16%nat)) as [->|Hne].
    + replace (Z.of_nat (S n)) with (16 * Z.of_nat (S k)) by lia.
      assert (row k bytes = take 16 (drop (16 * k) bytes)) as Er by done.
      destruct st as [out b']. destruct Hst as [Hout Hb']. cbn [fst snd] in *.
      destruct (dump_first (S k) b' out c (line_end (row k bytes))) as (st & E1 & Hst).
      * by replace (16 * S k)%nat with (S n) by lia.
      * apply Hb'.
      * rewrite (proj2 (Z.eqb_neq _ 0)) by lia. cbn [negb]. rewrite Er. apply print_ascii_ok; [done|apply current_range].
      * rewrite dump_lines_S, dump_line_full, Hout, Er; [by rewrite <- !app_assoc|].
        rewrite Er, length_take, length_drop. lia.
      * exists (S k), 1%nat, st. split; [lia|]. split; [lia|]. rewrite E1. done.
    + destruct (dump_next k m st c) as (st' & E1 & Hst'); [by rewrite <- E|lia|done|].
      replace (Z.of_nat (S n)) with (16 * Z.of_nat k + Z.of_nat m) by lia.
      exists k, (S m), st'. split; [lia|]. split; [lia|]. rewrite E1. done.
Qed.
End dump.

(** The padding reaches the end of the line. *)
Lemma pad_ok out n p :
  0 <= n -> (p < 16)%nat -> (n + Z.of_nat p) mod 16 = 0 ->
  while pad_body (out, n) = Ok (out ++ replicate (3 * p) 32).
Proof.
  intros Hn Hp Hmod.
  destruct (while_rule (S := list Z * Z)
    (fun st => exists q : nat, (q <= p)%nat /\ st = (out ++ replicate (3 * q) 32, n + Z.of_nat q))
    (fun r => r = out ++ replicate (3 * p) 32)
    (fun st => n + Z.of_nat p - st.2) pad_body) with (s := (out, n)) as (r & E & ->); [| | | |exact E].
  - intros st (q & Hq & ->). cbn [snd]. lia.
  - intros st (q & Hq & ->). unfold pad_body. cbn [snd].
    destruct (Z.eqb_spec ((n + Z.of_nat q) mod 16) 0) as [Ez|Hne]; cbn [negb].
    + left. eexists. split; [reflexivity|]. f_equal. f_equal.
      assert (q = p) as -> by (pose proof (Z.div_mod (n + Z.of_nat q) 16); pose proof (Z.div_mod (n + Z.of_nat p) 16); lia).
      done.
    + right. eexists. split; [reflexivity|].
      assert (q <> p) by congruence. split; [|cbn [snd]; lia].
      exists (S q). split; [lia|]. f_equal; [|lia].
      rewrite <- app_assoc. f_equal. change (chars "   ") with (replicate 3 32).
      rewrite <- replicate_add. f_equal. lia.
  - exists 0%nat. split; [lia|]. by rewrite app_nil_r, Z.add_0_r.
  - cbn [snd]. lia.
Qed.

(** ** Properties *)

(** Claim C31. For a positive length, [hexDump] prints what the line by line reference
    prints, and the last line is padded to the width of the others; it never reads its
    uninitialised buffer. *)
Theorem hexDump_lines desc addr len buff :
  0 < len <= Z.of_nat (length addr) -> Forall is_byte addr -> alen buff = 17 ->
  hexDump desc addr len buff =
    Ok (match desc with Some s => s ++ chars ":" ++ newline | None => [] end ++
        dump_lines (take (Z.to_nat len) addr) (Z.to_nat ((len + 15) / 16))).
Proof.
  intros Hlen Hr Hb. unfold hexDump. destruct (Z.eqb_spec len 0); [lia|]. destruct (Z.ltb_spec len 0); [lia|].
  set (out0 := match desc with Some _ => _ | None => _ end). set (bytes := take (Z.to_nat len) addr).
  assert (length bytes = Z.to_nat len) as Hlb by (unfold bytes; rewrite length_take; lia).
  assert (Forall is_byte bytes) as Hrb by (by apply Forall_take).
  assert (forall j c, bytes !! j = Some c -> addr !! j = Some c) as Hpre
    by (intros j c Hj; apply lookup_take_Some in Hj; tauto).
  destruct (dump_bytes_ok addr bytes out0 Hpre Hrb buff (Z.to_nat len - 1) Hb) as (k & m & [out b] & E & Hm & Hf & [Hout Hbuf]); [lia|].
  replace (Z.of_nat (S (Z.to_nat len - 1))) with len in Hf by lia. rewrite Hf. cbn [rbind fst snd] in *.
  assert (len = 16 * Z.of_nat k + Z.of_nat m) as El by lia.
  rewrite (pad_ok out len (16 - m)); [|lia|lia|].
  2: { replace (len + Z.of_nat (16 - m)) with ((Z.of_nat k + 1) * 16) by lia. apply Z_mod_mult. }
  cbn [rbind]. rewrite (print_ascii_ok _ _ Hbuf) by (by apply Forall_take, Forall_drop). cbn [rbind].
  replace (Z.to_nat ((len + 15) / 16)) with (S k).
  2: { replace (len + 15) with (Z.of_nat (m - 1) + (Z.of_nat k + 1) * 16) by lia.
       rewrite Z.div_add, Z.div_small by lia. lia. }
  rewrite dump_lines_S. unfold dump_line.
  assert (row k bytes = take m (drop (16 * k) bytes)) as ->.
  { unfold row. rewrite !take_ge; [done|rewrite length_drop; lia|rewrite length_drop; lia]. }
  rewrite Hout. assert (length (take m (drop (16 * k) bytes)) = m) as -> by (rewrite length_take, length_drop; lia).
  by rewrite <- !app_assoc.
Qed.

Lemma hexDump_lines_witness :
  hexDump None [65; 66; 255] 3 (amake 17 7) = Ok (chars "  0000  41 42 ff" ++ replicate 39 32 ++ chars "  AB." ++ newline).
Proof.
  transitivity (Ok (dump_lines (take (Z.to_nat 3) [65; 66; 255]) (Z.to_nat ((3 + 15) / 16)))); [|reflexivity].
  apply (hexDump_lines None [65; 66; 255] 3 (amake 17 7)).
  - cbn. lia.
  - repeat constructor; discriminate.
  - reflexivity.
Defined.
