(* ===== verification/Heap.v ===== *)
(** * Free-id heaps ([datastructures/heap.c], [heap.h])

    A binary min-heap in an array. The data base of flows keeps one heap of free
    flow ids and one of free session ids per pipe ([FlowDb]).

    State: [heapqueue_t] ([curSize], [data]). Operations: [heapify],
    [heap_build], [heap_decrease], [heap_push], [heap_peek], [heap_pop]. The
    specification is a multiset of ids from which [heap_pop] removes a least one;
    [heap_wf] is the refinement relation. *)

From S2P Require Import Prelude Structs.

Definition HEAPSIZE : Z := MAX_FLOWS - 1.

Record heapqueue_t : Type := Heapqueue { curSize : Z; data : arr Z }.

Definition with_data (d : arr Z) (h : heapqueue_t) : heapqueue_t := Heapqueue (curSize h) d.
Definition with_curSize (n : Z) (h : heapqueue_t) : heapqueue_t := Heapqueue n (data h).

(** ** Operations *)

Definition HEAP_KEY (h : heapqueue_t) (i : Z) : res Z := rd (data h) i.
(** [size_t] arithmetic. *)
Definition HEAP_LEFT (i : Z) : Z := u64 (2 * i + 1).
Definition HEAP_RIGHT (i : Z) : Z := u64 (2 * i + 2).
Definition HEAP_PARENT (i : Z) : Z := u64 (i - 1) / 2.

Definition HEAP_SWAP (h : heapqueue_t) (x y : Z) : res heapqueue_t :=
  let! temp := HEAP_KEY h x in
  let! ky := HEAP_KEY h y in
  let! d := wr (data h) x ky in
  let! d' := wr d y temp in
  Ok (with_data d' h).

(** One candidate child: [if (c < curSize && KEY(c) < KEY(min)) min = c]. *)
Definition smaller_child (h : heapqueue_t) (c min : Z) : res Z :=
  if c <? curSize h then
    let! kc := HEAP_KEY h c in
    let! km := HEAP_KEY h min in
    Ok (if kc <? km then c else min)
  else Ok min.

Definition heapify_body (s : heapqueue_t * Z) : res ((heapqueue_t * Z) + heapqueue_t) :=
  let '(h, i) := s in
  let! min1 := smaller_child h (HEAP_LEFT i) i in
  let! min := smaller_child h (HEAP_RIGHT i) min1 in
  if min =? i then Ok (inr h)
  else
    let! h' := HEAP_SWAP h i min in
    Ok (inl (h', min)).

Definition heapify (h : heapqueue_t) (a : Z) : res heapqueue_t := while heapify_body (h, a).

Definition heap_build_body (s : heapqueue_t * Z) : res ((heapqueue_t * Z) + heapqueue_t) :=
  let '(h, i) := s in
  if (i <? curSize h) && (0 <=? i) then
    let! h' := heapify h i in
    Ok (inl (h', u64 (i - 1)))
  else Ok (inr h).

Definition heap_build (h : heapqueue_t) (size : Z) : res heapqueue_t :=
  let h := with_curSize size h in
  if size <? 2 then Ok h
  else while heap_build_body (h, u64 (curSize h / 2 - 1)).

Definition heap_decrease_body (s : heapqueue_t * Z) : res ((heapqueue_t * Z) + heapqueue_t) :=
  let '(h, index) := s in
  if 0 <? index then
    let! k := HEAP_KEY h index in
    let! kp := HEAP_KEY h (HEAP_PARENT index) in
    if k <? kp then
      let! h' := HEAP_SWAP h index (HEAP_PARENT index) in
      Ok (inl (h', HEAP_PARENT index))
    else Ok (inr h)
  else Ok (inr h).

Definition heap_decrease (h : heapqueue_t) (index key : Z) : res heapqueue_t :=
  let! k := HEAP_KEY h index in
  if k <? key then Ok h
  else
    let! d := wr (data h) index key in
    while heap_decrease_body (with_data d h, index).

Definition heap_push (h : heapqueue_t) (item : Z) : res heapqueue_t :=
  let i := curSize h in
  let h := with_curSize (u64 (curSize h + 1)) h in
  let! d := wr (data h) i item in
  heap_decrease (with_data d h) i item.

Definition heap_peek (h : heapqueue_t) : res Z := rd (data h) 0.

Definition heap_pop (h : heapqueue_t) : res (heapqueue_t * Z) :=
  if curSize h =? 0 then Ok (h, 0)
  else
    let! result := HEAP_KEY h 0 in
    let last := u64 (curSize h - 1) in
    let h := with_curSize last h in
    if last =? 0 then Ok (h, result)
    else
      let! h' := HEAP_SWAP h 0 last in
      let! h'' := heapify h' 0 in
      Ok (h'', result).

(** ** Specification *)

Definition key (h : heapqueue_t) (i : Z) : Z := aget (data h) i.
Definition parent (i : Z) : Z := (i - 1) / 2.

(** The bounds every operation relies on. *)
Definition heap_wf (h : heapqueue_t) : Prop :=
  alen (data h) = HEAPSIZE /\ 0 <= curSize h <= HEAPSIZE.

(** Heap order of the subtrees whose roots are at or after [lo]. *)
Definition ordered_from (lo : Z) (h : heapqueue_t) : Prop :=
  forall j, 0 < j < curSize h -> lo <= parent j -> key h (parent j) <= key h j.
Definition heap_ordered (h : heapqueue_t) : Prop := ordered_from 0 h.

(** The ids held by the heap, in array order. *)
Definition contents (h : heapqueue_t) : list Z := aprefix (data h) (curSize h).

(** ** Indices *)

Lemma parent_bound j : 0 < j -> 0 <= parent j < j.
Proof. unfold parent. intros. pose proof (Z.div_mod (j - 1) 2). 
  pose proof (Z.mod_pos_bound (j - 1) 2). lia. Qed.

Lemma parent_iff c i : parent c = i <-> c = 2 * i + 1 \/ c = 2 * i + 2.
Proof. unfold parent. pose proof (Z.div_mod (c - 1) 2). 
  pose proof (Z.mod_pos_bound (c - 1) 2). lia. Qed.

Lemma HEAP_LEFT_small i : 0 <= i < HEAPSIZE -> HEAP_LEFT i = 2 * i + 1.
Proof. unfold HEAP_LEFT, HEAPSIZE, MAX_FLOWS. intros. apply u64_small. lia. Qed.
Lemma HEAP_RIGHT_small i : 0 <= i < HEAPSIZE -> HEAP_RIGHT i = 2 * i + 2.
Proof. unfold HEAP_RIGHT, HEAPSIZE, MAX_FLOWS. intros. apply u64_small. lia. Qed.
Lemma HEAP_PARENT_small i : 0 < i < HEAPSIZE -> HEAP_PARENT i = parent i.
Proof. unfold HEAP_PARENT, HEAPSIZE, MAX_FLOWS. intros. rewrite u64_small; [done|lia]. Qed.

(** ** Swaps *)

Definition swap_data (h : heapqueue_t) (i j : Z) : heapqueue_t :=
  with_data (aswap (data h) i j) h.

Lemma HEAP_SWAP_ok h i j :
  0 <= i < alen (data h) -> 0 <= j < alen (data h) ->
  HEAP_SWAP h i j = Ok (swap_data h i j).
Proof. intros. unfold HEAP_SWAP, HEAP_KEY. arr_goal. done. Qed.

Lemma key_swap h i j k : key (swap_data h i j) k = key h (zswap i j k).
Proof. apply aget_aswap. Qed.

Lemma swap_wf h i j : heap_wf h -> heap_wf (swap_data h i j).
Proof. done. Qed.

Lemma swap_contents h i j :
  0 <= i < curSize h -> 0 <= j < curSize h -> contents (swap_data h i j) ≡ₚ contents h.
Proof. apply aprefix_swap. Qed.

Create HintDb heap discriminated.
#[export] Hint Resolve swap_wf : heap.

(** What every in-place operation keeps: size, bounds, the ids. *)
Record same_ids (h h' : heapqueue_t) : Prop := SameIds {
  same_wf : heap_wf h';
  same_size : curSize h' = curSize h;
  same_contents : contents h' ≡ₚ contents h }.

Lemma same_ids_refl h : heap_wf h -> same_ids h h.
Proof. by split. Qed.

Lemma same_ids_swap h h' i j :
  same_ids h h' -> 0 <= i < curSize h -> 0 <= j < curSize h ->
  same_ids h (swap_data h' i j).
Proof.
  intros [? Hs Hc] ??. split; [auto with heap|done|].
  rewrite swap_contents by lia. done.
Qed.
#[export] Hint Resolve same_ids_refl same_ids_swap : heap.

(** ** [heapify] *)

Lemma smaller_child_ok h c m :
  heap_wf h -> 0 <= c -> 0 <= m < curSize h ->
  smaller_child h c m =
  Ok (if decide (c < curSize h /\ key h c < key h m) then c else m).
Proof.
  intros [? ?] ??. unfold smaller_child, HEAP_KEY, key.
  destruct (Z.ltb_spec c (curSize h)).
  - arr_goal. destruct (Z.ltb_spec (aget (data h) c) (aget (data h) m));
      case_decide; auto; lia.
  - case_decide; auto; lia.
Qed.

(** Invariant of the sift-down loop started at [a]: the order can only fail
    between [i] and its children. *)
Definition sift_down_inv (h0 : heapqueue_t) (a : Z) (s : heapqueue_t * Z) : Prop :=
  let '(h, i) := s in
  same_ids h0 h /\ 0 <= a <= i /\ i < curSize h /\
  (forall j, 0 < j < curSize h -> a <= parent j -> parent j <> i ->
     key h (parent j) <= key h j) /\
  (0 < i -> i = a \/ a <= parent i) /\
  (0 < i -> a <= parent i -> forall c, 0 < c < curSize h -> parent c = i ->
     key h (parent i) <= key h c).

Lemma sift_down_swap h0 a h i m :
  sift_down_inv h0 a (h, i) ->
  0 < m < curSize h -> parent m = i -> key h m < key h i ->
  (forall c, 0 < c < curSize h -> parent c = i -> key h m <= key h c) ->
  sift_down_inv h0 a (swap_data h i m, m).
Proof.
  intros (Hsame & Ha & Hi & Hord & Hroot & Hgp) Hm Hpm Hlt Hleast.
  pose proof (parent_bound m ltac:(lia)).
  pose proof (same_size _ _ Hsame).
  split; [apply same_ids_swap; auto; lia|].
  cbn [curSize swap_data with_data].
  split; [lia|]. split; [lia|]. split.
  - intros j Hj Haj Hne. rewrite !key_swap. pose proof (parent_bound j ltac:(lia)).
    unfold zswap. repeat case_decide; subst;
      first [lia | by apply Hleast | by apply Hord | apply Hgp; lia].
  - split; [intros; right; lia|].
    intros _ _ c Hc Hpc. rewrite !key_swap. pose proof (parent_bound c ltac:(lia)).
    unfold zswap. repeat case_decide; subst; try lia.
    apply Hord; lia.
Qed.

Lemma heapify_body_step h0 a h i :
  sift_down_inv h0 a (h, i) ->
  (exists h', heapify_body (h, i) = Ok (inr h') /\ same_ids h0 h' /\ ordered_from a h') \/
  (exists s', heapify_body (h, i) = Ok (inl s') /\ sift_down_inv h0 a s' /\ snd s' > i).
Proof.
  intros Hinv. pose proof Hinv as (Hsame & Ha & Hi & Hord & Hroot & Hgp).
  pose proof (same_wf _ _ Hsame) as Hwf. pose proof Hwf as [Hlen Hsz].
  unfold heapify_body. rewrite HEAP_LEFT_small, HEAP_RIGHT_small by lia.
  rewrite smaller_child_ok by (auto; lia); cbn [rbind].
  rewrite smaller_child_ok by (auto; repeat case_decide; lia); cbn [rbind].
  set (m1 := if decide (2 * i + 1 < curSize h /\ _) then _ else _).
  set (m := if decide (2 * i + 2 < curSize h /\ _) then _ else _).
  assert ((m = i /\ forall c, 0 < c < curSize h -> parent c = i -> key h i <= key h c) \/
          (i < m < curSize h /\ parent m = i /\ key h m < key h i /\
           forall c, 0 < c < curSize h -> parent c = i -> key h m <= key h c)) as Hm.
  { setoid_rewrite parent_iff. subst m m1. repeat case_decide.
    - right. repeat split; try lia. intros c ? [-> | ->]; lia.
    - right. repeat split; try lia. intros c ? [-> | ->]; lia.
    - right. repeat split; try lia. intros c ? [-> | ->]; lia.
    - left. split; [done|]. intros c ? [-> | ->]; lia. }
  destruct Hm as [[-> Hle]|(Hmb & Hpm & Hlt & Hle)].
  - left. exists h. rewrite Z.eqb_refl. split; [done|]. split; [done|].
    intros j Hj Haj. destruct (decide (parent j = i)) as [E|]; [|auto].
    rewrite E. auto.
  - right. exists (swap_data h i m, m).
    replace (m =? i) with false by lia. rewrite HEAP_SWAP_ok by lia.
    split; [done|]. split; [|simpl; lia]. apply sift_down_swap; auto; lia.
Qed.

Lemma heapify_spec h a :
  heap_wf h -> 0 <= a < curSize h -> ordered_from (a + 1) h ->
  exists h', heapify h a = Ok h' /\ same_ids h h' /\ ordered_from a h'.
Proof.
  intros Hwf Ha Hord. pose proof Hwf as [_ Hsz].
  apply (while_rule (sift_down_inv h a) (fun h' => same_ids h h' /\ ordered_from a h')
           (fun s => HEAPSIZE - snd s)).
  - intros [h1 i] ([_ Hs _] & ? & ? & _); simpl. lia.
  - intros [h1 i] Hinv.
    destruct (heapify_body_step _ _ _ _ Hinv) as [(h' & E & ?)|(s' & E & ? & ?)].
    + left; eauto.
    + right. exists s'. split; [done|]. split; [done|]. simpl; lia.
  - split; [auto with heap|]. split; [lia|]. split; [lia|]. split.
    + intros j Hj Haj Hne. apply Hord; lia.
    + split; [lia|]. intros ? Hpa. pose proof (parent_bound a). lia.
  - simpl. unfold HEAPSIZE, MAX_FLOWS. lia.
Qed.

(** ** [heap_build] *)

Definition build_inv (h0 : heapqueue_t) (s : heapqueue_t * Z) : Prop :=
  let '(h, i) := s in
  same_ids h0 h /\
  ((0 <= i < curSize h /\ ordered_from (i + 1) h) \/ (i = 2 ^ 64 - 1 /\ heap_ordered h)).

Lemma heap_build_loop_spec h i :
  heap_wf h -> 0 <= i < curSize h -> ordered_from (i + 1) h ->
  exists h', while heap_build_body (h, i) = Ok h' /\ same_ids h h' /\ heap_ordered h'.
Proof.
  intros Hwf Hi Hord.
  apply (while_rule (build_inv h) (fun h' => same_ids h h' /\ heap_ordered h')
           (fun s => if decide (snd s = 2 ^ 64 - 1) then 0 else snd s + 1)).
  - intros [h1 j] [_ [[? _]|[-> _]]]; cbn [snd]; repeat case_decide; lia.
  - intros [h1 j] [Hs Hj]. pose proof (same_wf _ _ Hs) as [_ Hsz].
    unfold HEAPSIZE, MAX_FLOWS in Hsz. unfold heap_build_body.
    destruct Hj as [[Hj Ho]|[-> Ho]].
    + right. replace (_ && _) with true by lia.
      destruct (heapify_spec h1 j) as (h2 & -> & Hs2 & Ho2); [by apply Hs|lia|done|].
      exists (h2, u64 (j - 1)). split; [done|].
      assert (same_ids h h2) as Hs02.
      { destruct Hs, Hs2. split; [done|congruence|]. by etrans. }
      pose proof (same_size _ _ Hs2).
      destruct (decide (j = 0)) as [->|].
      * split; [split; [done|]; right; split; [done|exact Ho2]|]. done.
      * rewrite u64_small by lia. split.
        -- split; [done|]. left. split; [lia|]. by replace (j - 1 + 1) with j by lia.
        -- cbn [snd]. repeat case_decide; lia.
    + left. exists h1. replace (_ && _) with false by lia. done.
  - split; [auto with heap|]. left. done.
  - cbn [snd]. destruct Hwf as [_ Hsz]. unfold HEAPSIZE, MAX_FLOWS in Hsz.
    repeat case_decide; lia.
Qed.

Lemma heap_build_ok h size :
  alen (data h) = HEAPSIZE -> 0 <= size <= HEAPSIZE ->
  exists h', heap_build h size = Ok h' /\ same_ids (with_curSize size h) h' /\ heap_ordered h'.
Proof.
  intros Hlen Hsz. assert (heap_wf (with_curSize size h)) as Hwf by done.
  unfold heap_build. destruct (Z.ltb_spec size 2).
  - exists (with_curSize size h). split; [done|]. split; [auto with heap|].
    intros j Hj. simpl in Hj. pose proof (parent_bound j ltac:(lia)). lia.
  - unfold HEAPSIZE, MAX_FLOWS in Hsz. pose proof (Z.div_mod size 2). 
    pose proof (Z.mod_pos_bound size 2). cbn [curSize with_curSize].
    rewrite u64_small by lia. apply heap_build_loop_spec; [done|simpl; lia|].
    intros j Hj Hp. simpl in Hj. pose proof (proj1 (parent_iff j _) eq_refl). lia.
Qed.

(** ** [heap_decrease] and [heap_push] *)

(** Invariant of the sift-up loop: the order can only fail above [i]. *)
Definition sift_up_inv (h0 : heapqueue_t) (s : heapqueue_t * Z) : Prop :=
  let '(h, i) := s in
  same_ids h0 h /\ 0 <= i < curSize h /\
  (forall j, 0 < j < curSize h -> j <> i -> key h (parent j) <= key h j) /\
  (0 < i -> forall c, 0 < c < curSize h -> parent c = i -> key h (parent i) <= key h c).

Lemma sift_up_swap h0 h i :
  sift_up_inv h0 (h, i) -> 0 < i -> key h i < key h (parent i) ->
  sift_up_inv h0 (swap_data h i (parent i), parent i).
Proof.
  intros (Hsame & Hi & Hord & Hgp) H0 Hlt.
  pose proof (parent_bound i H0). pose proof (same_size _ _ Hsame).
  split; [apply same_ids_swap; auto; lia|]. cbn [curSize swap_data with_data].
  split; [lia|]. split.
  - intros j Hj Hne. rewrite !key_swap. pose proof (parent_bound j ltac:(lia)).
    assert (j <> i -> parent j = parent i -> key h (parent i) <= key h j) as Hsib.
    { intros ? E. rewrite <- E. apply Hord; auto. }
    unfold zswap. repeat case_decide; subst;
      first [lia | (specialize (Hsib ltac:(done) ltac:(done)); lia) | by apply Hord
            | apply Hgp; auto; lia | idtac].
  - intros Hp c Hc Hpc. rewrite !key_swap. pose proof (parent_bound (parent i) Hp).
    assert (key h (parent (parent i)) <= key h (parent i)) by (apply Hord; lia).
    unfold zswap. repeat case_decide; subst; try lia.
    etrans; [done|]. rewrite <- Hpc. apply Hord; auto.
Qed.

Lemma heap_decrease_loop_spec h i :
  heap_wf h -> sift_up_inv h (h, i) ->
  exists h', while heap_decrease_body (h, i) = Ok h' /\ same_ids h h' /\ heap_ordered h'.
Proof.
  intros Hwf Hinv.
  apply (while_rule (sift_up_inv h) (fun h' => same_ids h h' /\ heap_ordered h') snd); auto.
  - intros [h1 j] (_ & ? & _); simpl; lia.
  - intros [h1 j] Hj. pose proof Hj as (Hs & Hb & Hord & _).
    pose proof (same_wf _ _ Hs) as [Hlen Hsz]. unfold heap_decrease_body, HEAP_KEY.
    destruct (Z.ltb_spec 0 j) as [H0|].
    + rewrite HEAP_PARENT_small by lia. pose proof (parent_bound j H0). arr_goal.
      destruct (Z.ltb_spec (aget (data h1) j) (aget (data h1) (parent j))).
      * right. rewrite HEAP_SWAP_ok by lia. eexists. split; [done|].
        split; [by apply sift_up_swap|simpl; lia].
      * left. exists h1. split; [done|]. split; [done|]. intros k Hk _.
        destruct (decide (k = j)) as [->|]; [done|]. by apply Hord.
    + left. exists h1. split; [done|]. split; [done|].
      intros k Hk _. apply Hord; lia.
  - destruct Hinv as (_ & ? & _). destruct Hwf as [_ ?].
    unfold HEAPSIZE, MAX_FLOWS in *; simpl; lia.
Qed.

Lemma heap_push_ok h x :
  heap_wf h -> curSize h < HEAPSIZE -> heap_ordered h ->
  exists h', heap_push h x = Ok h' /\ heap_wf h' /\ curSize h' = curSize h + 1 /\
             heap_ordered h' /\ contents h' ≡ₚ x :: contents h.
Proof.
  intros [Hlen Hsz] Hlt Hord. unfold heap_push.
  assert (u64 (curSize h + 1) = curSize h + 1) as Hu.
  { unfold HEAPSIZE, MAX_FLOWS in *. apply u64_small. lia. }
  rewrite Hu. cbn [data with_curSize]. rewrite wr_ok by lia. cbn [rbind].
  unfold heap_decrease, HEAP_KEY. cbn [data with_data]. arr_goal. rewrite Z.ltb_irrefl.
  set (h1 := with_data _ _).
  assert (heap_wf h1) as Hwf1 by (split; simpl; lia).
  assert (forall k, key h1 k = if decide (k = curSize h) then x else key h k) as Hkey.
  { intros k. unfold key, h1; simpl. rewrite !aget_aset. repeat case_decide; congruence. }
  destruct (heap_decrease_loop_spec h1 (curSize h)) as (h' & -> & [Hwf' Hs' Hc'] & Ho');
    [done| |].
  - split; [auto with heap|]. split; [simpl; lia|]. split.
    + intros j Hj Hne. simpl in Hj. pose proof (parent_bound j ltac:(lia)).
      rewrite !Hkey. repeat case_decide; try lia. apply Hord; lia.
    + intros _ c Hc Hpc. simpl in Hc. pose proof (parent_bound c ltac:(lia)). lia.
  - exists h'. split; [done|]. split; [done|]. split; [done|]. split; [done|].
    rewrite Hc'. unfold contents, h1; simpl. rewrite aprefix_S by lia.
    rewrite aget_aset_eq, Permutation_app_comm. simpl. constructor.
    erewrite aprefix_ext; [done|]. intros k Hk. rewrite !aget_aset_ne by lia. done.
Qed.

(** ** [heap_pop] *)

Lemma heap_root_least h : heap_ordered h -> forall i, 0 <= i < curSize h -> key h 0 <= key h i.
Proof.
  intros Hord i. induction i as [i IH] using (well_founded_induction (Z.lt_wf 0)).
  intros Hi. destruct (decide (i = 0)) as [->|]; [lia|].
  pose proof (parent_bound i ltac:(lia)).
  etrans; [apply (IH (parent i)); lia|]. apply Hord; lia.
Qed.

Lemma heap_pop_empty h : curSize h = 0 -> heap_pop h = Ok (h, 0).
Proof. intros E. unfold heap_pop. by rewrite E. Qed.

Lemma heap_pop_ok h :
  heap_wf h -> 0 < curSize h -> heap_ordered h ->
  exists h' x, heap_pop h = Ok (h', x) /\ heap_wf h' /\ curSize h' = curSize h - 1 /\
    heap_ordered h' /\ contents h ≡ₚ x :: contents h' /\
    Forall (fun y => x <= y) (contents h).
Proof.
  intros [Hlen Hsz] Hpos Hord. pose proof (heap_root_least h Hord) as Hleast.
  assert (Forall (fun y => key h 0 <= y) (contents h)) as Hall.
  { apply Forall_forall. intros y (k & Hk & ->)%elem_of_aprefix. by apply Hleast. }
  unfold heap_pop. replace (curSize h =? 0) with false by lia.
  unfold HEAP_KEY at 1. rewrite rd_ok by lia. cbn [rbind].
  assert (u64 (curSize h - 1) = curSize h - 1) as Hu.
  { unfold HEAPSIZE, MAX_FLOWS in *. apply u64_small. lia. }
  rewrite Hu. set (h1 := with_curSize (curSize h - 1) h).
  assert (contents h ≡ₚ key h 0 :: contents (swap_data h1 0 (curSize h - 1))) as Hperm.
  { unfold contents at 1. rewrite <- (aprefix_swap (data h) 0 (curSize h - 1)) by lia.
    replace (curSize h) with (curSize h - 1 + 1) at 2 by lia.
    rewrite aprefix_S, Permutation_app_comm by lia.
    rewrite aget_aswap. unfold zswap.
    repeat case_decide; try congruence; [|done].
    by replace (aget (data h) (curSize h - 1)) with (key h 0) by (unfold key; congruence). }
  destruct (Z.eqb_spec (curSize h - 1) 0) as [E0|].
  - exists h1, (key h 0). split; [done|]. split; [split; simpl; lia|].
    split; [done|]. split; [intros j Hj; simpl in Hj; lia|]. split; [|done].
    rewrite Hperm. unfold contents; simpl. rewrite E0. done.
  - rewrite HEAP_SWAP_ok by (simpl; lia). cbn [rbind].
    destruct (heapify_spec (swap_data h1 0 (curSize h - 1)) 0)
      as (h' & -> & [Hwf' Hs' Hc'] & Ho').
    + split; simpl; lia.
    + simpl; lia.
    + intros j Hj Hp. simpl in Hj. pose proof (parent_bound j ltac:(lia)).
      rewrite !key_swap. unfold zswap. repeat case_decide; try lia. apply Hord; lia.
    + cbn [rbind]. exists h', (key h 0). split; [done|]. split; [done|].
      split; [done|]. split; [done|]. split; [|done]. by rewrite Hperm, Hc'.
Qed.

(** ** Refinement of a priority queue

    The abstract state is the sorted list of the ids. *)

Definition pq_push (x : Z) (l : list Z) : list Z := merge_sort Z.le (x :: l).
Definition pq_pop (l : list Z) : Z * list Z :=
  match l with [] => (0, []) | x :: l' => (x, l') end.

Record heap_rep (h : heapqueue_t) (l : list Z) : Prop := HeapRep {
  hr_wf : heap_wf h;
  hr_ordered : heap_ordered h;
  hr_contents : contents h ≡ₚ l;
  hr_sorted : StronglySorted Z.le l }.

Lemma heap_rep_size h l : heap_rep h l -> curSize h = Z.of_nat (length l).
Proof.
  intros [[_ Hsz] _ Hc _]. apply Permutation_length in Hc. unfold contents in Hc.
  rewrite length_aprefix in Hc. lia.
Qed.

Lemma merge_sort_sorted (l : list Z) : StronglySorted Z.le (merge_sort Z.le l).
Proof. apply Sorted_StronglySorted; [apply _|]. apply Sorted_merge_sort. apply _. Qed.

Lemma heap_build_rep h size :
  alen (data h) = HEAPSIZE -> 0 <= size <= HEAPSIZE ->
  exists h', heap_build h size = Ok h' /\ heap_rep h' (merge_sort Z.le (aprefix (data h) size)).
Proof.
  intros Hl Hsz. destruct (heap_build_ok h size Hl Hsz) as (h' & -> & [Hwf _ Hc] & Ho).
  exists h'. split; [done|]. split; auto using merge_sort_sorted.
  rewrite Hc, merge_sort_Permutation. done.
Qed.

Lemma heap_push_rep h l x :
  heap_rep h l -> Z.of_nat (length l) < HEAPSIZE ->
  exists h', heap_push h x = Ok h' /\ heap_rep h' (pq_push x l).
Proof.
  intros Hr Hlt. pose proof (heap_rep_size h l Hr). destruct Hr as [Hwf Ho Hc Hs].
  destruct (heap_push_ok h x Hwf ltac:(lia) Ho) as (h' & -> & Hwf' & _ & Ho' & Hc').
  exists h'. split; [done|]. split; auto; [|apply merge_sort_sorted].
  unfold pq_push. by rewrite Hc', Hc, merge_sort_Permutation.
Qed.

Lemma heap_pop_rep h l :
  heap_rep h l ->
  exists h', heap_pop h = Ok (h', fst (pq_pop l)) /\ heap_rep h' (snd (pq_pop l)).
Proof.
  intros Hr. pose proof (heap_rep_size h l Hr) as Hsz. pose proof Hr as [Hwf Ho Hc Hs].
  destruct l as [|y l]; simpl in *.
  - exists h. by rewrite heap_pop_empty.
  - destruct (heap_pop_ok h Hwf ltac:(lia) Ho) as (h' & x & -> & Hwf' & _ & Ho' & Hc' & Hx).
    apply StronglySorted_inv in Hs as [Hs Hy].
    assert (x = y) as ->.
    { rewrite Forall_forall in Hx, Hy. apply Z.le_antisymm.
      - apply Hx. rewrite Hc. left.
      - assert (x ∈ y :: l) as Hin by (rewrite <- Hc, Hc'; left).
        apply elem_of_cons in Hin as [->|Hin]; [lia|by apply Hy]. }
    exists h'. split; [done|]. split; auto.
    apply (Permutation_cons_inv (a := y)). by rewrite <- Hc', Hc.
Qed.

Inductive heap_op : Type := HeapPush (x : Z) | HeapPop.

Fixpoint heap_run (h : heapqueue_t) (ops : list heap_op) : res (list Z * heapqueue_t) :=
  match ops with
  | [] => Ok ([], h)
  | HeapPush x :: ops' => let! h1 := heap_push h x in heap_run h1 ops'
  | HeapPop :: ops' =>
      let! '(h1, x) := heap_pop h in
      let! '(xs, h2) := heap_run h1 ops' in
      Ok (x :: xs, h2)
  end.

Fixpoint pq_run (l : list Z) (ops : list heap_op) : list Z * list Z :=
  match ops with
  | [] => ([], l)
  | HeapPush x :: ops' => pq_run (pq_push x l) ops'
  | HeapPop :: ops' =>
      let '(x, l1) := pq_pop l in
      let '(xs, l2) := pq_run l1 ops' in
      (x :: xs, l2)
  end.

(** The array has room at every push. *)
Fixpoint pq_fits (l : list Z) (ops : list heap_op) : Prop :=
  match ops with
  | [] => True
  | HeapPush x :: ops' => Z.of_nat (length l) < HEAPSIZE /\ pq_fits (pq_push x l) ops'
  | HeapPop :: ops' => pq_fits (snd (pq_pop l)) ops'
  end.

Lemma heap_run_rep h l ops :
  heap_rep h l -> pq_fits l ops ->
  exists h', heap_run h ops = Ok (fst (pq_run l ops), h') /\ heap_rep h' (snd (pq_run l ops)).
Proof.
  revert h l. induction ops as [|[x|] ops IH]; intros h l Hr Hf; cbn [heap_run pq_run pq_fits] in *.
  - by exists h.
  - destruct Hf as [Hlt Hf]. destruct (heap_push_rep h l x Hr Hlt) as (h' & -> & Hr'). by apply IH.
  - destruct (heap_pop_rep h l Hr) as (h' & -> & Hr'). destruct (pq_pop l) as [x l1].
    cbn [fst snd rbind] in *. destruct (IH h' l1 Hr' Hf) as (h2 & -> & Hr2). exists h2.
    cbn [rbind]. by destruct (pq_run l1 ops).
Qed.

(** ** Properties *)

(** Claim C16. The heap of free ids is a priority queue: built over any array
    contents, every sequence of pushes and pops that never exceeds [HEAPSIZE]
    entries returns what the sorted list of the ids returns, the least id first
    and 0 when there is none, without an access out of bounds. *)
Theorem heap_refines_priority_queue h size ops :
  alen (data h) = HEAPSIZE -> 0 <= size <= HEAPSIZE ->
  pq_fits (merge_sort Z.le (aprefix (data h) size)) ops ->
  exists h', (let! h0 := heap_build h size in heap_run h0 ops) =
               Ok (fst (pq_run (merge_sort Z.le (aprefix (data h) size)) ops), h') /\
             heap_rep h' (snd (pq_run (merge_sort Z.le (aprefix (data h) size)) ops)).
Proof.
  intros Hl Hsz Hf. destruct (heap_build_rep h size Hl Hsz) as (h0 & -> & Hr). cbn [rbind].
  by apply heap_run_rep.
Qed.

(** The ids 9, 8, ... 5 as in the unit test, with a push in between. *)
Definition sample_heap : heapqueue_t :=
  Heapqueue 0 (foldr (fun i d => aset d i (9 - i)) (amake HEAPSIZE 0) [0; 1; 2; 3; 4]).

Lemma heap_refines_priority_queue_witness :
  let ops := [HeapPop; HeapPop; HeapPush 3; HeapPop; HeapPop; HeapPop; HeapPop; HeapPop] in
  fst (pq_run (merge_sort Z.le (aprefix (data sample_heap) 5)) ops) = [5; 6; 3; 7; 8; 9; 0] /\
  exists h', (let! h0 := heap_build sample_heap 5 in heap_run h0 ops) =
               Ok (fst (pq_run (merge_sort Z.le (aprefix (data sample_heap) 5)) ops), h') /\
             heap_rep h' (snd (pq_run (merge_sort Z.le (aprefix (data sample_heap) 5)) ops)).
Proof.
  intros ops. split; [vm_compute; reflexivity|].
  apply (heap_refines_priority_queue sample_heap 5 ops).
  - reflexivity.
  - vm_compute. split; discriminate.
  - vm_compute. repeat split.
Defined.
