(* ===== verification/Ringbuffer.v ===== *)
(** * Ring buffers ([datastructures/mk_ringbuffer.h])

    The macro [MK_RINGBUFFER_IMPL(name, itemtype, size, stat)] is a section over
    [itemtype] and [size]; its three instances carry the packet, data plane and
    DNS commands between the threads. The functions are modelled as the critical
    section they execute ([RingbufferConc] interleaves them); the statistics
    counter of dropped items is part of the state. The specification is a bounded
    FIFO queue. *)

From S2P Require Import Prelude Structs.

Record ringbuffer_t (itemtype : Type) : Type := Ringbuffer {
  head : Z;
  tail : Z;
  empty : bool;
  full : bool;
  rb_data : arr itemtype;
  dropped : Z;
  rb_stat : Z }.
Arguments Ringbuffer {itemtype} _ _ _ _ _ _ _.
Arguments head {itemtype} _.
Arguments tail {itemtype} _.
Arguments empty {itemtype} _.
Arguments full {itemtype} _.
Arguments rb_data {itemtype} _.
Arguments dropped {itemtype} _.
Arguments rb_stat {itemtype} _.

Section ringbuffer.
Context {itemtype : Type} (size : Z).
Implicit Types (rb : ringbuffer_t itemtype) (item : itemtype).

(** ** Operations *)

Definition ringbuffer_init rb : ringbuffer_t itemtype :=
  Ringbuffer 0 0 true false (rb_data rb) 0 (rb_stat rb).

Definition ringbuffer_empty rb : bool := empty rb.
Definition ringbuffer_full rb : bool := full rb.

Definition ringbuffer_length rb : Z :=
  if full rb then size else u32 (u32 (head rb + size) - tail rb) mod size.

(** [INC_STAT(stat)]. *)
Definition inc_stat rb : ringbuffer_t itemtype :=
  Ringbuffer (head rb) (tail rb) (empty rb) (full rb) (rb_data rb) (dropped rb)
             (u32 (rb_stat rb + 1)).

(** Returns the status and what is written to the result pointer. *)
Definition ringbuffer_get rb : res (Z * option itemtype * ringbuffer_t itemtype) :=
  if empty rb then Ok (-1, None, rb)
  else
    let! item := rd (rb_data rb) (tail rb) in
    let tail' := u32 (tail rb + 1) mod size in
    Ok (0, Some item,
        Ringbuffer (head rb) tail' (head rb =? tail') false (rb_data rb) (dropped rb) (rb_stat rb)).

(** The stores of the critical section of both [put] functions. *)
Definition ringbuffer_store rb item : res (ringbuffer_t itemtype) :=
  let! d := wr (rb_data rb) (head rb) item in
  let head' := u32 (head rb + 1) mod size in
  Ok (Ringbuffer head' (tail rb) false (head' =? tail rb) d (dropped rb) (rb_stat rb)).

Definition ringbuffer_put rb item : res (Z * ringbuffer_t itemtype) :=
  if full rb then Ok (1, inc_stat rb)
  else
    let! rb' := ringbuffer_store rb item in
    Ok (0, rb').

(** Spins while the buffer is full. *)
Definition ensure_put_body item rb : res (ringbuffer_t itemtype + ringbuffer_t itemtype) :=
  if full rb then Ok (inl rb)
  else
    let! rb' := ringbuffer_store rb item in
    Ok (inr rb').
Definition ringbuffer_ensure_put rb item : res (ringbuffer_t itemtype) :=
  while (ensure_put_body item) rb.

(** ** Specification: a bounded FIFO queue *)

Definition queue_put (q : list itemtype) item : Z * list itemtype :=
  if decide (Z.of_nat (length q) = size) then (1, q) else (0, q ++ [item]).
Definition queue_get (q : list itemtype) : Z * option itemtype * list itemtype :=
  match q with [] => (-1, None, []) | x :: q' => (0, Some x, q') end.

(** The refinement relation: [q] lies in the slots [tail .. head] modulo [size],
    and the two flags say what the equal indices of an empty and of a full
    buffer cannot. *)
Record rb_rep rb (q : list itemtype) : Prop := RbRep {
  rep_alen : alen (rb_data rb) = size;
  rep_tail : 0 <= tail rb < size;
  rep_length : Z.of_nat (length q) <= size;
  rep_head : head rb = (tail rb + Z.of_nat (length q)) mod size;
  rep_empty : empty rb = bool_decide (q = []);
  rep_full : full rb = bool_decide (Z.of_nat (length q) = size);
  rep_items : forall k x, q !! k = Some x ->
    aget (rb_data rb) ((tail rb + Z.of_nat k) mod size) = x }.

Context (size_pos : 0 < size < 2 ^ 31).

Lemma rb_rep_init rb : alen (rb_data rb) = size -> rb_rep (ringbuffer_init rb) [].
Proof using size_pos.
  intros Hl. split; cbn [head tail empty full rb_data ringbuffer_init length]; try done; try lia.
  by rewrite bool_decide_false by lia.
Qed.

Lemma rep_head_bound rb q : rb_rep rb q -> 0 <= head rb < size.
Proof using size_pos. intros []. rewrite rep_head0. apply Z.mod_pos_bound. lia. Qed.

(** [(i + 1) % size] stays in range without wrapping [uint32_t]. *)
Lemma next_index i : 0 <= i < size -> u32 (i + 1) mod size = (i + 1) mod size.
Proof using size_pos. intros. rewrite u32_small by lia. done. Qed.

(** A slot further on is another slot. *)
Lemma mod_offset_ne t a b :
  0 <= a < size -> 0 <= b < size -> a <> b -> (t + a) mod size <> (t + b) mod size.
Proof using size_pos.
  intros Ha Hb Hne E.
  assert ((t + a - (t + b)) mod size = 0) as Hz
    by (rewrite Zminus_mod, E, Z.sub_diag; apply Z.mod_0_l; lia).
  replace (t + a - (t + b)) with (a - b) in Hz by lia.
  apply Z.mod_divide in Hz; [|lia]. destruct Hz as [c Hc].
  assert (c <= -1 \/ c = 0 \/ 1 <= c) as [?|[->|?]] by lia; nia.
Qed.

Lemma length_rep rb q : rb_rep rb q -> ringbuffer_length rb = Z.of_nat (length q).
Proof using size_pos.
  intros Hr. pose proof (rep_head_bound _ _ Hr). destruct Hr. unfold ringbuffer_length.
  rewrite rep_full0. case_bool_decide; [done|].
  rewrite (u32_small (head rb + size)), u32_small by lia. rewrite rep_head0.
  rewrite Zminus_mod, Zplus_mod, Z_mod_same_full, Z.add_0_r, !Zmod_mod, <- Zminus_mod.
  replace (tail rb + Z.of_nat (length q) - tail rb) with (Z.of_nat (length q)) by lia.
  apply Z.mod_small. lia.
Qed.

Lemma store_rep rb q item :
  rb_rep rb q -> Z.of_nat (length q) < size ->
  exists rb', ringbuffer_store rb item = Ok rb' /\ rb_rep rb' (q ++ [item]) /\
              rb_stat rb' = rb_stat rb.
Proof using size_pos.
  intros Hr Hlt. pose proof (rep_head_bound _ _ Hr). destruct Hr.
  unfold ringbuffer_store. rewrite wr_ok by lia. cbn [rbind]. eexists. split; [done|].
  split; [|done].
  assert (u32 (head rb + 1) mod size = (tail rb + Z.of_nat (length (q ++ [item]))) mod size) as Hh.
  { rewrite next_index by lia. rewrite rep_head0, Zplus_mod_idemp_l, length_app. simpl.
    f_equal. lia. }
  split; cbn [head tail empty full rb_data dropped rb_stat]; try done.
  - rewrite length_app. simpl. lia.
  - rewrite bool_decide_false; [done|]. by destruct q.
  - rewrite Hh. destruct (decide (Z.of_nat (length (q ++ [item])) = size)) as [E|E].
    + rewrite E, bool_decide_true by done.
      rewrite Zplus_mod, Z_mod_same_full, Z.add_0_r, Zmod_mod, Z.mod_small by lia. lia.
    + rewrite bool_decide_false by done. apply Z.eqb_neq. intros Et.
      rewrite length_app in *. simpl in *.
      apply (mod_offset_ne (tail rb) (Z.of_nat (length q + 1)) 0); try lia.
      by rewrite Z.add_0_r, (Z.mod_small (tail rb)) by lia.
  - intros k x [[Hlt' Hk]|[-> <-]]%lookup_snoc_Some.
    + rewrite aget_aset_ne; [by apply rep_items0|]. rewrite rep_head0.
      apply mod_offset_ne; lia.
    + by rewrite <- rep_head0, aget_aset_eq.
Qed.

Lemma put_rep rb q item :
  rb_rep rb q ->
  exists rb', ringbuffer_put rb item = Ok (fst (queue_put q item), rb') /\
    rb_rep rb' (snd (queue_put q item)).
Proof using size_pos.
  intros Hr. unfold ringbuffer_put, queue_put. rewrite (rep_full _ _ Hr).
  case_decide as E; [rewrite bool_decide_true by done|rewrite bool_decide_false by done].
  - eexists. split; [done|]. by destruct Hr.
  - pose proof (rep_length _ _ Hr).
    destruct (store_rep rb q item Hr) as (rb' & -> & ? & ?); [lia|]. by exists rb'.
Qed.

Lemma get_rep rb q :
  rb_rep rb q ->
  exists rb', ringbuffer_get rb = Ok (fst (queue_get q), rb') /\
    rb_rep rb' (snd (queue_get q)).
Proof using size_pos.
  intros Hr. pose proof (rep_head_bound _ _ Hr). unfold ringbuffer_get.
  rewrite (rep_empty _ _ Hr). destruct q as [|x q]; [by exists rb|].
  rewrite bool_decide_false by done. pose proof Hr as [].
  rewrite rd_ok by lia. cbn [rbind queue_get fst snd]. eexists. split.
  - pose proof (rep_items0 0%nat x eq_refl) as E.
    rewrite Z.add_0_r, Z.mod_small in E by lia. by rewrite E.
  - cbn [length] in *. rewrite (next_index (tail rb)) by lia.
    assert (head rb = ((tail rb + 1) mod size + Z.of_nat (length q)) mod size) as Hh.
    { rewrite rep_head0, Zplus_mod_idemp_l. f_equal. lia. }
    split; cbn [head tail empty full rb_data]; try done; try lia.
    + apply Z.mod_pos_bound. lia.
    + destruct q as [|y q].
      * rewrite bool_decide_true by done. apply Z.eqb_eq. rewrite Hh. simpl.
        by rewrite Z.add_0_r, Zmod_mod.
      * rewrite bool_decide_false by done. apply Z.eqb_neq. intros E. simpl in *.
        apply (mod_offset_ne ((tail rb + 1) mod size) (Z.of_nat (S (length q))) 0); try lia.
        rewrite <- Hh, E, Z.add_0_r. by rewrite Zmod_mod.
    + by rewrite bool_decide_false by lia.
    + intros k y Hk. rewrite Zplus_mod_idemp_l.
      rewrite <- (rep_items0 (S k) y) by done. do 2 f_equal. lia.
Qed.

(** ** Sequences of calls *)

Inductive rb_op : Type := OpPut (item : itemtype) | OpGet | OpLength | OpEmpty | OpFull.
Inductive rb_out : Type :=
  | OutPut (status : Z)
  | OutGet (status : Z) (item : option itemtype)
  | OutLength (n : Z)
  | OutFlag (b : bool).

Definition rb_exec rb (op : rb_op) : res (rb_out * ringbuffer_t itemtype) :=
  match op with
  | OpPut item => let! '(s, rb') := ringbuffer_put rb item in Ok (OutPut s, rb')
  | OpGet => let! '(s, x, rb') := ringbuffer_get rb in Ok (OutGet s x, rb')
  | OpLength => Ok (OutLength (ringbuffer_length rb), rb)
  | OpEmpty => Ok (OutFlag (ringbuffer_empty rb), rb)
  | OpFull => Ok (OutFlag (ringbuffer_full rb), rb)
  end.

Definition queue_exec (q : list itemtype) (op : rb_op) : rb_out * list itemtype :=
  match op with
  | OpPut item => let '(s, q') := queue_put q item in (OutPut s, q')
  | OpGet => let '(s, x, q') := queue_get q in (OutGet s x, q')
  | OpLength => (OutLength (Z.of_nat (length q)), q)
  | OpEmpty => (OutFlag (bool_decide (q = [])), q)
  | OpFull => (OutFlag (bool_decide (Z.of_nat (length q) = size)), q)
  end.

Fixpoint rb_run rb (ops : list rb_op) : res (list rb_out * ringbuffer_t itemtype) :=
  match ops with
  | [] => Ok ([], rb)
  | op :: ops' =>
      let! '(o, rb') := rb_exec rb op in
      let! '(os, rb'') := rb_run rb' ops' in
      Ok (o :: os, rb'')
  end.

Fixpoint queue_run (q : list itemtype) (ops : list rb_op) : list rb_out * list itemtype :=
  match ops with
  | [] => ([], q)
  | op :: ops' =>
      let '(o, q') := queue_exec q op in
      let '(os, q'') := queue_run q' ops' in
      (o :: os, q'')
  end.

Lemma exec_rep rb q op :
  rb_rep rb q ->
  exists rb', rb_exec rb op = Ok (fst (queue_exec q op), rb') /\ rb_rep rb' (snd (queue_exec q op)).
Proof using size_pos.
  intros Hr. destruct op as [item| | | |]; simpl.
  - destruct (put_rep rb q item Hr) as (rb' & -> & Hr'). simpl. exists rb'.
    by destruct (queue_put q item).
  - destruct (get_rep rb q Hr) as (rb' & -> & Hr'). simpl. exists rb'.
    by destruct (queue_get q) as [[] ].
  - exists rb. by rewrite (length_rep rb q).
  - exists rb. unfold ringbuffer_empty. by rewrite (rep_empty rb q).
  - exists rb. unfold ringbuffer_full. by rewrite (rep_full rb q).
Qed.

Lemma run_rep rb q ops :
  rb_rep rb q ->
  exists rb', rb_run rb ops = Ok (fst (queue_run q ops), rb') /\
    rb_rep rb' (snd (queue_run q ops)).
Proof using size_pos.
  revert rb q. induction ops as [|op ops IH]; intros rb q Hr; simpl; [by exists rb|].
  destruct (exec_rep rb q op Hr) as (rb' & -> & Hr'). cbn [rbind].
  destruct (queue_exec q op) as [o q'] eqn:E. cbn [fst snd] in *.
  destruct (IH _ _ Hr') as (rb'' & -> & Hr''). cbn [rbind]. exists rb''.
  by destruct (queue_run q' ops).
Qed.
End ringbuffer.

Arguments rb_op itemtype : clear implicits.
Arguments rb_out itemtype : clear implicits.

(** ** The three instances *)

(** [RINGBUFFER_SIZE]s of [config.h] and [dns_ringbuffer.h] satisfy the bounds of
    the section. *)
Lemma ringbuffer_sizes :
  0 < PACKET_RINGBUFFER_SIZE < 2 ^ 31 /\ 0 < DATAPLANE_RINGBUFFER_SIZE < 2 ^ 31 /\
  0 < DNS_RINGBUFFER_SIZE < 2 ^ 31.
Proof. done. Qed.

Lemma dp_ring_size : 0 < DATAPLANE_RINGBUFFER_SIZE < 2 ^ 31.
Proof. done. Qed.

Definition static_ringbuffer {A} (size : Z) (zero : A) : ringbuffer_t A :=
  Ringbuffer 0 0 false false (amake size zero) 0 0.

Notation packet_ring := (ringbuffer_t packet_item_t).

Definition empty_packet_ring : packet_ring :=
  ringbuffer_init (static_ringbuffer PACKET_RINGBUFFER_SIZE (PKT_TIMEOUT_FLOW 0)).
Lemma empty_packet_ring_rep : rb_rep PACKET_RINGBUFFER_SIZE empty_packet_ring [].
Proof. apply rb_rep_init; [apply ringbuffer_sizes|done]. Qed.

(** [ensure_put] with and without room. *)
Lemma ensure_put_ok {A} (size : Z) (rb : ringbuffer_t A) q item :
  0 < size < 2 ^ 31 -> rb_rep size rb q -> Z.of_nat (length q) < size ->
  exists rb', ringbuffer_ensure_put size rb item = Ok rb' /\ rb_rep size rb' (q ++ [item]) /\
              rb_stat rb' = rb_stat rb.
Proof.
  intros Hs Hr Hq. destruct (store_rep size Hs rb q item Hr Hq) as (rb' & E & Hr' & Hst).
  apply (while_rule (eq rb) (fun r => rb_rep size r (q ++ [item]) /\ rb_stat r = rb_stat rb)
           (fun _ => 0)); [done| |done|lia].
  intros ? <-. left. exists rb'. unfold ensure_put_body.
  rewrite (rep_full _ _ _ Hr), bool_decide_false, E by lia. done.
Qed.

Lemma ensure_put_full {A} (size : Z) (rb : ringbuffer_t A) q item :
  rb_rep size rb q -> Z.of_nat (length q) = size -> ringbuffer_ensure_put size rb item = Hang.
Proof.
  intros Hr Hq. apply (while_hang (eq rb)); [|done]. intros ? <-. exists rb. split; [|done].
  unfold ensure_put_body. by rewrite (rep_full _ _ _ Hr), bool_decide_true.
Qed.

(** The consumer loop of the threads, [while (get(&item) == 0) handle(item)], until the
    ring buffer is empty. *)
Definition ring_drain_body {A S} (size : Z) (handle : A -> S -> res S) (p : S * ringbuffer_t A)
    : res (S * ringbuffer_t A + S * ringbuffer_t A) :=
  let '(st, ring) := p in
  let! '(ret, item, ring) := ringbuffer_get size ring in
  match item with
  | Some item =>
      let! st := handle item st in
      Ok (inl (st, ring))
  | None => Ok (inr (st, ring))
  end.
Definition ring_drain {A S} (size : Z) (handle : A -> S -> res S) (st : S) (ring : ringbuffer_t A)
    : res (S * ringbuffer_t A) :=
  while (ring_drain_body size handle) (st, ring).

(** It handles the items in the order of the queue and returns. *)
Lemma ring_drain_ok {A S} (size : Z) (handle : A -> S -> res S) q st ring st' :
  0 < size < 2 ^ 31 -> rb_rep size ring q -> foldM handle q st = Ok st' ->
  exists ring', ring_drain size handle st ring = Ok (st', ring') /\ rb_rep size ring' [].
Proof.
  intros Hs Hr Hrun.
  destruct (while_rule
    (fun p : S * ringbuffer_t A => exists q, rb_rep size p.2 q /\ foldM handle q p.1 = Ok st')
    (fun p => p.1 = st' /\ rb_rep size p.2 [])
    (fun p => ringbuffer_length size p.2) (ring_drain_body size handle)) with (s := (st, ring))
    as ([st1 ring'] & E & [E1 E2]).
  - intros [st0 r0] (q0 & Hr0 & _). cbn [fst snd] in *. rewrite (length_rep _ Hs _ _ Hr0). lia.
  - intros [st0 r0] (q0 & Hr0 & Hrun0). cbn [fst snd] in *.
    destruct (get_rep _ Hs _ _ Hr0) as (r1 & Eg & Hr1). unfold ring_drain_body. rewrite Eg.
    destruct q0 as [|c q0]; cbn [queue_get fst snd rbind] in *.
    + left. eexists. split; [reflexivity|]. cbn in *. by injection Hrun0 as ->.
    + right. cbn [foldM] in Hrun0. apply rbind_Ok in Hrun0 as (st1 & -> & Hrun1). cbn [rbind].
      eexists. split; [reflexivity|]. split; [by exists q0|].
      cbn [snd]. rewrite (length_rep _ Hs _ _ Hr0), (length_rep _ Hs _ _ Hr1). cbn [length]. lia.
  - cbn [fst snd]. by exists q.
  - cbn [snd]. rewrite (length_rep _ Hs _ _ Hr). pose proof (rep_length _ _ _ Hr). lia.
  - cbn [fst snd] in *. subst. exists ring'. by split.
Qed.

(** ** Properties *)

(** Claim C17. After initialisation, any sequence of calls of the ring buffer
    functions returns exactly what a FIFO queue bounded by [size] returns: items
    come out in the order they were put, [put] reports 1 and drops the item
    exactly when [size] items are pending, [get] reports -1 exactly when none
    is, and [length], [empty] and [full] agree; no access is out of bounds. *)
Theorem ringbuffer_refines_queue {A} (size : Z) (zero : A) (ops : list (rb_op A)) :
  0 < size < 2 ^ 31 ->
  exists rb', rb_run size (ringbuffer_init (static_ringbuffer size zero)) ops =
              Ok (fst (queue_run size [] ops), rb') /\
              rb_rep size rb' (snd (queue_run size [] ops)).
Proof. intros Hs. by apply run_rep, rb_rep_init. Qed.

Lemma ringbuffer_refines_queue_witness :
  fst (queue_run 2 [] [OpPut 5; OpPut 6; OpPut 7; OpGet; OpLength; OpPut 8; OpGet; OpGet; OpGet]) =
    [OutPut 0; OutPut 0; OutPut 1; OutGet 0 (Some 5); OutLength 1; OutPut 0;
     OutGet 0 (Some 6); OutGet 0 (Some 8); OutGet (-1) None] /\
  exists rb', rb_run 2 (ringbuffer_init (static_ringbuffer 2 0))
      [OpPut 5; OpPut 6; OpPut 7; OpGet; OpLength; OpPut 8; OpGet; OpGet; OpGet] =
    Ok (fst (queue_run 2 [] [OpPut 5; OpPut 6; OpPut 7; OpGet; OpLength; OpPut 8; OpGet; OpGet; OpGet]), rb') /\
    rb_rep 2 rb' (snd (queue_run 2 [] [OpPut 5; OpPut 6; OpPut 7; OpGet; OpLength; OpPut 8; OpGet; OpGet; OpGet])).
Proof. split; [reflexivity|]. apply (ringbuffer_refines_queue 2 0). lia. Defined.

(** Claim C29. [ensure_put] never drops: with room it stores the item at the end
    of the queue, and on a full buffer that no consumer drains it spins forever. *)
Theorem ringbuffer_ensure_put_spec {A} (size : Z) (rb : ringbuffer_t A) q item :
  0 < size < 2 ^ 31 -> rb_rep size rb q ->
  (Z.of_nat (length q) < size ->
   exists rb', ringbuffer_ensure_put size rb item = Ok rb' /\ rb_rep size rb' (q ++ [item]) /\
               rb_stat rb' = rb_stat rb) /\
  (Z.of_nat (length q) = size -> ringbuffer_ensure_put size rb item = Hang).
Proof.
  intros Hs Hr. split; intros Hq; [by apply ensure_put_ok|by apply (ensure_put_full size rb q)].
Qed.

Lemma ringbuffer_ensure_put_spec_witness :
  let rb := ringbuffer_init (static_ringbuffer 1 0) in
  (Z.of_nat (length (@nil Z)) < 1 ->
   exists rb', ringbuffer_ensure_put 1 rb 7 = Ok rb' /\ rb_rep 1 rb' ([] ++ [7]) /\
               rb_stat rb' = rb_stat rb) /\
  (Z.of_nat (length (@nil Z)) = 1 -> ringbuffer_ensure_put 1 rb 7 = Hang).
Proof.
  apply (ringbuffer_ensure_put_spec 1 _ [] 7); [lia|]. apply rb_rep_init; [lia|reflexivity].
Defined.
