(* ===== verification/RingbufferConc.v ===== *)
(** * The ring buffer between threads ([datastructures/mk_ringbuffer.h])

    The three functions of the macro as they interleave: the flags are read without
    the lock, and inside of the critical section each store is a step of its own. The
    model is a step relation; [conc_put] and [conc_got] record the items whose put
    succeeded and those that [get] returned, in order. The counter of dropped items,
    which the threads increment without the lock, is left out. *)

From S2P Require Import Prelude Structs Ringbuffer.

(** ** Threads *)

Section threads.
Context {A : Type} (size : Z).
Implicit Types (rb : ringbuffer_t A).

(** The stores of the critical section of the puts, in the order of the code. *)
Inductive put_store : Type := StoreItem (item : A) | StoreHead | StoreFull | StoreEmpty.
(** Those of [get]; the local item is there once it is copied. *)
Inductive get_store : Type := LoadItem | StoreTail (item : A) | StoreGetEmpty (item : A) | StoreGetFull (item : A).

(** A producer: [ensure] tells [ensure_put] from [put]. *)
Inductive producer : Type :=
  | PIdle
  | PCheck (ensure : bool) (item : A)
  | PLock (ensure : bool) (item : A)
  | PTest (ensure : bool) (item : A)
  | PStores (s : put_store)
  | PUnlock.

Inductive consumer : Type :=
  | GIdle
  | GCheck
  | GLock
  | GStores (s : get_store)
  | GUnlock (item : A).

Inductive holder : Type := Producer (n : nat) | Consumer (n : nat).

Record conc : Type := Conc {
  mem : ringbuffer_t A;
  lock : option holder;
  producers : nat -> producer;
  consumers : nat -> consumer;
  conc_put : list A;
  conc_got : list A }.

Definition set_head (h : Z) (rb : ringbuffer_t A) := Ringbuffer h (tail rb) (empty rb) (full rb) (rb_data rb) (dropped rb) (rb_stat rb).
Definition set_tail (t : Z) (rb : ringbuffer_t A) := Ringbuffer (head rb) t (empty rb) (full rb) (rb_data rb) (dropped rb) (rb_stat rb).
Definition set_empty (b : bool) (rb : ringbuffer_t A) := Ringbuffer (head rb) (tail rb) b (full rb) (rb_data rb) (dropped rb) (rb_stat rb).
Definition set_full (b : bool) (rb : ringbuffer_t A) := Ringbuffer (head rb) (tail rb) (empty rb) b (rb_data rb) (dropped rb) (rb_stat rb).
Definition set_data (d : arr A) (rb : ringbuffer_t A) := Ringbuffer (head rb) (tail rb) (empty rb) (full rb) d (dropped rb) (rb_stat rb).

(** One store: the memory, and what the thread does next. *)
Definition put_micro (s : put_store) (rb : ringbuffer_t A) : res (ringbuffer_t A * producer) :=
  match s with
  | StoreItem item => let! d := wr (rb_data rb) (head rb) item in Ok (set_data d rb, PStores StoreHead)
  | StoreHead => Ok (set_head (u32 (head rb + 1) mod size) rb, PStores StoreFull)
  | StoreFull => Ok (set_full (head rb =? tail rb) rb, PStores StoreEmpty)
  | StoreEmpty => Ok (set_empty false rb, PUnlock)
  end.
Definition get_micro (s : get_store) (rb : ringbuffer_t A) : res (ringbuffer_t A * consumer) :=
  match s with
  | LoadItem => let! item := rd (rb_data rb) (tail rb) in Ok (rb, GStores (StoreTail item))
  | StoreTail item => Ok (set_tail (u32 (tail rb + 1) mod size) rb, GStores (StoreGetEmpty item))
  | StoreGetEmpty item => Ok (set_empty (head rb =? tail rb) rb, GStores (StoreGetFull item))
  | StoreGetFull item => Ok (set_full false rb, GUnlock item)
  end.

Definition at_ {B} (f : nat -> B) (n : nat) (v : B) : nat -> B := fun m => if decide (m = n) then v else f m.

Definition with_producer (n : nat) (p : producer) (c : conc) : conc :=
  Conc (mem c) (lock c) (at_ (producers c) n p) (consumers c) (conc_put c) (conc_got c).
Definition with_consumer (n : nat) (g : consumer) (c : conc) : conc :=
  Conc (mem c) (lock c) (producers c) (at_ (consumers c) n g) (conc_put c) (conc_got c).
Definition with_mem (rb : ringbuffer_t A) (c : conc) : conc :=
  Conc rb (lock c) (producers c) (consumers c) (conc_put c) (conc_got c).
Definition with_lock (l : option holder) (c : conc) : conc :=
  Conc (mem c) l (producers c) (consumers c) (conc_put c) (conc_got c).
Definition log_put (item : A) (c : conc) : conc :=
  Conc (mem c) (lock c) (producers c) (consumers c) (conc_put c ++ [item]) (conc_got c).
Definition log_got (item : A) (c : conc) : conc :=
  Conc (mem c) (lock c) (producers c) (consumers c) (conc_put c) (conc_got c ++ [item]).

(** ** Steps

    [allowed n]: thread [n] may call [get]. A successful put counts from its test under
    the lock, a get from its return. *)
Context (allowed : nat -> Prop).

Inductive step : conc -> conc -> Prop :=
  | put_call c n ensure item :
      producers c n = PIdle -> step c (with_producer n (PCheck ensure item) c)
  | put_drop c n item :
      producers c n = PCheck false item -> full (mem c) = true -> step c (with_producer n PIdle c)
  | put_spin c n item :
      producers c n = PCheck true item -> full (mem c) = true -> step c c
  | put_check c n ensure item :
      producers c n = PCheck ensure item -> full (mem c) = false -> step c (with_producer n (PLock ensure item) c)
  | put_lock c n ensure item :
      producers c n = PLock ensure item -> lock c = None ->
      step c (with_lock (Some (Producer n)) (with_producer n (PTest ensure item) c))
  | put_full c n item :
      producers c n = PTest false item -> full (mem c) = true -> step c (with_lock None (with_producer n PIdle c))
  | put_again c n item :
      producers c n = PTest true item -> full (mem c) = true ->
      step c (with_lock None (with_producer n (PCheck true item) c))
  | put_test c n ensure item :
      producers c n = PTest ensure item -> full (mem c) = false ->
      step c (log_put item (with_producer n (PStores (StoreItem item)) c))
  | put_store_step c n s rb p :
      producers c n = PStores s -> put_micro s (mem c) = Ok (rb, p) -> step c (with_mem rb (with_producer n p c))
  | put_unlock c n :
      producers c n = PUnlock -> step c (with_lock None (with_producer n PIdle c))
  | get_call c n :
      allowed n -> consumers c n = GIdle -> step c (with_consumer n GCheck c)
  | get_empty c n :
      consumers c n = GCheck -> empty (mem c) = true -> step c (with_consumer n GIdle c)
  | get_check c n :
      consumers c n = GCheck -> empty (mem c) = false -> step c (with_consumer n GLock c)
  | get_lock c n :
      consumers c n = GLock -> lock c = None ->
      step c (with_lock (Some (Consumer n)) (with_consumer n (GStores LoadItem) c))
  | get_store_step c n s rb g :
      consumers c n = GStores s -> get_micro s (mem c) = Ok (rb, g) -> step c (with_mem rb (with_consumer n g c))
  | get_unlock c n item :
      consumers c n = GUnlock item -> step c (log_got item (with_lock None (with_consumer n GIdle c))).

Definition conc_init (rb : ringbuffer_t A) : conc :=
  Conc (ringbuffer_init rb) None (fun _ => PIdle) (fun _ => GIdle) [] [].

Inductive reaches : conc -> conc -> Prop :=
  | reaches_refl c : reaches c c
  | reaches_step c c1 c2 : reaches c c1 -> step c1 c2 -> reaches c c2.

(** A store that leaves the array. *)
Definition faults (c : conc) : Prop :=
  (exists n s, producers c n = PStores s /\ ~ is_Ok (put_micro s (mem c))) \/
  (exists n s, consumers c n = GStores s /\ ~ is_Ok (get_micro s (mem c))).

(** ** Invariant *)

(** What remains of a critical section. *)
Definition run_put (s : put_store) (rb : ringbuffer_t A) : res (ringbuffer_t A) :=
  match s with
  | StoreItem item => ringbuffer_store size rb item
  | StoreHead => let h := u32 (head rb + 1) mod size in
                 Ok (set_empty false (set_full (h =? tail rb) (set_head h rb)))
  | StoreFull => Ok (set_empty false (set_full (head rb =? tail rb) rb))
  | StoreEmpty => Ok (set_empty false rb)
  end.
Definition run_get (s : get_store) (rb : ringbuffer_t A) : res (A * ringbuffer_t A) :=
  match s with
  | LoadItem =>
      let! item := rd (rb_data rb) (tail rb) in
      let t := u32 (tail rb + 1) mod size in
      Ok (item, Ringbuffer (head rb) t (head rb =? t) false (rb_data rb) (dropped rb) (rb_stat rb))
  | StoreTail item =>
      let t := u32 (tail rb + 1) mod size in
      Ok (item, Ringbuffer (head rb) t (head rb =? t) false (rb_data rb) (dropped rb) (rb_stat rb))
  | StoreGetEmpty item => Ok (item, set_full false (set_empty (head rb =? tail rb) rb))
  | StoreGetFull item => Ok (item, set_full false rb)
  end.

Lemma run_put_micro s rb rb' :
  run_put s rb = Ok rb' ->
  exists rb1 p, put_micro s rb = Ok (rb1, p) /\
    ((exists s', p = PStores s' /\ run_put s' rb1 = Ok rb') \/ (p = PUnlock /\ rb1 = rb')).
Proof using.
  destruct s as [item| | |]; cbn [run_put put_micro]; intros E.
  - unfold ringbuffer_store in E. destruct (wr _ _ _) as [d| |]; [|done|done].
    cbn [rbind] in *. injection E as <-. do 2 eexists. split; [reflexivity|]. left. eexists. split; [reflexivity|].
    done.
  - injection E as <-. do 2 eexists. split; [reflexivity|]. left. by eexists.
  - injection E as <-. do 2 eexists. split; [reflexivity|]. left. by eexists.
  - injection E as <-. do 2 eexists. split; [reflexivity|]. by right.
Qed.

Lemma run_get_micro s rb item rb' :
  run_get s rb = Ok (item, rb') ->
  exists rb1 g, get_micro s rb = Ok (rb1, g) /\
    ((exists s', g = GStores s' /\ run_get s' rb1 = Ok (item, rb')) \/ (g = GUnlock item /\ rb1 = rb')).
Proof using.
  destruct s as [|x|x|x]; cbn [run_get get_micro]; intros E.
  - destruct (rd _ _) as [x| |]; [|done|done].
    cbn [rbind] in *. injection E as <- <-. do 2 eexists. split; [reflexivity|]. left. by eexists.
  - injection E as <- <-. do 2 eexists. split; [reflexivity|]. left. by eexists.
  - injection E as <- <-. do 2 eexists. split; [reflexivity|]. left. by eexists.
  - injection E as <- <-. do 2 eexists. split; [reflexivity|]. by right.
Qed.

(** *** One consumer *)

Implicit Types (c : conc) (q : list A).
Context (size_pos : 0 < size < 2 ^ 31) (single : forall n, allowed n -> n = 0%nat).

Definition p_critical (p : producer) : bool :=
  match p with PTest _ _ | PStores _ | PUnlock => true | _ => false end.
Definition g_critical (g : consumer) : bool :=
  match g with GStores _ | GUnlock _ => true | _ => false end.

(** The memory and the queue [q], by what the thread that holds the lock is doing: a put
    has put its item in [q], a get has taken its item from [q]. *)
Definition held (c : conc) (q : list A) : Prop :=
  match lock c with
  | None => rb_rep size (mem c) q /\ conc_put c = conc_got c ++ q
  | Some (Producer n) =>
      conc_put c = conc_got c ++ q /\
      match producers c n with
      | PTest _ _ | PUnlock => rb_rep size (mem c) q
      | PStores s => q <> [] /\ exists rb, run_put s (mem c) = Ok rb /\ rb_rep size rb q
      | _ => False
      end
  | Some (Consumer n) =>
      n = 0%nat /\
      match consumers c n with
      | GStores s => exists item rb, run_get s (mem c) = Ok (item, rb) /\ rb_rep size rb q /\
                       conc_put c = conc_got c ++ item :: q
      | GUnlock item => rb_rep size (mem c) q /\ conc_put c = conc_got c ++ item :: q
      | _ => False
      end
  end.

Record conc_inv (c : conc) (q : list A) : Prop := ConcInv {
  iv_held : held c q;
  iv_producers : forall n, p_critical (producers c n) = true -> lock c = Some (Producer n);
  iv_consumers : forall n, g_critical (consumers c n) = true -> lock c = Some (Consumer n);
  iv_single : forall n, consumers c n <> GIdle -> n = 0%nat;
  iv_flag : lock c <> Some (Consumer 0) -> empty (mem c) = false -> q <> [];
  iv_ready : consumers c 0 = GLock -> q <> [] }.

Lemma at_eq {B} (f : nat -> B) n v : at_ f n v n = v.
Proof using. unfold at_. by rewrite decide_True. Qed.
Lemma at_ne {B} (f : nat -> B) n m v : m <> n -> at_ f n v m = f m.
Proof using. intros. unfold at_. by rewrite decide_False. Qed.

Lemma rep_flag rb q : rb_rep size rb q -> empty rb = false -> q <> [].
Proof using. intros Hr He ->. rewrite (rep_empty _ _ _ Hr) in He. by rewrite bool_decide_true in He. Qed.

(** A producer outside of the critical section moves. *)
Lemma inv_producer c q n p :
  conc_inv c q -> p_critical (producers c n) = false -> p_critical p = false -> conc_inv (with_producer n p c) q.
Proof using.
  intros [Hh Hp Hg Hs Hf Hr] Hn Hnp. split; try done.
  - unfold held in *. cbn [lock with_producer mem producers consumers conc_put conc_got].
    destruct (lock c) as [[m|m]|]; [|done|done]. rewrite at_ne; [done|]. intros ->.
    destruct Hh as [_ Hh]. by destruct (producers c n).
  - intros m. cbn [producers with_producer lock]. unfold at_. case_decide; [|apply Hp]. by rewrite Hnp.
Qed.

(** The consumer outside of the critical section moves. *)
Lemma inv_consumer c q g :
  conc_inv c q -> g_critical (consumers c 0) = false -> g_critical g = false -> (g = GLock -> q <> []) ->
  conc_inv (with_consumer 0 g c) q.
Proof using.
  intros [Hh Hp Hg Hs Hf Hr] Hn Hng Hl. split; try done.
  - unfold held in *. cbn [lock with_consumer mem producers consumers conc_put conc_got].
    destruct (lock c) as [[m|m]|]; [done| |done]. destruct Hh as [-> Hh]. by destruct (consumers c 0).
  - intros m. cbn [consumers with_consumer lock]. unfold at_. case_decide; [|apply Hg]. by rewrite Hng.
  - intros m. cbn [consumers with_consumer]. unfold at_. case_decide; [done|apply Hs].
Qed.

(** The producer that holds the lock moves on, or leaves. *)
Lemma inv_holder c q n p rb q' puts l :
  conc_inv c q -> p_critical (producers c n) = true ->
  let c' := Conc rb l (at_ (producers c) n p) (consumers c) puts (conc_got c) in
  held c' q' -> (l = Some (Producer n) \/ l = None /\ p_critical p = false) ->
  (empty rb = false -> q' <> []) -> (q <> [] -> q' <> []) -> conc_inv c' q'.
Proof using.
  intros [Hh Hp Hg Hs Hf Hr] Hn c' Hh' Hl He Hq. pose proof (Hp n Hn) as Elk. split; cbn [c' lock mem producers consumers]; try done.
  - intros m. unfold at_. case_decide as Em.
    + subst m. destruct Hl as [-> |[-> E]]; [done|]. by rewrite E.
    + intros Hm%Hp. congruence.
  - intros m Hm%Hg. congruence.
  - auto.
Qed.

Lemma full_room rb q : rb_rep size rb q -> full rb = false -> Z.of_nat (length q) < size.
Proof using.
  intros Hr Hf. rewrite (rep_full _ _ _ Hr) in Hf. apply bool_decide_eq_false in Hf.
  pose proof (rep_length _ _ _ Hr). lia.
Qed.

(** What the invariant says of a producer in the critical section. *)
Lemma held_producer c q n :
  conc_inv c q -> p_critical (producers c n) = true ->
  conc_put c = conc_got c ++ q /\
  match producers c n with
  | PTest _ _ | PUnlock => rb_rep size (mem c) q
  | PStores s => q <> [] /\ exists rb, run_put s (mem c) = Ok rb /\ rb_rep size rb q
  | _ => False
  end.
Proof using. intros [Hh Hp _ _ _ _] Hn. unfold held in Hh. by rewrite (Hp n Hn) in Hh. Qed.

Lemma held_consumer c q n :
  conc_inv c q -> g_critical (consumers c n) = true ->
  match consumers c n with
  | GStores s => exists item rb, run_get s (mem c) = Ok (item, rb) /\ rb_rep size rb q /\
                   conc_put c = conc_got c ++ item :: q
  | GUnlock item => rb_rep size (mem c) q /\ conc_put c = conc_got c ++ item :: q
  | _ => False
  end.
Proof using. intros [Hh _ Hg _ _ _] Hn. unfold held in Hh. rewrite (Hg n Hn) in Hh. by destruct Hh as [-> Hh]. Qed.

(** The consumer that holds the lock moves on, or leaves. *)
Lemma inv_taker c q n g rb l got :
  conc_inv c q -> g_critical (consumers c n) = true ->
  let c' := Conc rb l (producers c) (at_ (consumers c) n g) (conc_put c) got in
  held c' q -> (l = Some (Consumer n) \/ l = None /\ g_critical g = false) ->
  (l = None -> empty rb = false -> q <> []) -> g <> GLock -> conc_inv c' q.
Proof using.
  intros [Hh Hp Hg Hs Hf Hr] Hn c' Hh' Hl He Hq. pose proof (Hg n Hn) as Elk.
  assert (n = 0%nat) as -> by (apply Hs; by destruct (consumers c n)).
  split; cbn [c' lock mem producers consumers]; try done.
  - intros m Hm%Hp. congruence.
  - intros m. unfold at_. case_decide as Em.
    + subst m. destruct Hl as [-> |[-> E]]; [done|]. by rewrite E.
    + intros Hm%Hg. congruence.
  - intros m. unfold at_. case_decide; [done|apply Hs].
  - intros Hne. destruct Hl as [->|[-> _]]; [done|]. by apply He.
Qed.

Lemma critical_producer c n p : producers c n = p -> p_critical p = true -> p_critical (producers c n) = true.
Proof using. by intros ->. Qed.
Lemma critical_consumer c n g : consumers c n = g -> g_critical g = true -> g_critical (consumers c n) = true.
Proof using. by intros ->. Qed.
Lemma outside_producer c n p : producers c n = p -> p_critical p = false -> p_critical (producers c n) = false.
Proof using. by intros ->. Qed.

Lemma free_lock c q : conc_inv c q -> lock c = None -> rb_rep size (mem c) q /\ conc_put c = conc_got c ++ q.
Proof using. intros [Hh _ _ _ _ _] E. unfold held in Hh. by rewrite E in Hh. Qed.

(** Taking the lock. *)
Lemma inv_put_lock c q n ensure item :
  conc_inv c q -> lock c = None -> conc_inv (with_lock (Some (Producer n)) (with_producer n (PTest ensure item) c)) q.
Proof using.
  intros Hi El. pose proof (free_lock c q Hi El) as [Hr Hq]. destruct Hi as [_ Hp Hg Hs Hf Hrd].
  split; cbn [with_lock with_producer lock mem producers consumers].
  - unfold held. cbn [with_lock with_producer lock mem producers consumers conc_put conc_got]. by rewrite at_eq.
  - intros m. unfold at_. case_decide; [by subst|]. intros Hm%Hp. congruence.
  - intros m Hm%Hg. congruence.
  - exact Hs.
  - intros _. by apply rep_flag.
  - exact Hrd.
Qed.

Lemma inv_get_lock c q n :
  conc_inv c q -> consumers c n = GLock -> lock c = None ->
  exists q', conc_inv (with_lock (Some (Consumer n)) (with_consumer n (GStores LoadItem) c)) q'.
Proof using size_pos.
  intros Hi En El. pose proof (free_lock c q Hi El) as [Hr Hq]. destruct Hi as [_ Hp Hg Hs Hf Hrd].
  assert (n = 0%nat) as -> by (apply Hs; by rewrite En).
  destruct q as [|x q]; [by destruct (Hrd En)|]. exists q.
  destruct (get_rep size size_pos _ _ Hr) as (rb & Eg & Hrb). unfold ringbuffer_get in Eg.
  rewrite (rep_empty _ _ _ Hr), bool_decide_false in Eg by done.
  split; cbn [with_lock with_consumer lock mem producers consumers].
  - unfold held. cbn [with_lock with_consumer lock mem producers consumers conc_put conc_got]. rewrite at_eq.
    split; [done|]. cbn [queue_get fst snd] in *. apply rbind_Ok in Eg as (y & Ey & Eg). injection Eg as <- <-.
    exists y. eexists. split; [|split; [exact Hrb|exact Hq]]. cbn [run_get]. by rewrite Ey.
  - intros m Hm%Hp. congruence.
  - intros m. unfold at_. case_decide; [by subst|]. intros Hm%Hg. congruence.
  - intros m. unfold at_. case_decide; [done|apply Hs].
  - intros Hne. by destruct Hne.
  - by rewrite at_eq.
Qed.

(** The test under the lock is exact: there is room for the item. *)
Lemma inv_put_test c q n ensure item :
  conc_inv c q -> producers c n = PTest ensure item -> full (mem c) = false ->
  conc_inv (log_put item (with_producer n (PStores (StoreItem item)) c)) (q ++ [item]).
Proof using size_pos.
  intros Hi En Hf. pose proof (critical_producer c n _ En eq_refl) as Hc.
  destruct (held_producer c q n Hi Hc) as [Hq Hr]. rewrite En in Hr.
  destruct (store_rep size size_pos _ q item Hr (full_room _ _ Hr Hf)) as (rb & E & Hrb & _).
  assert (q ++ [item] <> []) as Hne by (by destruct q).
  apply (inv_holder c q n _ (mem c) _ (conc_put c ++ [item]) (lock c) Hi Hc); [| |done|done].
  - unfold held. cbn [lock mem producers consumers conc_put conc_got]. rewrite (iv_producers _ _ Hi n Hc), at_eq.
    split; [by rewrite Hq, app_assoc|]. split; [done|]. by exists rb.
  - left. by apply (iv_producers _ _ Hi).
Qed.

Lemma inv_put_store c q n s rb p :
  conc_inv c q -> producers c n = PStores s -> put_micro s (mem c) = Ok (rb, p) ->
  conc_inv (with_mem rb (with_producer n p c)) q.
Proof using.
  intros Hi En Em. pose proof (critical_producer c n _ En eq_refl) as Hc.
  destruct (held_producer c q n Hi Hc) as [Hq Hr]. rewrite En in Hr. destruct Hr as [Hne (rb' & Erun & Hrb)].
  destruct (run_put_micro _ _ _ Erun) as (rb1 & p1 & E1 & Hp1). rewrite Em in E1. injection E1 as <- <-.
  apply (inv_holder c q n p rb q (conc_put c) (lock c) Hi Hc); [| |done|done].
  - unfold held. cbn [lock mem producers consumers conc_put conc_got]. rewrite (iv_producers _ _ Hi n Hc), at_eq.
    split; [done|]. destruct Hp1 as [(s' & -> & E')|[-> ->]]; [|done]. split; [done|]. by exists rb'.
  - left. by apply (iv_producers _ _ Hi).
Qed.

Lemma inv_put_leave c q n p :
  conc_inv c q -> p_critical (producers c n) = true -> (forall s, producers c n <> PStores s) ->
  p_critical p = false -> conc_inv (with_lock None (with_producer n p c)) q.
Proof using.
  intros Hi Hc Hs Hp. destruct (held_producer c q n Hi Hc) as [Hq Hr].
  assert (rb_rep size (mem c) q) as Hrep by (destruct (producers c n); try done; by destruct (Hs s)).
  apply (inv_holder c q n p (mem c) q (conc_put c) None Hi Hc); [| |by apply rep_flag|done].
  - unfold held. by cbn [lock mem producers consumers conc_put conc_got].
  - by right.
Qed.

Lemma inv_get_store c q n s rb g :
  conc_inv c q -> consumers c n = GStores s -> get_micro s (mem c) = Ok (rb, g) ->
  conc_inv (with_mem rb (with_consumer n g c)) q.
Proof using.
  intros Hi En Em. pose proof (critical_consumer c n _ En eq_refl) as Hc.
  pose proof (held_consumer c q n Hi Hc) as Hr. rewrite En in Hr. destruct Hr as (item & rb' & Erun & Hrb & Hq).
  pose proof (iv_consumers _ _ Hi n Hc) as El. assert (n = 0%nat) as -> by (apply (iv_single _ _ Hi); by rewrite En).
  destruct (run_get_micro _ _ _ _ Erun) as (rb1 & g1 & E1 & Hg1). rewrite Em in E1. injection E1 as <- <-.
  apply (inv_taker c q 0 g rb (lock c) (conc_got c) Hi Hc).
  - unfold held. cbn [lock mem producers consumers conc_put conc_got]. rewrite El, at_eq.
    split; [done|]. destruct Hg1 as [(s' & -> & E')|[-> ->]]; [|done]. by exists item, rb'.
  - by left.
  - rewrite El. done.
  - by destruct Hg1 as [(s' & -> & _)|[-> _]].
Qed.

Lemma inv_get_leave c q n item :
  conc_inv c q -> consumers c n = GUnlock item ->
  conc_inv (log_got item (with_lock None (with_consumer n GIdle c))) q.
Proof using.
  intros Hi En. pose proof (critical_consumer c n _ En eq_refl) as Hc.
  pose proof (held_consumer c q n Hi Hc) as Hr. rewrite En in Hr. destruct Hr as [Hr Hq].
  apply (inv_taker c q n GIdle (mem c) None (conc_got c ++ [item]) Hi Hc); [|by right| |done].
  - unfold held. cbn [lock mem producers consumers conc_put conc_got]. split; [done|].
    by rewrite Hq, <- app_assoc.
  - intros _. by apply rep_flag.
Qed.

Lemma step_inv c c' q : conc_inv c q -> step c c' -> exists q', conc_inv c' q'.
Proof using size_pos single.
  intros Hi Hstep. destruct Hstep as
    [c n ensure item E|c n item E _|c n item E _|c n ensure item E _|c n ensure item E El|c n item E _|c n item E _
    |c n ensure item E Hf|c n s rb p E Em|c n E|c n Ha E|c n E He|c n E He|c n E El|c n s rb g E Em|c n item E].
  - exists q. by apply inv_producer; rewrite ?E.
  - exists q. by apply inv_producer; rewrite ?E.
  - by exists q.
  - exists q. by apply inv_producer; rewrite ?E.
  - exists q. by apply inv_put_lock.
  - exists q. by apply inv_put_leave; rewrite ?E.
  - exists q. by apply inv_put_leave; rewrite ?E.
  - exists (q ++ [item]). by apply (inv_put_test c q n ensure).
  - exists q. by apply (inv_put_store c q n s).
  - exists q. by apply inv_put_leave; rewrite ?E.
  - exists q. rewrite (single n Ha) in *. by apply inv_consumer; rewrite ?E.
  - exists q. assert (n = 0%nat) as -> by (apply (iv_single _ _ Hi); by rewrite E). by apply inv_consumer; rewrite ?E.
  - exists q. assert (n = 0%nat) as -> by (apply (iv_single _ _ Hi); by rewrite E).
    apply inv_consumer; rewrite ?E; try done. intros _. apply (iv_flag _ _ Hi); [|done]. intros El.
    pose proof (iv_held _ _ Hi) as Hh. unfold held in Hh. rewrite El, E in Hh. by destruct Hh.
  - by apply (inv_get_lock c q n).
  - exists q. by apply (inv_get_store c q n s).
  - exists q. by apply inv_get_leave.
Qed.

Lemma init_inv rb : alen (rb_data rb) = size -> conc_inv (conc_init rb) [].
Proof using size_pos.
  intros Hl. pose proof (rb_rep_init size size_pos rb Hl) as Hr. split; cbn; try done.
Qed.

Lemma reaches_inv c c' q : conc_inv c q -> reaches c c' -> exists q', conc_inv c' q'.
Proof using size_pos single.
  intros Hi Hr. induction Hr as [c|c c1 c2 _ IH Hs]; [by exists q|].
  destruct (IH Hi) as (q1 & Hi1). by apply (step_inv c1 c2 q1).
Qed.

Lemma inv_no_fault c q : conc_inv c q -> ~ faults c.
Proof using.
  intros Hi [(n & s & E & Hn)|(n & s & E & Hn)]; apply Hn.
  - destruct (held_producer c q n Hi (critical_producer c n _ E eq_refl)) as [_ Hr]. rewrite E in Hr.
    destruct Hr as [_ (rb & Erun & _)]. destruct (run_put_micro _ _ _ Erun) as (rb1 & p & -> & _). by eexists.
  - pose proof (held_consumer c q n Hi (critical_consumer c n _ E eq_refl)) as Hr. rewrite E in Hr.
    destruct Hr as (item & rb & Erun & _). destruct (run_get_micro _ _ _ _ Erun) as (rb1 & g & -> & _). by eexists.
Qed.

(** *** The lock is released *)

Definition p_rank (p : producer) : nat :=
  match p with
  | PTest _ _ => 5 | PStores (StoreItem _) => 4 | PStores StoreHead => 3 | PStores StoreFull => 2
  | PStores StoreEmpty => 1 | _ => 0
  end.
Definition g_rank (g : consumer) : nat :=
  match g with
  | GStores LoadItem => 4 | GStores (StoreTail _) => 3 | GStores (StoreGetEmpty _) => 2 | GStores (StoreGetFull _) => 1
  | _ => 0
  end.
Definition lock_rank (c : conc) : nat :=
  match lock c with
  | None => 0 | Some (Producer n) => S (p_rank (producers c n)) | Some (Consumer n) => S (g_rank (consumers c n))
  end.

Lemma put_micro_rank s rb rb' p : put_micro s rb = Ok (rb', p) -> (p_rank p < p_rank (PStores s))%nat.
Proof using.
  destruct s; cbn [put_micro]; [intros (d & _ & E)%rbind_Ok; injection E as <- <-|intros [= <- <-]..]; cbn; lia.
Qed.
Lemma get_micro_rank s rb rb' g : get_micro s rb = Ok (rb', g) -> (g_rank g < g_rank (GStores s))%nat.
Proof using.
  destruct s; cbn [get_micro]; [intros (d & _ & E)%rbind_Ok; injection E as <- <-|intros [= <- <-]..]; cbn; lia.
Qed.

(** The holder can always do its next step, which brings it closer to the release. *)
Lemma holder_step c q :
  conc_inv c q -> lock c <> None -> exists c', step c c' /\ (lock_rank c' < lock_rank c)%nat.
Proof using.
  intros Hi Hl. pose proof (inv_no_fault c q Hi) as Hnf. pose proof (iv_held _ _ Hi) as Hh. unfold held in Hh.
  unfold lock_rank. destruct (lock c) as [[n|n]|] eqn:El; [| |done].
  - destruct Hh as [_ Hh]. destruct (producers c n) as [|e x|e x|e x|s|] eqn:E; try done.
    + destruct (full (mem c)) eqn:Ef.
      * destruct e; eexists; (split; [by first [eapply put_again; done|eapply put_full; done]|]); cbn; lia.
      * eexists. split; [by eapply put_test|]. cbn [lock log_put with_producer producers]. rewrite El, at_eq. cbn. lia.
    + destruct (put_micro s (mem c)) as [[rb p]| |] eqn:Em;
        [|exfalso; apply Hnf; left; exists n, s; rewrite Em; split; [done|by intros []]..].
      eexists. split; [by eapply put_store_step|]. cbn [lock with_mem with_producer producers]. rewrite El, at_eq.
      apply put_micro_rank in Em. lia.
    + eexists. split; [by eapply put_unlock|]. cbn. lia.
  - destruct Hh as [-> Hh]. destruct (consumers c 0) as [| | |s|x] eqn:E; try done.
    + destruct (get_micro s (mem c)) as [[rb g]| |] eqn:Em;
        [|exfalso; apply Hnf; right; exists 0%nat, s; rewrite Em; split; [done|by intros []]..].
      eexists. split; [by eapply get_store_step|]. cbn [lock with_mem with_consumer consumers]. rewrite El, at_eq.
      apply get_micro_rank in Em. lia.
    + eexists. split; [by eapply get_unlock|]. cbn. lia.
Qed.

Lemma reaches_trans c c1 c2 : reaches c c1 -> reaches c1 c2 -> reaches c c2.
Proof using. intros H1 H2. induction H2; [done|]. eapply reaches_step; [by apply IHreaches|done]. Qed.

Lemma lock_released c q : conc_inv c q -> exists c', reaches c c' /\ lock c' = None.
Proof using size_pos single.
  remember (lock_rank c) as n eqn:En. revert c q En. induction (lt_wf n) as [n _ IH]. intros c q En Hi.
  destruct (lock c) eqn:El; [|exists c; split; [constructor|done]].
  destruct (holder_step c q Hi ltac:(congruence)) as (c1 & Hs & Hlt).
  destruct (step_inv c c1 q Hi Hs) as (q1 & Hi1).
  destruct (IH (lock_rank c1) ltac:(lia) c1 q1 eq_refl Hi1) as (c2 & Hr & E). exists c2. split; [|done].
  eapply reaches_trans; [|exact Hr]. eapply reaches_step; [constructor|exact Hs].
Qed.
End threads.

(** ** Schedules

    An executable scheduler: the next step of a thread, a call when it is idle. *)
Section schedules.
Context {A : Type} (size : Z).

Definition advance_producer (n : nat) (x : A) (c : conc) : option (conc (A := A)) :=
  match producers c n with
  | PIdle => Some (with_producer n (PCheck false x) c)
  | PCheck ensure item =>
      if full (mem c) then (if ensure then Some c else Some (with_producer n PIdle c))
      else Some (with_producer n (PLock ensure item) c)
  | PLock ensure item =>
      match lock c with None => Some (with_lock (Some (Producer n)) (with_producer n (PTest ensure item) c)) | _ => None end
  | PTest ensure item =>
      if full (mem c) then Some (with_lock None (with_producer n (if ensure then PCheck true item else PIdle) c))
      else Some (log_put item (with_producer n (PStores (StoreItem item)) c))
  | PStores s =>
      match put_micro size s (mem c) with Ok (rb, p) => Some (with_mem rb (with_producer n p c)) | _ => None end
  | PUnlock => Some (with_lock None (with_producer n PIdle c))
  end.

Definition advance_consumer (n : nat) (c : conc) : option (conc (A := A)) :=
  match consumers c n with
  | GIdle => Some (with_consumer n GCheck c)
  | GCheck => if empty (mem c) then Some (with_consumer n GIdle c) else Some (with_consumer n GLock c)
  | GLock =>
      match lock c with None => Some (with_lock (Some (Consumer n)) (with_consumer n (GStores LoadItem) c)) | _ => None end
  | GStores s =>
      match get_micro size s (mem c) with Ok (rb, g) => Some (with_mem rb (with_consumer n g c)) | _ => None end
  | GUnlock item => Some (log_got item (with_lock None (with_consumer n GIdle c)))
  end.

(** A schedule names the threads; [x] is the item of every call. *)
Fixpoint schedule (x : A) (l : list holder) (c : conc) : option conc :=
  match l with
  | [] => Some c
  | h :: l =>
      match match h with Producer n => advance_producer n x c | Consumer n => advance_consumer n c end with
      | Some c' => schedule x l c'
      | None => None
      end
  end.

Lemma advance_producer_step al n x c c' : advance_producer n x c = Some c' -> step size al c c'.
Proof.
  unfold advance_producer. destruct (producers c n) as [|e i|e i|e i|s|] eqn:E.
  - intros [= <-]. by apply put_call.
  - destruct (full (mem c)) eqn:Ef; [destruct e|]; intros [= <-];
      [by eapply put_spin|by eapply put_drop|by eapply put_check].
  - destruct (lock c) eqn:El; [done|]. intros [= <-]. by apply put_lock.
  - destruct (full (mem c)) eqn:Ef; [destruct e|]; intros [= <-];
      [by apply put_again|by eapply put_full|by eapply put_test].
  - destruct (put_micro size s (mem c)) as [[rb p]| |] eqn:Em; intros [= <-]. by eapply put_store_step.
  - intros [= <-]. by apply put_unlock.
Qed.

Lemma advance_consumer_step n (c c' : conc (A := A)) :
  advance_consumer n c = Some c' -> step size (fun _ => True) c c'.
Proof.
  unfold advance_consumer. destruct (consumers c n) as [| | |s|i] eqn:E.
  - intros [= <-]. by apply get_call.
  - destruct (empty (mem c)) eqn:Ef; intros [= <-]; [by apply get_empty|by apply get_check].
  - destruct (lock c) eqn:El; [done|]. intros [= <-]. by apply get_lock.
  - destruct (get_micro size s (mem c)) as [[rb g]| |] eqn:Em; intros [= <-]. by eapply get_store_step.
  - intros [= <-]. by apply get_unlock.
Qed.

Lemma schedule_reaches x l : forall c0 c c',
  reaches size (fun _ => True) c0 c -> schedule x l c = Some c' -> reaches size (fun _ => True) c0 c'.
Proof.
  induction l as [|h l IH]; intros c0 c c' Hr; cbn [schedule]; [by intros [= <-]|].
  destruct h as [n|n].
  - destruct (advance_producer n x c) as [c1|] eqn:E; [|done]. apply IH.
    eapply reaches_step; [exact Hr|]. by apply (advance_producer_step _ n x).
  - destruct (advance_consumer n c) as [c1|] eqn:E; [|done]. apply IH.
    eapply reaches_step; [exact Hr|]. by apply (advance_consumer_step n).
Qed.
End schedules.

(** ** Properties *)

(** Claim C9. With any number of producers, using [put] or [ensure_put], and a single
    consumer, every interleaving of the stores is safe: no store leaves the array, at
    most one thread is in the critical section, the items that [get] has returned are,
    in order, the first of those that were put successfully, whenever the lock is free
    the buffer represents the queue of the others, and the lock can always be released. *)
Theorem ring_buffer_single_consumer {A} (size : Z) (allowed : nat -> Prop) (rb : ringbuffer_t A) c :
  0 < size < 2 ^ 31 -> alen (rb_data rb) = size -> (forall n, allowed n -> n = 0%nat) ->
  reaches size allowed (conc_init rb) c ->
  ~ faults size c /\
  (forall n m, p_critical (producers c n) = true -> p_critical (producers c m) = true -> n = m) /\
  (forall n m, p_critical (producers c n) = true -> g_critical (consumers c m) = false) /\
  conc_got c `prefix_of` conc_put c /\
  (lock c = None -> exists q, rb_rep size (mem c) q /\ conc_put c = conc_got c ++ q) /\
  exists c', reaches size allowed c c' /\ lock c' = None.
Proof.
  intros Hs Hl H1 Hr. destruct (reaches_inv size allowed Hs H1 _ _ _ (init_inv size Hs rb Hl) Hr) as (q & Hi).
  split; [by apply (inv_no_fault size c q)|]. split; [|split; [|split; [|split]]].
  - intros n m Hn%(iv_producers _ _ _ Hi) Hm%(iv_producers _ _ _ Hi). congruence.
  - intros n m Hn%(iv_producers _ _ _ Hi). destruct (g_critical (consumers c m)) eqn:Em; [|done].
    apply (iv_consumers _ _ _ Hi) in Em. congruence.
  - pose proof (iv_held _ _ _ Hi) as Hh. unfold held in Hh. destruct (lock c) as [[n|n]|].
    + destruct Hh as [-> _]. by exists q.
    + destruct Hh as [-> Hh]. destruct (consumers c 0) as [| | |s|x]; try done.
      * destruct Hh as (x & _ & _ & _ & ->). by eexists.
      * destruct Hh as [_ ->]. by eexists.
    + destruct Hh as [_ ->]. by exists q.
  - intros El. exists q. by apply (free_lock size c q).
  - by apply (lock_released size allowed Hs H1 c q).
Qed.

Lemma ring_buffer_single_consumer_witness :
  exists c', reaches DATAPLANE_RINGBUFFER_SIZE (fun n => n = 0%nat)
    (with_producer 7 (PCheck true 42) (conc_init (static_ringbuffer DATAPLANE_RINGBUFFER_SIZE 0))) c' /\ lock c' = None.
Proof.
  destruct (ring_buffer_single_consumer DATAPLANE_RINGBUFFER_SIZE (fun n => n = 0%nat)
              (static_ringbuffer DATAPLANE_RINGBUFFER_SIZE 0)
              (with_producer 7 (PCheck true 42) (conc_init (static_ringbuffer DATAPLANE_RINGBUFFER_SIZE 0))))
    as (_ & _ & _ & _ & _ & c' & Hr & E).
  - exact dp_ring_size.
  - reflexivity.
  - intros n Hn. exact Hn.
  - eapply reaches_step; [apply reaches_refl|]. apply put_call. reflexivity.
  - exists c'. split; [exact Hr|exact E].
Defined.

(** The condition is needed: [get] tests [empty] without the lock and not
    again under it. With two consumers and one item both can pass the test; the second
    then returns whatever its slot holds, an item that was never put, and leaves an
    empty buffer that claims to hold all slots but one. *)
Theorem two_consumers_underflow {A} (x stale : A) :
  exists c, reaches DATAPLANE_RINGBUFFER_SIZE (fun _ => True)
      (conc_init (static_ringbuffer DATAPLANE_RINGBUFFER_SIZE stale)) c /\
    conc_put c = [x] /\ conc_got c = [x; stale] /\ lock c = None /\ empty (mem c) = false /\
    ringbuffer_length DATAPLANE_RINGBUFFER_SIZE (mem c) = DATAPLANE_RINGBUFFER_SIZE - 1.
Proof.
  set (l := repeat (Producer 0) 9 ++ [Consumer 0; Consumer 1; Consumer 0; Consumer 1] ++
            repeat (Consumer 0) 6 ++ repeat (Consumer 1) 6).
  set (c0 := conc_init (static_ringbuffer DATAPLANE_RINGBUFFER_SIZE stale)).
  destruct (schedule DATAPLANE_RINGBUFFER_SIZE x l c0) as [c|] eqn:E.
  - exists c. split; [apply (schedule_reaches _ x l c0 c0 c); [constructor|exact E]|].
    vm_compute in E. injection E as <-. vm_compute. split_and!; reflexivity.
  - vm_compute in E. discriminate E.
Qed.
