(* ===== verification/Murmur.v ===== *)
(** * MurmurHash3 ([datastructures/hashes/MurmurHash3.c])

    [MurmurHash3_x86_32] is the hash function of the three hash tables; the two
    128 bit variants of the file have no caller. A key is the list of its bytes in
    memory; blocks are read little endian, as on the x86 target the source names.
    Each variant is an instance of [BlockMixer], from which follows that keys which
    differ in one block do not collide. *)

From S2P Require Import Prelude Words.

(** ** Operations *)

Definition rotl32 (x r : Z) : Z := Z.lor (u32 (Z.shiftl x r)) (Z.shiftr x (32 - r)).
Definition rotl64 (x r : Z) : Z := Z.lor (u64 (Z.shiftl x r)) (Z.shiftr x (64 - r)).

(** [getblock32], [getblock64]: block [i] of the bytes that start at [p]. *)
Definition getblock32 (p : list Z) (i : Z) : Z := le_value (take 4 (drop (Z.to_nat (4 * i)) p)).
Definition getblock64 (p : list Z) (i : Z) : Z := le_value (take 8 (drop (Z.to_nat (8 * i)) p)).

Definition fmix32 (h : Z) : Z :=
  let h := Z.lxor h (Z.shiftr h 16) in
  let h := u32 (h * 0x85ebca6b) in
  let h := Z.lxor h (Z.shiftr h 13) in
  let h := u32 (h * 0xc2b2ae35) in
  Z.lxor h (Z.shiftr h 16).

Definition fmix64 (k : Z) : Z :=
  let k := Z.lxor k (Z.shiftr k 33) in
  let k := u64 (k * 0xff51afd7ed558ccd) in
  let k := Z.lxor k (Z.shiftr k 33) in
  let k := u64 (k * 0xc4ceb9fe1a85ec53) in
  Z.lxor k (Z.shiftr k 33).

(** *** [MurmurHash3_x86_32] *)

Definition murmur_c1 : Z := 0xcc9e2d51.
Definition murmur_c2 : Z := 0x1b873593.

(** The scrambling of one block, shared by the body and the tail. *)
Definition murmur_k (k1 : Z) : Z :=
  let k1 := u32 (k1 * murmur_c1) in
  let k1 := rotl32 k1 15 in
  u32 (k1 * murmur_c2).

(** One iteration of the body. *)
Definition murmur_body (h1 k1 : Z) : Z :=
  let h1 := Z.lxor h1 (murmur_k k1) in
  let h1 := rotl32 h1 13 in
  u32 (h1 * 5 + 0xe6546b64).

(** The fall-through [switch(len & 3)] over the last bytes. *)
Definition murmur_tail (tail : list Z) (len h1 : Z) : Z :=
  let t := Z.land len 3 in
  let byte i := nth i tail 0 in
  let k1 := 0 in
  let k1 := if 3 <=? t then Z.lxor k1 (Z.shiftl (byte 2%nat) 16) else k1 in
  let k1 := if 2 <=? t then Z.lxor k1 (Z.shiftl (byte 1%nat) 8) else k1 in
  if 1 <=? t then Z.lxor h1 (murmur_k (Z.lxor k1 (byte 0%nat))) else h1.

Definition MurmurHash3_x86_32 (key : list Z) (len seed : Z) : Z :=
  let nblocks := Z.quot len 4 in
  let h1 := foldl (fun h1 i => murmur_body h1 (getblock32 key (nblocks + i))) seed
                  (seqZ (- nblocks) nblocks) in
  let h1 := murmur_tail (drop (Z.to_nat (nblocks * 4)) key) len h1 in
  fmix32 (Z.lxor h1 (u32 len)).

(** *** [MurmurHash3_x86_128] *)

(** [k *= c; k = ROTL32(k, r); k *= c'] *)
Definition scramble32 (c r c' k : Z) : Z :=
  let k := u32 (k * c) in
  let k := rotl32 k r in
  u32 (k * c').
(** [h ^= k; h = ROTL32(h, r); h += next; h = h*5+c] *)
Definition mix32 (r c next h k : Z) : Z :=
  let h := Z.lxor h k in
  let h := rotl32 h r in
  let h := u32 (h + next) in
  u32 (h * 5 + c).

Definition x86_k1 : Z -> Z := scramble32 0x239b961b 15 0xab0e9789.
Definition x86_k2 : Z -> Z := scramble32 0xab0e9789 16 0x38b34ae5.
Definition x86_k3 : Z -> Z := scramble32 0x38b34ae5 17 0xa1e38b93.
Definition x86_k4 : Z -> Z := scramble32 0xa1e38b93 18 0x239b961b.

Record x86_state : Type := X86 { x86_h1 : Z; x86_h2 : Z; x86_h3 : Z; x86_h4 : Z }.

Definition x86_body (h : x86_state) (k1 k2 k3 k4 : Z) : x86_state :=
  let '(X86 h1 h2 h3 h4) := h in
  let h1 := mix32 19 0x561ccd1b h2 h1 (x86_k1 k1) in
  let h2 := mix32 17 0x0bcaa747 h3 h2 (x86_k2 k2) in
  let h3 := mix32 15 0x96cd1c35 h4 h3 (x86_k3 k3) in
  let h4 := mix32 13 0x32ac3b17 h1 h4 (x86_k4 k4) in
  X86 h1 h2 h3 h4.

(** The cases [first + n] down to [first + 1] of the fall-through switch over [t]:
    [k ^= tail[first + i] << 8 * i]. *)
Definition tail_word (tail : list Z) (t first n : Z) : Z :=
  foldl (fun k i => if first + i <? t then Z.lxor k (Z.shiftl (nth (Z.to_nat (first + i)) tail 0) (8 * i)) else k)
    0 (rev (seqZ 0 n)).

Definition x86_tail (tail : list Z) (len : Z) (h : x86_state) : x86_state :=
  let '(X86 h1 h2 h3 h4) := h in
  let t := Z.land len 15 in
  let h4 := if 13 <=? t then Z.lxor h4 (x86_k4 (tail_word tail t 12 3)) else h4 in
  let h3 := if 9 <=? t then Z.lxor h3 (x86_k3 (tail_word tail t 8 4)) else h3 in
  let h2 := if 5 <=? t then Z.lxor h2 (x86_k2 (tail_word tail t 4 4)) else h2 in
  let h1 := if 1 <=? t then Z.lxor h1 (x86_k1 (tail_word tail t 0 4)) else h1 in
  X86 h1 h2 h3 h4.

(** [h1 += h2; h1 += h3; h1 += h4; h2 += h1; h3 += h1; h4 += h1] *)
Definition x86_sum (h : x86_state) : x86_state :=
  let '(X86 h1 h2 h3 h4) := h in
  let h1 := u32 (h1 + h2) in
  let h1 := u32 (h1 + h3) in
  let h1 := u32 (h1 + h4) in
  X86 h1 (u32 (h2 + h1)) (u32 (h3 + h1)) (u32 (h4 + h1)).

Definition x86_each (f : Z -> Z) (h : x86_state) : x86_state :=
  let '(X86 h1 h2 h3 h4) := h in X86 (f h1) (f h2) (f h3) (f h4).

Definition x86_final (len : Z) (h : x86_state) : x86_state :=
  let h := x86_each (fun h => Z.lxor h (u32 len)) h in
  let h := x86_sum h in
  let h := x86_each fmix32 h in
  x86_sum h.

Definition MurmurHash3_x86_128 (key : list Z) (len seed : Z) : x86_state :=
  let nblocks := Z.quot len 16 in
  let block i j := getblock32 key (nblocks * 4 + (i * 4 + j)) in
  let h := foldl (fun h i => x86_body h (block i 0) (block i 1) (block i 2) (block i 3))
             (X86 seed seed seed seed) (seqZ (- nblocks) nblocks) in
  x86_final len (x86_tail (drop (Z.to_nat (nblocks * 16)) key) len h).

(** *** [MurmurHash3_x64_128] *)

Definition scramble64 (c r c' k : Z) : Z :=
  let k := u64 (k * c) in
  let k := rotl64 k r in
  u64 (k * c').
Definition mix64 (r c next h k : Z) : Z :=
  let h := Z.lxor h k in
  let h := rotl64 h r in
  let h := u64 (h + next) in
  u64 (h * 5 + c).

Definition x64_k1 : Z -> Z := scramble64 0x87c37b91114253d5 31 0x4cf5ad432745937f.
Definition x64_k2 : Z -> Z := scramble64 0x4cf5ad432745937f 33 0x87c37b91114253d5.

Definition x64_body (h : Z * Z) (k1 k2 : Z) : Z * Z :=
  let '(h1, h2) := h in
  let h1 := mix64 27 0x52dce729 h2 h1 (x64_k1 k1) in
  let h2 := mix64 31 0x38495ab5 h1 h2 (x64_k2 k2) in
  (h1, h2).

Definition x64_tail (tail : list Z) (len : Z) (h : Z * Z) : Z * Z :=
  let '(h1, h2) := h in
  let t := Z.land len 15 in
  let h2 := if 9 <=? t then Z.lxor h2 (x64_k2 (tail_word tail t 8 7)) else h2 in
  let h1 := if 1 <=? t then Z.lxor h1 (x64_k1 (tail_word tail t 0 8)) else h1 in
  (h1, h2).

(** [h1 += h2; h2 += h1] *)
Definition x64_sum (h : Z * Z) : Z * Z :=
  let '(h1, h2) := h in
  let h1 := u64 (h1 + h2) in
  (h1, u64 (h2 + h1)).

Definition x64_each (f : Z -> Z) (h : Z * Z) : Z * Z := (f h.1, f h.2).

Definition x64_final (len : Z) (h : Z * Z) : Z * Z :=
  let h := x64_each (fun h => Z.lxor h (u64 len)) h in
  let h := x64_sum h in
  let h := x64_each fmix64 h in
  x64_sum h.

Definition MurmurHash3_x64_128 (key : list Z) (len seed : Z) : Z * Z :=
  let nblocks := Z.quot len 16 in
  let h := foldl (fun h i => x64_body h (getblock64 key (i * 2 + 0)) (getblock64 key (i * 2 + 1)))
             (seed, seed) (seqZ 0 nblocks) in
  x64_final len (x64_tail (drop (Z.to_nat (nblocks * 16)) key) len h).

(** Published vectors: "", "abc" and "test" with seed 0, "aaaa" with 0x9747b28c. *)
Example murmur_vectors :
  [MurmurHash3_x86_32 [] 0 0; MurmurHash3_x86_32 [] 0 1;
   MurmurHash3_x86_32 [97; 98; 99] 3 0; MurmurHash3_x86_32 [116; 101; 115; 116] 4 0;
   MurmurHash3_x86_32 [97; 97; 97; 97] 4 0x9747b28c] =
  [0; 0x514E28B7; 0xB3DD93FA; 0xba6bd213; 0x5A97808A].
Proof. vm_compute. reflexivity. Qed.

(** ... and those of the 128 bit variants, for 43 and for 5 bytes. *)
Definition quick_brown_fox : list Z :=
  [84;104;101;32;113;117;105;99;107;32;98;114;111;119;110;32;102;111;120;32;106;117;109;112;115;32;
   111;118;101;114;32;116;104;101;32;108;97;122;121;32;100;111;103].
Example murmur_128_vectors :
  MurmurHash3_x64_128 quick_brown_fox 43 0 = (0xe34bbc7bbc071b6c, 0x7a433ca9c49a9347) /\
  MurmurHash3_x64_128 [104; 101; 108; 108; 111] 5 0 = (0xcbd8a7b341bd9b02, 0x5b1e906a48ae1d19) /\
  MurmurHash3_x86_128 quick_brown_fox 43 0 = X86 0x2f1583c3 0xecee2c67 0x5d7bf66c 0xe5e91d2c.
Proof. vm_compute. done. Qed.

(** ** Each step loses nothing *)

#[local] Notation w32 := (word 32).
#[local] Notation w64 := (word 64).

Lemma pos32 : 0 < 32. Proof. done. Qed.
Lemma pos64 : 0 < 64. Proof. done. Qed.
Lemma u32_w32 z : w32 (u32 z).
Proof. apply u32_bound. Qed.
Lemma u64_w64 z : w64 (u64 z).
Proof. apply u64_bound. Qed.
#[local] Hint Resolve pos32 pos64 u32_w32 u64_w64 : core.

Lemma fmix32_inj a b : w32 a -> w32 b -> fmix32 a = fmix32 b -> a = b.
Proof.
  intros Ha Hb E. unfold fmix32 in E. fold (xorshift a 16) (xorshift b 16) in E.
  apply (xorshift_inj_half 32) in E; [|done..].
  apply (uw_mul_inj 32 pos32 _ _ _ 0x7ed1b41d) in E; [|done|by apply (xorshift_word 32)..].
  apply (xorshift_inj_third 32) in E; [|done..].
  apply (uw_mul_inj 32 pos32 _ _ _ 0xa5cb9243) in E; [|done|by apply (xorshift_word 32)..].
  by apply (xorshift_inj_half 32) in E.
Qed.

Lemma fmix64_inj a b : w64 a -> w64 b -> fmix64 a = fmix64 b -> a = b.
Proof.
  intros Ha Hb E. unfold fmix64 in E. fold (xorshift a 33) (xorshift b 33) in E.
  apply (xorshift_inj_half 64) in E; [|done..].
  apply (uw_mul_inj 64 pos64 _ _ _ 0x9cb4b2f8129337db) in E; [|done|by apply (xorshift_word 64)..].
  apply (xorshift_inj_half 64) in E; [|done..].
  apply (uw_mul_inj 64 pos64 _ _ _ 0x4f74430c22a54005) in E; [|done|by apply (xorshift_word 64)..].
  by apply (xorshift_inj_half 64) in E.
Qed.

Lemma fmix32_w32 h : w32 h -> w32 (fmix32 h).
Proof. intros. apply (xorshift_word 32); done. Qed.
Lemma fmix64_w64 h : w64 h -> w64 (fmix64 h).
Proof. intros. apply (xorshift_word 64); done. Qed.

(** A key of [m * j] bytes is given by its words of [m] bytes. *)
Definition word_at (m : nat) (b : list Z) (j : nat) : Z := le_value (take m (drop (m * j) b)).

Lemma word_at_bound m b j :
  Forall is_byte b -> 0 <= word_at m b j < 2 ^ (8 * Z.of_nat m).
Proof.
  intros Hb. unfold word_at. assert (Forall is_byte (take m (drop (m * j) b))) as Hf
    by (by apply Forall_take, Forall_drop).
  pose proof (le_value_bound _ Hf) as [? Hlt]. split; [done|]. eapply Z.lt_le_trans; [exact Hlt|].
  apply Z.pow_le_mono_r; [done|]. rewrite length_take. lia.
Qed.

Lemma words_inj m k b1 b2 :
  length b1 = (m * k)%nat -> length b2 = (m * k)%nat -> Forall is_byte b1 -> Forall is_byte b2 ->
  (forall j, (j < k)%nat -> word_at m b1 j = word_at m b2 j) -> b1 = b2.
Proof.
  revert b1 b2. induction k as [|k IH]; intros b1 b2 H1 H2 Hb1 Hb2 Hj.
  { rewrite Nat.mul_0_r in *. by rewrite (nil_length_inv b1), (nil_length_inv b2). }
  rewrite <- (take_drop m b1), <- (take_drop m b2). f_equal.
  - specialize (Hj 0%nat (Nat.lt_0_succ k)). unfold word_at in Hj. rewrite Nat.mul_0_r, !drop_0 in Hj.
    rewrite <- (le_bytes_value (take m b1)), <- (le_bytes_value (take m b2)) by (by apply Forall_take).
    rewrite !length_take, H1, H2, Hj. done.
  - apply IH; [rewrite length_drop; lia|rewrite length_drop; lia|by apply Forall_drop|by apply Forall_drop|].
    intros j Hlt. specialize (Hj (Datatypes.S j)). unfold word_at in *. rewrite !drop_drop.
    replace (m + m * j)%nat with (m * Datatypes.S j)%nat by lia. apply Hj. lia.
Qed.

(** A word of a block, and a word of the key. *)
Lemma word_at_block m n key i j :
  (m * (j + 1) <= n)%nat ->
  word_at m (block n key i) j = le_value (take m (drop (n * Z.to_nat i + m * j) key)).
Proof.
  intros Hj. unfold word_at, block.
  rewrite (take_drop_commute _ m), take_take, Nat.min_l, <- take_drop_commute by lia.
  by rewrite drop_drop.
Qed.

Lemma getblock32_word n key i j :
  0 <= i -> (4 * (j + 1) <= 4 * n)%nat ->
  getblock32 key (i * Z.of_nat n + Z.of_nat j) = word_at 4 (block (4 * n) key i) j.
Proof.
  intros Hi Hj. rewrite word_at_block by done. unfold getblock32. do 3 f_equal. nia.
Qed.

Lemma getblock64_word n key i j :
  0 <= i -> (8 * (j + 1) <= 8 * n)%nat ->
  getblock64 key (i * Z.of_nat n + Z.of_nat j) = word_at 8 (block (8 * n) key i) j.
Proof.
  intros Hi Hj. rewrite word_at_block by done. unfold getblock64. do 3 f_equal. nia.
Qed.

(** The loops over the block numbers, from the front or counted from the end. *)
Lemma foldl_blocks {S} (f : S -> Z -> S) (body : S -> list Z -> S) n key h :
  (forall h i, 0 <= i -> f h i = body h (block n key i)) ->
  foldl f h (seqZ 0 (Z.of_nat (length key) / Z.of_nat n)) = foldl body h (blocks n key).
Proof.
  intros Hf. unfold blocks.
  assert (Forall (fun i => 0 <= i) (seqZ 0 (Z.of_nat (length key) / Z.of_nat n))) as Hl
    by (apply Forall_forall; intros i Hi%elem_of_seqZ0; lia).
  revert h. induction Hl as [|i l Hi _ IH]; intros h; cbn [foldl fmap list_fmap]; [done|].
  rewrite Hf by done. apply IH.
Qed.

Lemma foldl_from_end {S} (f : S -> Z -> S) n h :
  foldl (fun h i => f h (n + i)) h (seqZ (- n) n) = foldl f h (seqZ 0 n).
Proof.
  rewrite <- (Z.add_opp_diag_r n), <- fmap_add_seqZ. generalize (seqZ (- n) n) as l.
  intros l. revert h. induction l as [|x l IH]; intros h; simpl; [done|]. apply IH.
Qed.

(** ** The three variants fold a mixer over the blocks *)

Definition body_32 (h : Z) (b : list Z) : Z := murmur_body h (word_at 4 b 0).
Definition body_x86 (h : x86_state) (b : list Z) : x86_state :=
  x86_body h (word_at 4 b 0) (word_at 4 b 1) (word_at 4 b 2) (word_at 4 b 3).
Definition body_x64 (h : Z * Z) (b : list Z) : Z * Z := x64_body h (word_at 8 b 0) (word_at 8 b 1).

Lemma quot_length (key : list Z) n : (0 < n)%nat -> Z.quot (Z.of_nat (length key)) (Z.of_nat n) = Z.of_nat (length key) / Z.of_nat n.
Proof. intros. apply Z.quot_div_nonneg; lia. Qed.

Lemma rest_drop n (key : list Z) :
  drop (Z.to_nat (Z.of_nat (length key) / Z.of_nat n * Z.of_nat n)) key = rest n key.
Proof. unfold rest. f_equal. rewrite <- Nat2Z.inj_div, <- Nat2Z.inj_mul. lia. Qed.

Lemma murmur_32_fold key seed :
  let len := Z.of_nat (length key) in
  MurmurHash3_x86_32 key len seed =
  fmix32 (Z.lxor (murmur_tail (rest 4 key) len (foldl body_32 seed (blocks 4 key))) (u32 len)).
Proof.
  intros len. unfold MurmurHash3_x86_32, len. change 4 with (Z.of_nat 4).
  rewrite quot_length, rest_drop by lia. do 3 f_equal.
  rewrite (foldl_from_end (fun h i => murmur_body h (getblock32 key i))). apply foldl_blocks.
  intros h i Hi. unfold body_32. f_equal.
  etrans; [|apply (getblock32_word 1 key i 0); lia]. f_equal. lia.
Qed.

Lemma murmur_x86_fold key seed :
  let len := Z.of_nat (length key) in
  MurmurHash3_x86_128 key len seed =
  x86_final len (x86_tail (rest 16 key) len (foldl body_x86 (X86 seed seed seed seed) (blocks 16 key))).
Proof.
  intros len. unfold MurmurHash3_x86_128, len. change 16 with (Z.of_nat 16).
  rewrite quot_length, rest_drop by lia. do 2 f_equal.
  set (n := Z.of_nat (length key) / Z.of_nat 16).
  rewrite <- (foldl_blocks (fun h i => x86_body h (getblock32 key (i * 4 + 0)) (getblock32 key (i * 4 + 1))
    (getblock32 key (i * 4 + 2)) (getblock32 key (i * 4 + 3))) body_x86).
  - fold n. rewrite <- (foldl_from_end _ n). clearbody n. generalize (seqZ (- n) n) as l. intros l.
    generalize (X86 seed seed seed seed) as h. induction l as [|i l IH]; intros h; cbn [foldl]; [done|].
    rewrite !(Z.mul_add_distr_r n i), <- !Z.add_assoc. apply IH.
  - intros h i Hi. unfold body_x86. change 16%nat with (4 * 4)%nat.
    by rewrite <- !(getblock32_word 4 key i) by lia.
Qed.

Lemma murmur_x64_fold key seed :
  let len := Z.of_nat (length key) in
  MurmurHash3_x64_128 key len seed =
  x64_final len (x64_tail (rest 16 key) len (foldl body_x64 (seed, seed) (blocks 16 key))).
Proof.
  intros len. unfold MurmurHash3_x64_128, len. change 16 with (Z.of_nat 16).
  rewrite quot_length, rest_drop by lia. do 2 f_equal. apply foldl_blocks.
  intros h i Hi. unfold body_x64. change 16%nat with (8 * 2)%nat.
  by rewrite <- !(getblock64_word 2 key i) by lia.
Qed.

Lemma mix32_w32 r c next h k : w32 (mix32 r c next h k).
Proof. apply u32_w32. Qed.
Lemma scramble32_w32 c r c' k : w32 (scramble32 c r c' k).
Proof. apply u32_w32. Qed.
Lemma mix64_w64 r c next h k : w64 (mix64 r c next h k).
Proof. apply u64_w64. Qed.
Lemma scramble64_w64 c r c' k : w64 (scramble64 c r c' k).
Proof. apply u64_w64. Qed.
#[local] Hint Resolve mix32_w32 scramble32_w32 mix64_w64 scramble64_w64 : core.

Lemma mix32_inj r c next h1 h2 k1 k2 :
  0 < r < 32 -> w32 h1 -> w32 h2 -> w32 k1 -> w32 k2 ->
  mix32 r c next h1 k1 = mix32 r c next h2 k2 -> Z.lxor h1 k1 = Z.lxor h2 k2.
Proof. by apply (mix_inj 32 pos32 0xcccccccd). Qed.
Lemma mix64_inj r c next h1 h2 k1 k2 :
  0 < r < 64 -> w64 h1 -> w64 h2 -> w64 k1 -> w64 k2 ->
  mix64 r c next h1 k1 = mix64 r c next h2 k2 -> Z.lxor h1 k1 = Z.lxor h2 k2.
Proof. by apply (mix_inj 64 pos64 0xcccccccccccccccd). Qed.

Definition word_injective (w : Z) (f : Z -> Z) : Prop := forall a b, word w a -> word w b -> f a = f b -> a = b.

Lemma murmur_k_inj : word_injective 32 murmur_k.
Proof. intros a b. by apply (scramble_inj 32 pos32 _ 0xdee13bb1 15 _ 0x56ed309b). Qed.
Lemma x86_k1_inj : word_injective 32 x86_k1.
Proof. intros a b. by apply (scramble_inj 32 pos32 _ 0x89c95413 15 _ 0xdf130eb9). Qed.
Lemma x86_k2_inj : word_injective 32 x86_k2.
Proof. intros a b. by apply (scramble_inj 32 pos32 _ 0xdf130eb9 16 _ 0x747862ed). Qed.
Lemma x86_k3_inj : word_injective 32 x86_k3.
Proof. intros a b. by apply (scramble_inj 32 pos32 _ 0x747862ed 17 _ 0x58d64a9b). Qed.
Lemma x86_k4_inj : word_injective 32 x86_k4.
Proof. intros a b. by apply (scramble_inj 32 pos32 _ 0x58d64a9b 18 _ 0x89c95413). Qed.
Lemma x64_k1_inj : word_injective 64 x64_k1.
Proof. intros a b. by apply (scramble_inj 64 pos64 _ 0xa98409e882ce4d7d 31 _ 0xa81e14edd9de2c7f). Qed.
Lemma x64_k2_inj : word_injective 64 x64_k2.
Proof. intros a b. by apply (scramble_inj 64 pos64 _ 0xa81e14edd9de2c7f 33 _ 0xa98409e882ce4d7d). Qed.

Lemma murmur_k_w32 k : w32 (murmur_k k).
Proof. apply u32_w32. Qed.
#[local] Hint Resolve murmur_k_w32 : core.

Lemma murmur_body_inj h1 h2 k1 k2 :
  w32 h1 -> w32 h2 -> murmur_body h1 k1 = murmur_body h2 k2 ->
  Z.lxor h1 (murmur_k k1) = Z.lxor h2 (murmur_k k2).
Proof.
  assert (forall h k, w32 h -> murmur_body h k = mix32 13 0xe6546b64 0 h (murmur_k k)) as Hm.
  { intros h k Hh. unfold mix32. cbv zeta. rewrite Z.add_0_r, (u32_small (rotl32 _ _)); [done|].
    apply (rotl_word 32 pos32); [by apply (lxor_word 32)|lia]. }
  intros H1 H2. rewrite !Hm by done. by apply mix32_inj.
Qed.

Definition x86_ok (h : x86_state) : Prop := w32 (x86_h1 h) /\ w32 (x86_h2 h) /\ w32 (x86_h3 h) /\ w32 (x86_h4 h).
Definition x64_ok (h : Z * Z) : Prop := w64 h.1 /\ w64 h.2.

#[local] Opaque word_at.

(** The side conditions of the steps. *)
Ltac words_ok :=
  first [ assumption | lia | by apply word_at_bound | apply scramble32_w32 | apply scramble64_w64
        | apply mix32_w32 | apply mix64_w64 ].

#[export] Instance mixer_32 : BlockMixer 4 w32 body_32.
Proof.
  split.
  - lia.
  - intros. apply u32_w32.
  - intros h1 h2 b H1 H2 E. apply murmur_body_inj in E; [|done..]. by apply lxor_inj_l in E.
  - intros h b1 b2 Hh L1 L2 B1 B2 E. apply murmur_body_inj in E; [|done..].
    apply lxor_inj_r, murmur_k_inj in E; [|by apply word_at_bound..].
    apply (words_inj 4 1); [done..|]. intros j Hj. by replace j with 0%nat by lia.
Qed.

#[export] Instance mixer_x86 : BlockMixer 16 x86_ok body_x86.
Proof.
  split.
  - lia.
  - intros [h1 h2 h3 h4] b _. repeat split; apply u32_w32.
  - intros [h1 h2 h3 h4] [g1 g2 g3 g4] b (?&?&?&?) (?&?&?&?) E. cbn in * |-.
    unfold body_x86, x86_body in E. injection E as E1 E2 E3 E4. rewrite E1 in E4.
    apply mix32_inj, lxor_inj_l in E4; [subst g4|words_ok..].
    apply mix32_inj, lxor_inj_l in E3; [subst g3|words_ok..].
    apply mix32_inj, lxor_inj_l in E2; [subst g2|words_ok..].
    apply mix32_inj, lxor_inj_l in E1; [by subst g1|words_ok..].
  - intros [h1 h2 h3 h4] b1 b2 (?&?&?&?) L1 L2 B1 B2 E. cbn in * |-.
    unfold body_x86, x86_body in E. injection E as E1 E2 E3 E4. rewrite E1 in E4.
    apply mix32_inj, lxor_inj_r, x86_k4_inj in E4; [|words_ok..].
    apply mix32_inj, lxor_inj_r, x86_k3_inj in E3; [|words_ok..].
    apply mix32_inj, lxor_inj_r, x86_k2_inj in E2; [|words_ok..].
    apply mix32_inj, lxor_inj_r, x86_k1_inj in E1; [|words_ok..].
    apply (words_inj 4 4); [done..|]. intros j Hj.
    do 4 (destruct j as [|j]; [done|]). lia.
Qed.

#[export] Instance mixer_x64 : BlockMixer 16 x64_ok body_x64.
Proof.
  split.
  - lia.
  - intros [h1 h2] b _. split; apply u64_w64.
  - intros [h1 h2] [g1 g2] b [??] [??] E. cbn in * |-.
    unfold body_x64, x64_body in E. injection E as E1 E2. rewrite E1 in E2.
    apply mix64_inj, lxor_inj_l in E2; [subst g2|words_ok..].
    apply mix64_inj, lxor_inj_l in E1; [by subst g1|words_ok..].
  - intros [h1 h2] b1 b2 [??] L1 L2 B1 B2 E. cbn in * |-.
    unfold body_x64, x64_body in E. injection E as E1 E2. rewrite E1 in E2.
    apply mix64_inj, lxor_inj_r, x64_k2_inj in E2; [|words_ok..].
    apply mix64_inj, lxor_inj_r, x64_k1_inj in E1; [|words_ok..].
    apply (words_inj 8 2); [done..|]. intros j Hj.
    do 2 (destruct j as [|j]; [done|]). lia.
Qed.

(** ** Tail and finalization lose nothing *)

Lemma murmur_tail_inj tail len h1 h2 :
  murmur_tail tail len h1 = murmur_tail tail len h2 -> h1 = h2.
Proof. unfold murmur_tail. case_match; [apply lxor_inj_l|done]. Qed.

Lemma murmur_tail_w32 tail len h : w32 h -> w32 (murmur_tail tail len h).
Proof. intros. unfold murmur_tail. case_match; [by apply (lxor_word 32)|done]. Qed.

Lemma if_lxor_inj (b : bool) x h g :
  (if b then Z.lxor h x else h) = (if b then Z.lxor g x else g) -> h = g.
Proof. destruct b; [apply lxor_inj_l|done]. Qed.

Lemma if_lxor_word w (b : bool) h x : 0 < w -> word w h -> word w x -> word w (if b then Z.lxor h x else h).
Proof. intros. destruct b; [by apply lxor_word|done]. Qed.

Lemma x86_tail_inj tail len h g : x86_tail tail len h = x86_tail tail len g -> h = g.
Proof.
  destruct h as [h1 h2 h3 h4], g as [g1 g2 g3 g4]. unfold x86_tail. intros E.
  injection E as E1%if_lxor_inj E2%if_lxor_inj E3%if_lxor_inj E4%if_lxor_inj. by subst.
Qed.

Lemma x86_tail_ok tail len h : x86_ok h -> x86_ok (x86_tail tail len h).
Proof.
  destruct h as [h1 h2 h3 h4]. intros (?&?&?&?). unfold x86_tail, x86_ok; cbn [x86_h1 x86_h2 x86_h3 x86_h4].
  repeat split_and; apply if_lxor_word; words_ok.
Qed.

Lemma x64_tail_inj tail len h g : x64_tail tail len h = x64_tail tail len g -> h = g.
Proof.
  destruct h as [h1 h2], g as [g1 g2]. unfold x64_tail. intros E.
  injection E as E1%if_lxor_inj E2%if_lxor_inj. by subst.
Qed.

Lemma x64_tail_ok tail len h : x64_ok h -> x64_ok (x64_tail tail len h).
Proof.
  destruct h as [h1 h2]. intros (?&?). unfold x64_tail, x64_ok; cbn [fst snd].
  split; apply if_lxor_word; words_ok.
Qed.

Lemma u32_add_inj a b c : w32 a -> w32 b -> u32 (a + c) = u32 (b + c) -> a = b.
Proof. by apply (uw_add_inj 32). Qed.
Lemma u64_add_inj a b c : w64 a -> w64 b -> u64 (a + c) = u64 (b + c) -> a = b.
Proof. by apply (uw_add_inj 64). Qed.

Lemma x86_sum_inj h g : x86_ok h -> x86_ok g -> x86_sum h = x86_sum g -> h = g.
Proof.
  destruct h as [h1 h2 h3 h4], g as [g1 g2 g3 g4]. intros (?&?&?&?) (?&?&?&?) E. cbn in * |-.
  unfold x86_sum in E. injection E as E1 E2 E3 E4. rewrite E1 in E2, E3, E4.
  apply u32_add_inj in E2, E3, E4; [|done..]. subst.
  do 3 (apply u32_add_inj in E1; [|done || apply u32_w32..]). by subst.
Qed.

Lemma x64_sum_inj h g : x64_ok h -> x64_ok g -> x64_sum h = x64_sum g -> h = g.
Proof.
  destruct h as [h1 h2], g as [g1 g2]. intros [??] [??] E. cbn in * |-.
  unfold x64_sum in E. injection E as E1 E2. rewrite E1 in E2.
  apply u64_add_inj in E2; [|done..]. subst. apply u64_add_inj in E1; by subst.
Qed.

(** A function that keeps words apart, on each word of the state. *)
Definition injects (w : Z) (f : Z -> Z) : Prop := (forall a, word w a -> word w (f a)) /\ word_injective w f.

Lemma injects_lxor w l : 0 < w -> word w l -> injects w (fun h => Z.lxor h l).
Proof. intros. split; [intros; by apply lxor_word|intros a b _ _; apply lxor_inj_l]. Qed.

Lemma x86_each_ok f h : injects 32 f -> x86_ok h -> x86_ok (x86_each f h).
Proof. destruct h as [h1 h2 h3 h4]. intros [Hf _] (?&?&?&?). unfold x86_ok; repeat split_and; by apply Hf. Qed.

Lemma x86_each_inj f h g : injects 32 f -> x86_ok h -> x86_ok g -> x86_each f h = x86_each f g -> h = g.
Proof.
  destruct h as [h1 h2 h3 h4], g as [g1 g2 g3 g4]. intros [_ Hf] (?&?&?&?) (?&?&?&?) E.
  injection E as E1%Hf E2%Hf E3%Hf E4%Hf; by subst.
Qed.

Lemma x86_sum_ok h : x86_ok (x86_sum h).
Proof. destruct h as [h1 h2 h3 h4]. unfold x86_ok; repeat split_and; apply u32_w32. Qed.

Lemma x86_final_inj len h g : x86_ok h -> x86_ok g -> x86_final len h = x86_final len g -> h = g.
Proof.
  intros Hh Hg E. unfold x86_final in E.
  assert (injects 32 fmix32) as Hf by (split; [apply fmix32_w32|intros a b; apply fmix32_inj]).
  assert (injects 32 (fun h => Z.lxor h (u32 len))) as Hl by (by apply injects_lxor).
  apply x86_sum_inj in E; [|by apply x86_each_ok, x86_sum_ok..].
  apply x86_each_inj in E; [|done|apply x86_sum_ok..].
  apply x86_sum_inj in E; [|by apply x86_each_ok..]. by apply x86_each_inj in E.
Qed.

Lemma x64_each_ok f h : injects 64 f -> x64_ok h -> x64_ok (x64_each f h).
Proof. intros [Hf _] [??]. split; by apply Hf. Qed.

Lemma x64_each_inj f h g : injects 64 f -> x64_ok h -> x64_ok g -> x64_each f h = x64_each f g -> h = g.
Proof.
  destruct h as [h1 h2], g as [g1 g2]. intros [_ Hf] [??] [??] E.
  injection E as E1%Hf E2%Hf; by subst.
Qed.

Lemma x64_sum_ok h : x64_ok (x64_sum h).
Proof. destruct h as [h1 h2]. split; apply u64_w64. Qed.

Lemma x64_final_inj len h g : x64_ok h -> x64_ok g -> x64_final len h = x64_final len g -> h = g.
Proof.
  intros Hh Hg E. unfold x64_final in E.
  assert (injects 64 fmix64) as Hf by (split; [apply fmix64_w64|intros a b; apply fmix64_inj]).
  assert (injects 64 (fun h => Z.lxor h (u64 len))) as Hl by (by apply injects_lxor).
  apply x64_sum_inj in E; [|by apply x64_each_ok, x64_sum_ok..].
  apply x64_each_inj in E; [|done|apply x64_sum_ok..].
  apply x64_sum_inj in E; [|by apply x64_each_ok..]. by apply x64_each_inj in E.
Qed.

(** ** Properties *)

(** Claim C27. Two keys of the same length that differ in exactly one aligned
    32-bit block (the ports of a five tuple, an IPv4 address, its protocol) never
    collide in [MurmurHash3_x86_32], whatever the seed. *)
Theorem murmur_single_block_no_collision p b1 b2 s seed :
  (length p mod 4 = 0)%nat -> length b1 = 4%nat -> length b2 = 4%nat ->
  Forall is_byte b1 -> Forall is_byte b2 -> 0 <= seed < 2 ^ 32 -> b1 <> b2 ->
  let len := Z.of_nat (length (p ++ b1 ++ s)) in
  MurmurHash3_x86_32 (p ++ b1 ++ s) len seed <> MurmurHash3_x86_32 (p ++ b2 ++ s) len seed.
Proof.
  intros Hp H1 H2 Hb1 Hb2 Hseed Hne len E. subst len.
  destruct (one_block_differs 4 w32 body_32 p b1 b2 s seed) as [Hd Hr]; [done..|].
  rewrite murmur_32_fold in E. replace (length (p ++ b1 ++ s)) with (length (p ++ b2 ++ s)) in E
    by (rewrite !length_app, H1, H2; done).
  rewrite murmur_32_fold, Hr in E.
  assert (forall key tail len, w32 (Z.lxor (murmur_tail tail len (foldl body_32 seed (blocks 4 key))) (u32 len))) as Hw
    by (intros; apply (lxor_word 32); [done|by apply murmur_tail_w32, (mixer_fold_valid 4 w32 body_32)|apply u32_w32]).
  by apply fmix32_inj, lxor_inj_l, murmur_tail_inj in E.
Qed.

Lemma murmur_single_block_no_collision_witness :
  [1; 2; 3; 4] <> [1; 2; 3; 5] /\
  MurmurHash3_x86_32 ([9; 9; 9; 9] ++ [1; 2; 3; 4] ++ [7]) 9 0xDEADBEEF <>
  MurmurHash3_x86_32 ([9; 9; 9; 9] ++ [1; 2; 3; 5] ++ [7]) 9 0xDEADBEEF.
Proof.
  split; [done|].
  apply (murmur_single_block_no_collision [9; 9; 9; 9] [1; 2; 3; 4] [1; 2; 3; 5] [7] 0xDEADBEEF);
    [done|done|done|repeat constructor; unfold is_byte; lia
    |repeat constructor; unfold is_byte; lia|lia|done].
Defined.

(** The 128 bit variants distinguish keys of the same length that differ in exactly
    one aligned block of 16 bytes (an IPv6 address), whatever the seed: the state
    they accumulate, the tail and the finalization lose nothing. *)
Theorem murmur_128_single_block_no_collision p b1 b2 s seed :
  (length p mod 16 = 0)%nat -> length b1 = 16%nat -> length b2 = 16%nat ->
  Forall is_byte b1 -> Forall is_byte b2 -> 0 <= seed < 2 ^ 32 -> b1 <> b2 ->
  let len := Z.of_nat (length (p ++ b1 ++ s)) in
  MurmurHash3_x86_128 (p ++ b1 ++ s) len seed <> MurmurHash3_x86_128 (p ++ b2 ++ s) len seed /\
  MurmurHash3_x64_128 (p ++ b1 ++ s) len seed <> MurmurHash3_x64_128 (p ++ b2 ++ s) len seed.
Proof.
  intros Hp H1 H2 Hb1 Hb2 Hseed Hne len. subst len.
  assert (length (p ++ b1 ++ s) = length (p ++ b2 ++ s)) as El by (rewrite !length_app, H1, H2; done).
  split; intros E.
  - assert (x86_ok (X86 seed seed seed seed)) as Hok by (by unfold x86_ok; repeat split_and).
    destruct (one_block_differs 16 x86_ok body_x86 p b1 b2 s (X86 seed seed seed seed)) as [Hd Hr]; [done..|].
    rewrite murmur_x86_fold, El, murmur_x86_fold, Hr in E.
    apply x86_final_inj, x86_tail_inj in E; [done|apply x86_tail_ok, (mixer_fold_valid 16 x86_ok body_x86); exact Hok..].
  - assert (x64_ok (seed, seed)) as Hok by (split; unfold word; cbn [fst snd]; lia).
    destruct (one_block_differs 16 x64_ok body_x64 p b1 b2 s (seed, seed)) as [Hd Hr]; [done..|].
    rewrite murmur_x64_fold, El, murmur_x64_fold, Hr in E.
    apply x64_final_inj, x64_tail_inj in E; [done|apply x64_tail_ok, (mixer_fold_valid 16 x64_ok body_x64); exact Hok..].
Qed.

Lemma murmur_128_single_block_no_collision_witness :
  seqZ 0 16 <> seqZ 1 16 /\
  MurmurHash3_x86_128 (seqZ 7 16 ++ seqZ 0 16 ++ [7]) 33 0xDEADBEEF <>
  MurmurHash3_x86_128 (seqZ 7 16 ++ seqZ 1 16 ++ [7]) 33 0xDEADBEEF /\
  MurmurHash3_x64_128 (seqZ 7 16 ++ seqZ 0 16 ++ [7]) 33 0xDEADBEEF <>
  MurmurHash3_x64_128 (seqZ 7 16 ++ seqZ 1 16 ++ [7]) 33 0xDEADBEEF.
Proof.
  split; [done|].
  apply (murmur_128_single_block_no_collision (seqZ 7 16) (seqZ 0 16) (seqZ 1 16) [7] 0xDEADBEEF);
    [done|done|done|repeat constructor; unfold is_byte; lia
    |repeat constructor; unfold is_byte; lia|lia|done].
Defined.
