(* ===== verification/Probe.v ===== *)
(** * Open addressing with linear probing

    The flow, session and DNS hash tables are three copies of the same algorithm
    over different entries: search from the home slot of the hash to the first
    free slot, insertion into that slot, and removal that moves later entries
    back so that no probe sequence is broken. This file models the shared loops
    over a class of entries and proves them against a finite map; each table
    ([FlowTable], [SessionTable], [DnsTable]) instantiates it. *)

From S2P Require Import Prelude.

(** What the tables need of an entry: whether it is [occupied], its stored
    [hash], the bytes [memcmp] compares, and what a lookup returns. *)
Class ProbeEntry (E V : Type) : Type := {
  e_occupied : E -> bool;
  e_hash : E -> Z;
  e_key : E -> list Z;
  e_val : E -> V }.

(** ** [POSITIVE_MODULO], both preprocessor branches *)

Definition modulo (SIZE x : Z) : Z :=
  let x := Z.rem x SIZE in
  if x <? 0 then x + SIZE else x.
Definition POSITIVE_MODULO (SIZE x : Z) : Z :=
  if Z.land SIZE (SIZE - 1) =? 0 then Z.land x (SIZE - 1) else modulo SIZE (i32 x).
Definition HASH2INDEX (SIZE hash : Z) : Z := POSITIVE_MODULO SIZE hash.
Definition CAN_MOVE_ITEM_TO_CURRENT_EMPTY (SIZE item_desired_index current_empty item_index : Z) : bool :=
  POSITIVE_MODULO SIZE (u32 (current_empty - item_desired_index)) <?
  POSITIVE_MODULO SIZE (u32 (item_index - item_desired_index)).

(** [(index + 1) % SIZE]. *)
Definition next_slot (SIZE index : Z) : Z := Z.rem (index + 1) SIZE.

(** ** The loops *)

Section loops.
Context {E V : Type} `{!ProbeEntry E V} (SIZE : Z).

(** [entry.hash == hash && memcmp(&entry.key, key) == 0]. *)
Definition entry_matches (e : E) (hash : Z) (key : list Z) : bool :=
  (e_hash e =? hash) && bool_decide (e_key e = key).

(** [get_hashtable_index]: status 0 and the index of the key, or status 1 and
    the first free slot. *)
Definition find_body (ents : arr E) (hash : Z) (key : list Z) (index : Z) : res (Z + Z * Z) :=
  let! e := rd ents index in
  if negb (e_occupied e) then Ok (inr (1, index))
  else if entry_matches e hash key then Ok (inr (0, index))
  else Ok (inl (next_slot SIZE index)).
Definition get_hashtable_index (ents : arr E) (key : list Z) (hash : Z) : res (Z * Z) :=
  while (find_body ents hash key) (HASH2INDEX SIZE hash).

(** The loop of the insertion: status 1 when the key is present. *)
Definition probe_body (ents : arr E) (hash : Z) (key : list Z) (index : Z) : res (Z + Z * Z) :=
  let! e := rd ents index in
  if e_occupied e then
    if entry_matches e hash key then Ok (inr (1, index))
    else Ok (inl (next_slot SIZE index))
  else Ok (inr (0, index)).
Definition probe_for_add (ents : arr E) (key : list Z) (hash : Z) : res (Z * Z) :=
  while (probe_body ents hash key) (HASH2INDEX SIZE hash).

(** The compaction loop after a removal; [move t index empty] is the table's
    code that copies the entry at [index] to [empty]. *)
Definition backshift_body {T} (entries : T -> arr E) (move : T -> Z -> Z -> res T)
    (s : T * Z * Z) : res (T * Z * Z + T) :=
  let '(t, index, empty_index) := s in
  let index := next_slot SIZE index in
  let! e := rd (entries t) index in
  if negb (e_occupied e) then Ok (inr t)
  else if negb (index =? HASH2INDEX SIZE (e_hash e)) &&
          CAN_MOVE_ITEM_TO_CURRENT_EMPTY SIZE (HASH2INDEX SIZE (e_hash e)) empty_index index
  then
    let! t' := move t index empty_index in
    Ok (inl (t', index, index))
  else Ok (inl (t, index, empty_index)).
Definition backshift {T} (entries : T -> arr E) (move : T -> Z -> Z -> res T)
    (t : T) (index : Z) : res T :=
  while (backshift_body entries move) (t, index, index).
End loops.

(** ** Arithmetic of the slots *)

Lemma land_pred_pow2 n : 0 < n -> Z.land n (n - 1) = 0 -> n = 2 ^ Z.log2 n.
Proof.
  intros Hn Hl. pose proof (Z.log2_spec n Hn) as [Hlo Hhi].
  destruct (decide (n = 2 ^ Z.log2 n)) as [|Hne]; [done|exfalso].
  pose proof (Z.log2_nonneg n). set (k := Z.log2 n) in *.
  assert (forall m, 2 ^ k <= m < 2 ^ Z.succ k -> Z.testbit m k = true) as Hb.
  { intros m Hm. replace k with (Z.log2 m) by (by apply Z.log2_unique; lia).
    apply Z.bit_log2. lia. }
  assert (Z.testbit (Z.land n (n - 1)) k = true) as Ht
    by (rewrite Z.land_spec, !Hb; [done|lia|lia]).
  by rewrite Hl, Z.testbit_0_l in Ht.
Qed.

Lemma u32_mod_pow2 x k : 0 <= k <= 32 -> u32 x mod 2 ^ k = x mod 2 ^ k.
Proof.
  intros. unfold u32. replace 32 with (k + (32 - k)) by lia.
  rewrite Z.pow_add_r, Z.rem_mul_r by lia.
  by rewrite (Z.mul_comm (2 ^ k)), Z.mod_add, Zmod_mod by lia.
Qed.

Lemma modulo_mod SIZE x : 0 < SIZE -> modulo SIZE x = x mod SIZE.
Proof.
  intros. unfold modulo. pose proof (Z.rem_bound_abs x SIZE ltac:(lia)).
  pose proof (Z.quot_rem' x SIZE).
  destruct (Z.ltb_spec (Z.rem x SIZE) 0).
  - apply (Z.mod_unique_pos _ _ (Z.quot x SIZE - 1)); lia.
  - apply (Z.mod_unique_pos _ _ (Z.quot x SIZE)); lia.
Qed.

Section slots.
Context (SIZE : Z) (size_pos : 0 < SIZE < 2 ^ 31).

(** Whatever the preprocessor branch, a difference of indices is reduced
    modulo [SIZE]. *)
Lemma POSITIVE_MODULO_diff d : - 2 ^ 31 <= d < 2 ^ 31 -> POSITIVE_MODULO SIZE (u32 d) = d mod SIZE.
Proof using size_pos.
  intros Hd. unfold POSITIVE_MODULO. destruct (Z.eqb_spec (Z.land SIZE (SIZE - 1)) 0) as [E|].
  - apply land_pred_pow2 in E; [|lia]. pose proof (Z.log2_nonneg SIZE).
    assert (Z.log2 SIZE < 31) by (apply (Z.pow_lt_mono_r_iff 2); lia).
    rewrite E. replace (2 ^ Z.log2 SIZE - 1) with (Z.ones (Z.log2 SIZE))
      by (rewrite Z.ones_equiv; lia).
    rewrite Z.land_ones, u32_mod_pow2 by lia. done.
  - rewrite modulo_mod by lia. f_equal. unfold i32, u32.
    rewrite Zplus_mod_idemp_l, Z.mod_small; lia.
Qed.

Lemma HASH2INDEX_bound h : 0 <= HASH2INDEX SIZE h < SIZE.
Proof using size_pos.
  unfold HASH2INDEX, POSITIVE_MODULO. destruct (Z.eqb_spec (Z.land SIZE (SIZE - 1)) 0) as [E|].
  - apply land_pred_pow2 in E; [|lia]. pose proof (Z.log2_nonneg SIZE).
    replace (SIZE - 1) with (Z.ones (Z.log2 SIZE)) by (rewrite Z.ones_equiv; lia).
    rewrite Z.land_ones by lia. rewrite E at 3. apply Z.mod_pos_bound. lia.
  - rewrite modulo_mod by lia. apply Z.mod_pos_bound. lia.
Qed.

Lemma next_slot_mod i : 0 <= i -> next_slot SIZE i = (i + 1) mod SIZE.
Proof using size_pos. intros. unfold next_slot. apply Z.rem_mod_nonneg; lia. Qed.

(** Distance from [a] forward to [b]. *)
Definition dist (a b : Z) : Z := (b - a) mod SIZE.
Definition in_table (i : Z) : Prop := 0 <= i < SIZE.

Lemma dist_bound a b : 0 <= dist a b < SIZE.
Proof using size_pos. apply Z.mod_pos_bound. lia. Qed.

(** Distances as differences of positions counted from [s]. *)
Lemma dist_from s a b :
  dist a b = if decide (dist s a <= dist s b) then dist s b - dist s a
             else dist s b - dist s a + SIZE.
Proof using size_pos.
  pose proof (dist_bound s a). pose proof (dist_bound s b).
  assert (dist a b = (dist s b - dist s a) mod SIZE) as ->.
  { unfold dist. rewrite <- Zminus_mod. f_equal. lia. }
  case_decide.
  - apply Z.mod_small. lia.
  - symmetry. apply (Z.mod_unique_pos _ _ (-1)); lia.
Qed.

Lemma dist_self a : dist a a = 0.
Proof using size_pos. unfold dist. rewrite Z.sub_diag. apply Z.mod_0_l. lia. Qed.

Lemma dist_inj s a b : in_table a -> in_table b -> dist s a = dist s b -> a = b.
Proof using size_pos.
  unfold in_table. intros Ha Hb E. pose proof (dist_from s a b) as Hd. rewrite E in Hd.
  case_decide; [|lia]. rewrite Z.sub_diag in Hd. unfold dist in Hd.
  destruct (decide (a <= b)).
  - rewrite Z.mod_small in Hd by lia. lia.
  - rewrite <- (Z.mod_unique_pos (b - a) SIZE (-1) (b - a + SIZE)) in Hd by lia. lia.
Qed.

Lemma next_in_table i : in_table i -> in_table (next_slot SIZE i).
Proof using size_pos.
  unfold in_table. intros. rewrite next_slot_mod by lia. apply Z.mod_pos_bound. lia.
Qed.

Lemma dist_next s i :
  in_table i -> in_table s -> next_slot SIZE i <> s -> dist s (next_slot SIZE i) = dist s i + 1.
Proof using size_pos.
  intros Hi Hs Hne. assert (dist s (next_slot SIZE i) = (dist s i + 1) mod SIZE) as E.
  { unfold in_table in Hi. rewrite next_slot_mod by lia. unfold dist.
    rewrite Zminus_mod_idemp_l, Zplus_mod_idemp_l. f_equal. lia. }
  pose proof (dist_bound s i). destruct (decide (dist s i + 1 = SIZE)) as [E'|].
  - rewrite E', Z_mod_same_full in E. exfalso. apply Hne.
    apply (dist_inj s); auto using next_in_table. by rewrite dist_self.
  - rewrite E. apply Z.mod_small. lia.
Qed.

(** The test of the compaction loop, for a slot [i] after the gap [em] and a
    free slot [s] that neither the probe sequence nor the scan passes. *)
Lemma can_move_iff s h em i :
  in_table h -> in_table em -> in_table i ->
  dist s h <= dist s i -> dist s em < dist s i ->
  CAN_MOVE_ITEM_TO_CURRENT_EMPTY SIZE h em i = true <-> dist s h <= dist s em.
Proof using size_pos.
  unfold in_table. intros Hh He Hi Hhi Hei. unfold CAN_MOVE_ITEM_TO_CURRENT_EMPTY.
  rewrite !POSITIVE_MODULO_diff, Z.ltb_lt by lia. fold (dist h em) (dist h i).
  rewrite (dist_from s h em), (dist_from s h i).
  pose proof (dist_bound s em). pose proof (dist_bound s i). pose proof (dist_bound s h).
  repeat case_decide; lia.
Qed.
End slots.

(** ** Representation of a finite map *)

Section rep.
Context {E V : Type} `{!ProbeEntry E V} (SIZE : Z) (H : list Z -> Z).
Implicit Types (ents : arr E) (k : list Z) (M : gmap (list Z) V).

Definition occ ents (i : Z) : bool := e_occupied (aget ents i).
Definition home ents (i : Z) : Z := HASH2INDEX SIZE (e_hash (aget ents i)).

(** Entries with distinct keys whose stored hash is that of their key. *)
Record entries_of ents M : Prop := EntriesOf {
  eo_len : alen ents = SIZE;
  eo_hash : forall i, in_table SIZE i -> occ ents i = true ->
    e_hash (aget ents i) = H (e_key (aget ents i));
  eo_inj : forall i j, in_table SIZE i -> in_table SIZE j ->
    occ ents i = true -> occ ents j = true ->
    e_key (aget ents i) = e_key (aget ents j) -> i = j;
  eo_lookup : forall k v, M !! k = Some v <->
    exists i, in_table SIZE i /\ occ ents i = true /\
              e_key (aget ents i) = k /\ e_val (aget ents i) = v }.

(** The probing invariant: the slots from the home of an entry to the entry
    are all occupied. *)
Definition no_gap ents : Prop :=
  forall i j, in_table SIZE i -> occ ents i = true -> in_table SIZE j ->
    dist SIZE (home ents i) j < dist SIZE (home ents i) i -> occ ents j = true.

Record table_rep ents M : Prop := TableRep {
  tr_entries : entries_of ents M;
  tr_no_gap : no_gap ents }.

Context (size_pos : 0 < SIZE < 2 ^ 31).

(** *** Free slots *)

Lemma key_of_slot ents M i :
  entries_of ents M -> in_table SIZE i -> occ ents i = true ->
  M !! e_key (aget ents i) = Some (e_val (aget ents i)).
Proof using. intros Hr Hi Ho. apply (eo_lookup _ _ Hr). eauto. Qed.

(** By the pigeonhole principle a table with fewer keys than slots has a free
    slot. *)
Lemma free_slot ents M :
  entries_of ents M -> Z.of_nat (size M) < SIZE ->
  exists s, in_table SIZE s /\ occ ents s = false.
Proof using size_pos.
  intros Hr Hlt.
  destruct (decide (Exists (fun i => occ ents i = false) (seqZ 0 SIZE))) as [He|Hn].
  { apply Exists_exists in He as (s & Hs%elem_of_seqZ0 & Ho). by exists s. }
  exfalso. apply not_Exists_Forall in Hn; [|intros i; apply _].
  assert (forall i, in_table SIZE i -> occ ents i = true) as Hall.
  { intros i Hi. rewrite Forall_forall in Hn. apply not_false_is_true, Hn.
    by apply elem_of_seqZ0. }
  assert (NoDup ((fun i => e_key (aget ents i)) <$> seqZ 0 SIZE)) as Hnd.
  { apply NoDup_fmap_2_strong; [|apply NoDup_seqZ].
    intros i j Hi%elem_of_seqZ0 Hj%elem_of_seqZ0 Ek.
    apply (eo_inj _ _ Hr); auto. }
  assert (((fun i => e_key (aget ents i)) <$> seqZ 0 SIZE) ⊆+ elements (dom M)) as Hsub.
  { apply NoDup_submseteq; [done|]. intros k (i & -> & Hi%elem_of_seqZ0)%list_elem_of_fmap.
    apply elem_of_elements, elem_of_dom. eexists. apply (key_of_slot _ _ _ Hr); auto. }
  apply submseteq_length in Hsub. rewrite length_fmap, length_seqZ in Hsub.
  assert (length (elements (dom M)) = size M) as Hsz by (apply size_dom).
  lia.
Qed.

(** A table with as many keys as slots has none. *)
Lemma full_occupied ents M :
  entries_of ents M -> Z.of_nat (size M) = SIZE -> forall i, in_table SIZE i -> occ ents i = true.
Proof using size_pos.
  intros Hr Hsz i Hi. destruct (occ ents i) eqn:Ho; [done|exfalso].
  assert (elements (dom M) ⊆+
          (fun j => e_key (aget ents j)) <$> filter (fun j => j <> i) (seqZ 0 SIZE)) as Hsub.
  { apply NoDup_submseteq; [apply NoDup_elements|].
    intros k [v Hv]%elem_of_elements%elem_of_dom.
    apply (eo_lookup _ _ Hr) in Hv as (j & Hj & Hoj & <- & _).
    apply (list_elem_of_fmap_2' _ _ j); [|done].
    apply list_elem_of_filter. split; [congruence|by apply elem_of_seqZ0]. }
  apply submseteq_length in Hsub. rewrite length_fmap in Hsub.
  assert (length (elements (dom M)) = size M) as Hd by (apply size_dom).
  assert (S (length (filter (fun j => j <> i) (seqZ 0 SIZE))) <= length (seqZ 0 SIZE))%nat as Hl.
  { assert (filter (fun j => j <> i) (seqZ 0 SIZE) ++ [i] ⊆+ seqZ 0 SIZE) as Hs.
    { apply NoDup_submseteq.
      - apply NoDup_app. split_and!; [apply NoDup_filter, NoDup_seqZ| |apply NoDup_singleton].
        intros j [Hne _]%list_elem_of_filter. by rewrite list_elem_of_singleton.
      - intros j [[_ ?]%list_elem_of_filter| ->%list_elem_of_singleton]%elem_of_app; [done|].
        by apply elem_of_seqZ0. }
    apply submseteq_length in Hs. rewrite length_app in Hs. simpl in Hs. lia. }
  rewrite length_seqZ in Hl. lia.
Qed.

(** *** Search *)

(** State of the search for [k]: the slots before [index] hold other keys. *)
Definition searched ents k (index : Z) : Prop :=
  in_table SIZE index /\
  forall j, in_table SIZE j ->
    dist SIZE (HASH2INDEX SIZE (H k)) j < dist SIZE (HASH2INDEX SIZE (H k)) index ->
    occ ents j = true /\ e_key (aget ents j) <> k.

(** What the search returns. *)
Definition found ents M k (r : Z * Z) : Prop :=
  in_table SIZE (snd r) /\
  ((fst r = 0 /\ occ ents (snd r) = true /\ e_key (aget ents (snd r)) = k /\
    M !! k = Some (e_val (aget ents (snd r)))) \/
   (fst r = 1 /\ occ ents (snd r) = false /\ M !! k = None /\ searched ents k (snd r))).

Lemma searched_start ents k : searched ents k (HASH2INDEX SIZE (H k)).
Proof using size_pos.
  split; [by apply HASH2INDEX_bound|]. intros j Hj Hd.
  rewrite dist_self in Hd by done. pose proof (dist_bound SIZE size_pos (HASH2INDEX SIZE (H k)) j). lia.
Qed.

Lemma searched_next ents k i s :
  searched ents k i -> in_table SIZE s -> occ ents s = false ->
  occ ents i = true -> e_key (aget ents i) <> k ->
  searched ents k (next_slot SIZE i) /\
  dist SIZE (next_slot SIZE i) s < dist SIZE i s.
Proof using size_pos.
  intros [Hi Hb] Hs Hos Hoi Hk. pose proof (next_in_table SIZE size_pos i Hi) as Hn.
  set (h := HASH2INDEX SIZE (H k)) in *. pose proof (HASH2INDEX_bound SIZE size_pos (H k)) as Hh.
  assert (i <> s) as Hne by congruence.
  assert (dist SIZE h i <= dist SIZE h s) as Hle.
  { destruct (decide (dist SIZE h i <= dist SIZE h s)); [done|].
    destruct (Hb s); [done|fold h; lia|congruence]. }
  assert (dist SIZE h i <> dist SIZE h s) by (intros ?; by apply Hne, (dist_inj SIZE size_pos h)).
  assert (next_slot SIZE i <> h) as Hnh.
  { intros Enh. pose proof (dist_bound SIZE size_pos h s). pose proof (dist_bound SIZE size_pos h i).
    pose proof (dist_from SIZE size_pos (next_slot SIZE i) i s) as Hd.
    assert (dist SIZE i (next_slot SIZE i) = (1) mod SIZE) as Hone.
    { unfold in_table in *. rewrite next_slot_mod by lia. unfold dist.
      rewrite Zminus_mod_idemp_l. f_equal. lia. }
    rewrite (dist_from SIZE size_pos h i (next_slot SIZE i)) in Hone.
    rewrite Enh, dist_self in Hone by done.
    assert (SIZE <> 1) by lia. rewrite Z.mod_small in Hone by lia.
    case_decide; lia. }
  pose proof (dist_next SIZE size_pos h i Hi Hh Hnh) as Hdn. split.
  - split; [done|]. intros j Hj Hd. fold h in Hd.
    destruct (decide (dist SIZE h j = dist SIZE h i)) as [Eq|].
    + apply (dist_inj SIZE size_pos h) in Eq as ->; auto.
    + apply Hb; auto. fold h. lia.
  - rewrite (dist_from SIZE size_pos h i s), (dist_from SIZE size_pos h (next_slot SIZE i) s).
    repeat case_decide; lia.
Qed.

Lemma searched_free ents M k i :
  table_rep ents M -> searched ents k i -> occ ents i = false -> M !! k = None.
Proof using size_pos.
  intros [Hr Hg] [Hi Hb] Ho. destruct (M !! k) as [v|] eqn:Ev; [exfalso|done].
  apply (eo_lookup _ _ Hr) in Ev as (x & Hx & Hox & Hkx & _).
  assert (home ents x = HASH2INDEX SIZE (H k)) as Hh
    by (unfold home; by rewrite (eo_hash _ _ Hr), Hkx).
  specialize (Hg x i Hx Hox Hi). rewrite Hh in Hg.
  destruct (decide (dist SIZE (HASH2INDEX SIZE (H k)) i <
                    dist SIZE (HASH2INDEX SIZE (H k)) x)) as [Hlt|Hge].
  - rewrite (Hg Hlt) in Ho. done.
  - destruct (decide (dist SIZE (HASH2INDEX SIZE (H k)) x =
                      dist SIZE (HASH2INDEX SIZE (H k)) i)) as [Eq|].
    + apply (dist_inj SIZE size_pos) in Eq as ->; auto. congruence.
    + destruct (Hb x); auto. lia.
Qed.

Lemma entry_matches_iff ents M i k :
  entries_of ents M -> in_table SIZE i -> occ ents i = true ->
  entry_matches (aget ents i) (H k) k = bool_decide (e_key (aget ents i) = k).
Proof using.
  intros Hr Hi Ho. unfold entry_matches. rewrite (eo_hash _ _ Hr) by done.
  case_bool_decide as Ek; [|by rewrite andb_false_r]. by rewrite Ek, Z.eqb_refl.
Qed.

(** The search terminates and is correct as soon as one slot is free. *)
Lemma find_spec ents M k s :
  table_rep ents M -> in_table SIZE s -> occ ents s = false ->
  exists r, get_hashtable_index SIZE ents k (H k) = Ok r /\ found ents M k r.
Proof using size_pos.
  intros Hr Hs Hos. pose proof (tr_entries _ _ Hr) as He.
  apply (while_rule (searched ents k) (found ents M k) (fun i => dist SIZE i s)).
  - intros i _. by apply dist_bound.
  - intros i Hi. pose proof Hi as [Hin _]. unfold find_body.
    rewrite rd_ok by (rewrite (eo_len _ _ He); exact Hin). cbn [rbind].
    fold (occ ents i). destruct (occ ents i) eqn:Ho; cbn [negb].
    + rewrite (entry_matches_iff ents M) by done. case_bool_decide as Ek.
      * left. eexists. split; [done|]. split; [done|]. left. split_and!; try done.
        cbn [snd]. rewrite <- Ek at 1. by apply (key_of_slot ents M).
      * right. eexists. split; [done|]. by apply searched_next.
    + left. eexists. split; [done|]. split; [done|]. right. split_and!; try done.
      by apply (searched_free ents M k i).
  - apply searched_start.
  - pose proof (dist_bound SIZE size_pos (HASH2INDEX SIZE (H k)) s). lia.
Qed.

(** Without a free slot the search for an absent key never returns. *)
Lemma find_hangs ents M k :
  entries_of ents M -> (forall i, in_table SIZE i -> occ ents i = true) -> M !! k = None ->
  get_hashtable_index SIZE ents k (H k) = Hang.
Proof using size_pos.
  intros He Hall Hk. apply (while_hang (in_table SIZE)); [|by apply HASH2INDEX_bound].
  intros i Hi. exists (next_slot SIZE i). split; [|by apply next_in_table].
  unfold find_body. rewrite rd_ok by (rewrite (eo_len _ _ He); exact Hi). cbn [rbind].
  fold (occ ents i). rewrite Hall by done. cbn [negb].
  rewrite (entry_matches_iff ents M) by auto. case_bool_decide as Ek; [|done].
  exfalso. pose proof (key_of_slot ents M i He Hi (Hall i Hi)). congruence.
Qed.

(** The insertion's own loop differs from the search only in its status. *)
Lemma probe_for_add_find ents k hash r :
  get_hashtable_index SIZE ents k hash = Ok r ->
  probe_for_add SIZE ents k hash = Ok (1 - fst r, snd r).
Proof using.
  unfold get_hashtable_index, probe_for_add, while. rewrite !iter_pos_nat.
  generalize (Pos.to_nat LOOP_FUEL) as n. generalize (HASH2INDEX SIZE hash) as i.
  intros i n. revert i. induction n as [|n IH]; intros i; cbn [iter_nat]; [done|].
  unfold find_body at 1, probe_body at 1.
  destruct (rd ents i) as [e| |]; cbn [rbind]; try done.
  destruct (e_occupied e); cbn [negb rbind].
  - destruct (entry_matches e hash k); cbn [rbind]; [|apply IH]. by intros [= <-].
  - by intros [= <-].
Qed.

(** *** Updates of one slot *)

Definition updated ents ents' (i : Z) (e : E) : Prop :=
  alen ents' = alen ents /\
  forall j, aget ents' j = if decide (j = i) then e else aget ents j.

Lemma updated_aset ents i e : updated ents (aset ents i e) i e.
Proof using. split; [done|]. intros j. rewrite aget_aset. repeat case_decide; congruence. Qed.

Lemma updated_aset2 ents i o e : updated ents (aset (aset ents i o) i e) i e.
Proof using. split; [done|]. intros j. rewrite !aget_aset. repeat case_decide; congruence. Qed.

Lemma insert_entries ents ents' M k v i e :
  entries_of ents M -> in_table SIZE i -> M !! k = None -> occ ents i = false ->
  updated ents ents' i e -> e_occupied e = true -> e_hash e = H k -> e_key e = k -> e_val e = v ->
  entries_of ents' (<[k := v]> M).
Proof using size_pos.
  intros [Hlen Hhash Hinj Hlook] Hi Hk Ho [Hl Hg] Heo Heh Hek Hev.
  assert (forall j, in_table SIZE j -> occ ents j = true -> e_key (aget ents j) <> k) as Hfresh.
  { intros j Hj Hoj Ekj. assert (M !! k = Some (e_val (aget ents j))) by (apply Hlook; eauto).
    congruence. }
  unfold occ in *. split; [congruence| | |]; unfold occ; setoid_rewrite Hg.
  - intros j Hj. case_decide; [congruence|auto].
  - intros j1 j2 Hj1 Hj2. repeat case_decide; subst; try done; auto.
    + intros _ Ho2 Eq. by destruct (Hfresh j2).
    + intros Ho1 _ Eq. by destruct (Hfresh j1).
  - intros k' v'. rewrite lookup_insert. case_decide as Ek; subst.
    + split.
      * intros [= <-]. exists i. rewrite decide_True by done. done.
      * intros (j & Hj & Hoj & Hkj & Hvj). case_decide; [congruence|].
        by destruct (Hfresh j).
    + rewrite Hlook. split.
      * intros (j & Hj & Hoj & Hkj & Hvj). exists j. rewrite decide_False; [done|congruence].
      * intros (j & Hj & Hoj & Hkj & Hvj). case_decide; [congruence|]. by exists j.
Qed.

Lemma insert_spec ents ents' M k v i e :
  table_rep ents M -> M !! k = None -> searched ents k i -> occ ents i = false ->
  updated ents ents' i e -> e_occupied e = true -> e_hash e = H k -> e_key e = k -> e_val e = v ->
  table_rep ents' (<[k := v]> M).
Proof using size_pos.
  intros [He Hgap] Hk [Hi Hb] Ho Hu Heo Heh Hek Hev. split; [by eapply insert_entries|].
  destruct Hu as [Hl Hg]. intros j j' Hj Hoj Hj' Hd. unfold occ, home in *.
  rewrite Hg in *. repeat case_decide; subst; try done.
  - destruct (Hb j') as [? _]; [done|by rewrite <- Heh|done].
  - by apply (Hgap j j').
Qed.

(** Overwriting the value of a present key. *)
Lemma overwrite_spec ents ents' M k v i e :
  table_rep ents M -> in_table SIZE i -> occ ents i = true -> e_key (aget ents i) = k ->
  updated ents ents' i e -> e_occupied e = true -> e_hash e = e_hash (aget ents i) ->
  e_key e = k -> e_val e = v ->
  table_rep ents' (<[k := v]> M).
Proof using size_pos.
  intros [[Hlen Hhash Hinj Hlook] Hgap] Hi Ho Hk [Hl Hg] Heo Heh Hek Hev.
  assert (forall j, occ ents' j = occ ents j) as Hocc.
  { intros j. unfold occ in *. rewrite Hg. case_decide; congruence. }
  assert (forall j, e_key (aget ents' j) = e_key (aget ents j)) as Hkey.
  { intros j. rewrite Hg. case_decide; congruence. }
  assert (forall j, e_hash (aget ents' j) = e_hash (aget ents j)) as Hhs.
  { intros j. rewrite Hg. case_decide; congruence. }
  split; [split; [congruence| | |]|].
  - intros j. rewrite Hocc, Hhs, Hkey. auto.
  - intros j1 j2. rewrite !Hocc, !Hkey. auto.
  - intros k' v'. setoid_rewrite Hocc. setoid_rewrite Hkey. setoid_rewrite Hg.
    rewrite lookup_insert. case_decide as Ek.
    + split.
      * intros [= <-]. exists i. rewrite decide_True by done. split_and!; congruence.
      * intros (j & Hj & Hoj & Hkj & Hvj). replace j with i in * by (apply Hinj; congruence).
        rewrite decide_True in Hvj by done. congruence.
    + rewrite Hlook. split; intros (j & Hj & Hoj & Hkj & Hvj); exists j;
        (destruct (decide (j = i)); [congruence|done]).
  - intros j j' Hj. unfold home. rewrite !Hocc, Hhs. by apply Hgap.
Qed.

Lemma delete_entries ents ents' M i e :
  entries_of ents M -> in_table SIZE i -> occ ents i = true ->
  updated ents ents' i e -> e_occupied e = false ->
  entries_of ents' (delete (e_key (aget ents i)) M).
Proof using size_pos.
  intros [Hlen Hhash Hinj Hlook] Hi Ho [Hl Hg] Heo. unfold occ in *.
  split; [congruence| | |]; unfold occ; setoid_rewrite Hg.
  - intros j Hj. case_decide; [congruence|auto].
  - intros j1 j2 Hj1 Hj2. repeat case_decide; subst; try congruence; auto.
  - intros k v. rewrite lookup_delete. case_decide as Ek; subst.
    + split; [done|]. intros (j & Hj & Hoj & Hkj & Hvj). case_decide; [congruence|].
      exfalso. by assert (j = i) by auto.
    + rewrite Hlook. split.
      * intros (j & Hj & Hoj & Hkj & Hvj). exists j. rewrite decide_False; [done|congruence].
      * intros (j & Hj & Hoj & Hkj & Hvj). case_decide; [congruence|]. by exists j.
Qed.

(** Moving the entry at [i] to the free slot [em]. *)
Definition moved ents ents' (i em : Z) : Prop :=
  alen ents' = alen ents /\
  occ ents' i = false /\ occ ents' em = true /\
  e_hash (aget ents' em) = e_hash (aget ents i) /\
  e_key (aget ents' em) = e_key (aget ents i) /\
  e_val (aget ents' em) = e_val (aget ents i) /\
  forall j, j <> i -> j <> em -> aget ents' j = aget ents j.

Lemma moved_entries ents ents' M i em :
  entries_of ents M -> in_table SIZE i -> in_table SIZE em -> i <> em ->
  occ ents i = true -> occ ents em = false -> moved ents ents' i em -> entries_of ents' M.
Proof using size_pos.
  intros [Hlen Hhash Hinj Hlook] Hi Hem Hne Hoi Hoem (Hl & Hi' & Hem' & Hh & Hk & Hv & Hj).
  (* the entry at [j] in the new table is that of [src j] in the old one *)
  set (src j := if decide (j = em) then i else j).
  assert (forall j, occ ents' j = true -> occ ents (src j) = true /\
            e_hash (aget ents' j) = e_hash (aget ents (src j)) /\
            e_key (aget ents' j) = e_key (aget ents (src j)) /\
            e_val (aget ents' j) = e_val (aget ents (src j)) /\ j <> i) as Hsrc.
  { intros j Hoj. subst src; simpl. case_decide; subst; [done|].
    assert (j <> i) by congruence. unfold occ in *. rewrite Hj in * by done. done. }
  assert (forall j, in_table SIZE j -> in_table SIZE (src j)) as Hin.
  { intros j ?. subst src; simpl. by case_decide. }
  split; [congruence| | |].
  - intros j Hj1 Hoj. destruct (Hsrc j Hoj) as (? & -> & -> & _). auto.
  - intros j1 j2 H1 H2 Ho1 Ho2. destruct (Hsrc j1 Ho1) as (? & _ & -> & _ & ?).
    destruct (Hsrc j2 Ho2) as (? & _ & -> & _ & ?). intros Ek.
    apply Hinj in Ek; auto. subst src; simpl in *. repeat case_decide; congruence.
  - intros k v. rewrite Hlook. split; intros (j & Hj1 & Hoj & Hkj & Hvj).
    + destruct (decide (j = i)) as [->|].
      * exists em. split_and!; congruence.
      * assert (j <> em) by congruence. exists j. unfold occ. by rewrite Hj.
    + destruct (Hsrc j Hoj) as (? & _ & Ek & Ev & _). exists (src j). split_and!; auto; congruence.
Qed.

(** *** Removal with compaction *)

(** Positions counted from a slot [s] that stays free: no probe sequence and no
    scan passes it, so that the cyclic order of the slots becomes linear. *)
Definition pos (s i : Z) : Z := dist SIZE s i.

Lemma pos_pos s i : in_table SIZE s -> in_table SIZE i -> i <> s -> 0 < pos s i.
Proof using size_pos.
  intros Hs Hi Hne. pose proof (dist_bound SIZE size_pos s i).
  assert (pos s i <> 0); [|unfold pos in *; lia]. intros E0. apply Hne.
  apply (dist_inj SIZE size_pos s); auto. by rewrite dist_self.
Qed.

Lemma last_slot s i :
  in_table SIZE s -> in_table SIZE i -> next_slot SIZE i = s -> pos s i = SIZE - 1.
Proof using size_pos.
  intros Hs Hi Es. pose proof (dist_bound SIZE size_pos s i). unfold pos.
  destruct (decide (dist SIZE s i = SIZE - 1)); [done|exfalso].
  assert (dist SIZE s (next_slot SIZE i) = dist SIZE s i + 1) as Hx.
  { unfold in_table in Hi. rewrite next_slot_mod by lia. unfold dist in *.
    rewrite Zminus_mod_idemp_l. replace (i + 1 - s) with (i - s + 1) by lia.
    rewrite <- Zplus_mod_idemp_l. apply Z.mod_small. lia. }
  rewrite Es, dist_self in Hx by done. lia.
Qed.

(** In a table without gap every probe sequence lies after [s]. *)
Lemma path_linear ents s i :
  no_gap ents -> in_table SIZE s -> occ ents s = false -> in_table SIZE i -> occ ents i = true ->
  0 < pos s (home ents i) <= pos s i /\
  forall j, in_table SIZE j -> pos s (home ents i) <= pos s j < pos s i -> occ ents j = true.
Proof using size_pos.
  intros Hg Hs Hos Hi Hoi. assert (i <> s) as Hne by congruence.
  pose proof (pos_pos s i Hs Hi Hne) as Hpi.
  assert (in_table SIZE (home ents i)) as Hh by (by apply HASH2INDEX_bound).
  set (h := home ents i) in *. unfold pos in *.
  pose proof (dist_bound SIZE size_pos s h). pose proof (dist_bound SIZE size_pos s i).
  pose proof (dist_self SIZE size_pos s).
  assert (0 < dist SIZE s h <= dist SIZE s i) as Hord.
  { destruct (decide (0 < dist SIZE s h <= dist SIZE s i)); [done|exfalso].
    assert (occ ents s = true); [|congruence]. apply (Hg i); auto. fold h.
    rewrite (dist_from SIZE size_pos s h s), (dist_from SIZE size_pos s h i).
    repeat case_decide; lia. }
  split; [done|]. intros j Hj Hb. apply (Hg i); auto. fold h.
  rewrite (dist_from SIZE size_pos s h j), (dist_from SIZE size_pos s h i).
  repeat case_decide; lia.
Qed.

(** The table while a gap at [em] travels forward: probe sequences may pass
    [em], but no free slot otherwise. *)
Record gap_inv ents M (s em : Z) : Prop := GapInv {
  gi_entries : entries_of ents M;
  gi_s : in_table SIZE s;
  gi_s_free : occ ents s = false;
  gi_em : in_table SIZE em;
  gi_em_free : occ ents em = false;
  gi_ne : em <> s;
  gi_path : forall i, in_table SIZE i -> occ ents i = true ->
    0 < pos s (home ents i) <= pos s i /\
    forall j, in_table SIZE j -> pos s (home ents i) <= pos s j < pos s i ->
      occ ents j = true \/ j = em }.

(** The scan from the gap to [index] found only entries that cannot move. *)
Definition scanned ents (s em index : Z) : Prop :=
  in_table SIZE index /\ pos s em <= pos s index /\
  forall i, in_table SIZE i -> pos s em < pos s i <= pos s index ->
    occ ents i = true /\ pos s em < pos s (home ents i).

Lemma gap_inv_start ents ents' M s i e :
  table_rep ents M -> in_table SIZE s -> occ ents s = false -> in_table SIZE i ->
  occ ents i = true -> updated ents ents' i e -> e_occupied e = false ->
  gap_inv ents' (delete (e_key (aget ents i)) M) s i /\ scanned ents' s i i.
Proof using size_pos.
  intros [He Hg] Hs Hos Hi Hoi Hu Heo. pose proof (delete_entries _ _ _ _ _ He Hi Hoi Hu Heo).
  destruct Hu as [Hl Hget].
  assert (forall j, occ ents' j = if decide (j = i) then false else occ ents j) as Hocc.
  { intros j. unfold occ. rewrite Hget. case_decide; congruence. }
  split.
  - split; auto.
    + rewrite Hocc. by case_decide.
    + rewrite Hocc. by case_decide.
    + congruence.
    + intros j Hj. rewrite Hocc. case_decide as Hne; [done|]. intros Hoj.
      assert (home ents' j = home ents j) as -> by (unfold home; by rewrite Hget, decide_False).
      destruct (path_linear ents s j) as [? Hp]; auto. split; [done|].
      intros x Hx Hb. rewrite Hocc. case_decide; auto.
  - split; [done|]. split; [done|]. intros x Hx. lia.
Qed.

(** The gap has no entry after it that needs it: the table has no gap. *)
Lemma gap_inv_done ents M s em index :
  gap_inv ents M s em -> scanned ents s em index ->
  occ ents (next_slot SIZE index) = false -> table_rep ents M.
Proof using size_pos.
  intros [He Hs Hos Hem Hoem Hne Hpath] (Hin & Hle & Hscan) Hfree. split; [done|].
  intros i j Hi Hoi Hj Hd. destruct (Hpath i Hi Hoi) as [Hh Hocc].
  assert (in_table SIZE (home ents i)) as Hht by (by apply HASH2INDEX_bound).
  pose proof (next_in_table SIZE size_pos index Hin) as Hnt.
  rewrite (dist_from SIZE size_pos s (home ents i) j) in Hd.
  rewrite (dist_from SIZE size_pos s (home ents i) i) in Hd. fold (pos s i) (pos s j) in Hd.
  fold (pos s (home ents i)) in Hd.
  pose proof (dist_bound SIZE size_pos s j). pose proof (dist_bound SIZE size_pos s i).
  fold (pos s i) (pos s j) in *.
  assert (pos s (home ents i) <= pos s j < pos s i) as Hb by (repeat case_decide; lia).
  destruct (Hocc j Hj Hb) as [?| ->]; [done|exfalso].
  destruct (decide (pos s i <= pos s index)).
  { destruct (Hscan i Hi); lia. }
  destruct (decide (next_slot SIZE index = s)) as [Es|Es].
  { apply last_slot in Es; auto. lia. }
  assert (pos s (next_slot SIZE index) = pos s index + 1) as Hn by (by apply dist_next).
  assert (pos s i <> pos s (next_slot SIZE index)).
  { intros Ep. apply (dist_inj SIZE size_pos s) in Ep; auto. congruence. }
  destruct (Hocc (next_slot SIZE index)) as [Ho|Eq]; [done|lia|congruence|].
  rewrite Eq in Hn. lia.
Qed.

(** One entry moves into the gap, which jumps to its slot. *)
Lemma gap_inv_move ents ents' M s em i :
  gap_inv ents M s em -> in_table SIZE i -> occ ents i = true ->
  pos s em < pos s i -> pos s (home ents i) <= pos s em ->
  (forall x, in_table SIZE x -> pos s em < pos s x < pos s i -> occ ents x = true) ->
  moved ents ents' i em ->
  gap_inv ents' M s i /\ scanned ents' s i i.
Proof using size_pos.
  intros [He Hs Hos Hem Hoem Hne Hpath] Hi Hoi Hlt Hhome Hbetween Hm.
  assert (i <> em) as Hie by congruence. assert (i <> s) as His by congruence.
  pose proof (moved_entries _ _ _ _ _ He Hi Hem Hie Hoi Hoem Hm) as He'.
  destruct Hm as (Hl & Hi' & Hem' & Hh & Hk & Hv & Hj).
  assert (forall j, j <> i -> occ ents j = true -> occ ents' j = true) as Hkeep.
  { intros j ??. assert (j <> em) by congruence. unfold occ in *. by rewrite Hj. }
  split; [|split; [done|]; split; [lia|]; intros x Hx; lia].
  split; auto.
  - unfold occ in *. rewrite Hj; congruence.
  - intros j Hjt Hoj. destruct (decide (j = em)) as [->|Hjne].
    + assert (home ents' em = home ents i) as -> by (unfold home; by rewrite Hh).
      destruct (Hpath i Hi Hoi) as [? Hp]. split; [lia|]. intros x Hx Hb. left.
      destruct (Hp x Hx) as [Hox| ->]; [lia| |lia].
      apply Hkeep; [|done]. intros ->. lia.
    + assert (j <> i) as Hji by congruence.
      assert (home ents' j = home ents j) as -> by (unfold home; by rewrite Hj).
      assert (occ ents j = true) as Hoj' by (unfold occ in *; by rewrite Hj in Hoj).
      destruct (Hpath j Hjt Hoj') as [? Hp]. split; [done|]. intros x Hx Hb.
      destruct (decide (x = i)) as [|Hxi]; [by right|]. left.
      destruct (Hp x Hx Hb) as [Hox| ->]; auto.
Qed.

(** An occupied next slot is the next position. *)
Lemma next_pos ents M s em index :
  gap_inv ents M s em -> in_table SIZE index -> occ ents (next_slot SIZE index) = true ->
  pos s (next_slot SIZE index) = pos s index + 1.
Proof using size_pos.
  intros Hg Hin Ho. apply dist_next; [done|done|apply Hg|]. intros E0.
  by rewrite E0, (gi_s_free _ _ _ _ Hg) in Ho.
Qed.

(** The scan passes an entry that has to stay. *)
Lemma scanned_stay ents M s em index :
  gap_inv ents M s em -> scanned ents s em index ->
  let i := next_slot SIZE index in
  occ ents i = true -> pos s em < pos s (home ents i) ->
  scanned ents s em i /\ pos s index < pos s i.
Proof using size_pos.
  intros Hg (Hin & Hle & Hscan) i Hoi Hlt. pose proof (next_in_table SIZE size_pos index Hin).
  pose proof (next_pos _ _ _ _ _ Hg Hin Hoi) as Hn. fold i in Hn.
  split; [|lia]. split; [done|]. split; [lia|]. intros x Hx Hb.
  destruct (decide (pos s x = pos s i)) as [Ex|].
  - apply (dist_inj SIZE size_pos s) in Ex as ->; auto.
  - apply Hscan; auto. lia.
Qed.

(** The decision of the code is the one the gap needs. *)
Lemma must_move_iff ents M s em index :
  gap_inv ents M s em -> scanned ents s em index ->
  let i := next_slot SIZE index in
  occ ents i = true ->
  (negb (i =? home ents i) && CAN_MOVE_ITEM_TO_CURRENT_EMPTY SIZE (home ents i) em i = true <->
   pos s (home ents i) <= pos s em) /\ pos s em < pos s i.
Proof using size_pos.
  intros Hg (Hin & Hle & Hscan) i Hoi. pose proof (next_in_table SIZE size_pos index Hin) as Hi.
  pose proof (next_pos _ _ _ _ _ Hg Hin Hoi) as Hn. fold i in Hn.
  destruct (gi_path _ _ _ _ Hg i Hi Hoi) as [Hh _]. split; [|lia].
  pose proof (HASH2INDEX_bound SIZE size_pos (e_hash (aget ents i))) as Hht.
  rewrite andb_true_iff, negb_true_iff, Z.eqb_neq.
  assert (pos s em < pos s i) as Hei by lia.
  rewrite (can_move_iff SIZE size_pos s (home ents i) em i Hht (gi_em _ _ _ _ Hg) Hi (proj2 Hh) Hei).
  fold (pos s (home ents i)) (pos s em). split; [tauto|]. intros ?. split; [|done].
  intros E0. rewrite <- E0 in *. lia.
Qed.

(** The compaction loop, for any table whose [move] moves an entry and keeps
    the table's own invariant [J]. *)
Section backshift.
Context {T : Type} (entries : T -> arr E) (move : T -> Z -> Z -> res T) (J : T -> Prop).
Context (move_ok : forall t M i em, J t -> entries_of (entries t) M ->
  in_table SIZE i -> in_table SIZE em -> i <> em ->
  occ (entries t) i = true -> occ (entries t) em = false ->
  exists t', move t i em = Ok t' /\ moved (entries t) (entries t') i em /\ J t').

Definition shift_inv M (s : Z) (st : T * Z * Z) : Prop :=
  let '(t, index, em) := st in
  gap_inv (entries t) M s em /\ scanned (entries t) s em index /\ J t.

Lemma backshift_spec t M s i :
  gap_inv (entries t) M s i -> scanned (entries t) s i i -> J t ->
  exists t', backshift SIZE entries move t i = Ok t' /\ table_rep (entries t') M /\ J t'.
Proof using size_pos move_ok.
  intros Hg Hsc HJ.
  apply (while_rule (shift_inv M s) (fun t' => table_rep (entries t') M /\ J t')
           (fun st => SIZE - pos s (snd (fst st)))); [| |done|].
  - intros [[t1 index] em] _. pose proof (dist_bound SIZE size_pos s index).
    unfold pos; simpl; lia.
  - intros [[t1 index] em] (Hg1 & Hsc1 & HJ1). pose proof (gi_entries _ _ _ _ Hg1) as He.
    pose proof (next_in_table SIZE size_pos index (proj1 Hsc1)) as Hi.
    unfold backshift_body. rewrite rd_ok by (rewrite (eo_len _ _ He); exact Hi). cbn [rbind].
    set (nx := next_slot SIZE index) in *. fold (occ (entries t1) nx) (home (entries t1) nx).
    destruct (occ (entries t1) nx) eqn:Ho; cbn [negb].
    + pose proof (next_pos _ _ _ _ _ Hg1 (proj1 Hsc1) Ho) as Hn. fold nx in Hn.
      destruct (must_move_iff _ _ _ _ _ Hg1 Hsc1 Ho) as [Hiff Hlt]. fold nx in Hiff, Hlt.
      right. destruct (negb _ && _) eqn:Hc.
      * destruct (move_ok t1 M nx em) as (t2 & -> & Hm & HJ2); try done;
          [apply Hg1|intros E0; rewrite E0 in Hlt; lia|apply Hg1|].
        eexists. split; [done|].
        destruct (gap_inv_move _ (entries t2) _ _ _ nx Hg1) as [Hg2 Hsc2]; try done.
        -- by apply Hiff.
        -- intros x Hx Hb. destruct Hsc1 as (Hin & Hle & Hscan). apply Hscan; auto; lia.
        -- split; [done|]. cbn [fst snd]. lia.
      * eexists. split; [done|].
        destruct (scanned_stay _ _ _ _ _ Hg1 Hsc1 Ho) as [Hsc2 Hlt2].
        { fold nx. destruct (decide (pos s (home (entries t1) nx) <= pos s em)) as [Hx|]; [|lia].
          apply Hiff in Hx. congruence. }
        split; [done|]. simpl. fold nx in Hlt2. lia.
    + left. exists t1. split; [done|]. split; [|done]. by eapply gap_inv_done.
  - unfold pos. cbn [fst snd]. pose proof (dist_bound SIZE size_pos s i). lia.
Qed.
End backshift.
End rep.
