(* ===== verification/IndexMap.v ===== *)
(** * Reverse index of a hash table

    The flow and the session table keep [feature_index_to_entry_map], which maps a
    stored id to the slot of its entry and every other id to -1. The code updates
    it whenever an entry is inserted, removed or moved; this file states the
    invariant that ties it to the slots and that these three updates keep it. *)

From S2P Require Import Prelude Probe.

Section index.
Context {E V : Type} `{!ProbeEntry E V} (SIZE FS : Z) (val : E -> Z).
Implicit Types (ents : arr E) (map : arr Z).

Record index_ok ents map : Prop := IndexOk {
  ix_len : alen map = FS;
  ix_fwd : forall i, in_table SIZE i -> occ ents i = true ->
    0 <= val (aget ents i) < FS /\ aget map (val (aget ents i)) = i;
  ix_bwd : forall v, 0 <= v < FS ->
    aget map v = -1 \/
    (in_table SIZE (aget map v) /\ occ ents (aget map v) = true /\
     val (aget ents (aget map v)) = v) }.

(** The id of an occupied slot decides the slot. *)
Lemma index_ok_inj ents map i j :
  index_ok ents map -> in_table SIZE i -> in_table SIZE j ->
  occ ents i = true -> occ ents j = true ->
  val (aget ents i) = val (aget ents j) -> i = j.
Proof using.
  intros Hix Hi Hj Hoi Hoj Ev. destruct (ix_fwd _ _ Hix i Hi Hoi) as [_ E1].
  destruct (ix_fwd _ _ Hix j Hj Hoj) as [_ E2]. congruence.
Qed.

Lemma occ_updated ents ents' i e j :
  updated ents ents' i e -> occ ents' j = if decide (j = i) then e_occupied e else occ ents j.
Proof using. intros [_ Hg]. unfold occ. rewrite Hg. by case_decide. Qed.

Lemma index_insert ents ents' map i e :
  index_ok ents map -> in_table SIZE i -> occ ents i = false ->
  updated ents ents' i e -> e_occupied e = true -> 0 <= val e < FS ->
  (forall j, in_table SIZE j -> occ ents j = true -> val (aget ents j) <> val e) ->
  index_ok ents' (aset map (val e) i).
Proof using.
  intros [Hl Hf Hb] Hi Hoi Hu Heo Hv Hfree. pose proof (proj2 Hu) as Hg. split; [done| |].
  - intros j Hj. rewrite (occ_updated _ _ _ _ _ Hu), Hg, aget_aset.
    case_decide; subst; [intros _; by rewrite decide_True|].
    intros Hoj. rewrite decide_False; [by apply Hf|]. intros Ev. by apply (Hfree j).
  - intros v Hv'. rewrite aget_aset. case_decide as Ev.
    + right. rewrite (occ_updated _ _ _ _ _ Hu), Hg, !decide_True by done. done.
    + destruct (Hb v Hv') as [?|(Hs & Ho & Es)]; [by left|right].
      rewrite (occ_updated _ _ _ _ _ Hu), Hg, !decide_False by congruence. done.
Qed.

Lemma index_remove ents ents' map i e :
  index_ok ents map -> in_table SIZE i -> occ ents i = true ->
  updated ents ents' i e -> e_occupied e = false ->
  index_ok ents' (aset map (val (aget ents i)) (-1)).
Proof using.
  intros Hix Hi Hoi Hu Heo. pose proof (proj2 Hu) as Hg.
  pose proof Hix as [Hl Hf Hb]. split; [done| |].
  - intros j Hj. rewrite (occ_updated _ _ _ _ _ Hu), Hg, aget_aset.
    case_decide; [congruence|]. intros Hoj. rewrite decide_False; [by apply Hf|].
    intros Ev. by apply (index_ok_inj ents map i j) in Ev.
  - intros v Hv. rewrite aget_aset. case_decide as Ev; [by left|].
    destruct (Hb v Hv) as [?|(Hs & Ho & Es)]; [by left|right].
    rewrite (occ_updated _ _ _ _ _ Hu), Hg, !decide_False by congruence. done.
Qed.

Lemma index_move ents ents' map i em :
  index_ok ents map -> in_table SIZE i -> in_table SIZE em -> i <> em ->
  occ ents i = true -> occ ents em = false -> moved ents ents' i em ->
  val (aget ents' em) = val (aget ents i) ->
  index_ok ents' (aset map (val (aget ents i)) em).
Proof using.
  intros Hix Hi Hem Hne Hoi Hoem (_ & Hi' & Hem' & _ & _ & _ & Hj) Hv.
  pose proof Hix as [Hl Hf Hb]. split; [done| |].
  - intros j Hjt Hoj. rewrite aget_aset. destruct (decide (j = em)) as [->|].
    + rewrite Hv, decide_True by done. split; [by apply Hf|done].
    + assert (j <> i) by congruence. unfold occ in Hoj. rewrite Hj in * by done.
      rewrite decide_False; [by apply Hf|].
      intros Ev. by apply (index_ok_inj ents map i j) in Ev.
  - intros v Hv'. rewrite aget_aset. case_decide as Ev; [right; by rewrite Hv|].
    destruct (Hb v Hv') as [?|(Hs & Ho & Es)]; [by left|right].
    unfold occ. rewrite Hj by congruence. done.
Qed.

(** Distinct ids in a bounded range: a table of ids has at most as many entries
    as there are ids. *)
Lemma index_size ents map (H : list Z -> Z) (M : gmap (list Z) V) (vid : V -> Z) :
  index_ok ents map -> entries_of SIZE H ents M -> 0 <= FS ->
  (forall e, vid (e_val e) = val e) ->
  Z.of_nat (size M) <= FS.
Proof using.
  intros Hix He HFS Hvid.
  assert (NoDup ((fun kv => vid (snd kv)) <$> map_to_list M)) as Hnd.
  { apply NoDup_fmap_2_strong; [|apply NoDup_map_to_list].
    intros [k1 v1] [k2 v2] H1%elem_of_map_to_list H2%elem_of_map_to_list; simpl. intros Ev.
    apply (eo_lookup _ _ _ _ He) in H1 as (i & Hi & Hoi & Hki & Hvi).
    apply (eo_lookup _ _ _ _ He) in H2 as (j & Hj & Hoj & Hkj & Hvj).
    assert (i = j); [|congruence]. apply (index_ok_inj ents map); auto.
    rewrite <- !Hvid. congruence. }
  assert (((fun kv => vid (snd kv)) <$> map_to_list M) ⊆+ seqZ 0 FS) as Hsub.
  { apply NoDup_submseteq; [done|].
    intros v ([k x] & -> & Hx%elem_of_map_to_list)%list_elem_of_fmap; simpl.
    apply (eo_lookup _ _ _ _ He) in Hx as (i & Hi & Hoi & Hki & Hvi).
    apply elem_of_seqZ0. rewrite <- Hvi, Hvid. by apply (ix_fwd _ _ Hix). }
  apply submseteq_length in Hsub.
  rewrite length_fmap, length_map_to_list, length_seqZ in Hsub. lia.
Qed.
End index.
