(* ===== verification/IdTable.v ===== *)
(** * The interface of the tables of ids

    The flow database works with two hash tables, of flow ids and of session ids.
    What it needs of them is stated here once, as a class of operations and a
    class of laws against a finite map from key bytes to the stored tuple and its
    id. [FlowTable] and [SessionTable] give the instances; [FlowDb] is verified
    against the class. *)

From S2P Require Import Prelude Structs.

(** The abstract state: under the bytes of the key, the tuple and its id. *)
Notation id_map := (gmap (list Z) (five_tuple_t * Z)).

Definition id_free (v : Z) (M : id_map) : Prop := forall k x, M !! k = Some x -> snd x <> v.

(** The tuple that owns an id. *)
Definition id_owner (M : id_map) (v : Z) : option five_tuple_t :=
  head ((fun kx => fst (snd kx)) <$> filter (fun kx => snd (snd kx) = v) (map_to_list M)).

Class IdTable (T : Type) : Type := {
  it_key : five_tuple_t -> list Z;
  it_storable : five_tuple_t -> Z -> Prop;
  it_add : T -> five_tuple_t -> Z -> res (Z * T);
  it_get : T -> five_tuple_t -> res (Z * option Z);
  it_remove : T -> five_tuple_t -> res (Z * option Z * T);
  it_remove_by_value : T -> Z -> res (Z * option five_tuple_t * T);
  it_rep : T -> id_map -> Prop }.

(** The laws: each operation is total, stays in bounds and does to the map what
    its name says. *)
Class IdTableLaws (T : Type) `{!IdTable T} : Prop := {
  it_add_new t M ft v :
    it_rep t M -> M !! it_key ft = None -> it_storable ft v -> id_free v M ->
    exists t', it_add t ft v = Ok (0, t') /\ it_rep t' (<[it_key ft := (ft, v)]> M);
  it_add_present t M ft v x :
    it_rep t M -> M !! it_key ft = Some x -> it_add t ft v = Ok (1, t);
  it_get_ok t M ft :
    it_rep t M ->
    it_get t ft = Ok (match M !! it_key ft with Some x => (0, Some (snd x)) | None => (1, None) end);
  it_remove_ok t M ft :
    it_rep t M ->
    match M !! it_key ft with
    | Some x => exists t', it_remove t ft = Ok (0, Some (snd x), t') /\
                           it_rep t' (delete (it_key ft) M)
    | None => it_remove t ft = Ok (1, None, t)
    end;
  it_remove_by_value_ok t M v :
    it_rep t M -> 0 <= v < FEATURE_SIZE ->
    (exists ft t', M !! it_key ft = Some (ft, v) /\
       it_remove_by_value t v = Ok (0, Some ft, t') /\ it_rep t' (delete (it_key ft) M)) \/
    (id_free v M /\ it_remove_by_value t v = Ok (1, None, t));
  it_key_of t M k x : it_rep t M -> M !! k = Some x -> k = it_key (fst x);
  it_stored t M k x : it_rep t M -> M !! k = Some x -> it_storable (fst x) (snd x);
  it_ids_distinct t M k1 k2 x1 x2 :
    it_rep t M -> M !! k1 = Some x1 -> M !! k2 = Some x2 -> snd x1 = snd x2 -> k1 = k2 }.

Lemma id_free_owner M v : id_free v M -> id_owner M v = None.
Proof.
  intros Hf. unfold id_owner. destruct (filter _ _) as [|[k x] l] eqn:El; [done|exfalso].
  assert ((k, x) ∈ filter (fun kx => snd (snd kx) = v) (map_to_list M)) as Hin
    by (rewrite El; left).
  apply list_elem_of_filter in Hin as [Hv Hin%elem_of_map_to_list]. by apply (Hf k x).
Qed.

Lemma id_owner_free M v : id_owner M v = None -> id_free v M.
Proof.
  unfold id_owner. intros E k x Hk Hv.
  assert ((k, x) ∈ filter (fun kx => snd (snd kx) = v) (map_to_list M)) as Hin
    by (apply list_elem_of_filter; split; [done|by apply elem_of_map_to_list]).
  destruct (filter _ _); [|done]. by apply not_elem_of_nil in Hin.
Qed.

Lemma id_owner_elem M v ft : id_owner M v = Some ft -> exists k, M !! k = Some (ft, v).
Proof.
  unfold id_owner. destruct (filter _ _) as [|[k [ft' v']] l] eqn:El; [done|]. intros [= ->].
  assert ((k, (ft, v')) ∈ filter (fun kx => snd (snd kx) = v) (map_to_list M)) as Hin by (rewrite El; left).
  apply list_elem_of_filter in Hin as [Hv Hin%elem_of_map_to_list]. cbn in Hv. subst. by exists k.
Qed.

Lemma id_owner_intro M k ft v :
  (forall k1 k2 x1 x2, M !! k1 = Some x1 -> M !! k2 = Some x2 -> snd x1 = snd x2 -> k1 = k2) ->
  M !! k = Some (ft, v) -> id_owner M v = Some ft.
Proof.
  intros Hd Hk. unfold id_owner.
  assert ((k, (ft, v)) ∈ filter (fun kx => snd (snd kx) = v) (map_to_list M)) as Hin
    by (apply list_elem_of_filter; split; [done|by apply elem_of_map_to_list]).
  destruct (filter _ _) as [|[k' [ft' v']] l] eqn:El; [by apply not_elem_of_nil in Hin|].
  assert ((k', (ft', v')) ∈ filter (fun kx => snd (snd kx) = v) (map_to_list M)) as Hin'
    by (rewrite El; left).
  apply list_elem_of_filter in Hin' as [Hv Hin'%elem_of_map_to_list]. simpl in *.
  assert (k' = k) as -> by (by eapply Hd). simpl.
  rewrite Hk in Hin'. by injection Hin' as ->.
Qed.

(** ** Sequences of operations *)

Inductive id_op : Type :=
  | OpAdd (ft : five_tuple_t) (v : Z)
  | OpLookup (ft : five_tuple_t)
  | OpRemove (ft : five_tuple_t)
  | OpRemoveByValue (v : Z).

Inductive id_out : Type :=
  | OutStatus (ret : Z)
  | OutId (ret : Z) (v : option Z)
  | OutTuple (ret : Z) (ft : option five_tuple_t).

Section sequences.
Context {T : Type} `{!IdTable T}.

Definition id_exec (t : T) (op : id_op) : res (id_out * T) :=
  match op with
  | OpAdd ft v => let! '(r, t') := it_add t ft v in Ok (OutStatus r, t')
  | OpLookup ft => let! '(r, v) := it_get t ft in Ok (OutId r v, t)
  | OpRemove ft => let! '(r, v, t') := it_remove t ft in Ok (OutId r v, t')
  | OpRemoveByValue v => let! '(r, ft, t') := it_remove_by_value t v in Ok (OutTuple r ft, t')
  end.

Fixpoint id_run (t : T) (ops : list id_op) : res (list id_out * T) :=
  match ops with
  | [] => Ok ([], t)
  | op :: ops' =>
      let! '(o, t1) := id_exec t op in
      let! '(os, t2) := id_run t1 ops' in
      Ok (o :: os, t2)
  end.

(** The same on the map. *)
Definition map_exec (M : id_map) (op : id_op) : id_out * id_map :=
  match op with
  | OpAdd ft v =>
      match M !! it_key ft with
      | Some _ => (OutStatus 1, M)
      | None => (OutStatus 0, <[it_key ft := (ft, v)]> M)
      end
  | OpLookup ft =>
      match M !! it_key ft with
      | Some x => (OutId 0 (Some (snd x)), M)
      | None => (OutId 1 None, M)
      end
  | OpRemove ft =>
      match M !! it_key ft with
      | Some x => (OutId 0 (Some (snd x)), delete (it_key ft) M)
      | None => (OutId 1 None, M)
      end
  | OpRemoveByValue v =>
      match id_owner M v with
      | Some ft => (OutTuple 0 (Some ft), delete (it_key ft) M)
      | None => (OutTuple 1 None, M)
      end
  end.

Fixpoint map_run (M : id_map) (ops : list id_op) : list id_out * id_map :=
  match ops with
  | [] => ([], M)
  | op :: ops' =>
      let '(o, M1) := map_exec M op in
      let '(os, M2) := map_run M1 ops' in
      (o :: os, M2)
  end.

(** The contract of the callers: ids in range, and an id that is in use is not
    added for another key. *)
Definition op_allowed (M : id_map) (op : id_op) : Prop :=
  match op with
  | OpAdd ft v => M !! it_key ft = None -> it_storable ft v /\ id_owner M v = None
  | OpRemoveByValue v => 0 <= v < FEATURE_SIZE
  | _ => True
  end.

Fixpoint ops_allowed (M : id_map) (ops : list id_op) : Prop :=
  match ops with
  | [] => True
  | op :: ops' => op_allowed M op /\ ops_allowed (snd (map_exec M op)) ops'
  end.

Context `{!IdTableLaws T}.

Lemma id_owner_spec t M k ft v : it_rep t M -> M !! k = Some (ft, v) -> id_owner M v = Some ft.
Proof using All.
  intros Hr. apply id_owner_intro. intros k1 k2 x1 x2. by apply (it_ids_distinct t).
Qed.

Lemma id_exec_refines t M op :
  it_rep t M -> op_allowed M op ->
  exists t', id_exec t op = Ok (fst (map_exec M op), t') /\ it_rep t' (snd (map_exec M op)).
Proof using All.
  intros Hr Hop. destruct op as [ft v|ft|ft|v]; simpl in *.
  - destruct (M !! it_key ft) as [x|] eqn:Ek.
    + exists t. by rewrite (it_add_present t M ft v x).
    + destruct Hop as [Hst Hf%id_owner_free]; [done|].
      destruct (it_add_new t M ft v Hr Ek Hst Hf) as (t' & -> & ?). by exists t'.
  - exists t. rewrite (it_get_ok t M) by done. by destruct (M !! it_key ft).
  - pose proof (it_remove_ok t M ft Hr) as Hrm. destruct (M !! it_key ft) as [x|].
    + destruct Hrm as (t' & -> & ?). by exists t'.
    + exists t. by rewrite Hrm.
  - destruct (it_remove_by_value_ok t M v Hr Hop) as [(ft & t' & Hk & -> & ?)|[Hf ->]].
    + exists t'. by rewrite (id_owner_spec t M (it_key ft) ft v).
    + exists t. by rewrite id_free_owner.
Qed.

Lemma id_run_refines t M ops :
  it_rep t M -> ops_allowed M ops ->
  exists t', id_run t ops = Ok (fst (map_run M ops), t') /\ it_rep t' (snd (map_run M ops)).
Proof using All.
  revert t M. induction ops as [|op ops IH]; intros t M Hr Hops; simpl in *; [by exists t|].
  destruct Hops as [Hop Hops]. destruct (id_exec_refines t M op Hr Hop) as (t1 & -> & Hr1).
  destruct (map_exec M op) as [o M1]. simpl in *.
  destruct (IH t1 M1 Hr1 Hops) as (t2 & -> & Hr2). exists t2. simpl. by destruct (map_run M1 ops).
Qed.
End sequences.
