(* ===== verification/FlowTable.v ===== *)
(** * Flow hash table ([datastructures/flow_hashtable.c], [flow_hashtable.h])

    Maps the hashed part of a five tuple to a flow id, with the reverse index
    [feature_index_to_entry_map] from a flow id to its slot. The specification is
    a finite map from the bytes of the key to the stored tuple and its id. *)

From S2P Require Import Prelude Structs Murmur Probe IndexMap IdTable.

Definition FLOW_HASHTABLE_SIZE : Z := MAX_FLOWS * NUM_PIPES * FLOW_HASHTABLE_MULTIPLIER.

Record flow_hashtable_entry_t : Type := FlowEntry {
  fe_key : five_tuple_t;
  fe_value : Z;
  fe_hash : Z;
  fe_occupied : bool }.

Record flow_hashtable_t : Type := FlowHashtable {
  num_entries : Z;
  entries : arr flow_hashtable_entry_t;
  feature_index_to_entry_map : arr Z }.

Definition zero_flow_entry : flow_hashtable_entry_t := FlowEntry zero_five_tuple 0 0 false.

#[export] Instance flow_probe_entry : ProbeEntry flow_hashtable_entry_t (five_tuple_t * Z) := {
  e_occupied := fe_occupied;
  e_hash := fe_hash;
  e_key e := h_bytes (ft_h (fe_key e));
  e_val e := (fe_key e, fe_value e) }.

(** ** Operations *)

Definition flow_hashtable_init : flow_hashtable_t :=
  FlowHashtable 0 (amake FLOW_HASHTABLE_SIZE zero_flow_entry) (amake FEATURE_SIZE (-1)).

Definition flow_hash (key : list Z) : Z := MurmurHash3_x86_32 key 44 MURMUR_SEED.
Definition flow_hashtable_hash_key (key : five_tuple_t) : Z := flow_hash (h_bytes (ft_h key)).

Definition flow_get_hashtable_index (t : flow_hashtable_t) (key : five_tuple_t) (hash : Z) : res (Z * Z) :=
  get_hashtable_index FLOW_HASHTABLE_SIZE (entries t) (h_bytes (ft_h key)) hash.

Definition set_occupied (b : bool) (e : flow_hashtable_entry_t) : flow_hashtable_entry_t :=
  FlowEntry (fe_key e) (fe_value e) (fe_hash e) b.
Definition set_hash (h : Z) (e : flow_hashtable_entry_t) : flow_hashtable_entry_t :=
  FlowEntry (fe_key e) (fe_value e) h (fe_occupied e).

Definition flow_hashtable_add (t : flow_hashtable_t) (key : five_tuple_t) (value : Z)
    : res (Z * flow_hashtable_t) :=
  if num_entries t =? FLOW_HASHTABLE_SIZE then Ok (1, t)
  else
    let hash := flow_hashtable_hash_key key in
    let! '(ret, index) := probe_for_add FLOW_HASHTABLE_SIZE (entries t) (h_bytes (ft_h key)) hash in
    if ret =? 0 then
      let! old := rd (entries t) index in
      let! ents := wr (entries t) index (FlowEntry key value hash (fe_occupied old)) in
      let! map := wr (feature_index_to_entry_map t) value index in
      let! ents := wr ents index (FlowEntry key value hash true) in
      Ok (ret, FlowHashtable (u64 (num_entries t + 1)) ents map)
    else Ok (ret, t).

(** The status and what is written through the result pointer. *)
Definition flow_hashtable_get (t : flow_hashtable_t) (key : five_tuple_t) : res (Z * option Z) :=
  let hash := flow_hashtable_hash_key key in
  let! '(ret, index) := flow_get_hashtable_index t key hash in
  if ret =? 0 then
    let! e := rd (entries t) index in
    Ok (ret, Some (fe_value e))
  else Ok (ret, None).

(** The body of [CAN_MOVE_ITEM_TO_CURRENT_EMPTY] in [remove_by_index]. *)
Definition flow_move (t : flow_hashtable_t) (index empty_index : Z) : res flow_hashtable_t :=
  let! e := rd (entries t) index in
  let! ents := wr (entries t) index (set_occupied false e) in
  let! dst := rd ents empty_index in
  let! src := rd ents index in
  let! ents := wr ents empty_index
                 (FlowEntry (fe_key src) (fe_value src) (fe_hash src) (fe_occupied dst)) in
  let! map := wr (feature_index_to_entry_map t) (fe_value src) empty_index in
  let! dst := rd ents empty_index in
  let! ents := wr ents empty_index (set_occupied true dst) in
  Ok (FlowHashtable (num_entries t) ents map).

Definition remove_by_index (t : flow_hashtable_t) (index : Z) : res flow_hashtable_t :=
  let! e := rd (entries t) index in
  let! ents := wr (entries t) index (set_occupied false e) in
  let! ents := wr ents index (set_hash 0 (set_occupied false e)) in
  let! map := wr (feature_index_to_entry_map t) (fe_value e) (-1) in
  backshift FLOW_HASHTABLE_SIZE entries flow_move
    (FlowHashtable (u64 (num_entries t - 1)) ents map) index.

Definition flow_hashtable_remove (t : flow_hashtable_t) (key : five_tuple_t)
    : res (Z * option Z * flow_hashtable_t) :=
  let hash := flow_hashtable_hash_key key in
  let! '(status, index) := flow_get_hashtable_index t key hash in
  if negb (status =? 0) then Ok (status, None, t)
  else
    let! e := rd (entries t) index in
    let! t' := remove_by_index t index in
    Ok (0, Some (fe_value e), t').

Definition flow_hashtable_remove_by_value (t : flow_hashtable_t) (value : Z)
    : res (Z * option five_tuple_t * flow_hashtable_t) :=
  let! index := rd (feature_index_to_entry_map t) value in
  if index =? -1 then Ok (1, None, t)
  else
    let! e := rd (entries t) index in
    let! t' := remove_by_index t index in
    Ok (0, Some (fe_key e), t').

(** ** Specification *)

Record flow_rep (t : flow_hashtable_t) (M : id_map) : Prop := FlowRep {
  fr_table : table_rep FLOW_HASHTABLE_SIZE flow_hash (entries t) M;
  fr_num : num_entries t = Z.of_nat (size M);
  fr_index : index_ok FLOW_HASHTABLE_SIZE FEATURE_SIZE fe_value (entries t)
                (feature_index_to_entry_map t) }.

(** The key of a tuple in the map. *)
Definition flow_key (ft : five_tuple_t) : list Z := h_bytes (ft_h ft).
Lemma flow_size_pos : 0 < FLOW_HASHTABLE_SIZE < 2 ^ 31.
Proof. done. Qed.

(** ** Proofs *)

#[local] Opaque while flow_hash FLOW_HASHTABLE_SIZE.

Lemma flow_rep_init : flow_rep flow_hashtable_init ∅.
Proof.
  split; [|done|].
  - split; [split|].
    + done.
    + intros i _. unfold occ; simpl. by rewrite aget_amake.
    + intros i j _ _. unfold occ; simpl. by rewrite aget_amake.
    + intros k v. rewrite lookup_empty. split; [done|].
      intros (i & _ & Ho & _). unfold occ in Ho; simpl in Ho. by rewrite aget_amake in Ho.
    + intros i j _. unfold occ at 1; simpl. by rewrite aget_amake.
  - split; [done| |].
    + intros i _. unfold occ; simpl. by rewrite aget_amake.
    + intros v _. left. apply aget_amake.
Qed.

Lemma flow_rep_size t M : flow_rep t M -> Z.of_nat (size M) <= FEATURE_SIZE.
Proof.
  intros [[He _] _ Hix]. exact (index_size _ _ fe_value _ _ _ _ snd Hix He ltac:(done) (fun _ => eq_refl)).
Qed.

(** There are sixteen slots per id: the table is never full. *)
Lemma flow_never_full t M : flow_rep t M -> Z.of_nat (size M) < FLOW_HASHTABLE_SIZE.
Proof.
  intros Hr. pose proof (flow_rep_size t M Hr).
  assert (FEATURE_SIZE < FLOW_HASHTABLE_SIZE) by done. lia.
Qed.

Lemma flow_free_slot t M :
  flow_rep t M -> exists s, in_table FLOW_HASHTABLE_SIZE s /\ occ (entries t) s = false.
Proof.
  intros Hr. exact (free_slot _ _ flow_size_pos _ _ (tr_entries _ _ _ _ (fr_table _ _ Hr))
                      (flow_never_full t M Hr)).
Qed.

Lemma flow_find t M key :
  flow_rep t M ->
  exists r, flow_get_hashtable_index t key (flow_hashtable_hash_key key) = Ok r /\
            found FLOW_HASHTABLE_SIZE flow_hash (entries t) M (flow_key key) r.
Proof.
  intros Hr. destruct (flow_free_slot t M Hr) as (s & Hs & Hos).
  exact (find_spec _ _ flow_size_pos _ _ _ s (fr_table _ _ Hr) Hs Hos).
Qed.

Lemma flow_slot_bounds t M i :
  flow_rep t M -> in_table FLOW_HASHTABLE_SIZE i -> 0 <= i < alen (entries t).
Proof. intros [[He _] _ _] Hi. by rewrite (eo_len _ _ _ _ He). Qed.

Lemma flow_add_ok t M key v :
  flow_rep t M -> M !! flow_key key = None -> 0 <= v < FEATURE_SIZE -> id_free v M ->
  exists t', flow_hashtable_add t key v = Ok (0, t') /\
             flow_rep t' (<[flow_key key := (key, v)]> M).
Proof.
  intros Hr Hk Hv Hfree. pose proof (flow_rep_size t M Hr) as Hsz.
  destruct (flow_find t M key Hr) as ([st i] & Hfi & Hi & [(_ & _ & _ & Ek)|(Est & Ho & _ & Hse)]);
    cbn [fst snd] in *; [congruence|subst st].
  pose proof (flow_slot_bounds t M i Hr Hi) as Hb. pose proof Hr as [Ht Hn Hix].
  unfold flow_hashtable_add.
  assert ((num_entries t =? FLOW_HASHTABLE_SIZE) = false) as ->.
  { apply Z.eqb_neq. pose proof (flow_never_full t M Hr). lia. }
  rewrite (probe_for_add_find _ _ _ _ _ Hfi). cbn [fst snd rbind Z.sub Z.eqb Z.add Z.opp Z.pos_sub].
  pose proof (ix_len _ _ _ _ _ Hix). arr_goal. eexists. split; [reflexivity|].
  set (e := FlowEntry key v (flow_hashtable_hash_key key) true).
  match goal with |- context [aset (aset _ i ?o) i e] =>
    pose proof (updated_aset2 (entries t) i o e) as Hu end.
  split; cbn [entries num_entries feature_index_to_entry_map].
  - exact (insert_spec _ _ flow_size_pos _ _ _ _ _ _ e Ht Hk Hse Ho Hu
             eq_refl eq_refl eq_refl eq_refl).
  - rewrite map_size_insert_None, Hn, u64_small by (done || (rewrite FEATURE_SIZE_val in *; lia)). lia.
  - refine (index_insert _ _ fe_value _ _ _ _ e Hix Hi Ho Hu eq_refl Hv _).
    intros j Hj Hoj. cbn [fe_value]. intros Ev.
    by apply (Hfree _ _ (key_of_slot _ _ _ _ _ (tr_entries _ _ _ _ Ht) Hj Hoj)).
Qed.

(** A key that is present is left alone. *)
Lemma flow_add_present t M key v x :
  flow_rep t M -> M !! flow_key key = Some x -> flow_hashtable_add t key v = Ok (1, t).
Proof.
  intros Hr Hk. unfold flow_hashtable_add. pose proof Hr as [Ht Hn Hix].
  destruct (num_entries t =? FLOW_HASHTABLE_SIZE); [done|].
  destruct (flow_find t M key Hr) as ([st i] & Hfi & Hi & [(Est & Ho & _ & Ek)|(_ & _ & Ek & _)]);
    cbn [fst snd] in *; [subst st|congruence].
  by rewrite (probe_for_add_find _ _ _ _ _ Hfi).
Qed.

Lemma flow_get_ok t M key :
  flow_rep t M ->
  flow_hashtable_get t key =
    Ok (match M !! flow_key key with Some x => (0, Some (snd x)) | None => (1, None) end).
Proof.
  intros Hr. destruct (flow_find t M key Hr) as ([st i] & Hfi & Hi & Hf).
  unfold flow_hashtable_get. rewrite Hfi. cbn [rbind fst snd] in *.
  destruct Hf as [(-> & Ho & _ & ->)|(-> & Ho & -> & _)]; [|done].
  pose proof (flow_slot_bounds t M i Hr Hi). simpl. by arr_goal.
Qed.

(** *** Removal *)

(** The table's own invariant while entries move. *)
Definition flow_inv (n : Z) (t : flow_hashtable_t) : Prop :=
  num_entries t = n /\
  index_ok FLOW_HASHTABLE_SIZE FEATURE_SIZE fe_value (entries t) (feature_index_to_entry_map t).

Lemma flow_move_ok n t M i em :
  flow_inv n t -> entries_of FLOW_HASHTABLE_SIZE flow_hash (entries t) M ->
  in_table FLOW_HASHTABLE_SIZE i -> in_table FLOW_HASHTABLE_SIZE em -> i <> em ->
  occ (entries t) i = true -> occ (entries t) em = false ->
  exists t', flow_move t i em = Ok t' /\ moved (entries t) (entries t') i em /\ flow_inv n t'.
Proof.
  intros [Hn Hix] He Hi Hem Hne Hoi Hoem. pose proof (eo_len _ _ _ _ He) as Hl.
  pose proof (ix_len _ _ _ _ _ Hix). pose proof (ix_fwd _ _ _ _ _ Hix i Hi Hoi) as [Hv _].
  unfold in_table in Hi, Hem. unfold flow_move. arr_goal.
  cbn [fe_value fe_key fe_hash fe_occupied set_occupied]. arr_goal.
  eexists. split; [reflexivity|]. cbn [entries].
  match goal with |- moved _ ?ents _ _ /\ _ =>
    assert (moved (entries t) ents i em) as Hm end.
  { split; [done|]. unfold occ. arr_goal. split_and!; try done.
    intros j ??. by rewrite !aget_aset_ne by congruence. }
  split; [done|]. split; [done|].
  refine (index_move _ _ fe_value _ _ _ _ _ Hix Hi Hem Hne Hoi Hoem Hm _). by arr_goal.
Qed.

Lemma flow_remove_by_index_ok t M i :
  flow_rep t M -> in_table FLOW_HASHTABLE_SIZE i -> occ (entries t) i = true ->
  exists t', remove_by_index t i = Ok t' /\
             flow_rep t' (delete (flow_key (fe_key (aget (entries t) i))) M).
Proof.
  intros Hr Hi Ho. destruct (flow_free_slot t M Hr) as (s & Hs & Hos).
  pose proof (flow_slot_bounds t M i Hr Hi). pose proof (flow_rep_size t M Hr) as Hsz.
  pose proof Hr as [Ht Hn Hix]. pose proof (ix_len _ _ _ _ _ Hix).
  pose proof (ix_fwd _ _ _ _ _ Hix i Hi Ho) as [Hv _].
  pose proof (key_of_slot _ _ _ _ _ (tr_entries _ _ _ _ Ht) Hi Ho) as Hk.
  unfold remove_by_index. arr_goal.
  set (e0 := set_hash 0 (set_occupied false (aget (entries t) i))).
  match goal with |- context [aset (aset _ i ?o) i e0] =>
    pose proof (updated_aset2 (entries t) i o e0) as Hu end.
  destruct (gap_inv_start _ _ flow_size_pos _ _ _ _ _ _ Ht Hs Hos Hi Ho Hu eq_refl) as [Hg Hsc].
  pose proof (index_remove _ _ fe_value _ _ _ _ _ Hix Hi Ho Hu eq_refl) as Hix'.
  match goal with |- exists t', backshift _ _ _ ?t0 i = _ /\ _ =>
    destruct (backshift_spec _ _ flow_size_pos entries flow_move (flow_inv (num_entries t0))
                (flow_move_ok _) t0 _ s i Hg Hsc) as (t' & -> & Ht' & Hn' & Hi') end.
  { by split. }
  exists t'. split; [done|]. split; [exact Ht'| |exact Hi']. rewrite Hn'. cbn [num_entries].
  assert (0 < size M)%nat.
  { destruct (size M) eqn:Es; [|lia]. apply map_size_empty_inv in Es as ->. by rewrite lookup_empty in Hk. }
  rewrite map_size_delete_Some by eauto. rewrite FEATURE_SIZE_val in *.
  rewrite u64_small; lia.
Qed.

Lemma flow_remove_ok t M key :
  flow_rep t M ->
  match M !! flow_key key with
  | Some x => exists t', flow_hashtable_remove t key = Ok (0, Some (snd x), t') /\
                         flow_rep t' (delete (flow_key key) M)
  | None => flow_hashtable_remove t key = Ok (1, None, t)
  end.
Proof.
  intros Hr. destruct (flow_find t M key Hr) as ([st i] & Hfi & Hi & Hf).
  unfold flow_hashtable_remove. rewrite Hfi. cbn [rbind fst snd] in *.
  destruct Hf as [(-> & Ho & Hk & ->)|(-> & Ho & -> & _)]; [|done].
  pose proof (flow_slot_bounds t M i Hr Hi). simpl. arr_goal.
  destruct (flow_remove_by_index_ok t M i Hr Hi Ho) as (t' & -> & Hr'). simpl.
  exists t'. split; [done|]. by rewrite <- Hk.
Qed.

(** The key of a stored tuple is its own. *)
Lemma flow_key_of t M k x : flow_rep t M -> M !! k = Some x -> k = flow_key (fst x).
Proof.
  intros [[He _] _ _] Hk. by apply (eo_lookup _ _ _ _ He) in Hk as (i & _ & _ & <- & <-).
Qed.

(** Distinct keys have distinct ids. *)
Lemma flow_ids_distinct t M k1 k2 x1 x2 :
  flow_rep t M -> M !! k1 = Some x1 -> M !! k2 = Some x2 -> snd x1 = snd x2 -> k1 = k2.
Proof.
  intros [[He _] _ Hix] H1 H2 E.
  apply (eo_lookup _ _ _ _ He) in H1 as (i & Hi & Hoi & Hki & Hvi).
  apply (eo_lookup _ _ _ _ He) in H2 as (j & Hj & Hoj & Hkj & Hvj).
  assert (i = j); [|congruence].
  refine (index_ok_inj _ _ fe_value _ _ i j Hix Hi Hj Hoi Hoj _).
  rewrite <- Hvi, <- Hvj in E. exact E.
Qed.

Lemma flow_ids_range t M k x : flow_rep t M -> M !! k = Some x -> 0 <= snd x < FEATURE_SIZE.
Proof.
  intros [[He _] _ Hix] Hk.
  apply (eo_lookup _ _ _ _ He) in Hk as (i & Hi & Hoi & _ & <-).
  by destruct (ix_fwd _ _ fe_value _ _ Hix i Hi Hoi).
Qed.

(** An id without a slot is free. *)
Lemma flow_id_free t M v :
  flow_rep t M -> aget (feature_index_to_entry_map t) v = -1 -> id_free v M.
Proof.
  intros [[He _] _ Hix] Em k x Hk Es.
  apply (eo_lookup _ _ _ _ He) in Hk as (i & Hi & Hoi & _ & <-). simpl in Es.
  destruct (ix_fwd _ _ fe_value _ _ Hix i Hi Hoi) as [_ Ei]. rewrite Es, Em in Ei. unfold in_table in Hi. lia.
Qed.

Lemma flow_remove_by_value_ok t M v :
  flow_rep t M -> 0 <= v < FEATURE_SIZE ->
  (exists ft t', M !! flow_key ft = Some (ft, v) /\
     flow_hashtable_remove_by_value t v = Ok (0, Some ft, t') /\
     flow_rep t' (delete (flow_key ft) M)) \/
  (id_free v M /\ flow_hashtable_remove_by_value t v = Ok (1, None, t)).
Proof.
  intros Hr Hv. pose proof Hr as [[He _] _ Hix]. pose proof (ix_len _ _ _ _ _ Hix).
  unfold flow_hashtable_remove_by_value. rewrite rd_ok by lia. cbn [rbind].
  destruct (ix_bwd _ _ _ _ _ Hix v Hv) as [Em|(Hi & Ho & Ev)].
  - right. rewrite Em. split; [by apply (flow_id_free t)|done].
  - left. set (i := aget (feature_index_to_entry_map t) v) in *.
    assert ((i =? -1) = false) as -> by (apply Z.eqb_neq; unfold in_table in Hi; lia).
    pose proof (flow_slot_bounds t M i Hr Hi). arr_goal.
    destruct (flow_remove_by_index_ok t M i Hr Hi Ho) as (t' & -> & Hr'). simpl.
    exists (fe_key (aget (entries t) i)), t'. split; [|done].
    pose proof (key_of_slot _ _ _ _ _ He Hi Ho) as Hk. simpl in Hk. by rewrite Ev in Hk.
Qed.

(** ** The interface *)

#[export] Instance flow_id_table : IdTable flow_hashtable_t := {
  it_key := flow_key;
  it_storable _ v := 0 <= v < FEATURE_SIZE;
  it_add := flow_hashtable_add;
  it_get := flow_hashtable_get;
  it_remove := flow_hashtable_remove;
  it_remove_by_value := flow_hashtable_remove_by_value;
  it_rep := flow_rep }.

#[export] Instance flow_id_table_laws : IdTableLaws flow_hashtable_t.
Proof.
  split.
  - exact flow_add_ok.
  - exact flow_add_present.
  - exact flow_get_ok.
  - exact flow_remove_ok.
  - exact flow_remove_by_value_ok.
  - exact flow_key_of.
  - exact flow_ids_range.
  - exact flow_ids_distinct.
Qed.

(** ** Properties *)

(** Claim C7. After [flow_hashtable_init] any sequence of calls of the flow hash
    table that stores each id at most once returns exactly what the finite map
    from the 44 key bytes to (tuple, id) returns, and never leaves the arrays or
    loops: [add] reports 1 exactly for a present key, [get] and [remove] find
    exactly the stored keys, and [remove_by_value] exactly the stored ids. *)
Theorem flow_hashtable_refines_map (ops : list id_op) :
  ops_allowed (T := flow_hashtable_t) ∅ ops ->
  exists t', id_run flow_hashtable_init ops = Ok (fst (map_run (T := flow_hashtable_t) ∅ ops), t') /\
             flow_rep t' (snd (map_run (T := flow_hashtable_t) ∅ ops)).
Proof. intros Hops. exact (id_run_refines _ _ ops flow_rep_init Hops). Qed.

(** Two tuples, one of them twice, and every operation. *)
Definition sample_ft (port : Z) : five_tuple_t :=
  FiveTuple (FiveTupleForHash 0x0A000001 0x0A000002 port 443 L3_IPV4 L4_TCP) zero_sh 7 0 0.
Definition sample_ops : list id_op :=
  [OpAdd (sample_ft 1) 4; OpAdd (sample_ft 1) 8; OpLookup (sample_ft 1); OpLookup (sample_ft 2);
   OpRemoveByValue 4; OpRemove (sample_ft 1)].

Lemma flow_hashtable_refines_map_witness :
  fst (map_run (T := flow_hashtable_t) ∅ sample_ops) =
    [OutStatus 0; OutStatus 1; OutId 0 (Some 4); OutId 1 None;
     OutTuple 0 (Some (sample_ft 1)); OutId 1 None] /\
  exists t', id_run flow_hashtable_init sample_ops =
               Ok (fst (map_run (T := flow_hashtable_t) ∅ sample_ops), t') /\
             flow_rep t' (snd (map_run (T := flow_hashtable_t) ∅ sample_ops)).
Proof.
  split; [vm_compute; reflexivity|]. apply (flow_hashtable_refines_map sample_ops).
  vm_compute. repeat split; try discriminate; auto.
Defined.
