(* ===== verification/FlowTableConc.v ===== *)
(** * The flow hash table between threads ([datastructures/flow_hashtable.c])

    The packet handler looks flows up without a lock while the flow database adds and
    removes them. The flow database is the only writer: each of its stores is a step of
    its own, in the order of the code, and each load of a lookup is one, so that the two
    interleave in any way. The memory is sequentially consistent; [memcmp] is one load and
    the copy of a tuple one store. The log records the additions, when their entry becomes
    visible, the removals, when it disappears, and the lookups, when their result is
    decided. The stores of a call, run alone, are those of [flow_hashtable_add],
    [flow_hashtable_remove] and [flow_hashtable_remove_by_value] of FlowTable.v. *)

From S2P Require Import Prelude Structs Probe IndexMap IdTable FlowTable.

(** ** Threads *)

Inductive table_store : Type :=
  | StKey (index : Z) (ft : five_tuple_t)
  | StValue (index value : Z)
  | StHash (index hash : Z)
  | StOccupied (index : Z) (b : bool)
  | StMap (value index : Z)
  | StCount (d : Z).

Inductive table_event : Type :=
  | EvAdd (ft : five_tuple_t) (value : Z)
  | EvRemove (ft : five_tuple_t)
  | EvGet (n : nat) (ft : five_tuple_t) (ret : Z).

(** The writer with the stores that are left, some of them with what they make visible;
    after them it returns or goes on with the compaction loop at [index] and
    [empty_index]. *)
Inductive writer : Type :=
  | WIdle
  | WStores (l : list (table_store * option table_event)) (next : option (Z * Z))
  | WScan (index empty_index : Z).

(** A lookup before its load of the flag, of the hash and of the key at [index]. *)
Inductive reader : Type :=
  | RIdle
  | ROccupied (ft : five_tuple_t) (index : Z)
  | RHash (ft : five_tuple_t) (index : Z)
  | RKey (ft : five_tuple_t) (index : Z).

Record table_conc : Type := TableConc {
  tc_mem : flow_hashtable_t;
  tc_writer : writer;
  tc_readers : nat -> reader;
  tc_log : list table_event }.

Inductive table_action : Type :=
  | CallAdd (ft : five_tuple_t) (value : Z)
  | CallRemove (ft : five_tuple_t)
  | CallRemoveByValue (value : Z)
  | CallGet (n : nat) (ft : five_tuple_t)
  | Writer
  | Reader (n : nat).

(** *** Stores *)

Definition with_entry (t : flow_hashtable_t) (index : Z) (f : flow_hashtable_entry_t -> flow_hashtable_entry_t)
    : res flow_hashtable_t :=
  let! e := rd (entries t) index in
  let! ents := wr (entries t) index (f e) in
  Ok (FlowHashtable (num_entries t) ents (feature_index_to_entry_map t)).

Definition set_key (ft : five_tuple_t) (e : flow_hashtable_entry_t) : flow_hashtable_entry_t :=
  FlowEntry ft (fe_value e) (fe_hash e) (fe_occupied e).
Definition set_value (v : Z) (e : flow_hashtable_entry_t) : flow_hashtable_entry_t :=
  FlowEntry (fe_key e) v (fe_hash e) (fe_occupied e).

Definition run_store (s : table_store) (t : flow_hashtable_t) : res flow_hashtable_t :=
  match s with
  | StKey index ft => with_entry t index (set_key ft)
  | StValue index v => with_entry t index (set_value v)
  | StHash index h => with_entry t index (set_hash h)
  | StOccupied index b => with_entry t index (set_occupied b)
  | StMap v index =>
      let! map := wr (feature_index_to_entry_map t) v index in
      Ok (FlowHashtable (num_entries t) (entries t) map)
  | StCount d => Ok (FlowHashtable (u64 (num_entries t + d)) (entries t) (feature_index_to_entry_map t))
  end.

(** The stores of [flow_hashtable_add], of [remove_by_index] before its loop, and of a
    move in the loop. *)
Definition add_stores (ft : five_tuple_t) (value index : Z) : list (table_store * option table_event) :=
  [(StKey index ft, None); (StValue index value, None); (StHash index (flow_hashtable_hash_key ft), None);
   (StMap value index, None); (StCount 1, None); (StOccupied index true, Some (EvAdd ft value))].
Definition remove_stores (ft : five_tuple_t) (e : flow_hashtable_entry_t) (index : Z) : list (table_store * option table_event) :=
  [(StOccupied index false, Some (EvRemove ft)); (StHash index 0, None); (StCount (-1), None); (StMap (fe_value e) (-1), None)].
Definition move_stores (e : flow_hashtable_entry_t) (index empty_index : Z) : list (table_store * option table_event) :=
  [(StOccupied index false, None); (StHash empty_index (fe_hash e), None); (StValue empty_index (fe_value e), None);
   (StKey empty_index (fe_key e), None); (StMap (fe_value e) empty_index, None); (StOccupied empty_index true, None)].

(** ** Steps *)

Definition with_writer (w : writer) (c : table_conc) : table_conc := TableConc (tc_mem c) w (tc_readers c) (tc_log c).
Definition with_reader (n : nat) (r : reader) (c : table_conc) : table_conc :=
  TableConc (tc_mem c) (tc_writer c) (fun m => if decide (m = n) then r else tc_readers c m) (tc_log c).
Definition log_event (e : table_event) (c : table_conc) : table_conc :=
  TableConc (tc_mem c) (tc_writer c) (tc_readers c) (tc_log c ++ [e]).

(** One step of the writer on the memory. *)
Definition writer_micro (t : flow_hashtable_t) (w : writer) : res (flow_hashtable_t * writer * option table_event) :=
  match w with
  | WIdle => Ok (t, WIdle, None)
  | WStores [] None => Ok (t, WIdle, None)
  | WStores [] (Some (index, empty_index)) => Ok (t, WScan index empty_index, None)
  | WStores ((s, e) :: l) next =>
      let! t := run_store s t in
      Ok (t, WStores l next, e)
  | WScan index empty_index =>
      let index := next_slot FLOW_HASHTABLE_SIZE index in
      let! e := rd (entries t) index in
      if negb (fe_occupied e) then Ok (t, WIdle, None)
      else if negb (index =? HASH2INDEX FLOW_HASHTABLE_SIZE (fe_hash e)) &&
              CAN_MOVE_ITEM_TO_CURRENT_EMPTY FLOW_HASHTABLE_SIZE (HASH2INDEX FLOW_HASHTABLE_SIZE (fe_hash e)) empty_index index
      then Ok (t, WStores (move_stores e index empty_index) (Some (index, index)), None)
      else Ok (t, WScan index empty_index, None)
  end.
Definition writer_step (c : table_conc) : res table_conc :=
  let! '(t, w, e) := writer_micro (tc_mem c) (tc_writer c) in
  Ok (TableConc t w (tc_readers c) (tc_log c ++ option_list e)).

(** The lookup returns. *)
Definition return_get (n : nat) (ft : five_tuple_t) (ret : Z) (c : table_conc) : table_conc :=
  log_event (EvGet n ft ret) (with_reader n RIdle c).

Definition reader_step (n : nat) (c : table_conc) : res table_conc :=
  match tc_readers c n with
  | RIdle => Ok c
  | ROccupied ft index =>
      let! e := rd (entries (tc_mem c)) index in
      Ok (if negb (fe_occupied e) then return_get n ft 1 c else with_reader n (RHash ft index) c)
  | RHash ft index =>
      let! e := rd (entries (tc_mem c)) index in
      Ok (with_reader n (if fe_hash e =? flow_hashtable_hash_key ft then RKey ft index
                         else ROccupied ft (next_slot FLOW_HASHTABLE_SIZE index)) c)
  | RKey ft index =>
      let! e := rd (entries (tc_mem c)) index in
      Ok (if bool_decide (flow_key (fe_key e) = flow_key ft) then return_get n ft 0 c
          else with_reader n (ROccupied ft (next_slot FLOW_HASHTABLE_SIZE index)) c)
  end.

(** A call of a thread that is busy does nothing. The searches of the writer read only
    what it writes itself, so that they are part of its call. *)
Definition table_step (a : table_action) (c : table_conc) : res table_conc :=
  let t := tc_mem c in
  match a, tc_writer c with
  | CallAdd ft value, WIdle =>
      if num_entries t =? FLOW_HASHTABLE_SIZE then Ok c
      else
        let! '(ret, index) := probe_for_add FLOW_HASHTABLE_SIZE (entries t) (flow_key ft) (flow_hashtable_hash_key ft) in
        Ok (if ret =? 0 then with_writer (WStores (add_stores ft value index) None) c else c)
  | CallRemove ft, WIdle =>
      let! '(status, index) := flow_get_hashtable_index t ft (flow_hashtable_hash_key ft) in
      if negb (status =? 0) then Ok c
      else
        let! e := rd (entries t) index in
        Ok (with_writer (WStores (remove_stores ft e index) (Some (index, index))) c)
  | CallRemoveByValue value, WIdle =>
      let! index := rd (feature_index_to_entry_map t) value in
      if index =? -1 then Ok c
      else
        let! e := rd (entries t) index in
        Ok (with_writer (WStores (remove_stores (fe_key e) e index) (Some (index, index))) c)
  | CallAdd _ _, _ | CallRemove _, _ | CallRemoveByValue _, _ => Ok c
  | CallGet n ft, _ =>
      match tc_readers c n with
      | RIdle => Ok (with_reader n (ROccupied ft (HASH2INDEX FLOW_HASHTABLE_SIZE (flow_hashtable_hash_key ft))) c)
      | _ => Ok c
      end
  | Writer, _ => writer_step c
  | Reader n, _ => reader_step n c
  end.

Definition table_run (acts : list table_action) (c : table_conc) : res table_conc := foldM table_step acts c.

Definition table_start (t : flow_hashtable_t) : table_conc := TableConc t WIdle (fun _ => RIdle) [].

(** ** Specification *)

(** The log as operations of a finite map, one after the other: a lookup returns 0 exactly
    when the key is there. *)
Definition legal_event (M : id_map) (e : table_event) : option id_map :=
  match e with
  | EvAdd ft v => match M !! flow_key ft with None => Some (<[flow_key ft := (ft, v)]> M) | Some _ => None end
  | EvRemove ft => match M !! flow_key ft with Some _ => Some (delete (flow_key ft) M) | None => None end
  | EvGet _ ft ret =>
      if decide (ret = match M !! flow_key ft with Some _ => 0 | None => 1 end) then Some M else None
  end.
Fixpoint legal (M : id_map) (log : list table_event) : option id_map :=
  match log with
  | [] => Some M
  | e :: log => match legal_event M e with Some M => legal M log | None => None end
  end.

(** ** Proofs *)

#[local] Opaque while flow_hash FLOW_HASHTABLE_SIZE FEATURE_SIZE.

Notation SIZE := FLOW_HASHTABLE_SIZE.
Notation rep := (table_rep FLOW_HASHTABLE_SIZE flow_hash).
Notation passed := (searched FLOW_HASHTABLE_SIZE flow_hash).
Notation slots := (arr flow_hashtable_entry_t).

(** *** While entries are only added *)

(** Occupied slots are never written again. *)
Definition grows (ents ents' : slots) : Prop :=
  alen ents' = alen ents /\ forall j, occ ents j = true -> aget ents' j = aget ents j.

Lemma grows_refl ents : grows ents ents.
Proof. by split. Qed.

Lemma grows_occ ents ents' j : grows ents ents' -> occ ents j = true -> occ ents' j = true.
Proof. intros [_ Hg] Ho. unfold occ. by rewrite Hg. Qed.

Lemma grows_aset ents i e : occ ents i = false -> grows ents (aset ents i e).
Proof. intros Ho. split; [done|]. intros j Hj. rewrite aget_aset_ne; [done|congruence]. Qed.

Lemma passed_grows ents ents' k i : grows ents ents' -> passed ents k i -> passed ents' k i.
Proof.
  intros Hg [Hi Hp]. split; [done|]. intros j Hj Hd. destruct (Hp j Hj Hd) as [Ho Hk].
  split; [by apply (grows_occ ents)|]. by rewrite (proj2 Hg j Ho).
Qed.

(** A store to a slot that is still free does not change what the table holds. *)
Lemma rep_free_slot ents M i e :
  rep ents M -> occ ents i = false -> e_occupied e = false -> rep (aset ents i e) M.
Proof.
  intros [[Hl Hh Hi Hk] Hg] Ho He.
  assert (forall j, occ (aset ents i e) j = occ ents j) as Hocc
    by (intros j; unfold occ in *; rewrite aget_aset; case_decide; congruence).
  assert (forall j, occ ents j = true -> aget (aset ents i e) j = aget ents j) as Hsame
    by (intros j Hj; rewrite aget_aset_ne; [done|congruence]).
  split; [split|].
  - done.
  - intros j Hj. rewrite Hocc. intros Hoj. rewrite Hsame by done. by apply Hh.
  - intros j1 j2 H1 H2. rewrite !Hocc. intros Ho1 Ho2. rewrite !Hsame by done. by apply Hi.
  - intros k v. rewrite Hk. apply exist_proper. intros j. rewrite Hocc.
    split; intros (H1 & H2 & H3); rewrite Hsame in * by done; by split.
  - intros j1 j2 H1. rewrite Hocc. intros Ho1 H2. unfold home. rewrite Hsame, Hocc by done. by apply Hg.
Qed.

(** What a lookup knows about the slots. *)
Definition reader_ok (ents : slots) (r : reader) : Prop :=
  match r with
  | RIdle => True
  | ROccupied ft i => passed ents (flow_key ft) i
  | RHash ft i => passed ents (flow_key ft) i /\ occ ents i = true
  | RKey ft i => passed ents (flow_key ft) i /\ occ ents i = true /\ fe_hash (aget ents i) = flow_hashtable_hash_key ft
  end.

Lemma reader_ok_grows ents ents' r : grows ents ents' -> reader_ok ents r -> reader_ok ents' r.
Proof.
  intros Hg. destruct r as [|ft i|ft i|ft i]; cbn [reader_ok]; [done|by apply passed_grows| |].
  - intros [Hp Ho]. split; [by apply (passed_grows ents)|by apply (grows_occ ents)].
  - intros (Hp & Ho & Hh). split; [by apply (passed_grows ents)|]. split; [by apply (grows_occ ents)|].
    by rewrite (proj2 Hg i Ho).
Qed.

(** The fields of the new entry that were stored before the store [n]. *)
Definition stored (ft : five_tuple_t) (v : Z) (n : nat) (e : flow_hashtable_entry_t) : Prop :=
  ((1 <= n)%nat -> fe_key e = ft) /\ ((2 <= n)%nat -> fe_value e = v) /\
  ((3 <= n)%nat -> fe_hash e = flow_hashtable_hash_key ft).

(** The writer in the middle of an addition. *)
Record adding (t : flow_hashtable_t) (M : id_map) (l : list (table_store * option table_event)) : Prop := Adding {
  ad_slot : exists ft v i n, (n < 6)%nat /\ l = drop n (add_stores ft v i) /\
    passed (entries t) (flow_key ft) i /\ occ (entries t) i = false /\ M !! flow_key ft = None /\
    0 <= v < FEATURE_SIZE /\ stored ft v n (aget (entries t) i) }.

Definition writer_ok (t : flow_hashtable_t) (M : id_map) (w : writer) : Prop :=
  match w with
  | WIdle | WStores [] None => True
  | WStores l None => adding t M l
  | WStores _ (Some _) | WScan _ _ => False
  end.

Definition pending (w : writer) : Z := match w with WStores (_ :: _) _ => 1 | _ => 0 end.

(** [room] additions may still be called. *)
Record table_inv (M0 : id_map) (c : table_conc) (M : id_map) (room : Z) : Prop := TableInv {
  ti_rep : rep (entries (tc_mem c)) M;
  ti_map : alen (feature_index_to_entry_map (tc_mem c)) = FEATURE_SIZE;
  ti_writer : writer_ok (tc_mem c) M (tc_writer c);
  ti_readers n : reader_ok (entries (tc_mem c)) (tc_readers c n);
  ti_log : legal M0 (tc_log c) = Some M;
  ti_room : Z.of_nat (size M) + pending (tc_writer c) + room < SIZE }.

Lemma legal_snoc M0 log e : legal M0 (log ++ [e]) = match legal M0 log with Some M => legal_event M e | None => None end.
Proof.
  revert M0. induction log as [|e0 log IH]; intros M0; cbn [legal app]; [by destruct (legal_event M0 e)|].
  by destruct (legal_event M0 e0).
Qed.

Lemma rep_slot ents M i : rep ents M -> in_table SIZE i -> rd ents i = Ok (aget ents i).
Proof. intros Hr Hi. apply rd_ok. rewrite (eo_len _ _ _ _ (tr_entries _ _ _ _ Hr)). exact Hi. Qed.

Lemma hash_of_slot ents M i :
  rep ents M -> in_table SIZE i -> occ ents i = true -> fe_hash (aget ents i) = flow_hash (flow_key (fe_key (aget ents i))).
Proof. intros Hr Hi Ho. exact (eo_hash _ _ _ _ (tr_entries _ _ _ _ Hr) i Hi Ho). Qed.

(** Only the lookup moves, and perhaps returns. *)
Lemma inv_reader M0 c M room n r :
  table_inv M0 c M room -> reader_ok (entries (tc_mem c)) r -> table_inv M0 (with_reader n r c) M room.
Proof.
  intros [Hr Hm Hw Hrd Hl Hs] Hok. split; try done.
  intros m. cbn [with_reader tc_readers tc_mem]. by case_decide.
Qed.

Lemma inv_return M0 c M room n ft ret :
  table_inv M0 c M room -> ret = match M !! flow_key ft with Some _ => 0 | None => 1 end ->
  table_inv M0 (return_get n ft ret c) M room.
Proof.
  intros Hi Hret. destruct (inv_reader M0 c M room n RIdle Hi I) as [Hr Hm Hw Hrd Hl Hs].
  split; try done. cbn [return_get log_event tc_log]. rewrite legal_snoc, Hl. cbn [legal_event]. by rewrite decide_True.
Qed.

(** A lookup goes on behind a slot that holds another key. *)
Lemma passed_next ents M ft i room :
  rep ents M -> Z.of_nat (size M) + room < SIZE -> 0 <= room -> passed ents (flow_key ft) i -> occ ents i = true ->
  flow_key (fe_key (aget ents i)) <> flow_key ft -> passed ents (flow_key ft) (next_slot SIZE i).
Proof.
  intros Hr Hs Hroom Hp Ho Hk.
  destruct (free_slot _ _ flow_size_pos _ _ (tr_entries _ _ _ _ Hr) ltac:(lia)) as (s & Hin & Hfree).
  by apply (searched_next _ _ flow_size_pos ents (flow_key ft) i s).
Qed.

Lemma pending_bound w : 0 <= pending w <= 1.
Proof. destruct w as [|[|]|]; cbn; lia. Qed.

Lemma reader_step_ok M0 c M room n :
  table_inv M0 c M room -> 0 <= room -> exists c', reader_step n c = Ok c' /\ table_inv M0 c' M room.
Proof.
  intros Hi Hroom. pose proof Hi as [Hr Hm Hw Hrd Hl Hs]. pose proof (pending_bound (tc_writer c)) as Hpb.
  specialize (Hrd n). unfold reader_step. destruct (tc_readers c n) as [|ft i|ft i|ft i]; cbn [reader_ok] in Hrd.
  - by exists c.
  - rewrite (rep_slot _ M i Hr (proj1 Hrd)). cbn [rbind]. eexists. split; [reflexivity|].
    change (fe_occupied (aget (entries (tc_mem c)) i)) with (occ (entries (tc_mem c)) i).
    destruct (occ (entries (tc_mem c)) i) eqn:Ho; cbn [negb].
    + by apply inv_reader.
    + apply inv_return; [done|]. by rewrite (searched_free _ _ flow_size_pos _ _ _ _ Hr Hrd Ho).
  - destruct Hrd as [Hp Ho]. rewrite (rep_slot _ M i Hr (proj1 Hp)). cbn [rbind]. eexists. split; [reflexivity|].
    apply inv_reader; [done|]. destruct (Z.eqb_spec (fe_hash (aget (entries (tc_mem c)) i)) (flow_hashtable_hash_key ft)) as [E|Hne].
    + by split.
    + apply (passed_next _ M ft i (pending (tc_writer c) + room)); try done; [lia|lia|].
      intros Ek. apply Hne. rewrite (hash_of_slot _ M i Hr (proj1 Hp) Ho), Ek. reflexivity.
  - destruct Hrd as (Hp & Ho & Hh). rewrite (rep_slot _ M i Hr (proj1 Hp)). cbn [rbind]. eexists. split; [reflexivity|].
    case_bool_decide as Ek.
    + apply inv_return; [done|].
      pose proof (key_of_slot _ _ _ _ _ (tr_entries _ _ _ _ Hr) (proj1 Hp) Ho) as Hk. cbn [e_key flow_probe_entry] in Hk.
      change (h_bytes (ft_h (fe_key (aget (entries (tc_mem c)) i)))) with (flow_key (fe_key (aget (entries (tc_mem c)) i))) in Hk.
      by rewrite <- Ek, Hk.
    + apply inv_reader; [done|]. by apply (passed_next _ M ft i (pending (tc_writer c) + room)); try lia.
Qed.

(** *** The writer *)

Lemma with_entry_ok t M i f :
  rep (entries t) M -> in_table SIZE i ->
  with_entry t i f = Ok (FlowHashtable (num_entries t) (aset (entries t) i (f (aget (entries t) i))) (feature_index_to_entry_map t)).
Proof.
  intros Hr Hi. unfold with_entry. rewrite (rep_slot _ M i Hr Hi). cbn [rbind].
  rewrite wr_ok by (rewrite (eo_len _ _ _ _ (tr_entries _ _ _ _ Hr)); exact Hi). reflexivity.
Qed.

(** A store that leaves the new entry invisible. *)
Lemma hidden_store t M ft v i n :
  rep (entries t) M -> alen (feature_index_to_entry_map t) = FEATURE_SIZE -> in_table SIZE i -> occ (entries t) i = false ->
  0 <= v < FEATURE_SIZE -> stored ft v n (aget (entries t) i) -> (n < 5)%nat ->
  exists s t', add_stores ft v i !! n = Some (s, None) /\ run_store s t = Ok t' /\
    rep (entries t') M /\ alen (feature_index_to_entry_map t') = FEATURE_SIZE /\ grows (entries t) (entries t') /\
    occ (entries t') i = false /\ stored ft v (S n) (aget (entries t') i).
Proof.
  intros Hr Hm Hi Ho Hv (S1 & S2 & S3) Hn.
  assert (forall f, (forall e, fe_occupied (f e) = fe_occupied e) -> stored ft v (S n) (f (aget (entries t) i)) ->
    exists t', with_entry t i f = Ok t' /\
      rep (entries t') M /\ alen (feature_index_to_entry_map t') = FEATURE_SIZE /\ grows (entries t) (entries t') /\
      occ (entries t') i = false /\ stored ft v (S n) (aget (entries t') i)) as Hentry.
  { intros f Hf Hst. rewrite (with_entry_ok t M) by done. eexists. split; [reflexivity|]. cbn [entries feature_index_to_entry_map].
    assert (e_occupied (f (aget (entries t) i)) = false) as He by (cbn; rewrite Hf; exact Ho).
    split; [by apply rep_free_slot|]. split; [done|]. split; [by apply grows_aset|]. unfold occ.
    by rewrite !aget_aset_eq. }
  destruct n as [|[|[|[|[|n]]]]]; [| | | | |lia]; cbn [add_stores lookup list_lookup].
  - destruct (Hentry (set_key ft)) as (t' & E & H'); [done|repeat split; (done || lia)|]. by exists (StKey i ft), t'.
  - destruct (Hentry (set_value v)) as (t' & E & H'); [done|repeat split; cbn; auto; lia|]. by exists (StValue i v), t'.
  - destruct (Hentry (set_hash (flow_hashtable_hash_key ft))) as (t' & E & H'); [done|repeat split; cbn; auto; lia|].
    by exists (StHash i (flow_hashtable_hash_key ft)), t'.
  - eexists _, _. split; [reflexivity|]. cbn [run_store]. rewrite wr_ok by lia. split; [reflexivity|].
    split; [done|]. split; [done|]. split; [apply grows_refl|]. split; [done|].
    split; [|split]; intros _; [apply S1|apply S2|apply S3]; lia.
  - eexists _, _. split; [reflexivity|]. cbn [run_store]. split; [reflexivity|].
    split; [done|]. split; [done|]. split; [apply grows_refl|]. split; [done|].
    split; [|split]; intros _; [apply S1|apply S2|apply S3]; lia.
Qed.

(** The store that makes the entry visible. *)
Lemma visible_store t M ft v i :
  rep (entries t) M -> alen (feature_index_to_entry_map t) = FEATURE_SIZE ->
  passed (entries t) (flow_key ft) i -> occ (entries t) i = false -> M !! flow_key ft = None ->
  stored ft v 5 (aget (entries t) i) ->
  exists t', run_store (StOccupied i true) t = Ok t' /\ rep (entries t') (<[flow_key ft := (ft, v)]> M) /\
    alen (feature_index_to_entry_map t') = FEATURE_SIZE /\ grows (entries t) (entries t').
Proof.
  intros Hr Hm Hp Ho Hk (S1 & S2 & S3). cbn [run_store]. rewrite (with_entry_ok t M) by (done || apply Hp).
  eexists. split; [reflexivity|]. cbn [entries feature_index_to_entry_map].
  split; [|split; [done|by apply grows_aset]].
  apply (insert_spec _ _ flow_size_pos (entries t) _ M (flow_key ft) (ft, v) i _ Hr Hk Hp Ho (updated_aset _ _ _)).
  - reflexivity.
  - cbn. apply S3. lia.
  - cbn. rewrite S1 by lia. reflexivity.
  - cbn. by rewrite S1, S2 by lia.
Qed.

Lemma drop_stores (l : list (table_store * option table_event)) n x : l !! n = Some x -> drop n l = x :: drop (S n) l.
Proof. intros H. by apply drop_S. Qed.

Lemma adding_writer t M l : adding t M l -> writer_ok t M (WStores l None).
Proof. by destruct l. Qed.

Lemma writer_step_ok M0 c M room :
  table_inv M0 c M room -> exists c' M', writer_step c = Ok c' /\ table_inv M0 c' M' room.
Proof.
  intros [Hr Hm Hw Hrd Hl Hs]. unfold writer_step.
  destruct (tc_writer c) as [|l [[i em]|]|i em] eqn:Ew; cbn [writer_ok writer_micro] in *.
  - eexists _, M. split; [reflexivity|]. split; cbn [option_list option_rect tc_log]; rewrite ?app_nil_r; done.
  - by destruct l.
  - destruct l as [|x l]; cbn [rbind].
    + eexists _, M. split; [reflexivity|]. split; cbn [option_list option_rect tc_log]; rewrite ?app_nil_r; done.
    + destruct Hw as [(ft & v & i & n & Hn & El & Hp & Ho & Hk & Hv & Hst)].
      destruct (decide (n = 5%nat)) as [->|Hne].
      * cbn [add_stores drop] in El. injection El as -> ->.
        destruct (visible_store (tc_mem c) M ft v i Hr Hm Hp Ho Hk Hst) as (t' & -> & Hr' & Hm' & Hg). cbn [rbind].
        eexists _, (<[flow_key ft := (ft, v)]> M). split; [reflexivity|].
        split; cbn [tc_mem tc_writer tc_readers tc_log option_list option_rect]; try done.
        -- intros m. apply (reader_ok_grows _ _ _ Hg), Hrd.
        -- rewrite legal_snoc, Hl. cbn [legal_event]. by rewrite Hk.
        -- rewrite map_size_insert_None by done. cbn [pending] in *. lia.
      * destruct (hidden_store (tc_mem c) M ft v i n Hr Hm (proj1 Hp) Ho Hv Hst ltac:(lia))
          as (s & t' & Es & E & Hr' & Hm' & Hg & Ho' & Hst').
        rewrite (drop_stores _ _ _ Es) in El. injection El as -> ->. rewrite E. cbn [rbind].
        eexists _, M. split; [reflexivity|].
        split; cbn [tc_mem tc_writer tc_readers tc_log option_list option_rect]; rewrite ?app_nil_r; try done.
        -- assert (adding t' M (drop (S n) (add_stores ft v i))) as Had.
           { split. exists ft, v, i, (S n). split; [lia|]. split; [done|]. split; [by apply (passed_grows _ _ _ _ Hg)|]. done. }
           exact (adding_writer _ _ _ Had).
        -- intros m. apply (reader_ok_grows _ _ _ Hg), Hrd.
        -- match goal with |- context [pending ?w] => pose proof (pending_bound w) end. cbn [pending] in Hs. lia.
  - done.
Qed.

(** *** All steps *)

(** The additions that are called, and no removal. *)
Definition adds_only (a : table_action) : Prop :=
  match a with CallAdd _ v => 0 <= v < FEATURE_SIZE | CallRemove _ | CallRemoveByValue _ => False | _ => True end.
Definition added (a : table_action) : Z := match a with CallAdd _ _ => 1 | _ => 0 end.

Lemma inv_room M0 c M room room' : table_inv M0 c M room -> room' <= room -> table_inv M0 c M room'.
Proof. intros [Hr Hm Hw Hrd Hl Hs] Hle. split; try done. lia. Qed.

(** The call of an addition ends at once for a key that is there; otherwise it has found
    the free slot that a search for the key would find. *)
Lemma call_add_ok M0 c M room ft v :
  table_inv M0 c M (1 + room) -> 0 <= room -> 0 <= v < FEATURE_SIZE -> tc_writer c = WIdle ->
  exists c', table_step (CallAdd ft v) c = Ok c' /\ table_inv M0 c' M room.
Proof.
  intros Hi Hroom Hv Ew. pose proof Hi as [Hr Hm Hw Hrd Hl Hs]. cbn [table_step]. rewrite Ew in *. cbn [pending] in Hs.
  destruct (_ =? SIZE); [exists c; split; [done|]; apply (inv_room _ _ _ _ _ Hi); lia|].
  destruct (free_slot _ _ flow_size_pos _ _ (tr_entries _ _ _ _ Hr) ltac:(lia)) as (s & Hin & Hfree).
  destruct (find_spec _ _ flow_size_pos _ _ (flow_key ft) s Hr Hin Hfree) as ([st i] & Hfi & Hslot & Hf).
  change (flow_hashtable_hash_key ft) with (flow_hash (flow_key ft)).
  rewrite (probe_for_add_find _ _ _ _ _ Hfi). cbn [rbind fst snd] in *. eexists. split; [reflexivity|].
  destruct Hf as [(-> & _)|(-> & Ho & Hk & Hp)]; cbn [Z.sub Z.eqb Z.add Z.opp Z.pos_sub].
  - apply (inv_room _ _ _ _ _ Hi). lia.
  - split; cbn [with_writer tc_mem tc_writer tc_readers tc_log]; try done.
    + apply adding_writer. split. exists ft, v, i, 0%nat. split; [lia|]. split; [done|]. split; [exact Hp|].
      split; [done|]. split; [done|]. split; [done|]. repeat split; lia.
    + change (pending _) with 1. lia.
Qed.

Lemma table_step_ok M0 a c M room :
  table_inv M0 c M (added a + room) -> 0 <= room -> adds_only a ->
  exists c' M', table_step a c = Ok c' /\ table_inv M0 c' M' room.
Proof.
  intros Hi Hroom Ha. destruct a as [ft v|ft|v|n ft| |n]; cbn [added adds_only] in *; [|done|done|..].
  - destruct (tc_writer c) as [|l next|i em] eqn:Ew.
    + destruct (call_add_ok M0 c M room ft v Hi Hroom Ha Ew) as (c' & E & Hi'). by exists c', M.
    + exists c, M. cbn [table_step]. rewrite Ew. split; [done|]. apply (inv_room _ _ _ _ _ Hi). lia.
    + exists c, M. cbn [table_step]. rewrite Ew. split; [done|]. apply (inv_room _ _ _ _ _ Hi). lia.
  - cbn [table_step]. destruct (tc_readers c n); eexists _, M; (split; [reflexivity|]); [|exact Hi..].
    apply inv_reader; [exact Hi|]. apply searched_start, flow_size_pos.
  - exact (writer_step_ok M0 c M room Hi).
  - destruct (reader_step_ok M0 c M room n Hi Hroom) as (c' & E & Hi'). by exists c', M.
Qed.

Definition additions (acts : list table_action) : Z := foldr (fun a n => added a + n) 0 acts.

Lemma additions_nonneg acts : 0 <= additions acts.
Proof.
  induction acts as [|a acts IH]; [done|]. change (0 <= added a + additions acts).
  assert (0 <= added a) by (destruct a; done). lia.
Qed.

Lemma table_run_ok M0 acts : forall c M,
  table_inv M0 c M (additions acts) -> Forall adds_only acts ->
  exists c' M', table_run acts c = Ok c' /\ table_inv M0 c' M' 0.
Proof.
  induction acts as [|a acts IH]; intros c M Hi Ha; unfold table_run; cbn [foldM].
  { by exists c, M. }
  apply Forall_cons in Ha as [Ha Has].
  destruct (table_step_ok M0 a c M (additions acts) Hi (additions_nonneg acts) Ha) as (c1 & M1 & -> & Hi1). cbn [rbind].
  exact (IH c1 M1 Hi1 Has).
Qed.

(** *** The progress of a lookup *)

(** The loads that are left at most: three for each slot from here round to the home of
    the key. *)
Definition loads_left (r : reader) : Z :=
  let slots ft i := 3 * (SIZE - dist SIZE (HASH2INDEX SIZE (flow_hashtable_hash_key ft)) i) in
  match r with
  | RIdle => 0
  | ROccupied ft i => slots ft i
  | RHash ft i => slots ft i - 1
  | RKey ft i => slots ft i - 2
  end.

(** The next slot of a lookup that has not come round. *)
Lemma dist_passed ents M ft i room :
  rep ents M -> Z.of_nat (size M) + room < SIZE -> 0 <= room -> passed ents (flow_key ft) i -> occ ents i = true ->
  flow_key (fe_key (aget ents i)) <> flow_key ft ->
  let home := HASH2INDEX SIZE (flow_hashtable_hash_key ft) in
  dist SIZE home (next_slot SIZE i) = dist SIZE home i + 1.
Proof.
  intros Hr Hs Hroom Hp Ho Hk home. pose proof (HASH2INDEX_bound SIZE flow_size_pos (flow_hashtable_hash_key ft)) as Hh.
  apply (dist_next SIZE flow_size_pos); [apply Hp|exact Hh|]. intros Eh. fold home in Eh.
  destruct (free_slot _ _ flow_size_pos _ _ (tr_entries _ _ _ _ Hr) ltac:(lia)) as (s & Hin & Hfree).
  destruct (searched_next _ _ flow_size_pos ents (flow_key ft) i s Hp Hin Hfree Ho Hk) as [_ Hd].
  rewrite Eh in Hd. change (HASH2INDEX SIZE (flow_hash (flow_key ft))) with home in Hd.
  destruct Hp as [Hi Hp]. change (HASH2INDEX SIZE (flow_hash (flow_key ft))) with home in Hp.
  assert (dist SIZE home i <= dist SIZE home s) as Hle.
  { destruct (decide (dist SIZE home i <= dist SIZE home s)); [done|].
    destruct (Hp s Hin ltac:(lia)) as [Hos _]. congruence. }
  pose proof (dist_from SIZE flow_size_pos home i s) as Hf. rewrite decide_True in Hf by done.
  pose proof (dist_bound SIZE flow_size_pos home i). lia.
Qed.

Lemma reader_step_decreases M0 c M room n c' :
  table_inv M0 c M room -> 0 <= room -> reader_step n c = Ok c' -> tc_readers c n <> RIdle ->
  0 <= loads_left (tc_readers c' n) < loads_left (tc_readers c n).
Proof.
  intros [Hr Hm Hw Hrd Hl Hs] Hroom E Hne. pose proof (pending_bound (tc_writer c)) as Hpb.
  assert (forall ft i, 0 <= dist SIZE (HASH2INDEX SIZE (flow_hashtable_hash_key ft)) i < SIZE) as Hd
    by (intros; apply dist_bound, flow_size_pos).
  assert (forall r, tc_readers (with_reader n r c) n = r) as Hset by (intros; cbn [with_reader tc_readers]; by rewrite decide_True).
  specialize (Hrd n). unfold reader_step in E. destruct (tc_readers c n) as [|ft i|ft i|ft i]; cbn [reader_ok] in Hrd; [done|..].
  - apply rbind_Ok in E as (e & _ & [= <-]). specialize (Hd ft i). destruct (negb _); cbn [return_get log_event tc_readers];
      rewrite Hset; cbn [loads_left]; lia.
  - destruct Hrd as [Hp Ho]. rewrite (rep_slot _ M i Hr (proj1 Hp)) in E. injection E as <-. rewrite Hset.
    pose proof (Hd ft i). destruct (Z.eqb_spec (fe_hash (aget (entries (tc_mem c)) i)) (flow_hashtable_hash_key ft)) as [|Hh];
      cbn [loads_left]; [lia|].
    assert (flow_key (fe_key (aget (entries (tc_mem c)) i)) <> flow_key ft) as Ek
      by (intros Ek; apply Hh; by rewrite (hash_of_slot _ M i Hr (proj1 Hp) Ho), Ek).
    pose proof (dist_passed _ M ft i (pending (tc_writer c) + room) Hr ltac:(lia) ltac:(lia) Hp Ho Ek) as Hn. cbv zeta in Hn.
    pose proof (Hd ft (next_slot SIZE i)). lia.
  - destruct Hrd as (Hp & Ho & _). rewrite (rep_slot _ M i Hr (proj1 Hp)) in E. injection E as <-. pose proof (Hd ft i).
    case_bool_decide as Ek; cbn [return_get log_event tc_readers]; rewrite Hset; cbn [loads_left]; [lia|].
    pose proof (dist_passed _ M ft i (pending (tc_writer c) + room) Hr ltac:(lia) ltac:(lia) Hp Ho Ek) as Hn. cbv zeta in Hn.
    pose proof (Hd ft (next_slot SIZE i)). lia.
Qed.

(** *** The writer alone *)

(** The writer for [k] steps: the memory, what is left, and what it made visible. *)
Fixpoint writer_run (k : nat) (t : flow_hashtable_t) (w : writer) : res (flow_hashtable_t * writer * list table_event) :=
  match k with
  | O => Ok (t, w, [])
  | S k =>
      let! '(t, w, e) := writer_micro t w in
      let! '(t, w, l) := writer_run k t w in
      Ok (t, w, option_list e ++ l)
  end.

Definition events (l : list (table_store * option table_event)) : list table_event := concat ((fun x => option_list x.2) <$> l).

Lemma writer_run_app k1 k2 t w t1 w1 l1 t2 w2 l2 :
  writer_run k1 t w = Ok (t1, w1, l1) -> writer_run k2 t1 w1 = Ok (t2, w2, l2) ->
  writer_run (k1 + k2) t w = Ok (t2, w2, l1 ++ l2).
Proof.
  revert t w l1. induction k1 as [|k1 IH]; intros t w l1 E1 E2; cbn [writer_run Nat.add] in *.
  { injection E1 as -> -> <-. exact E2. }
  apply rbind_Ok in E1 as ([[t' w'] e] & -> & E1). cbn [rbind].
  apply rbind_Ok in E1 as ([[t3 w3] l3] & E3 & [= -> -> <-]). rewrite (IH _ _ _ E3 E2). cbn [rbind].
  by rewrite app_assoc.
Qed.

Lemma writer_run_idle k t : writer_run k t WIdle = Ok (t, WIdle, []).
Proof. induction k as [|k IH]; cbn [writer_run writer_micro rbind]; [done|]. by rewrite IH. Qed.

(** The stores of a list, one after the other. *)
Lemma run_stores l next : forall t t',
  foldM run_store l.*1 t = Ok t' -> writer_run (length l) t (WStores l next) = Ok (t', WStores [] next, events l).
Proof.
  induction l as [|[s e] l IH]; intros t t'; cbn [fmap list_fmap fst foldM length writer_run].
  { by intros [= ->]. }
  intros E. apply rbind_Ok in E as (t1 & E1 & E). cbn [writer_micro]. rewrite E1. cbn [rbind].
  by rewrite (IH t1 t' E).
Qed.

Lemma aset_aset {A} (a : arr A) i x y : aset (aset a i x) i y = aset a i y.
Proof. unfold aset. cbn [alen adef adata]. by rewrite insert_insert_eq. Qed.

Lemma with_entry_run t i f :
  0 <= i < alen (entries t) ->
  with_entry t i f = Ok (FlowHashtable (num_entries t) (aset (entries t) i (f (aget (entries t) i))) (feature_index_to_entry_map t)).
Proof. intros Hi. unfold with_entry. by arr_goal. Qed.

Ltac run_stores_goal :=
  cbn [fmap list_fmap fst foldM run_store];
  repeat (rewrite with_entry_run by (cbn [entries]; rewrite ?alen_aset; done); cbn [rbind entries num_entries feature_index_to_entry_map];
          rewrite ?aget_aset_eq, ?aset_aset).

(** The stores of an addition do what [flow_hashtable_add] does. *)
Lemma add_stores_run t ft v i :
  0 <= i < alen (entries t) -> 0 <= v < alen (feature_index_to_entry_map t) ->
  foldM run_store (add_stores ft v i).*1 t =
    Ok (FlowHashtable (u64 (num_entries t + 1)) (aset (entries t) i (FlowEntry ft v (flow_hashtable_hash_key ft) true))
          (aset (feature_index_to_entry_map t) v i)).
Proof.
  intros Hi Hv. unfold add_stores. run_stores_goal. rewrite wr_ok by done. cbn [rbind entries num_entries feature_index_to_entry_map].
  run_stores_goal. reflexivity.
Qed.

(** The stores of a move do what [flow_move] does. *)
Lemma move_stores_run t i em t' :
  i <> em -> flow_move t i em = Ok t' ->
  exists e, rd (entries t) i = Ok e /\ foldM run_store (move_stores e i em).*1 t = Ok t'.
Proof.
  intros Hne. unfold flow_move. intros E.
  apply rbind_Ok in E as (e & [Hi ->]%rd_inv & E). exists (aget (entries t) i). split; [by apply rd_ok|].
  apply rbind_Ok in E as (ents & [_ ->]%wr_inv & E). apply rbind_Ok in E as (dst & [Hem ->]%rd_inv & E).
  rewrite alen_aset in Hem. revert E. arr_goal. cbn [fe_key fe_value fe_hash fe_occupied set_occupied].
  intros E. apply rbind_Ok in E as (map & [Hv ->]%wr_inv & [= <-]).
  unfold move_stores. run_stores_goal. rewrite wr_ok by done. cbn [rbind entries num_entries feature_index_to_entry_map].
  run_stores_goal. rewrite !aget_aset_ne by done. rewrite wr_ok by (by rewrite !alen_aset). cbn [rbind]. by rewrite aset_aset.
Qed.

Lemma rbind_step {A B} {m : res A} {a} (f : A -> res B) : m = Ok a -> rbind m f = f a.
Proof. by intros ->. Qed.

(** The compaction loop from any of its states. *)
Lemma scan_run n : forall t i em t',
  iter_nat n (backshift_body SIZE entries flow_move) (t, i, em) = Ok (inr t') ->
  exists k, writer_run k t (WScan i em) = Ok (t', WIdle, []).
Proof.
  induction n as [|n IH]; intros t i em t'; cbn [iter_nat]; [discriminate|]. intros E.
  apply rbind_Ok in E as (r & Eb & E). unfold backshift_body in Eb.
  apply rbind_Ok in Eb as (e & Ee & Eb). cbn [e_occupied e_hash flow_probe_entry] in Eb.
  set (j := next_slot SIZE i) in *.
  pose proof (rbind_step (fun e => if negb (fe_occupied e) then Ok (t, WIdle, None)
      else if negb (j =? HASH2INDEX SIZE (fe_hash e)) && CAN_MOVE_ITEM_TO_CURRENT_EMPTY SIZE (HASH2INDEX SIZE (fe_hash e)) em j
      then Ok (t, WStores (move_stores e j em) (Some (j, j)), None) else Ok (t, WScan j em, None)) Ee
    : writer_micro t (WScan i em) = _) as Em. cbv beta in Em.
  destruct (negb (fe_occupied e)).
  { injection Eb as <-. injection E as <-. exists 1%nat. cbn [writer_run]. by rewrite Em. }
  destruct (negb _ && _) eqn:Ec.
  - apply rbind_Ok in Eb as (t1 & Emv & [= <-]). destruct (IH _ _ _ _ E) as (k & Ek).
    assert (j <> em) as Hne.
    { intros Eje. apply andb_prop in Ec as [_ Ec]. unfold CAN_MOVE_ITEM_TO_CURRENT_EMPTY in Ec. rewrite Eje in Ec.
      apply Z.ltb_lt in Ec. lia. }
    destruct (move_stores_run _ _ _ _ Hne Emv) as (e' & Ee' & Est). rewrite Ee in Ee'. injection Ee' as <-.
    exists (1 + (length (move_stores e j em) + (1 + k)))%nat.
    refine (writer_run_app 1 _ _ _ t _ [] _ _ [] _ _); [cbn [writer_run]; rewrite Em; reflexivity|].
    refine (writer_run_app _ _ _ _ t1 _ [] _ _ [] (run_stores _ _ _ _ Est) _).
    refine (writer_run_app 1 _ _ _ t1 _ [] _ _ [] _ Ek). reflexivity.
  - injection Eb as <-. destruct (IH _ _ _ _ E) as (k & Ek). exists (S k). cbn [writer_run]. rewrite Em. cbn [rbind]. by rewrite Ek.
Qed.

(** The stores of [remove_by_index] before its loop. *)
Lemma remove_stores_run t ft i t' :
  remove_by_index t i = Ok t' ->
  exists e t0, rd (entries t) i = Ok e /\ foldM run_store (remove_stores ft e i).*1 t = Ok t0 /\
    backshift SIZE entries flow_move t0 i = Ok t'.
Proof.
  unfold remove_by_index. intros E. apply rbind_Ok in E as (e & [Hi ->]%rd_inv & E). revert E. arr_goal.
  intros E. apply rbind_Ok in E as (map & [Hv ->]%wr_inv & E).
  eexists _, _. split; [reflexivity|]. split; [|exact E].
  unfold remove_stores. run_stores_goal. rewrite wr_ok by done. reflexivity.
Qed.

(** A call of the writer and its steps do what the function does. *)
Lemma remove_run t ft e i t' :
  rd (entries t) i = Ok e -> remove_by_index t i = Ok t' ->
  exists k, writer_run k t (WStores (remove_stores ft e i) (Some (i, i))) = Ok (t', WIdle, [EvRemove ft]).
Proof.
  intros Ee E. destruct (remove_stores_run t ft i t' E) as (e' & t0 & Ee' & Est & Eb).
  rewrite Ee in Ee'. injection Ee' as <-.
  apply while_returns in Eb as (n & En). destruct (scan_run _ _ _ _ _ En) as (k & Ek).
  exists (length (remove_stores ft e i) + (1 + k))%nat.
  refine (writer_run_app _ _ _ _ t0 _ [EvRemove ft] _ _ [] (run_stores _ _ _ _ Est) _).
  refine (writer_run_app 1 _ _ _ t0 _ [] _ _ [] _ Ek). reflexivity.
Qed.

Lemma add_run t ft v i :
  0 <= i < alen (entries t) -> 0 <= v < alen (feature_index_to_entry_map t) ->
  exists k, writer_run k t (WStores (add_stores ft v i) None) =
    Ok (FlowHashtable (u64 (num_entries t + 1)) (aset (entries t) i (FlowEntry ft v (flow_hashtable_hash_key ft) true))
          (aset (feature_index_to_entry_map t) v i), WIdle, [EvAdd ft v]).
Proof.
  intros Hi Hv. exists (length (add_stores ft v i) + 1)%nat.
  refine (writer_run_app _ _ _ _ _ _ [EvAdd ft v] _ _ [] (run_stores _ None _ _ (add_stores_run t ft v i Hi Hv)) _).
  reflexivity.
Qed.

Lemma call_add_run c ft v r t' :
  flow_hashtable_add (tc_mem c) ft v = Ok (r, t') -> tc_writer c = WIdle ->
  exists c' k l, table_step (CallAdd ft v) c = Ok c' /\ tc_mem c' = tc_mem c /\ tc_readers c' = tc_readers c /\
    tc_log c' = tc_log c /\ writer_run k (tc_mem c') (tc_writer c') = Ok (t', WIdle, l) /\
    l = if r =? 0 then [EvAdd ft v] else [].
Proof.
  intros E Ew. unfold flow_hashtable_add in E. cbn [table_step]. rewrite Ew.
  destruct (_ =? SIZE); [injection E as <- <-; exists c, O, []; by rewrite Ew|].
  change (flow_key ft) with (h_bytes (ft_h ft)).
  apply rbind_Ok in E as ([st i] & -> & E). cbn [rbind]. destruct (st =? 0) eqn:Est.
  - apply rbind_Ok in E as (old & [Hi ->]%rd_inv & E). revert E. arr_goal. intros E.
    apply rbind_Ok in E as (map & [Hv ->]%wr_inv & E). revert E. arr_goal. rewrite aset_aset. intros [= <- <-].
    destruct (add_run (tc_mem c) ft v i Hi Hv) as (k & Ek).
    eexists _, k, _. split; [reflexivity|]. cbn [with_writer tc_mem tc_readers tc_log tc_writer]. by rewrite Est.
  - injection E as <- <-. eexists c, O, _. split; [reflexivity|]. rewrite Ew, Est. done.
Qed.

Lemma call_remove_run c ft r out t' :
  flow_hashtable_remove (tc_mem c) ft = Ok (r, out, t') -> tc_writer c = WIdle ->
  exists c' k l, table_step (CallRemove ft) c = Ok c' /\ tc_mem c' = tc_mem c /\ tc_readers c' = tc_readers c /\
    tc_log c' = tc_log c /\ writer_run k (tc_mem c') (tc_writer c') = Ok (t', WIdle, l) /\
    l = if r =? 0 then [EvRemove ft] else [].
Proof.
  intros E Ew. unfold flow_hashtable_remove in E. cbn [table_step]. rewrite Ew.
  apply rbind_Ok in E as ([st i] & -> & E). cbn [rbind]. destruct (st =? 0) eqn:Est; cbn [negb] in *.
  - apply rbind_Ok in E as (e & Ee & E). apply rbind_Ok in E as (t1 & E1 & [= <- _ ->]).
    rewrite Ee. cbn [rbind]. destruct (remove_run _ ft _ _ _ Ee E1) as (k & Ek).
    eexists _, k, _. split; [reflexivity|]. cbn [with_writer tc_mem tc_readers tc_log tc_writer]. done.
  - injection E as <- _ <-. eexists c, O, _. split; [reflexivity|]. rewrite Ew, Est. done.
Qed.

Lemma call_remove_by_value_run c v r out t' :
  flow_hashtable_remove_by_value (tc_mem c) v = Ok (r, out, t') -> tc_writer c = WIdle ->
  exists c' k l, table_step (CallRemoveByValue v) c = Ok c' /\ tc_mem c' = tc_mem c /\ tc_readers c' = tc_readers c /\
    tc_log c' = tc_log c /\ writer_run k (tc_mem c') (tc_writer c') = Ok (t', WIdle, l) /\ l = EvRemove <$> option_list out.
Proof.
  intros E Ew. unfold flow_hashtable_remove_by_value in E. cbn [table_step]. rewrite Ew.
  apply rbind_Ok in E as (i & -> & E). cbn [rbind]. destruct (i =? -1).
  - injection E as _ <- <-. eexists c, O, _. split; [reflexivity|]. by rewrite Ew.
  - apply rbind_Ok in E as (e & Ee & E). apply rbind_Ok in E as (t1 & E1 & [= _ <- ->]).
    rewrite Ee. cbn [rbind]. destruct (remove_run _ (fe_key e) _ _ _ Ee E1) as (k & Ek).
    eexists _, k, _. split; [reflexivity|]. cbn [with_writer tc_mem tc_readers tc_log tc_writer]. done.
Qed.

(** *** Every interleaving *)

(** The additions are called with free ids, the removals with ids. *)
Definition call_paced (a : table_action) (c : table_conc) : bool :=
  match a, tc_writer c with
  | CallAdd _ v, WIdle => bool_decide (0 <= v < FEATURE_SIZE) && (aget (feature_index_to_entry_map (tc_mem c)) v =? -1)
  | CallRemoveByValue v, WIdle => bool_decide (0 <= v < FEATURE_SIZE)
  | _, _ => true
  end.
Fixpoint paced (acts : list table_action) (c : table_conc) : bool :=
  match acts with
  | [] => true
  | a :: acts => call_paced a c && match table_step a c with Ok c => paced acts c | _ => true end
  end.

Definition of_writer (e : table_event) : bool := match e with EvGet _ _ _ => false | _ => true end.
Definition writes (log : list table_event) : list table_event := filter (fun e => of_writer e = true) log.

Definition reader_in_table (r : reader) : Prop :=
  match r with RIdle => True | ROccupied _ i | RHash _ i | RKey _ i => in_table SIZE i end.

(** The operation that the writer is in ends, and leaves the table with the map of its
    log. *)
Record shared_inv (M0 : id_map) (c : table_conc) : Prop := SharedInv {
  sh_len : alen (entries (tc_mem c)) = SIZE;
  sh_readers n : reader_in_table (tc_readers c n);
  sh_ends : exists k t' l M, writer_run k (tc_mem c) (tc_writer c) = Ok (t', WIdle, l) /\
    legal M0 (writes (tc_log c) ++ l) = Some M /\ flow_rep t' M /\ Forall (fun e => of_writer e = true) l }.

Lemma writes_app l1 l2 : writes (l1 ++ l2) = writes l1 ++ writes l2.
Proof. apply filter_app. Qed.

Lemma writes_all l : Forall (fun e => of_writer e = true) l -> writes l = l.
Proof.
  induction l as [|e l IH]; [done|]. intros [He Hl]%Forall_cons. unfold writes.
  rewrite filter_cons_True by done. f_equal. by apply IH.
Qed.

Lemma with_entry_len t i f t' : with_entry t i f = Ok t' -> alen (entries t') = alen (entries t).
Proof.
  intros (e & [_ ->]%rd_inv & E)%rbind_Ok. apply rbind_Ok in E as (ents & [_ ->]%wr_inv & [= <-]). apply alen_aset.
Qed.

Lemma run_store_len s t t' : run_store s t = Ok t' -> alen (entries t') = alen (entries t).
Proof.
  destruct s as [i ft|i v|i h|i b|v i|d]; cbn [run_store]; [apply with_entry_len..| |by intros [= <-]].
  by intros (map & _ & [= <-])%rbind_Ok.
Qed.

Lemma writer_micro_len t w t' w' e : writer_micro t w = Ok (t', w', e) -> alen (entries t') = alen (entries t).
Proof.
  destruct w as [|[|[s x] l] [[i em]|]|i em]; cbn [writer_micro]; try by intros [= <- _ _].
  - intros E. apply rbind_Ok in E as (t1 & E1 & [= <- _ _]). by apply run_store_len in E1.
  - intros E. apply rbind_Ok in E as (t1 & E1 & [= <- _ _]). by apply run_store_len in E1.
  - intros E. apply rbind_Ok in E as (e1 & _ & E). repeat case_match; by injection E as <- _ _.
Qed.

Lemma shared_writer M0 c : shared_inv M0 c -> exists c', writer_step c = Ok c' /\ shared_inv M0 c'.
Proof.
  intros [Hl Hrd (k & t' & l & M & Ek & Hlog & Hr & Hw)]. unfold writer_step. destruct k as [|k]; cbn [writer_run] in Ek.
  - injection Ek as <- Ew <-. rewrite Ew. cbn [writer_micro rbind]. eexists. split; [reflexivity|].
    split; [exact Hl|exact Hrd|]. exists O, (tc_mem c), [], M. cbn [option_list option_rect tc_log]. by rewrite app_nil_r.
  - apply rbind_Ok in Ek as ([[t1 w1] e] & Em & Ek). rewrite Em. cbn [rbind]. eexists. split; [reflexivity|].
    apply rbind_Ok in Ek as ([[t2 w2] l2] & Ek & [= -> -> <-]).
    apply Forall_app in Hw as [He Hw]. split; cbn [tc_mem tc_writer tc_readers tc_log].
    + by rewrite (writer_micro_len _ _ _ _ _ Em).
    + exact Hrd.
    + exists k, t', l2, M. split; [exact Ek|]. rewrite writes_app, (writes_all _ He), <- app_assoc. done.
Qed.

Lemma shared_set_reader M0 c n r :
  shared_inv M0 c -> reader_in_table r -> shared_inv M0 (with_reader n r c).
Proof. intros [Hl Hrd He] Hok. split; [exact Hl| |exact He]. intros m. cbn [with_reader tc_readers]. by case_decide. Qed.

Lemma shared_return M0 c n ft ret : shared_inv M0 c -> shared_inv M0 (return_get n ft ret c).
Proof.
  intros Hi. destruct (shared_set_reader M0 c n RIdle Hi I) as [Hl Hrd (k & t' & l & M & Ek & Hlog & Hrep & Hw)].
  split; [exact Hl|exact Hrd|]. exists k, t', l, M. split; [exact Ek|].
  cbn [return_get log_event tc_log]. rewrite writes_app. change (writes [EvGet n ft ret]) with (@nil table_event).
  by rewrite app_nil_r.
Qed.

Lemma shared_reader M0 c n : shared_inv M0 c -> exists c', reader_step n c = Ok c' /\ shared_inv M0 c'.
Proof.
  intros Hi. pose proof Hi as [Hl Hrd _]. specialize (Hrd n). unfold reader_step.
  assert (forall i, in_table SIZE i -> rd (entries (tc_mem c)) i = Ok (aget (entries (tc_mem c)) i)) as Erd
    by (intros i Hin; apply rd_ok; rewrite Hl; exact Hin).
  destruct (tc_readers c n) as [|ft i|ft i|ft i]; cbn [reader_in_table] in Hrd; [by exists c|..];
    rewrite Erd by done; cbn [rbind]; eexists; (split; [reflexivity|]).
  - destruct (negb _); [by apply shared_return|by apply shared_set_reader].
  - apply shared_set_reader; [done|]. destruct (_ =? _); [done|]. by apply (next_in_table SIZE flow_size_pos).
  - case_bool_decide; [by apply shared_return|]. apply shared_set_reader; [done|]. by apply (next_in_table SIZE flow_size_pos).
Qed.

(** A call of a writer that is idle, given what it does alone. *)
Lemma shared_call M0 c c' M M' e t' k l :
  shared_inv M0 c -> legal M0 (writes (tc_log c)) = Some M ->
  tc_mem c' = tc_mem c -> tc_readers c' = tc_readers c -> tc_log c' = tc_log c ->
  writer_run k (tc_mem c') (tc_writer c') = Ok (t', WIdle, l) -> flow_rep t' M' ->
  (l = [] /\ M' = M \/ l = [e] /\ of_writer e = true /\ legal_event M e = Some M') -> shared_inv M0 c'.
Proof.
  intros [Hl Hrd _] Hlog Em Er El Ek Hr He. split; rewrite ?Em, ?Er; try done.
  exists k, t', l, M'. rewrite El. rewrite Em in Ek. split; [exact Ek|].
  destruct He as [[-> ->]|(-> & He & HM)]; [by rewrite app_nil_r|].
  rewrite legal_snoc, Hlog. split; [exact HM|]. split; [exact Hr|]. by apply Forall_singleton.
Qed.

(** A writer that is idle: what its operation leaves is the memory. *)
Lemma shared_idle M0 c :
  shared_inv M0 c -> tc_writer c = WIdle -> exists M, legal M0 (writes (tc_log c)) = Some M /\ flow_rep (tc_mem c) M.
Proof.
  intros [_ _ (k & t' & l & M & Ek & Hlog & Hr & _)] Ew. rewrite Ew, writer_run_idle in Ek. injection Ek as <- <-.
  exists M. by rewrite app_nil_r in Hlog.
Qed.

Lemma shared_call_add M0 c ft v :
  shared_inv M0 c -> tc_writer c = WIdle -> call_paced (CallAdd ft v) c = true ->
  exists c', table_step (CallAdd ft v) c = Ok c' /\ shared_inv M0 c'.
Proof.
  intros Hi Ew Hp. destruct (shared_idle M0 c Hi Ew) as (M & Hlog & Hr). unfold call_paced in Hp. rewrite Ew in Hp.
  apply andb_prop in Hp as [Hv%bool_decide_eq_true_1 Hfree%Z.eqb_eq].
  destruct (M !! flow_key ft) as [x|] eqn:Ek.
  - destruct (call_add_run c ft v 1 _ (flow_add_present _ _ _ v _ Hr Ek) Ew) as (c' & k & l & E & Em & Er & El & Erun & Hl).
    exists c'. split; [exact E|]. apply (shared_call M0 c c' M M (EvAdd ft v) _ k l Hi Hlog Em Er El Erun Hr). by left.
  - destruct (flow_add_ok _ _ ft v Hr Ek Hv (flow_id_free _ _ v Hr Hfree)) as (t' & Ea & Hr').
    destruct (call_add_run c ft v 0 _ Ea Ew) as (c' & k & l & E & Em & Er & El & Erun & Hl).
    exists c'. split; [exact E|]. apply (shared_call M0 c c' M _ (EvAdd ft v) _ k l Hi Hlog Em Er El Erun Hr').
    right. split; [exact Hl|]. split; [done|]. cbn [legal_event]. by rewrite Ek.
Qed.

Lemma shared_call_remove M0 c ft :
  shared_inv M0 c -> tc_writer c = WIdle -> exists c', table_step (CallRemove ft) c = Ok c' /\ shared_inv M0 c'.
Proof.
  intros Hi Ew. destruct (shared_idle M0 c Hi Ew) as (M & Hlog & Hr). pose proof (flow_remove_ok _ _ ft Hr) as Hrem.
  destruct (M !! flow_key ft) as [x|] eqn:Ek.
  - destruct Hrem as (t' & Ea & Hr').
    destruct (call_remove_run c ft 0 _ _ Ea Ew) as (c' & k & l & E & Em & Er & El & Erun & Hl).
    exists c'. split; [exact E|]. apply (shared_call M0 c c' M _ (EvRemove ft) _ k l Hi Hlog Em Er El Erun Hr').
    right. split; [exact Hl|]. split; [done|]. cbn [legal_event]. by rewrite Ek.
  - destruct (call_remove_run c ft 1 _ _ Hrem Ew) as (c' & k & l & E & Em & Er & El & Erun & Hl).
    exists c'. split; [exact E|]. apply (shared_call M0 c c' M M (EvRemove ft) _ k l Hi Hlog Em Er El Erun Hr). by left.
Qed.

Lemma shared_call_remove_by_value M0 c v :
  shared_inv M0 c -> tc_writer c = WIdle -> 0 <= v < FEATURE_SIZE ->
  exists c', table_step (CallRemoveByValue v) c = Ok c' /\ shared_inv M0 c'.
Proof.
  intros Hi Ew Hv. destruct (shared_idle M0 c Hi Ew) as (M & Hlog & Hr).
  destruct (flow_remove_by_value_ok _ _ v Hr Hv) as [(ft & t' & Ek & Ea & Hr')|[_ Ea]];
    destruct (call_remove_by_value_run c v _ _ _ Ea Ew) as (c' & k & l & E & Em & Er & El & Erun & Hl);
    exists c'; (split; [exact E|]).
  - apply (shared_call M0 c c' M _ (EvRemove ft) _ k l Hi Hlog Em Er El Erun Hr').
    right. split; [exact Hl|]. split; [done|]. cbn [legal_event]. by rewrite Ek.
  - apply (shared_call M0 c c' M M (EvAdd zero_five_tuple 0) _ k l Hi Hlog Em Er El Erun Hr). by left.
Qed.

Lemma shared_step M0 a c :
  shared_inv M0 c -> call_paced a c = true -> exists c', table_step a c = Ok c' /\ shared_inv M0 c'.
Proof.
  intros Hi Hp. destruct a as [ft v|ft|v|n ft| |n].
  - destruct (tc_writer c) eqn:Ew; [by apply shared_call_add|exists c; cbn [table_step]; by rewrite Ew..].
  - destruct (tc_writer c) eqn:Ew; [by apply shared_call_remove|exists c; cbn [table_step]; by rewrite Ew..].
  - unfold call_paced in Hp. destruct (tc_writer c) eqn:Ew; [|exists c; cbn [table_step]; by rewrite Ew..].
    apply shared_call_remove_by_value; [done..|]. by apply bool_decide_eq_true_1 in Hp.
  - cbn [table_step]. destruct (tc_readers c n); [|by exists c..]. eexists. split; [reflexivity|].
    apply shared_set_reader; [exact Hi|]. apply (HASH2INDEX_bound SIZE flow_size_pos).
  - exact (shared_writer M0 c Hi).
  - exact (shared_reader M0 c n Hi).
Qed.

Lemma shared_run M0 acts : forall c,
  shared_inv M0 c -> paced acts c = true -> exists c', table_run acts c = Ok c' /\ shared_inv M0 c'.
Proof.
  induction acts as [|a acts IH]; intros c Hi Hp; [by exists c|].
  cbn [paced] in Hp. apply andb_prop in Hp as [Ha Hp].
  destruct (shared_step M0 a c Hi Ha) as (c1 & E1 & Hi1). rewrite E1 in Hp.
  destruct (IH c1 Hi1 Hp) as (c' & E & Hi'). exists c'. split; [|exact Hi'].
  unfold table_run. cbn [foldM]. rewrite E1. exact E.
Qed.

(** Steps of the writer, as steps of the threads. *)
Lemma writer_run_steps k : forall c t w l,
  writer_run k (tc_mem c) (tc_writer c) = Ok (t, w, l) ->
  table_run (repeat Writer k) c = Ok (TableConc t w (tc_readers c) (tc_log c ++ l)).
Proof.
  induction k as [|k IH]; intros [m w0 rs lg] t w l E; cbn [writer_run tc_mem tc_writer tc_readers tc_log] in *.
  - injection E as <- <- <-. by rewrite app_nil_r.
  - apply rbind_Ok in E as ([[t1 w1] e] & Em & E). apply rbind_Ok in E as ([[t2 w2] l2] & E & [= <- <- <-]).
    unfold table_run. cbn [repeat foldM table_step]. unfold writer_step. cbn [tc_mem tc_writer tc_readers tc_log].
    rewrite Em. cbn [rbind]. rewrite app_assoc. exact (IH (TableConc t1 w1 rs (lg ++ option_list e)) _ _ _ E).
Qed.

Lemma shared_start t M : flow_rep t M -> shared_inv M (table_start t).
Proof.
  intros Hr. split; [exact (eo_len _ _ _ _ (tr_entries _ _ _ _ (fr_table _ _ Hr)))|done|].
  exists O, t, [], M. split; [done|]. split; [done|]. split; [exact Hr|]. apply Forall_nil_2.
Qed.

(** *** A lookup during a removal *)

(** The next slot on the way from [h]. *)
Lemma dist_onward h s : in_table SIZE s -> dist SIZE h s + 1 < SIZE -> dist SIZE h (next_slot SIZE s) = dist SIZE h s + 1.
Proof.
  intros Hs Hd. pose proof (dist_bound SIZE flow_size_pos h s). unfold in_table in Hs.
  rewrite next_slot_mod by (exact flow_size_pos || lia). unfold dist in *. rewrite Zminus_mod_idemp_l.
  replace (s + 1 - h) with ((s - h) + 1) by lia. rewrite Zplus_mod, (Z.mod_small 1) by lia. apply Z.mod_small. lia.
Qed.

(** A lookup alone passes an occupied slot with another key. *)
Lemma lookup_passes c M n ft s :
  rep (entries (tc_mem c)) M -> in_table SIZE s -> occ (entries (tc_mem c)) s = true ->
  flow_key (fe_key (aget (entries (tc_mem c)) s)) <> flow_key ft -> tc_readers c n = ROccupied ft s ->
  exists r c', table_run (repeat (Reader n) r) c = Ok c' /\ tc_mem c' = tc_mem c /\ tc_writer c' = tc_writer c /\
    tc_log c' = tc_log c /\ tc_readers c' n = ROccupied ft (next_slot SIZE s).
Proof.
  intros Hr Hs Ho Hk En. pose proof (rep_slot _ M s Hr Hs) as Erd.
  assert (forall r (x : table_conc), tc_readers (with_reader n r x) n = r) as Hset by (intros; cbn [with_reader tc_readers]; by rewrite decide_True).
  set (e := aget (entries (tc_mem c)) s) in *. change (fe_occupied e = true) in Ho.
  assert (reader_step n c = Ok (with_reader n (RHash ft s) c)) as E1.
  { unfold reader_step. rewrite En, Erd. cbn [rbind]. by rewrite Ho. }
  set (c1 := with_reader n (RHash ft s) c) in *.
  destruct (Z.eqb_spec (fe_hash e) (flow_hashtable_hash_key ft)) as [Eh|Hh].
  - assert (reader_step n c1 = Ok (with_reader n (RKey ft s) c1)) as E2.
    { unfold reader_step. unfold c1 at 1. rewrite Hset. change (entries (tc_mem c1)) with (entries (tc_mem c)).
      rewrite Erd. cbn [rbind]. by rewrite (proj2 (Z.eqb_eq _ _) Eh). }
    set (c2 := with_reader n (RKey ft s) c1) in *.
    exists 3%nat, (with_reader n (ROccupied ft (next_slot SIZE s)) c2).
    split; [|split; [done|split; [done|split; [done|apply Hset]]]].
    unfold table_run. cbn [repeat foldM table_step]. rewrite E1. cbn [rbind]. rewrite E2. cbn [rbind].
    unfold reader_step. unfold c2 at 1. rewrite Hset. change (entries (tc_mem c2)) with (entries (tc_mem c)).
    rewrite Erd. cbn [rbind]. by rewrite bool_decide_false.
  - exists 2%nat, (with_reader n (ROccupied ft (next_slot SIZE s)) c1).
    split; [|split; [done|split; [done|split; [done|apply Hset]]]].
    unfold table_run. cbn [repeat foldM table_step]. rewrite E1. cbn [rbind].
    unfold reader_step. unfold c1 at 1. rewrite Hset. change (entries (tc_mem c1)) with (entries (tc_mem c)).
    rewrite Erd. cbn [rbind]. by rewrite (proj2 (Z.eqb_neq _ _) Hh).
Qed.

(** So it comes to the slot of its flow. *)
Lemma lookup_reaches M n ft j d : forall c s,
  rep (entries (tc_mem c)) M -> in_table SIZE j -> occ (entries (tc_mem c)) j = true ->
  flow_key (fe_key (aget (entries (tc_mem c)) j)) = flow_key ft ->
  in_table SIZE s -> tc_readers c n = ROccupied ft s ->
  dist SIZE (HASH2INDEX SIZE (flow_hashtable_hash_key ft)) s + Z.of_nat d =
    dist SIZE (HASH2INDEX SIZE (flow_hashtable_hash_key ft)) j ->
  exists r c', table_run (repeat (Reader n) r) c = Ok c' /\ tc_mem c' = tc_mem c /\ tc_writer c' = tc_writer c /\
    tc_log c' = tc_log c /\ tc_readers c' n = ROccupied ft j.
Proof.
  induction d as [|d IH]; intros c s Hr Hj Ho Hk Hs En Hd; set (h := HASH2INDEX SIZE (flow_hashtable_hash_key ft)) in *.
  - assert (s = j) as -> by (apply (dist_inj SIZE flow_size_pos h); [done..|lia]). by exists O, c.
  - pose proof (dist_bound SIZE flow_size_pos h j) as Hb.
    assert (home SIZE (entries (tc_mem c)) j = h) as Eh.
    { unfold home. change (e_hash (aget (entries (tc_mem c)) j)) with (fe_hash (aget (entries (tc_mem c)) j)).
      rewrite (hash_of_slot _ M j Hr Hj Ho), Hk. reflexivity. }
    assert (occ (entries (tc_mem c)) s = true) as Hos
      by (apply (tr_no_gap _ _ _ _ Hr j s Hj Ho Hs); rewrite Eh; lia).
    assert (flow_key (fe_key (aget (entries (tc_mem c)) s)) <> flow_key ft) as Hne.
    { intros Ek. assert (s = j) as -> by (apply (eo_inj _ _ _ _ (tr_entries _ _ _ _ Hr)); [done..|];
        transitivity (flow_key ft); [exact Ek|symmetry; exact Hk]). lia. }
    destruct (lookup_passes c M n ft s Hr Hs Hos Hne En) as (r1 & c1 & E1 & Em & Ew & El & En1).
    assert (dist SIZE h (next_slot SIZE s) = dist SIZE h s + 1) as Hn by (apply dist_onward; [done|lia]).
    destruct (IH c1 (next_slot SIZE s)) as (r2 & c2 & E2 & Em2 & Ew2 & El2 & En2); rewrite ?Em; try done.
    { by apply (next_in_table SIZE flow_size_pos). }
    { fold h. lia. }
    exists (r1 + r2)%nat, c2. rewrite Em2, Ew2, El2. split; [|done]. unfold table_run in *.
    rewrite repeat_app, foldM_app, E1. exact E2.
Qed.

(** The first seven steps of a removal when the flow behind the removed one is not in its
    home slot: its flag is cleared before it is stored in the free slot. *)
Lemma removal_clears t M i ft1 :
  flow_rep t M -> in_table SIZE i -> occ (entries t) i = true ->
  let j := next_slot SIZE i in
  in_table SIZE j -> occ (entries t) j = true -> home SIZE (entries t) j <> j ->
  exists t' l, writer_run 7 t (WStores (remove_stores ft1 (aget (entries t) i) i) (Some (i, i))) =
      Ok (t', WStores l (Some (j, j)), [EvRemove ft1]) /\ Forall (fun x => x.2 = None) l /\
    alen (entries t') = SIZE /\ occ (entries t') j = false.
Proof.
  intros Hrep Hi Ho j Hj Hoj Hh. pose proof Hrep as [Hr Hn Hix]. pose proof (eo_len _ _ _ _ (tr_entries _ _ _ _ Hr)) as Hl.
  set (ei := aget (entries t) i). set (ej := aget (entries t) j). set (h := home SIZE (entries t) j) in *.
  pose proof (HASH2INDEX_bound SIZE flow_size_pos (fe_hash ej)) as Hhb. change (in_table SIZE h) in Hhb.
  assert (dist SIZE h j = dist SIZE h i + 1) as Hd by (apply dist_next; [exact flow_size_pos|done|done|intros E; apply Hh; symmetry; exact E]).
  assert (i <> j) as Hij by (intros E; rewrite <- E in Hd; lia).
  destruct (ix_fwd _ _ _ _ _ Hix i Hi Ho) as [Hv _]. fold ei in Hv.
  assert (CAN_MOVE_ITEM_TO_CURRENT_EMPTY SIZE h i j = true) as Hcan.
  { apply (can_move_iff SIZE flow_size_pos h h i j); rewrite ?dist_self by exact flow_size_pos; try done;
      pose proof (dist_bound SIZE flow_size_pos h i); lia. }
  set (t4 := FlowHashtable (u64 (num_entries t + -1)) (aset (entries t) i (set_hash 0 (set_occupied false ei)))
               (aset (feature_index_to_entry_map t) (fe_value ei) (-1))).
  assert (foldM run_store (remove_stores ft1 ei i).*1 t = Ok t4) as E4.
  { unfold remove_stores. assert (0 <= i < alen (entries t)) as Hil by (rewrite Hl; exact Hi). run_stores_goal. rewrite wr_ok by (rewrite (ix_len _ _ _ _ _ Hix); exact Hv). reflexivity. }
  set (t5 := FlowHashtable (num_entries t4) (aset (entries t4) j (set_occupied false ej)) (feature_index_to_entry_map t4)).
  exists t5, (drop 1 (move_stores ej j i)).
  split; [|split; [repeat constructor|split; [exact Hl|]]].
  - refine (writer_run_app 4 3 _ _ t4 _ [EvRemove ft1] _ _ [] (run_stores _ _ _ _ E4) _).
    assert (rd (entries t4) j = Ok ej) as Ej by (cbn [t4 entries]; unfold in_table in Hj; rewrite rd_ok by (rewrite alen_aset, Hl; exact Hj); by rewrite aget_aset_ne by congruence).
    cbn [writer_run writer_micro rbind]. fold j. rewrite Ej. cbn [rbind].
    change (fe_occupied ej = true) in Hoj. rewrite Hoj. cbn [negb].
    change (HASH2INDEX SIZE (fe_hash ej)) with h. rewrite (proj2 (Z.eqb_neq j h)) by congruence. rewrite Hcan. cbn [negb andb].
    cbn [rbind move_stores writer_micro run_store].
    rewrite with_entry_run by (cbn [t4 entries]; rewrite alen_aset, Hl; exact Hj). cbn [rbind option_list].
    assert (aget (entries t4) j = ej) as -> by (cbn [t4 entries]; by rewrite aget_aset_ne by congruence). reflexivity.
  - unfold occ. cbn [t5 entries]. by rewrite aget_aset_eq.
Qed.

(** What is left of the removal makes nothing visible or invisible. *)
Definition quiet (w : writer) : Prop := match w with WStores l _ => Forall (fun x => x.2 = None) l | _ => True end.

Lemma quiet_run k : forall t w t' w' l, quiet w -> writer_run k t w = Ok (t', w', l) -> l = [].
Proof.
  induction k as [|k IH]; intros t w t' w' l Hq; cbn [writer_run]; [by intros [= _ _ <-]|].
  intros E. apply rbind_Ok in E as ([[t1 w1] e] & Em & E). apply rbind_Ok in E as ([[t2 w2] l2] & E & [= _ _ <-]).
  assert (quiet w1 /\ e = None) as [Hq1 ->]; [|by rewrite (IH _ _ _ _ _ Hq1 E)].
  destruct w as [|[|[s x] l0] [[i em]|]|i em]; cbn [writer_micro quiet] in *; try by injection Em as _ <- <-.
  - apply rbind_Ok in Em as (t3 & _ & [= _ <- <-]). by apply Forall_cons in Hq as [Hx Hq].
  - apply rbind_Ok in Em as (t3 & _ & [= _ <- <-]). by apply Forall_cons in Hq as [Hx Hq].
  - apply rbind_Ok in Em as (e0 & _ & Em). repeat case_match; injection Em as _ <- <-; split; try done; repeat constructor.
Qed.

(** Steps of lookups and of the writer keep the invariant. *)
Lemma shared_steps M0 acts : forall c c',
  shared_inv M0 c -> Forall (fun a => match a with CallAdd _ _ | CallRemoveByValue _ => False | _ => True end) acts ->
  table_run acts c = Ok c' -> shared_inv M0 c'.
Proof.
  induction acts as [|a acts IH]; intros c c' Hi Ha E; [by injection E as <-|]. apply Forall_cons in Ha as [Ha Has].
  destruct (shared_step M0 a c Hi) as (c1 & E1 & Hi1); [by destruct a|].
  unfold table_run in E. cbn [foldM] in E. rewrite E1 in E. exact (IH c1 c' Hi1 Has E).
Qed.

Lemma next_slot_ne i : in_table SIZE i -> next_slot SIZE i <> i.
Proof.
  intros Hi E. pose proof (dist_onward i i Hi) as Hd. rewrite E, dist_self in Hd by exact flow_size_pos.
  assert (1 < SIZE) by done. lia.
Qed.

(** The lookup of a stored flow before its last slot. *)
Lemma hiding_lookup t M ft j n :
  flow_rep t M -> in_table SIZE j -> occ (entries t) j = true -> flow_key (fe_key (aget (entries t) j)) = flow_key ft ->
  exists r c, table_run (CallGet n ft :: repeat (Reader n) r) (table_start t) = Ok c /\
    tc_mem c = t /\ tc_writer c = WIdle /\ tc_log c = [] /\ tc_readers c n = ROccupied ft j.
Proof.
  intros Hrep Hj Ho Hk. set (h := HASH2INDEX SIZE (flow_hashtable_hash_key ft)).
  set (c0 := with_reader n (ROccupied ft h) (table_start t)).
  destruct (lookup_reaches M n ft j (Z.to_nat (dist SIZE h j)) c0 h) as (r & c & E & Hc).
  - exact (fr_table _ _ Hrep).
  - exact Hj.
  - exact Ho.
  - exact Hk.
  - apply (HASH2INDEX_bound SIZE flow_size_pos).
  - cbn [c0 with_reader tc_readers]. by rewrite decide_True.
  - fold h. rewrite dist_self by exact flow_size_pos. pose proof (dist_bound SIZE flow_size_pos h j). lia.
  - exists r, c. split; [exact E|exact Hc].
Qed.

(** Then the removal of the flow in the slot before, up to the step that clears the slot,
    and the load of the lookup. *)
Lemma hiding_removal t M ft1 ft2 i c n :
  let j := next_slot SIZE i in
  flow_rep t M -> in_table SIZE i ->
  occ (entries t) i = true -> flow_key (fe_key (aget (entries t) i)) = flow_key ft1 ->
  occ (entries t) j = true -> flow_key (fe_key (aget (entries t) j)) = flow_key ft2 ->
  HASH2INDEX SIZE (flow_hashtable_hash_key ft2) <> j ->
  tc_mem c = t -> tc_writer c = WIdle -> tc_log c = [] -> tc_readers c n = ROccupied ft2 j ->
  exists c', table_run (CallRemove ft1 :: repeat Writer 7 ++ [Reader n]) c = Ok c' /\
    tc_log c' = [EvRemove ft1; EvGet n ft2 1] /\ quiet (tc_writer c').
Proof.
  intros j Hrep Hi Ho1 Hk1 Ho2 Hk2 Hhome Em Ew El En. pose proof (fr_table _ _ Hrep) as Hr.
  assert (in_table SIZE j) as Hj by (by apply (next_in_table SIZE flow_size_pos)).
  assert (home SIZE (entries t) j <> j) as Hne.
  { unfold home. change (e_hash (aget (entries t) j)) with (fe_hash (aget (entries t) j)).
    rewrite (hash_of_slot _ M j Hr Hj Ho2), Hk2. exact Hhome. }
  destruct (removal_clears t M i ft1 Hrep Hi Ho1 Hj Ho2 Hne) as (t' & l & Ewr & Hq & Hl & Hoj). fold j in Ewr.
  destruct (flow_find t M ft1 Hrep) as ([st x] & Ef & Hin & Hf). cbn [fst snd] in *.
  pose proof (key_of_slot _ _ _ _ _ (tr_entries _ _ _ _ Hr) Hi Ho1) as HM.
  change (e_key (aget (entries t) i)) with (flow_key (fe_key (aget (entries t) i))) in HM. rewrite Hk1 in HM.
  destruct Hf as [(-> & Hox & Hkx & _)|(_ & _ & Hn & _)]; [|congruence].
  assert (x = i) as ->.
  { apply (eo_inj _ _ _ _ (tr_entries _ _ _ _ Hr) x i Hin Hi Hox Ho1). rewrite Hkx. symmetry. exact Hk1. }
  set (c1 := with_writer (WStores (remove_stores ft1 (aget (entries t) i) i) (Some (i, i))) c).
  assert (table_step (CallRemove ft1) c = Ok c1) as E1.
  { cbn [table_step]. rewrite Ew, Em, Ef. cbn [rbind negb Z.eqb]. by rewrite (rep_slot _ M i Hr Hi). }
  assert (writer_run 7 (tc_mem c1) (tc_writer c1) = Ok (t', WStores l (Some (j, j)), [EvRemove ft1])) as Ewr1
    by (change (tc_mem c1) with (tc_mem c); rewrite Em; exact Ewr).
  pose proof (writer_run_steps 7 c1 _ _ _ Ewr1) as E7.
  set (c8 := TableConc _ _ _ _) in E7.
  exists (return_get n ft2 1 c8). split; [|split; [|exact Hq]].
  - unfold table_run in *. cbn [foldM]. rewrite E1. cbn [rbind]. rewrite foldM_app, E7. cbn [rbind foldM table_step].
    unfold reader_step. change (tc_readers c8 n) with (tc_readers c n). rewrite En.
    change (entries (tc_mem c8)) with (entries t'). unfold in_table in Hj. rewrite rd_ok by (rewrite Hl; exact Hj). cbn [rbind].
    change (fe_occupied (aget (entries t') j) = false) in Hoj. by rewrite Hoj.
  - cbn [return_get log_event tc_log with_reader c8]. change (tc_log c1) with (tc_log c). by rewrite El.
Qed.

(** ** Properties *)

Lemma table_start_inv t M acts :
  flow_rep t M -> Z.of_nat (size M) + additions acts < SIZE -> table_inv M (table_start t) M (additions acts).
Proof.
  intros [Hr Hn Hix] Hs. split; cbn [table_start tc_mem tc_writer tc_readers tc_log pending]; try done.
  - exact (ix_len _ _ _ _ _ Hix).
  - lia.
Qed.

(** Claim C10. While flows are only added, the lookups need no lock: in every interleaving
    of the stores of the flow database with the loads of any number of lookups no access
    leaves an array, the log of the additions and of the results of the lookups is one of
    a finite map that executes them one at a time, and a lookup returns after at most
    three loads per slot of its own, whatever the writer does. *)
Theorem lookups_linearizable_with_additions t M acts :
  flow_rep t M -> Forall adds_only acts -> Z.of_nat (size M) + additions acts < FLOW_HASHTABLE_SIZE ->
  exists c M', table_run acts (table_start t) = Ok c /\ legal M (tc_log c) = Some M' /\
    table_rep FLOW_HASHTABLE_SIZE flow_hash (entries (tc_mem c)) M' /\
    forall n, tc_readers c n <> RIdle -> exists c', table_step (Reader n) c = Ok c' /\
      0 <= loads_left (tc_readers c' n) < loads_left (tc_readers c n) /\
      loads_left (tc_readers c n) <= 3 * FLOW_HASHTABLE_SIZE.
Proof.
  intros Hr Ha Hs. destruct (table_run_ok M acts _ _ (table_start_inv t M acts Hr Hs) Ha) as (c & M' & E & Hi).
  exists c, M'. split; [exact E|]. split; [exact (ti_log _ _ _ _ Hi)|]. split; [exact (ti_rep _ _ _ _ Hi)|].
  intros n Hn. destruct (reader_step_ok M c M' 0 n Hi ltac:(lia)) as (c' & E' & _).
  exists c'. split; [exact E'|]. pose proof (reader_step_decreases M c M' 0 n c' Hi ltac:(lia) E' Hn) as Hd.
  split; [exact Hd|].
  destruct (tc_readers c n) as [|ft i|ft i|ft i]; cbn [loads_left]; [done|..];
    pose proof (dist_bound SIZE flow_size_pos (HASH2INDEX SIZE (flow_hashtable_hash_key ft)) i); lia.
Qed.

(** Claim C11. With removals too, the flow database and the lookups run without an access
    outside the arrays in every interleaving of their stores and loads, as long as flows
    are added with free ids and removed by ids that exist; and from every state reached
    the flow database alone ends its operation: the table is then again the one of the
    finite map that its additions and removals have made, in spite of the lookups. *)
Theorem flow_table_threads_safe t M acts :
  flow_rep t M -> paced acts (table_start t) = true ->
  exists c, table_run acts (table_start t) = Ok c /\
    exists k c', table_run (repeat Writer k) c = Ok c' /\ tc_writer c' = WIdle /\
      exists M', legal M (writes (tc_log c')) = Some M' /\ flow_rep (tc_mem c') M'.
Proof.
  intros Hr Hp. destruct (shared_run M acts _ (shared_start t M Hr) Hp) as (c & E & Hi).
  exists c. split; [exact E|]. destruct Hi as [_ _ (k & t' & l & M' & Ek & Hlog & Hr' & Hw)].
  exists k. eexists. split; [exact (writer_run_steps k c _ _ _ Ek)|]. split; [done|].
  exists M'. split; [|exact Hr']. cbn [tc_log]. by rewrite writes_app, (writes_all l Hw).
Qed.

(** Two flows of one client whose hashes lead to the same slot. *)
Definition client_flow_of (port : Z) : five_tuple_t :=
  FiveTuple (FiveTupleForHash 0x0A000001 0x0A000002 port 443 L3_IPV4 L4_TCP) zero_sh 7 5 0.
Definition add_alone (ft : five_tuple_t) (v : Z) : list table_action := CallAdd ft v :: repeat Writer 7.

(** The lookup of the second flow comes between two stores of its addition, while the
    first is there. *)
Definition adding_run : list table_action :=
  add_alone (client_flow_of 1862) 4 ++ CallAdd (client_flow_of 2902) 8 :: repeat Writer 5 ++
  CallGet 0 (client_flow_of 2902) :: CallGet 1 (client_flow_of 1862) :: repeat (Reader 0) 3 ++ repeat Writer 2 ++
  CallGet 0 (client_flow_of 2902) :: repeat (Reader 0) 5 ++ [Reader 1].

Lemma lookups_linearizable_with_additions_witness : exists c M',
  table_run adding_run (table_start flow_hashtable_init) = Ok c /\
  legal ∅ (tc_log c) = Some M' /\
  tc_log c = [EvAdd (client_flow_of 1862) 4; EvGet 0 (client_flow_of 2902) 1; EvAdd (client_flow_of 2902) 8;
              EvGet 0 (client_flow_of 2902) 0].
Proof.
  destruct (lookups_linearizable_with_additions flow_hashtable_init ∅ adding_run) as (c & M' & E & Hl & _).
  - exact flow_rep_init.
  - repeat (apply Forall_cons_2; [first [exact I|split; [discriminate|reflexivity]]|]). apply Forall_nil_2.
  - reflexivity.
  - exists c, M'. split; [exact E|]. split; [exact Hl|].
    assert (match table_run adding_run (table_start flow_hashtable_init) with Ok c => tc_log c | _ => [] end =
            [EvAdd (client_flow_of 1862) 4; EvGet 0 (client_flow_of 2902) 1; EvAdd (client_flow_of 2902) 8;
             EvGet 0 (client_flow_of 2902) 0]) as El by (vm_compute; reflexivity).
    rewrite E in El. exact El.
Defined.

(** The lookup of the second flow has passed the slot of the first; the removal of the
    first moves the second there; the lookup goes on where the flow was. *)
Definition hiding_run : list table_action :=
  add_alone (client_flow_of 1862) 4 ++ add_alone (client_flow_of 2902) 8 ++
  CallGet 0 (client_flow_of 2902) :: repeat (Reader 0) 2 ++
  CallRemove (client_flow_of 1862) :: repeat Writer 14 ++ [Reader 0].

(** The lookup in the middle of the first removal, and one in the middle of a second. *)
Lemma flow_table_threads_safe_witness : exists c k c' M',
  table_run (hiding_run ++ [CallRemoveByValue 8; Writer; CallGet 0 (client_flow_of 2902); Reader 0]) (table_start flow_hashtable_init) = Ok c /\
  table_run (repeat Writer k) c = Ok c' /\ tc_writer c' = WIdle /\
  legal ∅ (writes (tc_log c')) = Some M' /\ flow_rep (tc_mem c') M'.
Proof.
  destruct (flow_table_threads_safe flow_hashtable_init ∅ (hiding_run ++ [CallRemoveByValue 8; Writer; CallGet 0 (client_flow_of 2902); Reader 0]))
    as (c & E & k & c' & Ek & Ew & M' & Hl & Hr).
  - exact flow_rep_init.
  - vm_compute. reflexivity.
  - exists c, k, c', M'. split; [exact E|]. split; [exact Ek|]. split; [exact Ew|]. split; [exact Hl|exact Hr].
Defined.

(** Claim C39. A removal hides other flows from the lookups. Without the lock that the
    comment of [get_hashtable_index] demands, in every table that holds a flow [ft2] behind
    its home slot, a lookup of [ft2] and the removal of the flow [ft1] in the slot before
    it can interleave so that the lookup, called and answered while [ft2] is stored, says
    that it is not there: the log is not one of a map. The removal then ends, with [ft2]
    still in the table. *)
Theorem removal_hides_stored_flow t M ft1 ft2 i n :
  let j := next_slot FLOW_HASHTABLE_SIZE i in
  flow_rep t M -> in_table FLOW_HASHTABLE_SIZE i ->
  fe_occupied (aget (entries t) i) = true -> flow_key (fe_key (aget (entries t) i)) = flow_key ft1 ->
  fe_occupied (aget (entries t) j) = true -> flow_key (fe_key (aget (entries t) j)) = flow_key ft2 ->
  HASH2INDEX FLOW_HASHTABLE_SIZE (flow_hashtable_hash_key ft2) <> j ->
  exists r c k c',
    table_run (CallGet n ft2 :: repeat (Reader n) r ++ CallRemove ft1 :: repeat Writer 7 ++ [Reader n]) (table_start t) = Ok c /\
    tc_log c = [EvRemove ft1; EvGet n ft2 1] /\ legal M (tc_log c) = None /\
    table_run (repeat Writer k) c = Ok c' /\ tc_writer c' = WIdle /\
    flow_rep (tc_mem c') (delete (flow_key ft1) M) /\ is_Some (delete (flow_key ft1) M !! flow_key ft2).
Proof.
  intros j Hrep Hi Ho1 Hk1 Ho2 Hk2 Hhome. pose proof (fr_table _ _ Hrep) as Hr.
  assert (in_table SIZE j) as Hj by (by apply (next_in_table SIZE flow_size_pos)).
  set (h := HASH2INDEX SIZE (flow_hashtable_hash_key ft2)) in *.
  pose proof (HASH2INDEX_bound SIZE flow_size_pos (flow_hashtable_hash_key ft2)) as Hh. change (in_table SIZE h) in Hh.
  destruct (hiding_lookup t M ft2 j n Hrep Hj Ho2 Hk2) as (r & c1 & E1 & Em1 & Ew1 & El1 & En1).
  destruct (hiding_removal t M ft1 ft2 i c1 n Hrep Hi Ho1 Hk1 Ho2 Hk2 Hhome Em1 Ew1 El1 En1)
    as (c & E & Elog & Hquiet).
  assert (table_run (CallGet n ft2 :: repeat (Reader n) r ++ CallRemove ft1 :: repeat Writer 7 ++ [Reader n]) (table_start t) = Ok c) as Erun.
  { unfold table_run in *. rewrite app_comm_cons, foldM_app, E1. exact E. }
  assert (shared_inv M c) as Hs.
  { apply (shared_steps M _ (table_start t) c (shared_start t M Hrep)) in Erun; [exact Erun|].
    repeat first [apply Forall_cons_2; [exact I|]|apply Forall_app_2|apply Forall_nil_2];
      apply Forall_forall; intros a Ha%list_elem_of_In%repeat_spec; subst a; exact I. }
  destruct Hs as [_ _ (k & t' & l & M' & Ek & Hlog & Hr' & _)].
  pose proof (quiet_run _ _ _ _ _ _ Hquiet Ek) as ->. rewrite Elog in Hlog.
  change (writes [EvRemove ft1; EvGet n ft2 1]) with [EvRemove ft1] in Hlog. cbn [app legal legal_event] in Hlog.
  destruct (M !! flow_key ft1) as [x|] eqn:Ex; [|discriminate]. injection Hlog as <-.
  assert (is_Some (delete (flow_key ft1) M !! flow_key ft2)) as [y Hy].
  { rewrite lookup_delete_ne; [rewrite <- Hk2; eexists; exact (key_of_slot _ _ _ _ _ (tr_entries _ _ _ _ Hr) Hj Ho2)|].
    rewrite <- Hk1, <- Hk2. intros Eq. apply (eo_inj _ _ _ _ (tr_entries _ _ _ _ Hr) i j Hi Hj Ho1 Ho2) in Eq.
    exact (next_slot_ne i Hi (eq_sym Eq)). }
  exists r, c, k. eexists. split; [exact Erun|]. split; [exact Elog|]. split.
  { rewrite Elog. cbn [legal legal_event]. rewrite Ex, Hy. by rewrite decide_False. }
  split; [exact (writer_run_steps k c _ _ _ Ek)|]. split; [reflexivity|]. split; [exact Hr'|by exists y].
Qed.

(** The two flows of the client, stored. *)
Definition two_flows : flow_hashtable_t :=
  match (let! '(_, t) := flow_hashtable_add flow_hashtable_init (client_flow_of 1862) 4 in
         flow_hashtable_add t (client_flow_of 2902) 8) with
  | Ok (_, t) => t
  | _ => flow_hashtable_init
  end.

Lemma two_flows_stored : flow_rep two_flows
  (<[flow_key (client_flow_of 2902) := (client_flow_of 2902, 8)]>
     (<[flow_key (client_flow_of 1862) := (client_flow_of 1862, 4)]> ∅)).
Proof.
  assert (id_free 4 (∅ : id_map)) as Hf1 by (intros k x E; rewrite lookup_empty in E; discriminate).
  assert (0 <= 4 < FEATURE_SIZE) as H4 by (split; [discriminate|reflexivity]).
  assert (0 <= 8 < FEATURE_SIZE) as H8 by (split; [discriminate|reflexivity]).
  destruct (flow_add_ok _ _ (client_flow_of 1862) 4 flow_rep_init (lookup_empty _) H4 Hf1) as (t & E & Hr).
  set (M := <[flow_key (client_flow_of 1862) := (client_flow_of 1862, 4)]> (∅ : id_map)) in *.
  assert (M !! flow_key (client_flow_of 2902) = None) as Hk.
  { unfold M. rewrite lookup_insert_ne; [apply lookup_empty|]. vm_compute. discriminate. }
  assert (id_free 8 M) as Hf2.
  { intros k x Ek. unfold M in Ek. rewrite lookup_insert in Ek. case_decide; [by injection Ek as <-|].
    rewrite lookup_empty in Ek. discriminate. }
  destruct (flow_add_ok _ _ (client_flow_of 2902) 8 Hr Hk H8 Hf2) as (t' & E' & Hr').
  unfold two_flows. rewrite E. cbn [rbind]. rewrite E'. exact Hr'.
Qed.

(** Their slots are neighbours; the removal of the first hides the second. *)
Lemma removal_hides_stored_flow_witness : exists r c k c',
  table_run (CallGet 0 (client_flow_of 2902) :: repeat (Reader 0) r ++
             CallRemove (client_flow_of 1862) :: repeat Writer 7 ++ [Reader 0]) (table_start two_flows) = Ok c /\
  tc_log c = [EvRemove (client_flow_of 1862); EvGet 0 (client_flow_of 2902) 1] /\
  table_run (repeat Writer k) c = Ok c' /\ tc_writer c' = WIdle /\
  exists M, flow_rep (tc_mem c') M /\ is_Some (M !! flow_key (client_flow_of 2902)).
Proof.
  destruct (removal_hides_stored_flow two_flows _ (client_flow_of 1862) (client_flow_of 2902)
              (HASH2INDEX FLOW_HASHTABLE_SIZE (flow_hashtable_hash_key (client_flow_of 1862))) 0 two_flows_stored)
    as (r & c & k & c' & E & El & _ & Ek & Ew & Hr & Hs).
  - apply (HASH2INDEX_bound FLOW_HASHTABLE_SIZE flow_size_pos).
  - vm_compute. reflexivity.
  - vm_compute. reflexivity.
  - vm_compute. reflexivity.
  - vm_compute. reflexivity.
  - vm_compute. discriminate.
  - exists r, c, k, c'. split; [exact E|]. split; [exact El|]. split; [exact Ek|]. split; [exact Ew|]. eexists. split; [exact Hr|exact Hs].
Defined.
