(* ===== verification/SessionTable.v ===== *)
(** * Session hash table ([datastructures/session_hashtable.c], [session_hashtable.h])

    Maps a session to its id. With sessions enabled the key is the client address
    and the direction, and [flow_count] counts the flows of a session; with
    sessions disabled the key is that of the flow table and the table implements
    the same interface. [use_sessions] is the cached flag of
    [runtime_config.c]. *)

From S2P Require Import Prelude Structs Murmur Probe IndexMap IdTable.

Definition SESSION_HASHTABLE_SIZE : Z := MAX_FLOWS * NUM_PIPES * FLOW_HASHTABLE_MULTIPLIER.

Record session_hashtable_entry_t : Type := SessionEntry {
  se_key : five_tuple_t;
  se_value : Z;
  se_hash : Z;
  se_occupied : bool }.

Record session_hashtable_t : Type := SessionHashtable {
  s_num_entries : Z;
  s_entries : arr session_hashtable_entry_t;
  s_feature_index_to_entry_map : arr Z;
  egress_feature_to_session_id : arr Z;
  flow_count : arr Z }.

Definition zero_session_entry : session_hashtable_entry_t := SessionEntry zero_five_tuple 0 0 false.

(** What [compare_five_tuples] compares and [session_hashtable_hash_key] hashes. *)
Definition session_key (use_sessions : bool) (ft : five_tuple_t) : list Z :=
  if use_sessions then sh_bytes (ft_sh ft) else h_bytes (ft_h ft).
Definition session_hash (use_sessions : bool) (key : list Z) : Z :=
  MurmurHash3_x86_32 key (if use_sessions then 20 else 44) MURMUR_SEED.
Definition session_hashtable_hash_key (use_sessions : bool) (key : five_tuple_t) : Z :=
  session_hash use_sessions (session_key use_sessions key).

Definition session_probe_entry (use_sessions : bool) :
    ProbeEntry session_hashtable_entry_t (five_tuple_t * Z) := {|
  e_occupied := se_occupied;
  e_hash := se_hash;
  e_key e := session_key use_sessions (se_key e);
  e_val e := (se_key e, se_value e) |}.

Definition session_set_occupied (b : bool) (e : session_hashtable_entry_t) :=
  SessionEntry (se_key e) (se_value e) (se_hash e) b.
Definition session_set_hash (h : Z) (e : session_hashtable_entry_t) :=
  SessionEntry (se_key e) (se_value e) h (se_occupied e).

(** [value + key.session_id_egress_offset]. *)
Definition egress_index (key : five_tuple_t) (value : Z) : Z := value + session_id_egress_offset key.

(** ** Operations *)

(** The static table: [init] leaves [flow_count] as it is. *)
Definition session_hashtable_init (flow_count0 : arr Z) : session_hashtable_t :=
  SessionHashtable 0 (amake SESSION_HASHTABLE_SIZE zero_session_entry)
    (amake FEATURE_SIZE (-1)) (amake FEATURE_SIZE (-1)) flow_count0.

Section operations.
Context (use_sessions : bool).
#[local] Hint Extern 0 (ProbeEntry session_hashtable_entry_t _) =>
  exact (session_probe_entry use_sessions) : typeclass_instances.

Definition session_get_hashtable_index t key hash : res (Z * Z) :=
  get_hashtable_index SESSION_HASHTABLE_SIZE
    (s_entries t) (session_key use_sessions key) hash.

(** [flow_count[value]++] and [--]. *)
Definition add_flow_count (t : session_hashtable_t) (value d : Z) : res session_hashtable_t :=
  let! c := rd (flow_count t) value in
  let! fc := wr (flow_count t) value (i32 (c + d)) in
  Ok (SessionHashtable (s_num_entries t) (s_entries t) (s_feature_index_to_entry_map t)
        (egress_feature_to_session_id t) fc).

Definition session_hashtable_add_or_increase_flow_count (t : session_hashtable_t)
    (key : five_tuple_t) (value : Z) : res (Z * session_hashtable_t) :=
  if s_num_entries t =? SESSION_HASHTABLE_SIZE then Ok (1, t)
  else
    let hash := session_hashtable_hash_key use_sessions key in
    let! '(ret, index) := probe_for_add
        SESSION_HASHTABLE_SIZE (s_entries t) (session_key use_sessions key) hash in
    if ret =? 0 then
      let! old := rd (s_entries t) index in
      let! ents := wr (s_entries t) index (SessionEntry key value hash (se_occupied old)) in
      let! map := wr (s_feature_index_to_entry_map t) value index in
      let! egress := wr (egress_feature_to_session_id t) (egress_index key value) value in
      let! ents := wr ents index (SessionEntry key value hash true) in
      Ok (ret, SessionHashtable (u64 (s_num_entries t + 1)) ents map egress (flow_count t))
    else if use_sessions then
      let! t' := add_flow_count t value 1 in
      Ok (ret, t')
    else Ok (ret, t).

Definition session_hashtable_get (t : session_hashtable_t) (key : five_tuple_t)
    : res (Z * option Z) :=
  let hash := session_hashtable_hash_key use_sessions key in
  let! '(ret, index) := session_get_hashtable_index t key hash in
  if ret =? 0 then
    let! e := rd (s_entries t) index in
    Ok (ret, Some (se_value e))
  else Ok (ret, None).

Definition session_move (t : session_hashtable_t) (index empty_index : Z)
    : res session_hashtable_t :=
  let! e := rd (s_entries t) index in
  let! ents := wr (s_entries t) index (session_set_occupied false e) in
  let! dst := rd ents empty_index in
  let! src := rd ents index in
  let! ents := wr ents empty_index
                 (SessionEntry (se_key src) (se_value src) (se_hash src) (se_occupied dst)) in
  let! egress := wr (egress_feature_to_session_id t)
                   (egress_index (se_key src) (se_value src)) (se_value src) in
  let! map := wr (s_feature_index_to_entry_map t) (se_value src) empty_index in
  let! dst := rd ents empty_index in
  let! ents := wr ents empty_index (session_set_occupied true dst) in
  Ok (SessionHashtable (s_num_entries t) ents map egress (flow_count t)).

Definition session_hashtable_remove_by_index (t : session_hashtable_t) (index : Z)
    : res session_hashtable_t :=
  let! e := rd (s_entries t) index in
  let! ents := wr (s_entries t) index (session_set_occupied false e) in
  let! ents := wr ents index (session_set_hash 0 (session_set_occupied false e)) in
  let! egress := wr (egress_feature_to_session_id t) (egress_index (se_key e) (se_value e)) (-1) in
  let! map := wr (s_feature_index_to_entry_map t) (se_value e) (-1) in
  backshift SESSION_HASHTABLE_SIZE s_entries
    session_move (SessionHashtable (u64 (s_num_entries t - 1)) ents map egress (flow_count t)) index.

(** The two guards "we don't really want to remove sessions that still have
    active flows". *)
Definition decrease_flow_count (t : session_hashtable_t) (value : Z)
    : res (bool * session_hashtable_t) :=
  if use_sessions then
    let! t' := add_flow_count t value (-1) in
    let! c := rd (flow_count t') value in
    Ok (negb (c =? 0), t')
  else Ok (false, t).

(** [value] is the content of [*value] at the call, read with sessions enabled;
    the second result is what is written to it. *)
Definition session_hashtable_remove_or_decrease_flow_count (t : session_hashtable_t)
    (key : five_tuple_t) (value : Z) : res (Z * option Z * session_hashtable_t) :=
  let! '(active, t) := decrease_flow_count t value in
  if (active : bool) then Ok (1, None, t)
  else
    let hash := session_hashtable_hash_key use_sessions key in
    let! '(status, index) := session_get_hashtable_index t key hash in
    if negb (status =? 0) then Ok (status, None, t)
    else
      let! e := rd (s_entries t) index in
      let! t' := session_hashtable_remove_by_index t index in
      Ok (0, Some (se_value e), t').

Definition session_hashtable_remove_or_decrease_flow_count_by_value (t : session_hashtable_t)
    (value : Z) : res (Z * option five_tuple_t * session_hashtable_t) :=
  let! '(active, t) := decrease_flow_count t value in
  if (active : bool) then Ok (1, None, t)
  else
    let! index := rd (s_feature_index_to_entry_map t) value in
    if index =? -1 then Ok (1, None, t)
    else
      let! e := rd (s_entries t) index in
      let! t' := session_hashtable_remove_by_index t index in
      Ok (0, Some (se_key e), t').
End operations.

(** [session_hashtable_copy]: the whole structure. *)
Definition session_hashtable_copy (t : session_hashtable_t) : session_hashtable_t := t.

(** ** Specification *)

(** [egress_feature_to_session_id] holds, at the feature index of the egress
    pipe, only ids of stored sessions. *)
Record egress_ok (ents : arr session_hashtable_entry_t) (egress : arr Z) : Prop := EgressOk {
  eg_len : alen egress = FEATURE_SIZE;
  eg_bounds : forall i, in_table SESSION_HASHTABLE_SIZE i -> se_occupied (aget ents i) = true ->
    0 <= egress_index (se_key (aget ents i)) (se_value (aget ents i)) < FEATURE_SIZE;
  eg_sound : forall j, 0 <= j < FEATURE_SIZE -> aget egress j <> -1 ->
    exists i, in_table SESSION_HASHTABLE_SIZE i /\ se_occupied (aget ents i) = true /\
      se_value (aget ents i) = aget egress j /\
      egress_index (se_key (aget ents i)) (se_value (aget ents i)) = j }.

Section representation.
Context (use_sessions : bool).
#[local] Hint Extern 0 (ProbeEntry session_hashtable_entry_t _) =>
  exact (session_probe_entry use_sessions) : typeclass_instances.

(** The table's own invariant. *)
Record session_inv (n : Z) (fc : arr Z) (t : session_hashtable_t) : Prop := SessionInv {
  si_num : s_num_entries t = n;
  si_index : index_ok SESSION_HASHTABLE_SIZE FEATURE_SIZE se_value (s_entries t)
               (s_feature_index_to_entry_map t);
  si_egress : egress_ok (s_entries t) (egress_feature_to_session_id t);
  si_count : flow_count t = fc }.

Record session_rep (fc : arr Z) (t : session_hashtable_t) (M : id_map) : Prop := SessionRep {
  sr_table : table_rep SESSION_HASHTABLE_SIZE (session_hash use_sessions) (s_entries t) M;
  sr_inv : session_inv (Z.of_nat (size M)) fc t }.
End representation.

(** What may be stored: an id and an egress feature index in range. *)
Definition session_storable (ft : five_tuple_t) (v : Z) : Prop :=
  0 <= v < FEATURE_SIZE /\ 0 <= egress_index ft v < FEATURE_SIZE.

Lemma session_size_pos : 0 < SESSION_HASHTABLE_SIZE < 2 ^ 31.
Proof. done. Qed.

(** ** Proofs *)

#[local] Opaque while session_hash SESSION_HASHTABLE_SIZE.

Section proofs.
Context (use_sessions : bool).
#[local] Hint Extern 0 (ProbeEntry session_hashtable_entry_t _) =>
  exact (session_probe_entry use_sessions) : typeclass_instances.
Implicit Types (ents : arr session_hashtable_entry_t) (egress : arr Z) (M : id_map).

Notation occupied ents i := (se_occupied (aget ents i)).
Notation eindex e := (egress_index (se_key e) (se_value e)).

Lemma egress_insert ents ents' egress i e :
  egress_ok ents egress -> in_table SESSION_HASHTABLE_SIZE i -> occupied ents i = false ->
  updated ents ents' i e -> se_occupied e = true -> 0 <= eindex e < FEATURE_SIZE ->
  egress_ok ents' (aset egress (eindex e) (se_value e)).
Proof using.
  intros [Hl Hb Hs] Hi Ho [_ Hg] Heo Hbe. split; [done| |].
  - intros j Hj. rewrite Hg. case_decide; [done|]. by apply Hb.
  - intros j Hj. rewrite aget_aset. case_decide as Ej.
    + intros _. exists i. by rewrite Hg, decide_True.
    + intros Hne. destruct (Hs j Hj Hne) as (x & Hx & Hox & Hvx & Hex). exists x.
      by rewrite Hg, decide_False by congruence.
Qed.

Lemma egress_remove ents ents' egress i e :
  egress_ok ents egress -> updated ents ents' i e -> se_occupied e = false ->
  egress_ok ents' (aset egress (eindex (aget ents i)) (-1)).
Proof using.
  intros [Hl Hb Hs] [_ Hg] Heo. split; [done| |].
  - intros j Hj. rewrite Hg. case_decide; [congruence|]. by apply Hb.
  - intros j Hj. rewrite aget_aset. case_decide as Ej; [done|].
    intros Hne. destruct (Hs j Hj Hne) as (x & Hx & Hox & Hvx & Hex). exists x.
    by rewrite Hg, decide_False by congruence.
Qed.

Lemma egress_move ents ents' egress i em :
  egress_ok ents egress -> in_table SESSION_HASHTABLE_SIZE i ->
  in_table SESSION_HASHTABLE_SIZE em -> i <> em ->
  occupied ents i = true -> occupied ents em = false -> moved ents ents' i em ->
  egress_ok ents' (aset egress (eindex (aget ents i)) (se_value (aget ents i))).
Proof using.
  intros [Hl Hb Hs] Hi Hem Hne Hoi Hoem (_ & Hi' & Hem' & _ & _ & Hv & Hj).
  unfold occ in *. simpl in *. injection Hv as Hk Hv. split; [done| |].
  - intros j Hjt Hoj. destruct (decide (j = em)) as [->|].
    + rewrite Hk, Hv. by apply Hb.
    + rewrite Hj in * by congruence. by apply Hb.
  - intros j Hjt. rewrite aget_aset. case_decide as Ej.
    + intros _. exists em. by rewrite Hk, Hv.
    + intros Hnz. destruct (Hs j Hjt Hnz) as (x & Hx & Hox & Hvx & Hex). exists x.
      rewrite Hj by congruence. done.
Qed.

Notation rep := (session_rep use_sessions).

Lemma session_rep_init fc : rep fc (session_hashtable_init fc) ∅.
Proof using.
  assert (forall i, occ (s_entries (session_hashtable_init fc)) i = false) as Ho
    by (intros i; unfold occ; simpl; by rewrite aget_amake).
  split; [split; [split|]|split].
  - done.
  - intros i _. by rewrite Ho.
  - intros i j _ _. by rewrite Ho.
  - intros k v. rewrite lookup_empty. split; [done|]. intros (i & _ & Hi & _). by rewrite Ho in Hi.
  - intros i j _. by rewrite Ho.
  - done.
  - split; [done| |].
    + intros i _. by rewrite Ho.
    + intros v _. left. apply aget_amake.
  - split; [done| |].
    + intros i _ Hi. unfold occ in Ho. simpl in Ho. by rewrite Ho in Hi.
    + intros j _. simpl. by rewrite aget_amake.
  - done.
Qed.

Lemma session_rep_size fc t M : rep fc t M -> Z.of_nat (size M) <= FEATURE_SIZE.
Proof using.
  intros [[He _] [_ Hix _ _]].
  exact (index_size _ _ se_value _ _ _ _ snd Hix He ltac:(done) (fun _ => eq_refl)).
Qed.

Lemma session_never_full fc t M : rep fc t M -> Z.of_nat (size M) < SESSION_HASHTABLE_SIZE.
Proof using.
  intros Hr. pose proof (session_rep_size fc t M Hr).
  assert (FEATURE_SIZE < SESSION_HASHTABLE_SIZE) by done. lia.
Qed.

Lemma session_free_slot fc t M :
  rep fc t M -> exists s, in_table SESSION_HASHTABLE_SIZE s /\ occ (s_entries t) s = false.
Proof using.
  intros Hr. exact (free_slot _ _ session_size_pos _ _ (tr_entries _ _ _ _ (sr_table _ _ _ _ Hr))
                      (session_never_full fc t M Hr)).
Qed.

Lemma session_find fc t M key :
  rep fc t M ->
  exists r, session_get_hashtable_index use_sessions t key
              (session_hashtable_hash_key use_sessions key) = Ok r /\
            found SESSION_HASHTABLE_SIZE (session_hash use_sessions) (s_entries t) M
              (session_key use_sessions key) r.
Proof using.
  intros Hr. destruct (session_free_slot fc t M Hr) as (s & Hs & Hos).
  exact (find_spec _ _ session_size_pos _ _ _ s (sr_table _ _ _ _ Hr) Hs Hos).
Qed.

Lemma session_slot_bounds fc t M i :
  rep fc t M -> in_table SESSION_HASHTABLE_SIZE i -> 0 <= i < alen (s_entries t).
Proof using. intros [[He _] _] Hi. by rewrite (eo_len _ _ _ _ He). Qed.

Lemma session_add_ok fc t M key v :
  rep fc t M -> M !! session_key use_sessions key = None -> session_storable key v ->
  id_free v M ->
  exists t', session_hashtable_add_or_increase_flow_count use_sessions t key v = Ok (0, t') /\
             rep fc t' (<[session_key use_sessions key := (key, v)]> M).
Proof using.
  intros Hr Hk [Hv Hev] Hfree. pose proof (session_rep_size fc t M Hr) as Hsz.
  destruct (session_find fc t M key Hr)
    as ([st i] & Hfi & Hi & [(_ & _ & _ & Ek)|(Est & Ho & _ & Hse)]);
    cbn [fst snd] in *; [congruence|subst st].
  pose proof (session_slot_bounds fc t M i Hr Hi) as Hb. pose proof Hr as [Ht [Hn Hix Heg Hfc]].
  unfold session_hashtable_add_or_increase_flow_count.
  assert ((s_num_entries t =? SESSION_HASHTABLE_SIZE) = false) as ->.
  { apply Z.eqb_neq. pose proof (session_never_full fc t M Hr). lia. }
  rewrite (probe_for_add_find _ _ _ _ _ Hfi). cbn [fst snd rbind Z.sub Z.eqb Z.add Z.opp Z.pos_sub].
  pose proof (ix_len _ _ _ _ _ Hix). pose proof (eg_len _ _ Heg). arr_goal.
  eexists. split; [reflexivity|].
  set (e := SessionEntry key v (session_hashtable_hash_key use_sessions key) true).
  match goal with |- context [aset (aset _ i ?o) i e] =>
    pose proof (updated_aset2 (s_entries t) i o e) as Hu end.
  split; [|split].
  - exact (insert_spec _ _ session_size_pos _ _ _ _ _ _ e Ht Hk Hse Ho Hu
             eq_refl eq_refl eq_refl eq_refl).
  - cbn [s_num_entries]. rewrite FEATURE_SIZE_val in *.
    rewrite map_size_insert_None, Hn, u64_small by (done || lia). lia.
  - refine (index_insert _ _ se_value _ _ _ _ e Hix Hi Ho Hu eq_refl Hv _).
    intros j Hj Hoj. cbn [se_value]. intros Ev.
    by apply (Hfree _ _ (key_of_slot _ _ _ _ _ (tr_entries _ _ _ _ Ht) Hj Hoj)).
  - exact (egress_insert _ _ _ _ e Heg Hi Ho Hu eq_refl Hev).
  - done.
Qed.

(** A key that is present: only the flow count changes. *)
Lemma session_add_present fc t M key v x :
  rep fc t M -> M !! session_key use_sessions key = Some x ->
  session_hashtable_add_or_increase_flow_count use_sessions t key v =
    if use_sessions then (let! t' := add_flow_count t v 1 in Ok (1, t')) else Ok (1, t).
Proof using.
  intros Hr Hk. unfold session_hashtable_add_or_increase_flow_count.
  pose proof Hr as [Ht [Hn Hix Heg Hfc]].
  assert ((s_num_entries t =? SESSION_HASHTABLE_SIZE) = false) as ->.
  { apply Z.eqb_neq. pose proof (session_never_full fc t M Hr). lia. }
  destruct (session_find fc t M key Hr)
    as ([st i] & Hfi & Hi & [(Est & Ho & _ & Ek)|(_ & _ & Ek & _)]);
    cbn [fst snd] in *; [subst st|congruence].
  by rewrite (probe_for_add_find _ _ _ _ _ Hfi).
Qed.

Lemma session_get_ok fc t M key :
  rep fc t M ->
  session_hashtable_get use_sessions t key =
    Ok (match M !! session_key use_sessions key with
        | Some x => (0, Some (snd x)) | None => (1, None) end).
Proof using.
  intros Hr. destruct (session_find fc t M key Hr) as ([st i] & Hfi & Hi & Hf).
  unfold session_hashtable_get. rewrite Hfi. cbn [rbind fst snd] in *.
  destruct Hf as [(-> & Ho & _ & ->)|(-> & Ho & -> & _)]; [|done].
  pose proof (session_slot_bounds fc t M i Hr Hi). simpl. by arr_goal.
Qed.

(** *** Flow counts *)

Lemma add_flow_count_ok fc t M v d :
  rep fc t M -> alen fc = FEATURE_SIZE -> 0 <= v < FEATURE_SIZE ->
  exists t', add_flow_count t v d = Ok t' /\ rep (aset fc v (i32 (aget fc v + d))) t' M /\
             flow_count t' = aset fc v (i32 (aget fc v + d)).
Proof using.
  intros [Ht [Hn Hix Heg Hfc]] Hl Hv. unfold add_flow_count. rewrite Hfc.
  arr_goal. eexists. split; [reflexivity|].
  split; [|done]. split; [exact Ht|]. by split.
Qed.

(** *** Removal *)

Lemma session_move_ok n fc t M i em :
  session_inv use_sessions n fc t ->
  entries_of SESSION_HASHTABLE_SIZE (session_hash use_sessions) (s_entries t) M ->
  in_table SESSION_HASHTABLE_SIZE i -> in_table SESSION_HASHTABLE_SIZE em -> i <> em ->
  occ (s_entries t) i = true -> occ (s_entries t) em = false ->
  exists t', session_move t i em = Ok t' /\ moved (s_entries t) (s_entries t') i em /\
             session_inv use_sessions n fc t'.
Proof using.
  intros [Hn Hix Heg Hfc] He Hi Hem Hne Hoi Hoem. pose proof (eo_len _ _ _ _ He) as Hl.
  pose proof (ix_len _ _ _ _ _ Hix). pose proof (ix_fwd _ _ _ _ _ Hix i Hi Hoi) as [Hv _].
  pose proof (eg_len _ _ Heg). pose proof (eg_bounds _ _ Heg i Hi Hoi) as Hev.
  unfold in_table in Hi, Hem. unfold session_move. arr_goal.
  cbn [se_value se_key se_hash se_occupied session_set_occupied]. arr_goal.
  eexists. split; [reflexivity|]. cbn [s_entries].
  match goal with |- moved _ ?ents _ _ /\ _ =>
    assert (moved (s_entries t) ents i em) as Hm end.
  { split; [done|]. unfold occ. arr_goal. split_and!; try done.
    intros j ??. by rewrite !aget_aset_ne by congruence. }
  split; [done|]. split; [done| | |done].
  - refine (index_move _ _ se_value _ _ _ _ _ Hix Hi Hem Hne Hoi Hoem Hm _). by arr_goal.
  - exact (egress_move _ _ _ _ _ Heg Hi Hem Hne Hoi Hoem Hm).
Qed.

Lemma session_remove_by_index_ok fc t M i :
  rep fc t M -> in_table SESSION_HASHTABLE_SIZE i -> occ (s_entries t) i = true ->
  exists t', session_hashtable_remove_by_index use_sessions t i = Ok t' /\
    rep fc t' (delete (session_key use_sessions (se_key (aget (s_entries t) i))) M).
Proof using.
  intros Hr Hi Ho. destruct (session_free_slot fc t M Hr) as (s & Hs & Hos).
  pose proof (session_slot_bounds fc t M i Hr Hi). pose proof (session_rep_size fc t M Hr) as Hsz.
  pose proof Hr as [Ht [Hn Hix Heg Hfc]]. pose proof (ix_len _ _ _ _ _ Hix).
  pose proof (ix_fwd _ _ _ _ _ Hix i Hi Ho) as [Hv _].
  pose proof (eg_len _ _ Heg). pose proof (eg_bounds _ _ Heg i Hi Ho) as Hev.
  pose proof (key_of_slot _ _ _ _ _ (tr_entries _ _ _ _ Ht) Hi Ho) as Hk.
  unfold session_hashtable_remove_by_index. arr_goal.
  set (e0 := session_set_hash 0 (session_set_occupied false (aget (s_entries t) i))).
  match goal with |- context [aset (aset _ i ?o) i e0] =>
    pose proof (updated_aset2 (s_entries t) i o e0) as Hu end.
  destruct (gap_inv_start _ _ session_size_pos _ _ _ _ _ _ Ht Hs Hos Hi Ho Hu eq_refl) as [Hg Hsc].
  pose proof (index_remove _ _ se_value _ _ _ _ _ Hix Hi Ho Hu eq_refl) as Hix'.
  pose proof (egress_remove _ _ _ _ _ Heg Hu eq_refl) as Heg'.
  assert (0 < size M)%nat.
  { destruct (size M) eqn:Es; [|lia]. apply map_size_empty_inv in Es as ->.
    by rewrite lookup_empty in Hk. }
  match goal with |- exists t', backshift _ _ _ ?t0 i = _ /\ _ =>
    destruct (backshift_spec _ _ session_size_pos s_entries session_move
                (session_inv use_sessions (s_num_entries t0) fc) (session_move_ok _ _) t0 _ s i Hg Hsc)
      as (t' & -> & Ht' & Hi') end; [by split|].
  exists t'. split; [done|]. split; [exact Ht'|]. destruct Hi' as [Hn' ???]. split; [|done..].
  rewrite Hn'. cbn [s_num_entries].
  rewrite map_size_delete_Some by eauto. rewrite FEATURE_SIZE_val in *.
  rewrite u64_small; lia.
Qed.

Lemma session_remove_ok fc t M key v t1 :
  decrease_flow_count use_sessions t v = Ok (false, t1) -> rep fc t1 M ->
  match M !! session_key use_sessions key with
  | Some x => exists t',
      session_hashtable_remove_or_decrease_flow_count use_sessions t key v =
        Ok (0, Some (snd x), t') /\ rep fc t' (delete (session_key use_sessions key) M)
  | None => session_hashtable_remove_or_decrease_flow_count use_sessions t key v = Ok (1, None, t1)
  end.
Proof using.
  intros Hd Hr. destruct (session_find fc t1 M key Hr) as ([st i] & Hfi & Hi & Hf).
  unfold session_hashtable_remove_or_decrease_flow_count.
  rewrite Hd. cbn [rbind]. rewrite Hfi. cbn [rbind fst snd] in *.
  destruct Hf as [(-> & Ho & Hk & ->)|(-> & Ho & -> & _)]; [|done].
  pose proof (session_slot_bounds fc t1 M i Hr Hi). simpl. arr_goal.
  destruct (session_remove_by_index_ok fc t1 M i Hr Hi Ho) as (t' & -> & Hr'). simpl.
  exists t'. split; [done|]. by rewrite <- Hk.
Qed.

Lemma session_remove_by_value_ok fc t M v t1 :
  decrease_flow_count use_sessions t v = Ok (false, t1) -> rep fc t1 M ->
  0 <= v < FEATURE_SIZE ->
  (exists ft t', M !! session_key use_sessions ft = Some (ft, v) /\
     session_hashtable_remove_or_decrease_flow_count_by_value use_sessions t v =
       Ok (0, Some ft, t') /\ rep fc t' (delete (session_key use_sessions ft) M)) \/
  (id_free v M /\
   session_hashtable_remove_or_decrease_flow_count_by_value use_sessions t v = Ok (1, None, t1)).
Proof using.
  intros Hd Hr Hv. pose proof Hr as [[He _] [_ Hix _ _]]. pose proof (ix_len _ _ _ _ _ Hix).
  unfold session_hashtable_remove_or_decrease_flow_count_by_value.
  rewrite Hd. cbn [rbind]. rewrite rd_ok by lia. cbn [rbind].
  destruct (ix_bwd _ _ _ _ _ Hix v Hv) as [Em|(Hi & Ho & Ev)].
  - right. rewrite Em. split; [|done]. intros k x Hk Es.
    apply (eo_lookup _ _ _ _ He) in Hk as (i & Hi & Hoi & _ & <-). simpl in Es.
    destruct (ix_fwd _ _ _ _ _ Hix i Hi Hoi) as [_ Ei].
    rewrite Es, Em in Ei. unfold in_table in Hi. lia.
  - left. set (i := aget (s_feature_index_to_entry_map t1) v) in *.
    assert ((i =? -1) = false) as -> by (apply Z.eqb_neq; unfold in_table in Hi; lia).
    pose proof (session_slot_bounds fc t1 M i Hr Hi). arr_goal.
    destruct (session_remove_by_index_ok fc t1 M i Hr Hi Ho) as (t' & -> & Hr'). simpl.
    exists (se_key (aget (s_entries t1) i)), t'. split; [|done].
    pose proof (key_of_slot _ _ _ _ _ He Hi Ho) as Hk. simpl in Hk. by rewrite Ev in Hk.
Qed.

(** *** Facts about stored sessions *)

Lemma session_key_of fc t M k x :
  rep fc t M -> M !! k = Some x -> k = session_key use_sessions (fst x).
Proof using.
  intros [[He _] _] Hk. by apply (eo_lookup _ _ _ _ He) in Hk as (i & _ & _ & <- & <-).
Qed.

Lemma session_ids_distinct fc t M k1 k2 x1 x2 :
  rep fc t M -> M !! k1 = Some x1 -> M !! k2 = Some x2 -> snd x1 = snd x2 -> k1 = k2.
Proof using.
  intros [[He _] [_ Hix _ _]] H1 H2 E.
  apply (eo_lookup _ _ _ _ He) in H1 as (i & Hi & Hoi & Hki & Hvi).
  apply (eo_lookup _ _ _ _ He) in H2 as (j & Hj & Hoj & Hkj & Hvj).
  assert (i = j); [|congruence].
  refine (index_ok_inj _ _ se_value _ _ i j Hix Hi Hj Hoi Hoj _).
  rewrite <- Hvi, <- Hvj in E. exact E.
Qed.

Lemma session_stored fc t M k x :
  rep fc t M -> M !! k = Some x -> session_storable (fst x) (snd x).
Proof using.
  intros [[He _] [_ Hix Heg _]] Hk.
  apply (eo_lookup _ _ _ _ He) in Hk as (i & Hi & Hoi & _ & <-). split.
  - by destruct (ix_fwd _ _ se_value _ _ Hix i Hi Hoi).
  - exact (eg_bounds _ _ Heg i Hi Hoi).
Qed.

(** What stands in [egress_feature_to_session_id] is the id of the stored session
    whose egress index is there. *)
Lemma session_egress fc t M j :
  rep fc t M -> 0 <= j < FEATURE_SIZE -> aget (egress_feature_to_session_id t) j <> -1 ->
  exists k x, M !! k = Some x /\ snd x = aget (egress_feature_to_session_id t) j /\ egress_index (fst x) (snd x) = j.
Proof using.
  intros [[He _] [_ _ Heg _]] Hj Hne. destruct (eg_sound _ _ Heg j Hj Hne) as (i & Hi & Hoi & Ev & Ei).
  exists (session_key use_sessions (se_key (aget (s_entries t) i))), (se_key (aget (s_entries t) i), se_value (aget (s_entries t) i)).
  split; [|done]. exact (key_of_slot _ _ _ _ _ He Hi Hoi).
Qed.

Lemma session_egress_length fc t M : rep fc t M -> alen (egress_feature_to_session_id t) = FEATURE_SIZE.
Proof using. intros [_ [_ _ Heg _]]. apply Heg. Qed.
End proofs.

(** ** The interface, with sessions disabled *)

#[export] Instance session_id_table : IdTable session_hashtable_t := {
  it_key := session_key false;
  it_storable := session_storable;
  it_add := session_hashtable_add_or_increase_flow_count false;
  it_get := session_hashtable_get false;
  it_remove t key := session_hashtable_remove_or_decrease_flow_count false t key 0;
  it_remove_by_value := session_hashtable_remove_or_decrease_flow_count_by_value false;
  it_rep t M := session_rep false (flow_count t) t M /\ alen (flow_count t) = FEATURE_SIZE }.

Lemma session_rep_count us fc t M : session_rep us fc t M -> flow_count t = fc.
Proof. by intros [_ [_ _ _ ?]]. Qed.

#[export] Instance session_id_table_laws : IdTableLaws session_hashtable_t.
Proof.
  split; cbn [it_key it_storable it_add it_get it_remove it_remove_by_value it_rep
              session_id_table].
  - intros t M ft v [Hr Hc] Hk Hst Hf.
    destruct (session_add_ok false _ t M ft v Hr Hk Hst Hf) as (t' & -> & Hr').
    exists t'. by rewrite (session_rep_count _ _ _ _ Hr').
  - intros t M ft v x [Hr Hc] Hk. by rewrite (session_add_present false _ t M ft v x Hr Hk).
  - intros t M ft [Hr _]. by apply (session_get_ok _ _ _ _ _ Hr).
  - intros t M ft [Hr Hc]. pose proof (session_remove_ok false _ t M ft 0 t eq_refl Hr) as Hrm.
    destruct (M !! session_key false ft); [|done]. destruct Hrm as (t' & E & Hr'). exists t'.
    by rewrite (session_rep_count _ _ _ _ Hr').
  - intros t M v [Hr Hc] Hv.
    destruct (session_remove_by_value_ok false _ t M v t eq_refl Hr Hv)
      as [(ft & t' & ? & ? & Hr')|?]; [left|by right].
    exists ft, t'. by rewrite (session_rep_count _ _ _ _ Hr').
  - intros t M k x [Hr _]. by eapply session_key_of.
  - intros t M k x [Hr _]. by eapply session_stored.
  - intros t M k1 k2 x1 x2 [Hr _]. by eapply session_ids_distinct.
Qed.

(** ** Specification with flow counts *)

Inductive session_op : Type :=
  | SAdd (ft : five_tuple_t) (v : Z)
  | SGet (ft : five_tuple_t)
  | SRemove (ft : five_tuple_t) (v : Z)
  | SRemoveByValue (v : Z).

Section counted.
Context (use_sessions : bool).

Definition session_exec (t : session_hashtable_t) (op : session_op)
    : res (id_out * session_hashtable_t) :=
  match op with
  | SAdd ft v =>
      let! '(r, t') := session_hashtable_add_or_increase_flow_count use_sessions t ft v in
      Ok (OutStatus r, t')
  | SGet ft => let! '(r, v) := session_hashtable_get use_sessions t ft in Ok (OutId r v, t)
  | SRemove ft v =>
      let! '(r, o, t') := session_hashtable_remove_or_decrease_flow_count use_sessions t ft v in
      Ok (OutId r o, t')
  | SRemoveByValue v =>
      let! '(r, o, t') :=
        session_hashtable_remove_or_decrease_flow_count_by_value use_sessions t v in
      Ok (OutTuple r o, t')
  end.

Fixpoint session_run (t : session_hashtable_t) (ops : list session_op)
    : res (list id_out * session_hashtable_t) :=
  match ops with
  | [] => Ok ([], t)
  | op :: ops' =>
      let! '(o, t1) := session_exec t op in
      let! '(os, t2) := session_run t1 ops' in
      Ok (o :: os, t2)
  end.

(** The abstract state: the map of the sessions and their counts. *)
Definition counted : Type := (id_map * arr Z)%type.

Definition bump (fc : arr Z) (v d : Z) : arr Z := aset fc v (i32 (aget fc v + d)).

(** With sessions enabled a removal first decrements, and goes on at zero. *)
Definition counted_remove (s : counted) (v : Z) (fail : id_out)
    (k : counted -> id_out * counted) : id_out * counted :=
  if use_sessions then
    let fc := bump (snd s) v (-1) in
    if aget fc v =? 0 then k (fst s, fc) else (fail, (fst s, fc))
  else k s.

Definition counted_exec (s : counted) (op : session_op) : id_out * counted :=
  match op with
  | SAdd ft v =>
      match fst s !! session_key use_sessions ft with
      | Some _ => (OutStatus 1, if use_sessions then (fst s, bump (snd s) v 1) else s)
      | None => (OutStatus 0, (<[session_key use_sessions ft := (ft, v)]> (fst s), snd s))
      end
  | SGet ft =>
      match fst s !! session_key use_sessions ft with
      | Some x => (OutId 0 (Some (snd x)), s)
      | None => (OutId 1 None, s)
      end
  | SRemove ft v =>
      counted_remove s v (OutId 1 None) (fun s =>
        match fst s !! session_key use_sessions ft with
        | Some x => (OutId 0 (Some (snd x)), (delete (session_key use_sessions ft) (fst s), snd s))
        | None => (OutId 1 None, s)
        end)
  | SRemoveByValue v =>
      counted_remove s v (OutTuple 1 None) (fun s =>
        match id_owner (fst s) v with
        | Some ft => (OutTuple 0 (Some ft), (delete (session_key use_sessions ft) (fst s), snd s))
        | None => (OutTuple 1 None, s)
        end)
  end.

Fixpoint counted_run (s : counted) (ops : list session_op) : list id_out * counted :=
  match ops with
  | [] => ([], s)
  | op :: ops' =>
      let '(o, s1) := counted_exec s op in
      let '(os, s2) := counted_run s1 ops' in
      (o :: os, s2)
  end.

Definition session_op_allowed (s : counted) (op : session_op) : Prop :=
  match op with
  | SAdd ft v =>
      session_storable ft v /\ (fst s !! session_key use_sessions ft = None -> id_owner (fst s) v = None)
  | SRemove _ v | SRemoveByValue v => 0 <= v < FEATURE_SIZE
  | SGet _ => True
  end.

Fixpoint session_ops_allowed (s : counted) (ops : list session_op) : Prop :=
  match ops with
  | [] => True
  | op :: ops' => session_op_allowed s op /\ session_ops_allowed (snd (counted_exec s op)) ops'
  end.

Definition counted_rep (t : session_hashtable_t) (s : counted) : Prop :=
  session_rep use_sessions (snd s) t (fst s) /\ alen (snd s) = FEATURE_SIZE.

Lemma session_owner fc t M k ft v :
  session_rep use_sessions fc t M -> M !! k = Some (ft, v) -> id_owner M v = Some ft.
Proof using.
  intros Hr. apply id_owner_intro. intros k1 k2 x1 x2. by apply (session_ids_distinct use_sessions fc t).
Qed.
End counted.

Lemma decrease_ok us t s v :
  counted_rep us t s -> 0 <= v < FEATURE_SIZE ->
  exists t1, decrease_flow_count us t v =
      Ok (us && negb (aget (bump (snd s) v (-1)) v =? 0), t1) /\
    counted_rep us t1 (fst s, if us then bump (snd s) v (-1) else snd s).
Proof.
  intros [Hr Hl] Hv. unfold decrease_flow_count. destruct us; [|by exists t].
  destruct (add_flow_count_ok _ _ _ _ v (-1) Hr Hl Hv) as (t1 & -> & Hr1 & Hfc).
  cbn [rbind]. rewrite Hfc, rd_ok by (simpl; lia). by exists t1.
Qed.

(** The rest of the two removals, once the guard lets them through. *)
Lemma counted_remove_refines us t t1 s v ft :
  decrease_flow_count us t v = Ok (false, t1) -> counted_rep us t1 s ->
  exists t', session_exec us t (SRemove ft v) = Ok (fst (match fst s !! session_key us ft with
      | Some x => (OutId 0 (Some (snd x)), (delete (session_key us ft) (fst s), snd s))
      | None => (OutId 1 None, s) end), t') /\
    counted_rep us t' (snd (match fst s !! session_key us ft with
      | Some x => (OutId 0 (Some (snd x)), (delete (session_key us ft) (fst s), snd s))
      | None => (OutId 1 None, s) end)).
Proof.
  intros Hd Hr. pose proof (session_remove_ok _ _ _ _ ft v t1 Hd (proj1 Hr)) as Hrm.
  cbn [session_exec]. destruct (fst s !! session_key us ft).
  - destruct Hrm as (t' & -> & Hr'). exists t'. split; [done|]. split; [done|apply Hr].
  - rewrite Hrm. by exists t1.
Qed.

Lemma counted_remove_by_value_refines us t t1 s v :
  decrease_flow_count us t v = Ok (false, t1) -> counted_rep us t1 s -> 0 <= v < FEATURE_SIZE ->
  exists t', session_exec us t (SRemoveByValue v) = Ok (fst (match id_owner (fst s) v with
      | Some ft => (OutTuple 0 (Some ft), (delete (session_key us ft) (fst s), snd s))
      | None => (OutTuple 1 None, s) end), t') /\
    counted_rep us t' (snd (match id_owner (fst s) v with
      | Some ft => (OutTuple 0 (Some ft), (delete (session_key us ft) (fst s), snd s))
      | None => (OutTuple 1 None, s) end)).
Proof.
  intros Hd Hr Hv. cbn [session_exec].
  destruct (session_remove_by_value_ok _ _ _ _ v t1 Hd (proj1 Hr) Hv) as [(ft & t' & Hk & -> & Hr')|[Hf ->]].
  - exists t'. rewrite (session_owner _ _ _ _ _ _ _ (proj1 Hr) Hk).
    split; [done|]. split; [done|apply Hr].
  - exists t1. by rewrite (id_free_owner _ _ Hf).
Qed.

Lemma counted_exec_refines us t s op :
  counted_rep us t s -> session_op_allowed us s op ->
  exists t', session_exec us t op = Ok (fst (counted_exec us s op), t') /\
             counted_rep us t' (snd (counted_exec us s op)).
Proof.
  intros Hr Hop. pose proof Hr as [Hr' Hl].
  destruct op as [ft v|ft|ft v|v]; cbn [counted_exec session_op_allowed] in *.
  - destruct Hop as [Hst Hfree]. cbn [session_exec].
    destruct (fst s !! session_key us ft) as [x|] eqn:Ek.
    + rewrite (session_add_present _ _ _ _ _ _ _ Hr' Ek). destruct us; [|by exists t].
      destruct (add_flow_count_ok _ _ _ _ v 1 Hr' Hl (proj1 Hst)) as (t' & -> & Hr1 & _).
      by exists t'.
    + destruct (session_add_ok _ _ _ _ _ _ Hr' Ek Hst (id_owner_free _ _ (Hfree eq_refl)))
        as (t' & -> & ?). by exists t'.
  - exists t. cbn [session_exec]. rewrite (session_get_ok _ _ _ _ _ Hr').
    by destruct (fst s !! session_key us ft).
  - destruct (decrease_ok us t s v Hr Hop) as (t1 & Hd & Hr1). unfold counted_remove.
    destruct us; [destruct (_ =? 0)|]; cbn [negb andb] in Hd.
    + by apply (counted_remove_refines _ t t1).
    + exists t1. cbn [session_exec]. unfold session_hashtable_remove_or_decrease_flow_count.
      by rewrite Hd.
    + apply (counted_remove_refines _ t t1); [done|]. by destruct s.
  - destruct (decrease_ok us t s v Hr Hop) as (t1 & Hd & Hr1). unfold counted_remove.
    destruct us; [destruct (_ =? 0)|]; cbn [negb andb] in Hd.
    + by apply (counted_remove_by_value_refines _ t t1).
    + exists t1. cbn [session_exec].
      unfold session_hashtable_remove_or_decrease_flow_count_by_value. by rewrite Hd.
    + apply (counted_remove_by_value_refines _ t t1); [done| |done]. by destruct s.
Qed.

Section counted_runs.
Context (use_sessions : bool).
Notation session_run := (session_run use_sessions).
Notation counted_run := (counted_run use_sessions).
Notation counted_rep := (counted_rep use_sessions).
Notation session_ops_allowed := (session_ops_allowed use_sessions).

Lemma counted_run_refines t s ops :
  counted_rep t s -> session_ops_allowed s ops ->
  exists t', session_run t ops = Ok (fst (counted_run s ops), t') /\
             counted_rep t' (snd (counted_run s ops)).
Proof using.
  revert t s. induction ops as [|op ops IH]; intros t s Hr Hops;
    cbn [session_run counted_run session_ops_allowed] in *; [by exists t|].
  destruct Hops as [Hop Hops].
  destruct (counted_exec_refines _ t s op Hr Hop) as (t1 & -> & Hr1).
  destruct (counted_exec use_sessions s op) as [o s1]. cbn [fst snd rbind] in *.
  destruct (IH t1 s1 Hr1 Hops) as (t2 & -> & Hr2). exists t2. cbn [rbind].
  by destruct (counted_run s1 ops).
Qed.
End counted_runs.

(** ** Sessions with one flow too few *)

(** A counter that starts at zero is one behind the number of flows. *)
Lemma i32_small z : - 2 ^ 31 <= z < 2 ^ 31 -> i32 z = z.
Proof. intros. unfold i32. rewrite Z.mod_small; lia. Qed.

Section early_removal.
Context (ft : five_tuple_t) (v : Z) (M : id_map).
Notation k := (session_key true ft).
Context (present : M !! k = Some (ft, v)).

Lemma counted_adds n fc :
  0 <= aget fc v -> aget fc v + Z.of_nat n < 2 ^ 31 ->
  exists fc', snd (counted_run true (M, fc) (repeat (SAdd ft v) n)) = (M, fc') /\
              aget fc' v = aget fc v + Z.of_nat n /\ alen fc' = alen fc.
Proof using present.
  revert fc. induction n as [|n IH]; intros fc H0 Hn; [exists fc; simpl; split_and!; [done|lia|done]|].
  cbn [repeat counted_run counted_exec fst snd]. rewrite present.
  destruct (IH (bump fc v 1)) as (fc' & E & Ev & El).
  - unfold bump. rewrite aget_aset_eq, i32_small; lia.
  - unfold bump. rewrite aget_aset_eq, i32_small; lia.
  - exists fc'. destruct (counted_run true _ _). simpl in *. split; [done|].
    rewrite Ev, El. unfold bump. rewrite aget_aset_eq, i32_small by lia. split; [lia|done].
Qed.

Lemma counted_adds_allowed n fc :
  session_storable ft v -> session_ops_allowed true (M, fc) (repeat (SAdd ft v) n).
Proof using present.
  intros Hst. revert fc. induction n as [|n IH]; intros fc; [done|].
  cbn [repeat session_ops_allowed session_op_allowed counted_exec fst snd].
  rewrite present. cbn [fst snd]. split; [by split|apply IH].
Qed.

(** As long as the counter does not reach zero the session stays. *)
Lemma counted_removes n fc :
  Z.of_nat n < aget fc v < 2 ^ 31 ->
  exists fc', counted_run true (M, fc) (repeat (SRemove ft v) n) =
                (repeat (OutId 1 None) n, (M, fc')) /\
              aget fc' v = aget fc v - Z.of_nat n /\ alen fc' = alen fc.
Proof using present.
  revert fc. induction n as [|n IH]; intros fc Hn; [exists fc; simpl; split_and!; [done|lia|done]|].
  cbn [repeat counted_run counted_exec fst snd]. unfold counted_remove. cbn [fst snd].
  assert (aget (bump fc v (-1)) v = aget fc v - 1) as Hb
    by (unfold bump; rewrite aget_aset_eq, i32_small; lia).
  rewrite Hb. assert ((aget fc v - 1 =? 0) = false) as -> by (apply Z.eqb_neq; lia).
  destruct (IH (bump fc v (-1))) as (fc' & E & Ev & El); [lia|].
  rewrite E. exists fc'. split; [done|]. rewrite Ev, El, Hb. split; [lia|done].
Qed.
End early_removal.

Lemma counted_run_app us s l1 l2 :
  counted_run us s (l1 ++ l2) =
  let '(o1, s1) := counted_run us s l1 in
  let '(o2, s2) := counted_run us s1 l2 in (o1 ++ o2, s2).
Proof.
  revert s. induction l1 as [|op l1 IH]; intros s; cbn [app counted_run].
  - by destruct (counted_run us s l2).
  - destruct (counted_exec us s op) as [o s1]. rewrite IH.
    destruct (counted_run us s1 l1) as [o1 s2]. by destruct (counted_run us s2 l2).
Qed.

Lemma session_ops_allowed_app us s l1 l2 :
  session_ops_allowed us s (l1 ++ l2) <->
  session_ops_allowed us s l1 /\ session_ops_allowed us (snd (counted_run us s l1)) l2.
Proof.
  revert s. induction l1 as [|op l1 IH]; intros s; cbn [app counted_run session_ops_allowed].
  - simpl. tauto.
  - rewrite IH. destruct (counted_exec us s op) as [o s1]; cbn [fst snd].
    destruct (counted_run us s1 l1) as [o1 s2]; cbn [fst snd]. tauto.
Qed.

Lemma session_ops_allowed_repeat us s op n :
  (forall s', session_op_allowed us s' op) -> session_ops_allowed us s (repeat op n).
Proof. intros H. revert s. induction n; intros s; simpl; auto. Qed.

Lemma counted_rep_init us fc :
  alen fc = FEATURE_SIZE -> counted_rep us (session_hashtable_init fc) (∅, fc).
Proof. intros. split; [apply session_rep_init|done]. Qed.

Lemma counted_early_removal (ft : five_tuple_t) (v : Z) (n : nat) fc :
  aget fc v = 0 -> session_storable ft v -> (0 < n)%nat -> Z.of_nat n < 2 ^ 31 ->
  let ops := SAdd ft v :: repeat (SAdd ft v) n ++ repeat (SRemove ft v) (n - 1) ++
             [SRemove ft v; SGet ft] in
  session_ops_allowed true (∅, fc) ops /\
  exists os, fst (counted_run true (∅, fc) ops) = os ++ [OutId 0 (Some v); OutId 1 None].
Proof.
  intros H0 Hst Hn Hmax ops. set (k := session_key true ft).
  pose proof (lookup_insert_eq (∅ : id_map) k (ft, v)) as Hpres.
  set (M := <[k := (ft, v)]> (∅ : id_map)) in *.
  destruct (counted_adds ft v M Hpres n fc) as (fc2 & E2 & Hc2 & _); [lia|lia|].
  destruct (counted_removes ft v M Hpres (n - 1) fc2) as (fc3 & E3 & Hc3 & _); [lia|].
  assert (aget (bump fc3 v (-1)) v = 0) as Hz
    by (unfold bump; rewrite aget_aset_eq, i32_small; lia).
  subst ops. cbn [counted_run session_ops_allowed counted_exec fst snd].
  rewrite lookup_empty. fold k. fold M. cbn [fst snd]. split.
  - split; [split; [done|]; by intros _|].
    rewrite session_ops_allowed_app, E2, session_ops_allowed_app, E3. cbn [snd].
    split; [by apply (counted_adds_allowed ft v M Hpres)|].
    split; [apply session_ops_allowed_repeat; intros s'; apply Hst|].
    split; [apply Hst|done].
  - rewrite counted_run_app. destruct (counted_run true (M, fc) (repeat (SAdd ft v) n)) as [o2 s2].
    cbn [snd] in E2. subst s2. rewrite counted_run_app, E3.
    cbn [counted_run counted_exec]. unfold counted_remove. cbn [fst snd].
    rewrite Hz. cbn [Z.eqb]. fold k. rewrite Hpres. cbn [fst snd]. rewrite lookup_delete_eq.
    exists (OutStatus 0 :: o2 ++ repeat (OutId 1 None) (n - 1)). cbn [fst app].
    by rewrite <- app_assoc.
Qed.

(** ** Properties *)

(** Claim C8. In both modes any sequence of calls of the session hash table that
    stores each id at most once returns exactly what a finite map of the sessions
    with an array of flow counts returns: with sessions enabled an insertion of a
    known session increments the count of the given id and reports 1, a removal
    first decrements and goes on to delete only when the count is then zero; with
    sessions disabled the counts play no part. No access is out of bounds, and
    the egress index only ever names stored sessions. *)
Theorem session_hashtable_refines_counted_map us fc ops :
  alen fc = FEATURE_SIZE -> session_ops_allowed us (∅, fc) ops ->
  exists t', session_run us (session_hashtable_init fc) ops =
               Ok (fst (counted_run us (∅, fc) ops), t') /\
             counted_rep us t' (snd (counted_run us (∅, fc) ops)).
Proof. intros Hl Hops. apply counted_run_refines; auto using counted_rep_init. Qed.

Definition sample_session (a : Z) : five_tuple_t :=
  FiveTuple zero_h (FiveTupleForSessionHash a true) 7 0 1.

Lemma session_hashtable_refines_counted_map_witness :
  let ops := [SAdd (sample_session 5) 4; SAdd (sample_session 5) 4; SAdd (sample_session 5) 4;
              SGet (sample_session 5); SRemove (sample_session 5) 4; SRemoveByValue 4;
              SGet (sample_session 5)] in
  let fc := amake FEATURE_SIZE 0 in
  fst (counted_run true (∅, fc) ops) =
    [OutStatus 0; OutStatus 1; OutStatus 1; OutId 0 (Some 4); OutId 1 None;
     OutTuple 0 (Some (sample_session 5)); OutId 1 None] /\
  exists t', session_run true (session_hashtable_init fc) ops =
               Ok (fst (counted_run true (∅, fc) ops), t') /\
             counted_rep true t' (snd (counted_run true (∅, fc) ops)).
Proof.
  intros ops fc. split; [vm_compute; reflexivity|].
  apply session_hashtable_refines_counted_map; [reflexivity|].
  vm_compute. repeat split; try discriminate; auto.
Defined.

(** Claim C35. The count of a session is one behind its number of flows, since
    the first insertion does not set it: of a session of [n + 1] flows, the [n]th
    removal already deletes the session, while one flow is still active. *)
Theorem session_removed_with_a_flow_left (ft : five_tuple_t) (v : Z) (n : nat) fc :
  alen fc = FEATURE_SIZE -> aget fc v = 0 -> session_storable ft v ->
  (0 < n)%nat -> Z.of_nat n < 2 ^ 31 ->
  exists os t', session_run true (session_hashtable_init fc)
      (repeat (SAdd ft v) (S n) ++ repeat (SRemove ft v) (n - 1) ++ [SRemove ft v; SGet ft]) =
    Ok (os ++ [OutId 0 (Some v); OutId 1 None], t').
Proof.
  intros Hl H0 Hst Hn Hmax. destruct (counted_early_removal ft v n fc H0 Hst Hn Hmax) as (Ha & os & E).
  destruct (counted_run_refines true _ _ _ (counted_rep_init true fc Hl) Ha) as (t' & R & _).
  exists os, t'. rewrite <- E. exact R.
Qed.

Lemma session_removed_with_a_flow_left_witness :
  exists os t', session_run true (session_hashtable_init (amake FEATURE_SIZE 0))
      (repeat (SAdd (sample_session 5) 4) 2 ++ repeat (SRemove (sample_session 5) 4) (1 - 1) ++
       [SRemove (sample_session 5) 4; SGet (sample_session 5)]) =
    Ok (os ++ [OutId 0 (Some 4); OutId 1 None], t').
Proof.
  apply (session_removed_with_a_flow_left (sample_session 5) 4 1 (amake FEATURE_SIZE 0));
    try reflexivity; try lia. vm_compute. repeat split; congruence.
Defined.

(** A session of a single flow is never removed: its count goes from 0
    to -1, and the removal of its only flow reports that flows are active. *)
Theorem single_flow_session_stays (ft : five_tuple_t) (v : Z) fc :
  alen fc = FEATURE_SIZE -> aget fc v = 0 -> session_storable ft v ->
  exists t', session_run true (session_hashtable_init fc) [SAdd ft v; SRemove ft v; SGet ft] =
    Ok ([OutStatus 0; OutId 1 None; OutId 0 (Some v)], t') /\ aget (flow_count t') v = -1.
Proof.
  intros Hl H0 Hst. set (k := session_key true ft).
  destruct (counted_run_refines true (session_hashtable_init fc) (∅, fc)
              [SAdd ft v; SRemove ft v; SGet ft]) as (t' & R & Hr).
  { by apply counted_rep_init. }
  { split; [split; [done|]; intros _; reflexivity|]. split; [apply Hst|]. done. }
  assert (aget (bump fc v (-1)) v = -1) as Hz
    by (unfold bump; rewrite aget_aset_eq, H0; reflexivity).
  cbn [counted_run counted_exec fst snd] in R, Hr. unfold counted_remove in R, Hr.
  fold k in R, Hr. rewrite lookup_empty in R, Hr. cbn [fst snd] in R, Hr.
  rewrite Hz in R, Hr. cbn [Z.eqb fst snd] in R, Hr. rewrite lookup_insert_eq in R, Hr.
  exists t'. split; [exact R|]. destruct Hr as [Hr _].
  rewrite (session_rep_count _ _ _ _ Hr). exact Hz.
Qed.

Lemma single_flow_session_stays_witness :
  exists t', session_run true (session_hashtable_init (amake FEATURE_SIZE 0))
      [SAdd (sample_session 5) 4; SRemove (sample_session 5) 4; SGet (sample_session 5)] =
    Ok ([OutStatus 0; OutId 1 None; OutId 0 (Some 4)], t') /\ aget (flow_count t') 4 = -1.
Proof.
  apply (single_flow_session_stays (sample_session 5) 4 (amake FEATURE_SIZE 0));
    try reflexivity. vm_compute. repeat split; congruence.
Defined.
