(* ===== verification/DnsTable.v ===== *)
(** * DNS hash table ([datastructures/dns_hashtable.c], [dns_hashtable.h])

    Maps an address to the second until which the packet handler treats it as
    relevant. In contrast to the other two tables it has no reverse index, an
    insertion overwrites the value of a present key, and nothing bounds its
    number of entries below its number of slots. *)

From S2P Require Import Prelude Structs Murmur Probe IndexMap.

(** [dns_hashtable_key_t]: the union is kept as its 16 bytes. *)
Record dns_hashtable_key_t : Type := DnsKey { dk_type : Z; dk_addr : address_t }.
Definition dns_key_bytes (k : dns_hashtable_key_t) : list Z :=
  le_bytes 4 (dk_type k) ++ le_bytes 16 (dk_addr k).

Record dns_hashtable_entry_t : Type := DnsEntry {
  de_key : dns_hashtable_key_t;
  de_value : Z;
  de_hash : Z;
  de_occupied : bool }.

Record dns_hashtable_t : Type := DnsHashtable {
  d_num_entries : Z;
  d_entries : arr dns_hashtable_entry_t }.

Definition zero_dns_key : dns_hashtable_key_t := DnsKey 0 0.
Definition zero_dns_entry : dns_hashtable_entry_t := DnsEntry zero_dns_key 0 0 false.

#[export] Instance dns_key_eq_dec : EqDecision dns_hashtable_key_t.
Proof. solve_decision. Defined.

#[export] Instance dns_probe_entry : ProbeEntry dns_hashtable_entry_t Z := {
  e_occupied := de_occupied;
  e_hash := de_hash;
  e_key e := dns_key_bytes (de_key e);
  e_val := de_value }.

Definition dns_hash (key : list Z) : Z := MurmurHash3_x86_32 key 20 MURMUR_SEED.
Definition dns_hashtable_hash_key (key : dns_hashtable_key_t) : Z := dns_hash (dns_key_bytes key).

(** ** Operations *)

Definition dns_hashtable_init : dns_hashtable_t :=
  DnsHashtable 0 (amake DNS_HASHTABLE_SIZE zero_dns_entry).

Definition dns_get_hashtable_index (t : dns_hashtable_t) (key : dns_hashtable_key_t) (hash : Z) :=
  get_hashtable_index DNS_HASHTABLE_SIZE (d_entries t) (dns_key_bytes key) hash.

Definition dns_hashtable_add_or_change (t : dns_hashtable_t) (key : dns_hashtable_key_t) (value : Z)
    : res (Z * dns_hashtable_t) :=
  if d_num_entries t =? DNS_HASHTABLE_SIZE then Ok (1, t)
  else
    let hash := dns_hashtable_hash_key key in
    let! '(ret, index) := dns_get_hashtable_index t key hash in
    let! old := rd (d_entries t) index in
    if ret =? 0 then
      let! ents := wr (d_entries t) index
                     (DnsEntry (de_key old) value (de_hash old) (de_occupied old)) in
      Ok (0, DnsHashtable (d_num_entries t) ents)
    else
      let! ents := wr (d_entries t) index (DnsEntry key value hash (de_occupied old)) in
      let! ents := wr ents index (DnsEntry key value hash true) in
      Ok (0, DnsHashtable (u64 (d_num_entries t + 1)) ents).

Definition dns_hashtable_get (t : dns_hashtable_t) (key : dns_hashtable_key_t)
    : res (Z * option Z) :=
  let hash := dns_hashtable_hash_key key in
  let! '(ret, index) := dns_get_hashtable_index t key hash in
  if ret =? 0 then
    let! e := rd (d_entries t) index in
    Ok (ret, Some (de_value e))
  else Ok (ret, None).

Definition dns_set_occupied (b : bool) (e : dns_hashtable_entry_t) : dns_hashtable_entry_t :=
  DnsEntry (de_key e) (de_value e) (de_hash e) b.

Definition dns_move (t : dns_hashtable_t) (index empty_index : Z) : res dns_hashtable_t :=
  let! e := rd (d_entries t) index in
  let! ents := wr (d_entries t) index (dns_set_occupied false e) in
  let! dst := rd ents empty_index in
  let! src := rd ents index in
  let! ents := wr ents empty_index
                 (DnsEntry (de_key src) (de_value src) (de_hash src) (de_occupied dst)) in
  let! dst := rd ents empty_index in
  let! ents := wr ents empty_index (dns_set_occupied true dst) in
  Ok (DnsHashtable (d_num_entries t) ents).

Definition dns_hashtable_remove (t : dns_hashtable_t) (key : dns_hashtable_key_t)
    : res (Z * dns_hashtable_t) :=
  let hash := dns_hashtable_hash_key key in
  let! '(status, index) := dns_get_hashtable_index t key hash in
  if negb (status =? 0) then Ok (status, t)
  else
    let! e := rd (d_entries t) index in
    let! ents := wr (d_entries t) index (dns_set_occupied false e) in
    let! t' := backshift DNS_HASHTABLE_SIZE d_entries dns_move
                 (DnsHashtable (u64 (d_num_entries t - 1)) ents) index in
    Ok (0, t').

(** ** Specification *)

Notation dns_map := (gmap (list Z) Z).

Record dns_rep (t : dns_hashtable_t) (M : dns_map) : Prop := DnsRep {
  dr_table : table_rep DNS_HASHTABLE_SIZE dns_hash (d_entries t) M;
  dr_num : d_num_entries t = Z.of_nat (size M);
  dr_size : Z.of_nat (size M) <= DNS_HASHTABLE_SIZE }.

Inductive dns_op : Type :=
  | DnsAdd (key : dns_hashtable_key_t) (value : Z)
  | DnsGet (key : dns_hashtable_key_t)
  | DnsRemove (key : dns_hashtable_key_t).

Definition dns_exec (t : dns_hashtable_t) (op : dns_op) : res (Z * option Z * dns_hashtable_t) :=
  match op with
  | DnsAdd k v => let! '(r, t') := dns_hashtable_add_or_change t k v in Ok (r, None, t')
  | DnsGet k => let! '(r, v) := dns_hashtable_get t k in Ok (r, v, t)
  | DnsRemove k => let! '(r, t') := dns_hashtable_remove t k in Ok (r, None, t')
  end.

Fixpoint dns_run (t : dns_hashtable_t) (ops : list dns_op)
    : res (list (Z * option Z) * dns_hashtable_t) :=
  match ops with
  | [] => Ok ([], t)
  | op :: ops' =>
      let! '(o, t1) := dns_exec t op in
      let! '(os, t2) := dns_run t1 ops' in
      Ok (o :: os, t2)
  end.

Definition dns_map_exec (M : dns_map) (op : dns_op) : Z * option Z * dns_map :=
  match op with
  | DnsAdd k v =>
      if decide (Z.of_nat (size M) = DNS_HASHTABLE_SIZE) then (1, None, M)
      else (0, None, <[dns_key_bytes k := v]> M)
  | DnsGet k =>
      match M !! dns_key_bytes k with Some v => (0, Some v, M) | None => (1, None, M) end
  | DnsRemove k =>
      match M !! dns_key_bytes k with
      | Some _ => (0, None, delete (dns_key_bytes k) M)
      | None => (1, None, M)
      end
  end.

Fixpoint dns_map_run (M : dns_map) (ops : list dns_op) : list (Z * option Z) * dns_map :=
  match ops with
  | [] => ([], M)
  | op :: ops' =>
      let '(o, M1) := dns_map_exec M op in
      let '(os, M2) := dns_map_run M1 ops' in
      (o :: os, M2)
  end.

(** Searches need a free slot. *)
Fixpoint dns_not_full (M : dns_map) (ops : list dns_op) : Prop :=
  match ops with
  | [] => True
  | op :: ops' =>
      match op with DnsAdd _ _ => True | _ => Z.of_nat (size M) < DNS_HASHTABLE_SIZE end /\
      dns_not_full (snd (dns_map_exec M op)) ops'
  end.

(** ** Proofs *)

Lemma dns_size_pos : 0 < DNS_HASHTABLE_SIZE < 2 ^ 31.
Proof. done. Qed.

#[local] Opaque while dns_hash DNS_HASHTABLE_SIZE.

Lemma dns_rep_init : dns_rep dns_hashtable_init ∅.
Proof.
  assert (forall i, occ (d_entries dns_hashtable_init) i = false) as Ho
    by (intros i; unfold occ; simpl; by rewrite aget_amake).
  split; [split; [split|]| |].
  - done.
  - intros i _. by rewrite Ho.
  - intros i j _ _. by rewrite Ho.
  - intros k v. rewrite lookup_empty. split; [done|]. intros (i & _ & Hi & _). by rewrite Ho in Hi.
  - intros i j _. by rewrite Ho.
  - done.
  - rewrite map_size_empty. pose proof dns_size_pos. lia.
Qed.

Section below_capacity.
Context (t : dns_hashtable_t) (M : dns_map) (rep : dns_rep t M)
        (room : Z.of_nat (size M) < DNS_HASHTABLE_SIZE).

Lemma dns_find key :
  exists r, dns_get_hashtable_index t key (dns_hashtable_hash_key key) = Ok r /\
            found DNS_HASHTABLE_SIZE dns_hash (d_entries t) M (dns_key_bytes key) r.
Proof using rep room.
  destruct (free_slot _ _ dns_size_pos _ _ (tr_entries _ _ _ _ (dr_table _ _ rep)) room)
    as (s & Hs & Hos).
  exact (find_spec _ _ dns_size_pos _ _ _ s (dr_table _ _ rep) Hs Hos).
Qed.

Lemma dns_slot_bounds i : in_table DNS_HASHTABLE_SIZE i -> 0 <= i < alen (d_entries t).
Proof using rep. intros Hi. by rewrite (eo_len _ _ _ _ (tr_entries _ _ _ _ (dr_table _ _ rep))). Qed.

Lemma dns_add_ok key v :
  exists t', dns_hashtable_add_or_change t key v = Ok (0, t') /\
             dns_rep t' (<[dns_key_bytes key := v]> M).
Proof using rep room.
  destruct (dns_find key) as ([st i] & Hfi & Hi & Hf). pose proof rep as [Ht Hn Hsz].
  pose proof (dns_slot_bounds i Hi) as Hb. pose proof dns_size_pos.
  unfold dns_hashtable_add_or_change.
  assert ((d_num_entries t =? DNS_HASHTABLE_SIZE) = false) as -> by (apply Z.eqb_neq; lia).
  rewrite Hfi. cbn [fst snd rbind] in *.
  destruct Hf as [(-> & Ho & Hk & Ek)|(-> & Ho & Ek & Hse)]; cbn [Z.eqb]; arr_goal;
    (eexists; split; [reflexivity|]); split; cbn [d_entries d_num_entries].
  - exact (overwrite_spec _ _ dns_size_pos _ _ _ _ v i (DnsEntry (de_key (aget (d_entries t) i)) v
             (de_hash (aget (d_entries t) i)) (de_occupied (aget (d_entries t) i))) Ht Hi Ho Hk (updated_aset _ _ _) Ho eq_refl Hk eq_refl).
  - by rewrite map_size_insert_Some by eauto.
  - by rewrite map_size_insert_Some by eauto.
  - refine (insert_spec _ _ dns_size_pos _ _ _ _ _ _ (DnsEntry key v (dns_hashtable_hash_key key) true)
              Ht Ek Hse Ho (updated_aset2 _ _ _ _) eq_refl eq_refl eq_refl eq_refl).
  - rewrite map_size_insert_None, Hn, u64_small by (done || lia). lia.
  - rewrite map_size_insert_None by done. lia.
Qed.

Lemma dns_get_ok key :
  dns_hashtable_get t key =
    Ok (match M !! dns_key_bytes key with Some v => (0, Some v) | None => (1, None) end).
Proof using rep room.
  destruct (dns_find key) as ([st i] & Hfi & Hi & Hf). unfold dns_hashtable_get.
  rewrite Hfi. cbn [rbind fst snd] in *. pose proof (dns_slot_bounds i Hi).
  destruct Hf as [(-> & Ho & _ & ->)|(-> & Ho & -> & _)]; [|done]. simpl. by arr_goal.
Qed.
End below_capacity.

Lemma dns_move_ok n t M i em :
  d_num_entries t = n -> entries_of DNS_HASHTABLE_SIZE dns_hash (d_entries t) M ->
  in_table DNS_HASHTABLE_SIZE i -> in_table DNS_HASHTABLE_SIZE em -> i <> em ->
  occ (d_entries t) i = true -> occ (d_entries t) em = false ->
  exists t', dns_move t i em = Ok t' /\ moved (d_entries t) (d_entries t') i em /\
             d_num_entries t' = n.
Proof.
  intros Hn He Hi Hem Hne Hoi Hoem. pose proof (eo_len _ _ _ _ He) as Hl.
  unfold in_table in Hi, Hem. unfold dns_move. arr_goal.
  eexists. split; [reflexivity|]. split; [|done]. cbn [d_entries].
  split; [done|]. unfold occ. arr_goal. split_and!; try done.
  intros j ??. by rewrite !aget_aset_ne by congruence.
Qed.

Lemma dns_remove_ok t M key :
  dns_rep t M -> Z.of_nat (size M) < DNS_HASHTABLE_SIZE ->
  match M !! dns_key_bytes key with
  | Some _ => exists t', dns_hashtable_remove t key = Ok (0, t') /\
                         dns_rep t' (delete (dns_key_bytes key) M)
  | None => dns_hashtable_remove t key = Ok (1, t)
  end.
Proof.
  intros Hr Hroom. destruct (dns_find t M Hr Hroom key) as ([st i] & Hfi & Hi & Hf).
  pose proof (dns_slot_bounds t M Hr i Hi). pose proof Hr as [Ht Hn Hsz].
  unfold dns_hashtable_remove. rewrite Hfi. cbn [rbind fst snd] in *.
  destruct Hf as [(-> & Ho & Hk & Ek)|(-> & Ho & -> & _)]; [|done]. rewrite Ek. cbn [Z.eqb negb].
  arr_goal. destruct (free_slot _ _ dns_size_pos _ _ (tr_entries _ _ _ _ Ht) Hroom) as (s & Hs & Hos).
  pose proof (updated_aset (d_entries t) i
                (dns_set_occupied false (aget (d_entries t) i))) as Hu.
  destruct (gap_inv_start _ _ dns_size_pos _ _ _ _ _ _ Ht Hs Hos Hi Ho Hu eq_refl) as [Hg Hsc].
  rewrite Hk in Hg.
  match goal with |- context [backshift _ _ _ ?t0 i] =>
    destruct (backshift_spec _ _ dns_size_pos d_entries dns_move
                (fun t => d_num_entries t = d_num_entries t0) (dns_move_ok _) t0 _ s i Hg Hsc eq_refl)
      as (t' & -> & Ht' & Hn') end.
  exists t'. split; [done|].
  assert (0 < size M)%nat.
  { destruct (size M) eqn:Es; [|lia]. apply map_size_empty_inv in Es as ->.
    by rewrite lookup_empty in Ek. }
  pose proof dns_size_pos. cbn [d_num_entries] in Hn'.
  assert (size (delete (dns_key_bytes key) M) = pred (size M)) as Hd
    by (apply map_size_delete_Some; eauto).
  split; [done| |lia]. rewrite Hn', Hd, u64_small; lia.
Qed.

Lemma dns_exec_refines t M op :
  dns_rep t M -> match op with DnsAdd _ _ => True | _ => Z.of_nat (size M) < DNS_HASHTABLE_SIZE end ->
  exists t', dns_exec t op = Ok (fst (dns_map_exec M op), t') /\ dns_rep t' (snd (dns_map_exec M op)).
Proof.
  intros Hr Hop. destruct op as [k v|k|k]; cbn [dns_exec dns_map_exec] in *.
  - case_decide as Hfull.
    + exists t. unfold dns_hashtable_add_or_change. pose proof (dr_num _ _ Hr).
      by rewrite (proj2 (Z.eqb_eq _ _)) by lia.
    + pose proof (dr_size _ _ Hr). destruct (dns_add_ok t M Hr ltac:(lia) k v) as (t' & -> & ?).
      by exists t'.
  - exists t. rewrite (dns_get_ok t M Hr Hop). by destruct (M !! _).
  - pose proof (dns_remove_ok t M k Hr Hop) as Hrm. destruct (M !! _).
    + destruct Hrm as (t' & -> & ?). by exists t'.
    + exists t. by rewrite Hrm.
Qed.

Lemma dns_run_refines t M ops :
  dns_rep t M -> dns_not_full M ops ->
  exists t', dns_run t ops = Ok (fst (dns_map_run M ops), t') /\
             dns_rep t' (snd (dns_map_run M ops)).
Proof.
  revert t M. induction ops as [|op ops IH]; intros t M Hr Hops;
    cbn [dns_run dns_map_run dns_not_full] in *; [by exists t|].
  destruct Hops as [Hop Hops]. destruct (dns_exec_refines t M op Hr Hop) as (t1 & -> & Hr1).
  destruct (dns_map_exec M op) as [o M1]. cbn [fst snd rbind] in *.
  destruct (IH t1 M1 Hr1 Hops) as (t2 & -> & Hr2). exists t2. cbn [rbind].
  by destruct (dns_map_run M1 ops).
Qed.

(** Distinct keys fill the table. *)
Lemma dns_fill_ok keys M :
  NoDup (dns_key_bytes <$> keys) -> (forall k, k ∈ keys -> M !! dns_key_bytes k = None) ->
  Z.of_nat (size M) + Z.of_nat (length keys) <= DNS_HASHTABLE_SIZE ->
  let r := dns_map_run M ((fun k => DnsAdd k 0) <$> keys) in
  dns_not_full M ((fun k => DnsAdd k 0) <$> keys) /\
  size (snd r) = (size M + length keys)%nat /\
  forall kb, M !! kb = None -> kb ∉ (dns_key_bytes <$> keys) -> snd r !! kb = None.
Proof.
  revert M. induction keys as [|k keys IH]; intros M Hnd Hfresh Hsz.
  { split_and!; [done|simpl; lia|done]. }
  rewrite fmap_cons in Hnd. apply NoDup_cons in Hnd as [Hk Hnd].
  cbn [fmap list_fmap dns_map_run dns_not_full dns_map_exec]. cbn [length] in Hsz.
  rewrite decide_False by lia. cbn [snd].
  assert (size (<[dns_key_bytes k:=0]> M) = S (size M)) as Es
    by (apply map_size_insert_None, Hfresh; left).
  destruct (IH (<[dns_key_bytes k := 0]> M)) as (Ha & Hs & Hl); [done| |lia|].
  { intros k' Hk'. rewrite lookup_insert_ne; [apply Hfresh; by right|].
    intros E. apply Hk. rewrite E. by apply list_elem_of_fmap_2. }
  change (list_fmap _ _ (fun k : dns_hashtable_key_t => DnsAdd k 0) keys)
    with ((fun k => DnsAdd k 0) <$> keys).
  destruct (dns_map_run (<[dns_key_bytes k:=0]> M) _) as [os M2]. cbn [snd length] in *.
  split; [done|]. split; [lia|]. intros kb Hkb [Hne Hni]%not_elem_of_cons.
  apply Hl; [|exact Hni]. rewrite lookup_insert_ne; [done|]. congruence.
Qed.

(** ** Properties *)

(** Claim C21. While it has a free slot the DNS hash table behaves as the finite
    map from the 20 key bytes to the expiry second: [add_or_change] inserts or
    overwrites, [get] and [remove] find exactly the stored keys, removal keeps
    every other key reachable, and no access is out of bounds. *)
Theorem dns_hashtable_refines_map ops :
  dns_not_full ∅ ops ->
  exists t', dns_run dns_hashtable_init ops = Ok (fst (dns_map_run ∅ ops), t') /\
             dns_rep t' (snd (dns_map_run ∅ ops)).
Proof. intros Hops. exact (dns_run_refines _ _ ops dns_rep_init Hops). Qed.

Lemma dns_hashtable_refines_map_witness :
  let ops := [DnsAdd (DnsKey 2 1) 10; DnsAdd (DnsKey 2 1) 11; DnsAdd (DnsKey 2 2) 12;
              DnsGet (DnsKey 2 1); DnsRemove (DnsKey 2 1); DnsGet (DnsKey 2 1); DnsGet (DnsKey 2 2)] in
  fst (dns_map_run ∅ ops) =
    [(0, None); (0, None); (0, None); (0, Some 11); (0, None); (1, None); (0, Some 12)] /\
  exists t', dns_run dns_hashtable_init ops = Ok (fst (dns_map_run ∅ ops), t') /\
             dns_rep t' (snd (dns_map_run ∅ ops)).
Proof.
  intros ops. split; [vm_compute; reflexivity|]. apply dns_hashtable_refines_map.
  vm_compute. repeat split.
Defined.

(** Claim C33. The insertions are accepted until every slot is occupied, and then
    the lookup of an address that is not stored never returns, since the search
    ends at a free slot only; a change of a stored address is refused as well. *)
Theorem dns_full_table_lookup_hangs (keys : list dns_hashtable_key_t) (k : dns_hashtable_key_t) :
  NoDup (dns_key_bytes <$> keys) -> Z.of_nat (length keys) = DNS_HASHTABLE_SIZE ->
  dns_key_bytes k ∉ (dns_key_bytes <$> keys) ->
  exists os t, dns_run dns_hashtable_init ((fun k => DnsAdd k 0) <$> keys) = Ok (os, t) /\
    dns_hashtable_get t k = Hang /\
    forall k' v, dns_hashtable_add_or_change t k' v = Ok (1, t).
Proof.
  intros Hnd Hlen Hk. destruct (dns_fill_ok keys ∅) as (Ha & Hs & Hl); [done| |by rewrite map_size_empty; lia|].
  { intros. apply lookup_empty. }
  destruct (dns_run_refines _ _ _ dns_rep_init Ha) as (t & R & Hr).
  rewrite map_size_empty in Hs. pose proof Hr as [[He Hg] Hn Hsz].
  eexists _, t. split; [exact R|]. split.
  - unfold dns_hashtable_get, dns_get_hashtable_index, dns_hashtable_hash_key.
    rewrite (find_hangs _ _ dns_size_pos _ _ _ He); [done| |].
    + apply (full_occupied _ _ dns_size_pos _ _ He). lia.
    + apply Hl; [apply lookup_empty|done].
  - intros k' v. unfold dns_hashtable_add_or_change. by rewrite (proj2 (Z.eqb_eq _ _)) by lia.
Qed.

(** The keys 1 ... 65536 and the key 0. *)
Lemma dns_full_table_lookup_hangs_witness :
  exists os t, dns_run dns_hashtable_init
      ((fun k => DnsAdd k 0) <$> (DnsKey 2 <$> seqZ 1 65536)) = Ok (os, t) /\
    dns_hashtable_get t (DnsKey 2 0) = Hang /\
    forall k' v, dns_hashtable_add_or_change t k' v = Ok (1, t).
Proof.
  assert (forall a b, 0 <= a < 65537 -> 0 <= b < 65537 ->
            dns_key_bytes (DnsKey 2 a) = dns_key_bytes (DnsKey 2 b) -> a = b) as Hinj.
  { intros a b Ha Hb E. unfold dns_key_bytes in E. cbn [dk_type dk_addr] in E.
    apply (app_inj_1 (le_bytes 4 2) (le_bytes 4 2)) in E as [_ E]; [|reflexivity].
    apply (le_bytes_inj 16); [cbn; lia|cbn; lia|exact E]. }
  apply (dns_full_table_lookup_hangs (DnsKey 2 <$> seqZ 1 65536) (DnsKey 2 0)).
  - rewrite <- list_fmap_compose. apply NoDup_fmap_2_strong; [|apply NoDup_seqZ].
    intros a b [? ?]%elem_of_seqZ [? ?]%elem_of_seqZ. apply Hinj; lia.
  - rewrite length_fmap, length_seqZ. reflexivity.
  - rewrite <- list_fmap_compose. intros (a & E & [? ?]%elem_of_seqZ)%list_elem_of_fmap.
    apply Hinj in E; lia.
Defined.
