(* ===== verification/BloomFilter.v ===== *)
(** * Counting Bloom filter of irrelevant UDP flows ([datastructures/bloom_filter.c])

    Per pipe and hash function the controller counts how many irrelevant tuples
    it marked at a position; the data plane keeps one bit per position, which it
    is told to set when a count goes from 0 to 1. The hash functions are those of
    [Crc], the commands go to the data plane ring buffer. *)

From S2P Require Import Prelude Structs Ringbuffer Crc.

(** [bloom_filter.entries[NUM_PIPES][NUM_BLOOMFILTERS][BLOOMFILTER_WIDTH]]. *)
Notation bloom_filter_t := (arr (arr (arr Z))).
Notation dp_ring := (ringbuffer_t dataplane_command_t).

Definition entry_rd (b : bloom_filter_t) (pipe i index : Z) : res Z :=
  let! p := rd b pipe in
  let! f := rd p i in
  rd f index.
Definition entry_wr (b : bloom_filter_t) (pipe i index v : Z) : res bloom_filter_t :=
  let! p := rd b pipe in
  let! f := rd p i in
  let! f := wr f index v in
  let! p := wr p i f in
  wr b pipe p.

(** ** Operations *)

(** Every entry is written, whatever the static memory holds. *)
Definition bloom_filter_init : bloom_filter_t :=
  amake NUM_PIPES (amake NUM_BLOOMFILTERS (amake BLOOMFILTER_WIDTH 0)).

(** [dp_five_tuple_t], packed: 4 + 4 + 2 + 2 bytes. *)
Definition dp_five_tuple_bytes (src_addr dst_addr src_port dst_port : Z) : list Z :=
  le_bytes 4 src_addr ++ le_bytes 4 dst_addr ++ le_bytes 2 src_port ++ le_bytes 2 dst_port.

Definition hash_all (ft : list Z) : list Z := (fun f => f ft 0 mod BLOOMFILTER_WIDTH) <$> crc_fn.

Definition mk_ipv4_hash (five_tuple : five_tuple_t) : list Z :=
  hash_all (dp_five_tuple_bytes
    (addr_ipv4 (src_addr (ft_h five_tuple))) (addr_ipv4 (dst_addr (ft_h five_tuple)))
    (SWAP_ENDIAN_16 (src_port (ft_h five_tuple))) (SWAP_ENDIAN_16 (dst_port (ft_h five_tuple)))).

Definition mk_ipv6_hash (five_tuple : five_tuple_t) : list Z :=
  hash_all (dp_five_tuple_bytes
    (crc32_normal (addr_ipv6 (src_addr (ft_h five_tuple))) 0)
    (crc32_normal (addr_ipv6 (dst_addr (ft_h five_tuple))) 0)
    (SWAP_ENDIAN_16 (src_port (ft_h five_tuple))) (SWAP_ENDIAN_16 (dst_port (ft_h five_tuple)))).

(** [None]: the array is left uninitialised. *)
Definition get_hashes (five_tuple : five_tuple_t) : option (list Z) :=
  if l3_proto (ft_h five_tuple) =? L3_IPV4 then Some (mk_ipv4_hash five_tuple)
  else if l3_proto (ft_h five_tuple) =? L3_IPV6 then Some (mk_ipv6_hash five_tuple)
  else None.

Definition hash_at (hashes : option (list Z)) (i : Z) : res Z :=
  match hashes with
  | Some l => match l !! Z.to_nat i with Some h => Ok h | None => UB end
  | None => UB
  end.

(** The command under construction: its indices, zero-initialised, and [send]. *)
Record bloom_command : Type := BloomCommand { bc_indices : list Z; bc_send : bool }.
Definition empty_bloom_command : bloom_command := BloomCommand [0; 0; 0; 0] false.
Definition set_index (i index : Z) (c : bloom_command) : bloom_command :=
  BloomCommand (<[Z.to_nat i := index]> (bc_indices c)) true.

Definition set_irrelevant_body (pipe : Z) (hashes : option (list Z)) (i : Z)
    (s : bloom_filter_t * bloom_command) : res (bloom_filter_t * bloom_command) :=
  let '(b, c) := s in
  let! index := hash_at hashes i in
  let! v := entry_rd b pipe i index in
  let! b := entry_wr b pipe i index (u16 (v + 1)) in
  let! v := entry_rd b pipe i index in
  Ok (b, if v =? 1 then set_index i index c else c).

Definition bloom_filter_set_irrelevant (b : bloom_filter_t) (ring : dp_ring) (ft : five_tuple_t)
    : res (bloom_filter_t * dp_ring) :=
  let pipe := dev_port_to_pipe (dev_port ft) in
  let hashes := get_hashes ft in
  let! '(b, c) := foldM (set_irrelevant_body pipe hashes) (seqZ 0 NUM_BLOOMFILTERS)
                    (b, empty_bloom_command) in
  if bc_send c then
    let! '(_, ring) := ringbuffer_put DATAPLANE_RINGBUFFER_SIZE ring
                         (DP_ADD_BLOOM_FILTER (BloomFilterCmd (bc_indices c) pipe)) in
    Ok (b, ring)
  else Ok (b, ring).

Definition set_relevant_body (b : bloom_filter_t) (pipe : Z) (hashes : option (list Z)) (i : Z)
    (c : bloom_command) : res bloom_command :=
  let! index := hash_at hashes i in
  let! v := entry_rd b pipe i index in
  Ok (if v =? 0 then set_index i index c else c).

Definition bloom_filter_set_relevant (b : bloom_filter_t) (ring : dp_ring) (ft : five_tuple_t)
    : res dp_ring :=
  let pipe := dev_port_to_pipe (dev_port ft) in
  let hashes := get_hashes ft in
  let! c := foldM (set_relevant_body b pipe hashes) (seqZ 0 NUM_BLOOMFILTERS) empty_bloom_command in
  if bc_send c then
    let! '(_, ring) := ringbuffer_put DATAPLANE_RINGBUFFER_SIZE ring
                         (DP_REMOVE_BLOOM_FILTER (BloomFilterCmd (bc_indices c) pipe)) in
    Ok ring
  else Ok ring.

(** [(int)(RAND_MAX * BLOOM_SUB_PROBABILITY)]. *)
Definition sub_threshold : Z := 2147483647 / 100.

(** The maintenance thread. [random pipe index i] is the draw of the given
    iteration; the command outlives the iterations, [send] is reset. *)
Definition maintenance_body (pipe index : Z) (random : Z -> Z) (i : Z)
    (s : bloom_filter_t * bloom_command) : res (bloom_filter_t * bloom_command) :=
  let '(b, c) := s in
  if random i <? sub_threshold then
    let! v := entry_rd b pipe i index in
    if v =? 0 then Ok (b, c)
    else if 1 <? v then
      let! b := entry_wr b pipe i index (u16 (v - 1)) in
      Ok (b, c)
    else if v =? 1 then
      let! b := entry_wr b pipe i index (u16 (v - 1)) in
      Ok (b, set_index i index c)
    else Ok (b, c)
  else Ok (b, c).

(** The entries at the command's indices are incremented again. *)
Definition restore_body (pipe : Z) (indices : list Z) (i : Z) (b : bloom_filter_t)
    : res bloom_filter_t :=
  let! index := hash_at (Some indices) i in
  let! v := entry_rd b pipe i index in
  entry_wr b pipe i index (u16 (v + 1)).

Definition maintenance_index (pipe : Z) (random : Z -> Z -> Z) (index : Z)
    (s : bloom_filter_t * bloom_command * dp_ring) : res (bloom_filter_t * bloom_command * dp_ring) :=
  let '(b, c, ring) := s in
  let! '(b, c) := foldM (maintenance_body pipe index (random index)) (seqZ 0 NUM_BLOOMFILTERS) (b, c) in
  if bc_send c then
    let! '(status, ring) := ringbuffer_put DATAPLANE_RINGBUFFER_SIZE ring
        (DP_REMOVE_BLOOM_FILTER (BloomFilterCmd (bc_indices c) pipe)) in
    let c := BloomCommand (bc_indices c) false in
    if negb (status =? 0) then
      let! b := foldM (restore_body pipe (bc_indices c)) (seqZ 0 NUM_BLOOMFILTERS) b in
      Ok (b, c, ring)
    else Ok (b, c, ring)
  else Ok (b, c, ring).

Definition maintenance_pass (random : Z -> Z -> Z -> Z) (s : bloom_filter_t * bloom_command * dp_ring)
    : res (bloom_filter_t * bloom_command * dp_ring) :=
  foldM (fun pipe => foldM (maintenance_index pipe (random pipe)) (seqZ 0 BLOOMFILTER_WIDTH))
        (seqZ 0 NUM_PIPES) s.

(** ** Specification *)

Definition count (b : bloom_filter_t) (pipe i index : Z) : Z := aget (aget (aget b pipe) i) index.

(** Shape and range of the counters. *)
Record bloom_wf (b : bloom_filter_t) : Prop := BloomWf {
  bw_pipes : alen b = NUM_PIPES;
  bw_filters : forall p, 0 <= p < NUM_PIPES -> alen (aget b p) = NUM_BLOOMFILTERS;
  bw_width : forall p i, 0 <= p < NUM_PIPES -> 0 <= i < NUM_BLOOMFILTERS ->
    alen (aget (aget b p) i) = BLOOMFILTER_WIDTH;
  bw_range : forall p i x, 0 <= count b p i x < 2 ^ 16 }.

Definition in_filter (p i x : Z) : Prop :=
  0 <= p < NUM_PIPES /\ 0 <= i < NUM_BLOOMFILTERS /\ 0 <= x < BLOOMFILTER_WIDTH.

(** The filter with one counter changed. *)
Definition bset (b : bloom_filter_t) (p i x v : Z) : bloom_filter_t :=
  aset b p (aset (aget b p) i (aset (aget (aget b p) i) x v)).

(** The hash positions of a tuple. *)
Definition position (hs : list Z) (i : Z) : Z := nth (Z.to_nat i) hs 0.

(** The command after handling the filters [l], where [hit] says which indices
    are to be sent. *)
Definition cmd_of (hs : list Z) (hit : Z -> bool) (l : list Z) : bloom_command :=
  BloomCommand ((fun i => if bool_decide (i ∈ l) && hit i then position hs i else 0) <$> [0; 1; 2; 3])
               (existsb hit l).

(** The filters whose bit is new when a tuple is marked; the positions that
    hold no tuple. *)
Definition new_bit (b : bloom_filter_t) (pipe : Z) (hs : list Z) (i : Z) : bool :=
  u16 (count b pipe i (position hs i) + 1) =? 1.
Definition clear_bit (b : bloom_filter_t) (pipe : Z) (hs : list Z) (i : Z) : bool :=
  count b pipe i (position hs i) =? 0.

Definition all_filters : list Z := seqZ 0 NUM_BLOOMFILTERS.

(** The queue of the data plane commands after an optional put. *)
Definition queue_send (q : list dataplane_command_t) (cmd : option dataplane_command_t)
    : list dataplane_command_t :=
  match cmd with
  | Some c => snd (queue_put DATAPLANE_RINGBUFFER_SIZE q c)
  | None => q
  end.

(** The command that marking a tuple sends. *)
Definition irrelevant_command (b : bloom_filter_t) (pipe : Z) (hs : list Z)
    : option dataplane_command_t :=
  let c := cmd_of hs (new_bit b pipe hs) all_filters in
  if bc_send c then Some (DP_ADD_BLOOM_FILTER (BloomFilterCmd (bc_indices c) pipe)) else None.

(** ** Proofs *)

Lemma entry_rd_ok b p i x : bloom_wf b -> in_filter p i x -> entry_rd b p i x = Ok (count b p i x).
Proof.
  intros [H1 H2 H3 _] (Hp & Hi & Hx). unfold entry_rd.
  rewrite rd_ok by lia. cbn [rbind]. rewrite rd_ok by (rewrite H2 by done; lia). cbn [rbind].
  by rewrite rd_ok by (rewrite H3 by done; lia).
Qed.

Lemma entry_wr_ok b p i x v : bloom_wf b -> in_filter p i x -> entry_wr b p i x v = Ok (bset b p i x v).
Proof.
  intros [H1 H2 H3 _] (Hp & Hi & Hx). unfold entry_wr.
  rewrite rd_ok by lia. cbn [rbind]. rewrite rd_ok by (rewrite H2 by done; lia). cbn [rbind].
  rewrite wr_ok by (rewrite H3 by done; lia). cbn [rbind].
  rewrite wr_ok by (rewrite H2 by done; lia). cbn [rbind]. by rewrite wr_ok by lia.
Qed.

Lemma count_bset b p i x v p' i' x' :
  count (bset b p i x v) p' i' x' = if decide (p' = p /\ i' = i /\ x' = x) then v else count b p' i' x'.
Proof.
  unfold count, bset. destruct (decide (p' = p)) as [->|].
  2: { rewrite aget_aset_ne, decide_False by (tauto || congruence). done. }
  rewrite aget_aset_eq. destruct (decide (i' = i)) as [->|].
  2: { rewrite aget_aset_ne, decide_False by (tauto || congruence). done. }
  rewrite aget_aset_eq. destruct (decide (x' = x)) as [->|].
  - by rewrite aget_aset_eq, decide_True.
  - rewrite aget_aset_ne, decide_False by (tauto || congruence). done.
Qed.

Lemma bset_wf b p i x v : bloom_wf b -> 0 <= v < 2 ^ 16 -> bloom_wf (bset b p i x v).
Proof.
  intros [H1 H2 H3 H4] Hv. split.
  - done.
  - intros p' Hp'. unfold bset. rewrite aget_aset. case_decide; subst; [|auto].
    simpl. auto.
  - intros p' i' Hp' Hi'. unfold bset. rewrite aget_aset. case_decide; subst; [|auto].
    rewrite aget_aset. case_decide; subst; [simpl|]; auto.
  - intros p' i' x'. rewrite count_bset. by case_decide.
Qed.

Lemma bloom_filter_init_wf : bloom_wf bloom_filter_init.
Proof.
  unfold bloom_filter_init. split.
  - done.
  - intros. by rewrite aget_amake.
  - intros. by rewrite !aget_amake.
  - intros. unfold count. by rewrite !aget_amake.
Qed.

Lemma all_filters_eq : all_filters = [0; 1; 2; 3].
Proof. reflexivity. Qed.

Lemma cmd_of_nil hs hit : cmd_of hs hit [] = empty_bloom_command.
Proof. reflexivity. Qed.

Lemma cmd_of_snoc hs (hit : Z -> bool) (l : list Z) (x : Z) :
  0 <= x < NUM_BLOOMFILTERS -> x ∉ l ->
  (if hit x then set_index x (position hs x) (cmd_of hs hit l) else cmd_of hs hit l) =
  cmd_of hs hit (l ++ [x]).
Proof.
  intros Hx Hni.
  assert (forall j, bool_decide (j ∈ l ++ [x]) = bool_decide (j ∈ l) || (j =? x)) as Hin.
  { intros j. rewrite (bool_decide_ext (j ∈ l ++ [x]) (j ∈ l \/ j = x)) by set_solver.
    destruct (Z.eqb_spec j x); repeat case_bool_decide; naive_solver. }
  assert (bool_decide (x ∈ l) = false) as Hx0 by (by apply bool_decide_eq_false_2).
  unfold cmd_of, set_index. rewrite existsb_app. cbn [existsb]. rewrite orb_false_r.
  cbn [fmap list_fmap]. rewrite !Hin. unfold NUM_BLOOMFILTERS in Hx.
  assert (x = 0 \/ x = 1 \/ x = 2 \/ x = 3) as Hc by lia.
  destruct (hit x) eqn:Hh; destruct Hc as [?|[?|[?|?]]]; subst x;
    rewrite ?Hx0, ?Hh, ?orb_false_r, ?orb_true_r, ?andb_true_r, ?andb_false_r; reflexivity.
Qed.

Lemma get_hashes_spec ft hs :
  get_hashes ft = Some hs ->
  length hs = 4%nat /\ forall i, 0 <= i < NUM_BLOOMFILTERS ->
    hash_at (Some hs) i = Ok (position hs i) /\ 0 <= position hs i < BLOOMFILTER_WIDTH.
Proof.
  intros Hh. assert (exists bs, hs = hash_all bs) as [bs ->].
  { unfold get_hashes in Hh. repeat case_match; simplify_eq; eexists; reflexivity. }
  split; [reflexivity|]. intros i Hi. unfold NUM_BLOOMFILTERS in Hi.
  assert (i = 0 \/ i = 1 \/ i = 2 \/ i = 3) as [?|[?|[?|?]]] by lia; subst i;
    (split; [reflexivity|]; apply Z.mod_pos_bound; done).
Qed.

(** The filter after marking a tuple in the filters [l], as a function of the filter
    before; [marked] says what its counters are. *)
Definition mark_filters (b : bloom_filter_t) (pipe : Z) (hs : list Z) (l : list Z) : bloom_filter_t :=
  foldl (fun b i => bset b pipe i (position hs i) (u16 (count b pipe i (position hs i) + 1))) b l.
Definition mark_filter (b : bloom_filter_t) (pipe : Z) (hs : list Z) : bloom_filter_t :=
  mark_filters b pipe hs all_filters.

Definition marked (b : bloom_filter_t) (pipe : Z) (hs : list Z) (l : list Z) (b' : bloom_filter_t) :=
  bloom_wf b' /\
  forall p i x, count b' p i x =
    if decide (p = pipe /\ i ∈ l /\ x = position hs i) then u16 (count b p i x + 1)
    else count b p i x.

Lemma elem_of_all_filters i : i ∈ all_filters <-> 0 <= i < NUM_BLOOMFILTERS.
Proof. apply elem_of_seqZ0. Qed.

Lemma all_filters_split done x rest :
  all_filters = done ++ x :: rest -> 0 <= x < NUM_BLOOMFILTERS /\ x ∉ done.
Proof.
  intros E. split; [apply elem_of_all_filters; rewrite E; set_solver|].
  assert (NoDup (done ++ x :: rest)) as Hnd by (rewrite <- E; apply NoDup_seqZ).
  apply NoDup_app in Hnd as (_ & Hd & _). intros Hin. apply (Hd x Hin). left.
Qed.

Lemma set_irrelevant_loop b pipe ft hs :
  bloom_wf b -> 0 <= pipe < NUM_PIPES -> get_hashes ft = Some hs ->
  exists r, foldM (set_irrelevant_body pipe (Some hs)) all_filters (b, empty_bloom_command) = Ok r /\
    fst r = mark_filter b pipe hs /\ marked b pipe hs all_filters (fst r) /\
    snd r = cmd_of hs (new_bit b pipe hs) all_filters.
Proof.
  intros Hwf Hp Hh. destruct (get_hashes_spec ft hs Hh) as [_ Hpos].
  apply (foldM_rule (fun l r => fst r = mark_filters b pipe hs l /\ marked b pipe hs l (fst r) /\
    snd r = cmd_of hs (new_bit b pipe hs) l)).
  - intros l x rest [b1 c1] E (Eb & [Hwf1 Hc1] & Hcmd). cbn [fst snd] in *.
    apply all_filters_split in E as [Hx Hni]. destruct (Hpos x Hx) as [Hat Hb].
    assert (in_filter pipe x (position hs x)) as Hin by (split; [done|by split]).
    unfold set_irrelevant_body. rewrite Hat. cbn [rbind].
    rewrite entry_rd_ok by done. cbn [rbind]. rewrite entry_wr_ok by done. cbn [rbind].
    assert (bloom_wf (bset b1 pipe x (position hs x) (u16 (count b1 pipe x (position hs x) + 1)))) as Hwf2
      by (apply bset_wf; [done|apply u16_bound]).
    rewrite entry_rd_ok by done. cbn [rbind]. rewrite count_bset, decide_True by done.
    eexists. split; [reflexivity|]. cbn [fst snd]. split; [|split].
    + unfold mark_filters. rewrite foldl_app. cbn [foldl]. by rewrite Eb.
    + split; [exact Hwf2|].
      intros p i y. rewrite count_bset, !Hc1.
      destruct (decide (p = pipe /\ i = x /\ y = position hs x)) as [(-> & -> & ->)|Hne].
      * rewrite (decide_False (P := pipe = pipe /\ x ∈ l /\ _)) by tauto.
        rewrite decide_True by set_solver. done.
      * repeat case_decide; try done; exfalso; set_solver.
    + rewrite Hcmd, Hc1, decide_False by tauto. apply (cmd_of_snoc hs (new_bit b pipe hs)); done.
  - split; [done|]. split; [|done]. split; [done|]. intros. rewrite decide_False; [done|]. set_solver.
Qed.

Lemma ring_put_ok ring q cmd :
  rb_rep DATAPLANE_RINGBUFFER_SIZE ring q ->
  exists ring', ringbuffer_put DATAPLANE_RINGBUFFER_SIZE ring cmd =
                  Ok (fst (queue_put DATAPLANE_RINGBUFFER_SIZE q cmd), ring') /\
                rb_rep DATAPLANE_RINGBUFFER_SIZE ring' (queue_send q (Some cmd)).
Proof. intros Hr. by apply put_rep. Qed.

Lemma set_irrelevant_exact b ring q ft hs :
  bloom_wf b -> 0 <= dev_port ft < MAX_DEV_PORT_ID -> get_hashes ft = Some hs ->
  rb_rep DATAPLANE_RINGBUFFER_SIZE ring q ->
  let pipe := dev_port_to_pipe (dev_port ft) in
  exists ring', bloom_filter_set_irrelevant b ring ft = Ok (mark_filter b pipe hs, ring') /\
    marked b pipe hs all_filters (mark_filter b pipe hs) /\
    rb_rep DATAPLANE_RINGBUFFER_SIZE ring'
      (queue_send q (irrelevant_command b pipe hs)).
Proof.
  cbv zeta. intros Hwf Hd Hh Hr. pose proof (dev_port_to_pipe_bound _ Hd) as Hp.
  destruct (set_irrelevant_loop b _ ft hs Hwf Hp Hh) as ([b' c] & E & Eb & Hm & Hc).
  unfold bloom_filter_set_irrelevant. rewrite Hh. fold all_filters. rewrite E. cbn [rbind fst snd] in *.
  subst c. rewrite <- Eb. unfold irrelevant_command.
  destruct (bc_send (cmd_of hs (new_bit b (dev_port_to_pipe (dev_port ft)) hs) all_filters)).
  - destruct (ring_put_ok ring q (DP_ADD_BLOOM_FILTER (BloomFilterCmd (bc_indices (cmd_of hs
      (new_bit b (dev_port_to_pipe (dev_port ft)) hs) all_filters)) (dev_port_to_pipe (dev_port ft)))) Hr)
      as (ring' & -> & Hr'). cbn [rbind]. by exists ring'.
  - by exists ring.
Qed.

Lemma set_irrelevant_ok b ring q ft hs :
  bloom_wf b -> 0 <= dev_port ft < MAX_DEV_PORT_ID -> get_hashes ft = Some hs ->
  rb_rep DATAPLANE_RINGBUFFER_SIZE ring q ->
  exists b' ring', bloom_filter_set_irrelevant b ring ft = Ok (b', ring') /\
    marked b (dev_port_to_pipe (dev_port ft)) hs all_filters b' /\
    rb_rep DATAPLANE_RINGBUFFER_SIZE ring'
      (queue_send q (irrelevant_command b (dev_port_to_pipe (dev_port ft)) hs)).
Proof.
  intros Hwf Hd Hh Hr. destruct (set_irrelevant_exact b ring q ft hs Hwf Hd Hh Hr) as (ring' & E & H').
  by eexists _, ring'.
Qed.

Definition relevant_command (b : bloom_filter_t) (pipe : Z) (hs : list Z) : option dataplane_command_t :=
  let c := cmd_of hs (clear_bit b pipe hs) all_filters in
  if bc_send c then Some (DP_REMOVE_BLOOM_FILTER (BloomFilterCmd (bc_indices c) pipe)) else None.

Lemma set_relevant_ok b ring q ft hs :
  bloom_wf b -> 0 <= dev_port ft < MAX_DEV_PORT_ID -> get_hashes ft = Some hs ->
  rb_rep DATAPLANE_RINGBUFFER_SIZE ring q ->
  exists ring', bloom_filter_set_relevant b ring ft = Ok ring' /\
    rb_rep DATAPLANE_RINGBUFFER_SIZE ring'
      (queue_send q (relevant_command b (dev_port_to_pipe (dev_port ft)) hs)).
Proof.
  intros Hwf Hd Hh Hr. pose proof (dev_port_to_pipe_bound _ Hd) as Hp.
  set (pipe := dev_port_to_pipe (dev_port ft)) in *.
  destruct (get_hashes_spec ft hs Hh) as [_ Hpos].
  destruct (foldM_rule (fun l c => c = cmd_of hs (clear_bit b pipe hs) l)
              (set_relevant_body b pipe (Some hs)) all_filters) with (s := empty_bloom_command)
    as (c & E & ->); [|done|].
  { intros l x rest c E ->. apply all_filters_split in E as [Hx Hni].
    destruct (Hpos x Hx) as [Hat Hb]. unfold set_relevant_body. rewrite Hat. cbn [rbind].
    rewrite entry_rd_ok by (done || (split; [done|by split])). cbn [rbind].
    eexists. split; [reflexivity|]. apply (cmd_of_snoc hs (clear_bit b pipe hs)); done. }
  unfold bloom_filter_set_relevant. fold pipe. rewrite Hh. fold all_filters. rewrite E. cbn [rbind].
  unfold relevant_command. destruct (bc_send _); [|by exists ring].
  match goal with |- context [ringbuffer_put _ ring ?cmd] =>
    destruct (ring_put_ok ring q cmd Hr) as (ring' & -> & Hr') end.
  by exists ring'.
Qed.

(** ** The bits of the data plane

    [DP_ADD_BLOOM_FILTER] sets the bit of every index that is not negative;
    the write of [DP_REMOVE_BLOOM_FILTER] is commented out. *)
Definition dp_bits : Type := Z -> Z -> Z -> bool.
Definition apply_bloom_command (bits : dp_bits) (cmd : dataplane_command_t) : dp_bits :=
  match cmd with
  | DP_ADD_BLOOM_FILTER c => fun p i x =>
      bits p i x || (bool_decide (p = pipe_id c) && bool_decide (0 <= x) &&
        bool_decide (0 <= i /\ bloom_filter_indices c !! Z.to_nat i = Some x))
  | _ => bits
  end.
Definition apply_bloom_commands (q : list dataplane_command_t) (bits : dp_bits) : dp_bits :=
  foldl apply_bloom_command bits q.

Lemma apply_snoc q cmd bits :
  apply_bloom_commands (q ++ [cmd]) bits = apply_bloom_command (apply_bloom_commands q bits) cmd.
Proof. unfold apply_bloom_commands. by rewrite foldl_app. Qed.

Lemma apply_monotone bits cmd p i x : bits p i x = true -> apply_bloom_command bits cmd p i x = true.
Proof. intros H. destruct cmd; simpl; try done. by rewrite H. Qed.

(** The counted positions have their bit set, once the pending commands are
    executed. *)
Definition covered (b : bloom_filter_t) (q : list dataplane_command_t) (bits : dp_bits) : Prop :=
  forall p i x, in_filter p i x -> 0 < count b p i x -> apply_bloom_commands q bits p i x = true.

Lemma cmd_of_index hs (hit : Z -> bool) i :
  0 <= i < NUM_BLOOMFILTERS ->
  bc_indices (cmd_of hs hit all_filters) !! Z.to_nat i = Some (if hit i then position hs i else 0).
Proof.
  intros Hi. unfold NUM_BLOOMFILTERS in Hi. rewrite all_filters_eq.
  assert (i = 0 \/ i = 1 \/ i = 2 \/ i = 3) as [?|[?|[?|?]]] by lia; subst i; reflexivity.
Qed.

Lemma cmd_of_send hs (hit : Z -> bool) i :
  0 <= i < NUM_BLOOMFILTERS -> hit i = true -> bc_send (cmd_of hs hit all_filters) = true.
Proof.
  intros Hi Hh. change (existsb hit all_filters = true). apply existsb_exists. exists i.
  split; [|done]. by apply list_elem_of_In, elem_of_all_filters.
Qed.

Lemma mark_covers b b' pipe hs ft q bits :
  get_hashes ft = Some hs -> bloom_wf b -> 0 <= pipe < NUM_PIPES ->
  covered b q bits -> marked b pipe hs all_filters b' ->
  Z.of_nat (length q) < DATAPLANE_RINGBUFFER_SIZE ->
  covered b' (queue_send q (irrelevant_command b pipe hs)) bits /\
  forall i, 0 <= i < NUM_BLOOMFILTERS ->
    apply_bloom_commands (queue_send q (irrelevant_command b pipe hs)) bits
      pipe i (position hs i) = true.
Proof.
  intros Hh Hwf Hp Hcov [Hwf' Hcount] Hroom. destruct (get_hashes_spec ft hs Hh) as [_ Hpos].
  set (q' := queue_send q (irrelevant_command b pipe hs)).
  assert (forall p i x, apply_bloom_commands q bits p i x = true ->
            apply_bloom_commands q' bits p i x = true) as Hmono.
  { intros p i x H0. subst q'. unfold queue_send. destruct (irrelevant_command b pipe hs); [|done].
    unfold queue_put. case_decide; [done|]. simpl. rewrite apply_snoc. by apply apply_monotone. }
  assert (forall i, 0 <= i < NUM_BLOOMFILTERS -> new_bit b pipe hs i = true ->
            apply_bloom_commands q' bits pipe i (position hs i) = true) as Hnew.
  { intros i Hi Hn. subst q'. unfold irrelevant_command.
    rewrite (cmd_of_send hs (new_bit b pipe hs) i Hi Hn). unfold queue_send, queue_put.
    rewrite decide_False by lia. cbn [snd]. rewrite apply_snoc. cbn [apply_bloom_command pipe_id bloom_filter_indices].
    rewrite (cmd_of_index hs (new_bit b pipe hs) i Hi), Hn. destruct (Hpos i Hi).
    rewrite (bool_decide_true (pipe = pipe)), (bool_decide_true (0 <= position hs i)) by (done || lia).
    rewrite bool_decide_true by (split; [lia|done]). by rewrite orb_true_r. }
  assert (forall i, 0 <= i < NUM_BLOOMFILTERS ->
            apply_bloom_commands q' bits pipe i (position hs i) = true) as Hall.
  { intros i Hi. destruct (new_bit b pipe hs i) eqn:Hn; [by apply Hnew|].
    destruct (Hpos i Hi) as [_ Hb]. apply Hmono, Hcov; [split; [done|by split]|].
    pose proof (bw_range _ Hwf pipe i (position hs i)) as Hr.
    unfold new_bit in Hn. apply Z.eqb_neq in Hn.
    assert (count b pipe i (position hs i) <> 0); [|lia]. intros E0. by rewrite E0 in Hn. }
  split; [|done]. intros p i x Hin Hpos'. rewrite Hcount in Hpos'. case_decide as Hm.
  - destruct Hm as (-> & Hi & ->). apply Hall. by apply elem_of_all_filters.
  - by apply Hmono, Hcov.
Qed.

(** ** Maintenance *)

Definition hit (random : Z -> Z) (i : Z) : bool := random i <? sub_threshold.

(** The counters of one position after the draws: each hit takes one off. *)
Definition aged (b : bloom_filter_t) (pipe index : Z) (random : Z -> Z) (l : list Z)
    (b' : bloom_filter_t) : Prop :=
  bloom_wf b' /\
  forall p i x, count b' p i x =
    if decide (p = pipe /\ i ∈ l /\ x = index /\ hit random i = true) then Z.max 0 (count b p i x - 1)
    else count b p i x.

(** The command after the draws: the filters whose counter became zero, and the
    old indices for the others. *)
Definition aged_command (b : bloom_filter_t) (pipe index : Z) (random : Z -> Z) (l : list Z)
    (c : bloom_command) : bloom_command :=
  foldl (fun c i => if hit random i && (count b pipe i index =? 1) then set_index i index c else c) c l.

Lemma aged_step b b1 pipe index random l i :
  i ∉ l ->
  (forall p j x, count b1 p j x =
     if decide (p = pipe /\ j ∈ l /\ x = index /\ hit random j = true) then Z.max 0 (count b p j x - 1)
     else count b p j x) ->
  forall v b2, (if hit random i then Z.max 0 (count b pipe i index - 1)
                else count b pipe i index) = v -> bloom_wf b2 ->
    (forall p j x, count b2 p j x =
       if decide (p = pipe /\ j = i /\ x = index) then v else count b1 p j x) ->
    aged b pipe index random (l ++ [i]) b2.
Proof.
  intros Hni Hc1 v b2 Hv Hwf2 Hc2. split; [done|]. intros p j x. rewrite Hc2, Hc1.
  destruct (decide (p = pipe /\ j = i /\ x = index)) as [(-> & -> & ->)|Hne].
  - rewrite <- Hv. destruct (hit random i).
    + rewrite decide_True; [done|]. split_and!; try done. apply elem_of_app. right. by left.
    + rewrite decide_False; [done|]. by intros (_ & _ & _ & ?).
  - assert ((p = pipe /\ j ∈ l ++ [i] /\ x = index /\ hit random j = true) <->
            (p = pipe /\ j ∈ l /\ x = index /\ hit random j = true)) as Hiff
      by (rewrite elem_of_app, list_elem_of_singleton; tauto).
    by rewrite (decide_ext _ _ _ _ Hiff).
Qed.

Lemma maintenance_loop b c pipe index random :
  bloom_wf b -> 0 <= pipe < NUM_PIPES -> 0 <= index < BLOOMFILTER_WIDTH ->
  exists b', foldM (maintenance_body pipe index random) all_filters (b, c) =
               Ok (b', aged_command b pipe index random all_filters c) /\
             aged b pipe index random all_filters b'.
Proof.
  intros Hwf Hp Hx. destruct (foldM_rule (fun l r => aged b pipe index random l (fst r) /\
      snd r = aged_command b pipe index random l c) (maintenance_body pipe index random) all_filters)
    with (s := (b, c)) as ([b' c'] & E & Ha & Hc).
  - intros l i rest [b1 c1] E [[Hwf1 Hc1] Hcmd]. cbn [fst snd] in *.
    apply all_filters_split in E as [Hi Hni].
    assert (in_filter pipe i index) as Hin by (split; [done|by split]).
    assert (count b1 pipe i index = count b pipe i index) as Hcur
      by (rewrite Hc1, decide_False by tauto; done).
    pose proof (bw_range _ Hwf pipe i index) as Hr.
    pose proof (aged_step b b1 pipe index random l i Hni Hc1) as Hstep.
    unfold maintenance_body. fold (hit random i). unfold aged_command. rewrite foldl_app. cbn [foldl].
    fold (aged_command b pipe index random l c). rewrite <- Hcmd.
    assert (forall p j x, count b1 p j x =
      if decide (p = pipe /\ j = i /\ x = index) then count b pipe i index else count b1 p j x) as Hsame
      by (intros p j x; case_decide as Hd; [by destruct Hd as (-> & -> & ->)|done]).
    destruct (hit random i) eqn:Hh; cbn [andb].
    2: { eexists. split; [reflexivity|]. split; [|done]. by apply (Hstep (count b pipe i index)). }
    rewrite entry_rd_ok by done. cbn [rbind]. rewrite Hcur, entry_wr_ok by done. cbn [rbind].
    assert (bloom_wf (bset b1 pipe i index (u16 (count b pipe i index - 1)))) as Hwf2
      by (apply bset_wf; [done|apply u16_bound]).
    destruct (Z.eqb_spec (count b pipe i index) 0) as [E0|]; [|destruct (Z.ltb_spec 1 (count b pipe i index))].
    + rewrite E0. cbn [Z.eqb]. eexists. split; [reflexivity|]. split; [|done].
      apply (Hstep (count b pipe i index)); [lia|done|done].
    + rewrite (proj2 (Z.eqb_neq (count b pipe i index) 1)) by lia.
      eexists. split; [reflexivity|]. split; [|done]. cbn [fst].
      apply (Hstep (u16 (count b pipe i index - 1))); [|done|intros; apply count_bset].
      unfold u16. rewrite Z.mod_small; lia.
    + assert (count b pipe i index = 1) as E1 by lia. rewrite (proj2 (Z.eqb_eq _ _) E1).
      eexists. split; [reflexivity|]. split; [|done]. cbn [fst].
      apply (Hstep (u16 (count b pipe i index - 1))); [|done|intros; apply count_bset].
      unfold u16. rewrite Z.mod_small; lia.
  - split; [split; [done|]|done]. intros. rewrite decide_False; [done|].
    intros (_ & Hn & _). by apply not_elem_of_nil in Hn.
  - cbn [fst snd] in *. subst c'. by exists b'.
Qed.

(** The counters a refused command increments again. *)
Definition restored (b : bloom_filter_t) (pipe : Z) (indices : list Z) (l : list Z)
    (b' : bloom_filter_t) : Prop :=
  bloom_wf b' /\
  forall p i x, count b' p i x =
    if decide (p = pipe /\ i ∈ l /\ x = position indices i) then u16 (count b p i x + 1)
    else count b p i x.

Definition indices_wf (indices : list Z) : Prop :=
  forall i, 0 <= i < NUM_BLOOMFILTERS ->
    indices !! Z.to_nat i = Some (position indices i) /\
    0 <= position indices i < BLOOMFILTER_WIDTH.

Lemma restore_loop b pipe indices :
  bloom_wf b -> 0 <= pipe < NUM_PIPES -> indices_wf indices ->
  exists b', foldM (restore_body pipe indices) all_filters b = Ok b' /\
             restored b pipe indices all_filters b'.
Proof.
  intros Hwf Hp Hix. apply (foldM_rule (restored b pipe indices)).
  - intros l i rest b1 E [Hwf1 Hc1]. apply all_filters_split in E as [Hi Hni].
    destruct (Hix i Hi) as [Hat Hb].
    assert (in_filter pipe i (position indices i)) as Hin by (split; [done|by split]).
    unfold restore_body, hash_at. rewrite Hat. cbn [rbind].
    rewrite entry_rd_ok by done. cbn [rbind]. rewrite entry_wr_ok by done.
    eexists. split; [reflexivity|]. split; [apply bset_wf; [done|apply u16_bound]|].
    intros p j x. rewrite count_bset. rewrite (Hc1 pipe i), (decide_False (P := _ /\ i ∈ l /\ _)) by tauto.
    destruct (decide (p = pipe /\ j = i /\ x = position indices i)) as [(-> & -> & ->)|Hne].
    + rewrite decide_True; [done|]. split_and!; try done. apply elem_of_app. right. by left.
    + rewrite Hc1. assert ((p = pipe /\ j ∈ l ++ [i] /\ x = position indices j) <->
                (p = pipe /\ j ∈ l /\ x = position indices j)) as Hiff.
      { rewrite elem_of_app, list_elem_of_singleton. split; [|tauto].
        intros (? & [?|?] & ?); [done|]. subst. tauto. }
      by rewrite (decide_ext _ _ _ _ Hiff).
  - split; [done|]. intros. rewrite decide_False; [done|].
    intros (_ & Hn & _). by apply not_elem_of_nil in Hn.
Qed.

Lemma indices_wf_set i index c :
  0 <= i < NUM_BLOOMFILTERS -> 0 <= index < BLOOMFILTER_WIDTH -> indices_wf (bc_indices c) ->
  indices_wf (bc_indices (set_index i index c)).
Proof.
  intros Hi Hx Hwf j Hj. destruct (Hwf j Hj) as [Hl Hb]. simpl. unfold position.
  destruct (decide (j = i)) as [->|].
  - assert (<[Z.to_nat i:=index]> (bc_indices c) !! Z.to_nat i = Some index) as E.
    { apply list_lookup_insert_eq. by apply lookup_lt_Some in Hl. }
    by rewrite (nth_lookup_Some _ _ _ _ E), E.
  - assert (<[Z.to_nat i:=index]> (bc_indices c) !! Z.to_nat j = Some (position (bc_indices c) j)) as E
      by (rewrite list_lookup_insert_ne by lia; done).
    by rewrite (nth_lookup_Some _ _ _ _ E), E.
Qed.

Lemma aged_command_wf b pipe index random l c :
  (forall i, i ∈ l -> 0 <= i < NUM_BLOOMFILTERS) -> 0 <= index < BLOOMFILTER_WIDTH ->
  indices_wf (bc_indices c) -> indices_wf (bc_indices (aged_command b pipe index random l c)).
Proof.
  intros Hl Hx. revert c. induction l as [|i l IH]; intros c Hwf; [done|]. simpl.
  apply IH; [intros j Hj; apply Hl; by right|]. destruct (_ && _); [|done].
  apply indices_wf_set; auto. apply Hl. left.
Qed.

Lemma queue_send_length q cmd :
  Z.of_nat (length (queue_send q cmd)) <= Z.of_nat (length q) + 1.
Proof.
  destruct cmd; simpl; [|lia]. unfold queue_put. case_decide; simpl; [lia|].
  rewrite length_app. simpl. lia.
Qed.

Lemma queue_send_applied q cmd bits p i x :
  apply_bloom_commands q bits p i x = true ->
  apply_bloom_commands (queue_send q cmd) bits p i x = true.
Proof.
  intros H. destruct cmd; simpl; [|done]. unfold queue_put. case_decide; simpl; [done|].
  rewrite apply_snoc. by apply apply_monotone.
Qed.

(** Marking a list of tuples. *)
Definition mark_all (fts : list five_tuple_t) (s : bloom_filter_t * dp_ring)
    : res (bloom_filter_t * dp_ring) :=
  foldM (fun ft s => let '(b, ring) := s in bloom_filter_set_irrelevant b ring ft) fts s.

Definition markable (ft : five_tuple_t) : Prop :=
  0 <= dev_port ft < MAX_DEV_PORT_ID /\ is_Some (get_hashes ft).

(** All bits of the tuple are set once the queue [q] is executed. *)
Definition filtered (q : list dataplane_command_t) (bits : dp_bits) (ft : five_tuple_t) : Prop :=
  forall hs i, get_hashes ft = Some hs -> 0 <= i < NUM_BLOOMFILTERS ->
    apply_bloom_commands q bits (dev_port_to_pipe (dev_port ft)) i (position hs i) = true.

Lemma mark_all_ok fts bits : forall b ring q,
  bloom_wf b -> rb_rep DATAPLANE_RINGBUFFER_SIZE ring q -> covered b q bits ->
  Forall markable fts ->
  Z.of_nat (length q) + Z.of_nat (length fts) <= DATAPLANE_RINGBUFFER_SIZE ->
  exists b' ring' q', mark_all fts (b, ring) = Ok (b', ring') /\
    rb_rep DATAPLANE_RINGBUFFER_SIZE ring' q' /\
    (forall p i x, apply_bloom_commands q bits p i x = true ->
       apply_bloom_commands q' bits p i x = true) /\
    Forall (filtered q' bits) fts.
Proof.
  induction fts as [|ft fts IH]; intros b ring q Hwf Hr Hcov Hm Hlen.
  { exists b, ring, q. by split_and!. }
  apply Forall_cons in Hm as [[Hd [hs Hh]] Hm]. cbn [length] in Hlen.
  destruct (set_irrelevant_ok b ring q ft hs Hwf Hd Hh Hr) as (b1 & ring1 & E & Hmk & Hr1).
  set (pipe := dev_port_to_pipe (dev_port ft)) in *.
  destruct (mark_covers b b1 pipe hs ft q bits Hh Hwf (dev_port_to_pipe_bound _ Hd) Hcov Hmk
              ltac:(lia)) as [Hcov1 Hset].
  pose proof (queue_send_length q (irrelevant_command b pipe hs)) as Hl1.
  destruct (IH b1 ring1 _ (proj1 Hmk) Hr1 Hcov1 Hm ltac:(lia)) as (b' & ring' & q' & E' & Hr' & Hmono & Hf).
  exists b', ring', q'. unfold mark_all in *. cbn [foldM]. rewrite E. cbn [rbind].
  split; [done|]. split; [done|]. split.
  - intros p i x Hx. by apply Hmono, queue_send_applied.
  - constructor; [|done]. intros hs' i Hh' Hi. rewrite Hh in Hh'. injection Hh' as <-.
    by apply Hmono, Hset.
Qed.

(** The filters whose counter the step takes to zero. *)
Definition zeroed (b : bloom_filter_t) (pipe index : Z) (random : Z -> Z) (i : Z) : bool :=
  hit random i && (count b pipe i index =? 1).

Lemma aged_command_cons b pipe index random i l c :
  aged_command b pipe index random (i :: l) c =
  aged_command b pipe index random l (if zeroed b pipe index random i then set_index i index c else c).
Proof. reflexivity. Qed.

Lemma aged_command_send b pipe index random l c :
  bc_send (aged_command b pipe index random l c) = existsb (zeroed b pipe index random) l || bc_send c.
Proof.
  revert c. induction l as [|i l IH]; intros c; [done|].
  rewrite aged_command_cons, IH. cbn [existsb].
  destruct (zeroed b pipe index random i); [|done]. simpl. by rewrite orb_true_r.
Qed.

Lemma position_set i j index c :
  0 <= i -> 0 <= j < NUM_BLOOMFILTERS -> indices_wf (bc_indices c) ->
  position (bc_indices (set_index i index c)) j = if decide (i = j) then index else position (bc_indices c) j.
Proof.
  intros Hi Hj Hwf. destruct (Hwf j Hj) as [Hl _]. unfold position. simpl. case_decide as E.
  - subst. apply nth_lookup_Some, list_lookup_insert_eq. by apply lookup_lt_Some in Hl.
  - apply nth_lookup_Some. rewrite list_lookup_insert_ne by lia. done.
Qed.

Lemma aged_command_position b pipe index random l c j :
  (forall i, i ∈ l -> 0 <= i < NUM_BLOOMFILTERS) -> 0 <= index < BLOOMFILTER_WIDTH ->
  indices_wf (bc_indices c) -> 0 <= j < NUM_BLOOMFILTERS ->
  position (bc_indices (aged_command b pipe index random l c)) j =
    if bool_decide (j ∈ l) && zeroed b pipe index random j then index else position (bc_indices c) j.
Proof.
  intros Hl Hx. revert c. induction l as [|i l IH]; intros c Hwf Hj; [done|].
  rewrite aged_command_cons.
  assert (0 <= i < NUM_BLOOMFILTERS) as Hi by (apply Hl; left).
  rewrite IH; [|intros k Hk; apply Hl; by right| |done].
  2: { destruct (zeroed b pipe index random i); [by apply indices_wf_set|done]. }
  rewrite (bool_decide_ext (j ∈ i :: l) (i = j \/ j ∈ l)) by (rewrite elem_of_cons; split; intros [?|?]; auto).
  destruct (zeroed b pipe index random i) eqn:Hz.
  - rewrite position_set by (done || lia). destruct (decide (i = j)) as [->|Hne].
    + rewrite Hz. repeat case_bool_decide; simpl; try done; tauto.
    + repeat case_bool_decide; simpl; try done; tauto.
  - destruct (decide (i = j)) as [->|Hne].
    + rewrite Hz, !andb_false_r. done.
    + repeat case_bool_decide; simpl; try done; tauto.
Qed.

Lemma empty_indices_wf : indices_wf (bc_indices empty_bloom_command).
Proof.
  intros i Hi. unfold NUM_BLOOMFILTERS in Hi.
  assert (i = 0 \/ i = 1 \/ i = 2 \/ i = 3) as [?|[?|[?|?]]] by lia; subst i;
    (split; [reflexivity|vm_compute; split; congruence]).
Qed.

(** One step of the maintenance thread. *)
Lemma maintenance_index_ok b c ring q pipe index random :
  bloom_wf b -> rb_rep DATAPLANE_RINGBUFFER_SIZE ring q -> indices_wf (bc_indices c) ->
  bc_send c = false -> 0 <= pipe < NUM_PIPES -> 0 <= index < BLOOMFILTER_WIDTH ->
  exists b1 b' c' ring',
    maintenance_index pipe random index (b, c, ring) = Ok (b', c', ring') /\
    bloom_wf b' /\ bc_send c' = false /\
    (forall i, 0 <= i < NUM_BLOOMFILTERS -> position (bc_indices c') i =
       if zeroed b pipe index (random index) i then index else position (bc_indices c) i) /\
    aged b pipe index (random index) all_filters b1 /\ indices_wf (bc_indices c') /\
    rb_rep DATAPLANE_RINGBUFFER_SIZE ring' (queue_send q
      (if existsb (zeroed b pipe index (random index)) all_filters
       then Some (DP_REMOVE_BLOOM_FILTER (BloomFilterCmd (bc_indices c') pipe)) else None)) /\
    if existsb (zeroed b pipe index (random index)) all_filters &&
       bool_decide (Z.of_nat (length q) = DATAPLANE_RINGBUFFER_SIZE)
    then restored b1 pipe (bc_indices c') all_filters b' else b' = b1.
Proof.
  intros Hwf Hr Hix Hs Hp Hx.
  destruct (maintenance_loop b c pipe index (random index) Hwf Hp Hx) as (b1 & E & Ha).
  pose proof (aged_command_send b pipe index (random index) all_filters c) as Hsend.
  assert (forall i, i ∈ all_filters -> 0 <= i < NUM_BLOOMFILTERS) as Hall
    by (intros i; apply elem_of_all_filters).
  pose proof (aged_command_wf b pipe index (random index) all_filters c Hall Hx Hix) as Hix1.
  assert (forall i, 0 <= i < NUM_BLOOMFILTERS ->
    position (bc_indices (aged_command b pipe index (random index) all_filters c)) i =
    if zeroed b pipe index (random index) i then index else position (bc_indices c) i) as Hpos.
  { intros i Hi. rewrite aged_command_position by done.
    by rewrite bool_decide_true by (by apply elem_of_all_filters). }
  set (c1 := aged_command b pipe index (random index) all_filters c) in *.
  unfold maintenance_index. fold all_filters. rewrite E. cbn [rbind].
  rewrite Hs, orb_false_r in Hsend. rewrite Hsend.
  destruct (existsb _ all_filters); cbn [andb].
  - destruct (ring_put_ok ring q (DP_REMOVE_BLOOM_FILTER (BloomFilterCmd (bc_indices c1) pipe)) Hr)
      as (ring' & -> & Hring). cbn [rbind]. unfold queue_send, queue_put in *.
    destruct (decide (Z.of_nat (length q) = DATAPLANE_RINGBUFFER_SIZE)) as [Hfull|Hfull]; cbn [fst snd Z.eqb negb] in *.
    + destruct (restore_loop b1 pipe (bc_indices c1) (proj1 Ha) Hp Hix1) as (b' & E' & Hre).
      cbn [bc_indices]. rewrite E'. cbn [rbind]. eexists b1, b', _, _. split; [reflexivity|].
      rewrite bool_decide_true by done. split; [apply Hre|]. by split_and!.
    + eexists b1, b1, _, _. split; [reflexivity|]. rewrite bool_decide_false by done.
      split; [apply Ha|]. by split_and!.
  - eexists b1, b1, c1, ring. split; [reflexivity|]. split; [apply Ha|]. by split_and!.
Qed.

(** ** Properties *)

Definition sample_udp (port : Z) : five_tuple_t :=
  FiveTuple (FiveTupleForHash 0x0A000001 0x0A000002 port 443 L3_IPV4 L4_UDP) zero_sh 7 130 0.

Definition empty_dp_ring : dp_ring :=
  ringbuffer_init (static_ringbuffer DATAPLANE_RINGBUFFER_SIZE
    (DP_REMOVE_BLOOM_FILTER (BloomFilterCmd [] 0))).

Lemma empty_dp_ring_rep : rb_rep DATAPLANE_RINGBUFFER_SIZE empty_dp_ring [].
Proof. by apply rb_rep_init. Qed.

(** Claim C22. Marking a tuple increments, modulo [2^16], the counter of each of
    its four hash positions in its pipe and no other, and queues one command
    exactly when a counter becomes 1; the command carries the positions of those
    filters and 0 for the rest. No access is out of bounds. *)
Theorem bloom_filter_set_irrelevant_spec b ring q ft hs :
  bloom_wf b -> rb_rep DATAPLANE_RINGBUFFER_SIZE ring q -> 0 <= dev_port ft < MAX_DEV_PORT_ID ->
  get_hashes ft = Some hs ->
  let pipe := dev_port_to_pipe (dev_port ft) in
  let fresh i := u16 (count b pipe i (position hs i) + 1) =? 1 in
  let cmd := DP_ADD_BLOOM_FILTER (BloomFilterCmd
               ((fun i => if fresh i then position hs i else 0) <$> [0; 1; 2; 3]) pipe) in
  exists b' ring', bloom_filter_set_irrelevant b ring ft = Ok (b', ring') /\ bloom_wf b' /\
    (forall p i x, count b' p i x =
       if decide (p = pipe /\ 0 <= i < NUM_BLOOMFILTERS /\ x = position hs i)
       then u16 (count b p i x + 1) else count b p i x) /\
    rb_rep DATAPLANE_RINGBUFFER_SIZE ring'
      (if existsb fresh [0; 1; 2; 3] then snd (queue_put DATAPLANE_RINGBUFFER_SIZE q cmd) else q).
Proof.
  intros Hwf Hr Hd Hh pipe fresh cmd.
  destruct (set_irrelevant_ok b ring q ft hs Hwf Hd Hh Hr) as (b' & ring' & E & [Hwf' Hc] & Hr').
  exists b', ring'. split; [done|]. split; [done|]. split.
  - intros p i x. rewrite Hc. fold pipe.
    assert ((p = pipe /\ i ∈ all_filters /\ x = position hs i) <->
            (p = pipe /\ 0 <= i < NUM_BLOOMFILTERS /\ x = position hs i)) as Hiff
      by (by rewrite elem_of_all_filters).
    by rewrite (decide_ext _ _ _ _ Hiff).
  - fold pipe in Hr'. unfold irrelevant_command in Hr'. rewrite all_filters_eq in Hr'.
    change (bc_send (cmd_of hs (new_bit b pipe hs) [0; 1; 2; 3]))
      with (existsb fresh [0; 1; 2; 3]) in Hr'.
    by destruct (existsb fresh [0; 1; 2; 3]).
Qed.

Lemma bloom_filter_set_irrelevant_spec_witness :
  get_hashes (sample_udp 5) = Some [558828; 987389; 882800; 130885] /\
  exists b' ring', bloom_filter_set_irrelevant bloom_filter_init empty_dp_ring (sample_udp 5) = Ok (b', ring') /\
    bloom_wf b' /\
    (forall p i x, count b' p i x =
       if decide (p = 1 /\ 0 <= i < NUM_BLOOMFILTERS /\ x = position [558828; 987389; 882800; 130885] i)
       then u16 (count bloom_filter_init p i x + 1) else count bloom_filter_init p i x) /\
    rb_rep DATAPLANE_RINGBUFFER_SIZE ring'
      [DP_ADD_BLOOM_FILTER (BloomFilterCmd [558828; 987389; 882800; 130885] 1)].
Proof.
  assert (get_hashes (sample_udp 5) = Some [558828; 987389; 882800; 130885]) as Hh
    by (vm_compute; reflexivity).
  assert (0 <= dev_port (sample_udp 5) < MAX_DEV_PORT_ID) as Hd by (vm_compute; split; congruence).
  split; [exact Hh|].
  exact (bloom_filter_set_irrelevant_spec bloom_filter_init empty_dp_ring [] (sample_udp 5) _
           bloom_filter_init_wf empty_dp_ring_rep Hd Hh).
Defined.

(** Claim C23. No false negatives: whatever the bits held, after marking up to a
    queue full of tuples every marked tuple finds its four bits set once the data
    plane has executed the queued commands. *)
Theorem bloom_no_false_negatives (fts : list five_tuple_t) (bits : dp_bits) :
  Forall markable fts -> Z.of_nat (length fts) <= DATAPLANE_RINGBUFFER_SIZE ->
  exists b' ring' q', mark_all fts (bloom_filter_init, empty_dp_ring) = Ok (b', ring') /\
    rb_rep DATAPLANE_RINGBUFFER_SIZE ring' q' /\
    forall ft hs i, ft ∈ fts -> get_hashes ft = Some hs -> 0 <= i < NUM_BLOOMFILTERS ->
      apply_bloom_commands q' bits (dev_port_to_pipe (dev_port ft)) i (position hs i) = true.
Proof.
  intros Hm Hlen. assert (covered bloom_filter_init [] bits) as Hcov.
  { intros p i x _ Hc. unfold count, bloom_filter_init in Hc. rewrite !aget_amake in Hc. lia. }
  destruct (mark_all_ok fts bits _ _ _ bloom_filter_init_wf empty_dp_ring_rep Hcov Hm Hlen)
    as (b' & ring' & q' & E & Hr & _ & Hf).
  exists b', ring', q'. split; [done|]. split; [done|]. intros ft hs i Hin Hh Hi.
  rewrite Forall_forall in Hf. by apply (Hf ft).
Qed.

Lemma bloom_no_false_negatives_witness :
  exists b' ring' q', mark_all [sample_udp 5; sample_udp 6] (bloom_filter_init, empty_dp_ring) = Ok (b', ring') /\
    rb_rep DATAPLANE_RINGBUFFER_SIZE ring' q' /\
    forall ft hs i, ft ∈ [sample_udp 5; sample_udp 6] -> get_hashes ft = Some hs ->
      0 <= i < NUM_BLOOMFILTERS ->
      apply_bloom_commands q' (fun _ _ _ => false) (dev_port_to_pipe (dev_port ft)) i (position hs i) = true.
Proof.
  apply (bloom_no_false_negatives [sample_udp 5; sample_udp 6]).
  - repeat constructor; try (by vm_compute); eexists; vm_compute; reflexivity.
  - by vm_compute.
Defined.

(** A command that does not fit into the queue is lost for good: the
    counters are incremented all the same, so that marking the tuple again, with
    the queue drained, sends nothing and its bits stay as they are. *)
Theorem bloom_dropped_command_lost b ring q ft hs :
  bloom_wf b -> rb_rep DATAPLANE_RINGBUFFER_SIZE ring q ->
  Z.of_nat (length q) = DATAPLANE_RINGBUFFER_SIZE ->
  0 <= dev_port ft < MAX_DEV_PORT_ID -> get_hashes ft = Some hs ->
  (forall i, 0 <= i < NUM_BLOOMFILTERS ->
     count b (dev_port_to_pipe (dev_port ft)) i (position hs i) = 0) ->
  exists b1 ring1, bloom_filter_set_irrelevant b ring ft = Ok (b1, ring1) /\
    rb_rep DATAPLANE_RINGBUFFER_SIZE ring1 q /\
    exists b2 ring2, bloom_filter_set_irrelevant b1 empty_dp_ring ft = Ok (b2, ring2) /\
      rb_rep DATAPLANE_RINGBUFFER_SIZE ring2 [].
Proof.
  intros Hwf Hr Hfull Hd Hh H0. set (pipe := dev_port_to_pipe (dev_port ft)) in *.
  destruct (set_irrelevant_ok b ring q ft hs Hwf Hd Hh Hr) as (b1 & ring1 & E1 & [Hwf1 Hc1] & Hr1).
  exists b1, ring1. split; [done|]. split.
  - fold pipe in Hr1. unfold queue_send, queue_put in Hr1.
    destruct (irrelevant_command b pipe hs); [|done]. by rewrite decide_True in Hr1.
  - destruct (set_irrelevant_ok b1 empty_dp_ring [] ft hs Hwf1 Hd Hh empty_dp_ring_rep)
      as (b2 & ring2 & E2 & _ & Hr2).
    exists b2, ring2. split; [done|]. fold pipe in Hr2, Hc1.
    assert (forall i, i ∈ all_filters -> new_bit b1 pipe hs i = false) as Hold.
    { intros i Hi. unfold new_bit. rewrite Hc1, decide_True by done.
      rewrite H0 by (by apply elem_of_all_filters). reflexivity. }
    unfold irrelevant_command in Hr2.
    assert (bc_send (cmd_of hs (new_bit b1 pipe hs) all_filters) = false) as Hs.
    { change (existsb (new_bit b1 pipe hs) all_filters = false). apply not_true_is_false.
      intros (i & Hi%list_elem_of_In & Hn)%existsb_exists. by rewrite Hold in Hn. }
    by rewrite Hs in Hr2.
Qed.

Lemma full_dp_ring : exists (ring : dp_ring) (q : list dataplane_command_t), rb_rep DATAPLANE_RINGBUFFER_SIZE ring q /\
  Z.of_nat (length q) = DATAPLANE_RINGBUFFER_SIZE.
Proof.
  set (c := DP_REMOVE_BLOOM_FILTER (BloomFilterCmd [] 0)).
  assert (forall n, Z.of_nat n <= DATAPLANE_RINGBUFFER_SIZE ->
            exists ring, rb_rep DATAPLANE_RINGBUFFER_SIZE ring (repeat c n)) as Hfill.
  { induction n as [|n IH]; intros Hn; [exists empty_dp_ring; apply empty_dp_ring_rep|].
    destruct IH as [ring Hr]; [lia|].
    destruct (ring_put_ok ring (repeat c n) c Hr) as (ring' & _ & Hr'). exists ring'.
    unfold queue_send, queue_put in Hr'. rewrite repeat_length, decide_False in Hr' by lia.
    cbn [snd] in Hr'. by rewrite <- repeat_cons in Hr'. }
  destruct (Hfill (Z.to_nat DATAPLANE_RINGBUFFER_SIZE)) as [ring Hr].
  - rewrite Z2Nat.id; done.
  - exists ring, (repeat c (Z.to_nat DATAPLANE_RINGBUFFER_SIZE)). split; [done|].
    rewrite repeat_length, Z2Nat.id; done.
Qed.

Lemma bloom_dropped_command_lost_witness :
  exists (ring : dp_ring) (q : list dataplane_command_t) b1 ring1,
    bloom_filter_set_irrelevant bloom_filter_init ring (sample_udp 5) = Ok (b1, ring1) /\
    Z.of_nat (length q) = DATAPLANE_RINGBUFFER_SIZE /\
    rb_rep DATAPLANE_RINGBUFFER_SIZE ring1 q /\
    exists b2 ring2, bloom_filter_set_irrelevant b1 empty_dp_ring (sample_udp 5) = Ok (b2, ring2) /\
      rb_rep DATAPLANE_RINGBUFFER_SIZE ring2 [].
Proof.
  destruct full_dp_ring as (ring & q & Hr & Hq). exists ring, q.
  destruct (bloom_dropped_command_lost bloom_filter_init ring q (sample_udp 5)
              [558828; 987389; 882800; 130885] bloom_filter_init_wf Hr Hq) as (b1 & ring1 & E & H1 & H2).
  - vm_compute. split; congruence.
  - vm_compute. reflexivity.
  - intros i _. unfold count, bloom_filter_init. rewrite !aget_amake. reflexivity.
  - exists b1, ring1. split; [exact E|]. split; [exact Hq|]. split; [exact H1|exact H2].
Defined.

(** A tuple that shares some but not all of its positions with earlier
    ones also sets bit 0 of the filters it shares: their index in the command is
    still the initial 0, which the data plane takes for a position. *)
Theorem bloom_spurious_bit_zero b ring q ft hs i j (bits : dp_bits) :
  bloom_wf b -> rb_rep DATAPLANE_RINGBUFFER_SIZE ring q ->
  Z.of_nat (length q) < DATAPLANE_RINGBUFFER_SIZE ->
  0 <= dev_port ft < MAX_DEV_PORT_ID -> get_hashes ft = Some hs ->
  let pipe := dev_port_to_pipe (dev_port ft) in
  0 <= i < NUM_BLOOMFILTERS -> count b pipe i (position hs i) = 0 ->
  0 <= j < NUM_BLOOMFILTERS -> 0 < count b pipe j (position hs j) ->
  exists b' ring' q', bloom_filter_set_irrelevant b ring ft = Ok (b', ring') /\
    rb_rep DATAPLANE_RINGBUFFER_SIZE ring' q' /\ apply_bloom_commands q' bits pipe j 0 = true.
Proof.
  intros Hwf Hr Hroom Hd Hh pipe Hi Hci Hj Hcj.
  destruct (set_irrelevant_ok b ring q ft hs Hwf Hd Hh Hr) as (b' & ring' & E & _ & Hr').
  eexists b', ring', _. split; [done|]. split; [exact Hr'|]. fold pipe.
  assert (new_bit b pipe hs i = true) as Hn by (unfold new_bit; by rewrite Hci).
  assert (new_bit b pipe hs j = false) as Ho.
  { unfold new_bit. apply Z.eqb_neq. pose proof (bw_range _ Hwf pipe j (position hs j)).
    unfold u16. destruct (decide (count b pipe j (position hs j) + 1 = 2 ^ 16)) as [->|]; [done|].
    rewrite Z.mod_small; lia. }
  unfold irrelevant_command. rewrite (cmd_of_send hs (new_bit b pipe hs) i Hi Hn).
  unfold queue_send, queue_put. rewrite decide_False by lia. cbn [snd]. rewrite apply_snoc.
  cbn [apply_bloom_command pipe_id bloom_filter_indices].
  rewrite (cmd_of_index hs (new_bit b pipe hs) j Hj), Ho.
  rewrite (bool_decide_true (pipe = pipe)), (bool_decide_true (0 <= 0)) by (done || lia).
  rewrite bool_decide_true by (split; [lia|done]). by rewrite orb_true_r.
Qed.

(** A filter in which only position [i = 1] of the sample is counted. *)
Lemma bloom_spurious_bit_zero_witness :
  exists b' ring' q',
    bloom_filter_set_irrelevant (bset bloom_filter_init 1 1 987389 1) empty_dp_ring (sample_udp 5) =
      Ok (b', ring') /\
    rb_rep DATAPLANE_RINGBUFFER_SIZE ring' q' /\
    apply_bloom_commands q' (fun _ _ _ => false) 1 1 0 = true.
Proof.
  apply (bloom_spurious_bit_zero (bset bloom_filter_init 1 1 987389 1) empty_dp_ring [] (sample_udp 5)
           [558828; 987389; 882800; 130885] 0 1).
  - apply bset_wf; [apply bloom_filter_init_wf|lia].
  - apply empty_dp_ring_rep.
  - by vm_compute.
  - vm_compute. split; congruence.
  - vm_compute. reflexivity.
  - vm_compute. split; congruence.
  - vm_compute. reflexivity.
  - vm_compute. split; congruence.
  - vm_compute. reflexivity.
Defined.

(** One step of the maintenance thread takes one off every counter of
    the position that its draw hits, and stops at 0. When a counter became zero
    the removal command is queued; when the queue has no room for it, the counters at
    the command's four indices are incremented again; those indices are the position
    for the filters that became zero, but whatever an earlier command left for the
    others. *)
Theorem maintenance_index_spec b c ring q pipe index random :
  bloom_wf b -> rb_rep DATAPLANE_RINGBUFFER_SIZE ring q -> indices_wf (bc_indices c) ->
  bc_send c = false -> 0 <= pipe < NUM_PIPES -> 0 <= index < BLOOMFILTER_WIDTH ->
  exists b1 b' c' ring',
    maintenance_index pipe random index (b, c, ring) = Ok (b', c', ring') /\
    bloom_wf b' /\ bc_send c' = false /\
    (forall i, 0 <= i < NUM_BLOOMFILTERS -> position (bc_indices c') i =
       if zeroed b pipe index (random index) i then index else position (bc_indices c) i) /\
    aged b pipe index (random index) all_filters b1 /\ indices_wf (bc_indices c') /\
    rb_rep DATAPLANE_RINGBUFFER_SIZE ring' (queue_send q
      (if existsb (zeroed b pipe index (random index)) all_filters
       then Some (DP_REMOVE_BLOOM_FILTER (BloomFilterCmd (bc_indices c') pipe)) else None)) /\
    if existsb (zeroed b pipe index (random index)) all_filters &&
       bool_decide (Z.of_nat (length q) = DATAPLANE_RINGBUFFER_SIZE)
    then restored b1 pipe (bc_indices c') all_filters b' else b' = b1.
Proof. exact (maintenance_index_ok b c ring q pipe index random). Qed.

(** Counter 5 in filter 2; the draw 2 hits. *)
Lemma maintenance_index_spec_witness :
  exists b' c' ring',
    maintenance_index 0 (fun _ i => i) 7 (bset bloom_filter_init 0 2 7 5, empty_bloom_command, empty_dp_ring) =
      Ok (b', c', ring') /\
    bloom_wf b' /\ indices_wf (bc_indices c') /\ exists q', rb_rep DATAPLANE_RINGBUFFER_SIZE ring' q'.
Proof.
  destruct (maintenance_index_spec (bset bloom_filter_init 0 2 7 5) empty_bloom_command empty_dp_ring []
           0 7 (fun _ i => i)) as (b1 & b' & c' & ring' & E & Hwf & _ & _ & _ & Hix & Hq & _).
  - apply bset_wf; [apply bloom_filter_init_wf|lia].
  - apply empty_dp_ring_rep.
  - exact empty_indices_wf.
  - reflexivity.
  - vm_compute. split; congruence.
  - vm_compute. split; congruence.
  - exists b', c', ring'. split; [exact E|]. split; [exact Hwf|]. split; [exact Hix|]. eexists. exact Hq.
Defined.
