(* ===== verification/FlowDb.v ===== *)
(** * Flow database ([flow_db/flow_db.c])

    The thread that owns the flow and session tables and the heaps of free ids:
    it executes the commands of the packet ring buffer and sends commands to the
    data plane. The file models every handler on the concrete tables, heaps and
    ring buffer, and proves them, with sessions disabled, against an abstract
    state of two finite maps, the sorted free ids of each pipe and the queue of
    pending data plane commands. *)

From S2P Require Import Prelude Structs Heap Ringbuffer IdTable FlowTable SessionTable BloomFilter.

Notation heaps := (arr heapqueue_t).

(** The state of the thread and of the global tables it works on. A uuid is the
    list of its characters. *)
Record flowdb_t : Type := Flowdb {
  flow_id_heap : heaps;
  session_id_heap : heaps;
  uuid_mapping : arr (list Z);
  flow_hashtable : flow_hashtable_t;
  session_hashtable : session_hashtable_t;
  bloom_filter : bloom_filter_t;
  dataplane_ringbuffer : dp_ring }.

Definition with_flow_id_heap h db := Flowdb h (session_id_heap db) (uuid_mapping db)
  (flow_hashtable db) (session_hashtable db) (bloom_filter db) (dataplane_ringbuffer db).
Definition with_session_id_heap h db := Flowdb (flow_id_heap db) h (uuid_mapping db)
  (flow_hashtable db) (session_hashtable db) (bloom_filter db) (dataplane_ringbuffer db).
Definition with_uuid_mapping u db := Flowdb (flow_id_heap db) (session_id_heap db) u
  (flow_hashtable db) (session_hashtable db) (bloom_filter db) (dataplane_ringbuffer db).
Definition with_flow_hashtable t db := Flowdb (flow_id_heap db) (session_id_heap db) (uuid_mapping db)
  t (session_hashtable db) (bloom_filter db) (dataplane_ringbuffer db).
Definition with_session_hashtable t db := Flowdb (flow_id_heap db) (session_id_heap db) (uuid_mapping db)
  (flow_hashtable db) t (bloom_filter db) (dataplane_ringbuffer db).
Definition with_bloom_filter b db := Flowdb (flow_id_heap db) (session_id_heap db) (uuid_mapping db)
  (flow_hashtable db) (session_hashtable db) b (dataplane_ringbuffer db).
Definition with_dataplane_ringbuffer r db := Flowdb (flow_id_heap db) (session_id_heap db)
  (uuid_mapping db) (flow_hashtable db) (session_hashtable db) (bloom_filter db) r.

(** [heap_pop(&heap[pipe])] and [heap_push(&heap[pipe], id)]. *)
Definition pop_id (hs : heaps) (pipe : Z) : res (heaps * Z) :=
  let! h := rd hs pipe in
  let! '(h, id) := heap_pop h in
  let! hs := wr hs pipe h in
  Ok (hs, id).
Definition push_id (hs : heaps) (pipe id : Z) : res heaps :=
  let! h := rd hs pipe in
  let! h := heap_push h id in
  wr hs pipe h.

Definition with_egress_offset (ft : five_tuple_t) (offset : Z) : five_tuple_t :=
  FiveTuple (ft_h ft) (ft_sh ft) (ingress_ts ft) (dev_port ft) offset.

(** ** Operations

    The lookups and removals write their result exactly when they report 0, which
    is how the handlers are written here; [DEVPORT_MAPPING] is the table of [prepare_dataplane.c]; [uuid] the text that
    libuuid generates for this call; [garbage] the indeterminate value of the
    uninitialised [session_id] of [session_cleanup_after_flow_remove]. *)
Section operations.
Context (use_sessions : bool) (DEVPORT_MAPPING : arr Z) (uuid : list Z) (garbage : Z).

Definition mk_uuid (db : flowdb_t) (session_id : Z) : res flowdb_t :=
  let! u := wr (uuid_mapping db) session_id uuid in
  Ok (with_uuid_mapping u db).

Definition dp_put (db : flowdb_t) (command : dataplane_command_t) : res (Z * flowdb_t) :=
  let! '(status, ring) :=
    ringbuffer_put DATAPLANE_RINGBUFFER_SIZE (dataplane_ringbuffer db) command in
  Ok (status, with_dataplane_ringbuffer ring db).

(** The part of [add_flow] after the session id is known. *)
Definition add_flow_send (db : flowdb_t) (five_tuple : five_tuple_t) (flow_id session_id : Z)
    : res flowdb_t :=
  let! '(_, st) := session_hashtable_add_or_increase_flow_count use_sessions
                     (session_hashtable db) five_tuple session_id in
  let db := with_session_hashtable st db in
  let! '(status, db) := dp_put db (DP_ADD_FLOW (MatchTableCmd five_tuple flow_id session_id)) in
  if negb (status =? 0) then
    let! hs := push_id (flow_id_heap db) (dev_port_to_pipe (dev_port five_tuple)) flow_id in
    let db := with_flow_id_heap hs db in
    let! '(_, _, ft) := flow_hashtable_remove_by_value (flow_hashtable db) flow_id in
    Ok (with_flow_hashtable ft db)
  else Ok db.

(** The part of [add_flow] after the flow is in its table. *)
Definition add_flow_session (db : flowdb_t) (five_tuple : five_tuple_t) (flow_id : Z) : res flowdb_t :=
  let! '(ret, found) := session_hashtable_get use_sessions (session_hashtable db) five_tuple in
  match found with
  | Some session_id => add_flow_send db five_tuple flow_id session_id
  | None =>
      let! '(hs, session_id) := pop_id (session_id_heap db) (dev_port_to_pipe (dev_port five_tuple)) in
      let! db := mk_uuid (with_session_id_heap hs db) session_id in
      if session_id =? 0 then Ok db
      else add_flow_send db five_tuple flow_id session_id
  end.

Definition add_flow (db : flowdb_t) (five_tuple : five_tuple_t) : res flowdb_t :=
  let! egress_port := rd DEVPORT_MAPPING (dev_port five_tuple) in
  if egress_port =? -1 then Ok db
  else
    let pipe := dev_port_to_pipe (dev_port five_tuple) in
    let! '(hs, flow_id) := pop_id (flow_id_heap db) pipe in
    let db := with_flow_id_heap hs db in
    if flow_id =? 0 then Ok db
    else
      let five_tuple := with_egress_offset five_tuple (i8 (dev_port_to_pipe egress_port - pipe)) in
      let! '(ret, ft) := flow_hashtable_add (flow_hashtable db) five_tuple flow_id in
      let db := with_flow_hashtable ft db in
      if negb (ret =? 0) then
        let! hs := push_id (flow_id_heap db) pipe flow_id in
        Ok (with_flow_id_heap hs db)
      else add_flow_session db five_tuple flow_id.

Definition clear_registers (db : flowdb_t) (five_tuple : five_tuple_t) (session_id : Z) : res flowdb_t :=
  let! '(_, db) := dp_put db (DP_CLEAR_REGISTERS (MatchTableCmd five_tuple 0 session_id)) in
  Ok db.

Definition session_cleanup_after_flow_remove (db : flowdb_t) (five_tuple : five_tuple_t) : res flowdb_t :=
  let! '(ret, session_id, st) := session_hashtable_remove_or_decrease_flow_count use_sessions
                                   (session_hashtable db) five_tuple garbage in
  let db := with_session_hashtable st db in
  if ret =? 0 then
    let session_id := default garbage session_id in
    let! hs := push_id (session_id_heap db) (dev_port_to_pipe (dev_port five_tuple)) session_id in
    clear_registers (with_session_id_heap hs db) five_tuple session_id
  else Ok db.

Definition remove_flow_by_five_tuple (db : flowdb_t) (five_tuple : five_tuple_t) : res flowdb_t :=
  let! '(ret, flow_id, ft) := flow_hashtable_remove (flow_hashtable db) five_tuple in
  let db := with_flow_hashtable ft db in
  match flow_id with
  | Some flow_id =>
      let! hs := push_id (flow_id_heap db) (dev_port_to_pipe (dev_port five_tuple)) flow_id in
      let! '(_, db) := dp_put (with_flow_id_heap hs db)
                         (DP_REMOVE_FLOW (MatchTableCmd five_tuple flow_id 0)) in
      session_cleanup_after_flow_remove db five_tuple
  | None => Ok db
  end.

Definition remove_flow_by_flow_id (db : flowdb_t) (flow_id : Z) : res flowdb_t :=
  let! '(ret, five_tuple, ft) := flow_hashtable_remove_by_value (flow_hashtable db) flow_id in
  let db := with_flow_hashtable ft db in
  match five_tuple with
  | Some five_tuple =>
      let! hs := push_id (flow_id_heap db) (dev_port_to_pipe (dev_port five_tuple)) flow_id in
      let db := with_flow_id_heap hs db in
      let! ring := ringbuffer_ensure_put DATAPLANE_RINGBUFFER_SIZE (dataplane_ringbuffer db)
                     (DP_REMOVE_FLOW (MatchTableCmd five_tuple flow_id 0)) in
      session_cleanup_after_flow_remove (with_dataplane_ringbuffer ring db) five_tuple
  | None => Ok db
  end.

(** The [switch] of [flowdb_thread]. *)
Definition flowdb_command (db : flowdb_t) (command : packet_item_t) : res flowdb_t :=
  match command with
  | PKT_ADD_FLOW ft => add_flow db ft
  | PKT_REMOVE_FLOW ft => remove_flow_by_five_tuple db ft
  | PKT_ADD_BLOOM_FILTER_IRRELEVANT ft =>
      let! '(b, ring) := bloom_filter_set_irrelevant (bloom_filter db) (dataplane_ringbuffer db) ft in
      Ok (with_bloom_filter b (with_dataplane_ringbuffer ring db))
  | PKT_FIX_BLOOM_FILTER_RELEVANT ft =>
      let! ring := bloom_filter_set_relevant (bloom_filter db) (dataplane_ringbuffer db) ft in
      Ok (with_dataplane_ringbuffer ring db)
  | PKT_TIMEOUT_FLOW flow_id => remove_flow_by_flow_id db flow_id
  | PKT_REMOVE_BLOOM_FILTER _ => Ok db
  end.
End operations.

(** *** Start of the thread: every heap is filled with the ids of its pipe *)

Definition fill_heap (pipe : Z) (h : heapqueue_t) : res heapqueue_t :=
  foldM (fun index h =>
           let! d := wr (data h) index ((index + 1) * 4 + pipe) in
           Ok (with_data d h)) (seqZ 0 HEAPSIZE) h.

Definition init_pipe (pipe : Z) (s : heaps * heaps) : res (heaps * heaps) :=
  let '(fs, ss) := s in
  let! f := rd fs pipe in
  let! s := rd ss pipe in
  let! f := fill_heap pipe f in
  let! s := fill_heap pipe s in
  let! f := heap_build f HEAPSIZE in
  let! s := heap_build s HEAPSIZE in
  let! fs := wr fs pipe f in
  let! ss := wr ss pipe s in
  Ok (fs, ss).

Definition UUID_STR_LEN : Z := 37.

Definition flowdb_start (db : flowdb_t) : res flowdb_t :=
  let! '(fs, ss) := foldM init_pipe (seqZ 0 NUM_PIPES) (flow_id_heap db, session_id_heap db) in
  Ok (with_uuid_mapping (amake FEATURE_SIZE (repeat 0 (Z.to_nat UUID_STR_LEN)))
        (with_flow_id_heap fs (with_session_id_heap ss db))).

(** The static state, with the initialisations of [low_level_controller]. *)
Definition static_heaps : heaps := amake NUM_PIPES (Heapqueue 0 (amake HEAPSIZE 0)).
Definition static_flowdb : flowdb_t :=
  Flowdb static_heaps static_heaps (amake FEATURE_SIZE []) flow_hashtable_init
    (session_hashtable_init (amake FEATURE_SIZE 0)) bloom_filter_init empty_dp_ring.

(** ** Specification, with sessions disabled

    The abstract state: the flows and sessions by key, the free ids of each pipe
    in ascending order, the pending data plane commands, and the Bloom filter. *)
Record fd_state : Type := FdState {
  a_flows : id_map;
  a_sessions : id_map;
  a_free_flows : Z -> list Z;
  a_free_sessions : Z -> list Z;
  a_queue : list dataplane_command_t;
  a_bloom : bloom_filter_t }.

Definition fupd {A} (f : Z -> A) (p : Z) (v : A) : Z -> A := fun x => if decide (x = p) then v else f x.

Definition dp_full (s : fd_state) : Prop := Z.of_nat (length (a_queue s)) = DATAPLANE_RINGBUFFER_SIZE.

(** A put that may be dropped. *)
Definition spec_put (c : dataplane_command_t) (s : fd_state) : fd_state :=
  FdState (a_flows s) (a_sessions s) (a_free_flows s) (a_free_sessions s)
    (queue_send (a_queue s) (Some c)) (a_bloom s).

Definition spec_take_flow (k : list Z) (ft : five_tuple_t) (pipe id : Z) (s : fd_state) : fd_state :=
  FdState (<[k := (ft, id)]> (a_flows s)) (a_sessions s)
    (fupd (a_free_flows s) pipe (snd (pq_pop (a_free_flows s pipe)))) (a_free_sessions s)
    (a_queue s) (a_bloom s).
Definition spec_give_flow (k : list Z) (pipe id : Z) (s : fd_state) : fd_state :=
  FdState (delete k (a_flows s)) (a_sessions s)
    (fupd (a_free_flows s) pipe (pq_push id (a_free_flows s pipe))) (a_free_sessions s)
    (a_queue s) (a_bloom s).
Definition spec_take_session (k : list Z) (ft : five_tuple_t) (pipe id : Z) (s : fd_state) : fd_state :=
  FdState (a_flows s) (<[k := (ft, id)]> (a_sessions s)) (a_free_flows s)
    (fupd (a_free_sessions s) pipe (snd (pq_pop (a_free_sessions s pipe)))) (a_queue s) (a_bloom s).
Definition spec_give_session (k : list Z) (pipe id : Z) (s : fd_state) : fd_state :=
  FdState (a_flows s) (delete k (a_sessions s)) (a_free_flows s)
    (fupd (a_free_sessions s) pipe (pq_push id (a_free_sessions s pipe))) (a_queue s) (a_bloom s).

(** The add command, or the flow is taken back when the queue is full. *)
Definition spec_send_add (ft : five_tuple_t) (flow_id session_id : Z) (s : fd_state) : fd_state :=
  if decide (dp_full s) then spec_give_flow (flow_key ft) (dev_port_to_pipe (dev_port ft)) flow_id s
  else spec_put (DP_ADD_FLOW (MatchTableCmd ft flow_id session_id)) s.

Definition spec_add (DEVPORT_MAPPING : arr Z) (ft : five_tuple_t) (s : fd_state) : fd_state :=
  let egress := aget DEVPORT_MAPPING (dev_port ft) in
  let pipe := dev_port_to_pipe (dev_port ft) in
  let k := flow_key ft in
  if egress =? -1 then s
  else
    match a_free_flows s pipe, a_flows s !! k with
    | id :: _, None =>
        let ft := with_egress_offset ft (i8 (dev_port_to_pipe egress - pipe)) in
        let s := spec_take_flow k ft pipe id s in
        match a_sessions s !! k, a_free_sessions s pipe with
        | Some x, _ => spec_send_add ft id (snd x) s
        | None, sid :: _ => spec_send_add ft id sid (spec_take_session k ft pipe sid s)
        | None, [] => s
        end
    | _, _ => s
    end.

Definition spec_cleanup (ft : five_tuple_t) (s : fd_state) : fd_state :=
  match a_sessions s !! flow_key ft with
  | Some x =>
      spec_put (DP_CLEAR_REGISTERS (MatchTableCmd ft 0 (snd x)))
        (spec_give_session (flow_key ft) (dev_port_to_pipe (dev_port ft)) (snd x) s)
  | None => s
  end.

Definition spec_remove_flow (ft : five_tuple_t) (id : Z) (s : fd_state) : fd_state :=
  spec_cleanup ft (spec_put (DP_REMOVE_FLOW (MatchTableCmd ft id 0))
    (spec_give_flow (flow_key ft) (dev_port_to_pipe (dev_port ft)) id s)).

Definition spec_command (DEVPORT_MAPPING : arr Z) (c : packet_item_t) (s : fd_state) : fd_state :=
  match c with
  | PKT_ADD_FLOW ft => spec_add DEVPORT_MAPPING ft s
  | PKT_REMOVE_FLOW ft =>
      match a_flows s !! flow_key ft with
      | Some x => spec_remove_flow ft (snd x) s
      | None => s
      end
  | PKT_TIMEOUT_FLOW id =>
      match id_owner (a_flows s) id with
      | Some ft => spec_remove_flow ft id s
      | None => s
      end
  | PKT_ADD_BLOOM_FILTER_IRRELEVANT ft =>
      match get_hashes ft with
      | Some hs => FdState (a_flows s) (a_sessions s) (a_free_flows s) (a_free_sessions s)
          (queue_send (a_queue s) (irrelevant_command (a_bloom s) (dev_port_to_pipe (dev_port ft)) hs))
          (mark_filter (a_bloom s) (dev_port_to_pipe (dev_port ft)) hs)
      | None => s
      end
  | PKT_FIX_BLOOM_FILTER_RELEVANT ft =>
      match get_hashes ft with
      | Some hs => FdState (a_flows s) (a_sessions s) (a_free_flows s) (a_free_sessions s)
          (queue_send (a_queue s) (relevant_command (a_bloom s) (dev_port_to_pipe (dev_port ft)) hs))
          (a_bloom s)
      | None => s
      end
  | PKT_REMOVE_BLOOM_FILTER _ => s
  end.

(** *** Representation *)

Record heaps_rep (hs : heaps) (free : Z -> list Z) : Prop := HeapsRep {
  hs_len : alen hs = NUM_PIPES;
  hs_rep : forall p, 0 <= p < NUM_PIPES -> heap_rep (aget hs p) (free p) }.

(** [S] says what the session table stands for. *)
Record db_rep (S : session_hashtable_t -> id_map -> Prop) (db : flowdb_t) (s : fd_state) : Prop := FdRep {
  fd_flow_heaps : heaps_rep (flow_id_heap db) (a_free_flows s);
  fd_session_heaps : heaps_rep (session_id_heap db) (a_free_sessions s);
  fd_uuids : alen (uuid_mapping db) = FEATURE_SIZE;
  fd_flows : it_rep (flow_hashtable db) (a_flows s);
  fd_sessions : S (session_hashtable db) (a_sessions s);
  fd_bloom : bloom_filter db = a_bloom s;
  fd_bloom_wf : bloom_wf (a_bloom s);
  fd_queue : rb_rep DATAPLANE_RINGBUFFER_SIZE (dataplane_ringbuffer db) (a_queue s) }.
Arguments fd_flow_heaps {S} _ _ _.
Arguments fd_session_heaps {S} _ _ _.
Arguments fd_uuids {S} _ _ _.
Arguments fd_flows {S} _ _ _.
Arguments fd_sessions {S} _ _ _.
Arguments fd_bloom {S} _ _ _.
Arguments fd_bloom_wf {S} _ _ _.
Arguments fd_queue {S} _ _ _.

(** With sessions disabled the session table is a table of ids. *)
Notation fd_rep := (db_rep it_rep).

(** The ids of a pipe: four times the register index plus the pipe. *)
Definition pipe_id (p id : Z) : Prop := exists i, 0 <= i < HEAPSIZE /\ id = (i + 1) * 4 + p.
Definition pipe_ids (p : Z) : list Z := (fun i => (i + 1) * 4 + p) <$> seqZ 0 HEAPSIZE.

(** Every id of a pipe is either free in the pipe's heap or owned by exactly one
    entry, and an entry owns an id of the pipe of its key. [owner] is the pipe on
    which the packets of a key arrive. *)
Record ids_ok_by (key : five_tuple_t -> list Z) (owner : list Z -> Z) (M : id_map) (free : Z -> list Z) : Prop := IdsOk {
  io_nodup : forall p, 0 <= p < NUM_PIPES -> NoDup (free p);
  io_free : forall p id, 0 <= p < NUM_PIPES ->
    id ∈ free p <-> pipe_id p id /\ id_free id M;
  io_owned : forall k x, M !! k = Some x ->
    0 <= owner k < NUM_PIPES /\ pipe_id (owner k) (snd x) /\
    dev_port_to_pipe (dev_port (fst x)) = owner k /\ k = key (fst x);
  io_distinct : forall k1 k2 x1 x2, M !! k1 = Some x1 -> M !! k2 = Some x2 ->
    snd x1 = snd x2 -> k1 = k2 }.
Arguments io_nodup {key} _ _ _ _.
Arguments io_free {key} _ _ _ _.
Arguments io_owned {key} _ _ _ _.
Arguments io_distinct {key} _ _ _ _.
Notation ids_ok := (ids_ok_by flow_key).

Record fd_inv (owner : list Z -> Z) (s : fd_state) : Prop := FdInv {
  fi_flows : ids_ok owner (a_flows s) (a_free_flows s);
  fi_sessions : ids_ok owner (a_sessions s) (a_free_sessions s) }.

(** ** Proofs *)

#[local] Opaque flow_hashtable_add flow_hashtable_get flow_hashtable_remove
  flow_hashtable_remove_by_value session_hashtable_get
  session_hashtable_add_or_increase_flow_count session_hashtable_remove_or_decrease_flow_count
  ringbuffer_put ringbuffer_ensure_put heap_pop while FEATURE_SIZE.

Lemma fupd_eq {A} (f : Z -> A) p v : fupd f p v p = v.
Proof. unfold fupd. by rewrite decide_True. Qed.
Lemma fupd_ne {A} (f : Z -> A) p v x : x <> p -> fupd f p v x = f x.
Proof. intros. unfold fupd. by rewrite decide_False. Qed.

(** *** Heaps *)

Lemma heaps_rep_upd hs free p h l :
  heaps_rep hs free -> 0 <= p < NUM_PIPES -> heap_rep h l -> heaps_rep (aset hs p h) (fupd free p l).
Proof.
  intros [Hl Hr] Hp Hh. split; [done|]. intros q Hq. rewrite aget_aset. unfold fupd.
  destruct (decide (q = p)) as [->|]; [by rewrite decide_True|].
  rewrite decide_False by congruence. auto.
Qed.

Lemma pop_id_ok hs free p :
  heaps_rep hs free -> 0 <= p < NUM_PIPES ->
  exists hs', pop_id hs p = Ok (hs', fst (pq_pop (free p))) /\
              heaps_rep hs' (fupd free p (snd (pq_pop (free p)))).
Proof.
  intros Hr Hp. pose proof Hr as [Hl Hh]. unfold pop_id. rewrite rd_ok by lia. cbn [rbind].
  destruct (heap_pop_rep _ _ (Hh p Hp)) as (h' & -> & Hh'). cbn [rbind].
  rewrite wr_ok by lia. cbn [rbind]. eexists. split; [reflexivity|]. by apply heaps_rep_upd.
Qed.

Lemma push_id_ok hs free p id :
  heaps_rep hs free -> 0 <= p < NUM_PIPES -> Z.of_nat (length (free p)) < HEAPSIZE ->
  exists hs', push_id hs p id = Ok hs' /\ heaps_rep hs' (fupd free p (pq_push id (free p))).
Proof.
  intros Hr Hp Hlt. pose proof Hr as [Hl Hh]. unfold push_id. rewrite rd_ok by lia. cbn [rbind].
  destruct (heap_push_rep _ _ id (Hh p Hp) Hlt) as (h' & -> & Hh'). cbn [rbind].
  rewrite wr_ok by lia. eexists. split; [reflexivity|]. by apply heaps_rep_upd.
Qed.

(** A push into a full heap writes behind the array. *)
Lemma push_id_full hs free p id :
  heaps_rep hs free -> 0 <= p < NUM_PIPES -> Z.of_nat (length (free p)) = HEAPSIZE ->
  push_id hs p id = UB.
Proof.
  intros [Hl Hh] Hp Hfull. unfold push_id. rewrite rd_ok by lia. cbn [rbind].
  pose proof (heap_rep_size _ _ (Hh p Hp)) as Hs. destruct (hr_wf _ _ (Hh p Hp)) as [Hal _].
  unfold heap_push. unfold wr, in_bounds. cbn [data with_curSize].
  rewrite Hal, Hs, Hfull, Z.ltb_irrefl, andb_false_r. done.
Qed.

Lemma heaps_rep_ext hs f g :
  heaps_rep hs f -> (forall p, 0 <= p < NUM_PIPES -> f p = g p) -> heaps_rep hs g.
Proof. intros [Hl Hr] E. split; [done|]. intros p Hp. rewrite <- E by done. auto. Qed.

(** Pushing the least id back gives the same list. *)
Lemma pq_push_least x l : StronglySorted Z.le (x :: l) -> pq_push x l = x :: l.
Proof.
  intros Hs. apply (Sorted_unique Z.le).
  - apply Sorted_merge_sort. apply _.
  - by apply StronglySorted_Sorted.
  - apply merge_sort_Permutation.
Qed.

Lemma pop_push_id hs free p id l :
  heaps_rep hs free -> 0 <= p < NUM_PIPES -> free p = id :: l ->
  forall hs', heaps_rep hs' (fupd (fupd free p l) p (pq_push id (fupd free p l p))) ->
  heaps_rep hs' free.
Proof.
  intros Hr Hp El hs' Hr'. apply (heaps_rep_ext _ _ _ Hr'). intros q Hq. rewrite fupd_eq.
  destruct (decide (q = p)) as [->|]; [|by rewrite !fupd_ne].
  rewrite fupd_eq, El. apply pq_push_least. rewrite <- El. apply (hr_sorted _ _ (hs_rep _ _ Hr p Hp)).
Qed.

(** *** Ids *)

Lemma pipe_ids_spec p id : id ∈ pipe_ids p <-> pipe_id p id.
Proof.
  unfold pipe_ids, pipe_id. rewrite list_elem_of_fmap. setoid_rewrite elem_of_seqZ0. split; intros (y & H1 & H2); by exists y.
Qed.

Lemma length_pipe_ids p : Z.of_nat (length (pipe_ids p)) = HEAPSIZE.
Proof. unfold pipe_ids. rewrite length_fmap, length_seqZ. by rewrite Z2Nat.id. Qed.

Lemma pipe_id_range p id : 0 <= p < NUM_PIPES -> pipe_id p id -> 4 <= id < FEATURE_SIZE.
Proof.
  unfold NUM_PIPES. rewrite FEATURE_SIZE_val. intros Hp (i & Hi & ->).
  unfold HEAPSIZE, MAX_FLOWS in Hi. lia.
Qed.

Lemma pipe_id_pipe p id : 0 <= p < NUM_PIPES -> pipe_id p id -> flow_id_to_pipe id = p.
Proof.
  unfold NUM_PIPES. intros Hp (i & Hi & ->). unfold flow_id_to_pipe.
  rewrite Z.rem_mod_nonneg by lia. rewrite Z.add_comm, Z.mod_add by lia. apply Z.mod_small. lia.
Qed.

Lemma free_length {key} owner M free p :
  ids_ok_by key owner M free -> 0 <= p < NUM_PIPES -> Z.of_nat (length (free p)) <= HEAPSIZE.
Proof.
  intros [Hnd Hf _ _] Hp. rewrite <- (length_pipe_ids p). apply inj_le, submseteq_length.
  apply NoDup_submseteq; [by apply Hnd|]. intros id Hid. apply pipe_ids_spec. by apply Hf.
Qed.

(** An owned id leaves room in the heap of its pipe. *)
Lemma owned_room {key} owner M free k x :
  ids_ok_by key owner M free -> M !! k = Some x -> Z.of_nat (length (free (owner k))) < HEAPSIZE.
Proof.
  intros Hok Hk. pose proof Hok as [Hnd Hf Ho _]. destruct (Ho k x Hk) as (Hp & Hid & _ & _).
  assert (snd x :: free (owner k) ⊆+ pipe_ids (owner k)) as Hsub.
  { apply NoDup_submseteq.
    - constructor; [|by apply Hnd]. intros Hin. apply Hf in Hin as [_ Hfree]; [|done].
      by apply (Hfree k x Hk).
    - intros id [->|Hin]%elem_of_cons; apply pipe_ids_spec; [done|]. by apply Hf. }
  apply submseteq_length in Hsub. cbn [length] in Hsub. pose proof (length_pipe_ids (owner k)). lia.
Qed.

Lemma ids_ok_take {key} owner M free k ft id l :
  ids_ok_by key owner M free -> 0 <= owner k < NUM_PIPES -> free (owner k) = id :: l -> M !! k = None ->
  dev_port_to_pipe (dev_port ft) = owner k -> k = key ft ->
  ids_ok_by key owner (<[k := (ft, id)]> M) (fupd free (owner k) l).
Proof.
  intros [Hnd Hf Ho Hd] Hp El Hk Hpipe Hkey. pose proof (Hnd _ Hp) as Hndp. rewrite El in Hndp.
  apply NoDup_cons in Hndp as [Hni Hndl].
  assert (pipe_id (owner k) id /\ id_free id M) as [Hid Hfree] by (apply Hf; [done|]; rewrite El; left).
  split.
  - intros q Hq. unfold fupd. case_decide; subst; auto.
  - intros q j Hq. unfold fupd.
    assert (id_free j (<[k:=(ft, id)]> M) <-> id_free j M /\ j <> id) as ->.
    { split.
      - intros H. split.
        + intros k' x' Hk'. apply (H k'). rewrite lookup_insert_ne; congruence.
        + intros ->. by apply (H k (ft, id)); [apply lookup_insert_eq|].
      - intros [H Hne] k' x'. rewrite lookup_insert. case_decide; [by intros [= <-]|apply H]. }
    case_decide as Eq; [subst q|].
    + specialize (Hf (owner k) j Hp). rewrite El, elem_of_cons in Hf. split.
      * intros Hj. assert (j <> id) by congruence. tauto.
      * intros (? & ? & ?). tauto.
    + rewrite Hf by done. split; [|tauto]. intros [Hj Hjf]. split; [done|]. split; [done|].
      intros ->. apply Eq. by rewrite <- (pipe_id_pipe q id), (pipe_id_pipe (owner k) id).
  - intros k' x'. rewrite lookup_insert. case_decide as E; [|apply Ho].
    intros [= <-]. subst k'. split; [done|]. by split_and!.
  - intros k1 k2 x1 x2. rewrite !lookup_insert. repeat case_decide; subst; try done.
    + intros [= <-] H2 E. simpl in E. by destruct (Hfree _ _ H2).
    + intros H1 [= <-] E. simpl in E. by destruct (Hfree _ _ H1).
    + apply Hd.
Qed.

Lemma pq_push_permutation x l : pq_push x l ≡ₚ x :: l.
Proof. apply merge_sort_Permutation. Qed.

Lemma ids_ok_give {key} owner M free k x :
  ids_ok_by key owner M free -> M !! k = Some x ->
  ids_ok_by key owner (delete k M) (fupd free (owner k) (pq_push (snd x) (free (owner k)))).
Proof.
  intros [Hnd Hf Ho Hd] Hk. destruct (Ho k x Hk) as (Hp & Hid & _ & _). split.
  - intros q Hq. unfold fupd. case_decide; [subst q|auto]. rewrite pq_push_permutation.
    constructor; [|auto]. intros Hin. apply Hf in Hin as [_ H]; [|done]. by apply (H k x).
  - intros q j Hq. unfold fupd.
    assert (id_free j (delete k M) <-> id_free j M \/ j = snd x) as ->.
    { split.
      - intros H. destruct (decide (j = snd x)) as [|Hne]; [by right|left].
        intros k' x' Hk'. destruct (decide (k' = k)) as [->|]; [congruence|].
        apply (H k'). by rewrite lookup_delete_ne.
      - intros H k' x'. rewrite lookup_delete. case_decide; [done|]. intros Hk' E.
        destruct H as [H| ->]; [by apply (H k' x')|]. by apply (Hd k' k x' x) in E. }
    case_decide as Eq; [subst q|].
    + rewrite pq_push_permutation, elem_of_cons, Hf by done. split; [|tauto].
      intros [->|[??]]; [by split; [|right]|tauto].
    + rewrite Hf by done. split; [tauto|]. intros [Hj [?| ->]]; [done|].
      exfalso. apply Eq. by rewrite <- (pipe_id_pipe q (snd x)), (pipe_id_pipe (owner k) (snd x)).
  - intros k' x'. rewrite lookup_delete. case_decide; [done|]. apply Ho.
  - intros k1 k2 x1 x2. rewrite !lookup_delete. repeat case_decide; try done. apply Hd.
Qed.

(** The partition of the ids of a pipe. *)
Lemma id_partition {key} owner M free p id :
  ids_ok_by key owner M free -> 0 <= p < NUM_PIPES -> pipe_id p id ->
  (id ∈ free p /\ id_free id M) \/
  (~ id ∈ free p /\ exists k ft, M !! k = Some (ft, id) /\ owner k = p /\
     forall k' ft', M !! k' = Some (ft', id) -> k' = k).
Proof.
  intros [Hnd Hf Ho Hd] Hp Hid. destruct (id_owner M id) as [ft|] eqn:E.
  - right. split.
    + intros Hin. apply Hf in Hin as [_ Hfree]; [|done]. by rewrite (id_free_owner _ _ Hfree) in E.
    + unfold id_owner in E. destruct (filter _ _) as [|[k [ft1 v]] l] eqn:El; [done|].
      assert ((k, (ft1, v)) ∈ filter (fun kx : list Z * (five_tuple_t * Z) => snd (snd kx) = id) (map_to_list M)) as Hin
        by (rewrite El; left).
      apply list_elem_of_filter in Hin as [Hv Hin%elem_of_map_to_list]. simpl in Hv. subst v.
      exists k, ft1. split; [done|]. destruct (Ho _ _ Hin) as (Hpk & Hidk & _). split.
      * by rewrite <- (pipe_id_pipe (owner k) id), (pipe_id_pipe p id).
      * intros k' ft' Hk'. by apply (Hd _ _ _ _ Hk' Hin).
  - left. pose proof (id_owner_free _ _ E). split; [|done]. by apply Hf.
Qed.

(** *** Primitive steps and the representation *)

Definition set_flows M s := FdState M (a_sessions s) (a_free_flows s) (a_free_sessions s) (a_queue s) (a_bloom s).
Definition set_sessions M s := FdState (a_flows s) M (a_free_flows s) (a_free_sessions s) (a_queue s) (a_bloom s).
Definition set_free_flows f s := FdState (a_flows s) (a_sessions s) f (a_free_sessions s) (a_queue s) (a_bloom s).
Definition set_free_sessions f s := FdState (a_flows s) (a_sessions s) (a_free_flows s) f (a_queue s) (a_bloom s).
Definition set_queue q s := FdState (a_flows s) (a_sessions s) (a_free_flows s) (a_free_sessions s) q (a_bloom s).

Section primitives.
Context {S : session_hashtable_t -> id_map -> Prop} (db : flowdb_t) (s : fd_state) (rep : db_rep S db s).

Lemma rep_flow_heap hs f :
  heaps_rep hs f -> db_rep S (with_flow_id_heap hs db) (set_free_flows f s).
Proof using rep. intros. destruct rep. by split. Qed.
Lemma rep_session_heap hs f :
  heaps_rep hs f -> db_rep S (with_session_id_heap hs db) (set_free_sessions f s).
Proof using rep. intros. destruct rep. by split. Qed.
Lemma rep_flow_table t M :
  it_rep t M -> db_rep S (with_flow_hashtable t db) (set_flows M s).
Proof using rep. intros. destruct rep. by split. Qed.
Lemma rep_session_table t M :
  S t M -> db_rep S (with_session_hashtable t db) (set_sessions M s).
Proof using rep. intros. destruct rep. by split. Qed.

Lemma rep_dp_put c :
  exists db', dp_put db c = Ok (fst (queue_put DATAPLANE_RINGBUFFER_SIZE (a_queue s) c), db') /\
              db_rep S db' (spec_put c s).
Proof using rep.
  destruct (ring_put_ok _ _ c (fd_queue _ _ rep)) as (ring & E & Hr). unfold dp_put. rewrite E.
  eexists. split; [reflexivity|]. destruct rep. by split.
Qed.

Lemma rep_mk_uuid uuid id :
  0 <= id < FEATURE_SIZE ->
  exists db', mk_uuid uuid db id = Ok db' /\ db_rep S db' s.
Proof using rep.
  intros Hid. unfold mk_uuid. destruct rep. rewrite wr_ok by lia. cbn [rbind].
  eexists. split; [reflexivity|]. by split.
Qed.
End primitives.

Section steps.
Context (DEVPORT_MAPPING : arr Z) (uuid : list Z) (garbage : Z) (owner : list Z -> Z).

(** The forwarding table maps a port to a port or to -1. *)
Record ports_ok : Prop := PortsOk {
  po_len : alen DEVPORT_MAPPING = MAX_DEV_PORT_ID;
  po_range : forall p, 0 <= p < MAX_DEV_PORT_ID ->
    aget DEVPORT_MAPPING p = -1 \/ 0 <= aget DEVPORT_MAPPING p < MAX_DEV_PORT_ID }.
Context (ports : ports_ok).

(** A tuple whose packets arrive on the pipe of its key. *)
Definition tuple_ok (ft : five_tuple_t) : Prop :=
  0 <= dev_port ft < MAX_DEV_PORT_ID /\ dev_port_to_pipe (dev_port ft) = owner (flow_key ft).

Lemma tuple_pipe ft : tuple_ok ft -> 0 <= owner (flow_key ft) < NUM_PIPES.
Proof using. intros [Hd <-]. by apply dev_port_to_pipe_bound. Qed.

(** The guards of the two interfaces for an id of the pipe. *)
Lemma egress_offset_storable ft pe id :
  0 <= dev_port_to_pipe (dev_port ft) < NUM_PIPES -> 0 <= pe < NUM_PIPES ->
  pipe_id (dev_port_to_pipe (dev_port ft)) id ->
  session_storable (with_egress_offset ft (i8 (pe - dev_port_to_pipe (dev_port ft)))) id.
Proof using.
  intros Hp Hpe Hid. split; [pose proof (pipe_id_range _ _ Hp Hid); lia|].
  unfold egress_index; cbn [session_id_egress_offset with_egress_offset].
  unfold NUM_PIPES in *. destruct Hid as (i & Hi & ->). unfold i8.
  rewrite Z.mod_small by lia. rewrite FEATURE_SIZE_val. unfold HEAPSIZE, MAX_FLOWS in Hi. lia.
Qed.

Lemma dp_status (q : list dataplane_command_t) c :
  negb (fst (queue_put DATAPLANE_RINGBUFFER_SIZE q c) =? 0) =
  bool_decide (Z.of_nat (length q) = DATAPLANE_RINGBUFFER_SIZE).
Proof using. unfold queue_put. by repeat case_decide; repeat case_bool_decide. Qed.

Lemma spec_put_full c s : dp_full s -> spec_put c s = s.
Proof using.
  intros Hf. unfold spec_put, queue_send, queue_put. rewrite decide_True by exact Hf.
  by destruct s.
Qed.

(** Giving a flow id back, by the tuple's port. *)
Lemma give_flow_ok {S} db s k x :
  db_rep S db s -> ids_ok owner (a_flows s) (a_free_flows s) -> a_flows s !! k = Some x ->
  exists hs, push_id (flow_id_heap db) (owner k) (snd x) = Ok hs /\
    heaps_rep hs (fupd (a_free_flows s) (owner k) (pq_push (snd x) (a_free_flows s (owner k)))).
Proof using.
  intros Hr Hok Hk. destruct (io_owned _ _ _ Hok k x Hk) as (Hp & _).
  apply push_id_ok; [apply Hr|done|]. by eapply owned_room.
Qed.

Lemma give_session_ok {S key} db s k x :
  db_rep S db s -> ids_ok_by key owner (a_sessions s) (a_free_sessions s) -> a_sessions s !! k = Some x ->
  exists hs, push_id (session_id_heap db) (owner k) (snd x) = Ok hs /\
    heaps_rep hs (fupd (a_free_sessions s) (owner k) (pq_push (snd x) (a_free_sessions s (owner k)))).
Proof using.
  intros Hr Hok Hk. destruct (io_owned _ _ _ Hok k x Hk) as (Hp & _).
  apply push_id_ok; [apply Hr|done|]. by eapply owned_room.
Qed.

(** *** Adding *)

Lemma add_flow_send_ok {S} us db s' ft id sid r st :
  session_hashtable_add_or_increase_flow_count us (session_hashtable db) ft sid = Ok (r, st) ->
  db_rep S (with_session_hashtable st db) s' ->
  ids_ok owner (a_flows s') (a_free_flows s') -> a_flows s' !! flow_key ft = Some (ft, id) -> tuple_ok ft ->
  exists db', add_flow_send us db ft id sid = Ok db' /\ db_rep S db' (spec_send_add ft id sid s').
Proof using.
  intros Et Hr' Hok Hk [Hd Hpipe]. unfold add_flow_send.
  rewrite Et. cbn [rbind]. destruct (rep_dp_put _ _ Hr' (DP_ADD_FLOW (MatchTableCmd ft id sid)))
    as (db1 & -> & Hr1). cbn [rbind]. rewrite dp_status. unfold spec_send_add.
  destruct (decide (dp_full s')) as [Hfull|Hroom].
  - rewrite bool_decide_true by done. rewrite (spec_put_full _ _ Hfull) in Hr1. rewrite Hpipe.
    destruct (give_flow_ok db1 s' _ _ Hr1 Hok Hk) as (hs & Ehs & Hhs). cbn [snd] in Ehs, Hhs.
    rewrite Ehs. cbn [rbind].
    pose proof (rep_flow_heap _ _ Hr1 _ _ Hhs) as Hr2.
    pose proof (io_owned _ _ _ Hok _ _ Hk) as (Hp & Hid & _). cbn [snd] in Hid.
    pose proof (pipe_id_range _ _ Hp Hid) as Hrange.
    destruct (it_remove_by_value_ok _ _ id (fd_flows _ _ Hr2) ltac:(lia))
      as [(ft' & t' & Hk' & E & Ht')|[Hfree _]].
    2: { by destruct (Hfree _ _ Hk). }
    cbn [a_flows set_free_flows] in Hk', Ht'.
    assert (it_key (T := flow_hashtable_t) ft' = flow_key ft) as Ekey by (by eapply (io_distinct _ _ _ Hok)).
    rewrite Ekey in Ht'.
    change (it_remove_by_value (flow_hashtable (with_flow_id_heap hs db1)) id)
      with (flow_hashtable_remove_by_value (flow_hashtable (with_flow_id_heap hs db1)) id) in E.
    rewrite E. cbn [rbind]. eexists. split; [reflexivity|].
    exact (rep_flow_table _ _ Hr2 _ _ Ht').
  - rewrite bool_decide_false by done. eexists. by split.
Qed.

Lemma spec_send_add_ids s ft id sid :
  ids_ok owner (a_flows s) (a_free_flows s) -> a_flows s !! flow_key ft = Some (ft, id) -> tuple_ok ft ->
  let s' := spec_send_add ft id sid s in
  ids_ok owner (a_flows s') (a_free_flows s') /\ a_sessions s' = a_sessions s /\ a_free_sessions s' = a_free_sessions s.
Proof using.
  intros Hok Hk [_ Hpipe]. unfold spec_send_add. case_decide; [|done]. split; [|done]. rewrite Hpipe.
  exact (ids_ok_give _ _ _ _ _ Hok Hk).
Qed.

Lemma spec_send_add_inv s ft id sid :
  fd_inv owner s -> a_flows s !! flow_key ft = Some (ft, id) -> tuple_ok ft -> fd_inv owner (spec_send_add ft id sid s).
Proof using.
  intros [Hf Hs] Hk Ht. destruct (spec_send_add_ids s ft id sid Hf Hk Ht) as (H1 & E1 & E2).
  split; [exact H1|]. by rewrite E1, E2.
Qed.

Lemma set_free_flows_same s : set_free_flows (a_free_flows s) s = s.
Proof using. by destruct s. Qed.
Lemma set_free_sessions_same s : set_free_sessions (a_free_sessions s) s = s.
Proof using. by destruct s. Qed.

(** A heap without ids is left as it was. *)
Lemma pop_empty hs free p :
  heaps_rep hs free -> 0 <= p < NUM_PIPES -> free p = [] ->
  exists hs', pop_id hs p = Ok (hs', 0) /\ heaps_rep hs' free.
Proof using.
  intros Hr Hp E. destruct (pop_id_ok _ _ _ Hr Hp) as (hs' & Ep & Hr'). rewrite E in Ep, Hr'.
  exists hs'. split; [exact Ep|]. apply (heaps_rep_ext _ _ _ Hr'). intros q _. unfold fupd.
  case_decide; [by subst|done].
Qed.

Lemma pop_least hs free p id l :
  heaps_rep hs free -> 0 <= p < NUM_PIPES -> free p = id :: l ->
  exists hs', pop_id hs p = Ok (hs', id) /\ heaps_rep hs' (fupd free p l).
Proof using.
  intros Hr Hp E. destruct (pop_id_ok _ _ _ Hr Hp) as (hs' & Ep & Hr'). rewrite E in Ep, Hr'. eauto.
Qed.

Lemma with_egress_offset_ok ft o : tuple_ok ft -> tuple_ok (with_egress_offset ft o).
Proof using. done. Qed.

(** From the point where the flow is in the table. *)
Lemma add_flow_session_ok db s ft id :
  fd_rep db s -> fd_inv owner s -> tuple_ok ft ->
  a_flows s !! flow_key ft = Some (ft, id) ->
  (forall sid, pipe_id (dev_port_to_pipe (dev_port ft)) sid -> session_storable ft sid) ->
  let pipe := dev_port_to_pipe (dev_port ft) in
  let s' := match a_sessions s !! flow_key ft, a_free_sessions s pipe with
            | Some x, _ => spec_send_add ft id (snd x) s
            | None, sid :: _ => spec_send_add ft id sid (spec_take_session (flow_key ft) ft pipe sid s)
            | None, [] => s
            end in
  exists db', add_flow_session false uuid db ft id = Ok db' /\ fd_rep db' s' /\ fd_inv owner s'.
Proof using.
  intros Hr Hinv Hft Hk Hst pipe. pose proof Hft as [Hd Hpipe]. fold pipe in Hpipe.
  pose proof (dev_port_to_pipe_bound _ Hd) as Hp. fold pipe in Hp. unfold add_flow_session.
  pose proof (it_get_ok (T := session_hashtable_t) _ _ ft (fd_sessions _ _ Hr)) as Eg.
  change (session_hashtable_get false (session_hashtable db) ft)
    with (it_get (session_hashtable db) ft). rewrite Eg. clear Eg.
  change (it_key (T := session_hashtable_t) ft) with (flow_key ft).
  destruct (a_sessions s !! flow_key ft) as [x|] eqn:Ek; cbn [rbind].
  - pose proof (it_add_present (T := session_hashtable_t) _ _ ft (snd x) x (fd_sessions _ _ Hr) Ek) as Ea.
    assert (fd_rep (with_session_hashtable (session_hashtable db) db) s) as Hr1 by (destruct Hr; by split).
    destruct (add_flow_send_ok false db s ft id (snd x) _ _ Ea Hr1 (fi_flows _ _ Hinv) Hk Hft) as (db' & E & Hr').
    exists db'. split; [exact E|]. split; [exact Hr'|]. by apply spec_send_add_inv.
  - fold pipe. destruct (a_free_sessions s pipe) as [|sid l] eqn:El.
    + destruct (pop_empty _ _ _ (fd_session_heaps _ _ Hr) Hp El) as (hs & -> & Hhs). cbn [rbind].
      pose proof (rep_session_heap _ _ Hr _ _ Hhs) as Hr1. rewrite set_free_sessions_same in Hr1.
      destruct (rep_mk_uuid _ _ Hr1 uuid 0 ltac:(done)) as (db2 & -> & Hr2). cbn [rbind Z.eqb].
      by exists db2.
    + destruct (pop_least _ _ _ _ _ (fd_session_heaps _ _ Hr) Hp El) as (hs & -> & Hhs). cbn [rbind].
      pose proof (fi_sessions _ _ Hinv) as Hok.
      assert (pipe_id pipe sid /\ id_free sid (a_sessions s)) as [Hid Hfree]
        by (apply (io_free _ _ _ Hok); [done|rewrite El; left]).
      pose proof (pipe_id_range _ _ Hp Hid) as Hrange.
      pose proof (rep_session_heap _ _ Hr _ _ Hhs) as Hr1.
      destruct (rep_mk_uuid _ _ Hr1 uuid sid ltac:(lia)) as (db2 & -> & Hr2). cbn [rbind].
      rewrite (proj2 (Z.eqb_neq sid 0)) by lia.
      destruct (it_add_new (T := session_hashtable_t) _ _ ft sid (fd_sessions _ _ Hr2) Ek
                  (Hst sid Hid) Hfree) as (st & Est & Hst').
      pose proof (rep_session_table _ _ Hr2 _ _ Hst') as Hr3.
      set (s3 := spec_take_session (flow_key ft) ft pipe sid s).
      assert (set_sessions (<[it_key (T := session_hashtable_t) ft:=(ft, sid)]> (a_sessions s))
                (set_free_sessions (fupd (a_free_sessions s) pipe l) s) = s3) as Es
        by (unfold s3, spec_take_session; rewrite El; reflexivity).
      cbn [a_sessions set_free_sessions] in Hr3. rewrite Es in Hr3.
      assert (fd_inv owner s3) as Hinv3.
      { split; [apply Hinv|]. unfold s3. cbn [a_sessions a_free_sessions spec_take_session]. rewrite El.
        rewrite Hpipe in El |- *. apply ids_ok_take; try done. by rewrite <- Hpipe. }
      destruct (add_flow_send_ok false db2 s3 ft id sid _ _ Est Hr3) as (db' & E & Hr');
        [apply Hinv3|done|done|].
      exists db'. split; [exact E|]. split; [exact Hr'|]. by apply spec_send_add_inv.
Qed.

(** The part before: nothing happens, or the flow is stored under the least id. *)
Lemma add_flow_cases {S} us db s ft :
  db_rep S db s -> ids_ok owner (a_flows s) (a_free_flows s) -> tuple_ok ft ->
  let egress := aget DEVPORT_MAPPING (dev_port ft) in
  let pipe := dev_port_to_pipe (dev_port ft) in
  let ft' := with_egress_offset ft (i8 (dev_port_to_pipe egress - pipe)) in
  (exists db', add_flow us DEVPORT_MAPPING uuid db ft = Ok db' /\ db_rep S db' s /\
     (egress = -1 \/ a_free_flows s pipe = [] \/ is_Some (a_flows s !! flow_key ft))) \/
  (exists id l db', egress <> -1 /\ a_free_flows s pipe = id :: l /\ a_flows s !! flow_key ft = None /\
     add_flow us DEVPORT_MAPPING uuid db ft = add_flow_session us uuid db' ft' id /\
     let s' := spec_take_flow (flow_key ft) ft' pipe id s in
     db_rep S db' s' /\ ids_ok owner (a_flows s') (a_free_flows s') /\ a_flows s' !! flow_key ft' = Some (ft', id) /\
     forall sid, pipe_id pipe sid -> session_storable ft' sid).
Proof using ports.
  intros Hr Hok Hft egress pipe ft'. pose proof Hft as [Hd Hpipe]. unfold add_flow.
  rewrite rd_ok by (rewrite (po_len ports); done). cbn [rbind]. fold egress.
  destruct (Z.eqb_spec egress (-1)) as [|Hne]; [left; exists db; by auto|].
  assert (0 <= egress < MAX_DEV_PORT_ID) as Heg by (destruct (po_range ports (dev_port ft)); done).
  fold pipe in Hpipe. fold pipe. pose proof (dev_port_to_pipe_bound _ Hd) as Hp. fold pipe in Hp.
  destruct (a_free_flows s pipe) as [|id l] eqn:El.
  { destruct (pop_empty _ _ _ (fd_flow_heaps _ _ Hr) Hp El) as (hs & -> & Hhs). cbn [rbind Z.eqb].
    pose proof (rep_flow_heap _ _ Hr _ _ Hhs) as Hr1. rewrite set_free_flows_same in Hr1. left. exists (with_flow_id_heap hs db). auto. }
  destruct (pop_least _ _ _ _ _ (fd_flow_heaps _ _ Hr) Hp El) as (hs & -> & Hhs). cbn [rbind].
  assert (pipe_id pipe id /\ id_free id (a_flows s)) as [Hid Hfree]
    by (apply (io_free _ _ _ Hok); [done|rewrite El; left]).
  pose proof (pipe_id_range _ _ Hp Hid) as Hrange. rewrite (proj2 (Z.eqb_neq id 0)) by lia. fold ft'.
  pose proof (rep_flow_heap _ _ Hr _ _ Hhs) as Hr1.
  change (flow_hashtable_add (flow_hashtable (with_flow_id_heap hs db)) ft' id)
    with (it_add (flow_hashtable db) ft' id).
  destruct (a_flows s !! flow_key ft) as [x|] eqn:Ek.
  { rewrite (it_add_present (T := flow_hashtable_t) _ _ ft' id x (fd_flows _ _ Hr) Ek).
    cbn [rbind Z.eqb negb flow_id_heap with_flow_hashtable with_flow_id_heap].
    assert (Z.of_nat (length (fupd (a_free_flows s) pipe l pipe)) < HEAPSIZE) as Hlen.
    { rewrite fupd_eq. pose proof (free_length _ _ _ pipe Hok Hp) as Hl. rewrite El in Hl.
      cbn [length] in Hl. lia. }
    destruct (push_id_ok _ _ _ id Hhs Hp Hlen) as (hs2 & -> & Hhs2). cbn [rbind].
    left. eexists. split; [reflexivity|]. split; [|by eauto].
    pose proof (pop_push_id _ _ _ _ _ (fd_flow_heaps _ _ Hr) Hp El _ Hhs2) as Hhs3.
    pose proof (rep_flow_heap _ _ Hr _ _ Hhs3) as Hr3. rewrite set_free_flows_same in Hr3.
    destruct Hr3. by split. }
  right. destruct (it_add_new (T := flow_hashtable_t) _ _ ft' id (fd_flows _ _ Hr) Ek ltac:(simpl; lia) Hfree)
    as (t & -> & Ht). cbn [rbind Z.eqb negb].
  pose proof (rep_flow_table _ _ Hr1 _ _ Ht) as Hr2.
  assert (set_flows (<[it_key (T := flow_hashtable_t) ft':=(ft', id)]> (a_flows s))
            (set_free_flows (fupd (a_free_flows s) pipe l) s) =
          spec_take_flow (flow_key ft) ft' pipe id s) as Es
    by (unfold spec_take_flow; rewrite El; reflexivity).
  cbn [a_flows set_free_flows] in Hr2. rewrite Es in Hr2.
  exists id, l, (with_flow_hashtable t (with_flow_id_heap hs db)).
  do 3 (split; [done|]). split; [done|]. split; [exact Hr2|]. split.
  - cbn [a_flows a_free_flows spec_take_flow]. rewrite El. cbn [pq_pop snd].
    rewrite Hpipe in El |- *. apply ids_ok_take; try done. by rewrite <- Hpipe.
  - split; [apply lookup_insert_eq|].
    intros sid Hsid. apply egress_offset_storable; [done|by apply dev_port_to_pipe_bound|done].
Qed.

Lemma add_flow_ok db s ft :
  fd_rep db s -> fd_inv owner s -> tuple_ok ft ->
  exists db', add_flow false DEVPORT_MAPPING uuid db ft = Ok db' /\
    fd_rep db' (spec_add DEVPORT_MAPPING ft s) /\ fd_inv owner (spec_add DEVPORT_MAPPING ft s).
Proof using ports.
  intros Hr Hinv Hft. unfold spec_add.
  destruct (add_flow_cases false db s ft Hr (fi_flows _ _ Hinv) Hft)
    as [(db' & E & Hr' & Hc)|(id & l & db' & Hne & El & Ek & E & Hr' & Hok & Hk & Hst)]; cbv zeta in *.
  - exists db'. split; [exact E|]. destruct (Z.eqb_spec (aget DEVPORT_MAPPING (dev_port ft)) (-1)); [by split|].
    destruct Hc as [Hc|[-> |[x ->]]]; [done|by split|by destruct (a_free_flows s _)].
  - rewrite E, (proj2 (Z.eqb_neq _ _) Hne), El, Ek. clear E.
    match type of Hr' with fd_rep _ ?s' => assert (fd_inv owner s') as Hinv' by (split; [exact Hok|apply Hinv]) end.
    exact (add_flow_session_ok _ _ _ id Hr' Hinv' (with_egress_offset_ok _ _ Hft) Hk Hst).
Qed.

(** *** Removing *)

Definition pipe_ok (ft : five_tuple_t) : Prop :=
  0 <= owner (flow_key ft) < NUM_PIPES /\ dev_port_to_pipe (dev_port ft) = owner (flow_key ft).

Lemma tuple_pipe_ok ft : tuple_ok ft -> pipe_ok ft.
Proof using. intros H. split; [by apply tuple_pipe|apply H]. Qed.

Lemma cleanup_ok db s ft :
  fd_rep db s -> fd_inv owner s -> pipe_ok ft ->
  exists db', session_cleanup_after_flow_remove false garbage db ft = Ok db' /\
    fd_rep db' (spec_cleanup ft s) /\ fd_inv owner (spec_cleanup ft s).
Proof using.
  intros Hr Hinv [Hp Hpipe]. unfold session_cleanup_after_flow_remove, spec_cleanup.
  pose proof (fd_sessions _ _ Hr) as [Hsr Hfc].
  pose proof (session_remove_ok false _ _ _ ft garbage _ eq_refl Hsr) as Hrm.
  change (session_key false ft) with (flow_key ft) in Hrm.
  destruct (a_sessions s !! flow_key ft) as [x|] eqn:Ek.
  - destruct Hrm as (t' & -> & Ht'). cbn [rbind Z.eqb default]. pose proof (fi_sessions _ _ Hinv) as Hok.
    destruct (give_session_ok db s _ _ Hr Hok Ek) as (hs & Ehs & Hhs). rewrite Hpipe.
    cbn [session_id_heap with_session_hashtable default from_option id]. rewrite Ehs. cbn [rbind].
    assert (it_rep t' (delete (flow_key ft) (a_sessions s))) as Ht
      by (simpl; by rewrite (session_rep_count _ _ _ _ Ht')).
    pose proof (rep_session_heap _ _ (rep_session_table _ _ Hr _ _ Ht) _ _ Hhs) as Hr1.
    unfold clear_registers.
    destruct (rep_dp_put _ _ Hr1 (DP_CLEAR_REGISTERS (MatchTableCmd ft 0 (snd x)))) as (db1 & E & Hr2).
    unfold from_option, id. rewrite E. cbn [rbind]. exists db1. split; [done|]. split; [exact Hr2|].
    split; [apply Hinv|]. exact (ids_ok_give _ _ _ _ _ Hok Ek).
  - rewrite Hrm. cbn [rbind Z.eqb]. eexists. split; [reflexivity|]. split; [|done].
    replace s with (set_sessions (a_sessions s) s) by (by destruct s).
    apply rep_session_table; [done|]. apply (fd_sessions _ _ Hr).
Qed.

(** What a removal has done when it comes to the session. *)
Definition spec_unlink (ft : five_tuple_t) (id : Z) (s : fd_state) : fd_state :=
  spec_put (DP_REMOVE_FLOW (MatchTableCmd ft id 0))
    (spec_give_flow (flow_key ft) (dev_port_to_pipe (dev_port ft)) id s).

Lemma spec_unlink_ids s ft x :
  ids_ok owner (a_flows s) (a_free_flows s) -> pipe_ok ft -> a_flows s !! flow_key ft = Some x ->
  ids_ok owner (a_flows (spec_unlink ft (snd x) s)) (a_free_flows (spec_unlink ft (snd x) s)).
Proof using.
  intros Hok [Hp Hpipe] Hk. cbn. rewrite Hpipe. exact (ids_ok_give _ _ _ _ _ Hok Hk).
Qed.

Lemma remove_by_tuple_cases {S} us db s ft :
  db_rep S db s -> ids_ok owner (a_flows s) (a_free_flows s) -> pipe_ok ft ->
  match a_flows s !! flow_key ft with
  | Some x => exists db', remove_flow_by_five_tuple us garbage db ft = session_cleanup_after_flow_remove us garbage db' ft /\
      db_rep S db' (spec_unlink ft (snd x) s)
  | None => exists db', remove_flow_by_five_tuple us garbage db ft = Ok db' /\ db_rep S db' s
  end.
Proof using.
  intros Hr Hok Hft. pose proof Hft as [Hp Hpipe]. unfold remove_flow_by_five_tuple.
  pose proof (it_remove_ok (T := flow_hashtable_t) _ _ ft (fd_flows _ _ Hr)) as Hrm.
  change (it_key (T := flow_hashtable_t) ft) with (flow_key ft) in Hrm.
  destruct (a_flows s !! flow_key ft) as [x|] eqn:Ek.
  - destruct Hrm as (t & Et & Ht). change (it_remove (T := flow_hashtable_t)) with flow_hashtable_remove in Et.
    rewrite Et. cbn [rbind]. cbn [flow_id_heap with_flow_hashtable].
    destruct (give_flow_ok db s _ _ Hr Hok Ek) as (hs & Ehs & Hhs).
    rewrite Hpipe, Ehs. cbn [rbind].
    pose proof (rep_flow_heap _ _ (rep_flow_table _ _ Hr _ _ Ht) _ _ Hhs) as Hr1.
    destruct (rep_dp_put _ _ Hr1 (DP_REMOVE_FLOW (MatchTableCmd ft (snd x) 0))) as (db1 & E & Hr2).
    rewrite E. cbn [rbind]. exists db1. split; [done|]. unfold spec_unlink. rewrite Hpipe. exact Hr2.
  - change (it_remove (T := flow_hashtable_t)) with flow_hashtable_remove in Hrm. rewrite Hrm. cbn [rbind].
    eexists. split; [reflexivity|]. destruct Hr; by split.
Qed.

Lemma remove_by_id_cases {S} us db s id :
  db_rep S db s -> ids_ok owner (a_flows s) (a_free_flows s) -> 0 <= id < FEATURE_SIZE ->
  Z.of_nat (length (a_queue s)) < DATAPLANE_RINGBUFFER_SIZE ->
  match id_owner (a_flows s) id with
  | Some ft => exists db', remove_flow_by_flow_id us garbage db id = session_cleanup_after_flow_remove us garbage db' ft /\
      db_rep S db' (spec_unlink ft id s) /\ pipe_ok ft /\ a_flows s !! flow_key ft = Some (ft, id)
  | None => exists db', remove_flow_by_flow_id us garbage db id = Ok db' /\ db_rep S db' s
  end.
Proof using.
  intros Hr Hok Hid Hroom. unfold remove_flow_by_flow_id.
  destruct (it_remove_by_value_ok (T := flow_hashtable_t) _ _ id (fd_flows _ _ Hr) Hid)
    as [(ft & t & Hk & Et & Ht)|[Hfree Et]];
    change (it_remove_by_value (T := flow_hashtable_t)) with flow_hashtable_remove_by_value in Et;
    rewrite Et; cbn [rbind].
  - rewrite (id_owner_intro _ _ _ _ (io_distinct _ _ _ Hok) Hk).
    change (it_key (T := flow_hashtable_t) ft) with (flow_key ft) in *.
    destruct (io_owned _ _ _ Hok _ _ Hk) as (Hp & _ & Hpipe & _). cbn [fst] in Hpipe.
    destruct (give_flow_ok db s _ _ Hr Hok Hk) as (hs & Ehs & Hhs). cbn [snd] in Ehs, Hhs.
    cbn [flow_id_heap with_flow_hashtable]. rewrite Hpipe, Ehs. cbn [rbind].
    pose proof (rep_flow_heap _ _ (rep_flow_table _ _ Hr _ _ Ht) _ _ Hhs) as Hr1.
    destruct (ensure_put_ok _ _ _ (DP_REMOVE_FLOW (MatchTableCmd ft id 0)) dp_ring_size (fd_queue _ _ Hr) Hroom)
      as (ring & Er & Hring & _).
    cbn [dataplane_ringbuffer with_flow_hashtable with_flow_id_heap]. rewrite Er. cbn [rbind].
    eexists. split; [reflexivity|]. split; [|done].
    unfold spec_unlink. rewrite Hpipe. unfold spec_put. cbn [a_queue spec_give_flow]. unfold queue_send, queue_put.
    rewrite decide_False by lia. cbn [snd]. destruct Hr1. by split.
  - rewrite (id_free_owner _ _ Hfree). eexists. split; [reflexivity|]. destruct Hr; by split.
Qed.

Lemma remove_by_tuple_ok db s ft :
  fd_rep db s -> fd_inv owner s -> pipe_ok ft ->
  let s' := match a_flows s !! flow_key ft with
            | Some x => spec_remove_flow ft (snd x) s | None => s end in
  exists db', remove_flow_by_five_tuple false garbage db ft = Ok db' /\ fd_rep db' s' /\ fd_inv owner s'.
Proof using.
  intros Hr [Hf Hs] Hft. pose proof (remove_by_tuple_cases false db s ft Hr Hf Hft) as Hc.
  destruct (a_flows s !! flow_key ft) as [x|] eqn:Ek; destruct Hc as (db1 & -> & Hr1); [|by exists db1].
  apply cleanup_ok; [exact Hr1| |done]. split; [by apply spec_unlink_ids|exact Hs].
Qed.

Lemma remove_by_id_ok db s id :
  fd_rep db s -> fd_inv owner s -> 0 <= id < FEATURE_SIZE ->
  Z.of_nat (length (a_queue s)) < DATAPLANE_RINGBUFFER_SIZE ->
  let s' := match id_owner (a_flows s) id with
            | Some ft => spec_remove_flow ft id s | None => s end in
  exists db', remove_flow_by_flow_id false garbage db id = Ok db' /\ fd_rep db' s' /\ fd_inv owner s'.
Proof using.
  intros Hr [Hf Hs] Hid Hroom. pose proof (remove_by_id_cases false db s id Hr Hf Hid Hroom) as Hc.
  destruct (id_owner (a_flows s) id) as [ft|]; [|destruct Hc as (db1 & -> & Hr1); by exists db1].
  destruct Hc as (db1 & -> & Hr1 & Hft & Hk). apply cleanup_ok; [exact Hr1| |done].
  split; [by apply (spec_unlink_ids s ft (ft, id))|exact Hs].
Qed.

(** *** Any command *)

Definition command_ok (s : fd_state) (c : packet_item_t) : Prop :=
  match c with
  | PKT_ADD_FLOW ft | PKT_REMOVE_FLOW ft => tuple_ok ft
  | PKT_ADD_BLOOM_FILTER_IRRELEVANT ft | PKT_FIX_BLOOM_FILTER_RELEVANT ft => markable ft
  | PKT_TIMEOUT_FLOW id =>
      0 <= id < FEATURE_SIZE /\ Z.of_nat (length (a_queue s)) < DATAPLANE_RINGBUFFER_SIZE
  | PKT_REMOVE_BLOOM_FILTER _ => True
  end.

(** The commands that leave the tables alone. *)
Definition tables_untouched (c : packet_item_t) : Prop :=
  match c with
  | PKT_ADD_BLOOM_FILTER_IRRELEVANT ft | PKT_FIX_BLOOM_FILTER_RELEVANT ft => markable ft
  | PKT_REMOVE_BLOOM_FILTER _ => True
  | _ => False
  end.

Lemma untouched_command_ok {S} us db s c :
  db_rep S db s -> tables_untouched c ->
  exists db', flowdb_command us DEVPORT_MAPPING uuid garbage db c = Ok db' /\
    let s' := spec_command DEVPORT_MAPPING c s in
    db_rep S db' s' /\ a_flows s' = a_flows s /\ a_sessions s' = a_sessions s /\
    a_free_flows s' = a_free_flows s /\ a_free_sessions s' = a_free_sessions s.
Proof using.
  intros Hr Hc. destruct c as [ft|ft|ft|ft|ft|id]; try done; cbn [flowdb_command spec_command] in *.
  - destruct Hc as [Hd [hs Hh]]. rewrite (fd_bloom _ _ Hr), Hh.
    destruct (set_irrelevant_exact _ _ _ ft hs (fd_bloom_wf _ _ Hr) Hd Hh (fd_queue _ _ Hr))
      as (ring' & -> & [Hwf _] & Hring). cbn [rbind]. eexists. split; [reflexivity|].
    split; [|done]. destruct Hr. by split.
  - destruct Hc as [Hd [hs Hh]]. rewrite (fd_bloom _ _ Hr), Hh.
    destruct (set_relevant_ok _ _ _ ft hs (fd_bloom_wf _ _ Hr) Hd Hh (fd_queue _ _ Hr))
      as (ring' & -> & Hring). cbn [rbind]. eexists. split; [reflexivity|].
    split; [|done]. destruct Hr. by split.
  - by exists db.
Qed.

Lemma untouched_inv c s : fd_inv owner s -> tables_untouched c -> fd_inv owner (spec_command DEVPORT_MAPPING c s).
Proof using.
  intros [Hf Hs] Hc. destruct c; try done; cbn [spec_command]; case_match; by split.
Qed.

Lemma flowdb_command_ok db s c :
  fd_rep db s -> fd_inv owner s -> command_ok s c ->
  exists db', flowdb_command false DEVPORT_MAPPING uuid garbage db c = Ok db' /\
    fd_rep db' (spec_command DEVPORT_MAPPING c s) /\
    fd_inv owner (spec_command DEVPORT_MAPPING c s).
Proof using ports.
  intros Hr Hinv Hc. destruct c as [ft|ft|ft|ft|ft|id]; cbn [flowdb_command spec_command command_ok] in *.
  - destruct (add_flow_ok db s ft Hr Hinv Hc) as (db' & E & ?). by exists db'.
  - destruct (remove_by_tuple_ok db s ft Hr Hinv (tuple_pipe_ok _ Hc)) as (db' & E & ?). by exists db'.
  - destruct (untouched_command_ok false db s (PKT_ADD_BLOOM_FILTER_IRRELEVANT ft) Hr Hc) as (db' & E & Hr' & _). exists db'.
    split; [exact E|]. split; [exact Hr'|]. exact (untouched_inv (PKT_ADD_BLOOM_FILTER_IRRELEVANT ft) s Hinv Hc).
  - destruct (untouched_command_ok false db s (PKT_FIX_BLOOM_FILTER_RELEVANT ft) Hr Hc) as (db' & E & Hr' & _). exists db'.
    split; [exact E|]. split; [exact Hr'|]. exact (untouched_inv (PKT_FIX_BLOOM_FILTER_RELEVANT ft) s Hinv Hc).
  - by exists db.
  - destruct Hc as [Hid Hroom]. destruct (remove_by_id_ok db s id Hr Hinv Hid Hroom) as (db' & E & ?).
    by exists db'.
Qed.
End steps.

(** *** Start *)

Definition initial_free (p : Z) : list Z := merge_sort Z.le (pipe_ids p).

Definition initial_state : fd_state :=
  FdState ∅ ∅ initial_free initial_free [] bloom_filter_init.

Lemma fill_heap_ok p h :
  alen (data h) = HEAPSIZE ->
  exists h', fill_heap p h = Ok h' /\ alen (data h') = HEAPSIZE /\
             aprefix (data h') HEAPSIZE = pipe_ids p.
Proof.
  intros Hl. unfold fill_heap.
  destruct (foldM_rule (fun done h' => alen (data h') = HEAPSIZE /\
      forall i, i ∈ done -> aget (data h') i = (i + 1) * 4 + p)
    (fun index h => let! d := wr (data h) index ((index + 1) * 4 + p) in Ok (with_data d h))
    (seqZ 0 HEAPSIZE)) with (s := h) as (h' & E & Hl' & Hd).
  - intros done i rest h1 E [Hl1 Hd1].
    assert (0 <= i < HEAPSIZE) as Hi by (apply elem_of_seqZ0; rewrite E; set_solver).
    rewrite wr_ok by lia. cbn [rbind]. eexists. split; [reflexivity|]. split; [done|].
    intros j Hj. cbn [data with_data]. rewrite aget_aset. case_decide; [by subst|].
    apply Hd1. apply elem_of_app in Hj as [?|?%list_elem_of_singleton]; [done|congruence].
  - split; [done|]. intros i Hi. by apply not_elem_of_nil in Hi.
  - exists h'. split; [exact E|]. split; [done|]. unfold aprefix, pipe_ids.
    apply list_fmap_ext. intros j i Hi. apply Hd. by apply list_elem_of_lookup_2 in Hi.
Qed.

(** The heaps of the pipes [done] are filled and ordered. *)
Definition filled (done : list Z) (hs : heaps) : Prop :=
  alen hs = NUM_PIPES /\
  forall p, 0 <= p < NUM_PIPES ->
    alen (data (aget hs p)) = HEAPSIZE /\ (p ∈ done -> heap_rep (aget hs p) (initial_free p)).

Lemma fill_pipe hs done p :
  filled done hs -> 0 <= p < NUM_PIPES ->
  rd hs p = Ok (aget hs p) /\
  exists h1 h2, fill_heap p (aget hs p) = Ok h1 /\ heap_build h1 HEAPSIZE = Ok h2 /\
    wr hs p h2 = Ok (aset hs p h2) /\ filled (done ++ [p]) (aset hs p h2).
Proof.
  intros [Hl Hh] Hp. split; [apply rd_ok; lia|]. destruct (Hh p Hp) as [Ha _].
  destruct (fill_heap_ok p _ Ha) as (h1 & E1 & Hl1 & Hp1).
  destruct (heap_build_rep h1 HEAPSIZE Hl1 ltac:(unfold HEAPSIZE, MAX_FLOWS; lia)) as (h2 & E2 & Hr2).
  rewrite Hp1 in Hr2. exists h1, h2. split; [done|]. split; [done|]. split; [apply wr_ok; lia|].
  split; [done|]. intros q Hq. rewrite aget_aset. case_decide as E.
  - subst q. split; [apply (hr_wf _ _ Hr2)|]. intros _. exact Hr2.
  - destruct (Hh q Hq) as [Haq Hrq]. split; [done|].
    intros [Hin|Hin%list_elem_of_singleton]%elem_of_app; [exact (Hrq Hin)|by destruct E].
Qed.

Lemma static_heaps_filled : filled [] static_heaps.
Proof.
  split; [done|]. intros p Hp. unfold static_heaps. rewrite aget_amake. split; [done|].
  intros Hn. by apply not_elem_of_nil in Hn.
Qed.

Lemma filled_rep hs : filled (seqZ 0 NUM_PIPES) hs -> heaps_rep hs initial_free.
Proof. intros [Hl Hh]. split; [done|]. intros p Hp. apply Hh; [done|]. by apply elem_of_seqZ0. Qed.

Lemma pipe_ids_nodup p : NoDup (pipe_ids p).
Proof. unfold pipe_ids. apply NoDup_fmap_2_strong; [lia|apply NoDup_seqZ]. Qed.

#[local] Opaque pipe_ids.

Lemma initial_ids_ok {key} owner : ids_ok_by key owner ∅ initial_free.
Proof.
  split.
  - intros p _. unfold initial_free. rewrite merge_sort_Permutation. apply pipe_ids_nodup.
  - intros p id _. unfold initial_free. rewrite merge_sort_Permutation, pipe_ids_spec.
    split; [|tauto]. intros H. split; [done|]. by intros k x.
  - intros k x. by rewrite lookup_empty.
  - intros k1 k2 x1 x2. by rewrite lookup_empty.
Qed.

(** The start does not depend on what the session table holds. *)
Lemma flowdb_start_any (S : session_hashtable_t -> id_map -> Prop) t :
  S t ∅ ->
  exists db, flowdb_start (with_session_hashtable t static_flowdb) = Ok db /\ db_rep S db initial_state.
Proof.
  intros HS. unfold flowdb_start.
  destruct (foldM_rule (fun done r => filled done (fst r) /\ filled done (snd r)) init_pipe (seqZ 0 NUM_PIPES))
    with (s := (static_heaps, static_heaps)) as ([fs ss] & E & Hf & Hs).
  - intros done p rest [fs ss] E [Hf Hs].
    assert (0 <= p < NUM_PIPES) as Hp by (apply elem_of_seqZ0; rewrite E; set_solver).
    destruct (fill_pipe fs done p Hf Hp) as (R1 & f1 & f2 & F1 & F2 & F3 & Hf').
    destruct (fill_pipe ss done p Hs Hp) as (R2 & s1 & s2 & S1 & S2 & S3 & Hs').
    unfold init_pipe. rewrite R1, R2. cbn [rbind]. rewrite F1, S1. cbn [rbind].
    rewrite F2, S2. cbn [rbind]. rewrite F3, S3. cbn [rbind]. eauto.
  - split; apply static_heaps_filled.
  - change (flow_id_heap (with_session_hashtable t static_flowdb)) with static_heaps.
    change (session_id_heap (with_session_hashtable t static_flowdb)) with static_heaps. rewrite E. cbn [rbind].
    eexists. split; [reflexivity|].
    split; try (by apply filled_rep).
    + done.
    + exact flow_rep_init.
    + exact HS.
    + done.
    + apply bloom_filter_init_wf.
    + apply empty_dp_ring_rep.
Qed.

Lemma flowdb_start_rep (S : session_hashtable_t -> id_map -> Prop) :
  S (session_hashtable static_flowdb) ∅ ->
  exists db, flowdb_start static_flowdb = Ok db /\ db_rep S db initial_state.
Proof. exact (flowdb_start_any S (session_hashtable static_flowdb)). Qed.

Lemma flowdb_start_ok owner :
  exists db, flowdb_start static_flowdb = Ok db /\ fd_rep db initial_state /\
             fd_inv owner initial_state.
Proof.
  destruct (flowdb_start_rep it_rep) as (db & E & Hr).
  - split; [exact (session_rep_init false (amake FEATURE_SIZE 0))|done].
  - exists db. split; [exact E|]. split; [exact Hr|]. split; apply initial_ids_ok.
Qed.

(** *** Runs: commands, and the data plane thread taking from its queue *)

Inductive fd_event : Type :=
  | FdCommand (c : packet_item_t) (uuid : list Z) (garbage : Z)
  | FdDrain.

Definition fd_step (DEVPORT_MAPPING : arr Z) (e : fd_event) (db : flowdb_t) : res flowdb_t :=
  match e with
  | FdCommand c uuid garbage => flowdb_command false DEVPORT_MAPPING uuid garbage db c
  | FdDrain =>
      let! '(_, _, ring) := ringbuffer_get DATAPLANE_RINGBUFFER_SIZE (dataplane_ringbuffer db) in
      Ok (with_dataplane_ringbuffer ring db)
  end.

Definition event_ok (owner : list Z -> Z) (e : fd_event) : Prop :=
  match e with
  | FdCommand (PKT_ADD_FLOW ft) _ _ | FdCommand (PKT_REMOVE_FLOW ft) _ _ => tuple_ok owner ft
  | FdCommand (PKT_ADD_BLOOM_FILTER_IRRELEVANT ft) _ _
  | FdCommand (PKT_FIX_BLOOM_FILTER_RELEVANT ft) _ _ => markable ft
  | FdCommand (PKT_TIMEOUT_FLOW id) _ _ => 0 <= id < FEATURE_SIZE
  | _ => True
  end.

(** The data plane thread takes an item whenever a timeout, which waits for
    room, is next. *)
Fixpoint paced (room : bool) (evs : list fd_event) : Prop :=
  match evs with
  | [] => True
  | FdDrain :: evs' => paced true evs'
  | FdCommand (PKT_TIMEOUT_FLOW _) _ _ :: evs' => room = true /\ paced false evs'
  | FdCommand _ _ _ :: evs' => paced false evs'
  end.

Definition room (s : fd_state) : Prop := Z.of_nat (length (a_queue s)) < DATAPLANE_RINGBUFFER_SIZE.

Lemma drain_ok db s :
  fd_rep db s ->
  exists db' s', (let! '(_, _, ring) := ringbuffer_get DATAPLANE_RINGBUFFER_SIZE (dataplane_ringbuffer db) in
                  Ok (with_dataplane_ringbuffer ring db)) = Ok db' /\
    fd_rep db' s' /\ a_flows s' = a_flows s /\ a_sessions s' = a_sessions s /\
    a_free_flows s' = a_free_flows s /\ a_free_sessions s' = a_free_sessions s /\ room s'.
Proof.
  intros Hr. destruct (get_rep _ dp_ring_size _ _ (fd_queue _ _ Hr)) as (ring & E & Hring).
  rewrite E. pose proof (rep_length _ _ _ (fd_queue _ _ Hr)) as Hlen.
  destruct (queue_get (a_queue s)) as [[r o] q'] eqn:Eq. cbn [fst snd rbind] in *.
  eexists _, (set_queue q' s). split; [reflexivity|]. split; [destruct Hr; by split|].
  repeat (split; [done|]). unfold room; cbn. pose proof dp_ring_size.
  unfold queue_get in Eq. destruct (a_queue s); simplify_eq; cbn in *; lia.
Qed.

Lemma rep_set_queue S db s ring q :
  db_rep S db s -> rb_rep DATAPLANE_RINGBUFFER_SIZE ring q ->
  db_rep S (with_dataplane_ringbuffer ring db) (set_queue q s).
Proof. intros [] Hq. by split. Qed.

Lemma inv_set_queue owner q s : fd_inv owner s -> fd_inv owner (set_queue q s).
Proof. intros []. by split. Qed.

Lemma fd_run_ok DEVPORT_MAPPING owner evs : forall r db s,
  ports_ok DEVPORT_MAPPING -> fd_rep db s -> fd_inv owner s -> (r = true -> room s) ->
  Forall (event_ok owner) evs -> paced r evs ->
  exists db' s', foldM (fd_step DEVPORT_MAPPING) evs db = Ok db' /\ fd_rep db' s' /\ fd_inv owner s'.
Proof.
  induction evs as [|e evs IH]; intros r db s Hports Hr Hinv Hroom Hok Hpace; [by exists db, s|].
  apply Forall_cons in Hok as [He Hok]. cbn [foldM].
  destruct e as [c uuid garbage|].
  - assert (command_ok owner s c) as Hc.
    { destruct c; try exact He. destruct Hpace as [-> _]. split; [exact He|by apply Hroom]. }
    cbn [fd_step]. destruct (flowdb_command_ok _ uuid garbage owner Hports db s c Hr Hinv Hc)
      as (db1 & -> & Hr1 & Hinv1). cbn [rbind].
    apply (IH false _ _ Hports Hr1 Hinv1); [done|done|]. destruct c; cbn in Hpace; tauto.
  - destruct (drain_ok db s Hr) as (db1 & s1 & E & Hr1 & E1 & E2 & E3 & E4 & Hroom1).
    cbn [fd_step]. rewrite E. cbn [rbind]. apply (IH true _ _ Hports Hr1); try done.
    destruct Hinv. split; congruence.
Qed.

(** *** The classification table of the data plane *)

(** The entries after executing commands, by key: [entry_hdls] makes a removal
    remove what the addition of the same flow added. *)
Definition apply_table_command (m : gmap (list Z) Z) (c : dataplane_command_t) : gmap (list Z) Z :=
  match c with
  | DP_ADD_FLOW c => <[flow_key (mt_five_tuple c) := mt_flow_id c]> m
  | DP_REMOVE_FLOW c => delete (flow_key (mt_five_tuple c)) m
  | _ => m
  end.
Definition installed (m : gmap (list Z) Z) (q : list dataplane_command_t) : gmap (list Z) Z :=
  foldl apply_table_command m q.

(** The entries, once the queue is executed, are those of the flow table. *)
Definition mirrors (m : gmap (list Z) Z) (s : fd_state) : Prop :=
  installed m (a_queue s) = snd <$> a_flows s.

Definition queue_room (n : Z) (s : fd_state) : Prop :=
  Z.of_nat (length (a_queue s)) + n <= DATAPLANE_RINGBUFFER_SIZE.

Lemma mirrors_put m s c M :
  queue_room 1 s -> apply_table_command (installed m (a_queue s)) c = M ->
  installed m (a_queue (spec_put c s)) = M /\
  forall n, queue_room (n + 1) s -> queue_room n (spec_put c s).
Proof.
  unfold queue_room. intros Hroom E. cbn [a_queue spec_put]. unfold queue_send, queue_put.
  rewrite decide_False by lia. cbn [snd]. unfold installed. rewrite foldl_app, length_app.
  split; [exact E|]. intros n Hn. cbn [length]. lia.
Qed.

Lemma mirrors_send_add m s ft id sid :
  queue_room 1 s -> installed m (a_queue s) = delete (flow_key ft) (snd <$> a_flows s) ->
  a_flows s !! flow_key ft = Some (ft, id) -> mirrors m (spec_send_add ft id sid s).
Proof.
  intros Hroom E Hk. unfold spec_send_add, dp_full. rewrite decide_False by (unfold queue_room in *; lia).
  apply (mirrors_put m s (DP_ADD_FLOW (MatchTableCmd ft id sid))); [done|].
  cbn [apply_table_command mt_five_tuple mt_flow_id]. rewrite E, insert_delete_eq.
  cbn [a_flows spec_put]. apply insert_id. by rewrite lookup_fmap, Hk.
Qed.

Lemma mirrors_add m DEVPORT_MAPPING ft s :
  mirrors m s -> queue_room 1 s -> a_free_sessions s (dev_port_to_pipe (dev_port ft)) <> [] ->
  mirrors m (spec_add DEVPORT_MAPPING ft s).
Proof.
  unfold mirrors at 1. intros Hm Hroom Hfree. unfold spec_add.
  destruct (_ =? -1); [done|]. set (pipe := dev_port_to_pipe (dev_port ft)) in *.
  destruct (a_free_flows s pipe) as [|id l]; [done|].
  destruct (a_flows s !! flow_key ft) as [x|] eqn:Ek; [done|].
  set (ft' := with_egress_offset _ _).
  assert (installed m (a_queue s) = delete (flow_key ft') (snd <$> <[flow_key ft := (ft', id)]> (a_flows s))) as E.
  { rewrite Hm, fmap_insert. change (flow_key ft') with (flow_key ft). rewrite delete_insert_id; [done|].
    by rewrite lookup_fmap, Ek. }
  cbn [a_sessions spec_take_flow a_free_sessions].
  destruct (a_sessions s !! flow_key ft) as [x|]; [|destruct (a_free_sessions s pipe) as [|sid l']; [done|]];
    apply mirrors_send_add; try done; apply lookup_insert_eq.
Qed.

Lemma mirrors_remove m ft id s :
  mirrors m s -> queue_room 2 s -> mirrors m (spec_remove_flow ft id s).
Proof.
  unfold mirrors at 1. intros Hm Hroom. unfold spec_remove_flow.
  set (s1 := spec_give_flow (flow_key ft) (dev_port_to_pipe (dev_port ft)) id s).
  assert (queue_room 2 s1) as Hroom1 by done.
  destruct (mirrors_put m s1 (DP_REMOVE_FLOW (MatchTableCmd ft id 0)) (snd <$> a_flows s1)) as [E Hr].
  - unfold queue_room in *. lia.
  - cbn [apply_table_command mt_five_tuple s1 a_queue a_flows spec_give_flow].
    by rewrite Hm, fmap_delete.
  - specialize (Hr 1 Hroom1). unfold spec_cleanup. destruct (_ !! flow_key ft) as [x|]; [|exact E].
    apply (mirrors_put m (spec_give_session (flow_key ft) (dev_port_to_pipe (dev_port ft)) (snd x)
             (spec_put (DP_REMOVE_FLOW (MatchTableCmd ft id 0)) s1))
             (DP_CLEAR_REGISTERS (MatchTableCmd ft 0 (snd x)))); [done|exact E].
Qed.

Lemma length_merge_sort (l : list Z) : length (merge_sort Z.le l) = length l.
Proof. apply Permutation_length, merge_sort_Permutation. Qed.

Lemma initial_free_length p : Z.of_nat (length (initial_free p)) = HEAPSIZE.
Proof. unfold initial_free. rewrite length_merge_sort. apply length_pipe_ids. Qed.

Lemma initial_free_cons p : exists id l, initial_free p = id :: l.
Proof.
  pose proof (initial_free_length p) as Hl. destruct (initial_free p) as [|id l]; [|eauto].
  unfold HEAPSIZE, MAX_FLOWS in Hl. simpl in Hl. lia.
Qed.

Definition sample_ports : arr Z := aset (aset (amake MAX_DEV_PORT_ID (-1)) 5 130) 130 5.

Lemma sample_ports_ok : ports_ok sample_ports.
Proof.
  split; [done|]. intros p _. unfold sample_ports. rewrite !aget_aset, aget_amake.
  unfold MAX_DEV_PORT_ID. repeat case_decide; lia.
Qed.

(** The addition of a new flow when nothing is exhausted. *)
Lemma spec_add_room DEVPORT_MAPPING ft s id l sid l' :
  let pipe := dev_port_to_pipe (dev_port ft) in
  aget DEVPORT_MAPPING (dev_port ft) <> -1 ->
  a_free_flows s pipe = id :: l -> a_free_sessions s pipe = sid :: l' ->
  a_flows s !! flow_key ft = None -> a_sessions s !! flow_key ft = None -> ~ dp_full s ->
  exists ft', flow_key ft' = flow_key ft /\ dev_port ft' = dev_port ft /\
    spec_add DEVPORT_MAPPING ft s =
      spec_put (DP_ADD_FLOW (MatchTableCmd ft' id sid))
        (spec_take_session (flow_key ft) ft' pipe sid (spec_take_flow (flow_key ft) ft' pipe id s)).
Proof.
  cbv zeta. intros Hd Ef Es Hf Hs Hfull.
  exists (with_egress_offset ft (i8 (dev_port_to_pipe (aget DEVPORT_MAPPING (dev_port ft))
                                     - dev_port_to_pipe (dev_port ft)))).
  split; [done|]. split; [done|]. unfold spec_add.
  rewrite (proj2 (Z.eqb_neq _ _) Hd), Ef, Hf. cbn [a_sessions a_free_sessions spec_take_flow].
  rewrite Hs, Es. unfold spec_send_add. by rewrite decide_False.
Qed.

(** The database after the thread has started and added the sample flow of port 5. *)
Lemma one_flow_db : exists db db' ft id sid,
  flowdb_start static_flowdb = Ok db /\
  flowdb_command false sample_ports [] 0 db (PKT_ADD_FLOW (sample_tuple 5)) = Ok db' /\
  flow_key ft = flow_key (sample_tuple 5) /\ dev_port ft = 5 /\
  let s := spec_put (DP_ADD_FLOW (MatchTableCmd ft id sid))
             (spec_take_session (flow_key (sample_tuple 5)) ft 0 sid
               (spec_take_flow (flow_key (sample_tuple 5)) ft 0 id initial_state)) in
  fd_rep db' s /\ fd_inv (fun _ => 0) s.
Proof.
  destruct (flowdb_start_ok (fun _ => 0)) as (db & E & Hr & Hinv).
  assert (tuple_ok (fun _ => 0) (sample_tuple 5)) as Ht
    by (split; [vm_compute; split; congruence|reflexivity]).
  destruct (flowdb_command_ok sample_ports [] 0 (fun _ => 0) sample_ports_ok db initial_state
              (PKT_ADD_FLOW (sample_tuple 5)) Hr Hinv Ht) as (db' & E' & Hr' & Hinv').
  destruct (initial_free_cons 0) as (id & l & El).
  assert (~ dp_full initial_state) as Hfull by (unfold dp_full; vm_compute; congruence).
  destruct (spec_add_room sample_ports (sample_tuple 5) initial_state id l id l) as (ft & Ek & Ed & Es);
    [vm_compute; congruence|exact El|exact El|apply lookup_empty|apply lookup_empty|exact Hfull|].
  cbn [spec_command] in Hr', Hinv'. rewrite Es in Hr', Hinv'.
  change (dev_port_to_pipe (dev_port (sample_tuple 5))) with 0 in Hr', Hinv'.
  exists db, db', ft, id, id. split; [exact E|]. split; [exact E'|]. split; [exact Ek|].
  split; [exact Ed|]. split; [exact Hr'|exact Hinv'].
Qed.

(** ** Properties *)

(** Two ports, of the pipes 0 and 1, that forward to each other. *)

(** Claim C4. With sessions disabled a command does to the flow database exactly what the
    abstract specification says, a function of the state and the command: which flow and
    session are stored or removed, which ids are taken (the least free one of the pipe)
    and given back, how the counters of the Bloom filter change, and which data plane
    commands are queued or dropped when the queue is full; no access is out of bounds and
    nothing loops. The conditions: [DEVPORT_MAPPING] is as the
    preparation leaves it, the tuple of an addition or a FIN arrives on a port
    below 512 of the pipe that belongs to its flow, a tuple for the Bloom filter has a
    supported protocol and such a port, a timeout is of an id below [FEATURE_SIZE] and
    finds room in the queue of the data plane. The code checks none of them; what it does
    without is in [unchecked_port_over_reads] and [fin_on_other_pipe_overflows_heap]. *)
Theorem flowdb_command_refines DEVPORT_MAPPING uuid garbage owner db s c :
  ports_ok DEVPORT_MAPPING -> fd_rep db s -> fd_inv owner s -> command_ok owner s c ->
  exists db', flowdb_command false DEVPORT_MAPPING uuid garbage db c = Ok db' /\
    fd_rep db' (spec_command DEVPORT_MAPPING c s) /\
    fd_inv owner (spec_command DEVPORT_MAPPING c s).
Proof. intros. by apply flowdb_command_ok. Qed.

Lemma flowdb_command_refines_witness :
  exists db db', flowdb_start static_flowdb = Ok db /\
    flowdb_command false sample_ports [] 0 db (PKT_ADD_FLOW (sample_tuple 5)) = Ok db' /\
    fd_rep db' (spec_add sample_ports (sample_tuple 5) initial_state) /\
    fd_inv (fun _ => 0) (spec_add sample_ports (sample_tuple 5) initial_state).
Proof.
  destruct (flowdb_start_ok (fun _ => 0)) as (db & E & Hr & Hinv). exists db.
  destruct (flowdb_command_refines sample_ports [] 0 (fun _ => 0) db initial_state
              (PKT_ADD_FLOW (sample_tuple 5)) sample_ports_ok Hr Hinv) as (db' & E' & H1 & H2).
  - split; [vm_compute; split; congruence|reflexivity].
  - exists db'. split; [exact E|]. split; [exact E'|]. split; [exact H1|exact H2].
Defined.

(** Claim C6. From the start of the thread, in any sequence of commands whose
    packets arrive on the pipe of their key, interleaved with the data plane
    thread taking commands (before each timeout, which waits for room), nothing
    is out of bounds or loops, and no id is lost or handed out twice: every flow
    id and every session id of a pipe is either in the pipe's heap, once, or
    owned by exactly one stored entry of that pipe. *)
Theorem flowdb_conserves_ids DEVPORT_MAPPING owner evs :
  ports_ok DEVPORT_MAPPING -> Forall (event_ok owner) evs -> paced true evs ->
  exists db0 db s, flowdb_start static_flowdb = Ok db0 /\
    foldM (fd_step DEVPORT_MAPPING) evs db0 = Ok db /\ fd_rep db s /\
    forall p id, 0 <= p < NUM_PIPES -> pipe_id p id ->
      (NoDup (a_free_flows s p) /\ NoDup (a_free_sessions s p)) /\
      ((id ∈ a_free_flows s p /\ id_free id (a_flows s)) \/
       (~ id ∈ a_free_flows s p /\ exists k ft, a_flows s !! k = Some (ft, id) /\ owner k = p /\
          forall k' ft', a_flows s !! k' = Some (ft', id) -> k' = k)) /\
      ((id ∈ a_free_sessions s p /\ id_free id (a_sessions s)) \/
       (~ id ∈ a_free_sessions s p /\ exists k ft, a_sessions s !! k = Some (ft, id) /\ owner k = p /\
          forall k' ft', a_sessions s !! k' = Some (ft', id) -> k' = k)).
Proof.
  intros Hports Hok Hpace. destruct (flowdb_start_ok owner) as (db0 & E0 & Hr0 & Hinv0).
  destruct (fd_run_ok DEVPORT_MAPPING owner evs true db0 initial_state Hports Hr0 Hinv0)
    as (db & s & E & Hr & Hinv); [done|done|done|].
  exists db0, db, s. split; [done|]. split; [done|]. split; [done|]. intros p id Hp Hid.
  destruct Hinv as [Hf Hs].
  exact (conj (conj (io_nodup _ _ _ Hf p Hp) (io_nodup _ _ _ Hs p Hp))
           (conj (id_partition _ _ _ p id Hf Hp Hid) (id_partition _ _ _ p id Hs Hp Hid))).
Qed.

Lemma flowdb_conserves_ids_witness :
  let evs := [FdCommand (PKT_ADD_FLOW (sample_tuple 5)) [] 0; FdDrain;
              FdCommand (PKT_TIMEOUT_FLOW 4) [] 0; FdCommand (PKT_REMOVE_FLOW (sample_tuple 5)) [] 0] in
  exists db0 db s, flowdb_start static_flowdb = Ok db0 /\
    foldM (fd_step sample_ports) evs db0 = Ok db /\ fd_rep db s /\
    forall p id, 0 <= p < NUM_PIPES -> pipe_id p id ->
      (NoDup (a_free_flows s p) /\ NoDup (a_free_sessions s p)) /\
      ((id ∈ a_free_flows s p /\ id_free id (a_flows s)) \/
       (~ id ∈ a_free_flows s p /\ exists k ft, a_flows s !! k = Some (ft, id) /\ 0 = p /\
          forall k' ft', a_flows s !! k' = Some (ft', id) -> k' = k)) /\
      ((id ∈ a_free_sessions s p /\ id_free id (a_sessions s)) \/
       (~ id ∈ a_free_sessions s p /\ exists k ft, a_sessions s !! k = Some (ft, id) /\ 0 = p /\
          forall k' ft', a_sessions s !! k' = Some (ft', id) -> k' = k)).
Proof.
  intros evs. apply (flowdb_conserves_ids sample_ports (fun _ => 0) evs sample_ports_ok).
  - assert (tuple_ok (fun _ => 0) (sample_tuple 5)) as Ht
      by (split; [vm_compute; split; congruence|reflexivity]).
    assert (0 <= 4 < FEATURE_SIZE) as H4 by (rewrite FEATURE_SIZE_val; lia).
    repeat (constructor; [first [exact Ht|exact H4|exact I]|]). constructor.
  - exact (conj eq_refl I).
Defined.

(** While the queue has room for the commands of a handler and session
    ids are left, the entries of the data plane's classification tables, once the
    pending commands are executed, are exactly the flows of the flow table with
    their ids. *)
Theorem dataplane_mirrors_flow_table DEVPORT_MAPPING uuid garbage owner db s c m :
  ports_ok DEVPORT_MAPPING -> fd_rep db s -> fd_inv owner s -> command_ok owner s c ->
  match c with
  | PKT_ADD_FLOW ft => a_free_sessions s (dev_port_to_pipe (dev_port ft)) <> []
  | PKT_REMOVE_FLOW _ | PKT_TIMEOUT_FLOW _ => True
  | _ => False
  end ->
  Z.of_nat (length (a_queue s)) + 2 <= DATAPLANE_RINGBUFFER_SIZE ->
  installed m (a_queue s) = snd <$> a_flows s ->
  exists db' s', flowdb_command false DEVPORT_MAPPING uuid garbage db c = Ok db' /\ fd_rep db' s' /\
    installed m (a_queue s') = snd <$> a_flows s'.
Proof.
  intros Hports Hr Hinv Hc Hkind Hroom Hm.
  destruct (flowdb_command_ok _ uuid garbage owner Hports db s c Hr Hinv Hc) as (db' & E & Hr' & _).
  eexists db', _. split; [exact E|]. split; [exact Hr'|]. fold (mirrors m s) in Hm.
  assert (queue_room 1 s) as Hroom1 by (unfold queue_room; lia).
  destruct c as [ft|ft|ft|ft|ft|id]; try done; cbn [spec_command].
  - by apply mirrors_add.
  - destruct (a_flows s !! flow_key ft); [by apply mirrors_remove|done].
  - destruct (id_owner (a_flows s) id); [by apply mirrors_remove|done].
Qed.

Lemma dataplane_mirrors_flow_table_witness :
  exists db db' s', flowdb_start static_flowdb = Ok db /\
    flowdb_command false sample_ports [] 0 db (PKT_ADD_FLOW (sample_tuple 5)) = Ok db' /\
    fd_rep db' s' /\ installed ∅ (a_queue s') = snd <$> a_flows s'.
Proof.
  destruct (flowdb_start_ok (fun _ => 0)) as (db & E & Hr & Hinv). exists db.
  destruct (dataplane_mirrors_flow_table sample_ports [] 0 (fun _ => 0) db initial_state
              (PKT_ADD_FLOW (sample_tuple 5)) ∅ sample_ports_ok Hr Hinv) as (db' & s' & E' & H1 & H2).
  - split; [vm_compute; split; congruence|reflexivity].
  - destruct (initial_free_cons 0) as (id & l & El).
    change (initial_free 0 <> []). rewrite El. discriminate.
  - vm_compute. congruence.
  - cbn. by rewrite fmap_empty.
  - exists db', s'. split; [exact E|]. split; [exact E'|]. split; [exact H1|exact H2].
Defined.

(** When the queue is full, the removal of a flow by a FIN packet gives
    its id back and forgets it while the command to the data plane is dropped:
    the classification entry stays, although its id can be handed out again. *)
Theorem dropped_removal_leaves_entry uuid garbage owner db s ft x DEVPORT_MAPPING :
  ports_ok DEVPORT_MAPPING -> fd_rep db s -> fd_inv owner s -> tuple_ok owner ft ->
  a_flows s !! flow_key ft = Some x ->
  Z.of_nat (length (a_queue s)) = DATAPLANE_RINGBUFFER_SIZE ->
  exists db' s', flowdb_command false DEVPORT_MAPPING uuid garbage db (PKT_REMOVE_FLOW ft) = Ok db' /\
    fd_rep db' s' /\ a_queue s' = a_queue s /\ a_flows s' !! flow_key ft = None /\
    snd x ∈ a_free_flows s' (dev_port_to_pipe (dev_port ft)).
Proof.
  intros Hports Hr Hinv Hft Hk Hfull.
  destruct (flowdb_command_ok _ uuid garbage owner Hports db s (PKT_REMOVE_FLOW ft) Hr Hinv Hft)
    as (db' & E & Hr' & _).
  eexists db', _. split; [exact E|]. split; [exact Hr'|]. cbn [spec_command]. rewrite Hk.
  unfold spec_remove_flow. set (pipe := dev_port_to_pipe (dev_port ft)).
  set (s1 := spec_give_flow (flow_key ft) pipe (snd x) s).
  rewrite (spec_put_full _ s1) by exact Hfull. unfold spec_cleanup.
  assert (a_flows s1 !! flow_key ft = None) as Hdel by apply lookup_delete_eq.
  assert (snd x ∈ a_free_flows s1 pipe) as Hin.
  { cbn [s1 a_free_flows spec_give_flow]. rewrite fupd_eq, pq_push_permutation. left. }
  destruct (a_sessions s1 !! flow_key ft); [|done].
  rewrite spec_put_full by exact Hfull. done.
Qed.

Lemma dropped_removal_leaves_entry_witness : exists db db' s s' x,
  fd_rep db s /\ a_flows s !! flow_key (sample_tuple 5) = Some x /\
  flowdb_command false sample_ports [] 0 db (PKT_REMOVE_FLOW (sample_tuple 5)) = Ok db' /\
  fd_rep db' s' /\ a_queue s' = a_queue s /\ a_flows s' !! flow_key (sample_tuple 5) = None /\
  snd x ∈ a_free_flows s' 0.
Proof.
  destruct one_flow_db as (_ & db & ft & id & sid & _ & _ & _ & _ & Hr & Hinv).
  destruct full_dp_ring as (ring & q & Hring & Hq).
  pose proof (rep_set_queue _ _ _ _ _ Hr Hring) as Hr'. apply (inv_set_queue _ q) in Hinv.
  match type of Hr' with fd_rep _ ?s' => set (s := s') in * end.
  assert (a_flows s !! flow_key (sample_tuple 5) = Some (ft, id)) as Hk by apply lookup_insert_eq.
  destruct (dropped_removal_leaves_entry [] 0 (fun _ => 0) _ s (sample_tuple 5) (ft, id) sample_ports
              sample_ports_ok Hr' Hinv) as (db' & s' & E & Hr2 & Eq & Ek & Hin).
  - split; [vm_compute; split; congruence|reflexivity].
  - exact Hk.
  - exact Hq.
  - exists (with_dataplane_ringbuffer ring db), db', s, s', (ft, id).
    split; [exact Hr'|]. split; [exact Hk|]. split; [exact E|]. split; [exact Hr2|].
    split; [exact Eq|]. split; [exact Ek|exact Hin].
Defined.

(** The id of a flow is given back to the heap of the pipe on which its
    FIN packet arrived, whatever the pipe of the flow. When that heap is full, as
    it is from the start until a flow of that pipe is added, the push writes
    behind the array. *)
Theorem fin_on_other_pipe_overflows_heap garbage db s ft x :
  fd_rep db s -> a_flows s !! flow_key ft = Some x ->
  0 <= dev_port ft < MAX_DEV_PORT_ID ->
  Z.of_nat (length (a_free_flows s (dev_port_to_pipe (dev_port ft)))) = HEAPSIZE ->
  remove_flow_by_five_tuple false garbage db ft = UB.
Proof.
  intros Hr Hk Hd Hfull. unfold remove_flow_by_five_tuple.
  pose proof (it_remove_ok (T := flow_hashtable_t) _ _ ft (fd_flows _ _ Hr)) as Hrm.
  change (it_key (T := flow_hashtable_t) ft) with (flow_key ft) in Hrm. rewrite Hk in Hrm.
  destruct Hrm as (t & Et & _). change (it_remove (T := flow_hashtable_t)) with flow_hashtable_remove in Et.
  rewrite Et. cbn [rbind flow_id_heap with_flow_hashtable].
  by rewrite (push_id_full _ _ _ _ (fd_flow_heaps _ _ Hr) (dev_port_to_pipe_bound _ Hd) Hfull).
Qed.

(** The flow arrives on port 5, its FIN on port 130. *)
Lemma fin_on_other_pipe_overflows_heap_witness :
  exists db db', flowdb_start static_flowdb = Ok db /\
    flowdb_command false sample_ports [] 0 db (PKT_ADD_FLOW (sample_tuple 5)) = Ok db' /\
    remove_flow_by_five_tuple false 0 db' (sample_tuple 130) = UB.
Proof.
  destruct one_flow_db as (db & db' & ft & id & sid & E & E' & _ & _ & Hr & _).
  exists db, db'. split; [exact E|]. split; [exact E'|].
  apply (fin_on_other_pipe_overflows_heap 0 db' _ (sample_tuple 130) (ft, id) Hr).
  - apply lookup_insert_eq.
  - vm_compute. split; congruence.
  - change (dev_port_to_pipe (dev_port (sample_tuple 130))) with 1.
    cbn [a_free_flows spec_put spec_take_session spec_take_flow].
    rewrite fupd_ne by lia. apply initial_free_length.
Defined.

(** With sessions enabled the removal of a flow uses the uninitialised
    local [session_id] as an index: if it happens to be outside the array, the
    handler corrupts memory after it removed the flow. *)
Theorem session_cleanup_uses_indeterminate_id garbage db s ft x :
  fd_rep db s -> fd_inv (fun k => dev_port_to_pipe (dev_port ft)) s ->
  a_flows s !! flow_key ft = Some x ->
  ~ (0 <= garbage < alen (flow_count (session_hashtable db))) ->
  remove_flow_by_five_tuple true garbage db ft = UB.
Proof.
  intros Hr Hinv Hk Hg. unfold remove_flow_by_five_tuple.
  pose proof (it_remove_ok (T := flow_hashtable_t) _ _ ft (fd_flows _ _ Hr)) as Hrm.
  change (it_key (T := flow_hashtable_t) ft) with (flow_key ft) in Hrm. rewrite Hk in Hrm.
  destruct Hrm as (t & Et & Ht). change (it_remove (T := flow_hashtable_t)) with flow_hashtable_remove in Et.
  rewrite Et. cbn [rbind flow_id_heap with_flow_hashtable].
  destruct (give_flow_ok _ db s _ _ Hr (fi_flows _ _ Hinv) Hk) as (hs & Ehs & Hhs).
  rewrite Ehs. cbn [rbind].
  pose proof (rep_flow_heap _ _ (rep_flow_table _ _ Hr _ _ Ht) _ _ Hhs) as Hr1.
  unfold dp_put. destruct (ring_put_ok _ _ (DP_REMOVE_FLOW (MatchTableCmd ft (snd x) 0)) (fd_queue _ _ Hr1))
    as (ring & Er & _). rewrite Er. cbn [rbind].
  unfold session_cleanup_after_flow_remove.
  cbn [session_hashtable with_dataplane_ringbuffer with_flow_id_heap with_flow_hashtable].
  assert (session_hashtable_remove_or_decrease_flow_count true (session_hashtable db) ft garbage = UB) as ->;
    [|done].
  with_strategy transparent [session_hashtable_remove_or_decrease_flow_count]
    unfold session_hashtable_remove_or_decrease_flow_count.
  unfold decrease_flow_count, add_flow_count. by rewrite rd_UB.
Qed.

Lemma session_cleanup_uses_indeterminate_id_witness : exists db,
  remove_flow_by_five_tuple true (-1) db (sample_tuple 5) = UB.
Proof.
  destruct one_flow_db as (_ & db & ft & id & sid & _ & _ & _ & _ & Hr & Hinv). exists db.
  apply (session_cleanup_uses_indeterminate_id (-1) db _ (sample_tuple 5) (ft, id) Hr Hinv).
  - apply lookup_insert_eq.
  - lia.
Defined.
