(* ===== verification/FlowDbSessions.v ===== *)
(** * Flow database with sessions enabled ([flow_db/flow_db.c])

    The default mode: the session table groups the flows of a client and counts them.
    The handlers are those of FlowDb.v with [use_sessions] true; here they are proved
    against an abstract state in which a session is found by its client and direction,
    with the array of flow counts. What the removal of a flow does to its session depends
    on the indeterminate local [session_id] of [session_cleanup_after_flow_remove],
    [garbage] below, which the table uses as an index of that array. *)

From S2P Require Import Prelude Structs Heap Ringbuffer IdTable FlowTable SessionTable BloomFilter FlowDb.

(** ** Specification *)

Notation session_of := (session_key true).

Record fs_state : Type := FsState { fs_db : fd_state; fs_counts : arr Z }.

Section specification.
Context (DEVPORT_MAPPING : arr Z) (garbage : Z).

(** The flow joins the session of its client, or opens it with a free id. The count of a
    new session is left as it was. *)
Definition fs_session (ft : five_tuple_t) (id : Z) (x : fs_state) : fs_state :=
  let s := fs_db x in
  let pipe := dev_port_to_pipe (dev_port ft) in
  match a_sessions s !! session_of ft, a_free_sessions s pipe with
  | Some y, _ => FsState (spec_send_add ft id (snd y) s) (bump (fs_counts x) (snd y) 1)
  | None, sid :: _ => FsState (spec_send_add ft id sid (spec_take_session (session_of ft) ft pipe sid s)) (fs_counts x)
  | None, [] => x
  end.

Definition fs_add (ft : five_tuple_t) (x : fs_state) : fs_state :=
  let s := fs_db x in
  let egress := aget DEVPORT_MAPPING (dev_port ft) in
  let pipe := dev_port_to_pipe (dev_port ft) in
  if egress =? -1 then x
  else
    match a_free_flows s pipe, a_flows s !! flow_key ft with
    | id :: _, None =>
        let ft := with_egress_offset ft (i8 (dev_port_to_pipe egress - pipe)) in
        fs_session ft id (FsState (spec_take_flow (flow_key ft) ft pipe id s) (fs_counts x))
    | _, _ => x
    end.

(** The count at the indeterminate index is decremented; only if it is then zero the
    session of the flow is given up. *)
Definition fs_cleanup (ft : five_tuple_t) (x : fs_state) : fs_state :=
  let s := fs_db x in
  let fc := bump (fs_counts x) garbage (-1) in
  if aget fc garbage =? 0 then
    match a_sessions s !! session_of ft with
    | Some y =>
        FsState (spec_put (DP_CLEAR_REGISTERS (MatchTableCmd ft 0 (snd y)))
          (spec_give_session (session_of ft) (dev_port_to_pipe (dev_port ft)) (snd y) s)) fc
    | None => FsState s fc
    end
  else FsState s fc.

Definition fs_remove (ft : five_tuple_t) (id : Z) (x : fs_state) : fs_state :=
  fs_cleanup ft (FsState (spec_unlink ft id (fs_db x)) (fs_counts x)).

Definition fs_command (c : packet_item_t) (x : fs_state) : fs_state :=
  match c with
  | PKT_ADD_FLOW ft => fs_add ft x
  | PKT_REMOVE_FLOW ft =>
      match a_flows (fs_db x) !! flow_key ft with
      | Some y => fs_remove ft (snd y) x
      | None => x
      end
  | PKT_TIMEOUT_FLOW id =>
      match id_owner (a_flows (fs_db x)) id with
      | Some ft => fs_remove ft id x
      | None => x
      end
  | _ => FsState (spec_command DEVPORT_MAPPING c (fs_db x)) (fs_counts x)
  end.
End specification.

(** *** Representation and invariant *)

Definition counted_as (fc : arr Z) (t : session_hashtable_t) (M : id_map) : Prop := counted_rep true t (M, fc).
Definition fs_rep (db : flowdb_t) (x : fs_state) : Prop := db_rep (counted_as (fs_counts x)) db (fs_db x).

Section steps.
Context (DEVPORT_MAPPING : arr Z) (uuid : list Z) (garbage : Z) (owner session_owner : list Z -> Z).
Context (ports : ports_ok DEVPORT_MAPPING) (garbage_inside : 0 <= garbage < FEATURE_SIZE).

(** The packets of a session arrive on one pipe. *)
Definition session_pipe (ft : five_tuple_t) : Prop :=
  dev_port_to_pipe (dev_port ft) = session_owner (session_of ft).

Record fs_inv (x : fs_state) : Prop := FsInv {
  fs_flows : ids_ok owner (a_flows (fs_db x)) (a_free_flows (fs_db x));
  fs_sessions : ids_ok_by session_of session_owner (a_sessions (fs_db x)) (a_free_sessions (fs_db x));
  fs_pipes : forall k y, a_flows (fs_db x) !! k = Some y -> session_pipe (fst y) }.

Definition fs_command_ok (x : fs_state) (c : packet_item_t) : Prop :=
  match c with
  | PKT_ADD_FLOW ft | PKT_REMOVE_FLOW ft => tuple_ok owner ft /\ session_pipe ft
  | PKT_TIMEOUT_FLOW id =>
      0 <= id < FEATURE_SIZE /\ Z.of_nat (length (a_queue (fs_db x))) < DATAPLANE_RINGBUFFER_SIZE
  | _ => tables_untouched c
  end.

(** ** Proofs *)

#[local] Opaque flow_hashtable_add flow_hashtable_get flow_hashtable_remove
  flow_hashtable_remove_by_value session_hashtable_get
  session_hashtable_add_or_increase_flow_count session_hashtable_remove_or_decrease_flow_count
  ringbuffer_put ringbuffer_ensure_put heap_pop while FEATURE_SIZE.

(** *** The calls of the session table *)

Lemma counted_get fc t M ft :
  counted_as fc t M ->
  session_hashtable_get true t ft =
    Ok (match M !! session_of ft with Some y => (0, Some (snd y)) | None => (1, None) end).
Proof using. intros [Hr _]. exact (session_get_ok _ _ _ _ _ Hr). Qed.

Lemma counted_add fc t M ft v :
  counted_as fc t M -> session_storable ft v -> (M !! session_of ft = None -> id_free v M) ->
  exists r t', session_hashtable_add_or_increase_flow_count true t ft v = Ok (r, t') /\
    match M !! session_of ft with
    | Some _ => counted_as (bump fc v 1) t' M
    | None => counted_as fc t' (<[session_of ft := (ft, v)]> M)
    end.
Proof using.
  intros Hr Hst Hf. destruct (counted_exec_refines true t (M, fc) (SAdd ft v) Hr) as (t' & E & Hr').
  { split; [exact Hst|]. intros Hn. by apply id_free_owner, Hf. }
  cbn [session_exec counted_exec fst snd] in E, Hr'. apply rbind_Ok in E as ([r t1] & E & E').
  exists r, t1. split; [exact E|].
  destruct (M !! session_of ft) as [y|] eqn:Ek; cbn [fst snd] in Hr', E'; injection E' as _ <-; exact Hr'.
Qed.

Lemma counted_remove_call fc t M ft v :
  counted_as fc t M -> 0 <= v < FEATURE_SIZE ->
  let fc' := bump fc v (-1) in
  exists r o t', session_hashtable_remove_or_decrease_flow_count true t ft v = Ok (r, o, t') /\
    if aget fc' v =? 0 then
      match M !! session_of ft with
      | Some y => r = 0 /\ o = Some (snd y) /\ counted_as fc' t' (delete (session_of ft) M)
      | None => r = 1 /\ counted_as fc' t' M
      end
    else r = 1 /\ counted_as fc' t' M.
Proof using.
  intros Hr Hv fc'. destruct (counted_exec_refines true t (M, fc) (SRemove ft v) Hr Hv) as (t' & E & Hr').
  cbn [session_exec counted_exec fst snd] in E, Hr'. apply rbind_Ok in E as ([[r o] t1] & E & E').
  exists r, o, t1. split; [exact E|]. unfold counted_remove in E', Hr'. cbn [fst snd] in E', Hr'. fold fc' in E', Hr'.
  destruct (aget fc' v =? 0); [destruct (M !! session_of ft) as [y|]|];
    cbn [fst snd] in E', Hr'; injection E' as -> -> <-; repeat (split; [done|]); exact Hr'.
Qed.

(** *** Adding *)

Lemma spec_send_add_subset ft id sid s : a_flows (spec_send_add ft id sid s) ⊆ a_flows s.
Proof using. unfold spec_send_add. case_decide; [apply delete_subseteq|done]. Qed.

Lemma fs_send_add_inv s ft id sid fc :
  fs_inv (FsState s fc) -> a_flows s !! flow_key ft = Some (ft, id) -> tuple_ok owner ft ->
  forall fc', fs_inv (FsState (spec_send_add ft id sid s) fc').
Proof using.
  intros [Hf Hs Hp] Hk Hft fc'. cbn [fs_db] in *.
  destruct (spec_send_add_ids owner s ft id sid Hf Hk Hft) as (H1 & E1 & E2).
  split; cbn [fs_db]; [exact H1|by rewrite E1, E2|].
  intros k y Hy. apply (Hp k). by apply (lookup_weaken _ _ _ _ Hy), spec_send_add_subset.
Qed.

Lemma fs_session_ok db x ft id :
  fs_rep db x -> fs_inv x -> tuple_ok owner ft -> session_pipe ft ->
  a_flows (fs_db x) !! flow_key ft = Some (ft, id) ->
  (forall sid, pipe_id (dev_port_to_pipe (dev_port ft)) sid -> session_storable ft sid) ->
  exists db', add_flow_session true uuid db ft id = Ok db' /\ fs_rep db' (fs_session ft id x) /\ fs_inv (fs_session ft id x).
Proof using.
  intros Hr Hinv Hft Hsp Hk Hst. pose proof Hinv as [Hf Hs Hp]. destruct x as [s fc].
  unfold fs_rep in *. cbn [fs_db fs_counts] in *.
  pose proof Hft as [Hd _]. pose proof (dev_port_to_pipe_bound _ Hd) as Hpb.
  unfold add_flow_session, fs_session. cbn [fs_db fs_counts].
  unfold session_pipe in Hsp. set (pipe := dev_port_to_pipe (dev_port ft)) in *.
  rewrite (counted_get _ _ _ ft (fd_sessions _ _ Hr)).
  destruct (a_sessions s !! session_of ft) as [y|] eqn:Ek; cbn [rbind].
  - destruct (io_owned _ _ _ Hs _ _ Ek) as (_ & Hid & _ & _). rewrite <- Hsp in Hid.
    destruct (counted_add _ _ _ ft (snd y) (fd_sessions _ _ Hr) (Hst _ Hid)) as (r & t & Ea & Hc); [by rewrite Ek|].
    rewrite Ek in Hc.
    assert (db_rep (counted_as (bump fc (snd y) 1)) (with_session_hashtable t db) s) as Hr1 by (destruct Hr; by split).
    destruct (add_flow_send_ok owner true db s ft id (snd y) r t Ea Hr1 Hf Hk Hft) as (db' & E & Hr').
    exists db'. split; [exact E|]. split; [exact Hr'|]. by apply (fs_send_add_inv s ft id (snd y) fc).
  - destruct (a_free_sessions s pipe) as [|sid l] eqn:El.
    + destruct (pop_empty _ _ _ (fd_session_heaps _ _ Hr) Hpb El) as (hs & -> & Hhs). cbn [rbind].
      pose proof (rep_session_heap _ _ Hr _ _ Hhs) as Hr1. rewrite set_free_sessions_same in Hr1.
      destruct (rep_mk_uuid _ _ Hr1 uuid 0 ltac:(done)) as (db2 & -> & Hr2). cbn [rbind Z.eqb].
      by exists db2.
    + destruct (pop_least _ _ _ _ _ (fd_session_heaps _ _ Hr) Hpb El) as (hs & -> & Hhs). cbn [rbind].
      assert (pipe_id pipe sid /\ id_free sid (a_sessions s)) as [Hid Hfree]
        by (apply (io_free _ _ _ Hs); [done|rewrite El; left]).
      pose proof (pipe_id_range _ _ Hpb Hid) as Hrange.
      pose proof (rep_session_heap _ _ Hr _ _ Hhs) as Hr1.
      destruct (rep_mk_uuid _ _ Hr1 uuid sid ltac:(lia)) as (db2 & -> & Hr2). cbn [rbind].
      rewrite (proj2 (Z.eqb_neq sid 0)) by lia.
      destruct (counted_add _ _ _ ft sid (fd_sessions _ _ Hr2) (Hst sid Hid)) as (r & t & Ea & Hc); [done|].
      cbn [a_sessions set_free_sessions] in Hc. rewrite Ek in Hc.
      pose proof (rep_session_table _ _ Hr2 _ _ Hc) as Hr3.
      set (s3 := spec_take_session (session_of ft) ft pipe sid s).
      assert (set_sessions (<[session_of ft:=(ft, sid)]> (a_sessions s))
                (set_free_sessions (fupd (a_free_sessions s) pipe l) s) = s3) as Es
        by (unfold s3, spec_take_session; rewrite El; reflexivity).
      rewrite Es in Hr3.
      assert (fs_inv (FsState s3 fc)) as Hinv3.
      { split; [exact Hf| |exact Hp]. unfold s3. cbn [fs_db a_sessions a_free_sessions spec_take_session]. rewrite El.
        cbn [pq_pop snd]. rewrite Hsp in El |- *. apply ids_ok_take; try done. by rewrite <- Hsp. }
      destruct (add_flow_send_ok owner true db2 s3 ft id sid r t Ea Hr3 Hf Hk Hft) as (db' & E & Hr').
      exists db'. split; [exact E|]. split; [exact Hr'|]. exact (fs_send_add_inv s3 ft id sid fc Hinv3 Hk Hft fc).
Qed.

Lemma fs_add_ok db x ft :
  fs_rep db x -> fs_inv x -> tuple_ok owner ft -> session_pipe ft ->
  exists db', add_flow true DEVPORT_MAPPING uuid db ft = Ok db' /\
    fs_rep db' (fs_add DEVPORT_MAPPING ft x) /\ fs_inv (fs_add DEVPORT_MAPPING ft x).
Proof using ports.
  intros Hr Hinv Hft Hsp. unfold fs_add.
  destruct (add_flow_cases DEVPORT_MAPPING uuid owner ports true db (fs_db x) ft Hr (fs_flows _ Hinv) Hft)
    as [(db' & E & Hr' & Hc)|(id & l & db' & Hne & El & Ek & E & Hr' & Hok & Hk & Hst)]; cbv zeta in *.
  - exists db'. split; [exact E|]. destruct (Z.eqb_spec (aget DEVPORT_MAPPING (dev_port ft)) (-1)); [by split|].
    destruct Hc as [Hc|[-> |[y ->]]]; [done|by split|by destruct (a_free_flows (fs_db x) _)].
  - rewrite E, (proj2 (Z.eqb_neq _ _) Hne), El, Ek. clear E.
    set (ft' := with_egress_offset ft _) in *.
    apply (fs_session_ok db' (FsState _ (fs_counts x)) ft' id); [exact Hr'| |exact Hft|exact Hsp|exact Hk|exact Hst].
    split; cbn [fs_db]; [exact Hok|apply Hinv|]. intros k y. cbn [a_flows spec_take_flow].
    rewrite lookup_insert. case_decide; [by intros [= <-]|apply (fs_pipes _ Hinv)].
Qed.

(** *** Removing *)

Lemma fs_cleanup_ok db x ft :
  fs_rep db x -> fs_inv x -> session_pipe ft ->
  exists db', session_cleanup_after_flow_remove true garbage db ft = Ok db' /\
    fs_rep db' (fs_cleanup garbage ft x) /\ fs_inv (fs_cleanup garbage ft x).
Proof using garbage_inside.
  intros Hr [Hf Hs Hp] Hsp. destruct x as [s fc]. unfold fs_rep in *. cbn [fs_db fs_counts] in *.
  unfold session_cleanup_after_flow_remove, fs_cleanup. cbn [fs_db fs_counts].
  destruct (counted_remove_call _ _ _ ft garbage (fd_sessions _ _ Hr) garbage_inside) as (r & o & t & -> & Hc).
  cbn [rbind]. set (fc' := bump fc garbage (-1)) in *.
  assert (counted_as fc' t (a_sessions s) -> db_rep (counted_as fc') (with_session_hashtable t db) s) as Hsame
    by (intros Ht; destruct Hr; by split).
  destruct (aget fc' garbage =? 0).
  - destruct (a_sessions s !! session_of ft) as [y|] eqn:Ek.
    + destruct Hc as (-> & -> & Ht). cbn [Z.eqb default from_option].
      destruct (io_owned _ _ _ Hs _ _ Ek) as (Hpo & _).
      destruct (give_session_ok session_owner db s _ _ Hr Hs Ek) as (hs & Ehs & Hhs).
      unfold session_pipe in Hsp. rewrite Hsp. cbn [session_id_heap with_session_hashtable]. unfold id. rewrite Ehs. cbn [rbind].
      assert (db_rep (counted_as fc') (with_session_hashtable t db) (set_sessions (delete (session_of ft) (a_sessions s)) s)) as Hr1
        by (destruct Hr; by split).
      pose proof (rep_session_heap _ _ Hr1 _ _ Hhs) as Hr2. unfold clear_registers.
      destruct (rep_dp_put _ _ Hr2 (DP_CLEAR_REGISTERS (MatchTableCmd ft 0 (snd y)))) as (db1 & E & Hr3).
      rewrite E. cbn [rbind]. exists db1. split; [done|]. split; [exact Hr3|].
      split; cbn [fs_db]; [exact Hf|exact (ids_ok_give _ _ _ _ _ Hs Ek)|exact Hp].
    + destruct Hc as (-> & Ht). cbn [Z.eqb]. eexists. split; [reflexivity|]. split; [by apply Hsame|by split].
  - destruct Hc as (-> & Ht). cbn [Z.eqb]. eexists. split; [reflexivity|]. split; [by apply Hsame|by split].
Qed.

Lemma fs_unlink_inv x ft y :
  fs_inv x -> pipe_ok owner ft -> a_flows (fs_db x) !! flow_key ft = Some y ->
  fs_inv (FsState (spec_unlink ft (snd y) (fs_db x)) (fs_counts x)).
Proof using.
  intros [Hf Hs Hp] Hft Hk. split; cbn [fs_db]; [by apply spec_unlink_ids|exact Hs|].
  unfold spec_unlink. cbn [a_flows spec_put spec_give_flow].
  intros k z [_ Hz]%lookup_delete_Some. exact (Hp k z Hz).
Qed.

(** *** Any command *)

Lemma fs_command_refines db x c :
  fs_rep db x -> fs_inv x -> fs_command_ok x c ->
  exists db', flowdb_command true DEVPORT_MAPPING uuid garbage db c = Ok db' /\
    let x' := fs_command DEVPORT_MAPPING garbage c x in fs_rep db' x' /\ fs_inv x'.
Proof using ports garbage_inside.
  intros Hr Hinv Hc. pose proof Hinv as [Hf Hs Hp].
  assert (forall c, tables_untouched c ->
    exists db', flowdb_command true DEVPORT_MAPPING uuid garbage db c = Ok db' /\
      let x' := FsState (spec_command DEVPORT_MAPPING c (fs_db x)) (fs_counts x) in
      fs_rep db' x' /\ fs_inv x') as Hu.
  { intros c' Hc'. destruct (untouched_command_ok DEVPORT_MAPPING uuid garbage true db (fs_db x) c' Hr Hc')
      as (db' & E & Hr' & E1 & E2 & E3 & E4). exists db'. split; [exact E|]. split; [exact Hr'|].
    split; cbn [fs_db]; rewrite ?E1, ?E2, ?E3, ?E4; done. }
  destruct c as [ft|ft|ft|ft|ft|id]; try exact (Hu _ Hc); cbn [flowdb_command fs_command fs_command_ok] in *.
  - destruct Hc as [Ht Hsp]. destruct (fs_add_ok db x ft Hr Hinv Ht Hsp) as (db' & E & H'). by exists db'.
  - destruct Hc as [Ht Hsp]. pose proof (tuple_pipe_ok _ _ Ht) as Hpo.
    pose proof (remove_by_tuple_cases garbage owner true db (fs_db x) ft Hr Hf Hpo) as Hcase.
    destruct (a_flows (fs_db x) !! flow_key ft) as [y|] eqn:Ek; destruct Hcase as (db1 & -> & Hr1); [|by exists db1].
    exact (fs_cleanup_ok db1 (FsState _ (fs_counts x)) ft Hr1 (fs_unlink_inv x ft y Hinv Hpo Ek) Hsp).
  - destruct Hc as [Hid Hroom].
    pose proof (remove_by_id_cases garbage owner true db (fs_db x) id Hr Hf Hid Hroom) as Hcase.
    destruct (id_owner (a_flows (fs_db x)) id) as [ft|]; [|destruct Hcase as (db1 & -> & Hr1); by exists db1].
    destruct Hcase as (db1 & -> & Hr1 & Hpo & Hk).
    exact (fs_cleanup_ok db1 (FsState _ (fs_counts x)) ft Hr1 (fs_unlink_inv x ft (ft, id) Hinv Hpo Hk) (Hp _ _ Hk)).
Qed.
End steps.

(** *** Sessions of a single flow

    A client opens a flow and closes it before its next one. *)



Section leak.
Context (DEVPORT_MAPPING : arr Z) (owner session_owner : list Z -> Z) (p : Z).
Context (ports : ports_ok DEVPORT_MAPPING) (pipe : 0 <= p < NUM_PIPES).

(** A forwarded flow of the pipe, and an index inside of the counts. *)
Definition lone_ok (r : five_tuple_t * list Z * Z) : Prop :=
  tuple_ok owner r.1.1 /\ session_pipe session_owner r.1.1 /\ dev_port_to_pipe (dev_port r.1.1) = p /\
  aget DEVPORT_MAPPING (dev_port r.1.1) <> -1 /\ 0 <= r.2 < FEATURE_SIZE.

(** What [n] such flows leave behind. *)
Record leaked (keys : list (list Z)) (x : fs_state) : Prop := Leaked {
  lk_flows : a_flows (fs_db x) = ∅;
  lk_sessions : forall k, is_Some (a_sessions (fs_db x) !! k) <-> k ∈ keys;
  lk_free : Z.of_nat (length (a_free_sessions (fs_db x) p)) + Z.of_nat (length keys) = HEAPSIZE;
  lk_counts : forall i, - Z.of_nat (length keys) <= aget (fs_counts x) i <= 0 }.

Lemma free_when_no_flow x :
  fs_inv owner session_owner x -> a_flows (fs_db x) = ∅ -> exists id l, a_free_flows (fs_db x) p = id :: l.
Proof using pipe.
  intros Hinv E. destruct (a_free_flows (fs_db x) p) as [|id l] eqn:Ef; [|by eauto].
  exfalso. apply (not_elem_of_nil (4 + p)). rewrite <- Ef. apply (io_free _ _ _ (fs_flows _ _ _ Hinv)); [done|].
  split; [exists 0; split; [done|lia]|]. rewrite E. intros k y Hk. by rewrite lookup_empty in Hk.
Qed.


(** Opening the flow: a session is taken. *)
Lemma lone_add keys x ft uuid g :
  fs_inv owner session_owner x -> lone_ok (ft, uuid, g) -> leaked keys x -> session_of ft ∉ keys ->
  Z.of_nat (length keys) < HEAPSIZE ->
  let x' := fs_add DEVPORT_MAPPING ft x in
  (forall k, is_Some (a_sessions (fs_db x') !! k) <-> k = session_of ft \/ k ∈ keys) /\
  Z.of_nat (length (a_free_sessions (fs_db x') p)) + Z.of_nat (length keys) + 1 = HEAPSIZE /\
  fs_counts x' = fs_counts x /\
  (a_flows (fs_db x') = ∅ \/ exists y, a_flows (fs_db x') = {[flow_key ft := y]}).
Proof using pipe.
  intros Hinv (_ & _ & Hp & Hne & _) [Ef Es El _] Hnew Hlt. cbn [fst snd] in Hp, Hne. unfold fs_add.
  rewrite (proj2 (Z.eqb_neq _ _) Hne), Hp. destruct (free_when_no_flow x Hinv Ef) as (id & l & ->).
  rewrite Ef, lookup_empty. set (ft' := with_egress_offset ft _). unfold fs_session.
  cbn [fs_db fs_counts a_sessions a_free_sessions spec_take_flow].
  change (session_of ft') with (session_of ft). change (dev_port ft') with (dev_port ft). rewrite Hp.
  destruct (a_sessions (fs_db x) !! session_of ft) as [y|] eqn:Ek; [destruct Hnew; apply Es; by eauto|].
  destruct (a_free_sessions (fs_db x) p) as [|sid l'] eqn:Efs; [cbn [length] in El; lia|]. cbn [fs_db fs_counts].
  set (s1 := spec_take_session _ _ _ _ _).
  assert (a_sessions s1 = <[session_of ft := (ft', sid)]> (a_sessions (fs_db x))) as E1 by done.
  assert (a_free_sessions s1 p = l') as E2 by (cbn; by rewrite fupd_eq, Efs).
  assert (a_flows s1 = {[flow_key ft := (ft', id)]}) as E3 by (cbn; by rewrite Ef).
  clearbody s1. assert (a_sessions (spec_send_add ft' id sid s1) = a_sessions s1 /\
    a_free_sessions (spec_send_add ft' id sid s1) = a_free_sessions s1) as [-> ->] by (unfold spec_send_add; by case_decide).
  rewrite E1, E2. cbn [length] in El. split; [|split; [lia|split; [done|]]].
  - intros k. rewrite lookup_insert_is_Some, Es. naive_solver.
  - unfold spec_send_add. case_decide; [left|right; exists (ft', id); exact E3].
    cbn [a_flows spec_give_flow]. rewrite E3. change (flow_key ft') with (flow_key ft). apply delete_singleton_eq.
Qed.



End leak.

Definition fs_initial : fs_state := FsState initial_state (amake FEATURE_SIZE 0).

Lemma fs_start_ok owner session_owner :
  exists db, flowdb_start static_flowdb = Ok db /\ fs_rep db fs_initial /\ fs_inv owner session_owner fs_initial.
Proof.
  destruct (flowdb_start_rep (counted_as (amake FEATURE_SIZE 0))) as (db & E & Hr).
  - apply counted_rep_init. reflexivity.
  - exists db. split; [exact E|]. split; [exact Hr|].
    split; [apply initial_ids_ok|apply initial_ids_ok|]. intros k y. cbn [fs_initial fs_db a_flows initial_state]. by rewrite lookup_empty.
Qed.

Lemma initial_leaked p : leaked p [] fs_initial.
Proof.
  split.
  - reflexivity.
  - intros k. cbn [fs_initial fs_db a_sessions initial_state]. rewrite lookup_empty.
    split; [intros Hk; destruct (is_Some_None Hk)|intros Hk; destruct (not_elem_of_nil _ Hk)].
  - cbn [fs_initial fs_db a_free_sessions initial_state]. rewrite initial_free_length. reflexivity.
  - intros i. cbn [fs_initial fs_counts]. rewrite aget_amake. split; reflexivity || discriminate.
Qed.

Lemma sample_lone : lone_ok sample_ports (fun _ => 0) (fun _ => 0) 0 (sample_tuple 5, [], 17).
Proof.
  split; [split; [split; [discriminate|reflexivity]|reflexivity]|]. split; [reflexivity|]. split; [reflexivity|].
  split; [vm_compute; discriminate|]. cbn [snd]. rewrite FEATURE_SIZE_val. lia.
Qed.

Lemma pipe_0 : 0 <= 0 < NUM_PIPES.
Proof. split; [discriminate|reflexivity]. Qed.

(** ** Properties *)

(** Claim C2. The flow database in its default mode, with sessions enabled. A command is
    executed without leaving an array or looping, and does exactly what the abstract
    specification says, a function of the state and the command, under these conditions:
    [DEVPORT_MAPPING] is as the preparation leaves it, the tuple of an addition or a FIN
    arrives on a port below 512 of the pipe that belongs to its flow and to its client's
    session, a tuple for the Bloom filter has a
    supported protocol and such a port, a timeout is of an id below [FEATURE_SIZE] and
    finds room in the data plane queue, and the indeterminate index of a removal lies
    inside of the counts. (What happens otherwise: [unchecked_port_over_reads],
    [fin_on_other_pipe_overflows_heap].) Then a new flow joins the session of its client
    and is counted there, or opens a session under the least free id; a removal decrements
    the count at the indeterminate index and gives up the session of the flow only if that
    count is then zero; the Bloom filter commands change the counters and the queue as
    their positions say. No flow id and no session id is lost or handed out twice. *)
Theorem flowdb_sessions_refine DEVPORT_MAPPING uuid garbage owner session_owner db x c :
  ports_ok DEVPORT_MAPPING -> 0 <= garbage < FEATURE_SIZE ->
  fs_rep db x -> fs_inv owner session_owner x -> fs_command_ok owner session_owner x c ->
  exists db', flowdb_command true DEVPORT_MAPPING uuid garbage db c = Ok db' /\
    let x' := fs_command DEVPORT_MAPPING garbage c x in
    fs_rep db' x' /\ fs_inv owner session_owner x'.
Proof. intros Hports Hg Hr Hinv Hc. by apply fs_command_refines. Qed.

Lemma flowdb_sessions_refine_witness : exists db db' x',
  flowdb_start static_flowdb = Ok db /\
  flowdb_command true sample_ports [] 17 db (PKT_ADD_FLOW (sample_tuple 5)) = Ok db' /\ fs_rep db' x' /\
  is_Some (a_sessions (fs_db x') !! session_of (sample_tuple 5)).
Proof.
  destruct (fs_start_ok (fun _ => 0) (fun _ => 0)) as (db & E & Hr & Hinv).
  destruct (flowdb_sessions_refine sample_ports [] 17 (fun _ => 0) (fun _ => 0) db fs_initial (PKT_ADD_FLOW (sample_tuple 5)))
    as (db' & E' & Hr' & _).
  - exact sample_ports_ok.
  - rewrite FEATURE_SIZE_val. lia.
  - exact Hr.
  - exact Hinv.
  - split; [split; [split; [discriminate|reflexivity]|reflexivity]|reflexivity].
  - exists db, db', (fs_add sample_ports (sample_tuple 5) fs_initial). split; [exact E|]. split; [exact E'|].
    split; [exact Hr'|].
    apply (lone_add sample_ports (fun _ => 0) (fun _ => 0) 0 pipe_0 [] fs_initial (sample_tuple 5) [] 17 Hinv sample_lone
             (initial_leaked 0) (not_elem_of_nil _) eq_refl).
    left. reflexivity.
Defined.


