(* ===== verification/DpApi.v ===== *)
(** * Data plane interface ([dataplane/dp_api.c], [dataplane/dp_api.h])

    The functions [p4_pd_...] that the P4 compiler generates for the switch are
    not part of the repository: they are the operations of the class [Switch], on
    an abstract switch state. [SwitchLaws] states the documented effect of the
    calls on the visible part of that state: an exact match table refuses a match
    specification that it already holds, and may refuse any addition once it holds
    as many entries as are usable ([TableSizes]); a range read returns the copy
    that the last synchronisation made; nothing is known of a register after a
    failed access to it. [model_switch] is an instance of both classes. On top of
    them stand the functions of [dp_api.c]. *)

From S2P Require Import Prelude Structs.

Definition SUCCESS : Z := 0.
Definition ERR_CONNECT : Z := 1.
Definition ERR_PROTO : Z := 2.
Definition ERR_SWITCH : Z := 3.

(** The declared sizes of the classification tables, of [p4/config.p4]. *)
Definition MAX_IP4_FLOWS : Z := 98304.
Definition MAX_IP6_FLOWS : Z := 32768.

(** The numbers of entries that a pipe's table takes for certain. They depend on how
    the tables are placed on the switch, and can be below the declared sizes: the
    benchmark leaves 12290 of the declared IPv4 entries out ([benchmark.c:84]). *)
Class TableSizes : Type := {
  ipv4_usable : Z;
  ipv6_usable : Z;
  ipv4_usable_le : ipv4_usable <= MAX_IP4_FLOWS;
  ipv6_usable_le : ipv6_usable <= MAX_IP6_FLOWS }.

(** The sizes that the benchmark found, for concrete runs. *)
#[export] Instance model_sizes : TableSizes | 1000.
Proof. refine {| ipv4_usable := 86014; ipv6_usable := 32768 |}; done. Defined.

(** The match specifications of the two classification tables. *)
Record ipv4_match_spec : Type := Ipv4MatchSpec {
  ipv4_srcAddr : Z;
  ipv4_dstAddr : Z;
  ipv4_lookup_src : Z;
  ipv4_lookup_dst : Z;
  ipv4_tcp_valid : Z }.
Record ipv6_match_spec : Type := Ipv6MatchSpec {
  ipv6_srcAddr : list Z;
  ipv6_dstAddr : list Z;
  ipv6_lookup_src : Z;
  ipv6_lookup_dst : Z;
  ipv6_tcp_valid : Z }.

#[global] Instance ipv4_match_spec_eq_dec : EqDecision ipv4_match_spec.
Proof. solve_decision. Defined.
#[global] Instance ipv6_match_spec_eq_dec : EqDecision ipv6_match_spec.
Proof. solve_decision. Defined.

(** ** The switch

    A status of 0 is success. The table functions report the handle that they
    write through their pointer argument; the range read reports the new content
    of the buffer it is given. *)
Class Switch (sw : Type) := {
  ipv4_table_add : sw -> Z -> ipv4_match_spec -> Z -> Z * option Z * sw;
  ipv6_table_add : sw -> Z -> ipv6_match_spec -> Z -> Z * option Z * sw;
  ipv4_table_delete : sw -> Z -> Z * sw;
  ipv6_table_delete : sw -> Z -> Z * sw;
  bloom_filter_write : sw -> Z -> Z -> Z -> Z -> Z * sw;
  database_sync : sw -> Z -> Z * sw;
  register_range_read : sw -> Z -> Z -> Z -> arr Z -> Z * arr Z;
  register_write : sw -> Z -> Z -> Z -> Z -> Z * sw;
  register_reset_all : sw -> Z -> Z -> Z * sw }.

(** *** What is visible of a switch

    The entries of the tables by handle, with their pipe and register index; the
    Bloom filter bits by filter, pipe and index; the live registers, which the
    traffic changes, and the copy of them that range reads return, both by id, pipe
    and index. *)
Record switch_view : Type := SwitchView {
  v_ipv4 : gmap Z (Z * ipv4_match_spec * Z);
  v_ipv6 : gmap Z (Z * ipv6_match_spec * Z);
  v_bloom : Z -> Z -> Z -> Z;
  v_regs : Z -> Z -> Z -> Z;
  v_synced : Z -> Z -> Z -> Z }.

Definition with_ipv4 t v := SwitchView t (v_ipv6 v) (v_bloom v) (v_regs v) (v_synced v).
Definition with_ipv6 t v := SwitchView (v_ipv4 v) t (v_bloom v) (v_regs v) (v_synced v).
Definition with_bloom b v := SwitchView (v_ipv4 v) (v_ipv6 v) b (v_regs v) (v_synced v).
Definition with_regs r v := SwitchView (v_ipv4 v) (v_ipv6 v) (v_bloom v) r (v_synced v).
Definition with_synced c v := SwitchView (v_ipv4 v) (v_ipv6 v) (v_bloom v) (v_regs v) c.

(** Update of a function of three integers at one point. *)
Definition upd3 (f : Z -> Z -> Z -> Z) (a b c v : Z) : Z -> Z -> Z -> Z :=
  fun x y z => if decide (x = a /\ y = b /\ z = c) then v else f x y z.

(** The entries of one pipe: the tables are per pipe. *)
Definition pipe_entries {S} (pipe : Z) (m : gmap Z (Z * S * Z)) : gmap Z (Z * S * Z) :=
  filter (fun x => x.2.1.1 = pipe) m.

(** The table of the pipe has an entry with the match specification. *)
Definition matched {S} (pipe : Z) (spec : S) (m : gmap Z (Z * S * Z)) : Prop :=
  exists h register, m !! h = Some (pipe, spec, register).

(** Effect of an addition on a table. One that succeeds adds an entry under an unused
    handle, which it reports; the pipe's table had no entry with the same match
    specification and fewer entries than declared. One that fails changes nothing
    and reports no handle; it only fails because of an entry with the same match
    specification, or when all usable entries are taken. In between the two sizes
    both outcomes are possible. *)
Definition add_effect {S} (declared usable pipe : Z) (spec : S) (register : Z)
    (m : gmap Z (Z * S * Z)) (r : Z * option Z) (m' : gmap Z (Z * S * Z)) : Prop :=
  (r.1 = 0 /\ Z.of_nat (size (pipe_entries pipe m)) < declared /\ ~ matched pipe spec m /\
   exists h, r.2 = Some h /\ m !! h = None /\ m' = <[h := (pipe, spec, register)]> m) \/
  (r.1 <> 0 /\ r.2 = None /\ m' = m /\
   (matched pipe spec m \/ usable <= Z.of_nat (size (pipe_entries pipe m)))).

(** Effect of a deletion. *)
Definition delete_effect {E} (m : gmap Z E) (h status : Z) (m' : gmap Z E) : Prop :=
  m' = delete h m /\ (is_Some (m !! h) -> status = 0).

(** The live registers may have changed where [P] holds, and the synchronised copy
    anywhere. *)
Definition registers_changed (P : Z -> Z -> Z -> Prop) (v v' : switch_view) : Prop :=
  exists r c, v' = with_synced c (with_regs r v) /\
    forall reg pipe i, ~ P reg pipe i -> r reg pipe i = v_regs v reg pipe i.

Class SwitchLaws (sw : Type) `{Switch sw, TableSizes} := {
  view : sw -> switch_view;
  ipv4_add_law s pipe spec register :
    exists m, add_effect MAX_IP4_FLOWS ipv4_usable pipe spec register (v_ipv4 (view s))
                (ipv4_table_add s pipe spec register).1 m /\
              view (ipv4_table_add s pipe spec register).2 = with_ipv4 m (view s);
  ipv6_add_law s pipe spec register :
    exists m, add_effect MAX_IP6_FLOWS ipv6_usable pipe spec register (v_ipv6 (view s))
                (ipv6_table_add s pipe spec register).1 m /\
              view (ipv6_table_add s pipe spec register).2 = with_ipv6 m (view s);
  ipv4_delete_law s h :
    exists m, delete_effect (v_ipv4 (view s)) h (ipv4_table_delete s h).1 m /\
              view (ipv4_table_delete s h).2 = with_ipv4 m (view s);
  ipv6_delete_law s h :
    exists m, delete_effect (v_ipv6 (view s)) h (ipv6_table_delete s h).1 m /\
              view (ipv6_table_delete s h).2 = with_ipv6 m (view s);
  bloom_write_law s i pipe index value :
    0 <= index < BLOOMFILTER_WIDTH ->
    (bloom_filter_write s i pipe index value).1 = 0 /\
    view (bloom_filter_write s i pipe index value).2 =
      with_bloom (upd3 (v_bloom (view s)) i pipe index value) (view s);
  sync_law s reg :
    exists c, view (database_sync s reg).2 = with_synced c (view s) /\
      (forall reg', reg' <> reg -> c reg' = v_synced (view s) reg') /\
      ((database_sync s reg).1 = 0 -> c reg = v_regs (view s) reg);
  range_read_length s reg index count buffer :
    alen (register_range_read s reg index count buffer).2 = alen buffer;
  range_read_law s reg count buffer :
    (register_range_read s reg 0 count buffer).1 = 0 ->
    forall i, 0 <= i < count * NUM_PIPES ->
      aget (register_range_read s reg 0 count buffer).2 i =
        v_synced (view s) reg (flow_id_to_pipe i) (flow_id_to_register_index i);
  register_write_law s reg pipe index value :
    registers_changed (fun r p i => r = reg /\ p = pipe /\ i = index) (view s)
      (view (register_write s reg pipe index value).2) /\
    ((register_write s reg pipe index value).1 = 0 ->
     v_regs (view (register_write s reg pipe index value).2) reg pipe index = value);
  register_reset_law s reg pipe :
    registers_changed (fun r p _ => r = reg /\ p = pipe) (view s)
      (view (register_reset_all s reg pipe).2) /\
    ((register_reset_all s reg pipe).1 = 0 ->
     forall i, v_regs (view (register_reset_all s reg pipe).2) reg pipe i = 0) }.

(** *** A switch *)

Definition fresh_handle {E} (m : gmap Z E) : Z := fresh (dom m).

(** The entries of a pipe with a given match specification. *)
Definition entries_matching {S} `{EqDecision S} (pipe : Z) (spec : S) (m : gmap Z (Z * S * Z))
    : gmap Z (Z * S * Z) :=
  filter (fun x => x.2.1.1 = pipe /\ x.2.1.2 = spec) m.

Definition model_add {S} `{EqDecision S} (usable pipe : Z) (spec : S) (register : Z)
    (m : gmap Z (Z * S * Z)) : Z * option Z * gmap Z (Z * S * Z) :=
  if decide (usable <= Z.of_nat (size (pipe_entries pipe m)) \/ entries_matching pipe spec m <> ∅)
  then (1, None, m)
  else (0, Some (fresh_handle m), <[fresh_handle m := (pipe, spec, register)]> m).
Definition model_delete {E} (m : gmap Z E) (h : Z) : Z * gmap Z E :=
  (if decide (is_Some (m !! h)) then 0 else 1, delete h m).

(** The first [count * NUM_PIPES] elements of the buffer are overwritten. *)
Definition model_read (regs : Z -> Z -> Z -> Z) (reg count : Z) (buffer : arr Z) : arr Z :=
  foldr (fun i b => aset b i (regs reg (flow_id_to_pipe i) (flow_id_to_register_index i)))
    buffer (seqZ 0 (count * NUM_PIPES)).

(** A switch is its visible part; when the flag is set its range reads fail. It has the
    sizes that the benchmark found. *)
Definition model_sw : Type := switch_view * bool.

#[export] Instance model_switch : Switch model_sw := {
  ipv4_table_add s pipe spec register :=
    let '(r, m) := model_add (@ipv4_usable model_sizes) pipe spec register (v_ipv4 s.1) in
    (r, (with_ipv4 m s.1, s.2));
  ipv6_table_add s pipe spec register :=
    let '(r, m) := model_add (@ipv6_usable model_sizes) pipe spec register (v_ipv6 s.1) in
    (r, (with_ipv6 m s.1, s.2));
  ipv4_table_delete s h := let '(r, m) := model_delete (v_ipv4 s.1) h in (r, (with_ipv4 m s.1, s.2));
  ipv6_table_delete s h := let '(r, m) := model_delete (v_ipv6 s.1) h in (r, (with_ipv6 m s.1, s.2));
  bloom_filter_write s i pipe index value :=
    (0, (with_bloom (upd3 (v_bloom s.1) i pipe index value) s.1, s.2));
  database_sync s reg :=
    (0, (with_synced (fun r => if decide (r = reg) then v_regs s.1 r else v_synced s.1 r) s.1, s.2));
  register_range_read s reg _ count buffer :=
    if s.2 then (1, buffer) else (0, model_read (v_synced s.1) reg count buffer);
  register_write s reg pipe index value :=
    (0, (with_regs (upd3 (v_regs s.1) reg pipe index value) s.1, s.2));
  register_reset_all s reg pipe :=
    (0, (with_regs (fun r p i => if decide (r = reg /\ p = pipe) then 0 else v_regs s.1 r p i) s.1, s.2)) }.

Lemma entries_matching_matched {S} `{EqDecision S} pipe (spec : S) m :
  entries_matching pipe spec m <> ∅ <-> matched pipe spec m.
Proof.
  unfold entries_matching, matched. split.
  - intros (h & [[p s] register] & Hx)%map_choose.
    apply map_lookup_filter_Some in Hx as [Hx [Hp Hs]]. cbn in Hp, Hs. subst. by exists h, register.
  - intros (h & register & Hx) He.
    assert (entries_matching pipe spec m !! h = Some (pipe, spec, register)) as Hf
      by (by apply map_lookup_filter_Some_2).
    unfold entries_matching in Hf. by rewrite He, lookup_empty in Hf.
Qed.

Lemma model_add_ok {S} `{EqDecision S} declared usable pipe (spec : S) register m :
  usable <= declared ->
  add_effect declared usable pipe spec register m (model_add usable pipe spec register m).1
    (model_add usable pipe spec register m).2.
Proof.
  intros Hle. unfold model_add, add_effect.
  destruct (decide _) as [Hc|Hc]; cbn [fst snd]; rewrite entries_matching_matched in Hc.
  - right. repeat split; try done. tauto.
  - left. split; [done|]. split; [lia|]. split; [tauto|]. eexists. split; [done|]. split; [|done].
    apply not_elem_of_dom, is_fresh.
Qed.

Lemma model_read_ok (regs : Z -> Z -> Z -> Z) (reg : Z) (l : list Z) (buffer : arr Z) :
  let b := foldr (fun i b => aset b i (regs reg (flow_id_to_pipe i) (flow_id_to_register_index i)))
             buffer l in
  alen b = alen buffer /\
  forall i, i ∈ l -> aget b i = regs reg (flow_id_to_pipe i) (flow_id_to_register_index i).
Proof.
  induction l as [|x l [IHl IH]]; cbn [foldr]; [by split; [|intros i ?%elem_of_nil]|].
  split; [done|]. intros i Hi. rewrite aget_aset. case_decide; [by subst|].
  apply IH. by apply elem_of_cons in Hi as [->|].
Qed.

#[export] Instance model_switch_laws : @SwitchLaws model_sw model_switch model_sizes.
Proof.
  refine (@Build_SwitchLaws model_sw model_switch model_sizes fst _ _ _ _ _ _ _ _ _ _).
  - intros s pipe spec register.
    pose proof (model_add_ok MAX_IP4_FLOWS (@ipv4_usable model_sizes) pipe spec register (v_ipv4 s.1)
                  (@ipv4_usable_le model_sizes)) as H.
    cbn [ipv4_table_add model_switch]. destruct (model_add _ _ _ _ _) as [r m]. by exists m.
  - intros s pipe spec register.
    pose proof (model_add_ok MAX_IP6_FLOWS (@ipv6_usable model_sizes) pipe spec register (v_ipv6 s.1)
                  (@ipv6_usable_le model_sizes)) as H.
    cbn [ipv6_table_add model_switch]. destruct (model_add _ _ _ _ _) as [r m]. by exists m.
  - intros s h. eexists. split; [|reflexivity]. split; [done|]. cbn. intros. by rewrite decide_True.
  - intros s h. eexists. split; [|reflexivity]. split; [done|]. cbn. intros. by rewrite decide_True.
  - intros; by split.
  - intros s reg. eexists. split; [reflexivity|]. split.
    + intros reg' Hne. cbn beta. by rewrite decide_False.
    + intros _. cbn beta. by rewrite decide_True.
  - intros [v []] reg index count buffer; [done|]. apply model_read_ok.
  - intros [v []] reg count buffer; [done|]. intros _ i Hi. apply model_read_ok. by apply elem_of_seqZ0.
  - intros s reg pipe index value. split.
    + eexists _, (v_synced s.1). split; [reflexivity|]. intros r p i Hn. unfold upd3. by rewrite decide_False.
    + intros _. cbn. unfold upd3. by rewrite decide_True.
  - intros s reg pipe. split.
    + eexists _, (v_synced s.1). split; [reflexivity|]. intros r p i Hn. cbn beta. by rewrite decide_False.
    + intros _ i. cbn. by rewrite decide_True.
Defined.

(** ** The functions of [dp_api.c] *)

(** The array [PIPES] of device targets, by pipe id. *)
Definition PIPES : arr Z := foldr (fun i a => aset a i i) (amake NUM_PIPES 0) (seqZ 0 NUM_PIPES).

(** [switch_connect]: the statuses of [pipe_mgr_init] and [pipe_mgr_client_init]
    and the session handle of the latter; the result is the status and [*sess_hdl]. *)
Definition switch_connect (init_status : Z) (client : Z * Z) : Z * Z :=
  if negb (init_status =? 0) then (ERR_CONNECT, 0)
  else
    let '(status, sess_hdl) := client in
    (if negb (status =? 0) then ERR_CONNECT else SUCCESS, sess_hdl).
Definition switch_disconnect (cleanup_status : Z) : Z :=
  if negb (cleanup_status =? 0) then ERR_CONNECT else SUCCESS.

Section operations.
Context {sw : Type} `{Switch sw}.
Implicit Types (s : sw) (five_tuple : five_tuple_t).

Definition ipv4_spec five_tuple : ipv4_match_spec :=
  let h := ft_h five_tuple in
  Ipv4MatchSpec (SWAP_ENDIAN_32 (addr_ipv4 (src_addr h))) (SWAP_ENDIAN_32 (addr_ipv4 (dst_addr h)))
    (src_port h) (dst_port h) (l4_proto h).

(** [{src[15], src[14], ..., src[0]}]. *)
Definition ipv6_spec five_tuple : ipv6_match_spec :=
  let h := ft_h five_tuple in
  Ipv6MatchSpec (rev (addr_ipv6 (src_addr h))) (rev (addr_ipv6 (dst_addr h)))
    (src_port h) (dst_port h) (l4_proto h).

Definition switch_add_ipv4_entry s five_tuple (devTarget register_index : Z) : Z * option Z * sw :=
  if negb (l3_proto (ft_h five_tuple) =? L3_IPV4) then (ERR_PROTO, None, s)
  else
    let '(status, hdl, s) := ipv4_table_add s devTarget (ipv4_spec five_tuple) register_index in
    (if negb (status =? 0) then ERR_SWITCH else SUCCESS, hdl, s).

Definition switch_add_ipv6_entry s five_tuple (devTarget register_index : Z) : Z * option Z * sw :=
  if negb (l3_proto (ft_h five_tuple) =? L3_IPV6) then (ERR_PROTO, None, s)
  else
    let '(status, hdl, s) := ipv6_table_add s devTarget (ipv6_spec five_tuple) register_index in
    (if negb (status =? 0) then ERR_SWITCH else SUCCESS, hdl, s).

(** Reports the status and what is written to [*entry_hdl]. *)
Definition switch_add_classification_entry s five_tuple (register_index : Z)
    : res (Z * option Z * sw) :=
  let proto := l3_proto (ft_h five_tuple) in
  if proto =? L3_IPV4 then
    let! target := rd PIPES (dev_port_to_pipe (dev_port five_tuple)) in
    Ok (switch_add_ipv4_entry s five_tuple target register_index)
  else if proto =? L3_IPV6 then
    let! target := rd PIPES (dev_port_to_pipe (dev_port five_tuple)) in
    Ok (switch_add_ipv6_entry s five_tuple target register_index)
  else Ok (ERR_PROTO, None, s).

Definition switch_remove_ipv4_entry s (entryHdl : Z) : Z * sw :=
  let '(status, s) := ipv4_table_delete s entryHdl in
  (if negb (status =? 0) then ERR_SWITCH else SUCCESS, s).
Definition switch_remove_ipv6_entry s (entryHdl : Z) : Z * sw :=
  let '(status, s) := ipv6_table_delete s entryHdl in
  (if negb (status =? 0) then ERR_SWITCH else SUCCESS, s).

Definition switch_remove_classification_entry s five_tuple (entry_hdl : Z) : Z * sw :=
  let proto := l3_proto (ft_h five_tuple) in
  if proto =? L3_IPV4 then switch_remove_ipv4_entry s entry_hdl
  else if proto =? L3_IPV6 then switch_remove_ipv6_entry s entry_hdl
  else (ERR_PROTO, s).

(** The loop over the filters, which returns at the first error. *)
Fixpoint write_bloom_loop (filters : list Z) (dev_target : Z) (indices : list Z) (value : Z) s
    : res (Z * sw) :=
  match filters with
  | [] => Ok (SUCCESS, s)
  | i :: filters =>
      match indices !! Z.to_nat i with
      | None => UB
      | Some index =>
          if 0 <=? index then
            let '(status, s) := bloom_filter_write s i dev_target index value in
            if negb (status =? 0) then Ok (ERR_SWITCH, s)
            else write_bloom_loop filters dev_target indices value s
          else write_bloom_loop filters dev_target indices value s
      end
  end.

Definition switch_write_bloom_filter s (pipe_id : Z) (bloom_filter_indices : list Z) (value : Z)
    : res (Z * sw) :=
  let! dev_target := rd PIPES pipe_id in
  write_bloom_loop (seqZ 0 NUM_BLOOMFILTERS) dev_target bloom_filter_indices value s.
End operations.

(** ** Lemmas *)

Lemma rd_PIPES p : 0 <= p < NUM_PIPES -> rd PIPES p = Ok p.
Proof.
  unfold NUM_PIPES. intros Hp. assert (p = 0 \/ p = 1 \/ p = 2 \/ p = 3) as Hc by lia.
  by destruct Hc as [->|[->|[->| ->]]].
Qed.

Section lemmas.
Context {sw : Type} {switch : Switch sw} {sizes : TableSizes} {laws : SwitchLaws sw}.
Implicit Types (s : sw) (ft : five_tuple_t).

Definition proto_ok ft : Prop := l3_proto (ft_h ft) = L3_IPV4 \/ l3_proto (ft_h ft) = L3_IPV6.

(** Both tables as one, keyed by the protocol and the handle. *)
Definition entry_t : Type := Z * (ipv4_match_spec + ipv6_match_spec) * Z.
Definition tag4 (x : Z * ipv4_match_spec * Z) : entry_t := (x.1.1, inl x.1.2, x.2).
Definition tag6 (x : Z * ipv6_match_spec * Z) : entry_t := (x.1.1, inr x.1.2, x.2).
Definition entry_at (v : switch_view) (proto h : Z) : option entry_t :=
  if decide (proto = L3_IPV4) then tag4 <$> v_ipv4 v !! h
  else if decide (proto = L3_IPV6) then tag6 <$> v_ipv6 v !! h
  else None.
(** What the match tables tell the entries apart by: the pipe and the match
    specification. *)
Definition entry_key ft : Z * (ipv4_match_spec + ipv6_match_spec) :=
  (dev_port_to_pipe (dev_port ft),
   if decide (l3_proto (ft_h ft) = L3_IPV4) then inl (ipv4_spec ft) else inr (ipv6_spec ft)).
Definition entry_of ft (register : Z) : entry_t := (entry_key ft, register).

(** The classification table of the tuple's protocol and pipe has a usable entry left,
    and no entry with the match specification of the tuple. *)
Definition table_room (v : switch_view) ft : Prop :=
  let pipe := dev_port_to_pipe (dev_port ft) in
  if decide (l3_proto (ft_h ft) = L3_IPV4)
  then Z.of_nat (size (pipe_entries pipe (v_ipv4 v))) < ipv4_usable /\
       ~ matched pipe (ipv4_spec ft) (v_ipv4 v)
  else Z.of_nat (size (pipe_entries pipe (v_ipv6 v))) < ipv6_usable /\
       ~ matched pipe (ipv6_spec ft) (v_ipv6 v).

(** The table of the tuple is certain to refuse it: it has an entry with the same match
    specification, or as many entries as declared. *)
Definition table_refuses (v : switch_view) ft : Prop :=
  let pipe := dev_port_to_pipe (dev_port ft) in
  if decide (l3_proto (ft_h ft) = L3_IPV4)
  then MAX_IP4_FLOWS <= Z.of_nat (size (pipe_entries pipe (v_ipv4 v))) \/
       matched pipe (ipv4_spec ft) (v_ipv4 v)
  else MAX_IP6_FLOWS <= Z.of_nat (size (pipe_entries pipe (v_ipv6 v))) \/
       matched pipe (ipv6_spec ft) (v_ipv6 v).

(** What an access to the classification tables leaves alone. *)
Definition same_rest (v v' : switch_view) : Prop :=
  v_bloom v' = v_bloom v /\ v_regs v' = v_regs v /\ v_synced v' = v_synced v.

(** The entries of different flows differ. *)
Lemma entry_key_h_bytes ft1 ft2 :
  proto_ok ft1 -> proto_ok ft2 -> addr_ok ft1 -> addr_ok ft2 ->
  entry_key ft1 = entry_key ft2 -> h_bytes (ft_h ft1) = h_bytes (ft_h ft2).
Proof using.
  intros Hp1 Hp2 Ha1 Ha2 E. unfold entry_key in E. apply (f_equal snd) in E. cbn [snd] in E.
  unfold addr_ok in *. unfold h_bytes.
  destruct (decide (l3_proto (ft_h ft1) = L3_IPV4)) as [P1|P1], (decide (l3_proto (ft_h ft2) = L3_IPV4)) as [P2|P2];
    try discriminate E.
  - destruct (Ha1 P1), (Ha2 P2). unfold ipv4_spec, addr_ipv4 in E. cbv zeta in E. injection E as Es Ed Esp Edp El4.
    rewrite !u32_small in Es, Ed by done. apply SWAP_ENDIAN_32_inj in Es; [|done|done].
    apply SWAP_ENDIAN_32_inj in Ed; [|done|done]. by rewrite Es, Ed, Esp, Edp, El4, P1, P2.
  - destruct Hp1 as [?|P1']; [done|]. destruct Hp2 as [?|P2']; [done|].
    unfold ipv6_spec, addr_ipv6 in E. cbv zeta in E. apply (inj inr) in E.
    pose proof (f_equal ipv6_srcAddr E) as Es. pose proof (f_equal ipv6_dstAddr E) as Ed.
    pose proof (f_equal ipv6_lookup_src E) as Esp. pose proof (f_equal ipv6_lookup_dst E) as Edp.
    pose proof (f_equal ipv6_tcp_valid E) as El4.
    cbn [ipv6_srcAddr ipv6_dstAddr ipv6_lookup_src ipv6_lookup_dst ipv6_tcp_valid] in *.
    apply (f_equal (rev (A:=Z))) in Es, Ed. rewrite !rev_involutive in Es, Ed. by rewrite Es, Ed, Esp, Edp, El4, P1', P2'.
Qed.

(** An entry that refuses the tuple is visible under some handle. *)
Lemma matched_entry v ft :
  (if decide (l3_proto (ft_h ft) = L3_IPV4)
   then matched (dev_port_to_pipe (dev_port ft)) (ipv4_spec ft) (v_ipv4 v)
   else l3_proto (ft_h ft) = L3_IPV6 /\
        matched (dev_port_to_pipe (dev_port ft)) (ipv6_spec ft) (v_ipv6 v)) ->
  exists h register, entry_at v (l3_proto (ft_h ft)) h = Some (entry_of ft register).
Proof using.
  unfold entry_at, entry_of, entry_key. case_decide as Hp.
  - intros (h & register & Hx). exists h, register. by rewrite Hx.
  - intros [Hp' (h & register & Hx)]. exists h, register. rewrite decide_True by done. by rewrite Hx.
Qed.

Lemma add_entry_ok s ft register :
  proto_ok ft -> 0 <= dev_port ft < MAX_DEV_PORT_ID -> table_room (view s) ft ->
  exists h s', switch_add_classification_entry s ft register = Ok (SUCCESS, Some h, s') /\
    entry_at (view s) (l3_proto (ft_h ft)) h = None /\
    (forall proto h', entry_at (view s') proto h' =
       if decide (proto = l3_proto (ft_h ft) /\ h' = h) then Some (entry_of ft register)
       else entry_at (view s) proto h') /\ same_rest (view s) (view s').
Proof.
  intros Hp Hd Hroom. unfold switch_add_classification_entry, table_room, entry_of, entry_key in *.
  pose proof (dev_port_to_pipe_bound _ Hd) as Hpipe. cbv zeta in *.
  destruct Hp as [Hp|Hp]; rewrite Hp in *; [change (L3_IPV4 =? L3_IPV4) with true|
    change (L3_IPV6 =? L3_IPV4) with false; change (L3_IPV6 =? L3_IPV6) with true]; cbn iota;
    rewrite rd_PIPES by done;
    cbn [rbind]; [unfold switch_add_ipv4_entry|unfold switch_add_ipv6_entry]; rewrite Hp;
    [change (L3_IPV4 =? L3_IPV4) with true|change (L3_IPV6 =? L3_IPV6) with true]; cbn [negb].
  - destruct (ipv4_add_law s (dev_port_to_pipe (dev_port ft)) (ipv4_spec ft) register) as (m & Ha & Hv).
    destruct (ipv4_table_add _ _ _ _) as [[st hd] s'] eqn:E. cbn [fst snd] in *.
    rewrite ?decide_True, ?decide_False in Hroom by done; destruct Ha as [(? & _ & _ & h & ? & Hn & Hm)|(_ & _ & _ & Hno)];
      [|exfalso; destruct Hroom as [? Hnm]; destruct Hno; [by apply Hnm|lia]].
    cbn [fst snd] in *. subst. exists h, s'. split; [done|]. rewrite Hv.
    split; [unfold entry_at; cbn; by rewrite Hn|]. split; [|by destruct (view s)].
    intros proto h'. unfold entry_at. cbn [v_ipv4 v_ipv6 with_ipv4].
    destruct (decide (proto = L3_IPV4)) as [->|]; [|by rewrite (decide_False (P := _ /\ _)) by tauto].
    destruct (decide (h' = h)) as [->|]; [|rewrite lookup_insert_ne by done; by rewrite (decide_False (P := _ /\ _)) by tauto].
    by rewrite lookup_insert_eq, (decide_True (P := _ /\ _)).
  - destruct (ipv6_add_law s (dev_port_to_pipe (dev_port ft)) (ipv6_spec ft) register) as (m & Ha & Hv).
    destruct (ipv6_table_add _ _ _ _) as [[st hd] s'] eqn:E. cbn [fst snd] in *.
    rewrite ?decide_True, ?decide_False in Hroom by done; destruct Ha as [(? & _ & _ & h & ? & Hn & Hm)|(_ & _ & _ & Hno)];
      [|exfalso; destruct Hroom as [? Hnm]; destruct Hno; [by apply Hnm|lia]].
    cbn [fst snd] in *. subst. exists h, s'. split; [done|]. rewrite Hv.
    split; [unfold entry_at; cbn; by rewrite Hn|]. split; [|by destruct (view s)].
    intros proto h'. unfold entry_at. cbn [v_ipv4 v_ipv6 with_ipv6].
    destruct (decide (proto = L3_IPV6)) as [->|].
    + destruct (decide (h' = h)) as [->|]; [|rewrite lookup_insert_ne by done; by rewrite (decide_False (P := _ /\ _)) by tauto].
      by rewrite lookup_insert_eq, (decide_True (P := _ /\ _)).
    + rewrite (decide_False (P := _ /\ _)) by tauto. done.
Qed.

Lemma add_entry_refused s ft register :
  proto_ok ft -> 0 <= dev_port ft < MAX_DEV_PORT_ID -> table_refuses (view s) ft ->
  exists s', switch_add_classification_entry s ft register = Ok (ERR_SWITCH, None, s') /\
    view s' = view s.
Proof.
  intros Hp Hd Hroom. unfold switch_add_classification_entry, table_refuses in *.
  pose proof (dev_port_to_pipe_bound _ Hd) as Hpipe. cbv zeta in *.
  destruct Hp as [Hp|Hp]; rewrite Hp in *; [change (L3_IPV4 =? L3_IPV4) with true|
    change (L3_IPV6 =? L3_IPV4) with false; change (L3_IPV6 =? L3_IPV6) with true]; cbn iota;
    rewrite rd_PIPES by done;
    cbn [rbind]; [unfold switch_add_ipv4_entry|unfold switch_add_ipv6_entry]; rewrite Hp;
    [change (L3_IPV4 =? L3_IPV4) with true|change (L3_IPV6 =? L3_IPV6) with true]; cbn [negb];
    rewrite ?decide_True, ?decide_False in Hroom by done.
  - destruct (ipv4_add_law s (dev_port_to_pipe (dev_port ft)) (ipv4_spec ft) register) as (m & Ha & Hv).
    destruct (ipv4_table_add _ _ _ _) as [[st hd] s']. unfold add_effect in Ha. cbn [fst snd] in *.
    destruct Ha as [(_ & ? & Hnm & _)|(Hst & -> & -> & _)];
      [exfalso; destruct Hroom; [lia|by apply Hnm]|]. exists s'.
    rewrite (proj2 (Z.eqb_neq st 0)) by done. split; [done|]. rewrite Hv. by destruct (view s).
  - destruct (ipv6_add_law s (dev_port_to_pipe (dev_port ft)) (ipv6_spec ft) register) as (m & Ha & Hv).
    destruct (ipv6_table_add _ _ _ _) as [[st hd] s']. unfold add_effect in Ha. cbn [fst snd] in *.
    destruct Ha as [(_ & ? & Hnm & _)|(Hst & -> & -> & _)];
      [exfalso; destruct Hroom; [lia|by apply Hnm]|]. exists s'.
    rewrite (proj2 (Z.eqb_neq st 0)) by done. split; [done|]. rewrite Hv. by destruct (view s).
Qed.

Lemma remove_entry_ok s ft hdl :
  proto_ok ft -> is_Some (entry_at (view s) (l3_proto (ft_h ft)) hdl) ->
  exists s', switch_remove_classification_entry s ft hdl = (SUCCESS, s') /\
    (forall proto h', entry_at (view s') proto h' =
       if decide (proto = l3_proto (ft_h ft) /\ h' = hdl) then None
       else entry_at (view s) proto h') /\ same_rest (view s) (view s').
Proof.
  intros Hp Hsome. unfold switch_remove_classification_entry.
  destruct Hp as [Hp|Hp]; rewrite Hp in *; [change (L3_IPV4 =? L3_IPV4) with true|
    change (L3_IPV6 =? L3_IPV4) with false; change (L3_IPV6 =? L3_IPV6) with true]; cbn iota.
  - unfold switch_remove_ipv4_entry. destruct (ipv4_delete_law s hdl) as (m & [-> Hst] & Hv).
    destruct (ipv4_table_delete s hdl) as [st s']. cbn [fst snd] in *.
    change (is_Some (tag4 <$> v_ipv4 (view s) !! hdl)) in Hsome. rewrite fmap_is_Some in Hsome.
    rewrite (Hst Hsome). exists s'. split; [done|]. rewrite Hv. split; [|by destruct (view s)].
    intros proto h'. unfold entry_at. cbn [v_ipv4 v_ipv6 with_ipv4].
    destruct (decide (proto = L3_IPV4)) as [->|]; [|by rewrite (decide_False (P := _ /\ _)) by tauto].
    destruct (decide (h' = hdl)) as [->|]; [|rewrite lookup_delete_ne by done; by rewrite (decide_False (P := _ /\ _)) by tauto].
    by rewrite lookup_delete_eq, (decide_True (P := _ /\ _)).
  - unfold switch_remove_ipv6_entry. destruct (ipv6_delete_law s hdl) as (m & [-> Hst] & Hv).
    destruct (ipv6_table_delete s hdl) as [st s']. cbn [fst snd] in *.
    change (is_Some (tag6 <$> v_ipv6 (view s) !! hdl)) in Hsome. rewrite fmap_is_Some in Hsome.
    rewrite (Hst Hsome). exists s'. split; [done|]. rewrite Hv. split; [|by destruct (view s)].
    intros proto h'. unfold entry_at. cbn [v_ipv4 v_ipv6 with_ipv6].
    destruct (decide (proto = L3_IPV6)) as [->|].
    + destruct (decide (h' = hdl)) as [->|]; [|rewrite lookup_delete_ne by done; by rewrite (decide_False (P := _ /\ _)) by tauto].
      by rewrite lookup_delete_eq, (decide_True (P := _ /\ _)).
    + by rewrite (decide_False (P := _ /\ _)) by tauto.
Qed.

(** The bits after writing [value] at the given position of each filter. *)
Definition write_bits (bits : Z -> Z -> Z -> Z) (pipe : Z) (indices : list Z) (value : Z)
    : Z -> Z -> Z -> Z :=
  fun i p index =>
    if decide (p = pipe /\ 0 <= i < NUM_BLOOMFILTERS /\ 0 <= index /\ indices !! Z.to_nat i = Some index)
    then value else bits i p index.

Lemma write_bloom_loop_ok indices pipe value l : forall s,
  Forall (fun index => index < BLOOMFILTER_WIDTH) indices ->
  (forall i, i ∈ l -> 0 <= i < Z.of_nat (length indices)) ->
  exists s', write_bloom_loop l pipe indices value s = Ok (SUCCESS, s') /\
    exists bits, view s' = with_bloom bits (view s) /\
    forall i p index, bits i p index =
      if decide (p = pipe /\ i ∈ l /\ 0 <= index /\ indices !! Z.to_nat i = Some index)
      then value else v_bloom (view s) i p index.
Proof.
  induction l as [|i l IH]; intros s Hw Hl; cbn [write_bloom_loop].
  - exists s. split; [done|]. exists (v_bloom (view s)). split; [by destruct (view s)|].
    intros. rewrite decide_False; [done|]. by intros (_ & ?%elem_of_nil & _).
  - assert (is_Some (indices !! Z.to_nat i)) as [index Hi].
    { apply lookup_lt_is_Some. specialize (Hl i (list_elem_of_here _ _)). lia. }
    rewrite Hi.
    assert (forall j, j ∈ l -> 0 <= j < Z.of_nat (length indices)) as Hl' by (intros; apply Hl; by right).
    destruct (Z.leb_spec 0 index) as [Hpos|Hneg].
    + assert (0 <= index < BLOOMFILTER_WIDTH) as Hin
        by (split; [done|]; by eapply (Forall_lookup_1 _ _ _ _ Hw Hi)).
      destruct (bloom_write_law s i pipe index value Hin) as [Hst Hv].
      destruct (bloom_filter_write s i pipe index value) as [st s1]. cbn [fst snd] in *. rewrite Hst.
      cbn [negb Z.eqb]. destruct (IH s1 Hw Hl') as (s' & -> & bits & Hv' & Hb). exists s'. split; [done|].
      exists bits. split; [rewrite Hv', Hv; by destruct (view s)|].
      intros i' p' index'. rewrite Hb, Hv. cbn [v_bloom with_bloom]. unfold upd3.
      destruct (decide (p' = pipe /\ i' ∈ l /\ 0 <= index' /\ indices !! Z.to_nat i' = Some index')) as [H1|H1].
      * rewrite decide_True; [done|]. destruct H1 as (? & ? & ? & ?). repeat split; try done. by right.
      * destruct (decide (i' = i /\ p' = pipe /\ index' = index)) as [(-> & -> & ->)|H2].
        -- rewrite decide_True; [done|]. repeat split; try done. left.
        -- rewrite decide_False; [done|]. intros (-> & [->|Hin']%elem_of_cons & ? & E); [|tauto].
           apply H2. rewrite Hi in E. by simplify_eq.
    + destruct (IH s Hw Hl') as (s' & -> & bits & Hv' & Hb). exists s'. split; [done|].
      exists bits. split; [done|]. intros i' p' index'. rewrite Hb.
      destruct (decide (p' = pipe /\ i' ∈ l /\ 0 <= index' /\ indices !! Z.to_nat i' = Some index')) as [H1|H1].
      * rewrite decide_True; [done|]. destruct H1 as (? & ? & ? & ?). repeat split; try done. by right.
      * rewrite decide_False; [done|]. intros (-> & [->|Hin']%elem_of_cons & ? & E); [|tauto].
        rewrite Hi in E. simplify_eq. lia.
Qed.

Lemma write_bloom_ok s pipe indices value :
  0 <= pipe < NUM_PIPES -> Z.of_nat (length indices) = NUM_BLOOMFILTERS ->
  Forall (fun index => index < BLOOMFILTER_WIDTH) indices ->
  exists s', switch_write_bloom_filter s pipe indices value = Ok (SUCCESS, s') /\
    exists bits, view s' = with_bloom bits (view s) /\
    forall i p index, bits i p index = write_bits (v_bloom (view s)) pipe indices value i p index.
Proof.
  intros Hp Hl Hw. unfold switch_write_bloom_filter. rewrite rd_PIPES by done. cbn [rbind].
  destruct (write_bloom_loop_ok indices pipe value (seqZ 0 NUM_BLOOMFILTERS) s Hw) as (s' & -> & bits & Hv & Hb).
  - intros i Hi%elem_of_seqZ0. lia.
  - exists s'. split; [done|]. exists bits. split; [done|]. intros. rewrite Hb. unfold write_bits.
    apply decide_ext. rewrite elem_of_seqZ0. tauto.
Qed.
End lemmas.
