(* ===== verification/Features.v ===== *)
(** * Feature registers ([dataplane/features.c], [dataplane/features.h])

    Every second the exporter reads the registers of the data plane and adds the
    difference to the previous read to 64-bit totals; the pass over the packet
    counter also ages the flows: it sends the timeout of every id that did not
    change for [FLOW_TIMEOUT] seconds. The clock, the switch and the session
    table's [egress_feature_to_session_id] are arguments of the operations; the
    table belongs to the flow database, of which a pass sees one snapshot. *)

From S2P Require Import Prelude Structs Ringbuffer DpApi.

(** ** State *)

Inductive process_fn : Type := PROCESS_AND_AGE_FEATURE | PROCESS_FEATURE | PROCESS_NULL.
Inductive buffer : Type := BUFFER_A | BUFFER_B.

(** [feature_register_t]. The two pointers point to one of the two buffers, or are
    null. [table_hdl] stands for the register that [table_hdl], [read_fn] and
    [write_fn] access, [reset_hdl] for the one that [reset_fn] resets. *)
Record feature_register_t : Type := FeatureRegister {
  reg_id : Z;
  on_egress : Z;
  table_hdl : Z;
  reset_hdl : Z;
  process_register : process_fn;
  data_plane_values : option buffer;
  last_data_plane_value : option buffer;
  buffer_a : arr Z;
  buffer_b : arr Z;
  values : arr Z }.

Definition set_buffers dp last a b (r : feature_register_t) : feature_register_t :=
  FeatureRegister (reg_id r) (on_egress r) (table_hdl r) (reset_hdl r) (process_register r)
    dp last a b (values r).
Definition set_values v (r : feature_register_t) : feature_register_t :=
  FeatureRegister (reg_id r) (on_egress r) (table_hdl r) (reset_hdl r) (process_register r)
    (data_plane_values r) (last_data_plane_value r) (buffer_a r) (buffer_b r) v.

(** Access through one of the pointers. *)
Definition deref (r : feature_register_t) (p : option buffer) : res (arr Z) :=
  match p with
  | Some BUFFER_A => Ok (buffer_a r)
  | Some BUFFER_B => Ok (buffer_b r)
  | None => UB
  end.
Definition store (r : feature_register_t) (p : option buffer) (v : arr Z) : res feature_register_t :=
  match p with
  | Some BUFFER_A => Ok (set_buffers (data_plane_values r) (last_data_plane_value r) v (buffer_b r) r)
  | Some BUFFER_B => Ok (set_buffers (data_plane_values r) (last_data_plane_value r) (buffer_a r) v r)
  | None => UB
  end.

Definition PACKET_COUNT_REG : Z := 0.
Definition SIZE_LOG_REG : Z := 1.
Definition SIZE_LOG_SQUARE_REG : Z := 2.
Definition SIZE_LOG_CUBE_REG : Z := 3.
Definition IAT_LOG_REG : Z := 4.
Definition IAT_LOG_SQUARE_REG : Z := 5.
Definition IAT_LOG_CUBE_REG : Z := 6.
Definition NUM_FEATURES : Z := 7.
(** The register behind [register_last_timestamp], which has no id in the code. *)
Definition LAST_TIMESTAMP : Z := 7.

(** The static registers. [egress] gives the constants [..._on_egress] of the
    generated [table_handles.h]. *)
Definition static_register (egress : Z -> Z) (id reset : Z) (process : process_fn) : feature_register_t :=
  FeatureRegister id (egress id) id reset process None None
    (amake FEATURE_SIZE 0) (amake FEATURE_SIZE 0) (amake FEATURE_SIZE 0).

Definition STATIC_FEATURES_ARRAY (egress : Z -> Z) : list feature_register_t :=
  [ static_register egress PACKET_COUNT_REG PACKET_COUNT_REG PROCESS_AND_AGE_FEATURE;
    static_register egress SIZE_LOG_REG SIZE_LOG_REG PROCESS_FEATURE;
    static_register egress SIZE_LOG_SQUARE_REG SIZE_LOG_SQUARE_REG PROCESS_FEATURE;
    static_register egress SIZE_LOG_CUBE_REG SIZE_LOG_CUBE_REG PROCESS_FEATURE;
    static_register egress IAT_LOG_REG IAT_LOG_SQUARE_REG PROCESS_FEATURE;
    static_register egress IAT_LOG_SQUARE_REG IAT_LOG_SQUARE_REG PROCESS_FEATURE;
    static_register egress IAT_LOG_CUBE_REG IAT_LOG_CUBE_REG PROCESS_FEATURE ].

(** The feature arrays, [last_flow_update] and the packet ring buffer. *)
Record features_t : Type := Features {
  features : list feature_register_t;
  last_flow_update : arr Z;
  packet_ringbuffer : packet_ring }.

(** ** Operations *)

Definition SWAP_DP_BUFFER (r : feature_register_t) : feature_register_t :=
  set_buffers (last_data_plane_value r) (data_plane_values r) (buffer_a r) (buffer_b r) r.

(** Zeroes the register's arrays, and [last_flow_update]. *)
Definition prepare_feature (r : feature_register_t) : feature_register_t * arr Z :=
  (set_values (amake FEATURE_SIZE 0)
     (set_buffers (Some BUFFER_A) (Some BUFFER_B) (amake FEATURE_SIZE 0) (amake FEATURE_SIZE 0) r),
   amake FEATURE_SIZE 0).

Section switch.
Context {sw : Type} `{Switch sw}.

Definition sync_feature (s : sw) (r : feature_register_t) : Z * sw :=
  let '(status, s) := database_sync s (table_hdl r) in
  (if negb (status =? 0) then ERR_SWITCH else SUCCESS, s).

Definition read_feature (s : sw) (r : feature_register_t) : res (Z * feature_register_t) :=
  let r := SWAP_DP_BUFFER r in
  let! buffer := deref r (data_plane_values r) in
  let '(status, buffer) := register_range_read s (table_hdl r) 0 MAX_FLOWS buffer in
  let! r := store r (data_plane_values r) buffer in
  Ok (if negb (status =? 0) then ERR_SWITCH else SUCCESS, r).
End switch.

(** [values[i] += data_plane_values[i] - last_data_plane_value[i]]: the difference
    is a [uint32_t], the sum a [uint64_t]. *)
Definition add_difference (dp last : arr Z) (i : Z) (values : arr Z) : res (arr Z) :=
  let! v := rd values i in
  let! d := rd dp i in
  let! l := rd last i in
  wr values i (u64 (v + u32 (d - l))).

(** The ids of the loops. *)
Definition feature_ids : list Z := seqZ MIN_SESSION_ID (FEATURE_SIZE - MIN_SESSION_ID).

Definition process_feature (r : feature_register_t) : res feature_register_t :=
  let! dp := deref r (data_plane_values r) in
  let! last := deref r (last_data_plane_value r) in
  let! v := foldM (add_difference dp last) feature_ids (values r) in
  Ok (set_values v r).

(** [last_flow_update[i] == 0 && egress_feature_to_session_id[i] != -1] *)
Definition unseen_session (egress_feature_to_session_id last_flow_update : arr Z) (i : Z) : res bool :=
  let! upd := rd last_flow_update i in
  if upd =? 0 then
    let! sess := rd egress_feature_to_session_id i in
    Ok (negb (sess =? -1))
  else Ok false.

(** [last_flow_update[i] < timeout && egress_feature_to_session_id[i] != -1] *)
Definition timed_out_session (timeout : Z) (egress_feature_to_session_id last_flow_update : arr Z)
    (i : Z) : res bool :=
  let! upd := rd last_flow_update i in
  if upd <? timeout then
    let! sess := rd egress_feature_to_session_id i in
    Ok (negb (sess =? -1))
  else Ok false.

Definition age_body (now timeout : Z) (egress_feature_to_session_id dp last : arr Z) (i : Z)
    (st : arr Z * arr Z * packet_ring) : res (arr Z * arr Z * packet_ring) :=
  let '(values, lfu, ring) := st in
  let! values := add_difference dp last i values in
  let! d := rd dp i in
  let! l := rd last i in
  let! changed := if negb (d =? l) then Ok true
                  else unseen_session egress_feature_to_session_id lfu i in
  if changed : bool then
    let! lfu := wr lfu i now in
    Ok (values, lfu, ring)
  else
    let! idle := timed_out_session timeout egress_feature_to_session_id lfu i in
    if idle : bool then
      let! sess := rd egress_feature_to_session_id i in
      let! '(status, ring) := ringbuffer_put PACKET_RINGBUFFER_SIZE ring (PKT_TIMEOUT_FLOW sess) in
      if status =? 0 then
        let! lfu := wr lfu i 0 in
        Ok (values, lfu, ring)
      else Ok (values, lfu, ring)
    else Ok (values, lfu, ring).

(** [tv_sec] is what the monotonic clock says. *)
Definition process_and_age_feature (tv_sec : Z) (egress_feature_to_session_id : arr Z)
    (r : feature_register_t) (lfu : arr Z) (ring : packet_ring)
    : res (feature_register_t * arr Z * packet_ring) :=
  let now := u32 tv_sec in
  let timeout := u32 (now - FLOW_TIMEOUT) in
  let! dp := deref r (data_plane_values r) in
  let! last := deref r (last_data_plane_value r) in
  let! '(v, lfu, ring) := foldM (age_body now timeout egress_feature_to_session_id dp last)
                            feature_ids (values r, lfu, ring) in
  Ok (set_values v r, lfu, ring).

Definition set_new_flow_initial_timeout (tv_sec : Z) (lfu : arr Z) (flow_id : Z) : res (arr Z) :=
  wr lfu flow_id (u32 tv_sec).

(** [features[i]->process_register(features[i])] *)
Definition run_process (tv_sec : Z) (egress_feature_to_session_id : arr Z) (r : feature_register_t)
    (lfu : arr Z) (ring : packet_ring) : res (feature_register_t * arr Z * packet_ring) :=
  match process_register r with
  | PROCESS_AND_AGE_FEATURE => process_and_age_feature tv_sec egress_feature_to_session_id r lfu ring
  | PROCESS_FEATURE => let! r := process_feature r in Ok (r, lfu, ring)
  | PROCESS_NULL => UB
  end.

Fixpoint sync_all {sw} `{Switch sw} (s : sw) (rs : list feature_register_t) : sw :=
  match rs with [] => s | r :: rs => sync_all (snd (sync_feature s r)) rs end.

Fixpoint read_all {sw} `{Switch sw} (s : sw) (rs : list feature_register_t)
    : res (list feature_register_t) :=
  match rs with
  | [] => Ok []
  | r :: rs =>
      let! '(_, r) := read_feature s r in
      let! rs := read_all s rs in
      Ok (r :: rs)
  end.

Fixpoint process_all (tv_sec : Z) (egress : arr Z) (rs : list feature_register_t)
    (lfu : arr Z) (ring : packet_ring) : res (list feature_register_t * arr Z * packet_ring) :=
  match rs with
  | [] => Ok ([], lfu, ring)
  | r :: rs =>
      let! '(r, lfu, ring) := run_process tv_sec egress r lfu ring in
      let! '(rs, lfu, ring) := process_all tv_sec egress rs lfu ring in
      Ok (r :: rs, lfu, ring)
  end.

(** The three loops of [read_features], which ignores the statuses. *)
Definition read_features {sw} `{Switch sw} (tv_sec : Z) (egress_feature_to_session_id : arr Z)
    (s : sw) (f : features_t) : res (sw * features_t) :=
  let s := sync_all s (features f) in
  let! rs := read_all s (features f) in
  let! '(rs, lfu, ring) := process_all tv_sec egress_feature_to_session_id rs
                             (last_flow_update f) (packet_ringbuffer f) in
  Ok (s, Features rs lfu ring).

(** The body of the loop over the pipes in [prepare_features]. *)
Definition prepare_body {sw} `{Switch sw} (pipe : Z) (st : sw * feature_register_t * arr Z)
    : res (sw * feature_register_t * arr Z) :=
  let '(s, r, _) := st in
  let! target := rd PIPES pipe in
  let '(_, s) := register_reset_all s (reset_hdl r) target in
  let '(r, lfu) := prepare_feature r in
  Ok (s, r, lfu).

Fixpoint prepare_all {sw} `{Switch sw} (s : sw) (rs : list feature_register_t) (lfu : arr Z)
    : res (sw * list feature_register_t * arr Z) :=
  match rs with
  | [] => Ok (s, [], lfu)
  | r :: rs =>
      let! '(s, r, lfu) := foldM prepare_body (seqZ 0 NUM_PIPES) (s, r, lfu) in
      let! '(s, rs, lfu) := prepare_all s rs lfu in
      Ok (s, r :: rs, lfu)
  end.

Definition prepare_features {sw} `{Switch sw} (s : sw) (f : features_t) : res (sw * features_t) :=
  let! '(s, rs, lfu) := prepare_all s (features f) (last_flow_update f) in
  Ok (s, Features rs lfu (packet_ringbuffer f)).

(** ** Proofs *)

#[local] Opaque FEATURE_SIZE ringbuffer_put.

Lemma elem_of_feature_ids i : i ∈ feature_ids <-> MIN_SESSION_ID <= i < FEATURE_SIZE.
Proof.
  unfold feature_ids. rewrite elem_of_seqZ. rewrite FEATURE_SIZE_val. unfold MIN_SESSION_ID. lia.
Qed.

Lemma NoDup_feature_ids : NoDup feature_ids.
Proof. apply NoDup_seqZ. Qed.

(** The register after [prepare_feature], and its arrays have the declared size. *)
Record register_wf (r : feature_register_t) : Prop := RegisterWf {
  rw_a : alen (buffer_a r) = FEATURE_SIZE;
  rw_b : alen (buffer_b r) = FEATURE_SIZE;
  rw_values : alen (values r) = FEATURE_SIZE;
  rw_pointers :
    (data_plane_values r = Some BUFFER_A /\ last_data_plane_value r = Some BUFFER_B) \/
    (data_plane_values r = Some BUFFER_B /\ last_data_plane_value r = Some BUFFER_A) }.

(** The buffers that the two pointers of a well-formed register denote. *)
Definition current (r : feature_register_t) : arr Z :=
  match data_plane_values r with Some BUFFER_A => buffer_a r | _ => buffer_b r end.
Definition previous (r : feature_register_t) : arr Z :=
  match data_plane_values r with Some BUFFER_A => buffer_b r | _ => buffer_a r end.

Lemma deref_current r : register_wf r -> deref r (data_plane_values r) = Ok (current r).
Proof. intros [_ _ _ [[E _]|[E _]]]; unfold current; by rewrite E. Qed.
Lemma deref_previous r : register_wf r -> deref r (last_data_plane_value r) = Ok (previous r).
Proof. intros [_ _ _ [[E1 E2]|[E1 E2]]]; unfold previous; by rewrite E1, E2. Qed.
Lemma alen_current r : register_wf r -> alen (current r) = FEATURE_SIZE.
Proof. intros [? ? _ [[E _]|[E _]]]; unfold current; by rewrite E. Qed.
Lemma alen_previous r : register_wf r -> alen (previous r) = FEATURE_SIZE.
Proof. intros [? ? _ [[E _]|[E _]]]; unfold previous; by rewrite E. Qed.

Lemma set_values_wf r v : register_wf r -> alen v = FEATURE_SIZE -> register_wf (set_values v r).
Proof. intros [] ?. by split. Qed.

(** A read makes the current values the previous ones. *)
Lemma read_feature_ok {sw} `{SwitchLaws sw} (s : sw) r :
  register_wf r ->
  exists status r', read_feature s r = Ok (status, r') /\ register_wf r' /\
    previous r' = current r /\ values r' = values r /\ process_register r' = process_register r /\
    table_hdl r' = table_hdl r /\ on_egress r' = on_egress r /\
    current r' = (register_range_read s (table_hdl r) 0 MAX_FLOWS (previous r)).2 /\
    (status = SUCCESS <-> (register_range_read s (table_hdl r) 0 MAX_FLOWS (previous r)).1 = 0).
Proof.
  intros [Ha Hb Hv Hp]. unfold read_feature, current, previous.
  pose proof (range_read_length s (table_hdl r) 0 MAX_FLOWS) as Hlen.
  destruct Hp as [[E1 E2]|[E1 E2]]; unfold SWAP_DP_BUFFER; rewrite E1, E2;
    cbn [deref set_buffers data_plane_values last_data_plane_value rbind table_hdl buffer_a buffer_b];
    [specialize (Hlen (buffer_b r))|specialize (Hlen (buffer_a r))];
    destruct (register_range_read s (table_hdl r) 0 MAX_FLOWS _) as [st buf] eqn:Er; cbn [fst snd] in *;
    (eexists _, _; split; [reflexivity|]);
    (split; [split; cbn; try done; try congruence; auto|]);
    do 6 (split; [done|]); destruct (Z.eqb_spec st 0); cbn; unfold SUCCESS, ERR_SWITCH; lia.
Qed.

(** *** The accumulation loop *)

Definition accumulated (v dp last : arr Z) (i : Z) : Z := u64 (aget v i + u32 (aget dp i - aget last i)).

(** [v'] is [v] with the elements of [l] accumulated. *)
Definition accumulated_on (l : list Z) (v dp last v' : arr Z) : Prop :=
  alen v' = FEATURE_SIZE /\
  forall i, aget v' i = if decide (i ∈ l) then accumulated v dp last i else aget v i.

Lemma fresh_in_split {A} (l done rest : list A) x :
  NoDup l -> l = done ++ (x :: rest) -> (x ∉ done) /\ (x ∈ l).
Proof.
  intros Hnd ->. apply NoDup_app in Hnd as (_ & Hd & _). split.
  - intros Hin. by apply (Hd x Hin), list_elem_of_here.
  - apply elem_of_app. right. left.
Qed.

Lemma add_difference_ok dp last v v' done x :
  alen dp = FEATURE_SIZE -> alen last = FEATURE_SIZE -> 0 <= x < FEATURE_SIZE ->
  x ∉ done -> accumulated_on done v dp last v' ->
  exists v'', add_difference dp last x v' = Ok v'' /\ accumulated_on (done ++ [x]) v dp last v''.
Proof.
  intros Hd Hl Hin Hni [Hv Hg]. unfold add_difference.
  rewrite !rd_ok by lia. cbn [rbind]. rewrite wr_ok by lia. eexists. split; [reflexivity|].
  split; [done|]. intros i. rewrite aget_aset. case_decide as E.
  - subst i. rewrite Hg, decide_False by done. rewrite decide_True; [done|]. apply elem_of_app. right. left.
  - rewrite Hg. apply decide_ext. rewrite elem_of_app, list_elem_of_singleton. split; [by left|by intros [?|?]; [|congruence]].
Qed.

Lemma feature_ids_range i : i ∈ feature_ids -> 0 <= i < FEATURE_SIZE.
Proof. rewrite elem_of_feature_ids. unfold MIN_SESSION_ID. lia. Qed.

Lemma accumulated_nil v dp last : alen v = FEATURE_SIZE -> accumulated_on [] v dp last v.
Proof. intros. split; [done|]. intros i. by rewrite decide_False by apply not_elem_of_nil. Qed.

Lemma process_feature_ok r :
  register_wf r ->
  exists v, process_feature r = Ok (set_values v r) /\
    accumulated_on feature_ids (values r) (current r) (previous r) v.
Proof.
  intros Hwf. unfold process_feature. rewrite deref_current, deref_previous by done. cbn [rbind].
  destruct (foldM_rule (fun dn v => accumulated_on dn (values r) (current r) (previous r) v)
              (add_difference (current r) (previous r)) feature_ids) with (s := values r)
    as (v & -> & Hv).
  - intros dn x rest v El Hv. destruct (fresh_in_split _ _ _ _ NoDup_feature_ids El) as [Hn Hin].
    apply add_difference_ok; try done; [by apply alen_current|by apply alen_previous|].
    by apply feature_ids_range.
  - apply accumulated_nil, Hwf.
  - by exists v.
Qed.

(** *** The ageing loop *)

Section ageing.
Context (now timeout : Z) (egress dp last lfu : arr Z).

(** The register changed, or the session is new. *)
Definition refreshed (i : Z) : bool :=
  negb (aget dp i =? aget last i) || ((aget lfu i =? 0) && negb (aget egress i =? -1)).
(** A session that did not change since [timeout]. *)
Definition expired (i : Z) : bool :=
  negb (refreshed i) && (aget lfu i <? timeout) && negb (aget egress i =? -1).

(** The ids of [l] whose timeout is sent when [room] items fit the buffer. *)
Definition sent (room : nat) (l : list Z) : list Z := take room (filter expired l).

Definition aged_on (l : list Z) (room : nat) (lfu' : arr Z) : Prop :=
  alen lfu' = FEATURE_SIZE /\
  forall i, aget lfu' i = if decide (i ∈ l) then
                            if refreshed i then now
                            else if decide (i ∈ sent room l) then 0 else aget lfu i
                          else aget lfu i.

Definition timeouts (l : list Z) : list packet_item_t :=
  (fun i => PKT_TIMEOUT_FLOW (aget egress i)) <$> l.

Lemma sent_snoc room l x :
  sent room (l ++ [x]) =
  sent room l ++ if expired x && bool_decide (length (sent room l) < room)%nat then [x] else [].
Proof.
  unfold sent. rewrite filter_app, filter_cons, filter_nil.
  assert (length (take room (filter expired l)) = room `min` length (filter expired l))%nat as Hlen
    by apply length_take.
  destruct (expired x) eqn:E; [rewrite decide_True by exact I|
    rewrite decide_False by exact id]; rewrite take_app; cbn [andb].
  - case_bool_decide as Hb.
    + destruct (room - length (filter expired l))%nat eqn:Er; [lia|]. cbn [take]. by rewrite take_nil.
    + replace (room - length (filter expired l))%nat with 0%nat by lia. done.
  - by rewrite take_nil.
Qed.

Lemma sent_subset room l i : i ∈ sent room l -> i ∈ l /\ expired i = true.
Proof.
  unfold sent. intros Hi%elem_of_take. destruct Hi as (k & Hi & _).
  apply list_elem_of_lookup_2 in Hi. apply list_elem_of_filter in Hi as [H1 H2].
  split; [done|]. by apply Is_true_true.
Qed.

Lemma NoDup_sent room l : NoDup l -> NoDup (sent room l).
Proof.
  intros Hl. unfold sent. eapply sublist_NoDup; [|apply sublist_take]. by apply NoDup_filter.
Qed.

Context (Hdp : alen dp = FEATURE_SIZE) (Hlast : alen last = FEATURE_SIZE)
  (Hegress : alen egress = FEATURE_SIZE).

Lemma unseen_session_ok lfu' i :
  alen lfu' = FEATURE_SIZE -> 0 <= i < FEATURE_SIZE ->
  unseen_session egress lfu' i = Ok ((aget lfu' i =? 0) && negb (aget egress i =? -1)).
Proof using Hegress.
  intros Hl Hi. unfold unseen_session. rewrite rd_ok by lia. cbn [rbind].
  destruct (aget lfu' i =? 0); [|done]. by rewrite rd_ok by lia.
Qed.

Lemma timed_out_session_ok lfu' i :
  alen lfu' = FEATURE_SIZE -> 0 <= i < FEATURE_SIZE ->
  timed_out_session timeout egress lfu' i =
    Ok ((aget lfu' i <? timeout) && negb (aget egress i =? -1)).
Proof using Hegress.
  intros Hl Hi. unfold timed_out_session. rewrite rd_ok by lia. cbn [rbind].
  destruct (aget lfu' i <? timeout); [|done]. by rewrite rd_ok by lia.
Qed.

(** One more id is aged: the three outcomes. *)
Lemma aged_snoc room l x lfu' u :
  x ∉ l -> aged_on l room lfu' ->
  u = (if refreshed x then now else if decide (x ∈ sent room (l ++ [x])) then 0 else aget lfu x) ->
  (forall i, i ∈ sent room (l ++ [x]) <-> i ∈ sent room l \/ (i = x /\ x ∈ sent room (l ++ [x]))) ->
  aged_on (l ++ [x]) room (aset lfu' x u).
Proof.
  intros Hx [Hl Hg] Hu Hs. split; [done|]. intros i. rewrite aget_aset.
  destruct (decide (x = i)) as [<-|E].
  - rewrite decide_True; [done|]. apply elem_of_app. right. left.
  - rewrite Hg. destruct (decide (i ∈ l)) as [Hi|Hi].
    + rewrite (decide_True (P := i ∈ l ++ [x])) by (apply elem_of_app; by left).
      destruct (refreshed i); [done|]. apply decide_ext. rewrite Hs.
      split; [by left|intros [?|[? _]]; [done|congruence]].
    + rewrite decide_False; [done|]. rewrite elem_of_app, list_elem_of_singleton.
      intros [?|?]; congruence.
Qed.

Lemma aged_snoc_keep room l x lfu' :
  aged_on (l ++ [x]) room (aset lfu' x (aget lfu' x)) -> aged_on (l ++ [x]) room lfu'.
Proof.
  intros [Hl Hg]. split; [done|]. intros i. rewrite <- Hg, aget_aset. by destruct (decide (x = i)) as [<-|].
Qed.

Lemma age_step v0 q x dn v lfu' ring :
  let room := Z.to_nat (PACKET_RINGBUFFER_SIZE - Z.of_nat (length q)) in
  0 <= x < FEATURE_SIZE -> x ∉ dn ->
  accumulated_on dn v0 dp last v -> aged_on dn room lfu' ->
  rb_rep PACKET_RINGBUFFER_SIZE ring (q ++ timeouts (sent room dn)) ->
  Z.of_nat (length q) <= PACKET_RINGBUFFER_SIZE ->
  exists v' lfu'' ring', age_body now timeout egress dp last x (v, lfu', ring) = Ok (v', lfu'', ring') /\
    accumulated_on (dn ++ [x]) v0 dp last v' /\ aged_on (dn ++ [x]) room lfu'' /\
    rb_rep PACKET_RINGBUFFER_SIZE ring' (q ++ timeouts (sent room (dn ++ [x]))).
Proof using Hdp Hlast Hegress.
  intros room Hx Hnew Hv Hage Hring Hq. unfold age_body.
  assert (Z.of_nat room = PACKET_RINGBUFFER_SIZE - Z.of_nat (length q)) as Hroom by lia. clearbody room.
  destruct (add_difference_ok dp last v0 v dn x Hdp Hlast Hx Hnew Hv) as (v' & -> & Hv'). cbn [rbind].
  rewrite !rd_ok by lia. cbn [rbind].
  assert (aget lfu' x = aget lfu x) as Ex by (destruct Hage as [_ ->]; by rewrite decide_False).
  assert ((if negb (aget dp x =? aget last x) then Ok true else unseen_session egress lfu' x) = Ok (refreshed x)) as ->.
  { unfold refreshed. destruct (negb _); [done|]. rewrite unseen_session_ok by (done || apply Hage).
    by rewrite Ex. }
  assert (x ∉ sent room dn) as Hns by (intros [? _]%sent_subset; done).
  pose proof (sent_snoc room dn x) as Hsnoc. cbn [rbind].
  destruct (refreshed x) eqn:Er.
  - assert (expired x = false) as Eexp by (unfold expired; by rewrite Er).
    rewrite Eexp, app_nil_r in Hsnoc. rewrite wr_ok by (destruct Hage; lia). cbn [rbind].
    do 3 eexists. split; [reflexivity|]. split; [done|]. rewrite Hsnoc. split; [|done].
    apply aged_snoc; try done; [by rewrite Er|]. rewrite Hsnoc. intros i. split; [by left|].
    intros [?|[-> ?]]; done.
  - rewrite timed_out_session_ok by (done || apply Hage). cbn [rbind]. rewrite Ex.
    assert ((aget lfu x <? timeout) && negb (aget egress x =? -1) = expired x) as ->
      by (unfold expired; by rewrite Er).
    destruct (expired x) eqn:Eexp; cbn [andb] in Hsnoc.
    + destruct (put_rep PACKET_RINGBUFFER_SIZE (proj1 ringbuffer_sizes) ring _
                  (PKT_TIMEOUT_FLOW (aget egress x)) Hring) as (ring' & -> & Hring'). cbn [rbind].
      assert (length (q ++ timeouts (sent room dn)) = length q + length (sent room dn))%nat as Hlen
        by (unfold timeouts; by rewrite length_app, length_fmap).
      unfold queue_put in *. rewrite Hlen in *. case_decide as Hf; cbn [fst snd] in *; cbn [Z.eqb] in *.
      * rewrite bool_decide_false, app_nil_r in Hsnoc by lia.
        do 3 eexists. split; [reflexivity|]. split; [done|]. rewrite Hsnoc. split; [|done].
        apply aged_snoc_keep, aged_snoc; try done.
        -- rewrite Er, Hsnoc, decide_False by done. done.
        -- rewrite Hsnoc. intros i. split; [by left|]. intros [?|[-> ?]]; done.
      * pose proof (rep_length _ _ _ Hring) as Hmax. rewrite Hlen in Hmax.
        rewrite bool_decide_true in Hsnoc by lia. cbn iota in Hsnoc.
        rewrite wr_ok by (destruct Hage; lia). cbn [rbind].
        do 3 eexists. split; [reflexivity|]. split; [done|]. rewrite Hsnoc. split.
        -- apply aged_snoc; try done.
           ++ rewrite Er, Hsnoc, decide_True; [done|]. apply elem_of_app. right. left.
           ++ rewrite Hsnoc. intros i. rewrite !elem_of_app, !list_elem_of_singleton. naive_solver.
        -- unfold timeouts in *. by rewrite fmap_app, app_assoc.
    + rewrite app_nil_r in Hsnoc. do 3 eexists. split; [reflexivity|]. split; [done|]. rewrite Hsnoc.
      split; [|done]. apply aged_snoc_keep, aged_snoc; try done.
      * rewrite Er, Hsnoc, decide_False by done. done.
      * rewrite Hsnoc. intros i. split; [by left|]. intros [?|[-> ?]]; done.
Qed.
End ageing.

Lemma process_and_age_ok tv_sec egress r lfu ring q :
  let now := u32 tv_sec in let timeout := u32 (now - FLOW_TIMEOUT) in
  let room := Z.to_nat (PACKET_RINGBUFFER_SIZE - Z.of_nat (length q)) in
  let dp := current r in let last := previous r in
  register_wf r -> alen egress = FEATURE_SIZE -> alen lfu = FEATURE_SIZE ->
  rb_rep PACKET_RINGBUFFER_SIZE ring q ->
  exists v lfu' ring', process_and_age_feature tv_sec egress r lfu ring = Ok (set_values v r, lfu', ring') /\
    accumulated_on feature_ids (values r) dp last v /\
    aged_on now timeout egress dp last lfu feature_ids room lfu' /\
    rb_rep PACKET_RINGBUFFER_SIZE ring'
      (q ++ timeouts egress (sent timeout egress dp last lfu room feature_ids)).
Proof.
  intros now timeout room dp last Hwf He Hl Hr. unfold process_and_age_feature.
  rewrite deref_current, deref_previous by done. cbn [rbind].
  pose proof (rep_length _ _ _ Hr) as Hq.
  destruct (foldM_rule (fun dn (st : arr Z * arr Z * packet_ring) =>
      accumulated_on dn (values r) dp last (fst (fst st)) /\
      aged_on now timeout egress dp last lfu dn room (snd (fst st)) /\
      rb_rep PACKET_RINGBUFFER_SIZE (snd st) (q ++ timeouts egress (sent timeout egress dp last lfu room dn)))
    (age_body now timeout egress dp last) feature_ids) with (s := (values r, lfu, ring))
    as ([[v lfu'] ring'] & E & Hv & Ha & Hring).
  - intros dn x rest [[v lfu'] ring'] El (Hv & Ha & Hring). cbn [fst snd] in *.
    destruct (fresh_in_split _ _ _ _ NoDup_feature_ids El) as [Hn Hin].
    destruct (age_step now timeout egress dp last lfu (alen_current _ Hwf) (alen_previous _ Hwf) He
                (values r) q x dn v lfu' ring') as (v1 & lfu1 & ring1 & E1 & H1 & H2 & H3); try done.
    { by apply feature_ids_range. }
    by exists (v1, lfu1, ring1).
  - cbn [fst snd]. split; [apply accumulated_nil, Hwf|]. split.
    + split; [done|]. intros i. by rewrite decide_False by apply not_elem_of_nil.
    + unfold sent. rewrite filter_nil, take_nil. unfold timeouts. by rewrite app_nil_r.
  - fold now timeout dp last. rewrite E. cbn [rbind fst snd] in *. by exists v, lfu', ring'.
Qed.

(** *** Rounds of synchronising, reading and accumulating one register *)

Definition read_round {sw} `{Switch sw} (s : sw) (r : feature_register_t) : res feature_register_t :=
  let '(_, s) := sync_feature s r in
  let! '(_, r) := read_feature s r in
  process_feature r.

(** At [s] the synchronisation of the register and the read after it succeed, and the
    live register holds the counters [c] modulo [2^32]. *)
Definition reads {sw} `{SwitchLaws sw} (s : sw) (reg : Z) (c : Z -> Z) : Prop :=
  (database_sync s reg).1 = 0 /\
  (forall b, (register_range_read (database_sync s reg).2 reg 0 MAX_FLOWS b).1 = 0) /\
  forall i, i ∈ feature_ids ->
    v_regs (view s) reg (flow_id_to_pipe i) (flow_id_to_register_index i) = u32 (c i).

(** The totals are those of [c]; the buffers hold [c] and, before it, [c0]. *)
Record totals (c0 c : Z -> Z) (r : feature_register_t) : Prop := Totals {
  to_wf : register_wf r;
  to_current : forall i, i ∈ feature_ids -> aget (current r) i = u32 (c i);
  to_previous : forall i, i ∈ feature_ids -> aget (previous r) i = u32 (c0 i);
  to_values : forall i, i ∈ feature_ids -> aget (values r) i = u64 (c i) }.

Lemma u32_difference a b : u32 (u32 a - u32 b) = u32 (a - b).
Proof. unfold u32. by rewrite <- Zminus_mod. Qed.

Lemma u64_add_l a b : u64 (u64 a + b) = u64 (a + b).
Proof. unfold u64. by rewrite Zplus_mod_idemp_l. Qed.

Lemma sync_feature_snd {sw} `{Switch sw} (s : sw) r : (sync_feature s r).2 = (database_sync s (table_hdl r)).2.
Proof. unfold sync_feature. by destruct (database_sync _ _). Qed.

(** A read that succeeds returns the synchronised copy. *)
Lemma range_read_synced {sw} `{SwitchLaws sw} (s : sw) reg b i :
  (register_range_read s reg 0 MAX_FLOWS b).1 = 0 -> i ∈ feature_ids ->
  aget (register_range_read s reg 0 MAX_FLOWS b).2 i =
    v_synced (view s) reg (flow_id_to_pipe i) (flow_id_to_register_index i).
Proof.
  intros Hst Hi. apply range_read_law; [done|].
  change (MAX_FLOWS * NUM_PIPES) with FEATURE_SIZE. by apply feature_ids_range.
Qed.

Lemma range_read_value {sw} `{SwitchLaws sw} (s : sw) reg c b i :
  reads s reg c -> i ∈ feature_ids ->
  aget (register_range_read (database_sync s reg).2 reg 0 MAX_FLOWS b).2 i = u32 (c i).
Proof.
  intros (Hsync & Hst & Hv) Hi. destruct (sync_law s reg) as (sy & Es & _ & Hc).
  rewrite range_read_synced by auto. rewrite Es. cbn [v_synced with_synced].
  rewrite (Hc Hsync). by apply Hv.
Qed.

Lemma round_ok {sw} `{SwitchLaws sw} (s : sw) c c' d r :
  register_wf r -> reads s (table_hdl r) c' ->
  (forall i, i ∈ feature_ids -> aget (current r) i = u32 (c i)) ->
  (forall i, i ∈ feature_ids -> aget (values r) i = u64 (d i)) ->
  exists r', read_round s r = Ok r' /\ register_wf r' /\ table_hdl r' = table_hdl r /\
    (forall i, i ∈ feature_ids -> aget (current r') i = u32 (c' i)) /\
    previous r' = current r /\
    (forall i, i ∈ feature_ids -> aget (values r') i = u64 (d i + u32 (c' i - c i))).
Proof.
  intros Hwf Hs Hc Hv. unfold read_round.
  rewrite (surjective_pairing (sync_feature s r)), sync_feature_snd.
  destruct (read_feature_ok (database_sync s (table_hdl r)).2 r Hwf) as (st & r1 & -> & Hwf1 & Hp1 & Hv1 & _ & Ht1 & _ & Hc1 & _).
  cbn [rbind]. destruct (process_feature_ok r1 Hwf1) as (v & -> & Hl & Ha).
  eexists. split; [reflexivity|]. split; [by apply set_values_wf|]. split; [done|].
  assert (forall i, i ∈ feature_ids -> aget (current r1) i = u32 (c' i)) as Hcur
    by (intros i Hi; rewrite Hc1; by apply range_read_value).
  split; [done|]. split; [done|].
  intros i Hi. change (values (set_values v r1)) with v. rewrite Ha, decide_True by done.
  unfold accumulated. rewrite Hv1, Hv, Hp1, Hc, Hcur by done. by rewrite u32_difference, u64_add_l.
Qed.

Lemma totals_round {sw} `{SwitchLaws sw} (s : sw) c0 c c' r :
  totals c0 c r -> reads s (table_hdl r) c' ->
  (forall i, i ∈ feature_ids -> 0 <= c' i - c i < 2 ^ 32) ->
  exists r', read_round s r = Ok r' /\ totals c c' r' /\ table_hdl r' = table_hdl r.
Proof.
  intros [Hwf Hc Hp Hv] Hs Hd.
  destruct (round_ok s c c' c r Hwf Hs Hc Hv) as (r' & E & Hwf' & Ht & Hc' & Hp' & Hv').
  exists r'. split; [done|]. split; [|done]. split; [done|done| |].
  - intros i Hi. by rewrite Hp', Hc.
  - intros i Hi. rewrite Hv', u32_small by auto. f_equal. lia.
Qed.

Lemma totals_rounds {sw} `{SwitchLaws sw} (rounds : list sw) : forall (count : nat -> Z -> Z) c0 r,
  totals c0 (count 0%nat) r ->
  (forall k s, rounds !! k = Some s -> reads s (table_hdl r) (count (S k))) ->
  (forall k i, i ∈ feature_ids -> 0 <= count (S k) i - count k i < 2 ^ 32) ->
  exists c1 r', foldM read_round rounds r = Ok r' /\ totals c1 (count (length rounds)) r'.
Proof.
  induction rounds as [|s rounds IH]; intros count c0 r Ht Hr Hd; cbn [foldM].
  - by exists c0, r.
  - destruct (totals_round s c0 (count 0%nat) (count 1%nat) r Ht (Hr 0%nat s eq_refl) (Hd 0%nat))
      as (r1 & -> & Ht1 & Eh). cbn [rbind].
    apply (IH (fun k => count (S k)) _ r1 Ht1); [|auto].
    intros k s' Hk. rewrite Eh. by apply (Hr (S k)).
Qed.

Lemma prepare_totals r : totals (fun _ => 0) (fun _ => 0) (fst (prepare_feature r)).
Proof.
  assert (register_wf (fst (prepare_feature r))) as Hwf by (split; [done|done|done|by left]).
  split; [done| | |]; intros i Hi; apply aget_amake.
Qed.

(** Claim C14. Exact totals: after [prepare_feature], any number of successful
    synchronisations and reads
    leaves in [values] the true 64-bit counters of every id, although the registers
    of the data plane wrap around at [2^32], as long as a counter grows by less
    than [2^32] between two reads. *)
Theorem feature_totals_exact {sw} `{SwitchLaws sw} (r : feature_register_t) (rounds : list sw)
    (count : nat -> Z -> Z) :
  (forall i, count 0%nat i = 0) ->
  (forall k s, rounds !! k = Some s -> reads s (table_hdl r) (count (S k))) ->
  (forall k i, i ∈ feature_ids -> 0 <= count (S k) i - count k i < 2 ^ 32) ->
  exists r', foldM read_round rounds (fst (prepare_feature r)) = Ok r' /\
    forall i, MIN_SESSION_ID <= i < FEATURE_SIZE ->
      aget (values r') i = u64 (count (length rounds) i).
Proof.
  intros Hz Hr Hd.
  destruct (totals_rounds rounds count (fun _ => 0) (fst (prepare_feature r))) as (c1 & r' & E & Ht); try done.
  - destruct (prepare_totals r) as [Hwf Hc Hp Hv].
    split; [done| |done|]; intros i Hi; rewrite Hz; auto.
  - exists r'. split; [done|]. intros i Hi. apply (to_values _ _ _ Ht). by apply elem_of_feature_ids.
Qed.

(** A switch whose registers all hold [n]. *)
Definition constant_switch (n : Z) : model_sw :=
  (SwitchView ∅ ∅ (fun _ _ _ => 0) (fun _ _ _ => u32 n) (fun _ _ _ => 0), false).
Definition failing_switch : model_sw := (SwitchView ∅ ∅ (fun _ _ _ => 0) (fun _ _ _ => 0) (fun _ _ _ => 0), true).

Lemma constant_switch_reads n reg : reads (constant_switch n) reg (fun _ => n).
Proof. by split. Qed.

(** The counters go through 3000000000, 6000000000 and 9000000000. *)
Lemma feature_totals_exact_witness : exists r',
  foldM read_round [constant_switch 3000000000; constant_switch 6000000000; constant_switch 9000000000]
    (fst (prepare_feature (static_register (fun _ => 0) SIZE_LOG_REG SIZE_LOG_REG PROCESS_FEATURE))) = Ok r' /\
  forall i, MIN_SESSION_ID <= i < FEATURE_SIZE -> aget (values r') i = u64 9000000000.
Proof.
  destruct (feature_totals_exact (static_register (fun _ => 0) SIZE_LOG_REG SIZE_LOG_REG PROCESS_FEATURE)
              [constant_switch 3000000000; constant_switch 6000000000; constant_switch 9000000000]
              (fun k _ => 3000000000 * Z.of_nat k)) as (r' & E & Hv).
  - done.
  - intros [|[|[|k]]] s [= <-]; apply constant_switch_reads.
  - intros k i _. lia.
  - exists r'. split; [exact E|exact Hv].
Defined.

(** [read_features] ignores a failed read, but the buffers were swapped
    before it: when the failed read leaves the buffer alone, the next successful
    one leaves every total that had changed in the last read before the failure
    [2^32] too large. *)
Theorem failed_read_corrupts_totals {sw} `{SwitchLaws sw} (r : feature_register_t) (s_failed s_ok : sw)
    (c0 c c' : Z -> Z) :
  totals c0 c r ->
  (forall b, (register_range_read (database_sync s_failed (table_hdl r)).2 (table_hdl r) 0 MAX_FLOWS b).2 = b) ->
  reads s_ok (table_hdl r) c' ->
  (forall i, i ∈ feature_ids -> c0 i <= c i <= c' i /\ c' i - c0 i < 2 ^ 32) ->
  exists r', foldM read_round [s_failed; s_ok] r = Ok r' /\
    forall i, MIN_SESSION_ID <= i < FEATURE_SIZE ->
      aget (values r') i = u64 (c' i + if decide (c0 i = c i) then 0 else 2 ^ 32).
Proof.
  intros [Hwf Hc Hp Hv] Hfail Hs Hd. cbn [foldM]. unfold read_round at 1.
  rewrite (surjective_pairing (sync_feature s_failed r)), sync_feature_snd.
  destruct (read_feature_ok (database_sync s_failed (table_hdl r)).2 r Hwf) as (st & r1 & -> & Hwf1 & Hp1 & Hv1 & _ & Ht1 & _ & Hc1 & _).
  cbn [rbind]. rewrite Hfail in Hc1. destruct (process_feature_ok r1 Hwf1) as (v & -> & Hl & Ha).
  cbn [rbind].
  destruct (round_ok s_ok c0 c' (fun i => c i + u32 (c0 i - c i)) (set_values v r1))
    as (r' & -> & _ & _ & _ & _ & Hv').
  - by apply set_values_wf.
  - change (table_hdl (set_values v r1)) with (table_hdl r1). by rewrite Ht1.
  - intros i Hi. change (current (set_values v r1)) with (current r1). rewrite Hc1. auto.
  - intros i Hi. change (values (set_values v r1)) with v. rewrite Ha, decide_True by done.
    unfold accumulated. rewrite Hv1, Hv, Hp1, Hc1, Hc, Hp by done. by rewrite u32_difference, u64_add_l.
  - exists r'. split; [done|]. intros i Hi%elem_of_feature_ids. destruct (Hd i Hi) as [Hle Hlt].
    rewrite Hv' by done. rewrite (u32_small (c' i - c0 i)) by lia. f_equal.
    case_decide as E; [rewrite u32_small by lia; lia|].
    replace (c0 i - c i) with ((c0 i - c i + 2 ^ 32) + (-1) * 2 ^ 32) by lia.
    unfold u32. rewrite Z.mod_add, Z.mod_small by lia. lia.
Qed.

(** The counters stay at 5 after a read of 0, then a read fails. *)
Lemma failed_read_corrupts_totals_witness : exists r r',
  read_round (constant_switch 5)
    (fst (prepare_feature (static_register (fun _ => 0) SIZE_LOG_REG SIZE_LOG_REG PROCESS_FEATURE))) = Ok r /\
  foldM read_round [failing_switch; constant_switch 5] r = Ok r' /\
  forall i, MIN_SESSION_ID <= i < FEATURE_SIZE -> aget (values r') i = u64 (5 + 2 ^ 32).
Proof.
  destruct (totals_round (constant_switch 5) (fun _ => 0) (fun _ => 0) (fun _ => 5)
              (fst (prepare_feature (static_register (fun _ => 0) SIZE_LOG_REG SIZE_LOG_REG PROCESS_FEATURE))))
    as (r & E & Ht & Er).
  - apply prepare_totals.
  - apply constant_switch_reads.
  - intros. lia.
  - destruct (failed_read_corrupts_totals r failing_switch (constant_switch 5) _ _ (fun _ => 5) Ht)
      as (r' & E' & Hv).
    + done.
    + apply constant_switch_reads.
    + intros. lia.
    + exists r, r'. split; [exact E|]. split; [exact E'|]. exact Hv.
Defined.

(** *** The whole pass *)

(** The registers are those of the static array after [prepare_features]. *)
Definition registers_ready (rs : list feature_register_t) : Prop :=
  Forall register_wf rs /\
  process_register <$> rs = PROCESS_AND_AGE_FEATURE :: repeat PROCESS_FEATURE 6.

(** One register after a pass: its buffers moved on, its totals grew. *)
Definition register_passed {sw} `{Switch sw} (s : sw) (r r' : feature_register_t) : Prop :=
  register_wf r' /\ table_hdl r' = table_hdl r /\ process_register r' = process_register r /\
  on_egress r' = on_egress r /\ previous r' = current r /\
  current r' = (register_range_read s (table_hdl r) 0 MAX_FLOWS (previous r)).2 /\
  accumulated_on feature_ids (values r) (current r') (previous r') (values r').

Lemma read_all_ok {sw} `{SwitchLaws sw} (s : sw) rs :
  Forall register_wf rs ->
  exists rs', read_all s rs = Ok rs' /\
    Forall2 (fun r r' => register_wf r' /\ table_hdl r' = table_hdl r /\
      process_register r' = process_register r /\ on_egress r' = on_egress r /\
      previous r' = current r /\ values r' = values r /\
      current r' = (register_range_read s (table_hdl r) 0 MAX_FLOWS (previous r)).2) rs rs'.
Proof.
  induction 1 as [|r rs Hr _ (rs' & E & IH)]; cbn [read_all]; [by exists []|].
  destruct (read_feature_ok s r Hr) as (st & r' & -> & Hwf & Hp & Hv & Hpr & Ht & Hon & Hc & _).
  cbn [rbind]. rewrite E. cbn [rbind]. exists (r' :: rs'). split; [done|]. by constructor.
Qed.

Lemma process_all_features tv egress lfu ring rs :
  Forall register_wf rs -> Forall (fun r => process_register r = PROCESS_FEATURE) rs ->
  exists rs', process_all tv egress rs lfu ring = Ok (rs', lfu, ring) /\
    Forall2 (fun r r' => exists v, r' = set_values v r /\
      accumulated_on feature_ids (values r) (current r) (previous r) v) rs rs'.
Proof.
  intros Hwf. induction Hwf as [|r rs Hr _ IH]; intros Hp; cbn [process_all]; [by exists []|].
  apply Forall_cons in Hp as [Hpr Hp]. destruct (IH Hp) as (rs' & E & Hf).
  unfold run_process at 1. rewrite Hpr.
  destruct (process_feature_ok r Hr) as (v & -> & Ha). cbn [rbind]. rewrite E. cbn [rbind].
  eexists. split; [reflexivity|]. constructor; [|done]. by exists v.
Qed.

(** Synchronising changes the copy that reads return and nothing else. *)
Definition same_but_synced (v v' : switch_view) : Prop := v' = with_synced (v_synced v') v.

Lemma same_but_synced_refl v : same_but_synced v v.
Proof. by destruct v. Qed.
Lemma same_but_synced_trans v1 v2 v3 :
  same_but_synced v1 v2 -> same_but_synced v2 v3 -> same_but_synced v1 v3.
Proof. unfold same_but_synced. intros E1 E2. rewrite E2 at 1. rewrite E1. done. Qed.

(** The statuses of the synchronisations of a pass. *)
Fixpoint sync_statuses {sw} `{Switch sw} (s : sw) (rs : list feature_register_t) : list Z :=
  match rs with
  | [] => []
  | r :: rs => (sync_feature s r).1 :: sync_statuses (sync_feature s r).2 rs
  end.

Lemma sync_feature_view {sw} `{SwitchLaws sw} (s : sw) r :
  same_but_synced (view s) (view (sync_feature s r).2) /\
  ((sync_feature s r).1 = SUCCESS -> forall reg,
     reg = table_hdl r \/ v_synced (view s) reg = v_regs (view s) reg ->
     v_synced (view (sync_feature s r).2) reg = v_regs (view s) reg).
Proof.
  destruct (sync_law s (table_hdl r)) as (c & E & Hother & Hc). unfold sync_feature.
  destruct (database_sync s (table_hdl r)) as [st s1]. cbn [fst snd] in *. rewrite E.
  split; [done|]. cbn [v_synced with_synced]. intros Hst reg Hreg.
  assert (st = 0) as Hst0 by (destruct (Z.eqb_spec st 0); [done|discriminate Hst]).
  destruct (decide (reg = table_hdl r)) as [->|Hne]; [by apply Hc|].
  rewrite Hother by done. by destruct Hreg.
Qed.

Lemma sync_all_view {sw} `{SwitchLaws sw} rs : forall s : sw,
  same_but_synced (view s) (view (sync_all s rs)) /\
  (Forall (fun status => status = SUCCESS) (sync_statuses s rs) -> forall reg,
     reg ∈ table_hdl <$> rs \/ v_synced (view s) reg = v_regs (view s) reg ->
     v_synced (view (sync_all s rs)) reg = v_regs (view s) reg).
Proof.
  induction rs as [|r rs IH]; intros s; cbn [sync_all sync_statuses].
  - split; [apply same_but_synced_refl|]. intros _ reg [Hin|?]; [by apply elem_of_nil in Hin|done].
  - destruct (sync_feature_view s r) as [Hv Hs]. destruct (IH (sync_feature s r).2) as [Hv' Hs'].
    assert (v_regs (view (sync_feature s r).2) = v_regs (view s)) as Er by (by rewrite Hv).
    rewrite Er in Hs'. split; [by eapply same_but_synced_trans|].
    intros [Hst Hall]%Forall_cons reg Hreg. apply Hs'; [done|].
    rewrite fmap_cons, elem_of_cons in Hreg.
    destruct Hreg as [[->|?]|?]; [right; apply Hs; auto|by left|right; apply Hs; auto].
Qed.

(** Where the read succeeded, the register's current values of every id are those of
    the live register of the switch. *)
Definition read_live {sw} `{SwitchLaws sw} (s s' : sw) (r r' : feature_register_t) : Prop :=
  (register_range_read s' (table_hdl r) 0 MAX_FLOWS (previous r)).1 = 0 ->
  forall i, i ∈ feature_ids ->
    aget (current r') i = v_regs (view s) (table_hdl r) (flow_id_to_pipe i) (flow_id_to_register_index i).

Lemma registers_live {sw} `{SwitchLaws sw} (s : sw) rs rs' :
  Forall (fun status => status = SUCCESS) (sync_statuses s rs) ->
  Forall2 (register_passed (sync_all s rs)) rs rs' ->
  Forall2 (read_live s (sync_all s rs)) rs rs'.
Proof.
  intros Hst Hp. destruct (sync_all_view rs s) as [_ Hs].
  assert (Forall (fun r => v_synced (view (sync_all s rs)) (table_hdl r) = v_regs (view s) (table_hdl r)) rs) as Hl
    by (apply Forall_forall; intros r Hr; apply Hs; [done|left; by apply list_elem_of_fmap_2]).
  clear Hst Hs. revert Hp Hl. generalize (sync_all s rs). intros s' Hp.
  induction Hp as [|r r' rs rs' Hr _ IH]; intros Hl; [by constructor|].
  apply Forall_cons in Hl as [Hl Hls]. constructor; [|by apply IH].
  destruct Hr as (_ & _ & _ & _ & _ & Hc & _). intros Hread i Hi.
  by rewrite Hc, range_read_synced, Hl.
Qed.

Lemma Forall2_right {A B} (P : A -> B -> Prop) (Q : B -> Prop) l k :
  Forall2 P l k -> (forall x y, P x y -> Q y) -> Forall Q k.
Proof. intros Hf HQ. induction Hf; constructor; eauto. Qed.

Lemma Forall2_compose {A B C} (P : A -> B -> Prop) (Q : B -> C -> Prop) (R : A -> C -> Prop) l k m :
  Forall2 P l k -> Forall2 Q k m -> (forall x y z, P x y -> Q y z -> R x z) -> Forall2 R l m.
Proof.
  intros Hf. revert m. induction Hf; intros m Hg HR; inversion Hg; subst; constructor; eauto.
Qed.

Lemma same_process (rs rs' : list feature_register_t) :
  Forall2 (fun r r' => process_register r' = process_register r) rs rs' ->
  process_register <$> rs' = process_register <$> rs.
Proof. induction 1 as [|r r' rs rs' E _ IH]; [done|]. by rewrite !fmap_cons, E, IH. Qed.

Lemma all_process_feature (rs : list feature_register_t) : forall n,
  process_register <$> rs = repeat PROCESS_FEATURE n ->
  Forall (fun r => process_register r = PROCESS_FEATURE) rs.
Proof.
  induction rs as [|r rs IH]; intros [|n] E; [by constructor|by constructor|done|].
  rewrite fmap_cons in E. cbn [repeat] in E. injection E as E1 E2. constructor; [done|by eapply IH].
Qed.

(** One pass of [read_features]. *)
Lemma read_features_ok {sw} `{SwitchLaws sw} tv_sec egress (s : sw) (f : features_t) q :
  registers_ready (features f) -> alen egress = FEATURE_SIZE ->
  alen (last_flow_update f) = FEATURE_SIZE ->
  rb_rep PACKET_RINGBUFFER_SIZE (packet_ringbuffer f) q ->
  exists s' f' count count', read_features tv_sec egress s f = Ok (s', f') /\
    same_but_synced (view s) (view s') /\ registers_ready (features f') /\
    Forall2 (register_passed s') (features f) (features f') /\
    (Forall (fun status => status = SUCCESS) (sync_statuses s (features f)) ->
     Forall2 (read_live s s') (features f) (features f')) /\
    features f !! 0%nat = Some count /\ features f' !! 0%nat = Some count' /\
    let timeout := u32 (u32 tv_sec - FLOW_TIMEOUT) in
    let room := Z.to_nat (PACKET_RINGBUFFER_SIZE - Z.of_nat (length q)) in
    aged_on (u32 tv_sec) timeout egress (current count') (current count) (last_flow_update f)
      feature_ids room (last_flow_update f') /\
    rb_rep PACKET_RINGBUFFER_SIZE (packet_ringbuffer f')
      (q ++ timeouts egress
              (sent timeout egress (current count') (current count) (last_flow_update f) room feature_ids)).
Proof.
  intros [Hwf Hpr] He Hl Hr. unfold read_features.
  pose proof (sync_all_view (features f) s) as [Hsync _].
  pose proof (registers_live s (features f)) as Hlive.
  set (s' := sync_all s (features f)) in *.
  destruct (read_all_ok s' _ Hwf) as (rs1 & -> & H2). cbn [rbind].
  destruct (features f) as [|r0 rs]; [done|]. apply Forall2_cons_inv_l in H2 as (r1 & rs1' & Hr1 & H2 & ->).
  destruct Hr1 as (Hwf1 & Ht1 & Hp1 & Hon1 & Hprev1 & Hv1 & Hc1).
  rewrite fmap_cons in Hpr. apply (inj2 cons) in Hpr as [Hp0 Hps].
  cbn [process_all]. unfold run_process at 1. rewrite Hp1, Hp0.
  destruct (process_and_age_ok tv_sec egress r1 (last_flow_update f) (packet_ringbuffer f) q Hwf1 He Hl Hr)
    as (v & lfu' & ring' & -> & Hacc & Haged & Hring). cbn [rbind].
  assert (Forall register_wf rs1') as Hwfs by (eapply Forall2_right; [exact H2|cbn; tauto]).
  assert (process_register <$> rs1' = process_register <$> rs) as Eps
    by (apply same_process; eapply Forall2_impl; [exact H2|cbn; tauto]).
  destruct (process_all_features tv_sec egress lfu' ring' rs1' Hwfs) as (rs2 & -> & H3);
    [by apply (all_process_feature _ 6); rewrite Eps|]. cbn [rbind].
  assert (Forall2 (register_passed s') rs rs2) as H4.
  { eapply Forall2_compose; [exact H2|exact H3|].
    intros x y z (A1 & A2 & A3 & A3' & A4 & A5 & A6) (w & -> & Ha).
    split; [apply set_values_wf; [done|apply Ha]|]. rewrite A5 in Ha. by repeat (split; [done|]). }
  assert (register_passed s' r0 (set_values v r1)) as H5.
  { split; [apply set_values_wf; [done|apply Hacc]|]. rewrite Hv1 in Hacc. by repeat (split; [done|]). }
  exists s', (Features (set_values v r1 :: rs2) lfu' ring'), r0, (set_values v r1).
  split; [done|]. split; [done|]. cbn [features last_flow_update packet_ringbuffer].
  split; [|split; [by constructor|split; [intros Hst; apply Hlive; [done|by constructor]|]]].
  - split.
    + constructor; [apply H5|]. eapply Forall2_right; [exact H4|]. by intros ? ? [? _].
    + rewrite fmap_cons, (same_process rs rs2), Hps; [|eapply Forall2_impl; [exact H4|]; by intros ? ? (_ & _ & ? & _)].
      f_equal. by rewrite <- Hp0, <- Hp1.
  - split; [done|]. split; [done|]. cbv zeta. rewrite Hprev1 in Haged, Hring. by split.
Qed.

(** Claim C13. One pass of [read_features], from a prepared state, for every outcome
    of the synchronisations and reads: nothing of the switch changes but the copy
    that reads return; each register's current values become the previous ones, its
    totals of every id grow by the difference modulo [2^32]; when the
    synchronisations succeed, every register that is read successfully holds the
    live counters of the switch; every id whose packet
    counter changed, or whose session is new, is marked with the current second;
    the timeouts of the sessions that did not change since [now - FLOW_TIMEOUT]
    are queued in the order of their ids, as many as the ring buffer holds, and
    the sessions whose timeout was queued are marked as unseen. *)
Theorem read_features_spec {sw} `{SwitchLaws sw} tv_sec egress (s : sw) (f : features_t) q :
  registers_ready (features f) -> alen egress = FEATURE_SIZE ->
  alen (last_flow_update f) = FEATURE_SIZE ->
  rb_rep PACKET_RINGBUFFER_SIZE (packet_ringbuffer f) q ->
  exists s' f' count count', read_features tv_sec egress s f = Ok (s', f') /\
    same_but_synced (view s) (view s') /\ registers_ready (features f') /\
    Forall2 (register_passed s') (features f) (features f') /\
    (Forall (fun status => status = SUCCESS) (sync_statuses s (features f)) ->
     Forall2 (read_live s s') (features f) (features f')) /\
    features f !! 0%nat = Some count /\ features f' !! 0%nat = Some count' /\
    let timeout := u32 (u32 tv_sec - FLOW_TIMEOUT) in
    let room := Z.to_nat (PACKET_RINGBUFFER_SIZE - Z.of_nat (length q)) in
    aged_on (u32 tv_sec) timeout egress (current count') (current count) (last_flow_update f)
      feature_ids room (last_flow_update f') /\
    rb_rep PACKET_RINGBUFFER_SIZE (packet_ringbuffer f')
      (q ++ timeouts egress
              (sent timeout egress (current count') (current count) (last_flow_update f) room feature_ids)).
Proof. exact (read_features_ok tv_sec egress s f q). Qed.

(** *** Preparation *)

(** The classification tables and the Bloom filter are left alone. *)
Definition same_tables (v v' : switch_view) : Prop :=
  v_ipv4 v' = v_ipv4 v /\ v_ipv6 v' = v_ipv6 v /\ v_bloom v' = v_bloom v.

Lemma same_tables_trans v1 v2 v3 : same_tables v1 v2 -> same_tables v2 v3 -> same_tables v1 v3.
Proof. intros (E1 & E2 & E3) (F1 & F2 & F3). repeat split; congruence. Qed.

(** The resets that [prepare_features] makes, of a register on a pipe, in order. *)
Definition reset_calls (rs : list feature_register_t) : list (Z * Z) :=
  r ← rs; (fun p => (reset_hdl r, p)) <$> seqZ 0 NUM_PIPES.

Fixpoint reset_run {sw} `{Switch sw} (s : sw) (calls : list (Z * Z)) : sw :=
  match calls with [] => s | (reg, p) :: calls => reset_run (register_reset_all s reg p).2 calls end.
Fixpoint reset_statuses {sw} `{Switch sw} (s : sw) (calls : list (Z * Z)) : list Z :=
  match calls with
  | [] => []
  | (reg, p) :: calls =>
      (register_reset_all s reg p).1 :: reset_statuses (register_reset_all s reg p).2 calls
  end.

Lemma reset_run_app {sw} `{Switch sw} calls1 calls2 : forall s : sw,
  reset_run s (calls1 ++ calls2) = reset_run (reset_run s calls1) calls2.
Proof. induction calls1 as [|[reg p] calls1 IH]; intros s; cbn; [done|]. apply IH. Qed.

(** The resets leave the other registers alone; when they succeed, they zero theirs. *)
Lemma reset_run_view {sw} `{SwitchLaws sw} calls : forall s : sw,
  same_tables (view s) (view (reset_run s calls)) /\
  forall reg p,
    ((reg, p) ∉ calls -> forall i, v_regs (view (reset_run s calls)) reg p i = v_regs (view s) reg p i) /\
    (Forall (fun status => status = 0) (reset_statuses s calls) ->
     (reg, p) ∈ calls \/ (forall i, v_regs (view s) reg p i = 0) ->
     forall i, v_regs (view (reset_run s calls)) reg p i = 0).
Proof.
  induction calls as [|[reg0 p0] calls IH]; intros s; cbn [reset_run reset_statuses].
  - split; [done|]. intros reg p. split; [done|]. by intros _ [?%elem_of_nil|?].
  - destruct (register_reset_law s reg0 p0) as [(r & c & Hv & Hr) Hok].
    destruct (IH (register_reset_all s reg0 p0).2) as [Ht Hregs].
    split; [apply (same_tables_trans _ (view (register_reset_all s reg0 p0).2)); [by rewrite Hv|done]|].
    assert (forall reg p i, (reg, p) <> (reg0, p0) ->
              v_regs (view (register_reset_all s reg0 p0).2) reg p i = v_regs (view s) reg p i) as Hother.
    { intros reg p i Hne. rewrite Hv. apply Hr. intros [-> ->]. done. }
    intros reg p. destruct (Hregs reg p) as [Hn Hz]. rewrite elem_of_cons. split.
    + intros Hni i. rewrite Hn by tauto. apply Hother. tauto.
    + intros [Hst Hall]%Forall_cons Hin. apply Hz; [done|].
      destruct (decide ((reg, p) = (reg0, p0))) as [E|Hne].
      * injection E as -> ->. right. by apply Hok.
      * destruct Hin as [[?|?]|Hzero]; [done|by left|]. right. intros i. by rewrite Hother.
Qed.

Lemma prepare_pipes {sw} `{SwitchLaws sw} (r : feature_register_t) (l : list Z) : forall (s : sw) r0 lfu,
  (forall p, p ∈ l -> 0 <= p < NUM_PIPES) -> l <> [] ->
  reset_hdl r0 = reset_hdl r -> prepare_feature r0 = prepare_feature r ->
  foldM prepare_body l (s, r0, lfu) =
    Ok (reset_run s ((fun p => (reset_hdl r, p)) <$> l), fst (prepare_feature r), amake FEATURE_SIZE 0).
Proof.
  induction l as [|p l IH]; intros s r0 lfu Hl Hne Hh Hp; [done|]. cbn [foldM]. unfold prepare_body at 1.
  rewrite rd_PIPES by (apply Hl; left). cbn [rbind]. rewrite Hh, fmap_cons. cbn [reset_run].
  destruct (register_reset_all s (reset_hdl r) p) as [st s1]. rewrite Hp.
  change (prepare_feature r) with (fst (prepare_feature r), amake FEATURE_SIZE 0) at 1. cbn [rbind snd].
  destruct l as [|p2 l]; [done|]. apply IH; try done. intros; apply Hl; by right.
Qed.

Lemma prepare_all_ok {sw} `{SwitchLaws sw} (rs : list feature_register_t) : forall (s : sw) lfu,
  rs <> [] ->
  prepare_all s rs lfu =
    Ok (reset_run s (reset_calls rs), (fun r => fst (prepare_feature r)) <$> rs, amake FEATURE_SIZE 0).
Proof.
  induction rs as [|r rs IH]; intros s lfu Hne; [done|]. cbn [prepare_all].
  rewrite (prepare_pipes r (seqZ 0 NUM_PIPES) s r lfu) by (done || by intros p ?%elem_of_seqZ0).
  cbn [rbind]. unfold reset_calls. rewrite bind_cons, reset_run_app. fold (reset_calls rs).
  destruct rs as [|r2 rs]; [done|]. rewrite IH by done. done.
Qed.

(** [prepare_features] zeroes the buffers and totals of every feature,
    clears the ages and leaves the tables alone. When the resets succeed, they zero on
    every pipe the data plane registers of all features except the one of [iat_log]:
    its [reset_fn] is the one of [iat_log_square], so whatever the resets report the
    old values of [iat_log] stay and are added to the first totals. *)
Theorem prepare_features_spec {sw} `{SwitchLaws sw} (egress : Z -> Z) (s : sw) lfu ring :
  exists s' f', prepare_features s (Features (STATIC_FEATURES_ARRAY egress) lfu ring) = Ok (s', f') /\
    features f' = (fun r => fst (prepare_feature r)) <$> STATIC_FEATURES_ARRAY egress /\
    last_flow_update f' = amake FEATURE_SIZE 0 /\
    same_tables (view s) (view s') /\
    registers_ready (features f') /\
    Forall (totals (fun _ => 0) (fun _ => 0)) (features f') /\
    packet_ringbuffer f' = ring /\
    forall reg pipe i,
      let reset := 0 <= reg < NUM_FEATURES /\ reg <> IAT_LOG_REG /\ 0 <= pipe < NUM_PIPES in
      (~ reset -> v_regs (view s') reg pipe i = v_regs (view s) reg pipe i) /\
      (reset -> Forall (fun status => status = 0) (reset_statuses s (reset_calls (STATIC_FEATURES_ARRAY egress))) ->
       v_regs (view s') reg pipe i = 0).
Proof.
  unfold prepare_features. cbn [features last_flow_update packet_ringbuffer].
  set (calls := reset_calls (STATIC_FEATURES_ARRAY egress)).
  rewrite prepare_all_ok by done. fold calls. destruct (reset_run_view calls s) as [Hst Hregs].
  cbn [rbind]. eexists _, _. split; [reflexivity|]. cbn [features last_flow_update packet_ringbuffer].
  split; [reflexivity|]. split; [reflexivity|]. split; [exact Hst|].
  assert (Forall (totals (fun _ => 0) (fun _ => 0))
            ((fun r => fst (prepare_feature r)) <$> STATIC_FEATURES_ARRAY egress)) as Ht
    by (apply Forall_fmap, Forall_true; intros; apply prepare_totals).
  split; [split; [|done]; eapply Forall_impl; [exact Ht|by intros ? []]|].
  split; [done|]. split; [done|].
  intros reg pipe i.
  set (reset := 0 <= reg < NUM_FEATURES /\ reg <> IAT_LOG_REG /\ 0 <= pipe < NUM_PIPES).
  destruct (Hregs reg pipe) as [Hn Hz].
  assert ((reg, pipe) ∈ calls <-> reset) as Hcalls.
  { unfold calls, reset_calls, reset. rewrite list_elem_of_bind.
    setoid_rewrite list_elem_of_fmap. setoid_rewrite elem_of_seqZ0.
    unfold NUM_FEATURES, IAT_LOG_REG. split.
    - intros (r & (p & [= -> ->] & Hp) & Hr). apply (list_elem_of_fmap_2 reset_hdl) in Hr.
      change (reset_hdl <$> STATIC_FEATURES_ARRAY egress) with [0; 1; 2; 3; 5; 5; 6] in Hr.
      rewrite !elem_of_cons, elem_of_nil in Hr. lia.
    - intros (Hr & Hni & Hp).
      assert (reg ∈ reset_hdl <$> STATIC_FEATURES_ARRAY egress) as (r & -> & Hin)%list_elem_of_fmap
        by (change (reset_hdl <$> STATIC_FEATURES_ARRAY egress) with [0; 1; 2; 3; 5; 5; 6];
            rewrite !elem_of_cons, elem_of_nil; lia).
      exists r. split; [|done]. by exists pipe. }
  split; [intros Hnr; apply Hn; tauto|]. intros Hr Hst'. apply Hz; [done|]. left. tauto.
Qed.

Lemma prepared_ready egress :
  registers_ready ((fun r => fst (prepare_feature r)) <$> STATIC_FEATURES_ARRAY egress).
Proof.
  split; [|done]. apply Forall_fmap, Forall_true. intros r. apply (to_wf _ _ _ (prepare_totals r)).
Qed.

Lemma read_features_spec_witness : exists s' f',
  read_features 100 (amake FEATURE_SIZE (-1)) (constant_switch 7)
    (Features ((fun r => fst (prepare_feature r)) <$> STATIC_FEATURES_ARRAY (fun _ => 0))
       (amake FEATURE_SIZE 0) (ringbuffer_init (static_ringbuffer PACKET_RINGBUFFER_SIZE (PKT_TIMEOUT_FLOW 0))))
    = Ok (s', f') /\ registers_ready (features f').
Proof.
  destruct (read_features_spec 100 (amake FEATURE_SIZE (-1)) (constant_switch 7)
    (Features ((fun r => fst (prepare_feature r)) <$> STATIC_FEATURES_ARRAY (fun _ => 0))
       (amake FEATURE_SIZE 0) (ringbuffer_init (static_ringbuffer PACKET_RINGBUFFER_SIZE (PKT_TIMEOUT_FLOW 0)))) [])
    as (s' & f' & count & count' & E & _ & Hready & _).
  - apply prepared_ready.
  - reflexivity.
  - reflexivity.
  - apply rb_rep_init; [apply ringbuffer_sizes|reflexivity].
  - exists s', f'. split; [exact E|exact Hready].
Defined.

(** *** Which flows time out *)

Lemma sent_or_full timeout egress dp last lfu room l i :
  i ∈ l -> expired timeout egress dp last lfu i = true ->
  i ∈ sent timeout egress dp last lfu room l \/
  length (sent timeout egress dp last lfu room l) = room.
Proof.
  intros Hi He. unfold sent. set (P := filter _ l).
  assert (i ∈ P) as HP by (apply list_elem_of_filter; split; [by rewrite He|done]).
  rewrite length_take. destruct (decide (room <= length P)%nat); [right; lia|].
  left. by rewrite take_ge by lia.
Qed.

Lemma length_timeouts egress l : length (timeouts egress l) = length l.
Proof. apply length_fmap. Qed.

Lemma elem_of_timeouts egress l i : i ∈ l -> PKT_TIMEOUT_FLOW (aget egress i) ∈ timeouts egress l.
Proof. intros. unfold timeouts. apply list_elem_of_fmap. by exists i. Qed.

(** No change of its packet counter for more than [FLOW_TIMEOUT] seconds since the
    session [i] was last seen. *)
Definition idle (tv_sec : Z) (egress dp last lfu : arr Z) (i : Z) : Prop :=
  aget dp i = aget last i /\ aget egress i <> -1 /\ aget lfu i <> 0 /\
  tv_sec - aget lfu i > FLOW_TIMEOUT.

Lemma expired_idle tv_sec egress dp last lfu i :
  FLOW_TIMEOUT <= tv_sec < 2 ^ 32 -> 0 <= aget lfu i ->
  expired (u32 (u32 tv_sec - FLOW_TIMEOUT)) egress dp last lfu i = true <->
  idle tv_sec egress dp last lfu i.
Proof.
  unfold FLOW_TIMEOUT. intros Ht Hl. rewrite (u32_small tv_sec), u32_small by lia.
  unfold expired, refreshed, idle, FLOW_TIMEOUT.
  destruct (Z.eqb_spec (aget dp i) (aget last i)); destruct (Z.eqb_spec (aget lfu i) 0);
    destruct (Z.eqb_spec (aget egress i) (-1)); destruct (Z.ltb_spec (aget lfu i) (tv_sec - 30));
    cbn; split; intros; try done; lia.
Qed.

(** Claim C20. The ageing pass times out exactly the idle sessions, once the machine
    is up for [FLOW_TIMEOUT] seconds: a timeout is queued, once, only for a session
    whose counter did not change for more than 30 seconds, every such session is
    queued unless the ring buffer is full, and one that did not fit stays idle and
    is queued by a later pass. *)
Theorem timeouts_are_the_idle_sessions tv_sec egress r lfu ring q :
  register_wf r -> alen egress = FEATURE_SIZE -> alen lfu = FEATURE_SIZE ->
  rb_rep PACKET_RINGBUFFER_SIZE ring q ->
  FLOW_TIMEOUT <= tv_sec < 2 ^ 32 -> (forall i, 0 <= aget lfu i) ->
  let idle := idle tv_sec egress (current r) (previous r) lfu in
  exists l v lfu' ring',
    process_and_age_feature tv_sec egress r lfu ring = Ok (set_values v r, lfu', ring') /\
    rb_rep PACKET_RINGBUFFER_SIZE ring' (q ++ timeouts egress l) /\ NoDup l /\
    (forall i, i ∈ l -> MIN_SESSION_ID <= i < FEATURE_SIZE /\ idle i /\ aget lfu' i = 0) /\
    (forall i, MIN_SESSION_ID <= i < FEATURE_SIZE -> idle i ->
       i ∈ l \/ (Z.of_nat (length (q ++ timeouts egress l)) = PACKET_RINGBUFFER_SIZE /\
                 aget lfu' i = aget lfu i)).
Proof.
  intros Hwf He Hl Hr Ht Hpos P. pose proof (rep_length _ _ _ Hr) as Hq.
  destruct (process_and_age_ok tv_sec egress r lfu ring q Hwf He Hl Hr) as (v & lfu' & ring' & E & _ & Ha & Hring).
  destruct Ha as [_ Ha].
  assert (forall i, refreshed egress (current r) (previous r) lfu i = true -> ~ P i) as Hnr.
  { intros i Hi Hp. apply expired_idle in Hp; [|done|done]. unfold expired in Hp. by rewrite Hi in Hp. }
  eexists _, v, lfu', ring'. split; [exact E|]. split; [exact Hring|]. split; [|split].
  - apply NoDup_sent, NoDup_feature_ids.
  - intros i Hi. pose proof (sent_subset _ _ _ _ _ _ _ _ Hi) as [Hin Hex].
    assert (P i) as Hp by (by apply expired_idle in Hex). split; [by apply elem_of_feature_ids|].
    split; [done|]. rewrite Ha, decide_True by done.
    destruct (refreshed _ _ _ _ i) eqn:Er; [by apply Hnr in Er|]. by rewrite decide_True.
  - intros i Hi%elem_of_feature_ids Hp. apply (expired_idle _ _ _ _ _ _ Ht (Hpos i)) in Hp as Hex.
    destruct (sent_or_full _ _ _ _ _ (Z.to_nat (PACKET_RINGBUFFER_SIZE - Z.of_nat (length q))) _ _ Hi Hex)
      as [?|Hfull]; [by left|].
    destruct (decide (i ∈ sent (u32 (u32 tv_sec - FLOW_TIMEOUT)) egress (current r) (previous r) lfu
                (Z.to_nat (PACKET_RINGBUFFER_SIZE - Z.of_nat (length q))) feature_ids)) as [?|Hn]; [by left|].
    right. split; [rewrite length_app, length_timeouts, Hfull; lia|].
    rewrite Ha, decide_True by done. destruct (refreshed _ _ _ _ i) eqn:Er; [by apply Hnr in Er|].
    by rewrite decide_False.
Qed.

(** While the monotonic clock is below [FLOW_TIMEOUT], [now - FLOW_TIMEOUT]
    wraps around and every session that was seen before and did not change in the
    last second is timed out (unless the ring buffer is full), however recently it
    was seen. *)
Theorem early_clock_times_out_recent_sessions tv_sec egress r lfu ring q i :
  register_wf r -> alen egress = FEATURE_SIZE -> alen lfu = FEATURE_SIZE ->
  rb_rep PACKET_RINGBUFFER_SIZE ring q ->
  0 <= tv_sec < FLOW_TIMEOUT -> MIN_SESSION_ID <= i < FEATURE_SIZE ->
  aget (current r) i = aget (previous r) i -> aget egress i <> -1 -> 0 < aget lfu i <= tv_sec ->
  exists r' lfu' ring' q', process_and_age_feature tv_sec egress r lfu ring = Ok (r', lfu', ring') /\
    rb_rep PACKET_RINGBUFFER_SIZE ring' q' /\
    (PKT_TIMEOUT_FLOW (aget egress i) ∈ q' \/ Z.of_nat (length q') = PACKET_RINGBUFFER_SIZE).
Proof.
  intros Hwf He Hl Hr Ht Hi Hsame Hsess Hseen. pose proof (rep_length _ _ _ Hr) as Hq.
  destruct (process_and_age_ok tv_sec egress r lfu ring q Hwf He Hl Hr) as (v & lfu' & ring' & E & _ & _ & Hring).
  eexists _, lfu', ring', _. split; [exact E|]. split; [exact Hring|].
  assert (expired (u32 (u32 tv_sec - FLOW_TIMEOUT)) egress (current r) (previous r) lfu i = true) as Hex.
  { unfold FLOW_TIMEOUT in *. rewrite (u32_small tv_sec) by lia.
    assert (u32 (tv_sec - 30) = tv_sec - 30 + 2 ^ 32) as ->.
    { unfold u32. replace (tv_sec - 30) with (tv_sec - 30 + 2 ^ 32 + (-1) * 2 ^ 32) at 1 by lia.
      rewrite Z.mod_add, Z.mod_small by lia. lia. }
    unfold expired, refreshed.
    destruct (Z.eqb_spec (aget (current r) i) (aget (previous r) i)); [|done].
    destruct (Z.eqb_spec (aget lfu i) 0); [lia|]. destruct (Z.eqb_spec (aget egress i) (-1)); [done|].
    cbn [negb orb andb]. destruct (Z.ltb_spec (aget lfu i) (tv_sec - 30 + 2 ^ 32)); [done|lia]. }
  apply elem_of_feature_ids in Hi.
  destruct (sent_or_full _ _ _ _ _ (Z.to_nat (PACKET_RINGBUFFER_SIZE - Z.of_nat (length q))) _ _ Hi Hex)
    as [Hin|Hfull].
  - left. apply elem_of_app. right. by apply elem_of_timeouts.
  - right. rewrite length_app, length_timeouts, Hfull. lia.
Qed.

Definition sample_count : feature_register_t :=
  fst (prepare_feature (static_register (fun _ => 0) PACKET_COUNT_REG PACKET_COUNT_REG PROCESS_AND_AGE_FEATURE)).
Lemma sample_count_wf : register_wf sample_count.
Proof. apply (to_wf _ _ _ (prepare_totals _)). Qed.

(** Session 8, on index 9, was seen in second 60; the pass runs in second 100. *)
Lemma timeouts_are_the_idle_sessions_witness :
  let egress := aset (amake FEATURE_SIZE (-1)) 9 8 in
  exists l v lfu' ring',
    process_and_age_feature 100 egress sample_count (aset (amake FEATURE_SIZE 0) 9 60) empty_packet_ring
      = Ok (set_values v sample_count, lfu', ring') /\
    rb_rep PACKET_RINGBUFFER_SIZE ring' ([] ++ timeouts egress l) /\ NoDup l.
Proof.
  destruct (timeouts_are_the_idle_sessions 100 (aset (amake FEATURE_SIZE (-1)) 9 8) sample_count
              (aset (amake FEATURE_SIZE 0) 9 60) empty_packet_ring [] sample_count_wf) as (l & v & lfu' & ring' & E & H1 & H2 & _).
  - reflexivity.
  - reflexivity.
  - exact empty_packet_ring_rep.
  - unfold FLOW_TIMEOUT. lia.
  - intros i. rewrite aget_aset, aget_amake. destruct (decide (9 = i)); lia.
  - exists l, v, lfu', ring'. split; [exact E|]. split; [exact H1|exact H2].
Defined.

(** Seen in second 9, timed out in second 10. *)
Lemma early_clock_times_out_recent_sessions_witness :
  let egress := aset (amake FEATURE_SIZE (-1)) 9 8 in
  exists r' lfu' ring' q',
    process_and_age_feature 10 egress sample_count (aset (amake FEATURE_SIZE 0) 9 9) empty_packet_ring
      = Ok (r', lfu', ring') /\ rb_rep PACKET_RINGBUFFER_SIZE ring' q' /\
    (PKT_TIMEOUT_FLOW (aget egress 9) ∈ q' \/ Z.of_nat (length q') = PACKET_RINGBUFFER_SIZE).
Proof.
  apply (early_clock_times_out_recent_sessions 10 (aset (amake FEATURE_SIZE (-1)) 9 8) sample_count
           (aset (amake FEATURE_SIZE 0) 9 9) empty_packet_ring [] 9 sample_count_wf).
  - reflexivity.
  - reflexivity.
  - exact empty_packet_ring_rep.
  - unfold FLOW_TIMEOUT. lia.
  - rewrite FEATURE_SIZE_val. unfold MIN_SESSION_ID. lia.
  - reflexivity.
  - discriminate.
  - vm_compute. split; congruence.
Defined.
