(* ===== verification/Dataplane.v ===== *)
(** * Data plane thread ([dataplane/dataplane.c])

    The thread that owns the connection to the switch: it executes the commands of
    the data plane ring buffer. The classification table is proved to hold exactly
    the flows that were added and not removed, through the handles cached in
    [entry_hdls]. *)

From S2P Require Import Prelude Structs Ringbuffer BloomFilter DpApi Features.

(** ** State and operations *)

(** The switch, the cached handles, the features whose totals the thread clears,
    and the local [status]. *)
Record dataplane_t (sw : Type) : Type := Dataplane {
  dp_switch : sw;
  entry_hdls : arr Z;
  dp_features : list feature_register_t;
  dp_status : Z }.
Arguments Dataplane {sw} _ _ _ _.
Arguments dp_switch {sw} _.
Arguments entry_hdls {sw} _.
Arguments dp_features {sw} _.
Arguments dp_status {sw} _.

(** [features[i]->values[session_id + on_egress * session_id_egress_offset] = 0] *)
Definition feature_index (r : feature_register_t) (ft : five_tuple_t) (session_id : Z) : Z :=
  session_id + on_egress r * session_id_egress_offset ft.
Definition clear_total (session_id : Z) (ft : five_tuple_t) (r : feature_register_t)
    : res feature_register_t :=
  let! v := wr (values r) (feature_index r ft session_id) 0 in
  Ok (set_values v r).

Fixpoint clear_totals (session_id : Z) (ft : five_tuple_t) (rs : list feature_register_t)
    : res (list feature_register_t) :=
  match rs with
  | [] => Ok []
  | r :: rs =>
      let! r := clear_total session_id ft r in
      let! rs := clear_totals session_id ft rs in
      Ok (r :: rs)
  end.

Section operations.
Context {sw : Type} `{Switch sw}.
Implicit Types (st : dataplane_t sw).

Definition clear_registers st (session_id : Z) (ft : five_tuple_t) : res (dataplane_t sw) :=
  let! rs := clear_totals session_id ft (dp_features st) in
  let! target := rd PIPES (flow_id_to_pipe session_id) in
  let '(_, s) := register_write (dp_switch st) LAST_TIMESTAMP target
                   (flow_id_to_register_index session_id) 0 in
  Ok (Dataplane s (entry_hdls st) rs (dp_status st)).

(** The [switch] of [dataplane_thread]. *)
Definition dataplane_command st (command : dataplane_command_t) : res (dataplane_t sw) :=
  match command with
  | DP_ADD_FLOW c =>
      let! old := rd (entry_hdls st) (mt_flow_id c) in
      let! '(status, hdl, s) := switch_add_classification_entry (dp_switch st) (mt_five_tuple c)
                                  (flow_id_to_register_index (mt_session_id c)) in
      let! hdls := wr (entry_hdls st) (mt_flow_id c) (default old hdl) in
      Ok (Dataplane s hdls (dp_features st) status)
  | DP_REMOVE_FLOW c =>
      let! hdl := rd (entry_hdls st) (mt_flow_id c) in
      let '(status, s) := switch_remove_classification_entry (dp_switch st) (mt_five_tuple c) hdl in
      Ok (Dataplane s (entry_hdls st) (dp_features st) status)
  | DP_CLEAR_REGISTERS c => clear_registers st (mt_session_id c) (mt_five_tuple c)
  | DP_ADD_BLOOM_FILTER c =>
      let! '(status, s) := switch_write_bloom_filter (dp_switch st) (pipe_id c)
                             (bloom_filter_indices c) 1 in
      Ok (Dataplane s (entry_hdls st) (dp_features st) status)
  | DP_REMOVE_BLOOM_FILTER _ => Ok st
  end.

(** The inner loop: until the ring buffer reports that it is empty. *)
Definition dataplane_drain st (ring : dp_ring) : res (dataplane_t sw * dp_ring) :=
  ring_drain DATAPLANE_RINGBUFFER_SIZE (fun command st => dataplane_command st command) st ring.
End operations.

Definition dataplane_init {sw} (s : sw) (rs : list feature_register_t) : dataplane_t sw :=
  Dataplane s (amake FEATURE_SIZE 0) rs 0.

(** ** Specification

    The flows that the commands leave installed: their tuple and register index,
    by flow id. *)
Notation flow_table := (gmap Z (five_tuple_t * Z)).

Definition table_command (A : flow_table) (command : dataplane_command_t) : flow_table :=
  match command with
  | DP_ADD_FLOW c =>
      <[mt_flow_id c := (mt_five_tuple c, flow_id_to_register_index (mt_session_id c))]> A
  | DP_REMOVE_FLOW c => delete (mt_flow_id c) A
  | _ => A
  end.
Definition table_commands (A : flow_table) (q : list dataplane_command_t) : flow_table :=
  foldl table_command A q.

Definition proto ft : Z := l3_proto (ft_h ft).
Definition pipe_of ft : Z := dev_port_to_pipe (dev_port ft).

(** The flows that share a classification table with [ft]. *)
Definition flows_like ft (A : flow_table) : flow_table :=
  filter (fun x => proto x.2.1 = proto ft /\ pipe_of x.2.1 = pipe_of ft) A.
(** None of the flows has the pipe and match specification of [ft]. *)
Definition unmatched ft (A : flow_table) : Prop :=
  forall id ft' reg, A !! id = Some (ft', reg) -> entry_key ft' <> entry_key ft.
Definition capacity `{TableSizes} ft : Z :=
  if decide (proto ft = L3_IPV4) then ipv4_usable else ipv6_usable.

(** What the flow database sends: an added id is new, of a supported protocol, no
    installed flow of its pipe has the same match specification, and its table has a
    usable entry left; a removed id is installed, with the same protocol; the
    other commands have their indices in range. [egress] lists [on_egress] of the
    features. *)
Definition command_valid `{TableSizes} (egress : list Z) (A : flow_table) (command : dataplane_command_t) : Prop :=
  match command with
  | DP_ADD_FLOW c =>
      A !! mt_flow_id c = None /\ 0 <= mt_flow_id c < FEATURE_SIZE /\
      proto_ok (mt_five_tuple c) /\ 0 <= dev_port (mt_five_tuple c) < MAX_DEV_PORT_ID /\
      unmatched (mt_five_tuple c) A /\
      Z.of_nat (size (flows_like (mt_five_tuple c) A)) < capacity (mt_five_tuple c)
  | DP_REMOVE_FLOW c =>
      exists ft reg, A !! mt_flow_id c = Some (ft, reg) /\ proto ft = proto (mt_five_tuple c)
  | DP_CLEAR_REGISTERS c =>
      0 <= mt_session_id c < FEATURE_SIZE /\
      Forall (fun e => 0 <= mt_session_id c + e * session_id_egress_offset (mt_five_tuple c) < FEATURE_SIZE)
        egress
  | DP_ADD_BLOOM_FILTER c =>
      0 <= pipe_id c < NUM_PIPES /\ Z.of_nat (length (bloom_filter_indices c)) = NUM_BLOOMFILTERS /\
      Forall (fun index => index < BLOOMFILTER_WIDTH) (bloom_filter_indices c)
  | DP_REMOVE_BLOOM_FILTER _ => True
  end.

Fixpoint commands_valid `{TableSizes} (egress : list Z) (A : flow_table) (q : list dataplane_command_t) : Prop :=
  match q with
  | [] => True
  | c :: q => command_valid egress A c /\ commands_valid egress (table_command A c) q
  end.

Section refinement.
Context {sw : Type} {switch : Switch sw} {sizes : TableSizes} {laws : SwitchLaws sw}.
Implicit Types (st : dataplane_t sw) (A : flow_table).

(** The tables of the switch hold an entry for each flow of [A], under the handle
    cached for its id, and no other entry. *)
Record table_ok st A : Prop := TableOk {
  tb_length : alen (entry_hdls st) = FEATURE_SIZE;
  tb_installed id ft reg : A !! id = Some (ft, reg) ->
    0 <= id < FEATURE_SIZE /\ proto_ok ft /\
    entry_at (view (dp_switch st)) (proto ft) (aget (entry_hdls st) id) = Some (entry_of ft reg);
  tb_only p h e : entry_at (view (dp_switch st)) p h = Some e ->
    exists id ft reg, A !! id = Some (ft, reg) /\ proto ft = p /\ aget (entry_hdls st) id = h;
  tb_distinct id1 id2 x1 x2 : A !! id1 = Some x1 -> A !! id2 = Some x2 ->
    proto x1.1 = proto x2.1 -> aget (entry_hdls st) id1 = aget (entry_hdls st) id2 -> id1 = id2 }.

Definition bits_ok st (bits : dp_bits) : Prop :=
  forall i p x, v_bloom (view (dp_switch st)) i p x = Z.b2z (bits p i x).

Definition features_ok (egress : list Z) st : Prop :=
  Forall register_wf (dp_features st) /\ on_egress <$> dp_features st = egress.

(** ** Proofs *)

#[local] Opaque FEATURE_SIZE.

Lemma size_le_image `{Countable K} {E F} (m : gmap Z E) (A : gmap K F) (f : K -> Z) :
  (forall h, is_Some (m !! h) -> exists id, is_Some (A !! id) /\ f id = h) ->
  (size m <= size A)%nat.
Proof using.
  intros Hm. rewrite <- (size_dom (D := gset Z) m), <- (size_dom (D := gset K) A).
  change (length (elements (dom (D := gset Z) m)) <= length (elements (dom (D := gset K) A)))%nat.
  rewrite <- (length_fmap f (elements (dom A))). apply submseteq_length, NoDup_submseteq.
  - apply NoDup_elements.
  - intros h Hh%elem_of_elements%elem_of_dom. destruct (Hm h Hh) as (id & Hid & <-).
    apply list_elem_of_fmap. exists id. split; [done|]. by apply elem_of_elements, elem_of_dom.
Qed.

Lemma table_room_ok st A ft :
  table_ok st A -> proto_ok ft -> unmatched ft A ->
  Z.of_nat (size (flows_like ft A)) < capacity ft ->
  table_room (view (dp_switch st)) ft.
Proof.
  intros Ht Hp Hun Hsz.
  assert (forall h register, entry_at (view (dp_switch st)) (proto ft) h <> Some (entry_of ft register)) as Hnm.
  { intros h register He. destruct (tb_only _ _ Ht _ _ _ He) as (id & ft' & reg & Hid & Hpr & Hh).
    destruct (tb_installed _ _ Ht _ _ _ Hid) as (_ & _ & He'). rewrite Hpr, Hh, He in He'.
    apply (Hun _ _ _ Hid). unfold entry_of in He'. congruence. }
  pose proof (matched_entry (view (dp_switch st)) ft) as Hm. unfold table_room, capacity, proto in *. cbv zeta.
  set (pipe := dev_port_to_pipe (dev_port ft)) in *.
  assert (forall h e, entry_at (view (dp_switch st)) (proto ft) h = Some e -> e.1.1 = pipe ->
            exists id, is_Some (flows_like ft A !! id) /\ aget (entry_hdls st) id = h) as Himg.
  { intros h e He Hpipe. destruct (tb_only _ _ Ht _ _ _ He) as (id & ft' & reg & Hid & Hpr & Hh).
    exists id. split; [|done]. exists (ft', reg). apply map_lookup_filter_Some_2; [done|]. cbn.
    split; [done|]. destruct (tb_installed _ _ Ht _ _ _ Hid) as (_ & _ & He').
    rewrite Hpr, Hh, He in He'. injection He' as ->. exact Hpipe. }
  unfold proto in Himg.
  destruct Hp as [Hp|Hp]; rewrite Hp in *.
  - rewrite decide_True in * by done.
    split; [|intros Hma; destruct (Hm Hma) as (h & register & He); by apply (Hnm h register)].
    eapply Z.le_lt_trans; [|exact Hsz]. apply inj_le.
    eapply (size_le_image _ _ (aget (entry_hdls st))). intros h [x [Hx Hpx]%map_lookup_filter_Some].
    apply (Himg h (tag4 x)); [|exact Hpx]. unfold entry_at. rewrite decide_True by done. by rewrite Hx.
  - rewrite decide_False in * by done.
    split; [|intros Hma; destruct (Hm (conj eq_refl Hma)) as (h & register & He); by apply (Hnm h register)].
    eapply Z.le_lt_trans; [|exact Hsz]. apply inj_le.
    eapply (size_le_image _ _ (aget (entry_hdls st))). intros h [x [Hx Hpx]%map_lookup_filter_Some].
    apply (Himg h (tag6 x)); [|exact Hpx]. unfold entry_at. rewrite decide_False, decide_True by done. by rewrite Hx.
Qed.

Lemma table_ok_same st st' A :
  entry_hdls st' = entry_hdls st ->
  (forall p h, entry_at (view (dp_switch st')) p h = entry_at (view (dp_switch st)) p h) ->
  table_ok st A -> table_ok st' A.
Proof.
  intros Eh Ev [H1 H2 H3 H4]. split; rewrite ?Eh; try done.
  - intros id ft reg Hid. rewrite Ev. by apply H2.
  - intros p h e He. rewrite Ev in He. by apply (H3 p h e).
Qed.

Lemma add_step st A c :
  table_ok st A -> command_valid [] A (DP_ADD_FLOW c) ->
  exists s hdls, dataplane_command st (DP_ADD_FLOW c) = Ok (Dataplane s hdls (dp_features st) SUCCESS) /\
    table_ok (Dataplane s hdls (dp_features st) SUCCESS) (table_command A (DP_ADD_FLOW c)) /\
    same_rest (view (dp_switch st)) (view s).
Proof.
  intros Ht (Hnew & Hid & Hp & Hd & Hun & Hsz). destruct c as [ft id sid].
  cbn in Hnew, Hid, Hp, Hd, Hun, Hsz.
  set (reg := flow_id_to_register_index sid).
  pose proof (table_room_ok st A ft Ht Hp Hun Hsz) as Hroom.
  destruct (add_entry_ok (dp_switch st) ft reg Hp Hd Hroom) as (h & s & E & Hfree & Hview & Hrest).
  pose proof (tb_length _ _ Ht) as Hlen. cbn [dataplane_command mt_five_tuple mt_flow_id mt_session_id].
  rewrite rd_ok by lia. cbn [rbind]. unfold reg in E. rewrite E. cbn [rbind]. rewrite wr_ok by lia.
  cbn [rbind default from_option Datatypes.id]. do 2 eexists. split; [reflexivity|]. split; [|done].
  cbn [table_command mt_five_tuple mt_flow_id mt_session_id]. fold reg.
  assert (forall id' x, A !! id' = Some x -> id' <> id) as Hne by (intros id' x Hx ->; congruence).
  assert (forall id' x, A !! id' = Some x -> aget (aset (entry_hdls st) id h) id' = aget (entry_hdls st) id') as Hold
    by (intros id' x Hx; apply aget_aset_ne; intros ->; by apply (Hne id' x)).
  assert (forall id' x, A !! id' = Some x -> proto x.1 = proto ft -> aget (entry_hdls st) id' <> h) as Hneh.
  { intros id' [ft' reg'] Hx Hpr Eh. destruct (tb_installed _ _ Ht _ _ _ Hx) as (_ & _ & He).
    cbn in Hpr. rewrite Eh, Hpr in He. unfold proto in He. congruence. }
  split; cbn [dp_switch entry_hdls].
  - done.
  - intros id' ft' reg' [[<- [= <- <-]]|[Hni Hx]]%lookup_insert_Some.
    + split; [done|]. split; [done|]. rewrite Hview, aget_aset_eq. by rewrite decide_True.
    + destruct (tb_installed _ _ Ht _ _ _ Hx) as (? & ? & He). split; [done|]. split; [done|].
      rewrite (Hold _ _ Hx), Hview, decide_False; [done|]. intros [Hpr Eh]. by apply (Hneh _ _ Hx).
  - intros p h' e. rewrite Hview. case_decide as Hc.
    + destruct Hc as [-> ->]. intros _. exists id, ft, reg. rewrite lookup_insert_eq, aget_aset_eq. done.
    + intros He. destruct (tb_only _ _ Ht _ _ _ He) as (id' & ft' & reg' & Hx & Hpr & Eh).
      exists id', ft', reg'. rewrite lookup_insert_ne by (intros ->; congruence).
      by rewrite (Hold _ _ Hx).
  - intros id1 id2 x1 x2 [[<- [= <-]]|[Hn1 Hx1]]%lookup_insert_Some [[<- [= <-]]|[Hn2 Hx2]]%lookup_insert_Some Hpr.
    + done.
    + rewrite aget_aset_eq, (Hold _ _ Hx2). intros Eh. by destruct (Hneh _ _ Hx2).
    + rewrite aget_aset_eq, (Hold _ _ Hx1). intros Eh. by destruct (Hneh _ _ Hx1).
    + rewrite (Hold _ _ Hx1), (Hold _ _ Hx2). by apply (tb_distinct _ _ Ht id1 id2 x1 x2).
Qed.

Lemma remove_step st A c :
  table_ok st A -> command_valid [] A (DP_REMOVE_FLOW c) ->
  exists s, dataplane_command st (DP_REMOVE_FLOW c) =
      Ok (Dataplane s (entry_hdls st) (dp_features st) SUCCESS) /\
    table_ok (Dataplane s (entry_hdls st) (dp_features st) SUCCESS) (table_command A (DP_REMOVE_FLOW c)) /\
    same_rest (view (dp_switch st)) (view s).
Proof.
  intros Ht (ft & reg & Hx & Hpr). destruct c as [ft' id sid]. cbn in Hx, Hpr.
  destruct (tb_installed _ _ Ht _ _ _ Hx) as (Hid & Hp & He). pose proof (tb_length _ _ Ht) as Hlen.
  assert (proto_ok ft') as Hp' by (unfold proto_ok, proto in *; by rewrite <- Hpr).
  set (h := aget (entry_hdls st) id) in *. rewrite Hpr in He.
  destruct (remove_entry_ok (dp_switch st) ft' h Hp') as (s & E & Hview & Hrest); [by exists (entry_of ft reg)|].
  cbn [dataplane_command mt_five_tuple mt_flow_id]. rewrite rd_ok by lia. cbn [rbind]. fold h. rewrite E.
  eexists. split; [reflexivity|]. split; [|done]. cbn [table_command mt_flow_id].
  split; cbn [dp_switch entry_hdls].
  - done.
  - intros id2 ft2 reg2 [Hne Hx2]%lookup_delete_Some.
    destruct (tb_installed _ _ Ht _ _ _ Hx2) as (? & ? & He2). split; [done|]. split; [done|].
    rewrite Hview, decide_False; [done|]. intros [Hpr2 Eh]. apply Hne.
    apply (tb_distinct _ _ Ht id id2 (ft, reg) (ft2, reg2) Hx Hx2); [|by rewrite Eh].
    cbn. rewrite Hpr. by unfold proto in *.
  - intros p h' e. rewrite Hview. case_decide as Hc; [done|]. intros He2.
    destruct (tb_only _ _ Ht _ _ _ He2) as (id2 & ft2 & reg2 & Hx2 & Hpr2 & Eh).
    exists id2, ft2, reg2. split; [|done]. apply lookup_delete_Some. split; [|done]. intros <-.
    apply Hc. rewrite Hx in Hx2. injection Hx2 as <- <-. split; [|done]. by unfold proto in *; congruence.
  - intros id1 id2 x1 x2 [_ Hx1]%lookup_delete_Some [_ Hx2]%lookup_delete_Some.
    by apply (tb_distinct _ _ Ht).
Qed.

(** [rs'] is [rs] with the totals of the session cleared. *)
Definition cleared (session_id : Z) ft (r r' : feature_register_t) : Prop :=
  exists v, r' = set_values v r /\ alen v = FEATURE_SIZE /\
    forall i, aget v i = if decide (i = feature_index r ft session_id) then 0 else aget (values r) i.

Lemma clear_totals_ok session_id ft rs :
  Forall register_wf rs ->
  Forall (fun e => 0 <= session_id + e * session_id_egress_offset ft < FEATURE_SIZE) (on_egress <$> rs) ->
  exists rs', clear_totals session_id ft rs = Ok rs' /\ Forall2 (cleared session_id ft) rs rs'.
Proof using.
  induction 1 as [|r rs Hr _ IH]; intros Hi; cbn [clear_totals]; [by exists []|].
  rewrite fmap_cons in Hi. apply Forall_cons in Hi as [Hb Hi]. destruct (IH Hi) as (rs' & E & Hf).
  unfold clear_total. pose proof (rw_values _ Hr). unfold feature_index.
  rewrite wr_ok by lia. cbn [rbind]. rewrite E. cbn [rbind]. eexists. split; [reflexivity|].
  constructor; [|done]. eexists. split; [reflexivity|]. split; [done|]. intros i.
  rewrite aget_aset. unfold feature_index. apply decide_ext. lia.
Qed.

Lemma cleared_features session_id ft egress rs rs' :
  Forall register_wf rs -> on_egress <$> rs = egress -> Forall2 (cleared session_id ft) rs rs' ->
  Forall register_wf rs' /\ on_egress <$> rs' = egress.
Proof using.
  intros Hwf <- Hf. induction Hf as [|r r' rs rs' (v & -> & Hl & _) _ IH]; [done|].
  apply Forall_cons in Hwf as [Hr Hwf]. destruct (IH Hwf) as [IH1 IH2].
  split; [constructor; [by apply set_values_wf|done]|]. by rewrite !fmap_cons, IH2.
Qed.

(** What a command of the queue does to the registers of [features.c]. *)
Definition command_registers (c : option dataplane_command_t) (rs rs' : list feature_register_t) : Prop :=
  match c with
  | Some (DP_CLEAR_REGISTERS c) => Forall2 (cleared (mt_session_id c) (mt_five_tuple c)) rs rs'
  | _ => rs' = rs
  end.

Lemma clear_totals_cleared session_id ft rs rs' :
  Forall register_wf rs -> clear_totals session_id ft rs = Ok rs' -> Forall2 (cleared session_id ft) rs rs'.
Proof using.
  intros Hwf. revert rs'. induction Hwf as [|r rs Hr _ IH]; cbn [clear_totals]; intros rs'; [by intros [= <-]|].
  intros (r' & (v & [_ ->]%wr_inv & [= <-])%rbind_Ok & (rs1 & E & [= <-])%rbind_Ok)%rbind_Ok.
  constructor; [|by apply IH]. eexists. split; [reflexivity|]. split; [exact (rw_values _ Hr)|].
  intros i. rewrite aget_aset. apply decide_ext. lia.
Qed.

Lemma dataplane_command_registers st c st' :
  Forall register_wf (dp_features st) -> dataplane_command st c = Ok st' ->
  command_registers (Some c) (dp_features st) (dp_features st').
Proof using.
  intros Hwf. destruct c as [c|c|c|c|c]; cbn [dataplane_command command_registers].
  - intros (old & _ & ([[status hdl] s] & _ & (hdls & _ & [= <-])%rbind_Ok)%rbind_Ok)%rbind_Ok. done.
  - intros (hdl & _ & E)%rbind_Ok. destruct (switch_remove_classification_entry _ _ _). by injection E as <-.
  - unfold clear_registers. intros (rs & E & (target & _ & E')%rbind_Ok)%rbind_Ok.
    destruct (register_write _ _ _ _ _). injection E' as <-. by apply clear_totals_cleared.
  - intros ([status s] & _ & [= <-])%rbind_Ok. done.
  - by intros [= <-].
Qed.

(** No command changes how a register is processed. *)
Lemma command_registers_process c rs rs' :
  command_registers c rs rs' -> process_register <$> rs' = process_register <$> rs.
Proof using.
  destruct c as [[]|]; cbn [command_registers]; try by intros ->.
  induction 1 as [|r r' rs rs' (v & -> & _) _ IH]; [done|]. by rewrite !fmap_cons, IH.
Qed.

(** One command, on every part of the state. *)
Lemma command_step egress st A bits c :
  table_ok st A -> bits_ok st bits -> features_ok egress st -> command_valid egress A c ->
  exists st', dataplane_command st c = Ok st' /\ table_ok st' (table_command A c) /\
    bits_ok st' (apply_bloom_command bits c) /\ features_ok egress st' /\
    (dp_status st = SUCCESS -> dp_status st' = SUCCESS).
Proof.
  intros Ht Hb Hf Hc. destruct c as [c|c|c|c|c].
  - destruct (add_step st A c Ht Hc) as (s & hdls & E & Ht' & Hr & _).
    eexists. split; [exact E|]. split; [exact Ht'|]. split; [|done]. intros i p x. cbn. rewrite Hr. apply Hb.
  - destruct (remove_step st A c Ht Hc) as (s & E & Ht' & Hr & _).
    eexists. split; [exact E|]. split; [exact Ht'|]. split; [|done]. intros i p x. cbn. rewrite Hr. apply Hb.
  - destruct Hc as [Hs He]. destruct Hf as [Hwf Eeg]. rewrite <- Eeg in He.
    destruct (clear_totals_ok _ _ _ Hwf He) as (rs' & E & Hcl).
    destruct (flow_id_decompose (mt_session_id c) (proj1 Hs)) as [_ Hp].
    cbn [dataplane_command]. unfold clear_registers. rewrite E, rd_PIPES by done. cbn [rbind].
    destruct (register_write_law (dp_switch st) LAST_TIMESTAMP (flow_id_to_pipe (mt_session_id c))
                (flow_id_to_register_index (mt_session_id c)) 0) as [(rg & sy & Hv & _) _].
    destruct (register_write _ _ _ _ _) as [w s]. cbn [snd] in Hv.
    eexists. split; [reflexivity|]. split; [|split; [|split; [by eapply cleared_features|done]]].
    + apply (table_ok_same st); [done| |done]. intros p h. cbn [dp_switch]. rewrite Hv.
      by destruct (view (dp_switch st)).
    + intros i p x. cbn [dp_switch apply_bloom_command]. rewrite Hv. apply Hb.
  - destruct Hc as (Hp & Hl & Hw).
    destruct (write_bloom_ok (dp_switch st) (pipe_id c) (bloom_filter_indices c) 1 Hp Hl Hw)
      as (s & E & b & Hv & Hbits).
    cbn [dataplane_command]. rewrite E. cbn [rbind]. eexists. split; [reflexivity|].
    split; [|split; [|split; [exact Hf|done]]].
    + apply (table_ok_same st); [done| |done]. intros p h. cbn [dp_switch]. rewrite Hv.
      by destruct (view (dp_switch st)).
    + intros i p x. cbn [dp_switch]. rewrite Hv. cbn [v_bloom with_bloom]. rewrite Hbits.
      unfold write_bits. rewrite (Hb i p x). cbn [apply_bloom_command].
      assert (forall j y, bloom_filter_indices c !! Z.to_nat j = Some y -> 0 <= j -> j < NUM_BLOOMFILTERS) as Hlt
        by (intros j y Hj%lookup_lt_Some Hj0; lia).
      case_decide as Hd.
      * destruct Hd as (-> & Hi & Hx & Hl'). rewrite (bool_decide_true (pipe_id c = pipe_id c)) by done.
        rewrite (bool_decide_true (0 <= x)), bool_decide_true by (done || (split; [lia|done])).
        by rewrite orb_true_r.
      * assert (bool_decide (p = pipe_id c) && bool_decide (0 <= x) &&
                bool_decide (0 <= i /\ bloom_filter_indices c !! Z.to_nat i = Some x) = false) as ->;
          [|by rewrite orb_false_r].
        apply not_true_is_false. intros [[?%bool_decide_eq_true ?%bool_decide_eq_true]%andb_true_iff
          [? ?]%bool_decide_eq_true]%andb_true_iff. apply Hd. eauto 6.
  - by exists st.
Qed.

Lemma commands_run egress q : forall st A bits,
  table_ok st A -> bits_ok st bits -> features_ok egress st -> commands_valid egress A q ->
  exists st', foldM (fun c st => dataplane_command st c) q st = Ok st' /\
    table_ok st' (table_commands A q) /\ bits_ok st' (apply_bloom_commands q bits) /\
    features_ok egress st' /\ (dp_status st = SUCCESS -> dp_status st' = SUCCESS).
Proof.
  induction q as [|c q IH]; intros st A bits Ht Hb Hf Hc; cbn [foldM]; [by exists st|].
  destruct Hc as [Hc Hq].
  destruct (command_step egress st A bits c Ht Hb Hf Hc) as (st1 & -> & Ht1 & Hb1 & Hf1 & Hs1).
  cbn [rbind]. destruct (IH st1 _ _ Ht1 Hb1 Hf1 Hq) as (st' & E & H1 & H2 & H3 & H4).
  exists st'. split; [exact E|]. split; [exact H1|]. split; [exact H2|]. split; [exact H3|auto].
Qed.

(** The loop empties the ring buffer and executes its queue. *)
Lemma dataplane_drain_ok q st ring st' :
  rb_rep DATAPLANE_RINGBUFFER_SIZE ring q ->
  foldM (fun c st => dataplane_command st c) q st = Ok st' ->
  exists ring', dataplane_drain st ring = Ok (st', ring') /\ rb_rep DATAPLANE_RINGBUFFER_SIZE ring' [].
Proof. apply ring_drain_ok, dp_ring_size. Qed.
End refinement.

(** ** Properties *)

(** Claim C15. The data plane thread started on a switch with empty classification
    tables executes every queue of valid commands without an error or an access out
    of bounds and empties it. Valid means: at every addition the id is new, the pipe
    has no entry with the same match specification, and a usable entry is left (what
    happens otherwise is [removal_after_failed_add_deletes_other_flow]); a removed id
    is installed; indices are in range. Afterwards the tables hold exactly one entry, in the
    pipe of its port and with the register index of its session, for each flow that
    was added and not removed since, the cached handles are theirs, and the Bloom
    filter bits are those that the queued commands set. *)
Theorem dataplane_installs_flows {sw} `{SwitchLaws sw} (s : sw) rs egress ring q bits :
  v_ipv4 (view s) = ∅ -> v_ipv6 (view s) = ∅ ->
  Forall register_wf rs -> on_egress <$> rs = egress ->
  bits_ok (dataplane_init s rs) bits ->
  rb_rep DATAPLANE_RINGBUFFER_SIZE ring q -> commands_valid egress ∅ q ->
  exists st ring', dataplane_drain (dataplane_init s rs) ring = Ok (st, ring') /\
    rb_rep DATAPLANE_RINGBUFFER_SIZE ring' [] /\ dp_status st = SUCCESS /\
    table_ok st (table_commands ∅ q) /\ bits_ok st (apply_bloom_commands q bits) /\
    features_ok egress st.
Proof.
  intros H4 H6 Hwf He Hb Hr Hq.
  assert (table_ok (dataplane_init s rs) ∅) as Ht.
  { split; [done|done| |done]. intros p h e. cbn [dataplane_init dp_switch]. unfold entry_at. rewrite H4, H6, !lookup_empty.
    by repeat case_decide. }
  destruct (commands_run egress q (dataplane_init s rs) ∅ bits Ht Hb) as (st & E & K1 & K2 & K3 & K5);
    [by split|done|].
  destruct (dataplane_drain_ok _ _ _ _ Hr E) as (ring' & Ed & Hr'). exists st, ring'. auto 7.
Qed.

(** Two flows of one pipe that differ in the port of the client; the first is removed
    and added again under another id. *)
Definition client_tuple (src : Z) : five_tuple_t :=
  FiveTuple (FiveTupleForHash 0x0A000001 0x0A000002 src 443 L3_IPV4 L4_TCP) zero_sh 7 5 0.
Definition sample_queue : list dataplane_command_t :=
  [ DP_ADD_FLOW (MatchTableCmd (client_tuple 1234) 8 12);
    DP_ADD_FLOW (MatchTableCmd (client_tuple 1235) 12 16);
    DP_REMOVE_FLOW (MatchTableCmd (client_tuple 1234) 8 12);
    DP_ADD_FLOW (MatchTableCmd (client_tuple 1234) 16 20) ].

Definition other_client (src : Z) (x : five_tuple_t * Z) : Prop :=
  src_port (ft_h x.1) <> src /\ l3_proto (ft_h x.1) = L3_IPV4.

Lemma client_unmatched src A :
  map_Forall (fun _ => other_client src) A -> unmatched (client_tuple src) A.
Proof.
  intros HA id ft reg Hx E. destruct (HA _ _ Hx) as [Hs Hp]. cbn [fst] in Hs, Hp. unfold entry_key in E.
  rewrite !decide_True in E by done. apply (f_equal snd) in E. cbn [snd] in E.
  injection E as _ _ E _. by apply Hs.
Qed.

Lemma client_add_valid egress A src id sid :
  A !! id = None -> 0 <= id < FEATURE_SIZE -> map_Forall (fun _ => other_client src) A -> (size A <= 2)%nat ->
  command_valid egress A (DP_ADD_FLOW (MatchTableCmd (client_tuple src) id sid)).
Proof.
  intros Hn Hid Ho Hs. cbn [command_valid mt_flow_id mt_five_tuple]. split; [done|]. split; [done|].
  split; [by left|]. split; [vm_compute; split; congruence|]. split; [by apply client_unmatched|].
  change (capacity (client_tuple src)) with 86014.
  assert (size (flows_like (client_tuple src) A) <= size A)%nat; [|lia].
  by apply map_subseteq_size, map_filter_subseteq.
Qed.

Lemma sample_queue_valid : commands_valid [0] ∅ sample_queue.
Proof.
  assert (forall src s' reg, s' <> src -> other_client src (client_tuple s', reg)) as Hother by done.
  assert (forall id, 0 <= id < 100 -> 0 <= id < FEATURE_SIZE) as Hid
    by (intros; rewrite FEATURE_SIZE_val; lia).
  cbn [commands_valid sample_queue].
  split; [|split; [|split; [|split; [|done]]]].
  - apply client_add_valid; [done|by apply Hid|apply map_Forall_empty|apply Nat.leb_le; reflexivity].
  - apply client_add_valid; [done|by apply Hid| |apply Nat.leb_le; reflexivity].
    apply map_Forall_insert_2; [by apply Hother|apply map_Forall_empty].
  - do 2 eexists. by split.
  - apply client_add_valid; [done|by apply Hid| |apply Nat.leb_le; reflexivity].
    cbn [table_command mt_flow_id mt_five_tuple mt_session_id].
    rewrite delete_insert_ne, delete_insert_eq, delete_empty by done.
    apply map_Forall_insert_2; [by apply Hother|apply map_Forall_empty].
Qed.

Lemma sample_queue_installed :
  table_commands ∅ sample_queue = {[12 := (client_tuple 1235, 4); 16 := (client_tuple 1234, 5)]}.
Proof. by vm_compute. Qed.

Lemma dataplane_installs_flows_witness : exists ring st ring',
  rb_rep DATAPLANE_RINGBUFFER_SIZE ring sample_queue /\
  dataplane_drain (dataplane_init (constant_switch 0) [sample_count]) ring = Ok (st, ring') /\
  table_ok st {[12 := (client_tuple 1235, 4); 16 := (client_tuple 1234, 5)]}.
Proof.
  destruct (put_rep DATAPLANE_RINGBUFFER_SIZE dp_ring_size _ _ (DP_ADD_FLOW (MatchTableCmd (client_tuple 1234) 8 12)) empty_dp_ring_rep) as (r1 & _ & Hr1).
  destruct (put_rep DATAPLANE_RINGBUFFER_SIZE dp_ring_size _ _ (DP_ADD_FLOW (MatchTableCmd (client_tuple 1235) 12 16)) Hr1) as (r2 & _ & Hr2).
  destruct (put_rep DATAPLANE_RINGBUFFER_SIZE dp_ring_size _ _ (DP_REMOVE_FLOW (MatchTableCmd (client_tuple 1234) 8 12)) Hr2) as (r3 & _ & Hr3).
  destruct (put_rep DATAPLANE_RINGBUFFER_SIZE dp_ring_size _ _ (DP_ADD_FLOW (MatchTableCmd (client_tuple 1234) 16 20)) Hr3) as (r4 & _ & Hr4).
  destruct (dataplane_installs_flows (constant_switch 0) [sample_count] [0] r4 sample_queue (fun _ _ _ => false))
    as (st & ring' & E & _ & _ & Ht & _).
  - reflexivity.
  - reflexivity.
  - constructor; [exact sample_count_wf|constructor].
  - reflexivity.
  - intros i p x. reflexivity.
  - exact Hr4.
  - exact sample_queue_valid.
  - exists r4, st, ring'. split; [exact Hr4|]. split; [exact E|].
    rewrite <- sample_queue_installed. exact Ht.
Defined.

(** [DP_CLEAR_REGISTERS] zeroes in each feature the total of the session,
    at its own index on ingress or shifted by the egress offset on egress, and, when
    the switch accepts the write, the last timestamp of the session's register in its
    pipe; every other total, the other registers and the tables stay as they are. *)
Theorem clear_registers_spec {sw} `{SwitchLaws sw} (st : dataplane_t sw) c :
  Forall register_wf (dp_features st) ->
  command_valid (on_egress <$> dp_features st) ∅ (DP_CLEAR_REGISTERS c) ->
  exists st', dataplane_command st (DP_CLEAR_REGISTERS c) = Ok st' /\
    Forall2 (cleared (mt_session_id c) (mt_five_tuple c)) (dp_features st) (dp_features st') /\
    (let pipe := flow_id_to_pipe (mt_session_id c) in
     let index := flow_id_to_register_index (mt_session_id c) in
     registers_changed (fun r p i => r = LAST_TIMESTAMP /\ p = pipe /\ i = index)
       (view (dp_switch st)) (view (dp_switch st')) /\
     ((register_write (dp_switch st) LAST_TIMESTAMP pipe index 0).1 = 0 ->
      v_regs (view (dp_switch st')) LAST_TIMESTAMP pipe index = 0)) /\
    entry_hdls st' = entry_hdls st.
Proof.
  intros Hwf [Hs He]. cbn [dataplane_command]. unfold clear_registers.
  destruct (clear_totals_ok _ _ _ Hwf He) as (rs' & -> & Hcl).
  destruct (flow_id_decompose (mt_session_id c) (proj1 Hs)) as [_ Hp].
  rewrite rd_PIPES by done. cbn [rbind].
  pose proof (register_write_law (dp_switch st) LAST_TIMESTAMP (flow_id_to_pipe (mt_session_id c))
                (flow_id_to_register_index (mt_session_id c)) 0) as Hv.
  destruct (register_write _ _ _ _ _) as [w s]. cbn [fst snd] in Hv. eexists. split; [reflexivity|].
  split; [exact Hcl|]. split; [exact Hv|done].
Qed.

Lemma clear_registers_spec_witness : exists st',
  dataplane_command (dataplane_init (constant_switch 5) [sample_count])
    (DP_CLEAR_REGISTERS (MatchTableCmd (sample_tuple 5) 0 12)) = Ok st' /\
  v_regs (view (dp_switch st')) LAST_TIMESTAMP 0 3 = 0.
Proof.
  destruct (clear_registers_spec (dataplane_init (constant_switch 5) [sample_count])
              (MatchTableCmd (sample_tuple 5) 0 12)) as (st' & E & _ & [_ Hv] & _).
  - constructor; [exact sample_count_wf|constructor].
  - split; [vm_compute; split; congruence|]. constructor; [vm_compute; split; congruence|constructor].
  - exists st'. split; [exact E|]. apply Hv. reflexivity.
Defined.

(** When the classification table is full, or holds an entry with the same match
    specification, an addition fails without
    writing the handle of the flow, but nobody learns that: when the flow is removed
    later, the stale handle (0 at first) is used, and the entry of the other flow
    that has this handle is deleted from the switch. *)
Theorem removal_after_failed_add_deletes_other_flow {sw} `{SwitchLaws sw} (st : dataplane_t sw) c ft reg other :
  alen (entry_hdls st) = FEATURE_SIZE -> 0 <= mt_flow_id c < FEATURE_SIZE ->
  proto_ok (mt_five_tuple c) -> 0 <= dev_port (mt_five_tuple c) < MAX_DEV_PORT_ID ->
  table_refuses (view (dp_switch st)) (mt_five_tuple c) ->
  proto ft = proto (mt_five_tuple c) ->
  aget (entry_hdls st) (mt_flow_id c) = aget (entry_hdls st) other ->
  entry_at (view (dp_switch st)) (proto ft) (aget (entry_hdls st) other) = Some (entry_of ft reg) ->
  exists st1 st2, dataplane_command st (DP_ADD_FLOW c) = Ok st1 /\ dp_status st1 = ERR_SWITCH /\
    dataplane_command st1 (DP_REMOVE_FLOW c) = Ok st2 /\ dp_status st2 = SUCCESS /\
    entry_at (view (dp_switch st2)) (proto ft) (aget (entry_hdls st2) other) = None.
Proof.
  intros Hl Hid Hp Hd Hfull Hpr Hh He. cbn [dataplane_command].
  destruct (add_entry_refused (dp_switch st) (mt_five_tuple c) (flow_id_to_register_index (mt_session_id c)) Hp Hd Hfull)
    as (s1 & E1 & Hv1).
  destruct (remove_entry_ok s1 (mt_five_tuple c) (aget (entry_hdls st) other) Hp) as (s2 & E2 & Hv2 & _).
  { rewrite Hv1. unfold proto in *. rewrite <- Hpr. by exists (entry_of ft reg). }
  rewrite rd_ok by lia. cbn [rbind]. rewrite E1. cbn [rbind default from_option]. rewrite wr_ok by lia.
  cbn [rbind]. do 2 eexists. split; [reflexivity|]. split; [done|].
  cbn [entry_hdls dp_switch dp_features]. rewrite rd_ok by (cbn; lia). cbn [rbind].
  rewrite aget_aset_eq, Hh, E2.
  split; [reflexivity|]. split; [done|]. cbn [dp_switch entry_hdls]. rewrite Hv2. rewrite decide_True; [done|].
  split; [done|]. rewrite aget_aset. by case_decide.
Qed.

(** A table with [n] equal entries. *)
Definition filled_table {S} (e : Z * S * Z) (n : Z) : gmap Z (Z * S * Z) :=
  list_to_map ((fun h => (h, e)) <$> seqZ 0 n).

Lemma filled_table_keys {S} (e : Z * S * Z) n : ((fun h => (h, e)) <$> seqZ 0 n).*1 = seqZ 0 n.
Proof. rewrite <- list_fmap_compose. apply list_fmap_id. Qed.

Lemma filled_table_lookup {S} (e : Z * S * Z) n h : 0 <= h < n -> filled_table e n !! h = Some e.
Proof.
  intros Hh. apply elem_of_list_to_map_1.
  - rewrite filled_table_keys. apply NoDup_seqZ.
  - apply list_elem_of_fmap. exists h. split; [done|]. by apply elem_of_seqZ0.
Qed.

Lemma filled_table_size {S} (e : Z * S * Z) n :
  0 <= n -> n <= Z.of_nat (size (pipe_entries e.1.1 (filled_table e n))).
Proof.
  intros Hn. transitivity (Z.of_nat (length (seqZ 0 n))); [rewrite length_seqZ; lia|].
  rewrite <- (size_dom (D := gset Z)). apply inj_le.
  change (length (seqZ 0 n) <= length (elements (dom (D := gset Z) (pipe_entries e.1.1 (filled_table e n)))))%nat.
  apply submseteq_length, NoDup_submseteq; [apply NoDup_seqZ|].
  intros h Hh%elem_of_seqZ0. apply elem_of_elements, elem_of_dom. exists e.
  by apply map_lookup_filter_Some_2; [apply filled_table_lookup|].
Qed.

(** 32768 IPv6 flows fill the table of pipe 0; the first of them has handle 0. *)
Definition sample_tuple6 : five_tuple_t :=
  FiveTuple (FiveTupleForHash 1 2 1234 443 L3_IPV6 L4_TCP) zero_sh 7 5 0.
Definition full_view (n : Z) : switch_view :=
  SwitchView ∅ (filled_table (0, ipv6_spec sample_tuple6, 2) n) (fun _ _ _ => 0) (fun _ _ _ => 0)
    (fun _ _ _ => 0).
Definition full_switch : model_sw := (full_view MAX_IP6_FLOWS, false).

Lemma full_view_refuses n ft :
  MAX_IP6_FLOWS <= n -> proto ft = L3_IPV6 -> dev_port_to_pipe (dev_port ft) = 0 ->
  table_refuses (full_view n) ft.
Proof.
  intros Hn Hp Hd. unfold table_refuses, proto in *. rewrite Hp, Hd. rewrite decide_False by done. left.
  cbn [v_ipv6 full_view]. pose proof (filled_table_size (0, ipv6_spec sample_tuple6, 2) n) as Hs.
  cbn [fst] in Hs. unfold MAX_IP6_FLOWS in *. lia.
Qed.

Lemma full_view_entry n :
  0 < n -> entry_at (full_view n) L3_IPV6 0 = Some (entry_of sample_tuple6 2).
Proof.
  intros Hn. unfold entry_at. rewrite decide_False, decide_True by done.
  cbn [v_ipv6 full_view]. by rewrite filled_table_lookup by lia.
Qed.

Lemma removal_after_failed_add_deletes_other_flow_witness : exists st1 st2,
  dataplane_command (dataplane_init full_switch []) (DP_ADD_FLOW (MatchTableCmd sample_tuple6 40 44)) = Ok st1 /\
  dataplane_command st1 (DP_REMOVE_FLOW (MatchTableCmd sample_tuple6 40 44)) = Ok st2 /\
  entry_at (view (dp_switch st2)) L3_IPV6 (aget (entry_hdls st2) 8) = None.
Proof.
  destruct (removal_after_failed_add_deletes_other_flow (dataplane_init full_switch [])
              (MatchTableCmd sample_tuple6 40 44) sample_tuple6 2 8) as (st1 & st2 & E1 & _ & E2 & _ & He).
  - reflexivity.
  - vm_compute. split; congruence.
  - right. reflexivity.
  - vm_compute. split; congruence.
  - apply full_view_refuses; [discriminate|reflexivity|reflexivity].
  - reflexivity.
  - reflexivity.
  - apply full_view_entry. reflexivity.
  - exists st1, st2. split; [exact E1|]. split; [exact E2|exact He].
Defined.
