(* ===== verification/PacketHandler.v ===== *)
(** * Packet handler ([packet_handler/packet_handler.c])

    The callback of the capture loop: it parses the Ethernet, IP and TCP/UDP
    headers of a packet into a five tuple and sends the commands for it to the flow
    database, or the DNS packet to the DNS database. A packet is the list of its
    captured bytes ([caplen] is its length) and a read outside of it is undefined
    behaviour; the two hash tables are read only here. *)

From S2P Require Import Prelude Structs Ringbuffer IdTable FlowTable DnsTable.

(** ** Data *)

Definition MAX_PKT_LEN : Z := 2048.
Definition MAX_DNS_PKT_LEN : Z := 2048.
Definition ETHERTYPE_IPV4_BE : Z := 0x0008.
Definition ETHERTYPE_IPV6_BE : Z := 0xdd86.

(** Constants and header sizes of the system headers. *)
Definition IPPROTO_TCP : Z := 6.
Definition IPPROTO_UDP : Z := 17.
Definition TH_FIN : Z := 1.
Definition TH_SYN : Z := 2.
Definition NS_HFIXEDSZ : Z := 12.
Definition ether_header_size : Z := 14.
Definition iphdr_size : Z := 20.
Definition ip6_hdr_size : Z := 40.
Definition tcphdr_size : Z := 20.
Definition udphdr_size : Z := 8.

(** [dns_item_t]: the command and the member of the union that it uses. *)
Inductive dns_item_t : Type :=
  | DNS_ADD_PKT (len : Z) (pkt : list Z)
  | DNS_REMOVE_IP (address : dns_hashtable_key_t).

Notation dns_ring := (ringbuffer_t dns_item_t).

(** The ring buffers that the handler writes. *)
Record handler_t : Type := Handler {
  h_packets : packet_ring;
  h_dns : dns_ring }.

(** What the handler reads of the other threads, and the coarse monotonic clock. *)
Record handler_env : Type := HandlerEnv {
  env_flows : flow_hashtable_t;
  env_dns : dns_hashtable_t;
  now_sec : Z }.

(** ** Reads of the packet *)

Definition bytes_at (packet : list Z) (offset size : Z) : res (list Z) :=
  if (0 <=? offset) && (0 <=? size) && (offset + size <=? Z.of_nat (length packet))
  then Ok (take (Z.to_nat size) (drop (Z.to_nat offset) packet))
  else UB.
(** An integer of the machine's byte order. *)
Definition int_at (packet : list Z) (offset size : Z) : res Z :=
  let! bs := bytes_at packet offset size in Ok (le_value bs).

(** [EXTRACT(dest, type)]: where the header starts and [curSize] afterwards, or an
    early return. *)
Definition EXTRACT (packet : list Z) (curSize size : Z) : option (Z * Z) :=
  if Z.of_nat (length packet) <? curSize + size then None else Some (curSize, curSize + size).

(** [ETH_TO_TS]. *)
Definition ETH_TO_TS (b : list Z) : Z :=
  match b with
  | [b0; b1; b2; b3; b4; b5] =>
      Z.lor (Z.shiftl b0 40) (Z.lor (Z.shiftl b1 32) (Z.lor (Z.shiftl b2 24)
        (Z.lor (Z.shiftl b3 16) (Z.lor (Z.shiftl b4 8) b5))))
  | _ => 0
  end.

(** The fields that the handler uses of each header. *)
Record ether_fields : Type := EtherFields { eth_port : Z; eth_ts : Z; ether_type : Z }.
Record l3_fields : Type := L3Fields { l3_src : address_t; l3_dst : address_t; l3_number : Z; l4Proto : Z }.
Record l4_fields : Type := L4Fields { l4_source : Z; l4_dest : Z; l4_number : Z; th_flags : Z }.

Definition read_ether (packet : list Z) (at_ : Z) : res ether_fields :=
  let! port := int_at packet (at_ + 10) 2 in
  let! ts := bytes_at packet at_ 6 in
  let! ty := int_at packet (at_ + 12) 2 in
  Ok (EtherFields (SWAP_ENDIAN_16 port) (ETH_TO_TS ts) ty).

Definition read_ipv4 (packet : list Z) (at_ : Z) : res l3_fields :=
  let! daddr := int_at packet (at_ + 16) 4 in
  let! saddr := int_at packet (at_ + 12) 4 in
  let! protocol := int_at packet (at_ + 9) 1 in
  Ok (L3Fields (addr_set_ipv4 0 saddr) (addr_set_ipv4 0 daddr) L3_IPV4 protocol).

Definition read_ipv6 (packet : list Z) (at_ : Z) : res l3_fields :=
  let! dst := int_at packet (at_ + 24) 16 in
  let! src := int_at packet (at_ + 8) 16 in
  let! nxt := int_at packet (at_ + 6) 1 in
  Ok (L3Fields src dst L3_IPV6 nxt).

(** The ports are kept as they lie in memory. *)
Definition read_tcp (packet : list Z) (at_ : Z) : res l4_fields :=
  let! dest := int_at packet (at_ + 2) 2 in
  let! source := int_at packet at_ 2 in
  let! flags := int_at packet (at_ + 13) 1 in
  Ok (L4Fields source dest L4_TCP flags).
Definition read_udp (packet : list Z) (at_ : Z) : res l4_fields :=
  let! dest := int_at packet (at_ + 2) 2 in
  let! source := int_at packet at_ 2 in
  Ok (L4Fields source dest L4_UDP 0).

(** The two [switch]es; [None] is an early return. *)
Definition parse_l3 (packet : list Z) (curSize ty : Z) : res (option (l3_fields * Z)) :=
  if ty =? ETHERTYPE_IPV4_BE then
    match EXTRACT packet curSize iphdr_size with
    | Some (at_, curSize) => let! f := read_ipv4 packet at_ in Ok (Some (f, curSize))
    | None => Ok None
    end
  else if ty =? ETHERTYPE_IPV6_BE then
    match EXTRACT packet curSize ip6_hdr_size with
    | Some (at_, curSize) => let! f := read_ipv6 packet at_ in Ok (Some (f, curSize))
    | None => Ok None
    end
  else Ok None.

Definition parse_l4 (packet : list Z) (curSize proto : Z) : res (option (l4_fields * Z)) :=
  if proto =? IPPROTO_TCP then
    match EXTRACT packet curSize tcphdr_size with
    | Some (at_, curSize) => let! f := read_tcp packet at_ in Ok (Some (f, curSize))
    | None => Ok None
    end
  else if proto =? IPPROTO_UDP then
    match EXTRACT packet curSize udphdr_size with
    | Some (at_, curSize) => let! f := read_udp packet at_ in Ok (Some (f, curSize))
    | None => Ok None
    end
  else Ok None.

(** The parsed packet: the five tuple, without the session part, the transport
    header and the offset of the payload. *)
Record parsed : Type := Parsed { pa_ft : five_tuple_t; pa_l4Proto : Z; pa_l4 : l4_fields; pa_payload : Z }.

(** The headers of [packet_handler]. [garbage] is the indeterminate
    [session_id_egress_offset] of the local tuple. *)
Definition parse_headers (garbage : Z) (packet : list Z) : res (option parsed) :=
  match EXTRACT packet 0 ether_header_size with
  | None => Ok None
  | Some (at_, curSize) =>
      let! eth := read_ether packet at_ in
      let! r := parse_l3 packet curSize (ether_type eth) in
      match r with
      | None => Ok None
      | Some (l3, curSize) =>
          let! r := parse_l4 packet curSize (l4Proto l3) in
          match r with
          | None => Ok None
          | Some (l4, curSize) =>
              let h := FiveTupleForHash (l3_src l3) (l3_dst l3) (SWAP_ENDIAN_16 (l4_source l4))
                         (SWAP_ENDIAN_16 (l4_dest l4)) (l3_number l3) (l4_number l4) in
              Ok (Some (Parsed (FiveTuple h zero_sh (eth_ts eth) (eth_port eth) garbage)
                          (l4Proto l3) l4 curSize))
          end
      end
  end.

(** ** Classification *)

Definition is_known (env : handler_env) (ft : five_tuple_t) : res bool :=
  let! '(ret, _) := flow_hashtable_get (env_flows env) ft in
  Ok (ret =? 0).

Definition toDnsHashtableKey (address : address_t) (proto : Z) : dns_hashtable_key_t :=
  if proto =? L3_IPV4 then DnsKey proto (addr_ipv4 address)
  else if proto =? L3_IPV6 then DnsKey proto address
  else DnsKey proto 0.

Definition isInDnsHashtable (env : handler_env) (address : address_t) (proto : Z) : res bool :=
  let! '(ret, _) := dns_hashtable_get (env_dns env) (toDnsHashtableKey address proto) in
  Ok (ret =? 0).

Definition dns_put (ring : dns_ring) (item : dns_item_t) : res dns_ring :=
  let! '(_, ring) := ringbuffer_put DNS_RINGBUFFER_SIZE ring item in Ok ring.
Definition packet_put (ring : packet_ring) (item : packet_item_t) : res packet_ring :=
  let! '(_, ring) := ringbuffer_put PACKET_RINGBUFFER_SIZE ring item in Ok ring.

(** One half of [heuristic]: is the address stored and not expired? An expired one
    is sent for removal. *)
Definition address_relevant (env : handler_env) (address : address_t) (proto : Z) (ring : dns_ring)
    : res (bool * dns_ring) :=
  let key := toDnsHashtableKey address proto in
  let! '(ret, timeout) := dns_hashtable_get (env_dns env) key in
  match timeout with
  | Some timeout =>
      if timeout <? now_sec env then
        let! ring := dns_put ring (DNS_REMOVE_IP key) in
        Ok (false, ring)
      else Ok (true, ring)
  | None => Ok (false, ring)
  end.

(** With [USE_DNS_DB], as configured. *)
Definition heuristic (env : handler_env) (ft : five_tuple_t) (ring : dns_ring) : res (bool * dns_ring) :=
  let! '(relevant, ring) := address_relevant env (src_addr (ft_h ft)) (l3_proto (ft_h ft)) ring in
  if relevant : bool then Ok (true, ring)
  else address_relevant env (dst_addr (ft_h ft)) (l3_proto (ft_h ft)) ring.

Definition with_sh (ft : five_tuple_t) (sh : five_tuple_for_session_hash_t) : five_tuple_t :=
  FiveTuple (ft_h ft) sh (ingress_ts ft) (dev_port ft) (session_id_egress_offset ft).

Definition setup_session_hash (env : handler_env) (ft : five_tuple_t) : res five_tuple_t :=
  let h := ft_h ft in
  let! src := isInDnsHashtable env (src_addr h) (l3_proto h) in
  if src : bool then Ok (with_sh ft (FiveTupleForSessionHash (dst_addr h) false))
  else
    let! dst := isInDnsHashtable env (dst_addr h) (l3_proto h) in
    if dst : bool then Ok (with_sh ft (FiveTupleForSessionHash (src_addr h) true))
    else Ok ft.

(** The part of [process_packet] after the TCP flags. *)
Definition process_relevance (env : handler_env) (ft : five_tuple_t) (st : handler_t) : res handler_t :=
  let! '(relevant, dns) := heuristic env ft (h_dns st) in
  if relevant : bool then
    let! ring := packet_put (h_packets st) (PKT_ADD_FLOW ft) in
    if l4_proto (ft_h ft) =? L4_UDP then
      let! ring := packet_put ring (PKT_FIX_BLOOM_FILTER_RELEVANT ft) in
      Ok (Handler ring dns)
    else Ok (Handler ring dns)
  else if l4_proto (ft_h ft) =? L4_UDP then
    let! ring := packet_put (h_packets st) (PKT_ADD_BLOOM_FILTER_IRRELEVANT ft) in
    Ok (Handler ring dns)
  else Ok (Handler (h_packets st) dns).

(** [flags]: the [th_flags] of the TCP header. *)
Definition process_packet (env : handler_env) (ft : five_tuple_t) (flags : Z) (st : handler_t)
    : res handler_t :=
  if l4_proto (ft_h ft) =? L4_TCP then
    let! syn := if negb (Z.land flags TH_SYN =? 0) then is_known env ft else Ok false in
    if syn : bool then Ok st
    else if negb (Z.land flags TH_FIN =? 0) then
      let! ring := packet_put (h_packets st) (PKT_REMOVE_FLOW ft) in
      Ok (Handler ring (h_dns st))
    else process_relevance env ft st
  else process_relevance env ft st.

(** [MAX] of [sys/param.h] on a [size_t], converted to [int32_t]. *)
Definition dns_len (packet : list Z) (curSize : Z) : Z :=
  i32 (Z.max (u64 (Z.of_nat (length packet) - curSize)) MAX_DNS_PKT_LEN).

(** The branch for DNS responses: [memcpy] reads [len] bytes of the packet and
    writes them to an array of [MAX_DNS_PKT_LEN] bytes. *)
Definition handle_dns (packet : list Z) (curSize : Z) (st : handler_t) : res handler_t :=
  let len := dns_len packet curSize in
  if len <? NS_HFIXEDSZ then Ok st
  else
    let! payload := bytes_at packet curSize len in
    if MAX_DNS_PKT_LEN <? len then UB
    else
      let! dns := dns_put (h_dns st) (DNS_ADD_PKT len payload) in
      Ok (Handler (h_packets st) dns).

Definition is_dns (p : parsed) : bool :=
  (pa_l4Proto p =? IPPROTO_UDP) && (l4_source (pa_l4 p) =? 53).

Definition packet_handler (garbage : Z) (env : handler_env) (packet : list Z) (st : handler_t)
    : res handler_t :=
  let! r := parse_headers garbage packet in
  match r with
  | None => Ok st
  | Some p =>
      if is_dns p then handle_dns packet (pa_payload p) st
      else
        let! ft := setup_session_hash env (pa_ft p) in
        process_packet env ft (th_flags (pa_l4 p)) st
  end.

(** ** Encoding of packets

    What the data plane sends: the ingress timestamp and port in the MAC addresses;
    the fields that the handler ignores are arbitrary lists of their length. *)

Definition encode_ether (ts port type : Z) (mac : list Z) : list Z :=
  be_bytes 6 ts ++ mac ++ be_bytes 2 port ++ le_bytes 2 type.
Definition encode_ipv4 (src dst proto : Z) (front checksum : list Z) : list Z :=
  front ++ le_bytes 1 proto ++ checksum ++ le_bytes 4 src ++ le_bytes 4 dst.
Definition encode_ipv6 (src dst proto : Z) (front limit : list Z) : list Z :=
  front ++ le_bytes 1 proto ++ limit ++ le_bytes 16 src ++ le_bytes 16 dst.
Definition encode_tcp (source dest flags : Z) (seq rest : list Z) : list Z :=
  be_bytes 2 source ++ be_bytes 2 dest ++ seq ++ le_bytes 1 flags ++ rest.
Definition encode_udp (source dest : Z) (rest : list Z) : list Z :=
  be_bytes 2 source ++ be_bytes 2 dest ++ rest.

(** Ignored fields of the right length. *)
Record fillers : Type := Fillers {
  fi_mac : list Z; fi_front : list Z; fi_middle : list Z; fi_seq : list Z; fi_rest : list Z }.

Definition encode_l3 (h : five_tuple_for_hash_t) (proto : Z) (fi : fillers) : list Z :=
  if l3_proto h =? L3_IPV4 then encode_ipv4 (src_addr h) (dst_addr h) proto (fi_front fi) (fi_middle fi)
  else encode_ipv6 (src_addr h) (dst_addr h) proto (fi_front fi) (fi_middle fi).
Definition encode_l4 (h : five_tuple_for_hash_t) (flags : Z) (fi : fillers) : list Z :=
  if l4_proto h =? L4_TCP then encode_tcp (src_port h) (dst_port h) flags (fi_seq fi) (fi_rest fi)
  else encode_udp (src_port h) (dst_port h) (fi_rest fi).
Definition encode_packet (h : five_tuple_for_hash_t) (ts port flags : Z) (fi : fillers) (payload : list Z)
    : list Z :=
  encode_ether ts port (if l3_proto h =? L3_IPV4 then ETHERTYPE_IPV4_BE else ETHERTYPE_IPV6_BE) (fi_mac fi) ++
  encode_l3 h (if l4_proto h =? L4_TCP then IPPROTO_TCP else IPPROTO_UDP) fi ++
  encode_l4 h flags fi ++ payload.

(** A tuple that can be sent. *)
Record encodable (h : five_tuple_for_hash_t) (fi : fillers) : Prop := Encodable {
  en_mac : length (fi_mac fi) = 4%nat;
  en_l3 : (l3_proto h = L3_IPV4 /\ 0 <= src_addr h < 2 ^ 32 /\ 0 <= dst_addr h < 2 ^ 32 /\
           length (fi_front fi) = 9%nat /\ length (fi_middle fi) = 2%nat) \/
          (l3_proto h = L3_IPV6 /\ 0 <= src_addr h < 2 ^ 128 /\ 0 <= dst_addr h < 2 ^ 128 /\
           length (fi_front fi) = 6%nat /\ length (fi_middle fi) = 1%nat);
  en_l4 : (l4_proto h = L4_TCP /\ length (fi_seq fi) = 9%nat /\ length (fi_rest fi) = 6%nat) \/
          (l4_proto h = L4_UDP /\ length (fi_rest fi) = 4%nat);
  en_sport : 0 <= src_port h < 2 ^ 16;
  en_dport : 0 <= dst_port h < 2 ^ 16 }.

(** ** Proofs *)

(** *** Reads *)

Lemma bytes_at_ok packet offset size :
  0 <= offset -> 0 <= size -> offset + size <= Z.of_nat (length packet) ->
  exists bs, bytes_at packet offset size = Ok bs /\ length bs = Z.to_nat size.
Proof.
  intros Ho Hs Hl. unfold bytes_at.
  rewrite (proj2 (Z.leb_le _ _) Ho), (proj2 (Z.leb_le _ _) Hs), (proj2 (Z.leb_le _ _) Hl).
  eexists. split; [done|]. rewrite length_take, length_drop. lia.
Qed.

Lemma bytes_at_UB packet offset size :
  Z.of_nat (length packet) < offset + size -> bytes_at packet offset size = UB.
Proof.
  intros Hl. unfold bytes_at. apply Z.leb_gt in Hl. by rewrite Hl, andb_false_r.
Qed.

Lemma int_at_ok packet offset size :
  0 <= offset -> 0 <= size -> offset + size <= Z.of_nat (length packet) ->
  exists v, int_at packet offset size = Ok v.
Proof.
  intros Ho Hs Hl. unfold int_at. destruct (bytes_at_ok packet offset size Ho Hs Hl) as (bs & -> & _).
  by exists (le_value bs).
Qed.

Lemma EXTRACT_ok packet curSize size at_ next :
  EXTRACT packet curSize size = Some (at_, next) ->
  at_ = curSize /\ next = curSize + size /\ next <= Z.of_nat (length packet).
Proof. unfold EXTRACT. destruct (Z.ltb_spec (Z.of_nat (length packet)) (curSize + size)); [done|]. by intros [= <- <-]. Qed.

(** Reads of a packet made of parts. *)
Lemma bytes_at_skip (a b : list Z) (offset size : Z) :
  Z.of_nat (length a) <= offset -> bytes_at (a ++ b) offset size = bytes_at b (offset - Z.of_nat (length a)) size.
Proof.
  intros Ho. unfold bytes_at. rewrite length_app.
  destruct (Z.leb_spec 0 size); [|by rewrite !andb_false_r].
  rewrite (proj2 (Z.leb_le 0 offset)), (proj2 (Z.leb_le 0 (offset - Z.of_nat (length a)))) by lia.
  cbn [andb].
  destruct (Z.leb_spec (offset + size) (Z.of_nat (length a + length b)));
    destruct (Z.leb_spec (offset - Z.of_nat (length a) + size) (Z.of_nat (length b))); try lia; [|done].
  rewrite drop_app_ge by lia. do 2 f_equal. f_equal. lia.
Qed.

Lemma bytes_at_here (a b : list Z) (offset size : Z) :
  offset = 0 -> Z.of_nat (length a) = size -> bytes_at (a ++ b) offset size = Ok a.
Proof.
  intros -> <-. unfold bytes_at. rewrite length_app.
  rewrite (proj2 (Z.leb_le 0 (Z.of_nat (length a)))), (proj2 (Z.leb_le _ (Z.of_nat (length a + length b)))) by lia.
  cbn [andb Z.leb Z.compare]. rewrite drop_0, Nat2Z.id. by rewrite take_app_length.
Qed.

(** Walk through the parts up to the one that is read. *)
Ltac read_part :=
  unfold int_at;
  repeat (first [ rewrite bytes_at_here by (autorewrite with parts; lia)
                | rewrite bytes_at_skip by (autorewrite with parts; lia) ]);
  cbn [rbind].

(** *** The parser never reads outside of the packet *)

Ltac read_ok :=
  unfold read_ether, read_ipv4, read_ipv6, read_tcp, read_udp, int_at;
  repeat match goal with
  | |- context [bytes_at ?p ?o ?s] =>
      let bs := fresh "bs" in let E := fresh "E" in
      destruct (bytes_at_ok p o s) as (bs & E & _); [lia|lia|lia|rewrite E; cbn [rbind]]
  end.

Lemma read_ether_ok packet at_ :
  0 <= at_ -> at_ + ether_header_size <= Z.of_nat (length packet) -> exists f, read_ether packet at_ = Ok f.
Proof. unfold ether_header_size. intros. read_ok. eauto. Qed.
Lemma read_ipv4_ok packet at_ :
  0 <= at_ -> at_ + iphdr_size <= Z.of_nat (length packet) ->
  exists f, read_ipv4 packet at_ = Ok f /\ l3_number f = L3_IPV4.
Proof. unfold iphdr_size. intros. read_ok. eauto. Qed.
Lemma read_ipv6_ok packet at_ :
  0 <= at_ -> at_ + ip6_hdr_size <= Z.of_nat (length packet) ->
  exists f, read_ipv6 packet at_ = Ok f /\ l3_number f = L3_IPV6.
Proof. unfold ip6_hdr_size. intros. read_ok. eauto. Qed.
Lemma read_tcp_ok packet at_ :
  0 <= at_ -> at_ + tcphdr_size <= Z.of_nat (length packet) ->
  exists f, read_tcp packet at_ = Ok f /\ l4_number f = L4_TCP.
Proof. unfold tcphdr_size. intros. read_ok. eauto. Qed.
Lemma read_udp_ok packet at_ :
  0 <= at_ -> at_ + udphdr_size <= Z.of_nat (length packet) ->
  exists f, read_udp packet at_ = Ok f /\ l4_number f = L4_UDP.
Proof. unfold udphdr_size. intros. read_ok. eauto. Qed.

(** A header is read where [EXTRACT] found room for it. *)
Ltac extract :=
  match goal with
  | |- context [EXTRACT ?p ?c ?s] =>
      let E := fresh "E" in
      destruct (EXTRACT p c s) as [[? ?]|] eqn:E; [apply EXTRACT_ok in E as (-> & -> & E)|]
  end.

Lemma parse_l3_ok packet curSize ty :
  0 <= curSize ->
  exists r, parse_l3 packet curSize ty = Ok r /\
    forall f next, r = Some (f, next) -> curSize <= next <= Z.of_nat (length packet) /\
      (l3_number f = L3_IPV4 \/ l3_number f = L3_IPV6).
Proof.
  intros Hc. unfold parse_l3, iphdr_size, ip6_hdr_size.
  destruct (ty =? ETHERTYPE_IPV4_BE); [|destruct (ty =? ETHERTYPE_IPV6_BE)].
  - extract; [|by exists None]. destruct (read_ipv4_ok packet curSize) as (f & -> & ?); [done..|].
    eexists. split; [reflexivity|]. intros ? ? [= <- <-]. split; [lia|by left].
  - extract; [|by exists None]. destruct (read_ipv6_ok packet curSize) as (f & -> & ?); [done..|].
    eexists. split; [reflexivity|]. intros ? ? [= <- <-]. split; [lia|by right].
  - by exists None.
Qed.

Lemma parse_l4_ok packet curSize proto :
  0 <= curSize ->
  exists r, parse_l4 packet curSize proto = Ok r /\
    forall f next, r = Some (f, next) -> curSize <= next <= Z.of_nat (length packet) /\
      ((proto = IPPROTO_TCP /\ l4_number f = L4_TCP) \/ (proto = IPPROTO_UDP /\ l4_number f = L4_UDP)).
Proof.
  intros Hc. unfold parse_l4, tcphdr_size, udphdr_size.
  destruct (Z.eqb_spec proto IPPROTO_TCP); [|destruct (Z.eqb_spec proto IPPROTO_UDP)].
  - extract; [|by exists None]. destruct (read_tcp_ok packet curSize) as (f & -> & ?); [done..|].
    eexists. split; [reflexivity|]. intros ? ? [= <- <-]. split; [lia|by left].
  - extract; [|by exists None]. destruct (read_udp_ok packet curSize) as (f & -> & ?); [done..|].
    eexists. split; [reflexivity|]. intros ? ? [= <- <-]. split; [lia|by right].
  - by exists None.
Qed.

Lemma parse_headers_ok garbage packet :
  exists r, parse_headers garbage packet = Ok r /\
    forall p, r = Some p -> ether_header_size <= pa_payload p <= Z.of_nat (length packet) /\
      ft_sh (pa_ft p) = zero_sh /\
      (l3_proto (ft_h (pa_ft p)) = L3_IPV4 \/ l3_proto (ft_h (pa_ft p)) = L3_IPV6) /\
      ((pa_l4Proto p = IPPROTO_TCP /\ l4_proto (ft_h (pa_ft p)) = L4_TCP) \/
       (pa_l4Proto p = IPPROTO_UDP /\ l4_proto (ft_h (pa_ft p)) = L4_UDP)).
Proof.
  unfold parse_headers. extract; [|by exists None].
  destruct (read_ether_ok packet 0) as [eth ->]; [done..|]. cbn [rbind].
  destruct (parse_l3_ok packet (0 + ether_header_size) (ether_type eth)) as ([[l3 c3]|] & -> & H3);
    [done| |by exists None].
  destruct (H3 _ _ eq_refl) as [[H3a H3b] H3c]. cbn [rbind].
  destruct (parse_l4_ok packet c3 (l4Proto l3)) as ([[l4 c4]|] & -> & H4);
    [unfold ether_header_size in *; lia| |by exists None].
  destruct (H4 _ _ eq_refl) as [[H4a H4b] H4c]. cbn [rbind].
  eexists. split; [reflexivity|]. intros p [= <-]. cbn [pa_payload pa_l4Proto pa_ft ft_h ft_sh l4_proto l3_proto].
  unfold ether_header_size in *. split; [lia|]. by split_and!.
Qed.

(** *** Round trip *)

Create Rewrite HintDb parts.
#[local] Hint Rewrite length_be_bytes length_le_bytes @length_app : parts.

Lemma le_value_le n x : 0 <= x < 2 ^ (8 * Z.of_nat n) -> le_value (le_bytes n x) = x.
Proof. intros. by rewrite le_value_bytes, Z.mod_small. Qed.

Lemma ETH_TO_TS_be ts : 0 <= ts < 2 ^ 48 -> ETH_TO_TS (be_bytes 6 ts) = ts.
Proof.
  intros Ht. pose proof (le_value_le 6 ts Ht) as Ev. pose proof (le_bytes_range 6 ts) as Hb.
  unfold be_bytes. destruct (le_bytes 6 ts) as [|b0 [|b1 [|b2 [|b3 [|b4 [|b5 [|? ?]]]]]]] eqn:El;
    try (apply (f_equal length) in El; rewrite length_le_bytes in El; discriminate).
  cbn [rev app ETH_TO_TS]. rewrite !Forall_cons in Hb. destruct Hb as (? & ? & ? & ? & ? & ? & _).
  cbn [le_value] in Ev. change (2 ^ 8) with 256 in Ev.
  rewrite (lor_shiftl_add b1 b0 8) by lia. rewrite (lor_shiftl_add b2 _ 16) by lia.
  rewrite (lor_shiftl_add b3 _ 24) by lia. rewrite (lor_shiftl_add b4 _ 32) by lia.
  rewrite (lor_shiftl_add b5 _ 40) by lia. lia.
Qed.

Lemma addr_set_ipv4_zero x : 0 <= x < 2 ^ 32 -> addr_set_ipv4 0 x = x.
Proof. intros. unfold addr_set_ipv4. rewrite !u32_small by lia. lia. Qed.

(** *** The types of the fields *)

Lemma bytes_at_inv packet offset size bs :
  bytes_at packet offset size = Ok bs -> length bs = Z.to_nat size /\ forall b, b ∈ bs -> b ∈ packet.
Proof.
  unfold bytes_at. destruct (Z.leb_spec 0 offset), (Z.leb_spec 0 size), (Z.leb_spec (offset + size) (Z.of_nat (length packet)));
    cbn [andb]; try done. intros [= <-]. split; [rewrite length_take, length_drop; lia|].
  intros b Hb. apply (subseteq_drop (Z.to_nat offset)), (subseteq_take (Z.to_nat size)), Hb.
Qed.

Lemma bytes_at_bytes packet offset size bs :
  Forall is_byte packet -> bytes_at packet offset size = Ok bs -> Forall is_byte bs.
Proof.
  intros Hp [_ Hin]%bytes_at_inv. rewrite Forall_forall in *. auto.
Qed.

Lemma int_at_bound packet offset size v :
  Forall is_byte packet -> 0 <= size -> int_at packet offset size = Ok v -> 0 <= v < 2 ^ (8 * size).
Proof.
  intros Hp Hs. unfold int_at. rewrite rbind_Ok. intros (bs & E & [= <-]).
  pose proof (bytes_at_inv _ _ _ _ E) as [Hl _]. pose proof (le_value_bound bs (bytes_at_bytes _ _ _ _ Hp E)) as Hv.
  rewrite Hl, Z2Nat.id in Hv by done. exact Hv.
Qed.

Lemma SWAP_ENDIAN_16_bound x : 0 <= x < 2 ^ 16 -> 0 <= SWAP_ENDIAN_16 x < 2 ^ 16.
Proof.
  intros Hx. pose proof (Z.div_mod x 256). pose proof (Z.mod_pos_bound x 256).
  assert (0 <= x / 256 < 256) by (split; [apply Z.div_pos; lia|apply Z.div_lt_upper_bound; lia]).
  replace x with (x mod 256 + 256 * (x / 256)) by lia. rewrite SWAP_ENDIAN_16_bytes by (unfold is_byte; lia). lia.
Qed.

Lemma ETH_TO_TS_bound bs : length bs = 6%nat -> Forall is_byte bs -> 0 <= ETH_TO_TS bs < 2 ^ 48.
Proof.
  intros Hl Hb. assert (Forall is_byte (rev bs)) as Hr by (by apply List.Forall_rev).
  pose proof (le_value_bound _ Hr) as Hv. rewrite length_rev, Hl in Hv. change (8 * Z.of_nat 6) with 48 in Hv.
  assert (ETH_TO_TS bs = le_value (rev bs)) as ->; [|done].
  rewrite <- (ETH_TO_TS_be (le_value (rev bs))) by done. f_equal. unfold be_bytes.
  rewrite <- Hl, <- (length_rev bs), le_bytes_value by done. by rewrite rev_involutive.
Qed.

(** Take apart the reads that succeeded, with the bounds of their results. *)
Ltac invert_reads :=
  repeat match goal with
  | H : rbind _ _ = Ok _ |- _ => apply rbind_Ok in H as (? & ? & H)
  | Hp : Forall is_byte ?p, H : int_at ?p _ ?s = Ok ?v |- _ =>
      apply (int_at_bound _ _ _ _ Hp) in H; [|lia]; cbn [Z.mul Pos.mul] in H
  end.

Lemma read_ether_typed packet at_ f :
  Forall is_byte packet -> read_ether packet at_ = Ok f -> 0 <= eth_port f < 2 ^ 16 /\ 0 <= eth_ts f < 2 ^ 48.
Proof.
  intros Hp. unfold read_ether. intros H. invert_reads. injection H as <-. cbn [eth_port eth_ts]. split; [by apply SWAP_ENDIAN_16_bound|].
  match goal with E : bytes_at _ _ _ = Ok _ |- _ => pose proof (bytes_at_bytes _ _ _ _ Hp E); apply bytes_at_inv in E as [? _] end.
  by apply ETH_TO_TS_bound.
Qed.

Definition l3_typed (f : l3_fields) : Prop :=
  0 <= l3_src f < 2 ^ 128 /\ 0 <= l3_dst f < 2 ^ 128 /\
  (l3_number f = L3_IPV4 -> l3_src f < 2 ^ 32 /\ l3_dst f < 2 ^ 32).

Lemma parse_l3_typed packet curSize ty f next :
  Forall is_byte packet -> parse_l3 packet curSize ty = Ok (Some (f, next)) -> l3_typed f.
Proof.
  intros Hp. unfold parse_l3, EXTRACT.
  repeat case_match; try done; intros HE; simplify_eq; invert_reads; injection HE as <- <-;
    unfold read_ipv4, read_ipv6 in *; invert_reads; simplify_eq; unfold l3_typed; cbn [l3_src l3_dst l3_number].
  - rewrite !addr_set_ipv4_zero by done. lia.
  - unfold L3_IPV6, L3_IPV4. lia.
Qed.

(** Whatever the bytes are, an IPv4 address leaves the rest of its union zero. *)
Lemma parse_l3_addresses packet curSize ty f next :
  parse_l3 packet curSize ty = Ok (Some (f, next)) ->
  l3_number f = L3_IPV4 -> 0 <= l3_src f < 2 ^ 32 /\ 0 <= l3_dst f < 2 ^ 32.
Proof.
  assert (forall x, 0 <= addr_set_ipv4 0 x < 2 ^ 32) as Hb
    by (intros x; unfold addr_set_ipv4; rewrite (u32_small 0) by done; pose proof (Z.mod_pos_bound x (2 ^ 32)); unfold u32; lia).
  unfold parse_l3, EXTRACT. repeat case_match; try done; intros HE; simplify_eq; invert_reads; injection HE as <- <-;
    unfold read_ipv4, read_ipv6 in *; invert_reads; simplify_eq; cbn [l3_src l3_dst l3_number]; done.
Qed.

Lemma parse_headers_addresses garbage packet p :
  parse_headers garbage packet = Ok (Some p) -> addr_ok (pa_ft p).
Proof.
  unfold parse_headers. destruct (EXTRACT packet 0 ether_header_size) as [[a0 c0]|]; [|done].
  intros (eth & _ & E)%rbind_Ok. apply rbind_Ok in E as ([[l3 c3]|] & E3 & E); [|done].
  apply rbind_Ok in E as ([[l4 c4]|] & E4 & E); [|done]. injection E as <-.
  unfold addr_ok. cbn [pa_ft ft_h l3_proto src_addr dst_addr]. by eapply parse_l3_addresses.
Qed.

Lemma parse_l4_typed packet curSize proto f next :
  Forall is_byte packet -> parse_l4 packet curSize proto = Ok (Some (f, next)) ->
  0 <= l4_source f < 2 ^ 16 /\ 0 <= l4_dest f < 2 ^ 16 /\ 0 <= th_flags f < 2 ^ 8.
Proof.
  intros Hp. unfold parse_l4, EXTRACT.
  repeat case_match; try done; intros HE; simplify_eq; invert_reads; injection HE as <- <-;
    unfold read_tcp, read_udp in *; invert_reads; simplify_eq; cbn [l4_source l4_dest th_flags]; lia.
Qed.

Lemma EXTRACT_room packet curSize size :
  curSize + size <= Z.of_nat (length packet) -> EXTRACT packet curSize size = Some (curSize, curSize + size).
Proof. intros. unfold EXTRACT. by rewrite (proj2 (Z.ltb_ge _ _)). Qed.

(** A header in front of the rest of the packet, and behind what was parsed. *)
Lemma read_ether_encode ts port ty mac rest :
  0 <= ts < 2 ^ 48 -> 0 <= port < 2 ^ 16 -> 0 <= ty < 2 ^ 16 -> length mac = 4%nat ->
  read_ether (encode_ether ts port ty mac ++ rest) 0 = Ok (EtherFields port ts ty).
Proof.
  intros Ht Hp Hy Hm. unfold read_ether, encode_ether. rewrite <- !app_assoc. cbn [Z.add].
  read_part. rewrite le_value_le by done. rewrite SWAP_ENDIAN_16_be by done. by rewrite ETH_TO_TS_be.
Qed.

Lemma read_ipv4_encode pre src dst proto front checksum rest at_ :
  at_ = Z.of_nat (length pre) -> length front = 9%nat -> length checksum = 2%nat ->
  0 <= src < 2 ^ 32 -> 0 <= dst < 2 ^ 32 -> 0 <= proto < 2 ^ 8 ->
  read_ipv4 (pre ++ encode_ipv4 src dst proto front checksum ++ rest) at_ = Ok (L3Fields src dst L3_IPV4 proto).
Proof.
  intros Ha Hf Hc Hs Hd Hp. unfold read_ipv4, encode_ipv4. rewrite <- !app_assoc.
  read_part. rewrite !le_value_le by done. by rewrite !addr_set_ipv4_zero.
Qed.

Lemma read_ipv6_encode pre src dst proto front limit rest at_ :
  at_ = Z.of_nat (length pre) -> length front = 6%nat -> length limit = 1%nat ->
  0 <= src < 2 ^ 128 -> 0 <= dst < 2 ^ 128 -> 0 <= proto < 2 ^ 8 ->
  read_ipv6 (pre ++ encode_ipv6 src dst proto front limit ++ rest) at_ = Ok (L3Fields src dst L3_IPV6 proto).
Proof.
  intros Ha Hf Hc Hs Hd Hp. unfold read_ipv6, encode_ipv6. rewrite <- !app_assoc.
  read_part. by rewrite !le_value_le.
Qed.

Lemma read_tcp_encode pre source dest flags seq rest tail at_ :
  at_ = Z.of_nat (length pre) -> length seq = 9%nat -> 0 <= flags < 2 ^ 8 ->
  read_tcp (pre ++ encode_tcp source dest flags seq rest ++ tail) at_ =
    Ok (L4Fields (le_value (be_bytes 2 source)) (le_value (be_bytes 2 dest)) L4_TCP flags).
Proof.
  intros Ha Hs Hf. unfold read_tcp, encode_tcp. rewrite <- !app_assoc.
  read_part. by rewrite !le_value_le.
Qed.

Lemma read_udp_encode pre source dest rest tail at_ :
  at_ = Z.of_nat (length pre) ->
  read_udp (pre ++ encode_udp source dest rest ++ tail) at_ =
    Ok (L4Fields (le_value (be_bytes 2 source)) (le_value (be_bytes 2 dest)) L4_UDP 0).
Proof. intros Ha. unfold read_udp, encode_udp. rewrite <- !app_assoc. by read_part. Qed.

Lemma length_encode_ether ts port ty mac : length (encode_ether ts port ty mac) = (10 + length mac)%nat.
Proof. unfold encode_ether. autorewrite with parts. lia. Qed.

Lemma length_encode_l3 h proto fi :
  encodable h fi ->
  Z.of_nat (length (encode_l3 h proto fi)) = if l3_proto h =? L3_IPV4 then iphdr_size else ip6_hdr_size.
Proof.
  intros [_ [(E & _ & _ & Hf & Hm)|(E & _ & _ & Hf & Hm)] _ _ _]; unfold encode_l3; rewrite E;
    [change (L3_IPV4 =? L3_IPV4) with true|change (L3_IPV6 =? L3_IPV4) with false]; cbn iota;
    [unfold encode_ipv4|unfold encode_ipv6]; by rewrite !length_app, !length_le_bytes, Hf, Hm.
Qed.

Lemma length_encode_l4 h flags fi :
  encodable h fi ->
  Z.of_nat (length (encode_l4 h flags fi)) = if l4_proto h =? L4_TCP then tcphdr_size else udphdr_size.
Proof.
  intros [_ _ [(E & Hs & Hr)|(E & Hr)] _ _]; unfold encode_l4; rewrite E;
    [change (L4_TCP =? L4_TCP) with true|change (L4_UDP =? L4_TCP) with false]; cbn iota;
    [unfold encode_tcp|unfold encode_udp]; by rewrite !length_app, !length_be_bytes, ?length_le_bytes, ?Hs, Hr.
Qed.

Lemma parse_l3_encode h proto fi pre rest :
  encodable h fi -> 0 <= proto < 2 ^ 8 ->
  let packet := pre ++ encode_l3 h proto fi ++ rest in
  parse_l3 packet (Z.of_nat (length pre)) (if l3_proto h =? L3_IPV4 then ETHERTYPE_IPV4_BE else ETHERTYPE_IPV6_BE) =
    Ok (Some (L3Fields (src_addr h) (dst_addr h) (l3_proto h) proto,
              Z.of_nat (length (pre ++ encode_l3 h proto fi)))).
Proof.
  intros Hen Hp packet. pose proof (length_encode_l3 h proto fi Hen) as Hl.
  assert (Z.of_nat (length packet) = Z.of_nat (length pre) + Z.of_nat (length (encode_l3 h proto fi)) + Z.of_nat (length rest)) as Hlen
    by (unfold packet; rewrite !length_app; lia).
  rewrite length_app. unfold parse_l3.
  destruct (en_l3 _ _ Hen) as [(E & Hs & Hd & Hf & Hm)|(E & Hs & Hd & Hf & Hm)]; rewrite E in *.
  - change (L3_IPV4 =? L3_IPV4) with true in *. cbn iota in *. rewrite Z.eqb_refl.
    rewrite EXTRACT_room by lia. unfold packet, encode_l3. rewrite E. change (L3_IPV4 =? L3_IPV4) with true. cbn iota.
    rewrite read_ipv4_encode by done. cbn [rbind]. repeat f_equal.
    unfold encode_l3 in Hl. rewrite E in Hl. change (L3_IPV4 =? L3_IPV4) with true in Hl. cbn iota in Hl. lia.
  - change (L3_IPV6 =? L3_IPV4) with false in *. cbn iota in *.
    change (ETHERTYPE_IPV6_BE =? ETHERTYPE_IPV4_BE) with false. rewrite Z.eqb_refl. cbn iota.
    rewrite EXTRACT_room by lia. unfold packet, encode_l3. rewrite E. change (L3_IPV6 =? L3_IPV4) with false. cbn iota.
    rewrite read_ipv6_encode by done. cbn [rbind]. repeat f_equal.
    unfold encode_l3 in Hl. rewrite E in Hl. change (L3_IPV6 =? L3_IPV4) with false in Hl. cbn iota in Hl. lia.
Qed.

Lemma parse_l4_encode h flags fi pre rest :
  encodable h fi -> 0 <= flags < 2 ^ 8 ->
  let packet := pre ++ encode_l4 h flags fi ++ rest in
  parse_l4 packet (Z.of_nat (length pre)) (if l4_proto h =? L4_TCP then IPPROTO_TCP else IPPROTO_UDP) =
    Ok (Some (L4Fields (le_value (be_bytes 2 (src_port h))) (le_value (be_bytes 2 (dst_port h))) (l4_proto h)
                (if l4_proto h =? L4_TCP then flags else 0),
              Z.of_nat (length (pre ++ encode_l4 h flags fi)))).
Proof.
  intros Hen Hf packet. pose proof (length_encode_l4 h flags fi Hen) as Hl.
  assert (Z.of_nat (length packet) = Z.of_nat (length pre) + Z.of_nat (length (encode_l4 h flags fi)) + Z.of_nat (length rest)) as Hlen
    by (unfold packet; rewrite !length_app; lia).
  rewrite length_app, Nat2Z.inj_add, Hl. unfold parse_l4.
  destruct (en_l4 _ _ Hen) as [(E & Hs & Hr)|(E & Hr)]; rewrite E in *.
  - change (L4_TCP =? L4_TCP) with true in *. cbn iota in *. rewrite Z.eqb_refl.
    rewrite EXTRACT_room by lia. unfold packet, encode_l4. rewrite E. change (L4_TCP =? L4_TCP) with true. cbn iota.
    by rewrite read_tcp_encode.
  - change (L4_UDP =? L4_TCP) with false in *. cbn iota in *.
    change (IPPROTO_UDP =? IPPROTO_TCP) with false. rewrite Z.eqb_refl. cbn iota.
    rewrite EXTRACT_room by lia. unfold packet, encode_l4. rewrite E. change (L4_UDP =? L4_TCP) with false. cbn iota.
    by rewrite read_udp_encode.
Qed.

(** The parse of an encoded packet. *)
Definition parse_of (h : five_tuple_for_hash_t) (ts port flags garbage : Z) (fi : fillers) : parsed :=
  Parsed (FiveTuple h zero_sh ts port garbage) (if l4_proto h =? L4_TCP then IPPROTO_TCP else IPPROTO_UDP)
    (L4Fields (le_value (be_bytes 2 (src_port h))) (le_value (be_bytes 2 (dst_port h))) (l4_proto h)
       (if l4_proto h =? L4_TCP then flags else 0))
    (ether_header_size + (if l3_proto h =? L3_IPV4 then iphdr_size else ip6_hdr_size) +
     (if l4_proto h =? L4_TCP then tcphdr_size else udphdr_size)).

Lemma parse_encode h ts port flags garbage fi payload :
  encodable h fi -> 0 <= ts < 2 ^ 48 -> 0 <= port < 2 ^ 16 -> 0 <= flags < 2 ^ 8 ->
  parse_headers garbage (encode_packet h ts port flags fi payload) =
    Ok (Some (parse_of h ts port flags garbage fi)).
Proof.
  intros Hen Ht Hp Hf. unfold parse_headers, encode_packet.
  set (ty := if l3_proto h =? L3_IPV4 then ETHERTYPE_IPV4_BE else ETHERTYPE_IPV6_BE).
  set (proto := if l4_proto h =? L4_TCP then IPPROTO_TCP else IPPROTO_UDP).
  set (e := encode_ether ts port ty (fi_mac fi)).
  assert (0 <= ty < 2 ^ 16) as Hty by (unfold ty; by destruct (_ =? _)).
  assert (0 <= proto < 2 ^ 8) as Hproto.
  { unfold proto. destruct (l4_proto h =? L4_TCP); split; done. }
  assert (Z.of_nat (length e) = ether_header_size) as He
    by (unfold e; rewrite length_encode_ether, (en_mac _ _ Hen); done).
  rewrite EXTRACT_room by (rewrite length_app; lia).
  unfold e at 1. rewrite read_ether_encode by (done || exact (en_mac _ _ Hen)). cbn [rbind ether_type].
  rewrite Z.add_0_l, <- He. unfold ty. rewrite parse_l3_encode by done. fold ty. cbn [rbind l4Proto].
  rewrite app_assoc. unfold proto. rewrite parse_l4_encode by done. fold proto.
  cbn [rbind l3_src l3_dst l3_number l4_source l4_dest l4_number eth_ts eth_port].
  rewrite !SWAP_ENDIAN_16_be by (exact (en_sport _ _ Hen) || exact (en_dport _ _ Hen)). unfold parse_of. fold proto. do 2 f_equal. f_equal.
  - by destruct h.
  - rewrite !length_app, !Nat2Z.inj_add, He, length_encode_l3, length_encode_l4 by done. done.
Qed.

(** ** Specification of the classification *)

Definition queue_puts {A} (size : Z) (q : list A) (items : list A) : list A :=
  foldl (fun q x => snd (queue_put size q x)) q items.

(** Is an address relevant according to the DNS map [D], and which item is sent? *)
Definition relevance (now : Z) (D : dns_map) (address : address_t) (proto : Z) : bool * list dns_item_t :=
  let key := toDnsHashtableKey address proto in
  match D !! dns_key_bytes key with
  | Some timeout => if timeout <? now then (false, [DNS_REMOVE_IP key]) else (true, [])
  | None => (false, [])
  end.

Definition spec_heuristic (now : Z) (D : dns_map) (h : five_tuple_for_hash_t) : bool * list dns_item_t :=
  let '(relevant, items) := relevance now D (src_addr h) (l3_proto h) in
  if relevant then (true, items)
  else
    let '(relevant, items') := relevance now D (dst_addr h) (l3_proto h) in
    (relevant, items ++ items').

(** The session part: the side that is in the DNS map is the server. *)
Definition spec_session (D : dns_map) (ft : five_tuple_t) : five_tuple_t :=
  let h := ft_h ft in
  let stored a := bool_decide (is_Some (D !! dns_key_bytes (toDnsHashtableKey a (l3_proto h)))) in
  if stored (src_addr h) then with_sh ft (FiveTupleForSessionHash (dst_addr h) false)
  else if stored (dst_addr h) then with_sh ft (FiveTupleForSessionHash (src_addr h) true)
  else ft.

(** The commands for the flow database and the DNS database. *)
Definition spec_commands (known : bool) (now : Z) (D : dns_map) (ft : five_tuple_t) (flags : Z)
    : list packet_item_t * list dns_item_t :=
  let tcp := l4_proto (ft_h ft) =? L4_TCP in
  let udp := l4_proto (ft_h ft) =? L4_UDP in
  if tcp && negb (Z.land flags TH_SYN =? 0) && known then ([], [])
  else if tcp && negb (Z.land flags TH_FIN =? 0) then ([PKT_REMOVE_FLOW ft], [])
  else
    let '(relevant, items) := spec_heuristic now D (ft_h ft) in
    (if relevant then PKT_ADD_FLOW ft :: (if udp then [PKT_FIX_BLOOM_FILTER_RELEVANT ft] else [])
     else if udp then [PKT_ADD_BLOOM_FILTER_IRRELEVANT ft] else [], items).

Record handler_rep (st : handler_t) (qp : list packet_item_t) (qd : list dns_item_t) : Prop := HandlerRep {
  hr_packets : rb_rep PACKET_RINGBUFFER_SIZE (h_packets st) qp;
  hr_dns : rb_rep DNS_RINGBUFFER_SIZE (h_dns st) qd }.

(** The tables of the other threads; the DNS table has a free slot. *)
Record env_rep (env : handler_env) (F : id_map) (D : dns_map) : Prop := EnvRep {
  er_flows : flow_rep (env_flows env) F;
  er_dns : dns_rep (env_dns env) D;
  er_room : Z.of_nat (size D) < DNS_HASHTABLE_SIZE }.

(** *** The classification does what the specification says *)

#[local] Opaque flow_hashtable_get dns_hashtable_get ringbuffer_put dns_key_bytes.

Lemma packet_put_ok ring q item :
  rb_rep PACKET_RINGBUFFER_SIZE ring q ->
  exists ring', packet_put ring item = Ok ring' /\
    rb_rep PACKET_RINGBUFFER_SIZE ring' (queue_puts PACKET_RINGBUFFER_SIZE q [item]).
Proof.
  intros Hr. unfold packet_put.
  destruct (put_rep _ (proj1 ringbuffer_sizes) ring q item Hr) as (ring' & -> & Hr'). by exists ring'.
Qed.

Lemma dns_put_ok ring q item :
  rb_rep DNS_RINGBUFFER_SIZE ring q ->
  exists ring', dns_put ring item = Ok ring' /\
    rb_rep DNS_RINGBUFFER_SIZE ring' (queue_puts DNS_RINGBUFFER_SIZE q [item]).
Proof.
  intros Hr. unfold dns_put.
  destruct (put_rep _ (proj2 (proj2 ringbuffer_sizes)) ring q item Hr) as (ring' & -> & Hr'). by exists ring'.
Qed.

Lemma queue_puts_app {A} size (q : list A) l1 l2 :
  queue_puts size q (l1 ++ l2) = queue_puts size (queue_puts size q l1) l2.
Proof. apply foldl_app. Qed.

(** A lookup's status says whether the key is stored. *)
Lemma status_is_some {A} {B : Type} (o : option A) (f : A -> B) :
  (let! '(ret, _) := Ok (match o with Some x => (0, Some (f x)) | None => (1, None) end) in Ok (ret =? 0)) =
  Ok (bool_decide (is_Some o)).
Proof. destruct o; cbn [rbind]; [by rewrite bool_decide_true by eauto|by rewrite bool_decide_false by (intros [? [=]])]. Qed.

Section handler.
Context (env : handler_env) (F : id_map) (D : dns_map) (Henv : env_rep env F D).

Lemma is_known_ok ft : is_known env ft = Ok (bool_decide (is_Some (F !! h_bytes (ft_h ft)))).
Proof using Henv.
  unfold is_known. rewrite (flow_get_ok _ F ft (er_flows _ _ _ Henv)).
  apply status_is_some.
Qed.

Lemma stored_ok address proto :
  isInDnsHashtable env address proto =
    Ok (bool_decide (is_Some (D !! dns_key_bytes (toDnsHashtableKey address proto)))).
Proof using Henv.
  unfold isInDnsHashtable. rewrite (dns_get_ok _ D (er_dns _ _ _ Henv) (er_room _ _ _ Henv)).
  apply status_is_some.
Qed.

Lemma address_relevant_ok address proto ring q :
  rb_rep DNS_RINGBUFFER_SIZE ring q ->
  let r := relevance (now_sec env) D address proto in
  exists ring', address_relevant env address proto ring = Ok (r.1, ring') /\
    rb_rep DNS_RINGBUFFER_SIZE ring' (queue_puts DNS_RINGBUFFER_SIZE q r.2).
Proof using Henv.
  intros Hr. unfold address_relevant, relevance.
  rewrite (dns_get_ok _ D (er_dns _ _ _ Henv) (er_room _ _ _ Henv)).
  destruct (D !! _) as [timeout|]; cbn [rbind]; [|by exists ring].
  destruct (timeout <? now_sec env); [|by exists ring].
  destruct (dns_put_ok ring q (DNS_REMOVE_IP (toDnsHashtableKey address proto)) Hr) as (ring' & -> & Hr').
  by exists ring'.
Qed.

Lemma heuristic_ok ft ring q :
  rb_rep DNS_RINGBUFFER_SIZE ring q ->
  let r := spec_heuristic (now_sec env) D (ft_h ft) in
  exists ring', heuristic env ft ring = Ok (r.1, ring') /\
    rb_rep DNS_RINGBUFFER_SIZE ring' (queue_puts DNS_RINGBUFFER_SIZE q r.2).
Proof using Henv.
  intros Hr. unfold heuristic, spec_heuristic.
  destruct (address_relevant_ok (src_addr (ft_h ft)) (l3_proto (ft_h ft)) ring q Hr) as (r1 & -> & Hr1).
  cbn [rbind]. destruct (relevance _ _ (src_addr _) _) as [[] items]; cbn [fst snd] in *; [by exists r1|].
  destruct (address_relevant_ok (dst_addr (ft_h ft)) (l3_proto (ft_h ft)) r1 _ Hr1) as (r2 & -> & Hr2).
  destruct (relevance _ _ (dst_addr _) _) as [b items']; cbn [fst snd] in *. exists r2. split; [done|].
  by rewrite queue_puts_app.
Qed.

Lemma setup_session_hash_ok ft : setup_session_hash env ft = Ok (spec_session D ft).
Proof using Henv.
  unfold setup_session_hash, spec_session. rewrite !stored_ok. cbn [rbind].
  destruct (bool_decide _); [done|]. by destruct (bool_decide _).
Qed.

Lemma process_relevance_ok ft st qp qd :
  handler_rep st qp qd ->
  let r := spec_heuristic (now_sec env) D (ft_h ft) in
  let udp := l4_proto (ft_h ft) =? L4_UDP in
  exists st', process_relevance env ft st = Ok st' /\
    handler_rep st'
      (queue_puts PACKET_RINGBUFFER_SIZE qp
         (if r.1 then PKT_ADD_FLOW ft :: (if udp then [PKT_FIX_BLOOM_FILTER_RELEVANT ft] else [])
          else if udp then [PKT_ADD_BLOOM_FILTER_IRRELEVANT ft] else []))
      (queue_puts DNS_RINGBUFFER_SIZE qd r.2).
Proof using Henv.
  intros [Hp Hd]. unfold process_relevance.
  destruct (heuristic_ok ft (h_dns st) qd Hd) as (dns & -> & Hdns). cbn [rbind].
  destruct (spec_heuristic _ _ _) as [[] items]; cbn [fst snd] in *.
  - destruct (packet_put_ok _ qp (PKT_ADD_FLOW ft) Hp) as (r1 & -> & Hr1). cbn [rbind].
    destruct (_ =? L4_UDP); [|eexists; split; [reflexivity|by split]].
    destruct (packet_put_ok _ _ (PKT_FIX_BLOOM_FILTER_RELEVANT ft) Hr1) as (r2 & -> & Hr2).
    eexists. split; [reflexivity|by split].
  - destruct (_ =? L4_UDP); [|eexists; split; [reflexivity|by split]].
    destruct (packet_put_ok _ qp (PKT_ADD_BLOOM_FILTER_IRRELEVANT ft) Hp) as (r1 & -> & Hr1).
    eexists. split; [reflexivity|by split].
Qed.

Lemma process_packet_ok ft flags st qp qd :
  handler_rep st qp qd ->
  let r := spec_commands (bool_decide (is_Some (F !! h_bytes (ft_h ft)))) (now_sec env) D ft flags in
  exists st', process_packet env ft flags st = Ok st' /\
    handler_rep st' (queue_puts PACKET_RINGBUFFER_SIZE qp r.1) (queue_puts DNS_RINGBUFFER_SIZE qd r.2).
Proof using Henv.
  intros Hst. unfold process_packet, spec_commands.
  destruct (process_relevance_ok ft st qp qd Hst) as (st' & E & Hst').
  assert (forall b, (if b : bool then is_known env ft else Ok false) =
            Ok (b && bool_decide (is_Some (F !! h_bytes (ft_h ft))))) as Hk
    by (intros []; [apply is_known_ok|done]).
  rewrite Hk. cbn [rbind].
  destruct (l4_proto (ft_h ft) =? L4_TCP); cbn [andb];
    [destruct (negb (Z.land flags TH_SYN =? 0) && bool_decide _); [by exists st|];
     destruct (negb (Z.land flags TH_FIN =? 0))|].
  - destruct Hst as [Hp Hd]. destruct (packet_put_ok _ qp (PKT_REMOVE_FLOW ft) Hp) as (r1 & -> & Hr1).
    eexists. split; [reflexivity|by split].
  - rewrite E. exists st'. split; [done|]. by destruct (spec_heuristic _ _ _).
  - rewrite E. exists st'. split; [done|]. by destruct (spec_heuristic _ _ _).
Qed.
End handler.

Lemma sample_env_rep now : env_rep (HandlerEnv flow_hashtable_init dns_hashtable_init now) ∅ ∅.
Proof. split; [apply flow_rep_init|apply dns_rep_init|by rewrite map_size_empty]. Qed.

Definition empty_dns_ring : dns_ring :=
  ringbuffer_init (static_ringbuffer DNS_RINGBUFFER_SIZE (DNS_ADD_PKT 0 [])).
Definition empty_handler : handler_t := Handler empty_packet_ring empty_dns_ring.

Lemma empty_handler_rep : handler_rep empty_handler [] [].
Proof.
  split; [apply empty_packet_ring_rep|].
  apply rb_rep_init; [apply (proj2 (proj2 ringbuffer_sizes))|done].
Qed.

(** *** The DNS branch *)

Lemma dns_source_port h ts port flags garbage fi :
  encodable h fi -> l4_proto h = L4_UDP ->
  is_dns (parse_of h ts port flags garbage fi) = (src_port h =? 13568).
Proof.
  intros Hen Hu. unfold is_dns, parse_of. cbn [pa_l4Proto pa_l4 l4_source]. rewrite Hu. cbn [andb].
  pose proof (SWAP_ENDIAN_16_be (src_port h) (en_sport _ _ Hen)) as E.
  destruct (Z.eqb_spec (src_port h) 13568) as [->|Hn]; [done|].
  apply andb_false_intro2, Z.eqb_neq. intros E'. rewrite E' in E. by apply Hn.
Qed.

Lemma handle_dns_over_reads packet curSize st :
  0 < curSize <= Z.of_nat (length packet) -> Z.of_nat (length packet) <= MAX_PKT_LEN ->
  handle_dns packet curSize st = UB.
Proof.
  unfold MAX_PKT_LEN. intros Hc Hl. unfold handle_dns.
  assert (dns_len packet curSize = MAX_DNS_PKT_LEN) as ->.
  { unfold dns_len, MAX_DNS_PKT_LEN. rewrite u64_small by lia. by rewrite Z.max_r by lia. }
  cbn. by rewrite bytes_at_UB by (unfold MAX_DNS_PKT_LEN; lia).
Qed.

(** The handler of a packet. *)
Lemma packet_handler_ok garbage env F D packet st qp qd :
  env_rep env F D -> handler_rep st qp qd ->
  exists r, parse_headers garbage packet = Ok r /\
    match r with
    | None => packet_handler garbage env packet st = Ok st
    | Some p => is_dns p = false ->
        let ft := spec_session D (pa_ft p) in
        let known := bool_decide (is_Some (F !! h_bytes (ft_h ft))) in
        let '(commands, items) := spec_commands known (now_sec env) D ft (th_flags (pa_l4 p)) in
        exists st', packet_handler garbage env packet st = Ok st' /\
          handler_rep st' (queue_puts PACKET_RINGBUFFER_SIZE qp commands) (queue_puts DNS_RINGBUFFER_SIZE qd items)
    end.
Proof.
  intros Henv Hst. destruct (parse_headers_ok garbage packet) as (r & E & _). exists r. split; [done|].
  unfold packet_handler. rewrite E. cbn [rbind]. destruct r as [p|]; [|done]. intros Hd. cbn zeta.
  rewrite Hd, (setup_session_hash_ok env F D Henv). cbn [rbind].
  destruct (process_packet_ok env F D Henv (spec_session D (pa_ft p)) (th_flags (pa_l4 p)) st qp qd Hst)
    as (st' & E' & Hst').
  destruct (spec_commands _ _ _ _ _) as [commands items]. by exists st'.
Qed.

(** ** Properties *)

(** Claim C18. Parsing is the inverse of what the data plane sends: for every tuple of
    IPv4 or IPv6 addresses and TCP or UDP ports, every 48 bit timestamp, 16 bit port,
    flags, payload and contents of the other header fields, the handler recovers
    exactly the tuple, the timestamp, the port, the flags and the payload offset, and
    leaves the session part zero. *)
Theorem packet_parse_roundtrip h ts port flags garbage fi payload :
  encodable h fi -> 0 <= ts < 2 ^ 48 -> 0 <= port < 2 ^ 16 -> 0 <= flags < 2 ^ 8 ->
  let packet := encode_packet h ts port flags fi payload in
  exists p, parse_headers garbage packet = Ok (Some p) /\
    pa_ft p = FiveTuple h zero_sh ts port garbage /\
    (l4_proto h = L4_TCP -> th_flags (pa_l4 p) = flags) /\
    bytes_at packet (pa_payload p) (Z.of_nat (length payload)) = Ok payload.
Proof.
  intros Hen Ht Hp Hf packet. exists (parse_of h ts port flags garbage fi).
  split; [by apply parse_encode|]. split; [done|]. split; [by unfold parse_of; intros ->|].
  unfold packet, encode_packet. rewrite !app_assoc.
  assert (forall a b, Z.of_nat (length a) = b ->
    bytes_at (a ++ payload) b (Z.of_nat (length payload)) = Ok payload) as Hend.
  { intros a b <-. rewrite bytes_at_skip by lia. rewrite <- (app_nil_r payload) at 1.
    apply bytes_at_here; [lia|done]. }
  apply Hend. rewrite !length_app, length_encode_ether, (en_mac _ _ Hen), !Nat2Z.inj_add.
  by rewrite length_encode_l3, length_encode_l4.
Qed.

Definition sample_fillers4 : fillers :=
  Fillers [0; 0; 0; 0] [0x45; 0; 0; 40; 0; 0; 0; 0; 64] [0; 0] [0; 0; 0; 0; 0; 0; 0; 0; 0x50] [0; 0; 0; 0; 0; 0].
Definition udp_fillers4 : fillers := Fillers [0; 0; 0; 0] [0x45; 0; 0; 28; 0; 0; 0; 0; 64] [0; 0] [] [0; 8; 0; 0].
Definition sample_hash (source proto : Z) : five_tuple_for_hash_t :=
  FiveTupleForHash 0x0A000001 0x0A000002 source 443 L3_IPV4 proto.

Lemma sample_encodable source : 0 <= source < 2 ^ 16 -> encodable (sample_hash source L4_TCP) sample_fillers4.
Proof. intros. split; [done|left; done|left; done|done|done]. Qed.
Lemma udp_encodable source : 0 <= source < 2 ^ 16 -> encodable (sample_hash source L4_UDP) udp_fillers4.
Proof. intros. split; [done|left; done|right; done|done|done]. Qed.

Lemma packet_parse_roundtrip_witness : exists p,
  parse_headers 0 (encode_packet (sample_hash 1234 L4_TCP) 0x0102030405 300 TH_SYN sample_fillers4 [9]) = Ok (Some p) /\
  dev_port (pa_ft p) = 300.
Proof.
  destruct (packet_parse_roundtrip (sample_hash 1234 L4_TCP) 0x0102030405 300 TH_SYN 0 sample_fillers4 [9])
    as (p & E & Ep & _).
  - apply sample_encodable. split; [discriminate|reflexivity].
  - split; [discriminate|reflexivity].
  - split; [discriminate|reflexivity].
  - split; [discriminate|reflexivity].
  - exists p. split; [exact E|]. rewrite Ep. reflexivity.
Defined.

(** Claim C19. Every captured packet, whatever its length and bytes, is parsed without a
    read outside of it, and the tuple that comes out has values of the widths of its
    fields: so that two such tuples are equal in the memory that the tables hash and
    compare exactly when their addresses, ports and protocols are. An IPv4 address leaves
    the rest of its union zero, the protocols are among the enumerated ones, and the
    payload starts inside of the packet. *)
Theorem parsed_tuple_typed garbage packet :
  Forall is_byte packet ->
  exists r, parse_headers garbage packet = Ok r /\
    forall p, r = Some p ->
      let ft := pa_ft p in
      h_wf (ft_h ft) /\ 0 <= dev_port ft < 2 ^ 16 /\ 0 <= ingress_ts ft < 2 ^ 48 /\ 0 <= th_flags (pa_l4 p) < 2 ^ 8 /\
      (l3_proto (ft_h ft) = L3_IPV6 \/
       l3_proto (ft_h ft) = L3_IPV4 /\ src_addr (ft_h ft) < 2 ^ 32 /\ dst_addr (ft_h ft) < 2 ^ 32) /\
      (l4_proto (ft_h ft) = L4_TCP \/ l4_proto (ft_h ft) = L4_UDP) /\
      ether_header_size <= pa_payload p <= Z.of_nat (length packet) /\
      forall h, h_wf h -> h_bytes h = h_bytes (ft_h ft) <-> h = ft_h ft.
Proof.
  intros Hp. destruct (parse_headers_ok garbage packet) as (r & E & Hr). exists r. split; [done|].
  intros p ->. destruct (Hr p eq_refl) as (Hpay & _ & Hl3 & Hl4). cbn zeta. unfold parse_headers in E.
  destruct (EXTRACT packet 0 ether_header_size) as [[a0 c0]|]; [|done].
  apply rbind_Ok in E as (eth & Eeth & E). apply rbind_Ok in E as ([[l3 c3]|] & E3 & E); [|done].
  apply rbind_Ok in E as ([[l4 c4]|] & E4 & E); [|done]. injection E as <-.
  cbn [pa_payload pa_l4Proto pa_ft pa_l4 ft_h ft_sh l3_proto l4_proto src_addr dst_addr dev_port ingress_ts] in Hl3, Hl4, Hpay |- *.
  pose proof (read_ether_typed _ _ _ Hp Eeth) as [He1 He2].
  pose proof (parse_l3_typed _ _ _ _ _ Hp E3) as (Hs & Hd & Hv4).
  pose proof (parse_l4_typed _ _ _ _ _ Hp E4) as (Hsp & Hdp & Hfl).
  assert (h_wf (FiveTupleForHash (l3_src l3) (l3_dst l3) (SWAP_ENDIAN_16 (l4_source l4)) (SWAP_ENDIAN_16 (l4_dest l4))
    (l3_number l3) (l4_number l4))) as Hwf.
  { split; cbn; [done|done|by apply SWAP_ENDIAN_16_bound|by apply SWAP_ENDIAN_16_bound| |];
      unfold L3_IPV4, L3_IPV6, L4_TCP, L4_UDP in *; lia. }
  split; [exact Hwf|]. do 3 (split; [done|]). split; [tauto|]. split; [tauto|]. split; [done|].
  intros h Hh. split; [by apply h_bytes_inj|by intros ->].
Qed.

Lemma parsed_tuple_typed_witness : exists r,
  parse_headers 0 (encode_packet (sample_hash 1234 L4_TCP) 7 300 TH_SYN sample_fillers4 [9]) = Ok r /\
  forall p, r = Some p -> 0 <= dev_port (pa_ft p) < 2 ^ 16.
Proof.
  destruct (parsed_tuple_typed 0 (encode_packet (sample_hash 1234 L4_TCP) 7 300 TH_SYN sample_fillers4 [9]))
    as (r & E & H).
  - repeat constructor; discriminate.
  - exists r. split; [exact E|]. intros p Hp. apply (H p Hp).
Defined.

(** Claim C12. The handler never reads outside of a captured packet while it parses,
    and for every packet it either drops it (too short, or not IPv4/IPv6 with
    TCP/UDP) or puts exactly the commands of the specification in the two queues: the
    session part names the side found in the DNS table as the server; a TCP SYN of a
    known flow is ignored, a TCP FIN removes the flow, otherwise the flow is added
    when one of its addresses is stored and not expired (UDP flows also mark the
    Bloom filter), an irrelevant UDP flow is marked as irrelevant, and each expired
    address met is sent for removal. Packets of the DNS branch are the exception. *)
Theorem packet_handler_refines garbage env F D packet st qp qd :
  env_rep env F D -> handler_rep st qp qd ->
  exists r, parse_headers garbage packet = Ok r /\
    match r with
    | None => packet_handler garbage env packet st = Ok st
    | Some p => is_dns p = false ->
        let ft := spec_session D (pa_ft p) in
        let known := bool_decide (is_Some (F !! h_bytes (ft_h ft))) in
        let '(commands, items) := spec_commands known (now_sec env) D ft (th_flags (pa_l4 p)) in
        exists st', packet_handler garbage env packet st = Ok st' /\
          handler_rep st' (queue_puts PACKET_RINGBUFFER_SIZE qp commands) (queue_puts DNS_RINGBUFFER_SIZE qd items)
    end.
Proof. exact (packet_handler_ok garbage env F D packet st qp qd). Qed.

(** A FIN of a flow is sent to the flow database. *)
Lemma packet_handler_refines_witness : exists st',
  packet_handler 0 (HandlerEnv flow_hashtable_init dns_hashtable_init 5)
    (encode_packet (sample_hash 1234 L4_TCP) 7 300 TH_FIN sample_fillers4 []) empty_handler = Ok st' /\
  handler_rep st' [PKT_REMOVE_FLOW (FiveTuple (sample_hash 1234 L4_TCP) zero_sh 7 300 0)] [].
Proof.
  destruct (packet_handler_refines 0 (HandlerEnv flow_hashtable_init dns_hashtable_init 5) ∅ ∅
              (encode_packet (sample_hash 1234 L4_TCP) 7 300 TH_FIN sample_fillers4 []) empty_handler [] []
              (sample_env_rep 5) empty_handler_rep) as (r & E & H).
  vm_compute in E. injection E as <-. destruct H as (st' & E' & Hst'); [reflexivity|].
  exists st'. split; [exact E'|exact Hst'].
Defined.

(** The branch for DNS responses compares the source port without swapping
    its bytes: a UDP packet from port 53 is not recognised as a DNS response, the
    branch is taken exactly for source port 13568, and then, for every captured
    packet of at most [MAX_PKT_LEN] bytes, the handler copies [MAX_DNS_PKT_LEN]
    bytes from the payload on and reads beyond the packet. *)
Theorem dns_branch_port_and_over_read h ts port flags garbage fi payload env st :
  encodable h fi -> l4_proto h = L4_UDP -> 0 <= ts < 2 ^ 48 -> 0 <= port < 2 ^ 16 -> 0 <= flags < 2 ^ 8 ->
  let packet := encode_packet h ts port flags fi payload in
  Z.of_nat (length packet) <= MAX_PKT_LEN ->
  exists p, parse_headers garbage packet = Ok (Some p) /\
    (is_dns p = true <-> src_port h = 13568) /\
    (src_port h = 13568 -> packet_handler garbage env packet st = UB).
Proof.
  intros Hen Hu Ht Hp Hf packet Hl. exists (parse_of h ts port flags garbage fi).
  assert (parse_headers garbage packet = Ok (Some (parse_of h ts port flags garbage fi))) as E by by apply parse_encode.
  pose proof (dns_source_port h ts port flags garbage fi Hen Hu) as Hd.
  split; [done|]. rewrite Hd. split; [apply Z.eqb_eq|]. intros Hs.
  destruct (parse_headers_ok garbage packet) as (r & Er & Hr). rewrite E in Er. injection Er as <-.
  destruct (Hr _ eq_refl) as [[Hpay1 Hpay2] _]. unfold ether_header_size in Hpay1.
  unfold packet_handler. rewrite E. cbn [rbind]. rewrite Hd, Hs, Z.eqb_refl.
  apply handle_dns_over_reads; lia.
Qed.

Lemma dns_branch_port_and_over_read_witness : exists p,
  parse_headers 0 (encode_packet (sample_hash 53 L4_UDP) 7 300 0 udp_fillers4 [1; 2; 3]) = Ok (Some p) /\
  (is_dns p = true <-> src_port (sample_hash 53 L4_UDP) = 13568).
Proof.
  destruct (dns_branch_port_and_over_read (sample_hash 53 L4_UDP) 7 300 0 0 udp_fillers4 [1; 2; 3]
              (HandlerEnv flow_hashtable_init dns_hashtable_init 5) empty_handler) as (p & E & Hd & _).
  - apply udp_encodable. split; [discriminate|reflexivity].
  - reflexivity.
  - split; [discriminate|reflexivity].
  - split; [discriminate|reflexivity].
  - split; [discriminate|reflexivity].
  - vm_compute. discriminate.
  - exists p. split; [exact E|exact Hd].
Defined.
