(* ===== verification/DnsDb.v ===== *)
(** * DNS database ([dns_db/dns_db.c], [dns_config.h])

    The thread that takes the DNS responses and the expired addresses from the DNS
    ring buffer: the addresses of relevant names are stored in the DNS hash table
    and written to the DNS pipe. The message parser of libresolv and [inet_ntop] are
    parameters; C strings are arrays of characters with a terminating zero. *)

From S2P Require Import Prelude Structs Ringbuffer IdTable FlowTable DnsTable PacketHandler.
From stdpp Require Import strings.
#[local] Open Scope Z_scope.

(** ** The C string functions that are used *)

(** [strnlen(s, maxlen)]: a string that ends in its array. *)
Fixpoint strnlen (s : list Z) (maxlen : nat) {struct maxlen} : res Z :=
  match maxlen with
  | O => Ok 0
  | S n =>
      match s with
      | [] => UB
      | c :: s' => if c =? 0 then Ok 0 else let! l := strnlen s' n in Ok (l + 1)
      end
  end.

(** [strncmp(a, b, n)]. *)
Fixpoint strncmp (a b : list Z) (n : nat) {struct n} : res Z :=
  match n with
  | O => Ok 0
  | S n' =>
      match a, b with
      | x :: a', y :: b' =>
          if x =? y then (if x =? 0 then Ok 0 else strncmp a' b' n') else Ok (x - y)
      | _, _ => UB
      end
  end.

(** ** Configuration *)

Definition MAX_DNSDB_DOMAIN_LENGTH : Z := 64.
(** A row of the array: the characters, padded with zeros. *)
Definition domain_row (s : string) : list Z :=
  chars s ++ replicate (Z.to_nat MAX_DNSDB_DOMAIN_LENGTH - length (chars s)) 0.
Definition RELEVANT_DOMAIN_NAMES : list (list Z) := [domain_row "googlevideo.com"%string].
(** [sizeof(RELEVANT_DOMAIN_NAMES)], in bytes. *)
Definition sizeof_domain_names : Z := Z.of_nat (length RELEVANT_DOMAIN_NAMES) * MAX_DNSDB_DOMAIN_LENGTH.

(** Constants of the system headers. *)
Definition NS_MAXDNAME : Z := 1025.
Definition ns_t_a : Z := 1.
Definition ns_t_aaaa : Z := 28.

(** ** libresolv

    A parsed message, the number of records of its answer section and the record of
    an index. A record has the array of its name, its type and time to live, and the
    offset of its data in the message. *)
Record ns_rr : Type := NsRr { rr_name : list Z; rr_type : Z; rr_ttl : Z; rr_rdata : Z }.

Class Resolver := {
  ns_msg : Type;
  ns_initparse : list Z -> option ns_msg;
  ns_msg_count : ns_msg -> Z;
  ns_parserr : ns_msg -> Z -> option ns_rr }.

(** A line of the DNS pipe, [fprintf(dns_pipe, "%s,%d\n", buf, ttl)]. *)
Definition dns_line : Type := list Z * Z.

(** A [for] loop that may return from the function. *)
Fixpoint for_return {R} (body : Z -> res (option R)) (l : list Z) : res (option R) :=
  match l with
  | [] => Ok None
  | x :: l' =>
      let! r := body x in
      match r with Some r => Ok (Some r) | None => for_return body l' end
  end.

(** ** Operations *)

(** The array [pkt.pkt] of an item: the rest of the initializer is zero. *)
Definition pkt_array (pkt : list Z) : list Z :=
  pkt ++ replicate (Z.to_nat MAX_DNS_PKT_LEN - length pkt) 0.

(** The suffix test of one entry of the list. *)
Definition matches_entry (name : list Z) (name_len : Z) (entry : Z) : res bool :=
  match RELEVANT_DOMAIN_NAMES !! Z.to_nat entry with
  | None => UB
  | Some domain =>
      let! entry_len := strnlen domain (Z.to_nat MAX_DNSDB_DOMAIN_LENGTH) in
      if entry_len <=? name_len then
        let! c := strncmp (drop (Z.to_nat (name_len - entry_len)) name) domain (Z.to_nat entry_len) in
        Ok (c =? 0)
      else Ok false
  end.

Section operations.
Context `{Resolver} (inet_ntop : Z -> list Z -> list Z).

(** The text of the address: [AF_INET] is 2 and [AF_INET6] is 10. *)
Definition export_key (key : dns_hashtable_key_t) (type ttl : Z) : list dns_line :=
  if type =? ns_t_a then [(inet_ntop 2 (le_bytes 4 (addr_ipv4 (dk_addr key))), i32 ttl)]
  else if type =? ns_t_aaaa then [(inet_ntop 10 (addr_ipv6 (dk_addr key)), i32 ttl)]
  else [].

(** The key of a record: [key] was zeroed and its [type] is never set. *)
Definition record_key (pkt : list Z) (rr : ns_rr) : res dns_hashtable_key_t :=
  if rr_type rr =? ns_t_a then
    let! v := int_at (pkt_array pkt) (rr_rdata rr) 4 in
    Ok (DnsKey 0 (addr_set_ipv4 0 v))
  else
    let! v := int_at (pkt_array pkt) (rr_rdata rr) 16 in
    Ok (DnsKey 0 v).

(** What a matching record does. *)
Definition store_record (now : Z) (pkt : list Z) (rr : ns_rr) (t : dns_hashtable_t)
    : res (dns_hashtable_t * list dns_line) :=
  let! key := record_key pkt rr in
  let! '(_, t) := dns_hashtable_add_or_change t key (now + u32 (rr_ttl rr)) in
  Ok (t, export_key key (rr_type rr) (u32 (rr_ttl rr))).

(** The body of the loop over the records; [Some] is a [return]. *)
Definition parse_record (now : Z) (pkt : list Z) (msg : ns_msg) (t : dns_hashtable_t) (rr_num : Z)
    : res (option (dns_hashtable_t * list dns_line)) :=
  match ns_parserr msg rr_num with
  | None => Ok (Some (t, []))
  | Some rr =>
      if negb (rr_type rr =? ns_t_a) && negb (rr_type rr =? ns_t_aaaa) then Ok None
      else
        let! name_len := strnlen (rr_name rr) (Z.to_nat NS_MAXDNAME) in
        for_return
          (fun entry =>
             let! m := matches_entry (rr_name rr) name_len entry in
             if m : bool then let! r := store_record now pkt rr t in Ok (Some r)
             else Ok None)
          (seqZ 0 sizeof_domain_names)
  end.

Definition parse_dns_packet (now : Z) (len : Z) (pkt : list Z) (t : dns_hashtable_t)
    : res (dns_hashtable_t * list dns_line) :=
  match ns_initparse (take (Z.to_nat len) (pkt_array pkt)) with
  | None => Ok (t, [])
  | Some msg =>
      let! r := for_return (parse_record now pkt msg t) (seqZ 0 (ns_msg_count msg)) in
      Ok (default (t, []) r)
  end.

(** The [switch] of [dns_db_thread]; the pipe is the list of the lines written. *)
Definition dns_command (now : Z) (item : dns_item_t) (st : dns_hashtable_t * list dns_line)
    : res (dns_hashtable_t * list dns_line) :=
  let '(t, pipe) := st in
  match item with
  | DNS_ADD_PKT len pkt =>
      let! '(t, lines) := parse_dns_packet now len pkt t in
      Ok (t, pipe ++ lines)
  | DNS_REMOVE_IP address =>
      let! '(_, t) := dns_hashtable_remove t address in
      Ok (t, pipe)
  end.

(** The inner loop of the thread, at one reading of the clock. *)
Definition dns_drain (now : Z) (st : dns_hashtable_t * list dns_line) (ring : dns_ring) :=
  ring_drain DNS_RINGBUFFER_SIZE (dns_command now) st ring.
End operations.

(** ** Proofs *)

(** *** Strings *)

Definition text (s : list Z) : Prop := Forall (fun c => c <> 0) s.
(** An array that holds the string [s]. *)
Definition holds_string (a s : list Z) : Prop := text s /\ exists rest, a = s ++ 0 :: rest.

Lemma strnlen_ok s rest n : text s -> (length s < n)%nat -> strnlen (s ++ 0 :: rest) n = Ok (Z.of_nat (length s)).
Proof.
  intros Hs. revert n. induction Hs as [|c s Hc _ IH]; intros [|n] Hn; cbn [length] in *; try lia; [done|].
  cbn [app strnlen]. rewrite (proj2 (Z.eqb_neq _ _) Hc), IH by lia. cbn [rbind]. f_equal. lia.
Qed.

Lemma strncmp_ok x d r1 r2 :
  text d -> length x = length d ->
  exists c, strncmp (x ++ r1) (d ++ r2) (length d) = Ok c /\ (c =? 0) = bool_decide (x = d).
Proof.
  intros Hd. revert x. induction Hd as [|c d Hc _ IH]; intros [|y x] Hl; try discriminate Hl.
  { exists 0. split; [reflexivity|]. symmetry. by apply bool_decide_eq_true_2. }
  cbn [length app strncmp] in *. destruct (Z.eqb_spec y c) as [->|Hn].
  - rewrite (proj2 (Z.eqb_neq _ _) Hc). destruct (IH x) as (v & -> & Ev); [cbn in Hl; lia|]. exists v. split; [done|].
    rewrite Ev. apply bool_decide_ext. split; [by intros ->|congruence].
  - exists (y - c). split; [done|]. rewrite bool_decide_false by congruence. apply Z.eqb_neq. lia.
Qed.

Definition domain : list Z := chars "googlevideo.com".
Lemma domain_text : text domain.
Proof. unfold text. apply Forall_forall. intros c Hc Ec. subst. revert Hc. by apply (bool_decide_eq_false_1 (0 ∈ domain)). Qed.

Lemma suffix_drop (d n : list Z) :
  (length d <= length n)%nat -> drop (length n - length d) n = d <-> d `suffix_of` n.
Proof.
  intros Hl. split.
  - intros E. exists (take (length n - length d) n). by rewrite <- E at 2; rewrite take_drop.
  - intros [k ->]. rewrite length_app. by rewrite drop_app_length' by lia.
Qed.

Lemma matches_domain a name :
  holds_string a name ->
  matches_entry a (Z.of_nat (length name)) 0 = Ok (bool_decide (domain `suffix_of` name)).
Proof.
  intros [Ht (rest & ->)]. unfold matches_entry.
  change (RELEVANT_DOMAIN_NAMES !! Z.to_nat 0) with (Some (domain ++ 0 :: replicate 48 0)). cbn iota.
  rewrite strnlen_ok by (apply domain_text || (apply Nat.ltb_lt; reflexivity)). cbn [rbind].
  destruct (Z.leb_spec (Z.of_nat (length domain)) (Z.of_nat (length name))) as [Hl|Hl].
  - replace (Z.to_nat (Z.of_nat (length name) - Z.of_nat (length domain))) with (length name - length domain)%nat by lia.
    rewrite drop_app_le, Nat2Z.id by lia.
    destruct (strncmp_ok (drop (length name - length domain) name) domain (0 :: rest) (0 :: replicate 48 0) domain_text)
      as (c & -> & Ec); [rewrite length_drop; lia|]. cbn [rbind]. rewrite Ec. f_equal.
    apply bool_decide_ext, suffix_drop. lia.
  - rewrite bool_decide_false; [done|]. intros Hs%suffix_length. lia.
Qed.

Lemma matches_beyond a len : matches_entry a len 1 = UB.
Proof. done. Qed.

(** *** The records *)

Lemma for_return_skip {R} (body : Z -> res (option R)) l1 l2 :
  (forall x, x ∈ l1 -> body x = Ok None) -> for_return body (l1 ++ l2) = for_return body l2.
Proof.
  induction l1 as [|x l1 IH]; intros Hb; [done|]. cbn [app for_return].
  rewrite Hb by left. cbn [rbind]. apply IH. intros y Hy. apply Hb. by right.
Qed.

Lemma for_return_none {R} (body : Z -> res (option R)) l :
  (forall x, x ∈ l -> body x = Ok None) -> for_return body l = Ok None.
Proof. intros Hb. rewrite <- (app_nil_r l). by rewrite for_return_skip. Qed.

Definition address_record (rr : ns_rr) : bool := (rr_type rr =? ns_t_a) || (rr_type rr =? ns_t_aaaa).

(** The key of the address of a record: its type stays 0. *)
Definition stored_key (pkt : list Z) (rr : ns_rr) : dns_hashtable_key_t :=
  let size := if rr_type rr =? ns_t_a then 4 else 16 in
  DnsKey 0 (le_value (take (Z.to_nat size) (drop (Z.to_nat (rr_rdata rr)) (pkt_array pkt)))).

Definition rdata_inside (pkt : list Z) (rr : ns_rr) : Prop :=
  0 <= rr_rdata rr /\ rr_rdata rr + (if rr_type rr =? ns_t_a then 4 else 16) <= Z.of_nat (length (pkt_array pkt)).

Lemma int_at_inside packet offset size :
  0 <= offset -> 0 <= size -> offset + size <= Z.of_nat (length packet) ->
  int_at packet offset size = Ok (le_value (take (Z.to_nat size) (drop (Z.to_nat offset) packet))).
Proof.
  intros Ho Hs Hl. unfold int_at, bytes_at.
  by rewrite (proj2 (Z.leb_le _ _) Ho), (proj2 (Z.leb_le _ _) Hs), (proj2 (Z.leb_le _ _) Hl).
Qed.

Lemma record_key_type pkt rr key : record_key pkt rr = Ok key -> dk_type key = 0.
Proof. unfold record_key. case_match; intros (v & _ & [= <-])%rbind_Ok; done. Qed.

Lemma record_key_ok pkt rr :
  rdata_inside pkt rr -> Forall is_byte (pkt_array pkt) -> record_key pkt rr = Ok (stored_key pkt rr).
Proof.
  intros [H0 Hl] Hb. unfold record_key, stored_key. case_match; rewrite int_at_inside by lia; [|done].
  cbn [rbind]. rewrite addr_set_ipv4_zero; [done|].
  set (bs := take _ _).
  assert (length bs = 4%nat) as El by (unfold bs; rewrite length_take, length_drop; lia).
  change (2 ^ 32) with (2 ^ (8 * Z.of_nat 4)). rewrite <- El. apply le_value_bound.
  unfold bs. by apply Forall_take, Forall_drop.
Qed.

Section resolver.
Context `{Resolver} (inet_ntop : Z -> list Z -> list Z).

Lemma store_record_ok now pkt rr t M :
  dns_rep t M -> Z.of_nat (size M) < DNS_HASHTABLE_SIZE ->
  rdata_inside pkt rr -> Forall is_byte (pkt_array pkt) ->
  exists t', store_record inet_ntop now pkt rr t =
      Ok (t', export_key inet_ntop (stored_key pkt rr) (rr_type rr) (u32 (rr_ttl rr))) /\
    dns_rep t' (<[dns_key_bytes (stored_key pkt rr) := now + u32 (rr_ttl rr)]> M).
Proof.
  intros Hr Hroom Hi Hb. unfold store_record. rewrite record_key_ok by done. cbn [rbind].
  destruct (dns_add_ok t M Hr Hroom (stored_key pkt rr) (now + u32 (rr_ttl rr))) as (t' & -> & Hr').
  by exists t'.
Qed.

(** The loop over the entries of the list: entry 0, or out of the array. *)
Lemma parse_record_ok now pkt msg t i rr name :
  ns_parserr msg i = Some rr -> address_record rr = true ->
  holds_string (rr_name rr) name -> Z.of_nat (length name) < NS_MAXDNAME ->
  parse_record inet_ntop now pkt msg t i =
    if bool_decide (domain `suffix_of` name)
    then let! r := store_record inet_ntop now pkt rr t in Ok (Some r) else UB.
Proof.
  intros E Ha Hn Hl. unfold parse_record. rewrite E. unfold address_record in Ha.
  rewrite <- negb_orb, Ha. cbn [negb]. pose proof Hn as [Ht (rest & En)]. rewrite En at 1.
  rewrite strnlen_ok by (done || (unfold NS_MAXDNAME in *; lia)). cbn [rbind].
  change (seqZ 0 sizeof_domain_names) with (0 :: 1 :: seqZ 2 62). cbn [for_return].
  rewrite (matches_domain _ _ Hn). cbn [rbind].
  destruct (bool_decide _).
  - by destruct (store_record _ _ _ _ _).
  - cbn [rbind]. by rewrite matches_beyond.
Qed.

Lemma parse_record_skip now pkt msg t i rr :
  ns_parserr msg i = Some rr -> address_record rr = false ->
  parse_record inet_ntop now pkt msg t i = Ok None.
Proof.
  intros E Ha. unfold parse_record. rewrite E. unfold address_record in Ha.
  by rewrite <- negb_orb, Ha.
Qed.

(** The first address record decides. *)
Lemma parse_first_address now len pkt t msg i rr name :
  ns_initparse (take (Z.to_nat len) (pkt_array pkt)) = Some msg ->
  0 <= i < ns_msg_count msg ->
  (forall j, 0 <= j < i -> exists rr', ns_parserr msg j = Some rr' /\ address_record rr' = false) ->
  ns_parserr msg i = Some rr -> address_record rr = true ->
  holds_string (rr_name rr) name -> Z.of_nat (length name) < NS_MAXDNAME ->
  parse_dns_packet inet_ntop now len pkt t =
    if bool_decide (domain `suffix_of` name) then store_record inet_ntop now pkt rr t else UB.
Proof.
  intros Hm Hi Hskip Hrr Ha Hn Hl. unfold parse_dns_packet. rewrite Hm.
  replace (ns_msg_count msg) with (i + (ns_msg_count msg - i)) by lia.
  rewrite seqZ_app by lia. rewrite for_return_skip.
  2: { intros j Hj%elem_of_seqZ0. destruct (Hskip j Hj) as (rr' & E' & Ha').
       by apply (parse_record_skip now pkt msg t j rr'). }
  rewrite Z.add_0_l, seqZ_cons by lia. cbn [for_return].
  rewrite (parse_record_ok now pkt msg t i rr name) by done.
  destruct (bool_decide _); [|done]. by destruct (store_record inet_ntop now pkt rr t).
Qed.

(** A command adds at most one key, of type 0. *)
Definition untyped (M : dns_map) : Prop :=
  forall k v, M !! k = Some v -> exists a, k = dns_key_bytes (DnsKey 0 a).

Lemma for_return_inv {R} (body : Z -> res (option R)) l r :
  for_return body l = Ok (Some r) -> exists x, x ∈ l /\ body x = Ok (Some r).
Proof.
  induction l as [|x l IH]; [done|]. cbn [for_return]. intros (o & E & Hk)%rbind_Ok. destruct o as [r'|].
  - injection Hk as ->. exists x. split; [left|done].
  - destruct (IH Hk) as (y & Hy & Ey). exists y. split; [by right|done].
Qed.

Definition grown (M M' : dns_map) : Prop :=
  untyped M' /\ Z.of_nat (size M') <= Z.of_nat (size M) + 1.

Lemma store_record_untyped now pkt rr t M t' lines :
  dns_rep t M -> Z.of_nat (size M) < DNS_HASHTABLE_SIZE -> untyped M ->
  store_record inet_ntop now pkt rr t = Ok (t', lines) ->
  exists M', dns_rep t' M' /\ grown M M'.
Proof.
  intros Hr Hroom Hu. unfold store_record. intros (key & Ek & Hs)%rbind_Ok. apply record_key_type in Ek.
  destruct (dns_add_ok t M Hr Hroom key (now + u32 (rr_ttl rr))) as (t1 & E & Hr1). rewrite E in Hs.
  cbn [rbind] in Hs. injection Hs as <- _. eexists. split; [exact Hr1|]. split.
  - intros k v. rewrite lookup_insert. case_decide as Ed; [|apply Hu]. intros _. subst k.
    exists (dk_addr key). by destruct key; cbn in *; subst.
  - destruct (M !! dns_key_bytes key) eqn:El.
    + rewrite map_size_insert_Some by eauto. lia.
    + rewrite map_size_insert_None by done. lia.
Qed.

Lemma parse_dns_packet_untyped now len pkt t M t' lines :
  dns_rep t M -> Z.of_nat (size M) < DNS_HASHTABLE_SIZE -> untyped M ->
  parse_dns_packet inet_ntop now len pkt t = Ok (t', lines) ->
  exists M', dns_rep t' M' /\ grown M M'.
Proof.
  intros Hr Hroom Hu. assert (exists M', dns_rep t M' /\ grown M M') as Hsame
    by (exists M; split; [done|split; [done|lia]]).
  unfold parse_dns_packet. destruct (ns_initparse _) as [msg|]; [|intros [= <- _]; exact Hsame].
  intros (r & E & Hk)%rbind_Ok. destruct r as [[t1 l1]|]; cbn in Hk; injection Hk as <- <-; [|exact Hsame].
  apply for_return_inv in E as (i & _ & E). unfold parse_record in E.
  destruct (ns_parserr msg i) as [rr|]; [|injection E as <- _; exact Hsame].
  destruct (_ && _); [done|]. apply rbind_Ok in E as (n & _ & E).
  apply for_return_inv in E as (entry & _ & E). apply rbind_Ok in E as (m & _ & E).
  destruct m; [|done]. apply rbind_Ok in E as (r & E & [= ->]).
  by apply (store_record_untyped now pkt rr t M t1 l1).
Qed.

Lemma dns_command_untyped now item t pipe M st' :
  dns_rep t M -> Z.of_nat (size M) < DNS_HASHTABLE_SIZE -> untyped M ->
  dns_command inet_ntop now item (t, pipe) = Ok st' ->
  exists M', dns_rep st'.1 M' /\ grown M M'.
Proof.
  intros Hr Hroom Hu. destruct item as [len pkt|key]; cbn [dns_command].
  - intros ([t1 lines] & E & [= <-])%rbind_Ok. by apply (parse_dns_packet_untyped now len pkt t M t1 lines).
  - intros ([ret t1] & E & [= <-])%rbind_Ok. pose proof (dns_remove_ok t M key Hr Hroom) as Hrm.
    destruct (M !! dns_key_bytes key) eqn:Ek.
    + destruct Hrm as (t2 & E' & Hr'). rewrite E in E'. injection E' as _ <-.
      exists (delete (dns_key_bytes key) M). split; [done|]. split.
      * intros k v [_ Hk]%lookup_delete_Some. by apply (Hu k v).
      * rewrite map_size_delete_Some by eauto. lia.
    + rewrite E in Hrm. injection Hrm as _ <-. exists M. split; [done|]. split; [done|lia].
Qed.

(** An expired address is forgotten. *)
Lemma dns_command_removal now key t pipe M :
  dns_rep t M -> Z.of_nat (size M) < DNS_HASHTABLE_SIZE ->
  exists t', dns_command inet_ntop now (DNS_REMOVE_IP key) (t, pipe) = Ok (t', pipe) /\
    dns_rep t' (delete (dns_key_bytes key) M).
Proof.
  intros Hr Hroom. pose proof (dns_remove_ok t M key Hr Hroom) as Hrm. cbn [dns_command].
  destruct (M !! dns_key_bytes key) eqn:Ek.
  - destruct Hrm as (t' & -> & Hr'). by exists t'.
  - rewrite Hrm. exists t. split; [done|]. by rewrite delete_id.
Qed.

(** A history of the thread: each item with the second at which it is handled. *)
Definition dns_history (log : list (Z * dns_item_t)) (st : dns_hashtable_t * list dns_line) :=
  foldM (fun '(now, item) st => dns_command inet_ntop now item st) log st.

Lemma dns_history_untyped log t pipe M st' :
  dns_rep t M -> untyped M -> Z.of_nat (size M) + Z.of_nat (length log) < DNS_HASHTABLE_SIZE ->
  dns_history log (t, pipe) = Ok st' ->
  exists M', dns_rep st'.1 M' /\ untyped M' /\ Z.of_nat (size M') < DNS_HASHTABLE_SIZE.
Proof.
  revert t pipe M. induction log as [|[now item] log IH]; intros t pipe M Hr Hu Hl Hrun; cbn [length] in Hl.
  - injection Hrun as <-. exists M. split_and!; [done|done|lia].
  - cbn [dns_history foldM] in Hrun. apply rbind_Ok in Hrun as ([t1 p1] & E & Hrun).
    destruct (dns_command_untyped now item t pipe M (t1, p1) Hr ltac:(lia) Hu E) as (M1 & Hr1 & Hu1 & Hs1).
    apply (IH t1 p1 M1 Hr1 Hu1); [lia|exact Hrun].
Qed.
End resolver.

Lemma typed_key_absent M address proto :
  untyped M -> proto = L3_IPV4 \/ proto = L3_IPV6 -> M !! dns_key_bytes (toDnsHashtableKey address proto) = None.
Proof.
  intros Hu Hp. destruct (M !! _) eqn:E; [|done]. exfalso. apply Hu in E as [a E].
  unfold dns_key_bytes in E. apply app_inj_len in E as [E _]; [|by rewrite !length_le_bytes].
  apply le_bytes_inj in E; destruct Hp as [-> | ->]; done.
Qed.

(** A table without addresses of packets: nothing is relevant. *)
Lemma nothing_relevant M now ft flags known :
  untyped M -> l3_proto (ft_h ft) = L3_IPV4 \/ l3_proto (ft_h ft) = L3_IPV6 ->
  spec_session M ft = ft /\ exists commands, spec_commands known now M ft flags = (commands, []) /\
    forall ft', PKT_ADD_FLOW ft' ∉ commands.
Proof.
  intros Hu Hp. pose proof (fun a => typed_key_absent M a _ Hu Hp) as Hn.
  split.
  - unfold spec_session. rewrite !bool_decide_false; [done| |]; rewrite Hn; by intros [].
  - unfold spec_commands, spec_heuristic, relevance. rewrite !Hn.
    repeat case_match; (eexists; split; [reflexivity|]); intros ft' Hin; simplify_eq/=; set_solver.
Qed.

Lemma queue_puts_elem {A} size (q items : list A) x :
  x ∈ queue_puts size q items -> x ∈ q \/ x ∈ items.
Proof.
  revert q. induction items as [|y items IH]; intros q; cbn [queue_puts foldl]; [by left|].
  intros Hx. apply IH in Hx as [Hx|Hx]; [|right; by right]. revert Hx. unfold queue_put. case_decide; cbn [snd].
  - by left.
  - rewrite elem_of_app, list_elem_of_singleton. intros [?| ->]; [by left|right; by left].
Qed.

(** ** Properties *)

(** Claim C28. The first address record (A or AAAA) of the answer section decides what
    a DNS response does. When its name ends with the relevant domain, the address of
    the record is stored until the sum of the clock and its time to live, one line
    with the address and the time to live is written to the pipe and the other records
    are ignored. When it does not, the loop over the list of domains runs on to the
    size of the list in bytes and reads beyond it. *)
Theorem dns_response_first_address_decides `{Resolver} inet_ntop now len pkt t M msg i rr name :
  ns_initparse (take (Z.to_nat len) (pkt_array pkt)) = Some msg ->
  0 <= i < ns_msg_count msg ->
  (forall j, 0 <= j < i -> exists rr', ns_parserr msg j = Some rr' /\ address_record rr' = false) ->
  ns_parserr msg i = Some rr -> address_record rr = true ->
  holds_string (rr_name rr) name -> Z.of_nat (length name) < NS_MAXDNAME ->
  rdata_inside pkt rr -> Forall is_byte (pkt_array pkt) ->
  dns_rep t M -> Z.of_nat (size M) < DNS_HASHTABLE_SIZE ->
  if bool_decide (domain `suffix_of` name) then
    exists t', parse_dns_packet inet_ntop now len pkt t =
        Ok (t', export_key inet_ntop (stored_key pkt rr) (rr_type rr) (u32 (rr_ttl rr))) /\
      dns_rep t' (<[dns_key_bytes (stored_key pkt rr) := now + u32 (rr_ttl rr)]> M)
  else parse_dns_packet inet_ntop now len pkt t = UB.
Proof.
  intros Hm Hi Hskip Hrr Ha Hn Hl Hin Hb Hr Hroom.
  rewrite (parse_first_address inet_ntop now len pkt t msg i rr name) by done.
  destruct (bool_decide _); [|done].
  destruct (store_record_ok inet_ntop now pkt rr t M Hr Hroom Hin Hb) as (t' & -> & Hr').
  exists t'. split; [done|exact Hr'].
Qed.

(** A resolver that finds the given records in every message. *)
Definition records_resolver (rs : list ns_rr) : Resolver :=
  Build_Resolver (list ns_rr) (fun _ => Some rs) (fun msg => Z.of_nat (length msg))
    (fun msg i => msg !! Z.to_nat i).
Definition sample_rr (name : string) : ns_rr := NsRr (chars name ++ [0]) ns_t_a 300 0.
Lemma sample_pkt_bytes : Forall is_byte (pkt_array [10; 0; 0; 1]).
Proof. apply Forall_app. split; [repeat constructor; done|]. apply Forall_replicate. done. Qed.

Lemma dns_response_first_address_decides_witness : exists t',
  parse_dns_packet (H := records_resolver [NsRr [0] 5 300 0; sample_rr "r1.googlevideo.com"]) (fun _ a => a)
    1000 2048 [10; 0; 0; 1] dns_hashtable_init = Ok (t', [([10; 0; 0; 1], 300)]) /\
  dns_rep t' {[dns_key_bytes (DnsKey 0 0x0100000A) := 1300]}.
Proof.
  pose proof (dns_response_first_address_decides
    (H := records_resolver [NsRr [0] 5 300 0; sample_rr "r1.googlevideo.com"]) (fun _ a => a)
    1000 2048 [10; 0; 0; 1] dns_hashtable_init ∅ [NsRr [0] 5 300 0; sample_rr "r1.googlevideo.com"] 1
    (sample_rr "r1.googlevideo.com") (chars "r1.googlevideo.com")) as Hd.
  destruct Hd as (t' & E & Hr).
  - reflexivity.
  - split; [discriminate|reflexivity].
  - intros j Hj. assert (j = 0) as -> by lia. exists (NsRr [0] 5 300 0). split; reflexivity.
  - reflexivity.
  - reflexivity.
  - split; [|by exists []]. apply (bool_decide_unpack _). vm_compute. exact I.
  - reflexivity.
  - split; [discriminate|]. vm_compute. discriminate.
  - exact sample_pkt_bytes.
  - exact dns_rep_init.
  - rewrite map_size_empty. reflexivity.
  - exists t'. split; [exact E|exact Hr].
Defined.

(** Claim C38. The addresses that the DNS database stores carry the type 0, which the
    packet handler's keys never have: after any history of fewer than
    [DNS_HASHTABLE_SIZE] items that the thread survives, no packet is relevant.
    Whatever its headers, the handler adds no flow and sends no address for removal. *)
Theorem dns_database_makes_no_flow_relevant `{Resolver} inet_ntop log t pipe flows now F packet st qp qd garbage p :
  dns_history inet_ntop log (dns_hashtable_init, []) = Ok (t, pipe) ->
  Z.of_nat (length log) < DNS_HASHTABLE_SIZE ->
  flow_rep flows F -> handler_rep st qp qd ->
  parse_headers garbage packet = Ok (Some p) -> is_dns p = false ->
  exists st' qp', packet_handler garbage (HandlerEnv flows t now) packet st = Ok st' /\
    handler_rep st' qp' qd /\ forall ft, PKT_ADD_FLOW ft ∈ qp' -> PKT_ADD_FLOW ft ∈ qp.
Proof.
  intros Hlog Hl HF Hst E Hd.
  destruct (dns_history_untyped inet_ntop log _ [] ∅ (t, pipe) dns_rep_init) as (M & HM & Hu & Hroom).
  { intros k v. by rewrite lookup_empty. }
  { by rewrite map_size_empty. }
  { done. }
  set (env := HandlerEnv flows t now). assert (env_rep env F M) as Henv by by split.
  destruct (parse_headers_ok garbage packet) as (r & Er & Hr). rewrite E in Er. injection Er as <-.
  destruct (Hr p eq_refl) as (_ & _ & Hp & _).
  unfold packet_handler. rewrite E. cbn [rbind]. rewrite Hd, (setup_session_hash_ok env F M Henv). cbn [rbind].
  set (known := bool_decide (is_Some (F !! h_bytes (ft_h (pa_ft p))))).
  destruct (nothing_relevant M now (pa_ft p) (th_flags (pa_l4 p)) known Hu Hp) as (-> & commands & Ec & Hc).
  destruct (process_packet_ok env F M Henv (pa_ft p) (th_flags (pa_l4 p)) st qp qd Hst) as (st' & -> & Hst').
  cbn [now_sec env] in Hst'. fold known in Hst'. rewrite Ec in Hst'. exists st', (queue_puts PACKET_RINGBUFFER_SIZE qp commands).
  split; [done|]. split; [exact Hst'|]. intros ft [?|Hin]%queue_puts_elem; [done|]. by apply Hc in Hin.
Qed.

(** The database has stored 10.0.0.1, the handler sees a packet from it. *)
Lemma dns_database_makes_no_flow_relevant_witness : exists t pipe st' qp',
  dns_history (H := records_resolver [sample_rr "r1.googlevideo.com"]) (fun _ a => a)
    [(1000, DNS_ADD_PKT 2048 [1; 0; 0; 10])] (dns_hashtable_init, []) = Ok (t, pipe) /\
  packet_handler 0 (HandlerEnv flow_hashtable_init t 1001)
    (encode_packet (sample_hash 1234 L4_TCP) 7 300 0 sample_fillers4 []) empty_handler = Ok st' /\
  handler_rep st' qp' [] /\ forall ft, PKT_ADD_FLOW ft ∉ qp'.
Proof.
  destruct (dns_history (H := records_resolver [sample_rr "r1.googlevideo.com"]) (fun _ a => a)
    [(1000, DNS_ADD_PKT 2048 [1; 0; 0; 10])] (dns_hashtable_init, [])) as [[t pipe]| |] eqn:E;
    [|vm_compute in E; discriminate E|vm_compute in E; discriminate E].
  destruct (dns_database_makes_no_flow_relevant (H := records_resolver [sample_rr "r1.googlevideo.com"])
    (fun _ a => a) [(1000, DNS_ADD_PKT 2048 [1; 0; 0; 10])] t pipe flow_hashtable_init 1001 ∅
    (encode_packet (sample_hash 1234 L4_TCP) 7 300 0 sample_fillers4 []) empty_handler [] [] 0
    (parse_of (sample_hash 1234 L4_TCP) 7 300 0 0 sample_fillers4)) as (st' & qp' & E' & Hr & Hn).
  - exact E.
  - reflexivity.
  - exact flow_rep_init.
  - exact empty_handler_rep.
  - vm_compute. reflexivity.
  - reflexivity.
  - exists t, pipe, st', qp'. split; [reflexivity|]. split; [exact E'|]. split; [exact Hr|].
    intros ft Hin. destruct (not_elem_of_nil _ (Hn ft Hin)).
Defined.
