(* ===== verification/Export.v ===== *)
(** * Export of the features ([export/export_features.c])

    The exporter thread waits for the next second, reads the features of the data
    plane and writes one line for each session to the feature pipe. A line is the
    list of its fields; [inet_ntop] is a parameter. The CSV variant (no
    [EXPORT_NUMPY]) is modelled, with and without the columns of [DEBUG]. *)

From S2P Require Import Prelude Structs Ringbuffer Probe IndexMap IdTable SessionTable DpApi Features.
From stdpp Require Import strings.
#[local] Open Scope Z_scope.

(** ** Data *)

Inductive field : Type := Text (s : list Z) | Name (s : string) | Num (z : Z).

Record timespec : Type := Timespec { tv_sec : Z; tv_nsec : Z }.

(** [.name] of the static registers. *)
Definition feature_names : list string :=
  ["count"; "size_log"; "size_log_square"; "size_log_cube"; "iat_log"; "iat_log_square"; "iat_log_cube"]%string.
Definition feature_name (r : feature_register_t) : string :=
  default ""%string (feature_names !! Z.to_nat (reg_id r)).

(** ** Operations *)

Section operations.
Context (DEBUG : bool) (inet_ntop : Z -> address_t -> list Z).

Definition print_session_five_tuple (ft : five_tuple_t) (session_id flow_count : Z) : list field :=
  let af := l3_proto (ft_h ft) in
  let client := if to_server (ft_sh ft) then inet_ntop af (src_addr (ft_h ft))
                else inet_ntop af (dst_addr (ft_h ft)) in
  [Text client; Num (if to_server (ft_sh ft) then 1 else 0); Num (ingress_ts ft); Num flow_count] ++
  (if DEBUG then [Num session_id; Num (dev_port ft)] else []).

Definition print_header (ts : timespec) (features : list feature_register_t) : list (list field) :=
  [ [Num (tv_sec ts); Num (tv_nsec ts)];
    (Name <$> ["uuid"; "clientIP"; "toServer"; "firstPacketDPTs"; "flowCount"]%string) ++
    (if DEBUG then Name <$> ["session_id"; "dev_port"]%string else []) ++
    (Name ∘ feature_name <$> features) ].

(** [features[j]->values[session_id + features[j]->on_egress * offset]] *)
Definition feature_field (session_id : Z) (ft : five_tuple_t) (r : feature_register_t) : res field :=
  let! v := rd (values r) (session_id + on_egress r * session_id_egress_offset ft) in Ok (Num v).

Fixpoint feature_fields (session_id : Z) (ft : five_tuple_t) (features : list feature_register_t)
    : res (list field) :=
  match features with
  | [] => Ok []
  | r :: features =>
      let! f := feature_field session_id ft r in
      let! fs := feature_fields session_id ft features in
      Ok (f :: fs)
  end.

(** The body of the loop over the ids; the state is the lines and [num_flows]. *)
Definition print_flow (t : session_hashtable_t) (features : list feature_register_t) (i : Z)
    (st : list (list field) * Z) : res (list (list field) * Z) :=
  let '(lines, num_flows) := st in
  let! entry_index := rd (s_feature_index_to_entry_map t) i in
  if entry_index =? -1 then Ok (lines, num_flows)
  else
    let! entry := rd (s_entries t) entry_index in
    let session_id := se_value entry in
    let! flow_count := rd (flow_count t) session_id in
    let! fs := feature_fields session_id (se_key entry) features in
    Ok (lines ++ [print_session_five_tuple (se_key entry) session_id flow_count ++ fs], u32 (num_flows + 1)).

Definition print_flow_data (t : session_hashtable_t) (features : list feature_register_t)
    : res (list (list field) * Z) :=
  let! '(lines, num_flows) := foldM (print_flow t features) feature_ids ([], 0) in
  Ok (lines ++ [[]], num_flows).

(** The condition of the waiting loop. *)
Definition interval_elapsed (now last : timespec) : bool :=
  (tv_sec last <? tv_sec now) && (tv_nsec last <=? tv_nsec now).

(** The waiting loop over the readings of the clock, and what is left of them. *)
Fixpoint wait_interval (last : timespec) (clock : list timespec) : option (timespec * list timespec) :=
  match clock with
  | [] => None
  | now :: clock => if interval_elapsed now last then Some (now, clock) else wait_interval last clock
  end.

(** One round of the thread: the lines that it writes. *)
Definition export_round {sw} `{Switch sw} (sec : Z) (ts : timespec) (t : session_hashtable_t) (s : sw) (f : features_t)
    : res (sw * features_t * list (list field)) :=
  let! '(s, f) := read_features sec (egress_feature_to_session_id t) s f in
  let copy := session_hashtable_copy t in
  let! '(lines, _) := print_flow_data copy (features f) in
  Ok (s, f, print_header ts (features f) ++ lines).
End operations.

(** ** Specification *)

(** The line of a session: its tuple, the number of its flows, and each total at the
    index of the pipe on which the feature is counted. *)
Definition session_line (DEBUG : bool) (inet_ntop : Z -> address_t -> list Z) (fc : arr Z)
    (features : list feature_register_t) (id : Z) (ft : five_tuple_t) : list field :=
  print_session_five_tuple DEBUG inet_ntop ft id (aget fc id) ++
  ((fun r => Num (aget (values r) (id + on_egress r * session_id_egress_offset ft))) <$> features).

Definition session_lines (DEBUG : bool) (inet_ntop : Z -> address_t -> list Z) (fc : arr Z)
    (features : list feature_register_t) (M : id_map) (ids : list Z) : list (list field) :=
  omap (fun id => session_line DEBUG inet_ntop fc features id <$> id_owner M id) ids.

Lemma session_lines_cons DEBUG inet_ntop fc features M id ids :
  session_lines DEBUG inet_ntop fc features M (id :: ids) =
    match id_owner M id with
    | Some ft => session_line DEBUG inet_ntop fc features id ft :: session_lines DEBUG inet_ntop fc features M ids
    | None => session_lines DEBUG inet_ntop fc features M ids
    end.
Proof. unfold session_lines. cbn. by destruct (id_owner M id). Qed.

(** What the exporter needs of a register. *)
Definition exportable (r : feature_register_t) : Prop :=
  alen (values r) = FEATURE_SIZE /\ (on_egress r = 0 \/ on_egress r = 1).

(** ** Proofs *)

#[local] Opaque FEATURE_SIZE SESSION_HASHTABLE_SIZE session_hash.

Lemma feature_fields_ok id ft rs :
  Forall exportable rs -> session_storable ft id ->
  feature_fields id ft rs =
    Ok ((fun r => Num (aget (values r) (id + on_egress r * session_id_egress_offset ft))) <$> rs).
Proof.
  intros Hrs [Hid Heg]. unfold egress_index in Heg. induction Hrs as [|r rs [Hl Ho] _ IH]; [done|].
  cbn [feature_fields fmap list_fmap]. unfold feature_field.
  rewrite rd_ok by (rewrite Hl; destruct Ho as [-> | ->]; lia). cbn [rbind]. by rewrite IH.
Qed.

Section table.
Context (us DEBUG : bool) (inet_ntop : Z -> address_t -> list Z) (fc : arr Z).
Context (t : session_hashtable_t) (M : id_map) (rep : session_rep us fc t M) (fc_len : alen fc = FEATURE_SIZE).
#[local] Hint Extern 0 (ProbeEntry session_hashtable_entry_t _) =>
  exact (session_probe_entry us) : typeclass_instances.

(** The index finds the owner of an id. *)
Lemma index_owner i :
  0 <= i < FEATURE_SIZE ->
  let j := aget (s_feature_index_to_entry_map t) i in
  (j = -1 /\ id_owner M i = None) \/
  (0 <= j < alen (s_entries t) /\ se_value (aget (s_entries t) j) = i /\
   id_owner M i = Some (se_key (aget (s_entries t) j)) /\ session_storable (se_key (aget (s_entries t) j)) i).
Proof using rep.
  intros Hi j. pose proof rep as [[He _] [_ Hix _ _]].
  destruct (ix_bwd _ _ _ _ _ Hix i Hi) as [Ej|(Hj & Ho & Hv)].
  - left. split; [done|]. apply id_free_owner. intros k x Hk Ex.
    apply (eo_lookup _ _ _ _ He) in Hk as (a & Ha & Hoa & _ & <-). cbn in Ex.
    destruct (ix_fwd _ _ _ _ _ Hix a Ha Hoa) as [_ Ea]. unfold in_table in Ha.
    rewrite Ex in Ea. lia.
  - right. fold j in Hj, Ho, Hv. pose proof (key_of_slot _ _ _ _ _ He Hj Ho) as Hk. cbn in Hk. rewrite Hv in Hk.
    rewrite (eo_len _ _ _ _ He). split; [exact Hj|]. split; [exact Hv|]. split.
    + eapply id_owner_intro; [|exact Hk]. intros. by eapply session_ids_distinct.
    + exact (session_stored us fc t M _ _ rep Hk).
Qed.

Lemma print_flows_ok rs ids lines n :
  Forall exportable rs -> Forall (fun i => 0 <= i < FEATURE_SIZE) ids ->
  n + Z.of_nat (length ids) < 2 ^ 32 -> 0 <= n ->
  foldM (print_flow DEBUG inet_ntop t rs) ids (lines, n) =
    Ok (lines ++ session_lines DEBUG inet_ntop fc rs M ids,
        n + Z.of_nat (length (session_lines DEBUG inet_ntop fc rs M ids))).
Proof using rep fc_len.
  intros Hrs Hids. revert lines n. induction Hids as [|i ids Hi _ IH]; intros lines n Hn H0.
  { cbn. by rewrite app_nil_r, Z.add_0_r. }
  cbn [foldM length] in *. unfold print_flow at 1.
  pose proof rep as [_ [_ Hix _ Efc]]. rewrite rd_ok by (rewrite (ix_len _ _ _ _ _ Hix); lia). cbn [rbind].
  rewrite session_lines_cons.
  destruct (index_owner i Hi) as [[-> ->]|(Hj & Hv & -> & Hst)].
  - change (-1 =? -1) with true. cbn iota. cbn [rbind]. apply IH; lia.
  - destruct (Z.eqb_spec (aget (s_feature_index_to_entry_map t) i) (-1)); [lia|].
    rewrite rd_ok by lia. cbn [rbind]. rewrite Hv, Efc, rd_ok by lia. cbn [rbind].
    rewrite feature_fields_ok by done. cbn [rbind]. rewrite u32_small, IH by lia.
    f_equal. f_equal; [by rewrite <- app_assoc|cbn [length]; lia].
Qed.
End table.

Lemma length_feature_ids : Z.of_nat (length feature_ids) = FEATURE_SIZE - MIN_SESSION_ID.
Proof. unfold feature_ids. rewrite length_seqZ, Z2Nat.id; [done|]. rewrite FEATURE_SIZE_val. unfold MIN_SESSION_ID. lia. Qed.

Lemma feature_ids_in_range : Forall (fun i => 0 <= i < FEATURE_SIZE) feature_ids.
Proof. apply Forall_forall. intros i Hi. by apply feature_ids_range. Qed.

Lemma print_flow_data_ok us DEBUG inet_ntop fc t M rs :
  session_rep us fc t M -> alen fc = FEATURE_SIZE -> Forall exportable rs ->
  print_flow_data DEBUG inet_ntop t rs =
    Ok (session_lines DEBUG inet_ntop fc rs M feature_ids ++ [[]],
        Z.of_nat (length (session_lines DEBUG inet_ntop fc rs M feature_ids))).
Proof.
  intros Hr Hfc Hrs. unfold print_flow_data.
  rewrite (print_flows_ok us DEBUG inet_ntop fc t M Hr Hfc); [done|done|apply feature_ids_in_range| |done].
  rewrite length_feature_ids, FEATURE_SIZE_val. unfold MIN_SESSION_ID. lia.
Qed.

(** A pass of [read_features] leaves registers that the exporter can print. *)
Lemma passed_exportable {sw} `{Switch sw} (s : sw) rs rs' :
  Forall2 (register_passed s) rs rs' -> Forall register_wf rs' ->
  Forall (fun r => on_egress r = 0 \/ on_egress r = 1) rs ->
  on_egress <$> rs' = on_egress <$> rs /\ Forall exportable rs'.
Proof.
  intros Hpass Hwf Hon.
  assert (on_egress <$> rs' = on_egress <$> rs) as Eon.
  { clear -Hpass. induction Hpass as [|r r' rs rs' Hr _ IH]; [done|]. rewrite !fmap_cons, IH. f_equal. apply Hr. }
  split; [done|].
  apply (Forall_fmap on_egress (fun e => e = 0 \/ e = 1)) in Hon. rewrite <- Eon in Hon. apply Forall_fmap in Hon.
  rewrite Forall_forall in *. intros r Hr. split; [apply (rw_values _ (Hwf r Hr))|exact (Hon r Hr)].
Qed.

(** A whole round: what [read_features] does, and a line per session with the new
    totals. *)
Lemma export_round_ok {sw} `{SwitchLaws sw} DEBUG inet_ntop sec ts us t M (s : sw) f q :
  session_rep us (flow_count t) t M -> alen (flow_count t) = FEATURE_SIZE ->
  registers_ready (features f) -> Forall (fun r => on_egress r = 0 \/ on_egress r = 1) (features f) ->
  alen (last_flow_update f) = FEATURE_SIZE ->
  rb_rep PACKET_RINGBUFFER_SIZE (packet_ringbuffer f) q ->
  exists s' f' ids,
    export_round DEBUG inet_ntop sec ts t s f =
      Ok (s', f', print_header DEBUG ts (features f') ++
                  session_lines DEBUG inet_ntop (flow_count t) (features f') M feature_ids ++ [[]]) /\
    same_but_synced (view s) (view s') /\ registers_ready (features f') /\
    Forall2 (register_passed s') (features f) (features f') /\ Forall exportable (features f') /\
    on_egress <$> features f' = on_egress <$> features f /\
    alen (last_flow_update f') = FEATURE_SIZE /\
    NoDup ids /\ Forall (fun id => exists k ft, M !! k = Some (ft, id)) ids /\
    rb_rep PACKET_RINGBUFFER_SIZE (packet_ringbuffer f') (q ++ (PKT_TIMEOUT_FLOW <$> ids)).
Proof.
  intros Ht Hfc Hready Hon Hlfu Hq. unfold export_round, session_hashtable_copy.
  destruct (read_features_ok sec (egress_feature_to_session_id t) s f q Hready
              (session_egress_length _ _ _ _ Ht) Hlfu Hq)
    as (s' & f' & count & count' & -> & Hv & Hready' & Hpass & _ & _ & _ & Haged & Hq'). cbn [rbind].
  destruct (passed_exportable s' _ _ Hpass (proj1 Hready') Hon) as [Eon Hex].
  rewrite (print_flow_data_ok us DEBUG inet_ntop (flow_count t) t M (features f') Ht Hfc Hex). cbn [rbind].
  unfold timeouts in Hq'. rewrite (list_fmap_compose (aget (egress_feature_to_session_id t)) PKT_TIMEOUT_FLOW) in Hq'.
  eexists s', f', _. split; [reflexivity|]. do 5 (split; [done|]). split; [apply Haged|].
  split; [|split; [|exact Hq']].
  - apply NoDup_fmap_2_strong; [|apply NoDup_sent, NoDup_feature_ids].
    intros i j [Hi Ei]%sent_subset [Hj Ej]%sent_subset E. cbn in E.
    unfold expired in Ei, Ej. rewrite !andb_true_iff, !negb_true_iff, !Z.eqb_neq in Ei, Ej.
    destruct (session_egress us _ _ _ i Ht (feature_ids_range _ Hi) (proj2 Ei)) as (k1 & x1 & K1 & E1 & <-).
    destruct (session_egress us _ _ _ j Ht (feature_ids_range _ Hj) (proj2 Ej)) as (k2 & x2 & K2 & E2 & <-).
    rewrite E, <- E2 in E1. assert (k1 = k2) as -> by (by eapply (session_ids_distinct us); [exact Ht|exact K1|exact K2|exact E1]).
    by simplify_eq.
  - apply Forall_fmap, Forall_forall. intros i [Hi Ei]%sent_subset. cbn.
    unfold expired in Ei. rewrite !andb_true_iff, !negb_true_iff, !Z.eqb_neq in Ei.
    destruct (session_egress us _ _ _ i Ht (feature_ids_range _ Hi) (proj2 Ei)) as (k1 & [ft id] & K1 & E1 & _).
    exists k1, ft. cbn in E1. by rewrite <- E1.
Qed.

(** Nanoseconds. *)
Definition nanos (t : timespec) : Z := tv_sec t * 10 ^ 9 + tv_nsec t.
Definition normal (t : timespec) : Prop := 0 <= tv_nsec t < 10 ^ 9.
Definition at_nanos (n : Z) : timespec := Timespec (n / 10 ^ 9) (n mod 10 ^ 9).

Lemma nanos_at n : nanos (at_nanos n) = n /\ normal (at_nanos n).
Proof.
  unfold nanos, normal, at_nanos; cbn [tv_sec tv_nsec]. split; [|by apply Z.mod_pos_bound].
  pose proof (Z.div_mod n (10 ^ 9) ltac:(done)). lia.
Qed.

Lemma interval_elapsed_iff now last :
  interval_elapsed now last = true <-> tv_sec last < tv_sec now /\ tv_nsec last <= tv_nsec now.
Proof. unfold interval_elapsed. by rewrite andb_true_iff, Z.ltb_lt, Z.leb_le. Qed.

(** ** Properties *)

(** Claim C24. The exporter writes exactly one line for each stored session whose id is
    at least [MIN_SESSION_ID], in the order of the ids: its client, its direction, the
    number of its flows and the total of each feature at the index of the pipe that
    counts it, then an empty line, and it never reads outside of the tables. Every
    line misses one field: the header announces a column [uuid] that is not written. *)
Theorem export_one_line_per_session us DEBUG inet_ntop fc t M rs ts :
  session_rep us fc t M -> alen fc = FEATURE_SIZE -> Forall exportable rs ->
  print_flow_data DEBUG inet_ntop t rs =
    Ok (session_lines DEBUG inet_ntop fc rs M feature_ids ++ [[]],
        Z.of_nat (length (session_lines DEBUG inet_ntop fc rs M feature_ids))) /\
  (forall line, line ∈ session_lines DEBUG inet_ntop fc rs M feature_ids <->
     exists k ft id, M !! k = Some (ft, id) /\ MIN_SESSION_ID <= id /\
       line = session_line DEBUG inet_ntop fc rs id ft) /\
  forall line header, line ∈ session_lines DEBUG inet_ntop fc rs M feature_ids ->
    print_header DEBUG ts rs !! 1%nat = Some header -> length header = S (length line).
Proof.
  intros Hr Hfc Hrs. split; [by apply (print_flow_data_ok us)|].
  assert (forall line, line ∈ session_lines DEBUG inet_ntop fc rs M feature_ids <->
     exists k ft id, M !! k = Some (ft, id) /\ MIN_SESSION_ID <= id /\
       line = session_line DEBUG inet_ntop fc rs id ft) as Hl.
  { intros line. unfold session_lines. rewrite list_elem_of_omap. split.
    - intros (id & Hid%elem_of_feature_ids & Ho).
      destruct (id_owner M id) as [ft|] eqn:Eo; [|done]. injection Ho as <-.
      apply id_owner_elem in Eo as (k & Hk). exists k, ft, id. split_and!; [done|lia|done].
    - intros (k & ft & id & Hk & Hm & ->). exists id. split.
      + apply elem_of_feature_ids. destruct (session_stored us fc t M _ _ Hr Hk) as [Hs _]. cbn in Hs. lia.
      + erewrite id_owner_intro; [done| |exact Hk]. intros. by eapply session_ids_distinct. }
  split; [exact Hl|]. intros line header (k & ft & id & _ & _ & ->)%Hl [= <-].
  unfold session_line, print_session_five_tuple. rewrite !length_app, !length_fmap.
  destruct DEBUG; cbn; rewrite length_fmap; lia.
Qed.

(** One session, inserted in the initial table. *)
Lemma sample_table : exists t,
  session_rep true (amake FEATURE_SIZE 0) t {[session_key true (sample_session 1) := (sample_session 1, 8)]}.
Proof.
  destruct (session_add_ok true (amake FEATURE_SIZE 0) _ ∅ (sample_session 1) 8 (session_rep_init true (amake FEATURE_SIZE 0)))
    as (t & _ & Hr).
  - apply lookup_empty.
  - unfold session_storable, egress_index. rewrite FEATURE_SIZE_val. cbn. lia.
  - intros k x. by rewrite lookup_empty.
  - by exists t.
Qed.

Lemma export_one_line_per_session_witness : exists t lines n,
  print_flow_data false (fun _ a => le_bytes 4 a) t (STATIC_FEATURES_ARRAY (fun _ => 1)) = Ok (lines ++ [[]], n) /\
  session_line false (fun _ a => le_bytes 4 a) (amake FEATURE_SIZE 0) (STATIC_FEATURES_ARRAY (fun _ => 1)) 8
    (sample_session 1) ∈ lines.
Proof.
  destruct sample_table as (t & Hr). exists t.
  destruct (export_one_line_per_session true false (fun _ a => le_bytes 4 a) (amake FEATURE_SIZE 0) t
              {[session_key true (sample_session 1) := (sample_session 1, 8)]}
              (STATIC_FEATURES_ARRAY (fun _ => 1)) (Timespec 1 0)) as (E & Hin & _).
  - exact Hr.
  - reflexivity.
  - repeat apply Forall_cons_2; try (split; [reflexivity|right; reflexivity]). apply Forall_nil_2.
  - eexists _, _. split; [exact E|]. apply Hin. exists (session_key true (sample_session 1)), (sample_session 1), 8.
    split; [apply lookup_singleton_eq|]. split; [discriminate|reflexivity].
Defined.

(** The waiting loop: an accepted reading of the clock is at least one second
    after the last export; and whenever a second has passed, there is an instant less
    than one second later that is accepted, so that a reader of every instant exports
    within two seconds. The bound is needed: a reading can be rejected although more than
    a second has passed, because the fractions of the seconds are compared too. *)
Theorem export_interval_bounds last now :
  normal last -> normal now ->
  (interval_elapsed now last = true -> nanos last + 10 ^ 9 <= nanos now) /\
  (nanos last + 10 ^ 9 <= nanos now ->
     exists d, 0 <= d < 10 ^ 9 /\ interval_elapsed (at_nanos (nanos now + d)) last = true) /\
  (tv_nsec now < tv_nsec last -> interval_elapsed now last = false).
Proof.
  unfold normal. intros Hl Hn. rewrite interval_elapsed_iff. unfold nanos. split; [lia|]. split.
  - intros Hle. destruct (Z.le_gt_cases (tv_nsec last) (tv_nsec now)) as [Hf|Hf].
    + exists 0. split; [lia|]. apply interval_elapsed_iff. cbn [at_nanos tv_sec tv_nsec].
      replace (tv_sec now * 10 ^ 9 + tv_nsec now + 0) with (tv_nsec now + tv_sec now * 10 ^ 9) by lia.
      rewrite Z.div_add, Z.mod_add, Z.div_small, Z.mod_small by lia. lia.
    + exists (tv_nsec last - tv_nsec now). split; [lia|]. apply interval_elapsed_iff. cbn [at_nanos tv_sec tv_nsec].
      replace (tv_sec now * 10 ^ 9 + tv_nsec now + (tv_nsec last - tv_nsec now))
        with (tv_nsec last + tv_sec now * 10 ^ 9) by lia.
      rewrite Z.div_add, Z.mod_add, Z.div_small, Z.mod_small by lia. lia.
  - intros Hf. destruct (interval_elapsed now last) eqn:E; [|done]. apply interval_elapsed_iff in E. lia.
Qed.

Lemma export_interval_bounds_witness :
  exists d, 0 <= d < 10 ^ 9 /\ interval_elapsed (at_nanos (nanos (Timespec 9 100) + d)) (Timespec 1 200) = true.
Proof.
  destruct (export_interval_bounds (Timespec 1 200) (Timespec 9 100)) as (_ & H & _).
  - split; [discriminate|reflexivity].
  - split; [discriminate|reflexivity].
  - apply H. vm_compute. discriminate.
Defined.
