(* ===== verification/Prepare.v ===== *)
(** * Preparation of the data plane ([dataplane/prepare_dataplane.c], [port_config.h])

    What the data plane thread does before its first command: it clears the static
    tables and fills them, configures the ports and fills the forwarding table and the
    array [DEVPORT_MAPPING], which the flow database uses to find the egress pipe of a
    flow. The SDK and the generated entries of [static_tables.h] are parameters; an entry
    of a table is the list of the fields of its match and its action. A call that ends
    the process with [exit(1)] gives [Ok None]. *)

From S2P Require Import Prelude Structs Heap Ringbuffer IdTable FlowTable SessionTable BloomFilter FlowDb.
From stdpp Require Import strings.
#[local] Open Scope Z_scope.

(** ** The SDK *)

(** A table with its entry handles in the order of the iteration. *)
Class TableApi (T : Type) : Type := {
  get_entry_count : T -> option Z;
  get_first_entry_handle : T -> option Z;
  get_next_entry_handles : T -> Z -> Z -> list Z;
  table_delete : T -> Z -> T;
  table_add : T -> list Z -> option T;
  table_reset_default_entry : T -> T;
  handles : T -> list Z;
  entries : T -> list (list Z) }.

(** The documented behaviour: the iteration visits the entries in order, a deletion
    removes the entry and an addition appends one, the default entry is not among the
    entries. *)
Class TableApiLaws (T : Type) `{!TableApi T} : Prop := {
  ta_count t : get_entry_count t = Some (Z.of_nat (length (handles t)));
  ta_first t : get_first_entry_handle t = List.hd_error (handles t);
  ta_next t h l1 l2 n : handles t = l1 ++ h :: l2 -> get_next_entry_handles t h n = take (Z.to_nat n) l2;
  ta_delete t h l1 l2 : handles t = l1 ++ h :: l2 -> handles (table_delete t h) = l1 ++ l2;
  ta_add t e t' : table_add t e = Some t' -> entries t' = entries t ++ [e];
  ta_reset t : handles (table_reset_default_entry t) = handles t;
  ta_entries t : handles t = [] -> entries t = [] }.

(** The ports: [None] is a status other than 0. [bf_pal_port_del_all] gives the ports that
    stay enabled. *)
Class PortApi : Type := {
  bf_pal_port_del_all : list Z -> list Z;
  bf_pal_front_port_to_dev_port_get : Z -> Z -> option Z;
  bf_pal_is_port_internal : Z -> option bool;
  bf_pal_port_add : Z -> Z -> Z -> bool;
  bf_pal_port_enable : Z -> bool }.

(** ** Operations *)

(** The loop of [CLEAR_TABLE] over the collected handles. *)
Definition delete_all {T} `{TableApi T} (hdls : arr Z) (count : Z) (t : T) : res T :=
  foldM (fun i t => let! h := rd hdls i in Ok (table_delete t h)) (seqZ 0 count) t.

(** Writes a list to an array from an index on. *)
Definition write_list (l : list Z) (start : Z) (a : arr Z) : res (arr Z) :=
  foldM (fun '(i, v) a => wr a i v) (zip (seqZ start (Z.of_nat (length l))) l) a.

(** [CLEAR_TABLE(TABLE)]; the array of handles starts indeterminate. *)
Definition CLEAR_TABLE {T} `{TableApi T} (hdls : arr Z) (t : T) : res (option T) :=
  match get_entry_count t with
  | None => Ok None
  | Some n =>
      let count := u32 n in
      let! hdls := match get_first_entry_handle t with Some h => wr hdls 0 h | None => Ok hdls end in
      let! hdls :=
        if 1 <? count then
          let! h := rd hdls 0 in
          write_list (get_next_entry_handles t h (count - 1)) 1 hdls
        else Ok hdls in
      let! t := delete_all hdls count t in
      Ok (Some (table_reset_default_entry t))
  end.

Record port_entry_t : Type := PortEntry { pe_port : Z; pe_lane : Z; pe_speed : Z; pe_fec : Z }.
Record forward_entry_t : Type := ForwardEntry { from_port : Z; from_lane : Z; to_port : Z; to_lane : Z }.

(** The configuration in [port_config.h]; [BF_SPEED_100G] and [BF_FEC_TYP_RS] are
    constants of the SDK. *)
Definition port_entries (BF_SPEED_100G BF_FEC_TYP_RS : Z) : list port_entry_t :=
  [PortEntry 1 0 BF_SPEED_100G BF_FEC_TYP_RS; PortEntry 2 0 BF_SPEED_100G BF_FEC_TYP_RS].
Definition forward_entries : list forward_entry_t := [ForwardEntry 1 0 2 0; ForwardEntry 2 0 1 0].

Section ports.
Context `{PortApi}.

Definition front_panel_to_devport (port lane : Z) : option Z := bf_pal_front_port_to_dev_port_get port lane.

(** The loop over [port_entries], which adds and enables ports beside those enabled
    before. *)
Fixpoint prepare_ports (entries : list port_entry_t) (enabled : list Z) : option (list Z) :=
  match entries with
  | [] => Some enabled
  | e :: entries =>
      match front_panel_to_devport (pe_port e) (pe_lane e) with
      | None => None
      | Some dev_port =>
          match bf_pal_is_port_internal dev_port with
          | Some false =>
              if bf_pal_port_add dev_port (pe_speed e) (pe_fec e) && bf_pal_port_enable dev_port
              then prepare_ports entries (enabled ++ [dev_port])
              else None
          | _ => None
          end
      end
  end.

(** The loop over [forward_entries]: [DEVPORT_MAPPING] and the entries of the
    forwarding table. *)
Fixpoint prepare_forwarding {T} `{TableApi T} (entries : list forward_entry_t) (mapping : arr Z) (table : T)
    : res (option (arr Z * T)) :=
  match entries with
  | [] => Ok (Some (mapping, table))
  | e :: entries =>
      match front_panel_to_devport (from_port e) (from_lane e), front_panel_to_devport (to_port e) (to_lane e) with
      | Some from, Some to =>
          let! mapping := wr mapping from (i16 to) in
          match table_add table [from; to] with
          | Some table => prepare_forwarding entries mapping table
          | None => Ok None
          end
      | _, _ => Ok None
      end
  end.
End ports.

Definition init_mapping (mapping : arr Z) : res (arr Z) :=
  foldM (fun i a => wr a i (-1)) (seqZ 0 MAX_DEV_PORT_ID) mapping.

(** The static entries. *)
Record log_square_entry_t : Type := LogSquareEntry {
  lse_match : Z; lse_mask : Z; lse_value : Z; lse_square : Z; lse_cube : Z }.
Definition log_entry (e : log_square_entry_t) : list Z :=
  [lse_match e; lse_mask e; lse_value e; lse_square e; lse_cube e].
(** The entry [i] has the priority [i]. *)
Definition header_entry (i : nat) (e : list Z * list Z) : list Z := e.1 ++ [Z.of_nat i] ++ e.2.

Fixpoint add_entries {T} `{TableApi T} (l : list (list Z)) (t : T) : option T :=
  match l with [] => Some t | e :: l => match table_add t e with Some t => add_entries l t | None => None end end.

(** The tables whose entries get the scope of a single pipeline, in the order of the
    calls, with both protocols enabled. *)
Definition assym_tables : list string :=
  ["pkt_count_table"; "bloom_filter_1_table"; "bloom_filter_2_table"; "bloom_filter_3_table"; "bloom_filter_4_table";
   "add_size_log_table"; "add_size_log_square_table"; "add_size_log_cube_table";
   "iat_read_update_last_timestamp_table"; "add_iat_log_table"; "add_iat_log_square_table"; "add_iat_log_cube_table";
   "classification_ipv4"; "classification_ipv6"]%string.
Definition CPU_PORT : Z := 320.

Record pd_state (T : Type) : Type := PdState {
  forward_table : T;
  iat_compute_log_table : T;
  compute_size_log_table : T;
  header_length_table : T;
  single_pipe : list string;
  cpu_port : option Z;
  enabled_ports : list Z;
  DEVPORT_MAPPING : arr Z }.
Arguments PdState {T} _ _ _ _ _ _ _ _.
Arguments forward_table {T} _.
Arguments iat_compute_log_table {T} _.
Arguments compute_size_log_table {T} _.
Arguments header_length_table {T} _.
Arguments single_pipe {T} _.
Arguments cpu_port {T} _.
Arguments enabled_ports {T} _.
Arguments DEVPORT_MAPPING {T} _.

(** What the headers configure. *)
Record pd_config : Type := PdConfig {
  iat_log_square : list log_square_entry_t;
  size_log_square : list log_square_entry_t;
  header_length : list (list Z * list Z);
  cf_ports : list port_entry_t;
  cf_forward : list forward_entry_t }.

Definition obind {A B} (m : res (option A)) (k : A -> res (option B)) : res (option B) :=
  let! a := m in match a with Some a => k a | None => Ok None end.

(** [prepare_dataplane]; [hdls n] is the uninitialised array of the [n]-th [CLEAR_TABLE]. *)
Definition prepare_dataplane {T} `{TableApi T, PortApi} (cf : pd_config) (hdls : nat -> arr Z) (st : pd_state T)
    : res (option (pd_state T)) :=
  let enabled := bf_pal_port_del_all (enabled_ports st) in
  obind (CLEAR_TABLE (hdls 0%nat) (forward_table st)) (fun forward =>
  obind (CLEAR_TABLE (hdls 1%nat) (iat_compute_log_table st)) (fun iat =>
  obind (CLEAR_TABLE (hdls 2%nat) (compute_size_log_table st)) (fun size =>
  obind (CLEAR_TABLE (hdls 3%nat) (header_length_table st)) (fun header =>
  obind (Ok (add_entries (log_entry <$> iat_log_square cf) iat)) (fun iat =>
  obind (Ok (add_entries (log_entry <$> size_log_square cf) size)) (fun size =>
  obind (Ok (add_entries (imap header_entry (header_length cf)) header)) (fun header =>
  obind (Ok (prepare_ports (cf_ports cf) enabled)) (fun ports =>
  let! mapping := init_mapping (DEVPORT_MAPPING st) in
  obind (prepare_forwarding (cf_forward cf) mapping forward) (fun '(mapping, forward) =>
  Ok (Some (PdState forward iat size header (single_pipe st ++ assym_tables) (Some CPU_PORT) ports mapping))))))))))).

(** ** Proofs *)

Lemma write_list_ok l : forall start a,
  0 <= start -> start + Z.of_nat (length l) <= alen a ->
  exists a', write_list l start a = Ok a' /\ alen a' = alen a /\
    (forall i, 0 <= i < start -> aget a' i = aget a i) /\
    forall k x, l !! k = Some x -> aget a' (start + Z.of_nat k) = x.
Proof.
  induction l as [|v l IH]; intros start a Hs Hl; unfold write_list; cbn [length] in *.
  - exists a. split_and!; [by destruct (seqZ _ _)|done|done|done].
  - rewrite seqZ_cons by lia. cbn [zip zip_with foldM]. rewrite wr_ok by lia. cbn [rbind].
    replace (Z.pred (Z.of_nat (S (length l)))) with (Z.of_nat (length l)) by lia.
    destruct (IH (Z.succ start) (aset a start v)) as (a' & E & Hl' & Hlow & Hk); [lia|rewrite alen_aset; lia|].
    exists a'. split; [exact E|]. split; [done|]. split.
    + intros i Hi. rewrite Hlow by lia. by rewrite aget_aset_ne by lia.
    + intros [|k] x; cbn [lookup list_lookup].
      * intros [= <-]. rewrite Z.add_0_r, Hlow by lia. apply aget_aset_eq.
      * intros Hx. replace (start + Z.of_nat (S k)) with (Z.succ start + Z.of_nat k) by lia. by apply Hk.
Qed.

Section table.
Context {T : Type} `{TableApiLaws T}.

(** Deleting the entries from the first on. *)
Lemma delete_all_ok hdls count (t : T) :
  0 <= count <= alen hdls -> aprefix hdls count = handles t ->
  exists t', delete_all hdls count t = Ok t' /\ handles t' = [].
Proof.
  intros Hc Hp. unfold delete_all.
  destruct (foldM_rule (fun dn t' => handles t' = drop (length dn) (handles t))
    (fun i t => let! h := rd hdls i in Ok (table_delete t h)) (seqZ 0 count)) with (s := t) as (t' & E & Ht').
  - intros dn i rest t1 El Ht1. assert (i = Z.of_nat (length dn) /\ i < count) as [-> Hi].
    { assert (seqZ 0 count !! length dn = Some i) as Hk by (rewrite El; by apply list_lookup_middle).
      apply lookup_seqZ in Hk. lia. }
    rewrite rd_ok by lia. cbn [rbind]. eexists. split; [reflexivity|].
    assert (handles t !! length dn = Some (aget hdls (Z.of_nat (length dn)))) as Hk.
    { rewrite <- Hp. unfold aprefix. rewrite list_lookup_fmap, lookup_seqZ_lt by lia. done. }
    rewrite (ta_delete _ _ [] (drop (S (length dn)) (handles t))).
    + rewrite length_app. cbn [length app]. by rewrite Nat.add_1_r.
    + rewrite Ht1. by apply drop_S.
  - by rewrite drop_0.
  - exists t'. split; [exact E|]. rewrite Ht', <- Hp. apply drop_ge.
    by rewrite length_aprefix, length_seqZ.
Qed.

Lemma clear_table_full hdls (t : T) h l :
  handles t = h :: l -> Z.of_nat (length (handles t)) <= alen hdls -> Z.of_nat (length (handles t)) < 2 ^ 32 ->
  alen hdls = MAX_FLOWS -> exists t', CLEAR_TABLE hdls t = Ok (Some t') /\ handles t' = [].
Proof.
  intros Eh Hl Hu Ha. unfold CLEAR_TABLE. rewrite ta_count, u32_small, ta_first, Eh by lia. cbn [List.hd_error].
  rewrite Eh in *. cbn [length] in *. rewrite wr_ok by lia. cbn [rbind].
  assert (exists hdls', (if 1 <? Z.of_nat (S (length l)) then
      let! x := rd (aset hdls 0 h) 0 in
      write_list (get_next_entry_handles t x (Z.of_nat (S (length l)) - 1)) 1 (aset hdls 0 h)
    else Ok (aset hdls 0 h)) = Ok hdls' /\ alen hdls' = alen hdls /\
    aprefix hdls' (Z.of_nat (S (length l))) = h :: l) as (hdls' & -> & Hl' & Hp).
  { assert (forall a, alen a = alen hdls -> aget a 0 = h -> (forall k x, l !! k = Some x -> aget a (1 + Z.of_nat k) = x) ->
      aprefix a (Z.of_nat (S (length l))) = h :: l) as Hpre.
    { intros a _ E0 Hk. apply list_eq_same_length with (n := S (length l)); [done|by rewrite length_aprefix, Nat2Z.id|].
      intros k x y Hlt. unfold aprefix. rewrite list_lookup_fmap, lookup_seqZ_lt by lia. cbn [fmap option_fmap option_map].
      destruct k as [|k]; cbn [lookup list_lookup]; [by intros [= <-] [= <-]|].
      intros [= <-] Hy. rewrite <- (Hk k y Hy). f_equal. lia. }
    destruct (Z.ltb_spec 1 (Z.of_nat (S (length l)))) as [Hc|Hc].
    - rewrite rd_ok by (rewrite alen_aset; lia). cbn [rbind]. rewrite aget_aset_eq.
      rewrite (ta_next t h [] l) by exact Eh.
      replace (take (Z.to_nat (Z.of_nat (S (length l)) - 1)) l) with l by (rewrite take_ge; [done|lia]).
      destruct (write_list_ok l 1 (aset hdls 0 h)) as (a & -> & El & Hlow & Hk); [lia|rewrite alen_aset; lia|].
      exists a. split; [done|]. split; [done|]. apply Hpre; [done| |done]. by rewrite Hlow, aget_aset_eq by lia.
    - exists (aset hdls 0 h). split; [done|]. split; [done|]. apply Hpre; [done|apply aget_aset_eq|].
      destruct l; [done|cbn in Hc; lia]. }
  cbn [rbind]. destruct (delete_all_ok hdls' (Z.of_nat (S (length l))) t) as (t' & -> & Et); [lia|by rewrite Hp, Eh|].
  cbn [rbind]. eexists. split; [reflexivity|]. by rewrite ta_reset.
Qed.
End table.

Lemma clear_table_ok {T} `{TableApiLaws T} hdls (t : T) :
  alen hdls = MAX_FLOWS -> Z.of_nat (length (handles t)) <= MAX_FLOWS ->
  exists t', CLEAR_TABLE hdls t = Ok (Some t') /\ handles t' = [].
Proof.
  intros Ha Hl. destruct (handles t) as [|h l] eqn:Eh.
  - unfold CLEAR_TABLE. rewrite ta_count, ta_first, Eh. cbn. eexists. split; [reflexivity|]. by rewrite ta_reset.
  - apply (clear_table_full hdls t h l); rewrite ?Eh; unfold MAX_FLOWS in *; try done; lia.
Qed.

(** *** Forwarding *)

Section forwarding.
Context `{PortApi} {T : Type} `{TableApiLaws T}.

(** The device ports of an entry. *)
Definition dev_pair (e : forward_entry_t) : option (Z * Z) :=
  match front_panel_to_devport (from_port e) (from_lane e), front_panel_to_devport (to_port e) (to_lane e) with
  | Some from, Some to => Some (from, to)
  | _, _ => None
  end.

Definition pair_ok (x : Z * Z) : Prop := 0 <= x.1 < MAX_DEV_PORT_ID /\ 0 <= x.2 < MAX_DEV_PORT_ID.
Definition forward_entry (x : Z * Z) : list Z := [x.1; x.2].

(** An addition sequence that succeeds appends its entries. *)
Lemma add_entries_ok l : forall t t' : T, add_entries l t = Some t' -> entries t' = entries t ++ l.
Proof using All.
  induction l as [|e l IH]; intros t t'; cbn [add_entries].
  - intros [= <-]. by rewrite app_nil_r.
  - destruct (table_add t e) as [t1|] eqn:E; [|done]. intros Ht.
    by rewrite (IH _ _ Ht), (ta_add _ _ _ E), <- app_assoc.
Qed.

Lemma forwarding_ok l : forall mapping (table : T) pairs,
  is_Some (add_entries (forward_entry <$> pairs) table) ->
  alen mapping = MAX_DEV_PORT_ID -> Forall2 (fun e x => dev_pair e = Some x) l pairs -> Forall pair_ok pairs ->
  exists m table', prepare_forwarding l mapping table = Ok (Some (m, table')) /\ alen m = MAX_DEV_PORT_ID /\
    entries table' = entries table ++ (forward_entry <$> pairs) /\
    (forall p, p ∉ pairs.*1 -> aget m p = aget mapping p) /\
    (NoDup pairs.*1 -> forall p q, (p, q) ∈ pairs -> aget m p = q).
Proof using All.
  induction l as [|e l IH]; intros mapping table pairs Hroom Hl Hm Hok.
  - apply Forall2_nil_inv_l in Hm as ->. exists mapping, table. rewrite app_nil_r. split_and!; [done|done|done|done|].
    intros _ p q Hin. by apply not_elem_of_nil in Hin.
  - apply Forall2_cons_inv_l in Hm as ([from to] & pairs' & He & Hm & ->).
    cbn [prepare_forwarding]. unfold dev_pair in He.
    destruct (front_panel_to_devport (from_port e) _) as [f|]; [|done].
    destruct (front_panel_to_devport (to_port e) _) as [t|]; [|done]. injection He as -> ->.
    apply Forall_cons in Hok as [(Hf & Ht) Hok]. cbn [fst snd] in *. rewrite wr_ok by lia. cbn [rbind].
    rewrite fmap_cons in Hroom. cbn [add_entries] in Hroom. unfold forward_entry at 1 in Hroom. cbn [fst snd] in Hroom.
    destruct (table_add table [from; to]) as [table1|] eqn:Ea; [|by destruct Hroom].
    assert (i16 to = to) as -> by (unfold i16, MAX_DEV_PORT_ID in *; rewrite Z.mod_small by lia; lia).
    destruct (IH (aset mapping from to) table1 pairs' Hroom Hl Hm Hok) as (m & table' & -> & Hlm & Et & Hout & Hin).
    exists m, table'. split; [done|]. split; [done|]. split; [by rewrite Et, (ta_add _ _ _ Ea), <- app_assoc|]. split.
    + intros p [Hne Hni]%not_elem_of_cons. rewrite Hout by done. by rewrite aget_aset_ne.
    + cbn [fmap list_fmap fst]. intros [Hni Hnd]%NoDup_cons p q [E|Hpq]%elem_of_cons.
      * injection E as -> ->. rewrite Hout by done. apply aget_aset_eq.
      * by apply Hin.
Qed.
End forwarding.

Lemma init_mapping_ok mapping :
  alen mapping = MAX_DEV_PORT_ID ->
  exists m, init_mapping mapping = Ok m /\ alen m = MAX_DEV_PORT_ID /\ forall p, 0 <= p < MAX_DEV_PORT_ID -> aget m p = -1.
Proof.
  intros Hl. unfold init_mapping.
  destruct (foldM_rule (fun dn a => alen a = MAX_DEV_PORT_ID /\ forall p, p ∈ dn -> aget a p = -1)
    (fun i a => wr a i (-1)) (seqZ 0 MAX_DEV_PORT_ID)) with (s := mapping) as (m & E & Hlm & Hm).
  - intros dn i rest a El [Ha Hd]. assert (0 <= i < MAX_DEV_PORT_ID) as Hi by (apply elem_of_seqZ0; rewrite El; set_solver).
    rewrite wr_ok by lia. eexists. split; [reflexivity|]. split; [done|].
    intros p [Hp|Hp%list_elem_of_singleton]%elem_of_app; rewrite aget_aset; case_decide; auto. by subst.
  - split; [done|]. intros p Hp. by apply not_elem_of_nil in Hp.
  - exists m. split; [done|]. split; [done|]. intros p Hp. apply Hm. by apply elem_of_seqZ0.
Qed.

(** The mapping and the forwarding table together. *)
Lemma mapping_ok `{PortApi} {T} `{TableApiLaws T} l mapping (table : T) pairs :
  is_Some (add_entries (forward_entry <$> pairs) table) -> alen mapping = MAX_DEV_PORT_ID ->
  Forall2 (fun e x => dev_pair e = Some x) l pairs -> Forall pair_ok pairs -> NoDup pairs.*1 ->
  exists m0 m table', init_mapping mapping = Ok m0 /\ prepare_forwarding l m0 table = Ok (Some (m, table')) /\
    entries table' = entries table ++ (forward_entry <$> pairs) /\ ports_ok m /\
    forall p q, 0 <= p < MAX_DEV_PORT_ID -> aget m p = q /\ q <> -1 <-> (p, q) ∈ pairs.
Proof.
  intros Hroom Hl Hp Hok Hnd. destruct (init_mapping_ok mapping Hl) as (m0 & E0 & Hl0 & Hm0).
  destruct (forwarding_ok l m0 table pairs Hroom Hl0 Hp Hok) as (m & table' & E & Hlm & Et & Hout & Hin).
  exists m0, m, table'. do 3 (split; [done|]). specialize (Hin Hnd). rewrite Forall_forall in Hok.
  assert (forall p, 0 <= p < MAX_DEV_PORT_ID -> aget m p = -1 \/ exists q, (p, q) ∈ pairs /\ aget m p = q) as Hcase.
  { intros p Hpr. destruct (decide (p ∈ pairs.*1)) as [Hi|Hn].
    - apply list_elem_of_fmap in Hi as ([p' q] & -> & Hi). right. exists q. split; [done|]. by apply Hin.
    - left. by rewrite Hout, Hm0. }
  split.
  - split; [done|]. intros p Hpr. destruct (Hcase p Hpr) as [Ep|(q & Hi & Ep)]; [by left|].
    right. rewrite Ep. by destruct (Hok _ Hi) as (_ & Hr).
  - intros p q Hpr. split.
    + intros [Eq Hq]. destruct (Hcase p Hpr) as [Ep|(q' & Hi & Ep)]; [congruence|]. by replace q with q' by congruence.
    + intros Hi. split; [by apply Hin|]. destruct (Hok _ Hi) as (_ & Hr). cbn in Hr. lia.
Qed.

(** *** The whole preparation *)

(** What the preparation leaves: the static tables hold exactly the configured entries,
    the configured ports are enabled and no other, the last 14 calls that set the entry
    scope to a single pipeline are those of [assym_tables], the CPU port is set, and the
    forwarding table and [DEVPORT_MAPPING] hold the same pairs. *)
Record configured {T} `{TableApi T} (cf : pd_config) (ports : list Z) (pairs : list (Z * Z)) (st : pd_state T) : Prop :=
  Configured {
    cg_iat : entries (iat_compute_log_table st) = log_entry <$> iat_log_square cf;
    cg_size : entries (compute_size_log_table st) = log_entry <$> size_log_square cf;
    cg_header : entries (header_length_table st) = imap header_entry (header_length cf);
    cg_forward : entries (forward_table st) = forward_entry <$> pairs;
    cg_ports : enabled_ports st = ports;
    cg_single_pipe : assym_tables `suffix_of` single_pipe st;
    cg_cpu_port : cpu_port st = Some CPU_PORT;
    cg_ports_ok : ports_ok (DEVPORT_MAPPING st);
    cg_mapping p q : 0 <= p < MAX_DEV_PORT_ID -> aget (DEVPORT_MAPPING st) p = q /\ q <> -1 <-> (p, q) ∈ pairs }.

(** The table, once cleared, accepts the entries of [l] one after the other. *)
Definition accepts {T} `{TableApi T} (hdls : arr Z) (t : T) (l : list (list Z)) : Prop :=
  forall t', CLEAR_TABLE hdls t = Ok (Some t') -> is_Some (add_entries l t').

(** What the preparation relies on: the cleared tables accept the entries that are added,
    the ports are deleted and then added and enabled, and the tables are not too large
    for the arrays of handles. *)
Record configurable `{PortApi} {T} `{TableApi T} (cf : pd_config) (hdls : nat -> arr Z) (ports : list Z)
    (pairs : list (Z * Z)) (st : pd_state T) : Prop := Configurable {
  cb_forward : accepts (hdls 0%nat) (forward_table st) (forward_entry <$> pairs);
  cb_iat : accepts (hdls 1%nat) (iat_compute_log_table st) (log_entry <$> iat_log_square cf);
  cb_size : accepts (hdls 2%nat) (compute_size_log_table st) (log_entry <$> size_log_square cf);
  cb_header : accepts (hdls 3%nat) (header_length_table st) (imap header_entry (header_length cf));
  cb_hdls n : alen (hdls n) = MAX_FLOWS;
  cb_mapping : alen (DEVPORT_MAPPING st) = MAX_DEV_PORT_ID;
  cb_tables : Forall (fun t => Z.of_nat (length (handles t)) <= MAX_FLOWS)
    [forward_table st; iat_compute_log_table st; compute_size_log_table st; header_length_table st];
  cb_deleted : bf_pal_port_del_all (enabled_ports st) = [];
  cb_ports : prepare_ports (cf_ports cf) [] = Some ports;
  cb_pairs : Forall2 (fun e x => dev_pair e = Some x) (cf_forward cf) pairs;
  cb_range : Forall pair_ok pairs;
  cb_distinct : NoDup pairs.*1 }.

Lemma prepare_dataplane_ok `{PortApi} {T} `{TableApiLaws T} cf hdls (st : pd_state T) ports pairs :
  configurable cf hdls ports pairs st ->
  exists st', prepare_dataplane cf hdls st = Ok (Some st') /\ configured cf ports pairs st'.
Proof.
  intros [A1 A2 A3 A4 Hh Hl Hts Hdel Hports Hp Hok Hnd].
  apply Forall_cons in Hts as [L1 Hts]. apply Forall_cons in Hts as [L2 Hts].
  apply Forall_cons in Hts as [L3 Hts]. apply Forall_cons in Hts as [L4 _].
  unfold prepare_dataplane, obind.
  destruct (clear_table_ok (hdls 0%nat) _ (Hh _) L1) as (t1 & C1 & E1).
  destruct (clear_table_ok (hdls 1%nat) _ (Hh _) L2) as (t2 & C2 & E2).
  destruct (clear_table_ok (hdls 2%nat) _ (Hh _) L3) as (t3 & C3 & E3).
  destruct (clear_table_ok (hdls 3%nat) _ (Hh _) L4) as (t4 & C4 & E4).
  rewrite C1, C2, C3, C4. cbn [rbind].
  destruct (A2 _ C2) as [u2 F2]. destruct (A3 _ C3) as [u3 F3]. destruct (A4 _ C4) as [u4 F4].
  rewrite F2, F3, F4. cbn [rbind].
  apply add_entries_ok in F2, F3, F4. rewrite Hdel, Hports. cbn [rbind].
  destruct (mapping_ok (cf_forward cf) (DEVPORT_MAPPING st) t1 pairs (A1 _ C1) Hl Hp Hok Hnd)
    as (m0 & m & u1 & -> & Ef & F1 & Hpo & Hmap). cbn [rbind]. rewrite Ef. cbn [rbind].
  eexists. split; [reflexivity|]. split;
  cbn [iat_compute_log_table compute_size_log_table header_length_table forward_table enabled_ports
       single_pipe cpu_port DEVPORT_MAPPING];
    rewrite ?F1, ?F2, ?F3, ?F4, ?ta_entries by done; try done.
  by apply suffix_app_r.
Qed.

(** *** A table as the list of its handles and entries *)

Definition model_table : Type := { l : list (Z * list Z) | bool_decide (NoDup l.*1) }.
Definition rows_of (t : model_table) : list (Z * list Z) := proj1_sig t.
Definition table_of (t : model_table) : list Z := (rows_of t).*1.

Lemma table_nodup (t : model_table) : NoDup (table_of t).
Proof. destruct t as [l Hl]. exact (bool_decide_unpack _ Hl). Qed.

Fixpoint after (h : Z) (l : list Z) : list Z :=
  match l with [] => [] | x :: l => if decide (x = h) then l else after h l end.

Lemma after_middle h l1 l2 : h ∉ l1 -> after h (l1 ++ h :: l2) = l2.
Proof.
  induction l1 as [|x l1 IH]; cbn [app after]; [by rewrite decide_True|].
  intros [Hne Hni]%not_elem_of_cons. rewrite decide_False by congruence. by apply IH.
Qed.

Definition drop_row (h : Z) (l : list (Z * list Z)) : list (Z * list Z) := filter (fun x => x.1 <> h) l.

Lemma drop_row_handles h l : (drop_row h l).*1 = filter (fun x => x <> h) l.*1.
Proof.
  unfold drop_row. induction l as [|[x e] l IH]; [done|]. cbn [fmap list_fmap fst].
  destruct (decide (x = h)) as [->|Hne].
  - rewrite !filter_cons_False by (cbn; tauto). exact IH.
  - rewrite !filter_cons_True by done. cbn [fmap list_fmap fst]. by rewrite <- IH.
Qed.

Lemma filter_middle (h : Z) l1 l2 : NoDup (l1 ++ h :: l2) -> filter (fun x => x <> h) (l1 ++ h :: l2) = l1 ++ l2.
Proof.
  intros (_ & Hd & [Hh _]%NoDup_cons)%NoDup_app.
  assert (forall l : list Z, h ∉ l -> filter (fun x => x <> h) l = l) as Hall.
  { induction l as [|x l IH]; [done|]. intros [Hne Hni]%not_elem_of_cons. rewrite filter_cons_True by congruence. by rewrite IH. }
  rewrite filter_app, filter_cons_False by tauto. rewrite !Hall; [done|done|].
  intros Hin. apply (Hd h Hin). left.
Qed.

Lemma remove_nodup (t : model_table) h : bool_decide (NoDup (drop_row h (rows_of t)).*1).
Proof. apply bool_decide_pack. rewrite drop_row_handles. apply NoDup_filter, table_nodup. Qed.

Lemma add_nodup (t : model_table) e : bool_decide (NoDup (rows_of t ++ [(fresh (table_of t), e)]).*1).
Proof.
  apply bool_decide_pack. rewrite fmap_app. apply NoDup_app. split; [apply table_nodup|]. split.
  - intros x Hx ->%list_elem_of_singleton. by apply (infinite_is_fresh (table_of t)).
  - apply NoDup_singleton.
Qed.

#[export] Instance model_table_api : TableApi model_table := {
  get_entry_count t := Some (Z.of_nat (length (table_of t)));
  get_first_entry_handle t := List.hd_error (table_of t);
  get_next_entry_handles t h n := take (Z.to_nat n) (after h (table_of t));
  table_delete t h := exist _ (drop_row h (rows_of t)) (remove_nodup t h);
  table_add t e := Some (exist _ (rows_of t ++ [(fresh (table_of t), e)]) (add_nodup t e));
  table_reset_default_entry t := t;
  handles := table_of;
  entries t := (rows_of t).*2 }.

#[export] Instance model_table_laws : TableApiLaws model_table.
Proof.
  split; cbn; try done.
  - intros t h l1 l2 n E. rewrite E, after_middle; [done|]. pose proof (table_nodup t) as Hnd. rewrite E in Hnd.
    apply NoDup_app in Hnd as (_ & Hd & _). intros Hin. apply (Hd h Hin). left.
  - intros t h l1 l2 E. pose proof (table_nodup t) as Hnd.
    change ((drop_row h (rows_of t)).*1 = l1 ++ l2). rewrite drop_row_handles.
    change ((rows_of t).*1) with (table_of t). rewrite E in *. by apply filter_middle.
  - intros t e t' [= <-]. cbn [rows_of proj1_sig]. by rewrite fmap_app.
  - intros t E. apply fmap_nil_inv in E. by rewrite E.
Qed.

Lemma model_table_accepts hdls (t : model_table) l : accepts hdls t l.
Proof.
  intros t' _. revert t'. induction l as [|e l IH]; intros t'; [by eexists|]. apply IH.
Qed.

Definition sample_table_api : model_table := exist _ [(7, [1]); (3, [2; 5]); (12, [])] I.

(** The front panel ports 1 and 2 on two pipes. *)
#[local] Instance sample_port_api : PortApi := {
  bf_pal_port_del_all _ := [];
  bf_pal_front_port_to_dev_port_get port lane := if decide (port = 1) then Some 5 else Some 130;
  bf_pal_is_port_internal _ := Some false;
  bf_pal_port_add _ _ _ := true;
  bf_pal_port_enable _ := true }.

Definition sample_config : pd_config :=
  PdConfig [LogSquareEntry 1 32 0 0 0; LogSquareEntry 2 31 16 256 4096] [] [([5; 6], [40])]
    (port_entries 7 2) forward_entries.

(** ** Properties *)

(** Claim C25. When the SDK resolves and accepts the configured ports and the cleared
    tables accept the entries that are added, the preparation ends, whatever the tables
    and the array held before: each static table holds exactly its configured entries,
    exactly the configured ports are enabled, the entry scope of the 14 register and
    classification tables is set to a single pipeline, the CPU port is 320, and
    [DEVPORT_MAPPING] and the forwarding table hold the same pairs. The flow database
    then finds for each port the port to which the switch forwards, -1 for a port without
    an entry, and nothing out of range. *)
Theorem prepare_dataplane_configures `{PortApi} {T} `{TableApiLaws T} cf hdls (st : pd_state T) ports pairs :
  configurable cf hdls ports pairs st ->
  exists st', prepare_dataplane cf hdls st = Ok (Some st') /\ configured cf ports pairs st'.
Proof. apply prepare_dataplane_ok. Qed.

Definition sample_pd : pd_state model_table :=
  PdState sample_table_api sample_table_api sample_table_api sample_table_api [] None [9] (amake MAX_DEV_PORT_ID 0).

Lemma sample_configurable :
  configurable sample_config (fun _ => amake MAX_FLOWS 0) [5; 130] [(5, 130); (130, 5)] sample_pd.
Proof.
  split.
  - apply model_table_accepts.
  - apply model_table_accepts.
  - apply model_table_accepts.
  - apply model_table_accepts.
  - reflexivity.
  - reflexivity.
  - repeat constructor; vm_compute; discriminate.
  - reflexivity.
  - reflexivity.
  - repeat constructor.
  - repeat constructor; discriminate.
  - apply (bool_decide_unpack _). vm_compute. exact I.
Qed.

Lemma prepare_dataplane_configures_witness : exists st',
  prepare_dataplane sample_config (fun _ => amake MAX_FLOWS 0) sample_pd = Ok (Some st') /\
  entries (forward_table st') = [[5; 130]; [130; 5]] /\ enabled_ports st' = [5; 130] /\
  aget (DEVPORT_MAPPING st') 130 = 5 /\ aget (DEVPORT_MAPPING st') 7 = -1.
Proof.
  destruct (prepare_dataplane_configures sample_config (fun _ => amake MAX_FLOWS 0) sample_pd [5; 130] [(5, 130); (130, 5)]
              sample_configurable) as (st' & E & Hc).
  exists st'. split; [exact E|]. split; [exact (cg_forward _ _ _ _ Hc)|]. split; [exact (cg_ports _ _ _ _ Hc)|].
  pose proof (cg_mapping _ _ _ _ Hc) as Hm. split.
  - apply Hm; [vm_compute; split; congruence|]. right. left.
  - destruct (decide (aget (DEVPORT_MAPPING st') 7 = -1)) as [E7|E7]; [exact E7|]. exfalso.
    assert ((7, aget (DEVPORT_MAPPING st') 7) ∈ [(5, 130); (130, 5)]) as Hin
      by (apply Hm; [vm_compute; split; congruence|by split]).
    repeat (apply elem_of_cons in Hin as [Hin|Hin]; [discriminate|]). by apply not_elem_of_nil in Hin.
Defined.
