(* ===== verification/Benchmark.v ===== *)
(** * The measuring program ([benchmark.c])

    The functions that [benchmark.c] runs in place of the threads of the controller:
    they drive the classification table, the registers and the exporter directly. The
    measuring of time, the log, the batches and [switch_connect] have no effect on
    the state and are left out; [read_features] and the exporter are those of the
    controller. *)

From S2P Require Import Prelude Structs RuntimeConfig Ringbuffer IdTable SessionTable FlowDb DpApi Features Export Prepare.
#[local] Open Scope Z_scope.

Definition NUM_K : nat := 50.
Definition NUM_BENCH_FEATURE : Z := Z.shiftl 1 18.
(** [num_ops]: what is left of the smaller of flow ids and entries of the table. *)
Definition num_ops : Z := Z.min MAX_FLOWS MAX_IP4_FLOWS - 8192 - 4098.

(** ** Operations *)

Definition bench_five_tuple : five_tuple_t :=
  FiveTuple (FiveTupleForHash 0 1 1 1 L3_IPV4 L4_TCP) zero_sh 1 1 0.
(** [five_tuple.h.src_addr.ipv4 = i] *)
Definition set_src_ipv4 (ft : five_tuple_t) (i : Z) : five_tuple_t :=
  let h := ft_h ft in
  FiveTuple (FiveTupleForHash (addr_set_ipv4 (src_addr h) i) (dst_addr h) (src_port h) (dst_port h) (l3_proto h) (l4_proto h))
    (ft_sh ft) (ingress_ts ft) (dev_port ft) (session_id_egress_offset ft).

(** How the thread ends: at the end of its loops, or at the entry [i] that the switch
    refuses. *)
Inductive bench_end : Type := BENCH_DONE | BENCH_REFUSED (i : Z).

Section switch.
Context {sw : Type} `{Switch sw}.
Implicit Types (s : sw) (entry_hdls : arr Z) (five_tuple : five_tuple_t).

(** The insertion loop over the values of [i] that are left. *)
Fixpoint bench_insert (l : list Z) five_tuple entry_hdls s : res (bench_end * five_tuple_t * arr Z * sw) :=
  match l with
  | [] => Ok (BENCH_DONE, five_tuple, entry_hdls, s)
  | i :: l =>
      let five_tuple := set_src_ipv4 five_tuple i in
      let! old := rd entry_hdls i in
      let! '(status, hdl, s) := switch_add_classification_entry s five_tuple i in
      let! entry_hdls := wr entry_hdls i (default old hdl) in
      if status =? ERR_SWITCH then Ok (BENCH_REFUSED i, five_tuple, entry_hdls, s)
      else bench_insert l five_tuple entry_hdls s
  end.

(** The body of the removal loop. *)
Definition bench_remove entry_hdls (i : Z) (st : five_tuple_t * sw) : res (five_tuple_t * sw) :=
  let '(five_tuple, s) := st in
  let five_tuple := set_src_ipv4 five_tuple i in
  let! hdl := rd entry_hdls i in
  let '(_, s) := switch_remove_classification_entry s five_tuple hdl in
  Ok (five_tuple, s).

(** The rounds of a thread that inserts all entries and removes them with [remove]. *)
Fixpoint bench_rounds (remove : arr Z -> Z -> five_tuple_t * sw -> res (five_tuple_t * sw)) (k : nat)
    five_tuple entry_hdls s : res (bench_end * sw) :=
  match k with
  | O => Ok (BENCH_DONE, s)
  | Datatypes.S k =>
      let! '(e, five_tuple, entry_hdls, s) := bench_insert (seqZ 0 num_ops) five_tuple entry_hdls s in
      match e with
      | BENCH_REFUSED i => Ok (BENCH_REFUSED i, s)
      | BENCH_DONE =>
          let! '(five_tuple, s) := foldM (remove entry_hdls) (seqZ 0 num_ops) (five_tuple, s) in
          bench_rounds remove k five_tuple entry_hdls s
      end
  end.

(** [garbage] is the array of [num_ops] handles, uninitialised. *)
Definition bench_classification_insert_remove (garbage : arr Z) s : res (bench_end * sw) :=
  bench_rounds bench_remove NUM_K bench_five_tuple garbage s.

(** [features[j]->write_fn(sess_hdl, PIPES[0], j % MAX_FLOWS, &value32)] *)
Definition bench_write (r : feature_register_t) (index : Z) s : res sw :=
  let! target := rd PIPES 0 in
  Ok (snd (register_write s (table_hdl r) target (Z.rem index MAX_FLOWS) 0)).

Definition bench_feature_reset (features : list feature_register_t) s : res sw :=
  foldM (fun _ s => foldM (fun j s => foldM (fun r s => bench_write r j s) features s)
           (seqZ 0 NUM_BENCH_FEATURE) s) (seq 0 NUM_K) s.

(** The removal loop that also resets the registers; its inner loop uses the number of
    the feature as the index. *)
Definition bench_remove_with_zero (features : list feature_register_t) entry_hdls (i : Z)
    (st : five_tuple_t * sw) : res (five_tuple_t * sw) :=
  let! '(five_tuple, s) := bench_remove entry_hdls i st in
  let! s := foldM (fun '(j, r) s => bench_write r j s) (zip (seqZ 0 NUM_FEATURES) features) s in
  Ok (five_tuple, s).

Definition bench_classification_remove_with_zero (features : list feature_register_t) (garbage : arr Z) s
    : res (bench_end * sw) :=
  bench_rounds (bench_remove_with_zero features) NUM_K bench_five_tuple garbage s.

(** [background_feature_reader] and [bench_feature_reader]: a pass of [read_features]
    per reading of the clock; the latter makes 100 passes, the former stops when
    [run_feature_reader] is reset. *)
Definition bench_feature_reader (egress : arr Z) (clock : list Z) s (f : features_t) : res (sw * features_t) :=
  foldM (fun tv_sec st => read_features tv_sec egress st.1 st.2) clock (s, f).

(** *** [bench_feature_export_to_file] *)

Definition bench_export_tuple : five_tuple_t :=
  FiveTuple (FiveTupleForHash 0 1 4321 1234 L3_IPV4 L4_TCP) (FiveTupleForSessionHash 0 true) 1 1 0.
(** [five_tuple.sh.client_addr = address1; five_tuple.h.src_addr = address1] *)
Definition set_client (ft : five_tuple_t) (address1 : address_t) : five_tuple_t :=
  let h := ft_h ft in
  FiveTuple (FiveTupleForHash address1 (dst_addr h) (src_port h) (dst_port h) (l3_proto h) (l4_proto h))
    (FiveTupleForSessionHash address1 (to_server (ft_sh ft))) (ingress_ts ft) (dev_port ft) (session_id_egress_offset ft).

(** The body of the loop that creates the sessions. *)
Definition bench_session (use_sessions : bool) (i : Z) (st : five_tuple_t * session_hashtable_t)
    : res (five_tuple_t * session_hashtable_t) :=
  let '(five_tuple, t) := st in
  let five_tuple := set_client five_tuple (u32 i) in
  let! '(_, t) := session_hashtable_add_or_increase_flow_count use_sessions t five_tuple i in
  Ok (five_tuple, t).

(** The lines of the file, for the readings of the clock in the 100 rounds.
    [flow_count0] is what [session_hashtable_init] leaves alone. *)
Definition bench_feature_export_to_file (use_sessions DEBUG : bool) (inet_ntop : Z -> address_t -> list Z)
    (flow_count0 : arr Z) (tv_sec : Z) (clock : list timespec) s (f : features_t)
    : res (sw * features_t * session_hashtable_t * list (list field)) :=
  let t := session_hashtable_init flow_count0 in
  let! '(_, t) := foldM (bench_session use_sessions) (seqZ 0 FEATURE_SIZE) (bench_export_tuple, t) in
  let! '(s, f) := read_features tv_sec (egress_feature_to_session_id t) s f in
  let hashtable_copy := session_hashtable_copy t in
  let! file := foldM (fun ts file =>
      let! '(lines, _) := print_flow_data DEBUG inet_ntop hashtable_copy (features f) in
      Ok (file ++ print_header DEBUG ts (features f) ++ lines)) clock [] in
  Ok (s, f, t, file).

(** The two copies that a round of [bench_feature_export_data_copy] overwrites. *)
Definition bench_feature_export_data_copy (t : session_hashtable_t) (uuid_mapping : arr (list Z))
    (copies : session_hashtable_t * arr (list Z)) : session_hashtable_t * arr (list Z) :=
  Nat.iter 100 (fun _ => (session_hashtable_copy t, uuid_mapping)) copies.

(** [low_level_controller] of this program: it prepares the switch before it starts the
    one thread that is not commented out. The runtime configuration is not loaded. *)
Definition benchmark_controller {T} `{TableApi T, PortApi} (DEBUG : bool) (inet_ntop : Z -> address_t -> list Z)
    (cf : pd_config) (hdls : nat -> arr Z) (egress : Z -> Z) (tv_sec : Z) (clock : list timespec) s (pd : pd_state T)
    : res (option (pd_state T * features_t * session_hashtable_t * list (list field))) :=
  let ring := ringbuffer_init (static_ringbuffer PACKET_RINGBUFFER_SIZE (PKT_TIMEOUT_FLOW 0)) in
  obind (prepare_dataplane cf hdls pd) (fun pd =>
  let! '(s, f) := prepare_features s (Features (STATIC_FEATURES_ARRAY egress) (amake FEATURE_SIZE 0) ring) in
  let! '(_, f, t, file) :=
    bench_feature_export_to_file use_sessions_default DEBUG inet_ntop (amake FEATURE_SIZE 0) tv_sec clock s f in
  Ok (Some (pd, f, t, file))).
End switch.

(** ** The classification table *)

#[local] Opaque num_ops NUM_K seqZ.

(** The match specification of the [i]-th entry. *)
Definition bench_spec (i : Z) : ipv4_match_spec := ipv4_spec (set_src_ipv4 bench_five_tuple i).

(** The tuples of the loops: IPv4, on pipe 0, with the fields of [bench_five_tuple]. *)
Definition bench_ok (ft : five_tuple_t) : Prop :=
  l3_proto (ft_h ft) = L3_IPV4 /\ dev_port ft = 1 /\ forall i, ipv4_spec (set_src_ipv4 ft i) = bench_spec i.

Lemma addr_set_twice a i j : addr_ipv4 (addr_set_ipv4 (addr_set_ipv4 a i) j) = addr_ipv4 (addr_set_ipv4 a j).
Proof.
  unfold addr_ipv4, addr_set_ipv4, u32.
  rewrite (Z.add_mod (_ - _) (j mod _)), (Z.add_mod (a - _) (j mod _)) by done. f_equal. f_equal.
  rewrite (Zminus_mod (_ + _)), (Zminus_mod a), !Z.mod_mod, !Z.sub_diag by done. done.
Qed.

Lemma addr_set_ipv4_get a i : 0 <= i < 2 ^ 32 -> addr_ipv4 (addr_set_ipv4 a i) = i.
Proof.
  intros Hi. unfold addr_ipv4, addr_set_ipv4, u32. rewrite (Z.mod_small i), Z.add_mod by done.
  rewrite (Zminus_mod a), Z.mod_mod, Z.sub_diag by done. rewrite Z.mod_0_l, Z.add_0_l, Z.mod_mod by done.
  by apply Z.mod_small.
Qed.

Lemma bench_spec_inj i j : 0 <= i < 2 ^ 32 -> 0 <= j < 2 ^ 32 -> bench_spec i = bench_spec j -> i = j.
Proof.
  intros Hi Hj E. unfold bench_spec, ipv4_spec in E. cbn [set_src_ipv4 ft_h src_addr] in E.
  injection E as E. rewrite !addr_set_ipv4_get in E by done. by apply SWAP_ENDIAN_32_inj.
Qed.

Definition full_entries (v : switch_view) : Z := Z.of_nat (size (pipe_entries 0 (v_ipv4 v))).

(** What insertions and removals leave alone. *)
Definition but_ipv4 (v v' : switch_view) : Prop := v' = with_ipv4 (v_ipv4 v') v.

(** The table is [m0] with the entries [l] of the benchmark under the handles that were
    reported for them, which [m0] does not have. *)
Definition added_to (m0 m : gmap Z (Z * ipv4_match_spec * Z)) (hdls : arr Z) (l : list Z) : Prop :=
  (forall i, i ∈ l -> m0 !! aget hdls i = None /\ m !! aget hdls i = Some (0, bench_spec i, i)) /\
  (forall h, h ∉ aget hdls <$> l -> m !! h = m0 !! h).

Lemma added_nil m0 m hdls : added_to m0 m hdls [] <-> m = m0.
Proof.
  split; [|intros ->; split; [by intros i ?%elem_of_nil|done]].
  intros [_ Hm]. apply map_eq. intros h. apply Hm. apply not_elem_of_nil.
Qed.

Lemma added_fresh m0 m hdls l h : added_to m0 m hdls l -> m !! h = None -> m0 !! h = None.
Proof.
  intros [Hn Hm] Hh. destruct (decide (h ∈ aget hdls <$> l)) as [(i & -> & Hi)%list_elem_of_fmap|Hni].
  - by apply Hn.
  - by rewrite <- Hm.
Qed.

Lemma added_insert m0 m hdls l i h :
  added_to m0 m hdls l -> i ∉ l -> m !! h = None ->
  added_to m0 (<[h := (0, bench_spec i, i)]> m) (aset hdls i h) (l ++ [i]).
Proof.
  intros Ha Hi Hh. pose proof (added_fresh _ _ _ _ _ Ha Hh) as Hh0. destruct Ha as [Hn Hm].
  assert (forall j, j ∈ l -> aget (aset hdls i h) j = aget hdls j) as Hg
    by (intros j Hj; rewrite aget_aset, decide_False; congruence).
  assert (aget (aset hdls i h) i = h) as Hg' by (by rewrite aget_aset, decide_True).
  split.
  - intros j [Hj| ->%list_elem_of_singleton]%elem_of_app.
    + rewrite Hg by done. destruct (Hn j Hj) as [Hj0 Hjm]. split; [done|].
      rewrite lookup_insert_ne by congruence. done.
    + rewrite Hg'. split; [done|]. apply lookup_insert_eq.
  - intros h'. rewrite fmap_app, not_elem_of_app. cbn. rewrite Hg', list_elem_of_singleton. intros [Hd Hne].
    rewrite lookup_insert_ne by done. apply Hm. intros (j & -> & Hj)%list_elem_of_fmap. apply Hd.
    apply list_elem_of_fmap. exists j. by rewrite Hg.
Qed.

Lemma added_delete m0 m hdls i l :
  i ∉ l -> added_to m0 m hdls (i :: l) -> added_to m0 (delete (aget hdls i) m) hdls l.
Proof.
  intros Hi [Hn Hm]. destruct (Hn i (list_elem_of_here _ _)) as [Hi0 Him]. split.
  - intros j Hj. destruct (Hn j (list_elem_of_further _ _ _ Hj)) as [Hj0 Hjm]. split; [done|].
    rewrite lookup_delete_ne; [done|]. intros E. rewrite <- E, Him in Hjm. congruence.
  - intros h Hd. destruct (decide (h = aget hdls i)) as [->|Hne].
    + by rewrite lookup_delete_eq.
    + rewrite lookup_delete_ne by done. apply Hm. by rewrite fmap_cons, not_elem_of_cons.
Qed.

(** The entries of the benchmark match only themselves. *)
Lemma added_matched m0 m hdls l k :
  added_to m0 m hdls l -> k ∉ l -> (forall i, i ∈ l -> 0 <= i < num_ops) -> 0 <= k < num_ops ->
  matched 0 (bench_spec k) m <-> matched 0 (bench_spec k) m0.
Proof.
  intros [Hn Hm] Hk Hl Hkr. assert (num_ops < 2 ^ 32) as Hlt by done.
  split; intros (h & reg & Hx); exists h, reg.
  - destruct (decide (h ∈ aget hdls <$> l)) as [(i & -> & Hi)%list_elem_of_fmap|Hni].
    + exfalso. destruct (Hn i Hi) as [_ Hi']. assert (bench_spec k = bench_spec i) as E by congruence.
      apply bench_spec_inj in E; [congruence|lia|]. specialize (Hl i Hi). lia.
    + by rewrite <- Hm.
  - destruct (decide (h ∈ aget hdls <$> l)) as [(i & -> & Hi)%list_elem_of_fmap|Hni].
    + destruct (Hn i Hi) as [Hi0 _]. congruence.
    + by rewrite Hm.
Qed.

(** No entry of the table is equal to one that the benchmark inserts. *)
Definition bench_unmatched (l : list Z) (m : gmap Z (Z * ipv4_match_spec * Z)) : Prop :=
  forall i, i ∈ l -> ~ matched 0 (bench_spec i) m.

(** The reason for which the table [m0], of [n0] entries, can refuse the entry [i] after
    [n] others. *)
Definition bench_refusal `{TableSizes} (m0 : gmap Z (Z * ipv4_match_spec * Z)) (i n : Z) : Prop :=
  matched 0 (bench_spec i) m0 \/ ipv4_usable <= Z.of_nat (size (pipe_entries 0 m0)) + n.

(** What the thread leaves of the table [m0], according to its end. *)
Definition bench_outcome `{TableSizes} (m0 : gmap Z (Z * ipv4_match_spec * Z)) (e : bench_end)
    (m : gmap Z (Z * ipv4_match_spec * Z)) : Prop :=
  match e with
  | BENCH_DONE => m = m0
  | BENCH_REFUSED i => 0 <= i < num_ops /\ bench_refusal m0 i i /\ exists hdls, added_to m0 m hdls (seqZ 0 i)
  end.

Section classification.
Context {sw : Type} {switch : Switch sw} {sizes : TableSizes} {laws : SwitchLaws sw}.
Implicit Types (s : sw) (ft : five_tuple_t).

Lemma set_src_ok ft i : bench_ok ft -> bench_ok (set_src_ipv4 ft i).
Proof using.
  intros (Hp & Hd & Hs). split; [done|]. split; [done|]. intros j. rewrite <- (Hs j).
  unfold ipv4_spec, set_src_ipv4. cbn [ft_h src_addr dst_addr src_port dst_port l4_proto].
  by rewrite addr_set_twice.
Qed.

Lemma bench_add_ok s ft i :
  bench_ok ft ->
  (full_entries (view s) < MAX_IP4_FLOWS /\ ~ matched 0 (bench_spec i) (v_ipv4 (view s)) /\
   exists h s', switch_add_classification_entry s (set_src_ipv4 ft i) i = Ok (SUCCESS, Some h, s') /\
     v_ipv4 (view s) !! h = None /\
     v_ipv4 (view s') = <[h := (0, bench_spec i, i)]> (v_ipv4 (view s)) /\ but_ipv4 (view s) (view s')) \/
  ((matched 0 (bench_spec i) (v_ipv4 (view s)) \/ ipv4_usable <= full_entries (view s)) /\
   exists s', switch_add_classification_entry s (set_src_ipv4 ft i) i = Ok (ERR_SWITCH, None, s') /\
     view s' = view s).
Proof using.
  intros (Hp & Hd & Hs). rewrite <- (Hs i). unfold switch_add_classification_entry.
  change (l3_proto (ft_h (set_src_ipv4 ft i))) with (l3_proto (ft_h ft)).
  change (dev_port (set_src_ipv4 ft i)) with (dev_port ft).
  rewrite Hp, Hd. change (L3_IPV4 =? L3_IPV4) with true. cbn iota.
  change (dev_port_to_pipe 1) with 0. rewrite rd_PIPES by done. cbn [rbind]. unfold switch_add_ipv4_entry.
  change (l3_proto (ft_h (set_src_ipv4 ft i))) with (l3_proto (ft_h ft)). rewrite Hp.
  change (L3_IPV4 =? L3_IPV4) with true. cbn [negb].
  destruct (ipv4_add_law s 0 (ipv4_spec (set_src_ipv4 ft i)) i) as (m & Ha & Hv).
  destruct (ipv4_table_add _ _ _ _) as [[st hd] s']. unfold add_effect in Ha. cbn [fst snd] in *. unfold full_entries.
  destruct Ha as [(-> & Hr & Hnm & h & -> & Hn & Hm)|(Hst & -> & Hm & Hr)]; subst m; [left|right].
  - split; [exact Hr|]. split; [exact Hnm|]. exists h, s'. split; [done|]. split; [done|].
    unfold but_ipv4. rewrite Hv. by split.
  - split; [exact Hr|]. exists s'. rewrite (proj2 (Z.eqb_neq st 0)) by done. split; [done|].
    rewrite Hv. by destruct (view s).
Qed.

Lemma full_entries_insert v v' h x :
  v_ipv4 v !! h = None -> x.1.1 = 0 -> v_ipv4 v' = <[h := x]> (v_ipv4 v) -> full_entries v' = full_entries v + 1.
Proof using.
  intros Hn Hx Ev. unfold full_entries, pipe_entries. rewrite Ev, map_filter_insert_True by done.
  rewrite map_size_insert_None; [lia|]. apply map_lookup_filter_None. by left.
Qed.

Lemma but_ipv4_trans v1 v2 v3 : but_ipv4 v1 v2 -> but_ipv4 v2 v3 -> but_ipv4 v1 v3.
Proof using. unfold but_ipv4. by intros -> ->. Qed.
Lemma but_ipv4_refl v : but_ipv4 v v.
Proof using. by destruct v. Qed.

(** The state of the insertion loop after the entries [dn], from the table [m0]. *)
Record inserting m0 (dn : list Z) ft (hdls : arr Z) s : Prop := Inserting {
  in_tuple : bench_ok ft;
  in_handles : alen hdls = num_ops;
  in_added : added_to m0 (v_ipv4 (view s)) hdls dn;
  in_full : full_entries (view s) = Z.of_nat (size (pipe_entries 0 m0)) + Z.of_nat (length dn) }.

(** The insertion loop inserts the rest [l], or up to an entry that is refused. *)
Lemma bench_insert_ok m0 l : forall dn ft hdls s,
  NoDup (dn ++ l) -> (forall i, i ∈ dn ++ l -> 0 <= i < num_ops) -> inserting m0 dn ft hdls s ->
  exists e ft' hdls' s', bench_insert l ft hdls s = Ok (e, ft', hdls', s') /\ but_ipv4 (view s) (view s') /\
    match e with
    | BENCH_DONE => inserting m0 (dn ++ l) ft' hdls' s' /\ bench_unmatched l m0 /\
        (l <> [] -> full_entries (view s') <= MAX_IP4_FLOWS)
    | BENCH_REFUSED i => exists l1 l2, l = l1 ++ i :: l2 /\ inserting m0 (dn ++ l1) ft' hdls' s' /\
        bench_refusal m0 i (Z.of_nat (length (dn ++ l1)))
    end.
Proof using.
  induction l as [|i l IH]; intros dn ft hdls s Hnd Hl Hin; cbn [bench_insert].
  { exists BENCH_DONE, ft, hdls, s. rewrite app_nil_r. split; [done|]. split; [apply but_ipv4_refl|].
    split; [done|]. split; [by intros i ?%elem_of_nil|done]. }
  assert (i ∉ dn) as Hi by (apply NoDup_app in Hnd as (_ & Hdis & _); intros Hd; apply (Hdis i Hd); left).
  assert (0 <= i < num_ops) as Hir by (apply Hl, elem_of_app; right; left).
  destruct Hin as [Hft Hal Hadd Hfull]. rewrite rd_ok by lia. cbn [rbind].
  assert (matched 0 (bench_spec i) (v_ipv4 (view s)) <-> matched 0 (bench_spec i) m0) as Hma
    by (apply (added_matched _ _ _ _ _ Hadd Hi); [intros j Hj; apply Hl, elem_of_app; by left|done]).
  destruct (bench_add_ok s ft i Hft) as [(Hroom & Hnm & h & s1 & -> & Hn & Ev & Hb)|(Hr & s1 & -> & Ev)].
  - cbn [rbind from_option id]. rewrite wr_ok by lia. cbn [rbind]. change (SUCCESS =? ERR_SWITCH) with false. cbn iota.
    assert (full_entries (view s1) = full_entries (view s) + 1) as Ef by (exact (full_entries_insert _ _ h (0, _, _) Hn eq_refl Ev)).
    destruct (IH (dn ++ [i]) (set_src_ipv4 ft i) (aset hdls i h) s1) as (e & ft' & hdls' & s' & -> & Hb' & He).
    + by rewrite <- app_assoc.
    + intros j. rewrite <- app_assoc. apply Hl.
    + split; [by apply set_src_ok|done|rewrite Ev; by apply added_insert|rewrite length_app; cbn [length]; lia].
    + exists e, ft', hdls', s'. split; [done|]. split; [by eapply but_ipv4_trans|]. destruct e as [|k].
      * destruct He as (He & Hun & Hmax). rewrite <- app_assoc in He. split; [exact He|]. split.
        -- intros j [->|Hj]%elem_of_cons; [by rewrite <- Hma|by apply Hun].
        -- intros _. destruct l; [|by apply Hmax]. pose proof (in_full _ _ _ _ _ He) as Hf.
           rewrite length_app in Hf. cbn [app length] in Hf. lia.
      * destruct He as (l1 & l2 & -> & He & Href). exists (i :: l1), l2. rewrite <- app_assoc in He, Href. done.
  - cbn [rbind from_option id]. rewrite wr_ok by lia. cbn [rbind]. change (ERR_SWITCH =? ERR_SWITCH) with true. cbn iota.
    eexists _, _, _, _. split; [reflexivity|]. rewrite Ev. split; [apply but_ipv4_refl|].
    exists [], l. rewrite app_nil_r. split; [done|]. split.
    + split; [by apply set_src_ok|done| |by rewrite Ev]. rewrite Ev.
      destruct Hadd as [Hn Hm].
      assert (forall j, j ∈ dn -> aget (aset hdls i (aget hdls i)) j = aget hdls j) as Hg
        by (intros j Hj; rewrite aget_aset; case_decide; congruence).
      split; [intros j Hj; rewrite Hg by done; by apply Hn|]. intros h Hh. apply Hm.
      intros (j & -> & Hj)%list_elem_of_fmap. apply Hh. apply list_elem_of_fmap. exists j. by rewrite Hg.
    + unfold bench_refusal. rewrite <- Hma. destruct Hr; [by left|right; lia].
Qed.

(** One removal, whatever the status of the switch. *)
Lemma bench_remove_ok hdls i ft s :
  bench_ok ft -> 0 <= i < alen hdls ->
  exists s', bench_remove hdls i (ft, s) = Ok (set_src_ipv4 ft i, s') /\
    v_ipv4 (view s') = delete (aget hdls i) (v_ipv4 (view s)) /\ but_ipv4 (view s) (view s').
Proof using.
  intros (Hp & _) Hi. unfold bench_remove. rewrite rd_ok by done. cbn [rbind].
  unfold switch_remove_classification_entry. change (l3_proto (ft_h (set_src_ipv4 ft i))) with (l3_proto (ft_h ft)).
  rewrite Hp. change (L3_IPV4 =? L3_IPV4) with true. cbn iota. unfold switch_remove_ipv4_entry.
  destruct (ipv4_delete_law s (aget hdls i)) as (m & [-> _] & Hv). destruct (ipv4_table_delete s _) as [st s'].
  exists s'. cbn [snd] in Hv. split; [done|]. unfold but_ipv4. rewrite Hv. by split.
Qed.

(** A round, for a removal loop that keeps an invariant [I] of the rest of the switch. *)
Section rounds.
Context (remove : arr Z -> Z -> five_tuple_t * sw -> res (five_tuple_t * sw)) (I : switch_view -> Prop).
Context (I_ipv4 : forall v v', but_ipv4 v v' -> I v -> I v').
Context (remove_ok : forall hdls i ft s, bench_ok ft -> 0 <= i < alen hdls -> I (view s) ->
  exists ft' s', remove hdls i (ft, s) = Ok (ft', s') /\ bench_ok ft' /\ I (view s') /\
    v_ipv4 (view s') = delete (aget hdls i) (v_ipv4 (view s))).

Lemma remove_all_ok m0 hdls l : forall ft s,
  bench_ok ft -> NoDup l -> (forall i, i ∈ l -> 0 <= i < alen hdls) -> I (view s) ->
  added_to m0 (v_ipv4 (view s)) hdls l ->
  exists ft' s', foldM (remove hdls) l (ft, s) = Ok (ft', s') /\ bench_ok ft' /\ I (view s') /\ v_ipv4 (view s') = m0.
Proof using remove_ok.
  induction l as [|i l IH]; intros ft s Hft Hnd Hl HI Hadd.
  { exists ft, s. apply added_nil in Hadd. by repeat split_and. }
  apply NoDup_cons in Hnd as [Hi Hnd].
  cbn [foldM]. destruct (remove_ok hdls i ft s Hft (Hl i (list_elem_of_here _ _)) HI) as (ft1 & s1 & -> & Hft1 & HI1 & Ev).
  cbn [rbind]. apply IH; [done|done|intros j Hj; apply Hl; by right|done|]. rewrite Ev. by apply added_delete.
Qed.

Lemma indices_in_range (hdls : arr Z) i : alen hdls = num_ops -> i ∈ seqZ 0 num_ops -> 0 <= i < alen hdls.
Proof using. intros -> Hi. by apply elem_of_seqZ0. Qed.

(** Any number of rounds; a thread that comes to its end found no entry like its own and
    never more than the declared entries. *)
Lemma bench_rounds_ok k : forall ft hdls s,
  bench_ok ft -> alen hdls = num_ops -> I (view s) ->
  exists e s', bench_rounds remove k ft hdls s = Ok (e, s') /\ I (view s') /\
    bench_outcome (v_ipv4 (view s)) e (v_ipv4 (view s')) /\
    (e = BENCH_DONE -> k <> O ->
     bench_unmatched (seqZ 0 num_ops) (v_ipv4 (view s)) /\ full_entries (view s) + num_ops <= MAX_IP4_FLOWS).
Proof using I_ipv4 remove_ok.
  induction k as [|k IH]; intros ft hdls s Hft Hal HI; cbn [bench_rounds]; [by exists BENCH_DONE, s|].
  destruct (bench_insert_ok (v_ipv4 (view s)) (seqZ 0 num_ops) [] ft hdls s) as (e & ft1 & hdls1 & s1 & -> & Hb & He).
  - apply NoDup_seqZ.
  - intros i. apply elem_of_seqZ0.
  - split; [done|done|by apply added_nil|]. unfold full_entries. cbn [length]. lia.
  - cbn [rbind]. destruct e as [|i].
    + destruct He as ([Hft1 Hal1 Hadd Hfull] & Hun & Hmax). cbn [app] in Hadd, Hfull.
      destruct (remove_all_ok (v_ipv4 (view s)) hdls1 (seqZ 0 num_ops) ft1 s1) as (ft2 & s2 & -> & Hft2 & HI2 & Ev);
        [done|apply NoDup_seqZ| |by eapply I_ipv4|done|].
      { intros i. by apply indices_in_range. }
      cbn [rbind]. destruct (IH ft2 hdls1 s2 Hft2 Hal1 HI2) as (e & s' & -> & HI' & Ho & _).
      rewrite Ev in Ho. exists e, s'. do 3 (split; [done|]). intros _ _. split; [done|].
      rewrite length_seqZ in Hfull. unfold full_entries in *.
      assert (seqZ 0 num_ops <> []) as Hne by (intros E; apply (f_equal length) in E; rewrite length_seqZ in E; done).
      specialize (Hmax Hne). change num_ops with 86014 in *. lia.
    + destruct He as (l1 & l2 & El & [_ _ Hadd _] & Href). cbn [app] in *.
      assert (seqZ 0 num_ops !! length l1 = Some i) as Hk by (rewrite El; by apply list_lookup_middle).
      apply lookup_seqZ in Hk as [-> Hlt].
      assert (l1 = seqZ 0 (Z.of_nat (length l1))) as Es.
      { apply (f_equal (take (length l1))) in El. rewrite take_app_length in El. rewrite <- El at 1.
        apply list_eq. intros n. rewrite lookup_take. case_decide.
        - rewrite !lookup_seqZ_lt by lia. done.
        - symmetry. apply lookup_ge_None_2. rewrite length_seqZ. lia. }
      exists (BENCH_REFUSED (0 + Z.of_nat (length l1))), s1. split; [done|]. split; [by eapply I_ipv4|].
      split; [|done]. rewrite Z.add_0_l in *. split; [lia|]. split; [exact Href|].
      exists hdls1. rewrite <- Es. exact Hadd.
Qed.
End rounds.

(** With room for a round in a table without equal entries no entry is refused. *)
Lemma bench_not_refused m0 e m :
  bench_outcome m0 e m -> bench_unmatched (seqZ 0 num_ops) m0 ->
  Z.of_nat (size (pipe_entries 0 m0)) + num_ops <= ipv4_usable -> e = BENCH_DONE.
Proof using.
  destruct e as [|i]; [done|]. intros (Hi & [Hm|Hu] & _) Hun Hroom; [|lia].
  exfalso. apply (Hun i); [by apply elem_of_seqZ0|done].
Qed.
End classification.

(** ** The registers *)

(** Only registers in [P] change, and if the writes succeed ([W]) all of those become 0.
    Nothing else changes but the synchronised copy. *)
Definition zeroed (W : Prop) (P : Z -> Z -> Z -> Prop) (v v' : switch_view) : Prop :=
  v' = with_synced (v_synced v') (with_regs (v_regs v') v) /\
  forall reg pipe i, (W -> P reg pipe i -> v_regs v' reg pipe i = 0) /\
                     (v_regs v' reg pipe i = v_regs v reg pipe i \/ P reg pipe i).

Lemma zeroed_none W v : zeroed W (fun _ _ _ => False) v v.
Proof. split; [by destruct v|]. intros. split; [done|by left]. Qed.

Lemma zeroed_trans W P Q v1 v2 v3 :
  zeroed W P v1 v2 -> zeroed W Q v2 v3 -> zeroed W (fun r p i => P r p i \/ Q r p i) v1 v3.
Proof.
  intros [E2 H2] [E3 H3]. split; [rewrite E3, E2; by destruct v1|]. intros r p i.
  destruct (H2 r p i) as [HP H2'], (H3 r p i) as [HQ H3']. split.
  - intros HW [Hp|Hq]; [|by apply HQ]. destruct H3' as [->|Hq]; [by apply HP|by apply HQ].
  - destruct H3' as [->|Hq]; [|by right; right]. destruct H2' as [->|Hp]; [by left|by right; left].
Qed.

Lemma zeroed_iff W (P Q : Z -> Z -> Z -> Prop) v v' :
  (forall r p i, P r p i <-> Q r p i) -> zeroed W P v v' -> zeroed W Q v v'.
Proof. intros HPQ [E Hz]. split; [done|]. intros r p i. rewrite <- HPQ. apply Hz. Qed.

(** No write of a register fails. *)
Definition writes_succeed (sw : Type) `{Switch sw} : Prop :=
  forall (s : sw) reg pipe i v, (register_write s reg pipe i v).1 = 0.

Section registers.
Context {sw : Type} {switch : Switch sw} {sizes : TableSizes} {laws : SwitchLaws sw}.
Implicit Types (s : sw).
#[local] Notation zeroed := (zeroed (writes_succeed sw)).

(** A loop whose body for [x] zeroes [P x]. *)
Lemma zero_loop {X} (body : X -> sw -> res sw) (P : X -> Z -> Z -> Z -> Prop) l :
  (forall x s, x ∈ l -> exists s', body x s = Ok s' /\ zeroed (P x) (view s) (view s')) ->
  forall s, exists s', foldM body l s = Ok s' /\
    zeroed (fun r p i => exists x, x ∈ l /\ P x r p i) (view s) (view s').
Proof using.
  intros Hb. induction l as [|x l IH]; intros s; cbn [foldM].
  { exists s. split; [done|]. eapply zeroed_iff; [|apply zeroed_none].
    intros r p i. split; [done|]. by intros (x & ?%elem_of_nil & _). }
  destruct (Hb x s (list_elem_of_here _ _)) as (s1 & -> & H1). cbn [rbind].
  destruct (IH (fun y s Hy => Hb y s (list_elem_of_further _ _ _ Hy)) s1) as (s' & -> & H2).
  exists s'. split; [done|]. eapply zeroed_iff; [|by eapply zeroed_trans].
  intros r p i. split.
  - intros [Hp|(y & Hy & Hp)]; [exists x; split; [left|done]|exists y; split; [by right|done]].
  - intros (y & [->|Hy]%elem_of_cons & Hp); [by left|right; by exists y].
Qed.

Lemma bench_write_ok (fr : feature_register_t) index s :
  exists s', bench_write fr index s = Ok s' /\
    zeroed (fun r p i => r = table_hdl fr /\ p = 0 /\ i = Z.rem index MAX_FLOWS) (view s) (view s').
Proof using.
  unfold bench_write. change (rd PIPES 0) with (Ok (A := Z) 0). cbn [rbind].
  destruct (register_write_law s (table_hdl fr) 0 (Z.rem index MAX_FLOWS) 0) as [(rg & sy & Hv & Hother) Hok].
  eexists. split; [reflexivity|]. split; [by rewrite Hv|]. intros r p i. split.
  - intros HW (-> & -> & ->). apply Hok, HW.
  - destruct (decide (r = table_hdl fr /\ p = 0 /\ i = Z.rem index MAX_FLOWS)) as [Hd|Hd]; [by right|].
    left. rewrite Hv. by apply Hother.
Qed.

(** The registers of the list at pipe 0 become 0, all others stay. *)
Lemma bench_feature_reset_ok (frs : list feature_register_t) s :
  exists s', bench_feature_reset frs s = Ok s' /\
    zeroed (fun r p i => r ∈ table_hdl <$> frs /\ p = 0 /\ 0 <= i < MAX_FLOWS) (view s) (view s').
Proof using.
  unfold bench_feature_reset.
  destruct (zero_loop (fun (_ : nat) s => foldM (fun j s => foldM (fun r s => bench_write r j s) frs s) (seqZ 0 NUM_BENCH_FEATURE) s)
    (fun _ r p i => exists j, j ∈ seqZ 0 NUM_BENCH_FEATURE /\ exists fr, fr ∈ frs /\ r = table_hdl fr /\ p = 0 /\ i = Z.rem j MAX_FLOWS)
    (seq 0 NUM_K)) with (s := s) as (s' & E & Hz).
  { intros x s0 _. apply (zero_loop (fun j s => foldM (fun r s => bench_write r j s) frs s)
      (fun j r p i => exists fr, fr ∈ frs /\ r = table_hdl fr /\ p = 0 /\ i = Z.rem j MAX_FLOWS)).
    intros j s1 _. apply (zero_loop (fun r s => bench_write r j s) (fun fr r p i => r = table_hdl fr /\ p = 0 /\ i = Z.rem j MAX_FLOWS)).
    intros fr s2 _. apply bench_write_ok. }
  exists s'. split; [exact E|]. eapply zeroed_iff; [|exact Hz].
  intros r p i. split.
  - intros (_ & _ & j & Hj%elem_of_seqZ0 & fr & Hfr & -> & -> & ->).
    split; [by apply list_elem_of_fmap_2|]. split; [done|]. apply Z.rem_bound_pos; [lia|done].
  - intros ((fr & -> & Hfr)%list_elem_of_fmap & -> & Hi). exists 0%nat.
    split; [apply elem_of_seq; change NUM_K with 50%nat; lia|]. exists i.
    assert (MAX_FLOWS < NUM_BENCH_FEATURE) by done.
    split; [apply elem_of_seqZ0; lia|]. exists fr. split; [done|]. split; [done|]. split; [done|].
    by rewrite Z.rem_small.
Qed.

(** The removal that resets registers: register [j] at index [j], whatever was removed. *)
Definition reset_index (frs : list feature_register_t) (r p i : Z) : Prop :=
  p = 0 /\ 0 <= i < NUM_FEATURES /\ exists fr, frs !! Z.to_nat i = Some fr /\ r = table_hdl fr.

Lemma bench_remove_with_zero_ok frs hdls i ft s :
  bench_ok ft -> 0 <= i < alen hdls ->
  exists s', bench_remove_with_zero frs hdls i (ft, s) = Ok (set_src_ipv4 ft i, s') /\
    v_ipv4 (view s') = delete (aget hdls i) (v_ipv4 (view s)) /\
    exists v, but_ipv4 (view s) v /\ zeroed (reset_index frs) v (view s').
Proof using.
  intros Hft Hi. unfold bench_remove_with_zero.
  destruct (bench_remove_ok hdls i ft s Hft Hi) as (s1 & -> & Ev & Hb). cbn [rbind].
  destruct (zero_loop (fun '(j, r) s => bench_write r j s)
    (fun x r p i => r = table_hdl x.2 /\ p = 0 /\ i = Z.rem x.1 MAX_FLOWS) (zip (seqZ 0 NUM_FEATURES) frs)) with (s := s1)
    as (s' & -> & Hz).
  { intros [j fr] s0 _. apply bench_write_ok. }
  cbn [rbind]. exists s'. split; [done|]. split; [rewrite <- Ev; by rewrite (proj1 Hz)|].
  exists (view s1). split; [exact Hb|]. eapply zeroed_iff; [|exact Hz]. intros r p k. unfold reset_index. split.
  - intros ([j fr] & (n & Hn)%list_elem_of_lookup & -> & -> & ->). cbn [fst snd].
    apply lookup_zip_Some in Hn as [Hj Hfr]. apply lookup_seqZ in Hj as [-> Hn]. rewrite Z.add_0_l.
    assert (Z.of_nat n < MAX_FLOWS) by (unfold NUM_FEATURES, MAX_FLOWS in *; lia). rewrite Z.rem_small by lia.
    split; [done|]. split; [lia|]. exists fr. by rewrite Nat2Z.id.
  - intros (-> & Hk & fr & Hfr & ->). exists (k, fr). split.
    + apply (list_elem_of_lookup_2 _ (Z.to_nat k)), lookup_zip_Some. split; [|done].
      apply lookup_seqZ. lia.
    + cbn [fst snd]. split; [done|]. split; [done|]. unfold NUM_FEATURES, MAX_FLOWS in *. by rewrite Z.rem_small by lia.
Qed.
End registers.

(** ** The export of as many sessions as there are ids *)

#[local] Opaque FEATURE_SIZE session_hash session_hashtable_add_or_increase_flow_count le_bytes.

Definition bench_client (i : Z) : five_tuple_t := set_client bench_export_tuple (u32 i).

(** The sessions [0, ..., k-1] are stored, under their own ids, and no other. *)
Definition clients (us : bool) (k : Z) (M : id_map) : Prop :=
  (forall j, 0 <= j < k -> M !! session_key us (bench_client j) = Some (bench_client j, j)) /\
  (forall key x, M !! key = Some x -> exists j, 0 <= j < k /\ x = (bench_client j, j) /\ key = session_key us (bench_client j)).

Lemma bench_key_inj us i j :
  0 <= i < 2 ^ 32 -> 0 <= j < 2 ^ 32 ->
  session_key us (bench_client i) = session_key us (bench_client j) -> i = j.
Proof.
  intros Hi Hj E.
  assert (le_bytes 16 (u32 i) = le_bytes 16 (u32 j)) as Eb.
  { destruct us; cbn in E; apply app_inj_len in E as [E _]; (exact E || by rewrite !length_le_bytes). }
  rewrite !u32_small in Eb by done. apply le_bytes_inj in Eb; [done|cbn; lia..].
Qed.

Section export.
Context (us DEBUG : bool) (inet_ntop : Z -> address_t -> list Z).

Lemma bench_client_storable i : 0 <= i < FEATURE_SIZE -> session_storable (bench_client i) i.
Proof using. intros Hi. unfold session_storable, egress_index. cbn. lia. Qed.

Lemma bench_session_ok i ft fc t M :
  0 <= i < FEATURE_SIZE -> (forall a, set_client ft a = set_client bench_export_tuple a) ->
  session_rep us fc t M -> clients us i M ->
  exists t' M', bench_session us i (ft, t) = Ok (bench_client i, t') /\ session_rep us fc t' M' /\ clients us (i + 1) M'.
Proof using.
  intros Hi Hft Hr [Hc1 Hc2]. unfold bench_session. rewrite Hft. fold (bench_client i).
  pose proof FEATURE_SIZE_val as Hv.
  assert (forall j, 0 <= j < i + 1 -> session_key us (bench_client j) = session_key us (bench_client i) -> j = i) as Hinj
    by (intros j Hj; apply bench_key_inj; lia).
  destruct (session_add_ok us fc t M (bench_client i) i) as (t' & -> & Hr').
  - done.
  - destruct (M !! _) as [x|] eqn:E; [|done]. destruct (Hc2 _ _ E) as (j & Hj & _ & Ek).
    assert (j = i) by (apply Hinj; [lia|done]). lia.
  - by apply bench_client_storable.
  - intros k x Hk. destruct (Hc2 _ _ Hk) as (j & Hj & -> & _). cbn. lia.
  - cbn [rbind]. eexists t', _. split; [done|]. split; [exact Hr'|]. split.
    + intros j Hj. destruct (decide (j = i)) as [->|Hne]; [by rewrite lookup_insert_eq|].
      rewrite lookup_insert_ne; [apply Hc1; lia|]. intros E. apply Hne. by apply Hinj.
    + intros key x. destruct (decide (key = session_key us (bench_client i))) as [->|Hne].
      * rewrite lookup_insert_eq. intros [= <-]. exists i. by split; [lia|].
      * rewrite lookup_insert_ne by done. intros Hk. destruct (Hc2 _ _ Hk) as (j & Hj & Ex). exists j. by split; [lia|].
Qed.

Lemma bench_sessions_ok fc :
  exists ft t M, foldM (bench_session us) (seqZ 0 FEATURE_SIZE) (bench_export_tuple, session_hashtable_init fc) = Ok (ft, t) /\
    session_rep us fc t M /\ clients us FEATURE_SIZE M.
Proof using.
  destruct (foldM_rule (fun dn (st : five_tuple_t * session_hashtable_t) =>
      (forall a, set_client st.1 a = set_client bench_export_tuple a) /\
      exists M, session_rep us fc st.2 M /\ clients us (Z.of_nat (length dn)) M)
    (bench_session us) (seqZ 0 FEATURE_SIZE)) with (s := (bench_export_tuple, session_hashtable_init fc))
    as ([ft t] & E & _ & M & Hr & Hc).
  - intros dn i rest [ft t] El (Hft & M & Hr & Hc). cbn [fst snd] in *.
    assert (seqZ 0 FEATURE_SIZE !! length dn = Some i) as Hi by (rewrite El; by apply list_lookup_middle).
    apply lookup_seqZ in Hi as [-> Hi]. rewrite Z.add_0_l in *.
    destruct (bench_session_ok (Z.of_nat (length dn)) ft fc t M) as (t' & M' & -> & Hr' & Hc'); [lia|done..|].
    eexists. split; [reflexivity|]. split; [done|]. exists M'. split; [exact Hr'|].
    rewrite length_app. cbn [length]. by replace (Z.of_nat (length dn + 1)) with (Z.of_nat (length dn) + 1) by lia.
  - split; [done|]. exists ∅. split; [apply session_rep_init|]. split; [cbn [length]; lia|]. intros key x. by rewrite lookup_empty.
  - exists ft, t, M. split; [exact E|]. split; [exact Hr|].
    rewrite length_seqZ, Z2Nat.id in Hc; [exact Hc|]. rewrite FEATURE_SIZE_val. lia.
Qed.

(** Every id that the exporter visits has its session. *)
Lemma clients_lines fc t M rs :
  session_rep us fc t M -> clients us FEATURE_SIZE M ->
  session_lines DEBUG inet_ntop fc rs M feature_ids =
    (fun id => session_line DEBUG inet_ntop fc rs id (bench_client id)) <$> feature_ids.
Proof using.
  intros Hr [Hc _]. unfold session_lines. pose proof feature_ids_in_range as Hf.
  induction Hf as [|id l Hid _ IH]; [done|]. cbn [omap list_omap fmap list_fmap].
  erewrite session_owner; [|exact Hr|by apply Hc]. cbn [fmap option_fmap option_map]. by f_equal.
Qed.

(** The file, for the readings of the clock. *)
Definition bench_file (fc : arr Z) (rs : list feature_register_t) (clock : list timespec) : list (list field) :=
  concat ((fun ts => print_header DEBUG ts rs ++
    ((fun id => session_line DEBUG inet_ntop fc rs id (bench_client id)) <$> feature_ids) ++ [[]]) <$> clock).

Lemma bench_prints_ok t rs lines n clock : forall file,
  print_flow_data DEBUG inet_ntop t rs = Ok (lines, n) ->
  foldM (fun ts file => let! '(lines, _) := print_flow_data DEBUG inet_ntop t rs in
                        Ok (file ++ print_header DEBUG ts rs ++ lines)) clock file =
  Ok (file ++ concat ((fun ts => print_header DEBUG ts rs ++ lines) <$> clock)).
Proof using.
  induction clock as [|ts clock IH]; intros file E; cbn [foldM fmap list_fmap concat]; [by rewrite app_nil_r|].
  rewrite E at 1. cbn [rbind]. rewrite IH by done. by rewrite <- app_assoc.
Qed.

Lemma bench_export_ok {sw} `{SwitchLaws sw} fc tv_sec clock (s : sw) f q :
  alen fc = FEATURE_SIZE -> registers_ready (features f) ->
  Forall (fun r => on_egress r = 0 \/ on_egress r = 1) (features f) ->
  alen (last_flow_update f) = FEATURE_SIZE -> rb_rep PACKET_RINGBUFFER_SIZE (packet_ringbuffer f) q ->
  exists s' f' t M,
    bench_feature_export_to_file us DEBUG inet_ntop fc tv_sec clock s f =
      Ok (s', f', t, bench_file fc (features f') clock) /\
    session_rep us fc t M /\ clients us FEATURE_SIZE M /\ same_but_synced (view s) (view s') /\
    registers_ready (features f').
Proof using.
  intros Hfc Hready Hon Hlfu Hq. unfold bench_feature_export_to_file.
  destruct (bench_sessions_ok fc) as (ft & t & M & -> & Hr & Hc). cbn [rbind].
  destruct (read_features_ok tv_sec (egress_feature_to_session_id t) s f q Hready (session_egress_length _ _ _ _ Hr) Hlfu Hq)
    as (s' & f' & count & count' & -> & Hv & Hready' & Hpass & _). cbn [rbind]. unfold session_hashtable_copy.
  destruct (passed_exportable s' _ _ Hpass (proj1 Hready') Hon) as [_ Hex].
  pose proof (print_flow_data_ok us DEBUG inet_ntop fc t M (features f') Hr Hfc Hex) as Ep.
  erewrite bench_prints_ok by exact Ep. cbn [rbind]. exists s', f', t, M.
  split; [|by repeat split_and]. rewrite (clients_lines fc t M _ Hr Hc). done.
Qed.
End export.

(** The readers: every pass succeeds, whatever the switch answers. *)
Lemma bench_feature_reader_ok {sw} `{SwitchLaws sw} egress clock : forall (s : sw) f q,
  registers_ready (features f) -> alen egress = FEATURE_SIZE -> alen (last_flow_update f) = FEATURE_SIZE ->
  rb_rep PACKET_RINGBUFFER_SIZE (packet_ringbuffer f) q ->
  exists s' f', bench_feature_reader egress clock s f = Ok (s', f') /\
    same_but_synced (view s) (view s') /\ registers_ready (features f').
Proof.
  induction clock as [|now clock IH]; intros s f q Hready He Hl Hq; [by (exists s, f; split_and!; [|apply same_but_synced_refl|])|].
  unfold bench_feature_reader in *. cbn [foldM fst snd].
  destruct (read_features_ok now egress s f q Hready He Hl Hq) as (s1 & f1 & c & c' & -> & Hv & Hready1 & _ & _ & _ & _ & Haged & Hq1).
  cbn [rbind]. destruct (IH s1 f1 _ Hready1 He (proj1 Haged) Hq1) as (s' & f' & E & Hv' & Hready').
  exists s', f'. split; [exact E|]. split; [by eapply same_but_synced_trans|done].
Qed.

(** ** Properties *)

(** Claim C30. The 50 rounds of insertions and removals end, on every switch, and change
    nothing but the IPv4 table. Either they all pass and leave the table as it was, or an
    entry [i] is refused, because the table of pipe 0 already had an entry with the same
    match specification or because the usable entries were taken, and the [i] entries
    before it stay in the table under fresh handles. When the usable size has room for the
    [num_ops] entries of a round beside the entries of pipe 0, and none of those equals
    one of the thread's, the rounds pass; when one does, or the round would need more than
    the declared size, they do not. On the switch of the comment at [benchmark.c:84],
    where 12290 of the 98304 declared entries are not usable, [num_ops] is exactly what
    an empty table takes. *)
Theorem bench_classification_insert_remove_spec {sw} `{SwitchLaws sw} (s : sw) garbage :
  alen garbage = num_ops ->
  exists e s', bench_classification_insert_remove garbage s = Ok (e, s') /\
    but_ipv4 (view s) (view s') /\ bench_outcome (v_ipv4 (view s)) e (v_ipv4 (view s')) /\
    (bench_unmatched (seqZ 0 num_ops) (v_ipv4 (view s)) -> full_entries (view s) + num_ops <= ipv4_usable ->
     e = BENCH_DONE) /\
    (e = BENCH_DONE ->
     bench_unmatched (seqZ 0 num_ops) (v_ipv4 (view s)) /\ full_entries (view s) + num_ops <= MAX_IP4_FLOWS).
Proof.
  intros Hal. unfold bench_classification_insert_remove.
  destruct (bench_rounds_ok bench_remove (fun v => but_ipv4 (view s) v)) with (k := NUM_K) (ft := bench_five_tuple) (hdls := garbage) (s := s)
    as (e & s' & E & HI & Ho & Hd).
  - intros v v' Hb HI. by eapply but_ipv4_trans.
  - intros hdls i ft s0 Hok Hi HI. destruct (bench_remove_ok hdls i ft s0 Hok Hi) as (s1 & -> & Ev & Hb).
    exists (set_src_ipv4 ft i), s1. split; [done|]. split; [by apply set_src_ok|]. split; [by eapply but_ipv4_trans|done].
  - done.
  - done.
  - apply but_ipv4_refl.
  - exists e, s'. split; [exact E|]. split; [exact HI|]. split; [exact Ho|]. split.
    + intros Hun Hroom. exact (bench_not_refused _ _ _ Ho Hun Hroom).
    + intros He. by apply Hd.
Qed.

Lemma bench_classification_insert_remove_spec_witness : exists s' : model_sw,
  bench_classification_insert_remove (amake num_ops 77) (constant_switch 0) = Ok (BENCH_DONE, s') /\
  view s' = view (constant_switch 0).
Proof.
  destruct (bench_classification_insert_remove_spec (constant_switch 0) (amake num_ops 77)) as (e & s' & E & Hb & Ho & Hd & _).
  - reflexivity.
  - assert (e = BENCH_DONE) as ->.
    { apply Hd; [|vm_compute; discriminate]. intros i _ (h & reg & Hx). discriminate Hx. }
    exists s'. split; [exact E|]. unfold but_ipv4 in Hb. rewrite Hb. cbn [bench_outcome] in Ho. by rewrite Ho.
Defined.

(** The removal with reset leaves the registers of the removed flows: it only ever
    writes register [j] at index [j], for the seven numbers [j] of the features. *)
Theorem bench_remove_with_zero_keeps_registers {sw} `{SwitchLaws sw} frs (s : sw) garbage :
  alen garbage = num_ops ->
  exists e s', bench_classification_remove_with_zero frs garbage s = Ok (e, s') /\
    bench_outcome (v_ipv4 (view s)) e (v_ipv4 (view s')) /\
    forall reg pipe i, ~ reset_index frs reg pipe i -> v_regs (view s') reg pipe i = v_regs (view s) reg pipe i.
Proof.
  intros Hal. unfold bench_classification_remove_with_zero.
  destruct (bench_rounds_ok (bench_remove_with_zero frs)
    (fun v => forall r p i, ~ reset_index frs r p i -> v_regs v r p i = v_regs (view s) r p i))
    with (k := NUM_K) (ft := bench_five_tuple) (hdls := garbage) (s := s) as (e & s' & E & HI & Ho & _).
  - intros v v' Hb HI. unfold but_ipv4 in Hb. by rewrite Hb.
  - intros hdls i ft s0 Hok Hi HI.
    destruct (bench_remove_with_zero_ok frs hdls i ft s0 Hok Hi) as (s1 & -> & Ev & v & Hb & _ & Hz).
    exists (set_src_ipv4 ft i), s1. split; [done|]. split; [by apply set_src_ok|]. split; [|done].
    intros r p k Hn. destruct (Hz r p k) as [_ [->|?]]; [|done]. unfold but_ipv4 in Hb. rewrite Hb. by apply HI.
  - done.
  - done.
  - done.
  - by exists e, s'.
Qed.

(** [bench_feature_reset] only touches the registers of the features at pipe 0, and sets
    them to 0 when the writes succeed. *)
Theorem bench_feature_reset_zeroes {sw} `{SwitchLaws sw} frs (s : sw) :
  exists s', bench_feature_reset frs s = Ok s' /\
    view s' = with_synced (v_synced (view s')) (with_regs (v_regs (view s')) (view s)) /\
    forall reg pipe i,
      let reset := reg ∈ table_hdl <$> frs /\ pipe = 0 /\ 0 <= i < MAX_FLOWS in
      (writes_succeed sw -> reset -> v_regs (view s') reg pipe i = 0) /\
      (~ reset -> v_regs (view s') reg pipe i = v_regs (view s) reg pipe i).
Proof.
  destruct (bench_feature_reset_ok frs s) as (s' & E & Ev & Hz). exists s'. split; [exact E|]. split; [exact Ev|].
  intros reg pipe i reset. destruct (Hz reg pipe i) as [Hin Hout]. split; [exact Hin|]. by destruct Hout.
Qed.

Lemma length_bench_file DEBUG inet_ntop fc rs clock :
  Z.of_nat (length (bench_file DEBUG inet_ntop fc rs clock)) = Z.of_nat (length clock) * (FEATURE_SIZE - 1).
Proof.
  unfold bench_file. pose proof length_feature_ids as Hl. unfold MIN_SESSION_ID in Hl.
  induction clock as [|ts clock IH]; [done|]. rewrite fmap_cons. cbn [concat]. rewrite !length_app, length_fmap.
  cbn [length print_header]. lia.
Qed.

(** The exporter handles a full set of sessions, in both modes: creating a session
    for every id succeeds, and each reading of the clock writes the header, one line
    for each id from [MIN_SESSION_ID] on, in order, with the session of that id, and an
    empty line. *)
Theorem bench_export_prints_every_session {sw} `{SwitchLaws sw} us DEBUG inet_ntop fc tv_sec clock (s : sw) f q :
  alen fc = FEATURE_SIZE -> registers_ready (features f) ->
  Forall (fun r => on_egress r = 0 \/ on_egress r = 1) (features f) ->
  alen (last_flow_update f) = FEATURE_SIZE -> rb_rep PACKET_RINGBUFFER_SIZE (packet_ringbuffer f) q ->
  exists s' f' t,
    bench_feature_export_to_file us DEBUG inet_ntop fc tv_sec clock s f =
      Ok (s', f', t, bench_file DEBUG inet_ntop fc (features f') clock) /\
    Z.of_nat (length (bench_file DEBUG inet_ntop fc (features f') clock)) = Z.of_nat (length clock) * (FEATURE_SIZE - 1).
Proof.
  intros Hfc Hready Hon Hlfu Hq.
  destruct (bench_export_ok us DEBUG inet_ntop fc tv_sec clock s f q) as (s' & f' & t & M & E & _); [done..|].
  exists s', f', t. split; [exact E|]. apply length_bench_file.
Qed.

(** The registers after [prepare_features], none of them on egress. *)
Definition bench_features : features_t :=
  Features ((fun r => fst (prepare_feature r)) <$> STATIC_FEATURES_ARRAY (fun _ => 0))
    (amake FEATURE_SIZE 0) (ringbuffer_init (static_ringbuffer PACKET_RINGBUFFER_SIZE (PKT_TIMEOUT_FLOW 0))).

Lemma bench_export_prints_every_session_witness : exists s' f' t file,
  bench_feature_export_to_file true false (fun _ a => le_bytes 4 a) (amake FEATURE_SIZE 0) 1 [Timespec 1 0; Timespec 2 0]
    (constant_switch 0) bench_features = Ok (s', f', t, file) /\ Z.of_nat (length file) = 2 * (FEATURE_SIZE - 1).
Proof.
  destruct (bench_export_prints_every_session true false (fun _ a => le_bytes 4 a) (amake FEATURE_SIZE 0) 1
              [Timespec 1 0; Timespec 2 0] (constant_switch 0) bench_features []) as (s' & f' & t & E & Hl).
  - reflexivity.
  - apply prepared_ready.
  - repeat first [apply Forall_nil_2 | apply Forall_cons_2; [left; reflexivity|]].
  - reflexivity.
  - apply rb_rep_init; [apply ringbuffer_sizes|reflexivity].
  - exists s', f', t. eexists. split; [exact E|exact Hl].
Defined.

(** The whole program: on a configuration that the SDK accepts the switch is prepared
    first, and then the file is complete. *)
Theorem benchmark_controller_exports {sw} `{SwitchLaws sw} {T} `{TableApiLaws T, PortApi} DEBUG inet_ntop cf hdls ports pairs
    egress tv_sec clock (s : sw) (pd : pd_state T) :
  configurable cf hdls ports pairs pd -> (forall r, egress r = 0 \/ egress r = 1) ->
  exists pd' f t,
    benchmark_controller DEBUG inet_ntop cf hdls egress tv_sec clock s pd =
      Ok (Some (pd', f, t, bench_file DEBUG inet_ntop (amake FEATURE_SIZE 0) (features f) clock)) /\
    configured cf ports pairs pd' /\
    Z.of_nat (length (bench_file DEBUG inet_ntop (amake FEATURE_SIZE 0) (features f) clock)) = Z.of_nat (length clock) * (FEATURE_SIZE - 1).
Proof.
  intros Hcf He. unfold benchmark_controller. destruct (prepare_dataplane_ok cf hdls pd ports pairs Hcf) as (pd' & -> & Hc).
  unfold obind. cbn [rbind].
  destruct (prepare_features_spec egress s (amake FEATURE_SIZE 0)
    (ringbuffer_init (static_ringbuffer PACKET_RINGBUFFER_SIZE (PKT_TIMEOUT_FLOW 0)))) as (s' & f & -> & Ef & El & _ & Hready & _ & Er & _).
  cbn [rbind].
  destruct (bench_export_ok use_sessions_default DEBUG inet_ntop (amake FEATURE_SIZE 0) tv_sec clock s' f [])
    as (s2 & f2 & t & M & -> & _).
  - reflexivity.
  - exact Hready.
  - rewrite Ef. apply Forall_fmap. unfold STATIC_FEATURES_ARRAY. repeat (apply Forall_cons_2; [apply He|]). constructor.
  - rewrite El. reflexivity.
  - rewrite Er. apply rb_rep_init; [apply ringbuffer_sizes|reflexivity].
  - exists pd', f2, t. split; [reflexivity|]. split; [exact Hc|]. apply length_bench_file.
Qed.
