(* ===== verification/Evaluation.v ===== *)
(** * The evaluation programs ([evaluation/])

    Programs that measure one thread of the controller: [main] puts the same commands in
    the ring buffer of the thread ([flowdb_eval.c], [flowdb_bloom_eval.c],
    [dnsdb_eval.c]), fills the flow table while the exporter runs ([flowexport_eval.c]),
    or stores the address of the mock packets ([packet_handler_eval.c]). What each
    initialises, and what it leaves at its static value, is part of the model. The
    starting of the threads and the statistics are not. *)

From S2P Require Import Prelude Structs Ringbuffer IdTable FlowTable SessionTable DnsTable BloomFilter FlowDb.
From S2P Require Import DpApi Features PacketHandler DnsDb Export Prepare.
From stdpp Require Import strings.
#[local] Open Scope Z_scope.

(** ** A driver and the thread that it measures

    [main] puts the items of [program], number after number, with [ensure_put]; the
    thread takes the items and executes them. A step of the driver is one test of the
    loop of [ensure_put], a step of the thread one item; the events come in any order. *)

Section driver.
Context {itemtype St A : Type} (size : Z) (program : Z -> option itemtype) (exec : A -> itemtype -> St -> res St).

Record driver_t : Type := Driver { dr_next : Z; dr_ring : ringbuffer_t itemtype; dr_state : St }.
Inductive driver_event : Type := DriverPut | ThreadGet (input : A).
Implicit Types (x : driver_t) (st : St) (q : list itemtype).

Definition driver_step (e : driver_event) x : res driver_t :=
  match e with
  | DriverPut =>
      match program (dr_next x) with
      | None => Ok x
      | Some item =>
          let! r := ensure_put_body size item (dr_ring x) in
          match r with
          | inl ring => Ok (Driver (dr_next x) ring (dr_state x))
          | inr ring => Ok (Driver (dr_next x + 1) ring (dr_state x))
          end
      end
  | ThreadGet input =>
      let! '(_, item, ring) := ringbuffer_get size (dr_ring x) in
      match item with
      | None => Ok (Driver (dr_next x) ring (dr_state x))
      | Some item =>
          let! st := exec input item (dr_state x) in
          Ok (Driver (dr_next x) ring st)
      end
  end.

Definition driver_run (es : list driver_event) x : res driver_t := foldM driver_step es x.

(** The ring buffer holds the items with the numbers from [k] to [n]. *)
Definition holds_items (k n : Z) q : Prop := k <= n /\ Some <$> q = program <$> seqZ k (n - k).

Lemma holds_put k n q item : holds_items k n q -> program n = Some item -> holds_items k (n + 1) (q ++ [item]).
Proof using.
  intros [Hle E] Hp. split; [lia|]. replace (n + 1 - k) with ((n - k) + 1) by lia.
  rewrite seqZ_app, !fmap_app, E by lia. replace (k + (n - k)) with n by lia.
  rewrite (seqZ_cons n 1) by lia. cbn. by rewrite Hp.
Qed.

Lemma holds_get k n q item : holds_items k n (item :: q) -> program k = Some item /\ holds_items (k + 1) n q.
Proof using.
  intros [Hle E]. destruct (decide (n = k)) as [->|Hne]; [by rewrite Z.sub_diag in E|].
  rewrite (seqZ_cons k (n - k)) in E by lia. injection E as Ek E. split; [done|]. split; [lia|].
  by replace (n - (k + 1)) with (Z.pred (n - k)) by lia.
Qed.

Context (size_pos : 0 < size < 2 ^ 31).

(** What the items do in the order of their numbers, they do in every interleaving; the
    rest of what was put waits in the ring buffer. *)
Lemma driver_rule (P : Z -> St -> Prop) es :
  (forall k input item st, 0 <= k -> program k = Some item -> P k st ->
     exists st', exec input item st = Ok st' /\ P (k + 1) st') ->
  forall k n ring q st, 0 <= k -> P k st -> rb_rep size ring q -> holds_items k n q ->
  exists k' n' ring' q' st', driver_run es (Driver n ring st) = Ok (Driver n' ring' st') /\ k <= k' /\
    rb_rep size ring' q' /\ holds_items k' n' q' /\ P k' st'.
Proof using size_pos.
  intros Hstep. induction es as [|e es IH]; intros k n ring q st Hk HP Hr Hq; unfold driver_run; cbn [foldM].
  { exists k, n, ring, q, st. by split_and!. }
  destruct e as [|input]; cbn [driver_step dr_next dr_ring dr_state].
  - destruct (program n) as [item|] eqn:Ep; cbn [rbind]; [|exact (IH k n ring q st Hk HP Hr Hq)].
    unfold ensure_put_body. rewrite (rep_full _ _ _ Hr). case_bool_decide as Hf; cbn [rbind]; [exact (IH k n ring q st Hk HP Hr Hq)|].
    pose proof (rep_length _ _ _ Hr). destruct (store_rep size size_pos ring q item Hr) as (ring1 & -> & Hr1 & _); [lia|].
    cbn [rbind]. exact (IH k (n + 1) ring1 (q ++ [item]) st Hk HP Hr1 (holds_put _ _ _ _ Hq Ep)).
  - destruct (get_rep size size_pos ring q Hr) as (ring1 & -> & Hr1).
    destruct q as [|item q]; cbn [queue_get fst snd rbind] in *; [exact (IH k n ring1 [] st Hk HP Hr1 Hq)|].
    destruct (holds_get _ _ _ _ Hq) as [Ek Hq1]. destruct (Hstep k input item st Hk Ek HP) as (st1 & -> & HP1). cbn [rbind].
    destruct (IH (k + 1) n ring1 q st1 ltac:(lia) HP1 Hr1 Hq1) as (k' & n' & ring' & q' & st' & E & Hk' & H').
    exists k', n', ring', q', st'. split; [exact E|]. split; [lia|exact H'].
Qed.
End driver.
Arguments Driver {itemtype St} _ _ _.
Arguments DriverPut {A}.
Arguments ThreadGet {A} _.

(** ** [flowdb_eval.c] and [flowdb_bloom_eval.c]

    Both run [flowdb_thread] alone: nobody takes the commands for the data plane, and
    neither the session table nor [DEVPORT_MAPPING] is initialised. *)

Definition eval_five_tuple : five_tuple_t :=
  FiveTuple (FiveTupleForHash 1234 1234 1234 1234 L3_IPV4 L4_TCP) zero_sh 1 1 0.

Definition static_session_hashtable : session_hashtable_t :=
  SessionHashtable 0 (amake SESSION_HASHTABLE_SIZE zero_session_entry) (amake FEATURE_SIZE 0) (amake FEATURE_SIZE 0)
    (amake FEATURE_SIZE 0).
Definition eval_flowdb : flowdb_t := with_session_hashtable static_session_hashtable static_flowdb.
Definition eval_ports : arr Z := amake MAX_DEV_PORT_ID 0.

(** Two commands in turns: the first loop ends after [100*1000*1000] rounds, the second
    when its [int] overflows. *)
Definition flowdb_eval_rounds : Z := 100 * 1000 * 1000.
Definition eval_commands (rounds : Z) (first second : packet_item_t) (k : Z) : option packet_item_t :=
  if k <? 2 * rounds then Some (if Z.even k then first else second) else None.
Definition flowdb_eval_commands : Z -> option packet_item_t :=
  eval_commands flowdb_eval_rounds (PKT_ADD_FLOW eval_five_tuple) (PKT_REMOVE_FLOW eval_five_tuple).
Definition flowdb_bloom_eval_commands : Z -> option packet_item_t :=
  eval_commands (2 ^ 31) (PKT_FIX_BLOOM_FILTER_RELEVANT eval_five_tuple) (PKT_ADD_BLOOM_FILTER_IRRELEVANT eval_five_tuple).

(** The text of libuuid and the uninitialised id are inputs of each step of the thread. *)
Definition flowdb_thread_exec (use_sessions : bool) (input : list Z * Z) (c : packet_item_t) (db : flowdb_t) : res flowdb_t :=
  flowdb_command use_sessions eval_ports input.1 input.2 db c.

Definition flowdb_driver (use_sessions : bool) (commands : Z -> option packet_item_t)
    (es : list (driver_event (A := list Z * Z))) : res (driver_t (itemtype := packet_item_t) (St := flowdb_t)) :=
  let! db := flowdb_start eval_flowdb in
  driver_run PACKET_RINGBUFFER_SIZE commands (flowdb_thread_exec use_sessions) es (Driver 0 empty_packet_ring db).
Definition flowdb_eval (use_sessions : bool) es := flowdb_driver use_sessions flowdb_eval_commands es.
Definition flowdb_bloom_eval (use_sessions : bool) es := flowdb_driver use_sessions flowdb_bloom_eval_commands es.

(** ** [dnsdb_eval.c] *)

Definition dns_packet : list Z :=
  [0xc0; 0x41; 0x81; 0x80; 0x00; 0x01; 0x00; 0x02; 0x00; 0x00; 0x00; 0x01; 0x10; 0x72; 0x33; 0x2d;
   0x2d; 0x2d; 0x73; 0x6e; 0x2d; 0x68; 0x30; 0x6a; 0x65; 0x65; 0x6e; 0x65; 0x72; 0x0b; 0x67; 0x6f;
   0x6f; 0x67; 0x6c; 0x65; 0x76; 0x69; 0x64; 0x65; 0x6f; 0x03; 0x63; 0x6f; 0x6d; 0x00; 0x00; 0x01;
   0x00; 0x01; 0xc0; 0x0c; 0x00; 0x05; 0x00; 0x01; 0x00; 0x00; 0x00; 0x10; 0x00; 0x11; 0x02; 0x72;
   0x33; 0x0b; 0x73; 0x6e; 0x2d; 0x68; 0x30; 0x6a; 0x65; 0x65; 0x6e; 0x65; 0x72; 0xc0; 0x1d; 0xc0;
   0x3e; 0x00; 0x01; 0x00; 0x01; 0x00; 0x00; 0x01; 0x56; 0x00; 0x04; 0xac; 0xd9; 0x85; 0x68; 0x00;
   0x00; 0x29; 0x04; 0xd0; 0x00; 0x00; 0x00; 0x00; 0x00; 0x00; 0x00].
Definition SET_RESPONSE_IP (pkt : list Z) (ip : Z) : list Z := take 91 pkt ++ le_bytes 4 ip ++ drop 95 pkt.

(** The loop has no end but the overflow of its [int]. *)
Definition dnsdb_eval_items (i : Z) : option dns_item_t :=
  if i <? 2 ^ 31 then Some (DNS_ADD_PKT (Z.of_nat (length dns_packet)) (SET_RESPONSE_IP dns_packet i)) else None.

Definition dnsdb_eval `{Resolver} (inet_ntop : Z -> list Z -> list Z) (es : list (driver_event (A := Z)))
    : res (driver_t (itemtype := dns_item_t) (St := dns_hashtable_t * list dns_line)) :=
  driver_run DNS_RINGBUFFER_SIZE dnsdb_eval_items (dns_command inet_ntop) es
    (Driver 0 empty_dns_ring (dns_hashtable_init, [])).

(** ** [flowexport_eval.c] *)

Definition NUM_STEPS : Z := 20.
Definition export_five_tuple : five_tuple_t :=
  FiveTuple (FiveTupleForHash 1234 1 1234 1234 L3_IPV4 L4_TCP) zero_sh 1 1 0.
(** [five_tuple.h.dst_addr.ipv4 = i] *)
Definition set_dst_ipv4 (ft : five_tuple_t) (i : Z) : five_tuple_t :=
  let h := ft_h ft in
  FiveTuple (FiveTupleForHash (src_addr h) (addr_set_ipv4 (dst_addr h) i) (src_port h) (dst_port h) (l3_proto h) (l4_proto h))
    (ft_sh ft) (ingress_ts ft) (dev_port ft) (session_id_egress_offset ft).

Definition flowexport_add (_ : Z) (st : five_tuple_t * flow_hashtable_t * Z) : res (five_tuple_t * flow_hashtable_t * Z) :=
  let '(five_tuple, t, flow_id_counter) := st in
  let five_tuple := set_dst_ipv4 five_tuple flow_id_counter in
  let! '(_, t) := flow_hashtable_add t five_tuple flow_id_counter in
  Ok (five_tuple, t, flow_id_counter + 1).
Definition flowexport_step (_ : Z) st := foldM flowexport_add (seqZ 0 ((MAX_FLOWS * NUM_PIPES) `quot` NUM_STEPS)) st.
Definition flowexport_fill (t : flow_hashtable_t) : res (five_tuple_t * flow_hashtable_t * Z) :=
  foldM flowexport_step (seqZ 0 NUM_STEPS) (export_five_tuple, t, 0).

(** A round of the exporter on the static registers. *)
Definition flowexport_round {sw} `{Switch sw} (egress : Z -> Z) DEBUG inet_ntop sec ts (s : sw) :=
  export_round DEBUG inet_ntop sec ts static_session_hashtable s
    (Features (STATIC_FEATURES_ARRAY egress) (amake FEATURE_SIZE 0) empty_packet_ring).

(** ** [packet_handler_eval.c], [tests/mock_packets.h] *)

Definition add_relevant_dns_entry (now : Z) (t : dns_hashtable_t) : res dns_hashtable_t :=
  let! '(_, t) := dns_hashtable_add_or_change t (DnsKey L3_IPV4 16777343) (now + 100000) in
  Ok t.

Definition raw_packet : list Z :=
  [1; 1; 1; 1; 1; 1; 0; 0; 0; 0; 0; 0; 0x08; 0x00; 0x45; 0x00;
   0x00; 0x28; 0x00; 0x01; 0x00; 0x00; 0x40; 0x06; 0x7c; 0xcd; 0x7f; 0x00; 0x00; 0x01; 0x7f; 0x00;
   0x00; 0x01; 0x00; 0x14; 0x00; 0x50; 0x00; 0x00; 0x00; 0x00; 0x00; 0x00; 0x00; 0x00; 0x50; 0x02;
   0x20; 0x00; 0x91; 0x7c; 0x00; 0x00] ++ replicate 201 0.

(** [raw_packet[26] += 1], then the handler gets the packet. *)
Definition mock_raw_packets (garbage : Z) (env : handler_env) (st : list Z * handler_t) : res (list Z * handler_t) :=
  let '(packet, rings) := st in
  match packet !! 26%nat with
  | None => UB
  | Some b =>
      let packet := <[26%nat := u8 (b + 1)]> packet in
      let! rings := packet_handler garbage env packet rings in
      Ok (packet, rings)
  end.

(** [low_level_controller] of [packet_handler_eval.c]: the address is stored, the switch
    prepared, and the packet handler gets a mock packet for each reading of the clock. *)
Definition packet_handler_eval {sw T} `{Switch sw, TableApi T, PortApi} (cf : pd_config) (hdls : nat -> arr Z) (egress : Z -> Z)
    (garbage t0 : Z) (nows : list Z) (s : sw) (pd : pd_state T) : res (option (pd_state T * sw * features_t * list Z * handler_t)) :=
  let! dns := add_relevant_dns_entry t0 dns_hashtable_init in
  obind (prepare_dataplane cf hdls pd) (fun pd =>
  let! '(s, f) := prepare_features s (Features (STATIC_FEATURES_ARRAY egress) (amake FEATURE_SIZE 0) (h_packets empty_handler)) in
  let! '(packet, rings) :=
    foldM (fun now st => mock_raw_packets garbage (HandlerEnv flow_hashtable_init dns now) st) nows
      (raw_packet, Handler (packet_ringbuffer f) (h_dns empty_handler)) in
  Ok (Some (pd, s, f, packet, rings))).

(** ** Proofs *)

#[local] Opaque FEATURE_SIZE flowdb_command.

(** *** [flowdb_bloom_eval.c] *)

(** The tables besides the sessions. *)
Notation tables_rep := (db_rep (fun _ _ => True)).

Lemma flowdb_driver_start : exists db, flowdb_start eval_flowdb = Ok db /\ tables_rep db initial_state.
Proof. exact (flowdb_start_any _ static_session_hashtable I). Qed.

(** The counters of the tuple after [m] markings. *)
Definition marked_times (m : Z) (b : bloom_filter_t) : Prop :=
  forall hs p i x, get_hashes eval_five_tuple = Some hs ->
    count b p i x = if decide (p = 0 /\ 0 <= i < NUM_BLOOMFILTERS /\ x = position hs i) then u16 m else 0.

Lemma eval_tuple_hashes : exists hs, get_hashes eval_five_tuple = Some hs.
Proof. eexists. reflexivity. Qed.

Lemma bloom_eval_step us k input c db s :
  0 <= k -> flowdb_bloom_eval_commands k = Some c -> tables_rep db s -> marked_times (k / 2) (a_bloom s) ->
  exists db' s', flowdb_thread_exec us input c db = Ok db' /\ tables_rep db' s' /\ marked_times ((k + 1) / 2) (a_bloom s').
Proof.
  intros Hk Hc Hr Hm. destruct eval_tuple_hashes as [hs Hh].
  assert (0 <= dev_port eval_five_tuple < MAX_DEV_PORT_ID) as Hd by (split; [discriminate|reflexivity]).
  unfold flowdb_bloom_eval_commands, eval_commands in Hc. destruct (k <? _); [|done]. injection Hc as <-.
  unfold flowdb_thread_exec. destruct (Z.even k) eqn:Ek.
  - apply Z.even_spec in Ek as [m ->].
    with_strategy transparent [flowdb_command] cbn [flowdb_command]. rewrite (fd_bloom _ _ Hr).
    destruct (set_relevant_ok _ _ _ _ hs (fd_bloom_wf _ _ Hr) Hd Hh (fd_queue _ _ Hr)) as (ring & -> & Hring). cbn [rbind].
    eexists _, (set_queue _ s). split; [reflexivity|]. split; [by apply rep_set_queue|].
    replace ((2 * m + 1) / 2) with (2 * m / 2) by (Z.div_mod_to_equations; lia). exact Hm.
  - assert (exists m, k = 2 * m + 1) as [m ->].
    { apply Z.odd_spec. by rewrite <- Z.negb_even, Ek. }
    with_strategy transparent [flowdb_command] cbn [flowdb_command]. rewrite (fd_bloom _ _ Hr).
    destruct (set_irrelevant_ok _ _ _ _ hs (fd_bloom_wf _ _ Hr) Hd Hh (fd_queue _ _ Hr)) as (b & ring & -> & [Hwf Hb] & Hring).
    cbn [rbind]. eexists _, (FdState (a_flows s) (a_sessions s) (a_free_flows s) (a_free_sessions s) _ b).
    split; [reflexivity|]. split; [destruct Hr; by split|]. cbn [a_bloom]. intros hs' p i x Hh'.
    rewrite Hh in Hh'. injection Hh' as <-. rewrite Hb, (Hm hs p i x Hh). change (dev_port_to_pipe (dev_port eval_five_tuple)) with 0.
    assert ((p = 0 /\ i ∈ all_filters /\ x = position hs i) <-> (p = 0 /\ 0 <= i < NUM_BLOOMFILTERS /\ x = position hs i)) as Hiff
      by (by rewrite elem_of_all_filters).
    rewrite (decide_ext _ _ _ _ Hiff). case_decide; [|done].
    replace ((2 * m + 1 + 1) / 2) with ((2 * m + 1) / 2 + 1) by (Z.div_mod_to_equations; lia).
    unfold u16. by rewrite Zplus_mod_idemp_l.
Qed.

(** The program marks the same tuple again and again, in any interleaving of [main] and
    the thread: its counters are the number of markings modulo [2^16]. *)
Theorem flowdb_bloom_eval_counts us es :
  exists k n ring q db s, flowdb_bloom_eval us es = Ok (Driver n ring db) /\ 0 <= k /\
    rb_rep PACKET_RINGBUFFER_SIZE ring q /\ holds_items flowdb_bloom_eval_commands k n q /\
    tables_rep db s /\ marked_times (k / 2) (a_bloom s).
Proof.
  destruct flowdb_driver_start as (db & E & Hr). unfold flowdb_bloom_eval, flowdb_driver. rewrite E. cbn [rbind].
  destruct (driver_rule PACKET_RINGBUFFER_SIZE flowdb_bloom_eval_commands (flowdb_thread_exec us)
              (proj1 ringbuffer_sizes) (fun k db => exists s, tables_rep db s /\ marked_times (k / 2) (a_bloom s)) es)
    with (k := 0) (n := 0) (ring := empty_packet_ring) (q := @nil packet_item_t) (st := db)
    as (k & n & ring & q & db' & Er & Hk & Hring & Hq & s & Hr' & Hm).
  - intros k input c db1 Hk Hc (s & Hs & Hm). destruct (bloom_eval_step us k input c db1 s Hk Hc Hs Hm) as (db2 & s2 & H2 & H3).
    exists db2. split; [exact H2|]. by exists s2.
  - lia.
  - exists initial_state. split; [exact Hr|]. unfold initial_state. cbn [a_bloom]. intros hs p i x _.
    unfold count, bloom_filter_init. rewrite !aget_amake. by case_decide.
  - apply empty_handler_rep.
  - split; [lia|done].
  - exists k, n, ring, q, db', s. by split_and!.
Qed.

(** *** [dnsdb_eval.c] *)

Lemma dns_packet_length : length dns_packet = 107%nat.
Proof. reflexivity. Qed.

(** The second record of the answer: an address for [342] seconds, at offset [91]. *)
Definition eval_name : list Z := chars "r3.sn-h0jeener.googlevideo.com"%string.
Definition eval_record (rr : ns_rr) : Prop :=
  rr_type rr = ns_t_a /\ rr_ttl rr = 342 /\ rr_rdata rr = 91 /\ holds_string (rr_name rr) eval_name.

(** What libresolv makes of the packet: an alias and the address. *)
Definition resolves `{Resolver} : Prop :=
  forall ip, 0 <= ip < 2 ^ 31 -> exists msg alias rr,
    ns_initparse (SET_RESPONSE_IP dns_packet ip) = Some msg /\ ns_msg_count msg = 2 /\
    ns_parserr msg 0 = Some alias /\ address_record alias = false /\ ns_parserr msg 1 = Some rr /\ eval_record rr.

Lemma length_response ip : length (SET_RESPONSE_IP dns_packet ip) = 107%nat.
Proof. unfold SET_RESPONSE_IP. rewrite !length_app, length_le_bytes. reflexivity. Qed.

Lemma response_key ip rr :
  0 <= ip < 2 ^ 31 -> eval_record rr -> stored_key (SET_RESPONSE_IP dns_packet ip) rr = DnsKey 0 ip.
Proof.
  intros Hip (Ht & _ & Ho & _). unfold stored_key, pkt_array. rewrite Ht, Ho, length_response. cbn [Z.eqb ns_t_a Pos.eqb]. f_equal.
  unfold SET_RESPONSE_IP. rewrite <- !(assoc_L (++)).
  rewrite drop_app_length' by reflexivity. rewrite take_app_length' by (by rewrite length_le_bytes).
  apply le_value_le. cbn. lia.
Qed.

Lemma response_bytes ip : Forall is_byte (pkt_array (SET_RESPONSE_IP dns_packet ip)).
Proof.
  unfold pkt_array, SET_RESPONSE_IP. rewrite !Forall_app. split_and!.
  - apply (bool_decide_unpack _). vm_compute. exact I.
  - apply le_bytes_range.
  - apply (bool_decide_unpack _). vm_compute. exact I.
  - apply Forall_replicate. done.
Qed.

Definition eval_key (ip : Z) : list Z := dns_key_bytes (DnsKey 0 ip).

Lemma eval_key_inj i j : 0 <= i < 2 ^ 31 -> 0 <= j < 2 ^ 31 -> eval_key i = eval_key j -> i = j.
Proof.
  intros Hi Hj E. unfold eval_key, dns_key_bytes in E. cbn [dk_type dk_addr] in E.
  apply (app_inj_1 (le_bytes 4 0) (le_bytes 4 0)) in E as [_ E]; [|reflexivity].
  apply (le_bytes_inj 16); [cbn; lia|cbn; lia|exact E].
Qed.

(** The first [n] addresses are stored, as many as fit. *)
Definition holds_addresses (n : Z) (M : dns_map) : Prop :=
  Z.of_nat (size M) = Z.min n DNS_HASHTABLE_SIZE /\
  forall ip, 0 <= ip < 2 ^ 31 -> is_Some (M !! eval_key ip) <-> ip < Z.min n DNS_HASHTABLE_SIZE.

Lemma holds_insert n M v :
  0 <= n < 2 ^ 31 -> holds_addresses n M -> n < DNS_HASHTABLE_SIZE -> holds_addresses (n + 1) (<[eval_key n := v]> M).
Proof.
  intros Hn [Hs Hk] Hlt. rewrite Z.min_l in Hs, Hk by lia.
  assert (M !! eval_key n = None) as Hnew.
  { destruct (M !! eval_key n) eqn:E; [|done]. assert (n < n) by (apply Hk; [lia|by rewrite E]). lia. }
  split; rewrite Z.min_l by lia; [rewrite map_size_insert_None by done; lia|].
  intros ip Hip. destruct (decide (ip = n)) as [->|Hne]; [rewrite lookup_insert_eq; split; [lia|by eauto]|].
  rewrite lookup_insert_ne by (intros E%eval_key_inj; lia || done). rewrite Hk by done. lia.
Qed.

Section dnsdb.
Context `{Resolver} (inet_ntop : Z -> list Z -> list Z) (resolver : resolves).

Lemma dnsdb_eval_step k now item t pipe M :
  0 <= k -> dnsdb_eval_items k = Some item -> dns_rep t M -> holds_addresses k M ->
  exists t' M' line, dns_command inet_ntop now item (t, pipe) = Ok (t', pipe ++ [line]) /\
    dns_rep t' M' /\ holds_addresses (k + 1) M'.
Proof using resolver.
  intros Hk Hitem Hr HM. unfold dnsdb_eval_items in Hitem. destruct (Z.ltb_spec k (2 ^ 31)) as [Hlt|]; [|done]. injection Hitem as <-.
  destruct (resolver k ltac:(lia)) as (msg & alias & rr & Hm & Hc & H0 & Ha & H1 & Hrr). pose proof Hrr as (Ht & Httl & Ho & Hname).
  cbn [dns_command]. rewrite (parse_first_address inet_ntop now _ _ t msg 1 rr eval_name); first last.
  { reflexivity. } { exact Hname. } { unfold address_record. by rewrite Ht. } { exact H1. }
  { intros j Hj. assert (j = 0) as -> by lia. by exists alias. } { lia. }
  { rewrite Nat2Z.id. unfold pkt_array. rewrite take_app_length' by (by rewrite length_response). exact Hm. }
  rewrite bool_decide_true by (apply (bool_decide_unpack _); vm_compute; exact I).
  unfold store_record. rewrite record_key_ok; [|split; rewrite Ho; [lia|]|apply response_bytes].
  2: { rewrite Ht. unfold pkt_array. rewrite length_app, length_response, length_replicate. cbn. lia. }
  rewrite (response_key k rr) by (done || lia). cbn [rbind]. unfold export_key. rewrite Ht. cbn [Z.eqb ns_t_a Pos.eqb].
  destruct (decide (k < DNS_HASHTABLE_SIZE)) as [Hroom|Hfull].
  - destruct (dns_add_ok t M Hr ltac:(destruct HM as [-> _]; lia) (DnsKey 0 k) (now + u32 (rr_ttl rr))) as (t' & -> & Hr').
    cbn [rbind]. eexists t', _, _. split; [reflexivity|]. split; [exact Hr'|]. by apply holds_insert.
  - unfold dns_hashtable_add_or_change. destruct HM as [Hs Hkeys]. rewrite (dr_num _ _ Hr), Hs, Z.min_r, Z.eqb_refl by lia.
    cbn [rbind]. eexists t, M, _. split; [reflexivity|]. split; [exact Hr|].
    rewrite Z.min_r in Hs by lia. rewrite Z.min_r in Hkeys by lia. split; by rewrite Z.min_r by lia.
Qed.
End dnsdb.

(** The addresses of the responses are the numbers from 0 on. In any interleaving of
    [main] and the thread every response is exported, but only the first
    [DNS_HASHTABLE_SIZE] addresses are stored: from then on the program measures refused
    insertions. Nothing hangs, since the full table is never searched. *)
Theorem dnsdb_eval_fills_table `{Resolver} inet_ntop es :
  resolves ->
  exists k n ring q t pipe M, dnsdb_eval inet_ntop es = Ok (Driver n ring (t, pipe)) /\ 0 <= k /\
    rb_rep DNS_RINGBUFFER_SIZE ring q /\ holds_items dnsdb_eval_items k n q /\
    Z.of_nat (length pipe) = k /\ dns_rep t M /\ holds_addresses k M.
Proof.
  intros Hres. unfold dnsdb_eval.
  destruct (driver_rule DNS_RINGBUFFER_SIZE dnsdb_eval_items (dns_command inet_ntop) (proj2 (proj2 ringbuffer_sizes))
              (fun k st => Z.of_nat (length st.2) = k /\ exists M, dns_rep st.1 M /\ holds_addresses k M) es)
    with (k := 0) (n := 0) (ring := empty_dns_ring) (q := @nil dns_item_t) (st := (dns_hashtable_init, @nil dns_line))
    as (k & n & ring & q & [t pipe] & E & Hk & Hring & Hq & Hl & M & Hr & HM).
  - intros k now item [t pipe] Hk Hitem [Hl (M & Hr & HM)]. cbn [fst snd] in *.
    destruct (dnsdb_eval_step inet_ntop Hres k now item t pipe M Hk Hitem Hr HM) as (t' & M' & line & E & Hr' & HM').
    exists (t', pipe ++ [line]). split; [exact E|]. cbn [fst snd]. rewrite length_app. cbn [length]. split; [lia|]. by exists M'.
  - lia.
  - split; [done|]. exists ∅. split; [apply dns_rep_init|]. split; [by rewrite map_size_empty|].
    intros ip Hip. rewrite lookup_empty. split; [by intros []|]. change (Z.min 0 DNS_HASHTABLE_SIZE) with 0. lia.
  - apply empty_handler_rep.
  - split; [lia|done].
  - exists k, n, ring, q, t, pipe, M. by split_and!.
Qed.

Definition eval_rr : ns_rr := NsRr (eval_name ++ [0]) ns_t_a 342 91.

Lemma eval_resolves : resolves (H := records_resolver [NsRr [0] 5 16 0; eval_rr]).
Proof.
  intros ip _. exists [NsRr [0] 5 16 0; eval_rr], (NsRr [0] 5 16 0), eval_rr. repeat (split; [reflexivity|]).
  split; [apply (bool_decide_unpack _); vm_compute; exact I|]. by exists [].
Qed.

Lemma dnsdb_eval_fills_table_witness : exists n ring t pipe M,
  dnsdb_eval (H := records_resolver [NsRr [0] 5 16 0; eval_rr]) (fun _ a => a) [DriverPut; ThreadGet 5; ThreadGet 5] =
    Ok (Driver n ring (t, pipe)) /\ dns_rep t M.
Proof.
  destruct (dnsdb_eval_fills_table (H := records_resolver [NsRr [0] 5 16 0; eval_rr]) (fun _ a => a)
              [DriverPut; ThreadGet 5; ThreadGet 5]) as (k & n & ring & q & t & pipe & M & E & _ & _ & _ & _ & Hr & _).
  - exact eval_resolves.
  - exists n, ring, t, pipe, M. split; [exact E|exact Hr].
Defined.

(** *** [flowexport_eval.c] *)

Definition numbered (i : Z) : five_tuple_t := set_dst_ipv4 export_five_tuple i.
Lemma renumbered i j : set_dst_ipv4 (numbered i) j = numbered j.
Proof.
  unfold numbered, set_dst_ipv4. cbn [ft_h ft_sh ingress_ts dev_port session_id_egress_offset src_addr dst_addr src_port dst_port l3_proto l4_proto export_five_tuple].
  do 2 f_equal. unfold addr_set_ipv4, u32. Z.div_mod_to_equations. lia.
Qed.

Lemma numbered_key i j : 0 <= i < 2 ^ 32 -> 0 <= j < 2 ^ 32 -> flow_key (numbered i) = flow_key (numbered j) -> i = j.
Proof.
  intros Hi Hj E. unfold flow_key, h_bytes, numbered, set_dst_ipv4 in E. cbn [ft_h src_addr dst_addr export_five_tuple] in E.
  apply app_inj_len in E as [_ E]; [|by rewrite !length_le_bytes].
  apply app_inj_len in E as [E _]; [|by rewrite !length_le_bytes].
  unfold addr_set_ipv4 in E. rewrite !u32_small in E by lia.
  apply le_bytes_inj in E; cbn; lia.
Qed.

(** The flows with the numbers below [n] are stored under their numbers. *)
Definition numbered_flows (n : Z) (M : id_map) : Prop :=
  (forall i, 0 <= i < n -> M !! flow_key (numbered i) = Some (numbered i, i)) /\
  forall k x, M !! k = Some x -> exists i, 0 <= i < n /\ k = flow_key (numbered i) /\ x = (numbered i, i).

Definition filled_to (n : Z) (st : five_tuple_t * flow_hashtable_t * Z) : Prop :=
  st.2 = n /\ (forall j, set_dst_ipv4 st.1.1 j = numbered j) /\ exists M, flow_rep st.1.2 M /\ numbered_flows n M.

Lemma flowexport_add_ok x n st :
  0 <= n < FEATURE_SIZE -> filled_to n st -> exists st', flowexport_add x st = Ok st' /\ filled_to (n + 1) st'.
Proof.
  rewrite FEATURE_SIZE_val. intros Hn. destruct st as [[ft t] c]. intros (Ec & Hft & M & Hr & Hin & Hout). cbn [fst snd] in *. subst c.
  unfold flowexport_add. rewrite Hft.
  assert (M !! flow_key (numbered n) = None) as Hnew.
  { destruct (M !! flow_key (numbered n)) as [y|] eqn:E; [|done]. apply Hout in E as (i & Hi & E & _).
    apply numbered_key in E; lia. }
  destruct (flow_add_ok t M (numbered n) n Hr Hnew) as (t' & -> & Hr').
  { rewrite FEATURE_SIZE_val. lia. }
  { intros k y Hy. apply Hout in Hy as (i & Hi & _ & ->). cbn. lia. }
  cbn [rbind].
  eexists. split; [reflexivity|]. split; [done|]. cbn [fst snd]. split; [apply renumbered|]. eexists. split; [exact Hr'|].
  split.
  - intros i Hi. destruct (decide (i = n)) as [->|Hne]; [apply lookup_insert_eq|].
    rewrite lookup_insert_ne by (intros E; apply numbered_key in E; lia). apply Hin. lia.
  - intros k y Hy. apply lookup_insert_Some in Hy as [[<- <-]|[_ Hy]]; [exists n; split; [lia|done]|].
    apply Hout in Hy as (i & Hi & H'). exists i. split; [lia|done].
Qed.

Lemma flowexport_adds l : forall n st,
  0 <= n -> n + Z.of_nat (length l) <= FEATURE_SIZE -> filled_to n st ->
  exists st', foldM flowexport_add l st = Ok st' /\ filled_to (n + Z.of_nat (length l)) st'.
Proof.
  induction l as [|x l IH]; intros n st Hn Hl Hf; cbn [foldM length] in *.
  - exists st. split; [done|]. by rewrite Z.add_0_r.
  - destruct (flowexport_add_ok x n st ltac:(lia) Hf) as (st1 & -> & Hf1). cbn [rbind].
    destruct (IH (n + 1) st1 ltac:(lia) ltac:(lia) Hf1) as (st' & E & Hf'). exists st'. split; [exact E|].
    by replace (n + Z.of_nat (S (length l))) with (n + 1 + Z.of_nat (length l)) by lia.
Qed.

Lemma flowexport_steps l : forall n st,
  0 <= n -> n + 26214 * Z.of_nat (length l) <= FEATURE_SIZE -> filled_to n st ->
  exists st', foldM flowexport_step l st = Ok st' /\ filled_to (n + 26214 * Z.of_nat (length l)) st'.
Proof.
  induction l as [|x l IH]; intros n st Hn Hl Hf; cbn [foldM length] in *.
  - exists st. split; [done|]. by replace (n + _) with n by lia.
  - unfold flowexport_step at 1. assert ((MAX_FLOWS * NUM_PIPES) `quot` NUM_STEPS = 26214) as -> by reflexivity.
    destruct (flowexport_adds (seqZ 0 26214) n st Hn ltac:(rewrite length_seqZ; lia) Hf) as (st1 & -> & Hf1).
    cbn [rbind]. rewrite length_seqZ in Hf1. replace (Z.of_nat (Z.to_nat 26214)) with 26214 in Hf1 by lia.
    destruct (IH (n + 26214) st1 ltac:(lia) ltac:(lia) Hf1) as (st' & E & Hf'). exists st'. split; [exact E|].
    by replace (n + 26214 * Z.of_nat (S (length l))) with (n + 26214 + 26214 * Z.of_nat (length l)) by lia.
Qed.

(** The program fills the flow table with 524280 flows. But the exporter prints sessions,
    of which there are none, and does not come so far: nobody prepared the registers, so
    that their pass already uses buffers at a null pointer. *)
Theorem flowexport_eval_uses_unprepared_registers {sw} `{Switch sw} egress DEBUG inet_ntop sec ts (s : sw) :
  (exists ft t M, flowexport_fill flow_hashtable_init = Ok (ft, t, 524280) /\ flow_rep t M /\ numbered_flows 524280 M) /\
  flowexport_round egress DEBUG inet_ntop sec ts s = UB.
Proof.
  split.
  - unfold flowexport_fill.
    destruct (flowexport_steps (seqZ 0 NUM_STEPS) 0 (export_five_tuple, flow_hashtable_init, 0)) as ([[ft t] c] & E & Ec & _ & M & Hr & HM).
    + lia.
    + rewrite length_seqZ, FEATURE_SIZE_val. done.
    + split; [done|]. split; [done|]. exists ∅. split; [exact flow_rep_init|]. split; [lia|].
      intros k x. by rewrite lookup_empty.
    + cbn [fst snd] in *. rewrite length_seqZ in Ec, HM. exists ft, t, M. rewrite E, Ec. split; [done|]. split; [exact Hr|exact HM].
  - unfold flowexport_round, export_round, read_features. cbn [features STATIC_FEATURES_ARRAY read_all].
    unfold read_feature at 1. reflexivity.
Qed.

(** *** [packet_handler_eval.c] *)

(** The packet with the byte [b] at offset 26. *)
Definition mock_packet (b : Z) : list Z := <[26%nat := b]> raw_packet.
(** Its parsed headers: a SYN to 127.0.0.1. *)
Definition mock_headers (b : Z) (p : parsed) : Prop :=
  ft_h (pa_ft p) = FiveTupleForHash (b + 2 ^ 24) 16777343 20 80 L3_IPV4 L4_TCP /\ is_dns p = false /\ th_flags (pa_l4 p) = TH_SYN.

Lemma mock_parses garbage : Forall (fun b => exists p, parse_headers garbage (mock_packet b) = Ok (Some p) /\ mock_headers b p) (seqZ 0 256).
Proof.
  let l := eval vm_compute in (seqZ 0 256) in change (seqZ 0 256) with l.
  repeat (apply Forall_cons_2; [eexists; split; [vm_compute; reflexivity|split; [|split]; vm_compute; reflexivity]|]).
  apply Forall_nil_2.
Qed.

Lemma mock_packet_initial : mock_packet (u8 (127 + 0)) = raw_packet.
Proof. reflexivity. Qed.

Definition local_key : list Z := dns_key_bytes (DnsKey L3_IPV4 16777343).

(** The handler sends a new flow for it while the entry is not expired. *)
Lemma mock_packet_opens garbage env expiry b rings qp qd :
  env_rep env ∅ {[local_key := expiry]} -> now_sec env <= expiry -> 0 <= b < 256 -> handler_rep rings qp qd ->
  exists rings' ft, packet_handler garbage env (mock_packet b) rings = Ok rings' /\
    ft_h ft = FiveTupleForHash (b + 2 ^ 24) 16777343 20 80 L3_IPV4 L4_TCP /\
    handler_rep rings' (queue_puts PACKET_RINGBUFFER_SIZE qp [PKT_ADD_FLOW ft]) qd.
Proof.
  intros Henv Hnow Hb Hst. set (D := {[local_key := expiry]} : dns_map) in *.
  pose proof (mock_parses garbage) as Hp. rewrite Forall_forall in Hp.
  destruct (Hp b) as (p & Ep & Eh & Hd & Hf); [apply elem_of_seqZ; lia|].
  destruct (packet_handler_ok garbage env ∅ D (mock_packet b) rings qp qd Henv Hst) as (r & Er & Hr).
  rewrite Ep in Er. injection Er as <-. specialize (Hr Hd). cbv zeta in Hr.
  assert (ft_h (spec_session D (pa_ft p)) = ft_h (pa_ft p)) as Es by (unfold spec_session; by repeat case_match).
  rewrite bool_decide_false in Hr by (rewrite lookup_empty; by intros []).
  assert (spec_heuristic (now_sec env) D (ft_h (pa_ft p)) = (true, [])) as Hh.
  { rewrite Eh. unfold spec_heuristic, relevance. cbn [src_addr dst_addr l3_proto].
    change (dns_key_bytes (toDnsHashtableKey 16777343 L3_IPV4)) with local_key.
    assert (D !! local_key = Some expiry) as Hl by apply lookup_singleton_eq. rewrite Hl.
    destruct (D !! dns_key_bytes _) as [e|] eqn:Ee.
    - apply lookup_singleton_Some in Ee as [_ <-]. by rewrite (proj2 (Z.ltb_ge _ _) Hnow).
    - by rewrite (proj2 (Z.ltb_ge _ _) Hnow). }
  unfold spec_commands in Hr. rewrite Es, Hf, Hh, Eh, andb_false_r in Hr. cbn in Hr.
  destruct Hr as (rings' & E & Hr'). exists rings', (spec_session D (pa_ft p)). split; [exact E|]. split; [by rewrite Es|exact Hr'].
Qed.

(** The address is stored. *)
Lemma add_relevant_dns_entry_ok now : exists dns,
  add_relevant_dns_entry now dns_hashtable_init = Ok dns /\ dns_rep dns {[local_key := now + 100000]}.
Proof.
  destruct (dns_add_ok dns_hashtable_init ∅ dns_rep_init ltac:(by rewrite map_size_empty) (DnsKey L3_IPV4 16777343) (now + 100000))
    as (t & E & Ht). exists t. split; [|exact Ht]. unfold add_relevant_dns_entry. by rewrite E.
Qed.

(** The headers of the packet after [i] increments. *)
Definition mock_hash (i : Z) : five_tuple_for_hash_t :=
  FiveTupleForHash (u8 (127 + i) + 2 ^ 24) 16777343 20 80 L3_IPV4 L4_TCP.
Definition mock_round (garbage : Z) (dns : dns_hashtable_t) (now : Z) (st : list Z * handler_t) : res (list Z * handler_t) :=
  mock_raw_packets garbage (HandlerEnv flow_hashtable_init dns now) st.

Lemma mock_round_ok garbage dns expiry now i rings q :
  dns_rep dns {[local_key := expiry]} -> now <= expiry -> handler_rep rings q [] ->
  exists rings' ft, mock_round garbage dns now (mock_packet (u8 (127 + i)), rings) = Ok (mock_packet (u8 (127 + (i + 1))), rings') /\
    ft_h ft = mock_hash (i + 1) /\ handler_rep rings' (queue_puts PACKET_RINGBUFFER_SIZE q [PKT_ADD_FLOW ft]) [].
Proof.
  intros Ht Hnow Hst. unfold mock_round, mock_raw_packets.
  assert (mock_packet (u8 (127 + i)) !! 26%nat = Some (u8 (127 + i))) as -> by (by apply list_lookup_insert_eq; vm_compute; lia).
  assert (<[26%nat := u8 (u8 (127 + i) + 1)]> (mock_packet (u8 (127 + i))) = mock_packet (u8 (127 + (i + 1)))) as ->.
  { unfold mock_packet. rewrite list_insert_insert_eq. f_equal. unfold u8. rewrite Zplus_mod_idemp_l. f_equal. lia. }
  destruct (mock_packet_opens garbage (HandlerEnv flow_hashtable_init dns now) expiry (u8 (127 + (i + 1))) rings q [])
    as (rings1 & ft & -> & Eft & Hst1).
  - split; [apply flow_rep_init|exact Ht|]. by rewrite map_size_singleton.
  - exact Hnow.
  - apply Z.mod_pos_bound. lia.
  - exact Hst.
  - exists rings1, ft. split; [done|]. by split.
Qed.

Lemma mock_rounds_ok garbage dns expiry nows : forall i q rings,
  dns_rep dns {[local_key := expiry]} -> Forall (fun now => now <= expiry) nows -> handler_rep rings q [] ->
  exists packet rings' fts,
    foldM (mock_round garbage dns) nows (mock_packet (u8 (127 + i)), rings) = Ok (packet, rings') /\
    handler_rep rings' (queue_puts PACKET_RINGBUFFER_SIZE q (PKT_ADD_FLOW <$> fts)) [] /\
    ft_h <$> fts = mock_hash <$> seqZ (i + 1) (Z.of_nat (length nows)).
Proof.
  induction nows as [|now nows IH]; intros i q rings Ht Hnows Hst; cbn [foldM].
  - exists (mock_packet (u8 (127 + i))), rings, []. split; [done|]. by split.
  - apply Forall_cons in Hnows as [Hnow Hnows].
    destruct (mock_round_ok garbage dns expiry now i rings q Ht Hnow Hst) as (rings1 & ft & -> & Eft & Hst1). cbn [rbind].
    destruct (IH (i + 1) _ rings1 Ht Hnows Hst1) as (packet & rings' & fts & Er & Hr' & Efts).
    exists packet, rings', (ft :: fts). split; [exact Er|]. split; [exact Hr'|].
    cbn [length]. rewrite seqZ_cons by lia. rewrite !fmap_cons, Eft, Efts. do 2 f_equal. f_equal; lia.
Qed.

(** The program runs the packet handler alone: every mock packet, whatever its source, is
    relevant because of the stored address and new because nobody stores flows, so that
    each puts one command in the queue, as long as there is room. *)
Theorem mock_packets_open_flows garbage t0 dns nows :
  add_relevant_dns_entry t0 dns_hashtable_init = Ok dns -> Forall (fun now => now <= t0 + 100000) nows ->
  exists packet rings fts,
    foldM (mock_round garbage dns) nows (raw_packet, empty_handler) = Ok (packet, rings) /\
    handler_rep rings (queue_puts PACKET_RINGBUFFER_SIZE [] (PKT_ADD_FLOW <$> fts)) [] /\
    ft_h <$> fts = mock_hash <$> seqZ 1 (Z.of_nat (length nows)).
Proof.
  intros Hdns Hnows. destruct (add_relevant_dns_entry_ok t0) as (t & E & Ht). rewrite E in Hdns. injection Hdns as <-.
  rewrite <- mock_packet_initial. exact (mock_rounds_ok garbage t _ nows 0 [] empty_handler Ht Hnows empty_handler_rep).
Qed.

Lemma mock_packets_open_flows_witness : exists dns packet rings fts,
  add_relevant_dns_entry 5 dns_hashtable_init = Ok dns /\
  foldM (mock_round 0 dns) [6; 7] (raw_packet, empty_handler) = Ok (packet, rings) /\
  handler_rep rings (queue_puts PACKET_RINGBUFFER_SIZE [] (PKT_ADD_FLOW <$> fts)) [] /\ length fts = 2%nat.
Proof.
  destruct (add_relevant_dns_entry_ok 5) as (dns & Edns & _).
  destruct (mock_packets_open_flows 0 5 dns [6; 7] Edns) as (packet & rings & fts & E & Hr & Ef).
  - repeat constructor; discriminate.
  - exists dns, packet, rings, fts. split; [exact Edns|]. split; [exact E|]. split; [exact Hr|].
    apply (f_equal length) in Ef. rewrite !length_fmap in Ef. exact Ef.
Defined.

(** The whole program: the switch is prepared as configured before the packets come. *)
Theorem packet_handler_eval_runs {sw} `{SwitchLaws sw} {T} `{TableApiLaws T, PortApi} cf hdls ports pairs egress
    garbage t0 nows (s : sw) (pd : pd_state T) :
  configurable cf hdls ports pairs pd -> Forall (fun now => now <= t0 + 100000) nows ->
  exists pd' s' f packet rings fts,
    packet_handler_eval cf hdls egress garbage t0 nows s pd = Ok (Some (pd', s', f, packet, rings)) /\
    configured cf ports pairs pd' /\ registers_ready (features f) /\
    handler_rep rings (queue_puts PACKET_RINGBUFFER_SIZE [] (PKT_ADD_FLOW <$> fts)) [] /\
    ft_h <$> fts = mock_hash <$> seqZ 1 (Z.of_nat (length nows)).
Proof.
  intros Hcf Hnows. unfold packet_handler_eval. destruct (add_relevant_dns_entry_ok t0) as (dns & -> & Hdns). cbn [rbind].
  destruct (prepare_dataplane_ok cf hdls pd ports pairs Hcf) as (pd' & -> & Hc). unfold obind. cbn [rbind].
  destruct (prepare_features_spec egress s (amake FEATURE_SIZE 0) (h_packets empty_handler))
    as (s' & f & -> & _ & _ & _ & Hready & _ & Er & _). cbn [rbind]. rewrite Er.
  change (Handler (h_packets empty_handler) (h_dns empty_handler)) with empty_handler. rewrite <- mock_packet_initial.
  destruct (mock_rounds_ok garbage dns _ nows 0 [] empty_handler Hdns Hnows empty_handler_rep) as (packet & rings & fts & E & Hr & Ef).
  unfold mock_round in E. rewrite E. cbn [rbind].
  exists pd', s', f, packet, rings, fts. split; [reflexivity|]. split; [exact Hc|]. split; [exact Hready|]. split; [exact Hr|exact Ef].
Qed.
