(* ===== verification/Controller.v ===== *)
(** * The controller ([controller.c]): the threads together

    The flow database and the data plane thread share the data plane ring buffer. A
    step of the controller is a handler of the flow database or one command of the
    data plane thread, in any order; the invariant ties the flow table, the ids, the
    pending commands and the tables of the switch together. Its part for the data plane
    is for any assignment of registers to flows; the rest is for sessions disabled. *)

From S2P Require Import Prelude Structs Heap Ringbuffer IdTable FlowTable SessionTable BloomFilter FlowDb.
From S2P Require Import DpApi Features Dataplane DnsTable PacketHandler.

(** ** State and steps *)

Record controller_t (sw : Type) : Type := Controller { ct_db : flowdb_t; ct_dp : dataplane_t sw }.
Arguments Controller {sw} _ _.
Arguments ct_db {sw} _.
Arguments ct_dp {sw} _.

Inductive ct_event : Type :=
  | CtCommand (c : packet_item_t) (uuid : list Z) (garbage : Z)
  | CtDataplane.

Definition ct_step {sw} `{Switch sw} (use_sessions : bool) (DEVPORT_MAPPING : arr Z) (e : ct_event) (x : controller_t sw)
    : res (controller_t sw) :=
  match e with
  | CtCommand c uuid garbage =>
      let! db := flowdb_command use_sessions DEVPORT_MAPPING uuid garbage (ct_db x) c in
      Ok (Controller db (ct_dp x))
  | CtDataplane =>
      let! '(_, command, ring) := ringbuffer_get DATAPLANE_RINGBUFFER_SIZE (dataplane_ringbuffer (ct_db x)) in
      let db := with_dataplane_ringbuffer ring (ct_db x) in
      match command with
      | Some command =>
          let! dp := dataplane_command (ct_dp x) command in
          Ok (Controller db dp)
      | None => Ok (Controller db (ct_dp x))
      end
  end.

(** The initialisation of the structures and the start of the two threads, on a
    switch with the registers [rs] of the features. *)
Definition ct_start {sw} (s : sw) (rs : list feature_register_t) : res (controller_t sw) :=
  let! db := flowdb_start static_flowdb in Ok (Controller db (dataplane_init s rs)).

(** ** Invariant *)

(** The flows that share a classification table. *)
Definition like (ft : five_tuple_t) (x : five_tuple_t * Z) : Prop :=
  proto x.1 = proto ft /\ pipe_of x.1 = pipe_of ft.
#[export] Instance like_dec ft x : Decision (like ft x).
Proof. unfold like. apply _. Defined.
Definition fits `{TableSizes} (ft : five_tuple_t) (M : id_map) : Prop :=
  Z.of_nat (size (filter (fun kx => like ft kx.2) M)) < capacity ft.

(** The offset of a tuple leads to a pipe. *)
Definition offset_ok (ft : five_tuple_t) : Prop :=
  0 <= pipe_of ft + session_id_egress_offset ft < NUM_PIPES.

(** The entries of the switch for the flows [M], when the flow with the id [id] counts
    in the registers at [reg id]. *)
Definition flow_entries (reg : Z -> Z) (M : id_map) (T : flow_table) : Prop :=
  forall id x, T !! id = Some x <-> exists k ft, M !! k = Some (ft, id) /\ x = (ft, reg id).

(** The switch holds the entry of each flow, under the handle cached for its id, and no
    other entry; and each flow has a session of its own under the same id. *)
Definition switch_mirrors {sw} `{SwitchLaws sw} (st : dataplane_t sw) (s : fd_state) : Prop :=
  (forall k ft id, a_flows s !! k = Some (ft, id) ->
     entry_at (view (dp_switch st)) (proto ft) (aget (entry_hdls st) id) =
       Some (entry_of ft (flow_id_to_register_index id)) /\ a_sessions s !! k = Some (ft, id)) /\
  (forall p h e, entry_at (view (dp_switch st)) p h = Some e ->
     exists k ft id, a_flows s !! k = Some (ft, id) /\ proto ft = p /\ aget (entry_hdls st) id = h /\
       e = entry_of ft (flow_id_to_register_index id)).

(** Each flow has a session of its own with the same id. *)
Definition paired (s : fd_state) : Prop :=
  a_sessions s = a_flows s /\
  forall p, 0 <= p < NUM_PIPES -> a_free_sessions s p = a_free_flows s p.

Definition flow_ok (x : five_tuple_t * Z) : Prop :=
  proto_ok x.1 /\ 0 <= dev_port x.1 < MAX_DEV_PORT_ID /\ offset_ok x.1 /\ addr_ok x.1.

(** The data plane thread can execute the pending commands on a switch that holds the
    flows [A], and they lead to the entries of the stored flows. *)
Record installed_ok `{TableSizes} (reg : Z -> Z) (egress : list Z) (A : flow_table) (s : fd_state) : Prop := InstalledOk {
  in_flows : map_Forall (fun _ => flow_ok) (a_flows s);
  in_valid : commands_valid egress A (a_queue s);
  in_entries : flow_entries reg (a_flows s) (table_commands A (a_queue s)) }.

(** The abstract state with sessions disabled. *)
Record abs_ok `{TableSizes} (owner : list Z -> Z) (egress : list Z) (A : flow_table) (s : fd_state) : Prop := AbsOk {
  ao_ids : fd_inv owner s;
  ao_paired : paired s;
  ao_installed : installed_ok flow_id_to_register_index egress A s }.

(** ** Proofs *)

#[local] Opaque FEATURE_SIZE flowdb_command dataplane_command.

Lemma commands_valid_app `{TableSizes} egress A q q' :
  commands_valid egress A (q ++ q') <->
  commands_valid egress A q /\ commands_valid egress (table_commands A q) q'.
Proof.
  revert A. induction q as [|c q IH]; intros A; cbn [app commands_valid]; [unfold table_commands; simpl; tauto|].
  rewrite IH. unfold table_commands. cbn [foldl]. tauto.
Qed.

Lemma queue_send_room q c :
  Z.of_nat (length q) < DATAPLANE_RINGBUFFER_SIZE -> queue_send q (Some c) = q ++ [c].
Proof. intros Hl. unfold queue_send, queue_put. by rewrite decide_False by lia. Qed.

Lemma table_commands_app A q q' : table_commands A (q ++ q') = table_commands (table_commands A q) q'.
Proof. apply foldl_app. Qed.

(** The table of the switch is not larger than the flow table. *)
Lemma fits_table `{TableSizes} reg M T ft : flow_entries reg M T -> fits ft M -> Z.of_nat (size (flows_like ft T)) < capacity ft.
Proof.
  intros HT Hf. eapply Z.le_lt_trans; [|exact Hf]. apply inj_le.
  apply (size_le_image _ _ (fun k => default 0 (snd <$> M !! k))).
  intros id [x [Hx Hl]%map_lookup_filter_Some]. apply HT in Hx as (k & ft' & Hk & ->). cbn in Hl.
  exists k. split; [|by rewrite Hk]. exists (ft', id). by apply map_lookup_filter_Some_2.
Qed.

Lemma flow_entries_insert reg reg' M T k ft id :
  M !! k = None -> id_free id M -> (forall i, i <> id -> reg' i = reg i) -> flow_entries reg M T ->
  flow_entries reg' (<[k := (ft, id)]> M) (<[id := (ft, reg' id)]> T).
Proof.
  intros Hk Hf Hreg HT i x. destruct (decide (i = id)) as [->|Hne].
  - rewrite lookup_insert_eq. split.
    + intros [= <-]. exists k, ft. by rewrite lookup_insert_eq.
    + intros (k' & ft' & Hk' & ->). apply lookup_insert_Some in Hk' as [[_ [= ->]]|[_ Hk']]; [done|].
      by destruct (Hf k' _ Hk').
  - rewrite lookup_insert_ne by done. rewrite (HT i x), (Hreg i Hne).
    split; intros (k' & ft' & Hk' & ->); exists k', ft'; (split; [|done]).
    + rewrite lookup_insert_ne; [done|]. intros ->. congruence.
    + apply lookup_insert_Some in Hk' as [[_ [= _ ->]]|[_ Hk']]; done.
Qed.

Lemma flow_entries_delete reg M T k ft id :
  (forall k1 k2 x1 x2, M !! k1 = Some x1 -> M !! k2 = Some x2 -> snd x1 = snd x2 -> k1 = k2) ->
  M !! k = Some (ft, id) -> flow_entries reg M T -> flow_entries reg (delete k M) (delete id T).
Proof.
  intros Hd Hk HT i x. rewrite lookup_delete_Some, (HT i x). split.
  - intros [Hne (k' & ft' & Hk' & ->)]. exists k', ft'. split; [|done]. apply lookup_delete_Some.
    split; [|done]. intros ->. rewrite Hk in Hk'. congruence.
  - intros (k' & ft' & [Hne Hk']%lookup_delete_Some & ->). split; [|by exists k', ft'].
    intros ->. apply Hne. by apply (Hd _ _ _ _ Hk Hk').
Qed.

(** *** What a command of the flow database does to the entries *)

(** A command that does not touch the tables. *)
Definition idle_command `{TableSizes} (egress : list Z) (c : dataplane_command_t) : Prop :=
  (forall A, command_valid egress A c) /\ forall A, table_command A c = A.

Section installed.
Context {sizes : TableSizes} (egress : list Z) (egress_bits : Forall (fun e => e = 0 \/ e = 1) egress).
Implicit Types (A : flow_table) (s : fd_state).

Lemma idle_commands A cs : Forall (idle_command egress) cs -> commands_valid egress A cs /\ table_commands A cs = A.
Proof using.
  intros Hcs. revert A. induction Hcs as [|c cs [Hv Ht] _ IH]; intros A; [done|].
  unfold table_commands in *. cbn [commands_valid foldl]. rewrite Ht. destruct (IH A) as [IH1 IH2]. split; [|exact IH2].
  split; [apply Hv|exact IH1].
Qed.

Lemma installed_idle reg A s s' cs :
  installed_ok reg egress A s -> a_flows s' = a_flows s -> a_queue s' = a_queue s ++ cs ->
  Forall (idle_command egress) cs -> installed_ok reg egress A s'.
Proof using.
  intros [Hfl Hv HT] Ef Eq Hcs. destruct (idle_commands (table_commands A (a_queue s)) cs Hcs) as [Hv' Ht'].
  split; rewrite ?Ef, ?Eq; [done|by apply commands_valid_app|]. by rewrite table_commands_app, Ht'.
Qed.

Lemma installed_add reg reg' A s s' k ft id sid :
  installed_ok reg egress A s -> flow_ok (ft, id) -> fits ft (a_flows s) ->
  id_free id (a_flows s) -> 0 <= id < FEATURE_SIZE -> flow_key ft = k -> a_flows s !! k = None ->
  (forall k' y, a_flows s !! k' = Some y -> flow_key y.1 = k') ->
  reg' id = flow_id_to_register_index sid -> (forall i, i <> id -> reg' i = reg i) ->
  a_flows s' = <[k := (ft, id)]> (a_flows s) ->
  a_queue s' = a_queue s ++ [DP_ADD_FLOW (MatchTableCmd ft id sid)] ->
  installed_ok reg' egress A s'.
Proof using.
  intros [Hfl Hv HT] Hok Hfits Hfree Hid Hft Hk Hkeys Hreg Hold Ef Eq. split; rewrite ?Ef, ?Eq.
  - by apply map_Forall_insert_2.
  - apply commands_valid_app. split; [exact Hv|]. split; [|done].
    cbn [command_valid mt_flow_id mt_five_tuple]. destruct Hok as (Hp & Hd & _ & Ha). cbn [fst] in *.
    split; [|split; [done|split; [exact Hp|split; [exact Hd|split]]]].
    + destruct (table_commands A (a_queue s) !! id) as [x|] eqn:ET; [|done].
      apply HT in ET as (k' & ft0 & Hk' & _). by destruct (Hfree k' _ Hk').
    + intros i ft0 r0 (k0 & ft1 & Hk0 & [= -> ->])%HT E. destruct (Hfl _ _ Hk0) as (Hp0 & _ & _ & Ha0). cbn [fst] in *.
      assert (flow_key ft1 = flow_key ft) as Ek by (by apply entry_key_h_bytes).
      pose proof (Hkeys _ _ Hk0) as Ek0. cbn [fst] in Ek0. congruence.
    + exact (fits_table _ _ _ _ HT Hfits).
  - rewrite table_commands_app. cbn [table_commands foldl table_command mt_flow_id mt_five_tuple mt_session_id].
    rewrite <- Hreg. by apply (flow_entries_insert reg).
Qed.

Lemma installed_remove reg A s s' k ft ft0 id cs :
  installed_ok reg egress A s ->
  (forall k1 k2 x1 x2, a_flows s !! k1 = Some x1 -> a_flows s !! k2 = Some x2 -> snd x1 = snd x2 -> k1 = k2) ->
  a_flows s !! k = Some (ft0, id) -> proto ft0 = proto ft ->
  a_flows s' = delete k (a_flows s) -> a_queue s' = a_queue s ++ DP_REMOVE_FLOW (MatchTableCmd ft id 0) :: cs ->
  Forall (idle_command egress) cs -> installed_ok reg egress A s'.
Proof using.
  intros [Hfl Hv HT] Hd Hk Hp Ef Eq Hcs.
  destruct (idle_commands (delete id (table_commands A (a_queue s))) cs Hcs) as [Hv' Ht'].
  split; rewrite ?Ef, ?Eq.
  - by apply map_Forall_delete.
  - apply commands_valid_app. split; [exact Hv|]. cbn [commands_valid command_valid table_command mt_flow_id mt_five_tuple].
    split; [|exact Hv']. exists ft0, (reg id). split; [|done]. apply HT. by exists k, ft0.
  - rewrite table_commands_app. unfold table_commands in *. cbn [foldl table_command mt_flow_id]. rewrite Ht'.
    exact (flow_entries_delete _ _ _ _ _ _ Hd Hk HT).
Qed.

(** Clearing the registers of a session of the tuple's pipe. *)
Lemma clear_idle ft sid :
  0 <= pipe_of ft < NUM_PIPES -> FlowDb.pipe_id (pipe_of ft) sid -> offset_ok ft ->
  idle_command egress (DP_CLEAR_REGISTERS (MatchTableCmd ft 0 sid)).
Proof using egress_bits.
  intros Hp Hid Ho. split; [|done]. intros A. cbn [command_valid mt_session_id mt_five_tuple].
  split; [pose proof (pipe_id_range _ _ Hp Hid); lia|].
  eapply Forall_impl; [exact egress_bits|]. cbn. unfold offset_ok in Ho.
  destruct Hid as (i & Hi & ->). unfold NUM_PIPES, HEAPSIZE, MAX_FLOWS in *. rewrite FEATURE_SIZE_val.
  intros e [-> | ->]; lia.
Qed.

Lemma installed_send reg A s cmd b' :
  installed_ok reg egress A s -> (forall c, cmd = Some c -> idle_command egress c) ->
  installed_ok reg egress A (FdState (a_flows s) (a_sessions s) (a_free_flows s) (a_free_sessions s)
    (queue_send (a_queue s) cmd) b').
Proof using.
  intros Hi Hc.
  assert (exists cs, Forall (idle_command egress) cs /\ queue_send (a_queue s) cmd = a_queue s ++ cs) as (cs & Hcs & E).
  { destruct cmd as [c|]; [|exists []; by rewrite app_nil_r]. cbn [queue_send]. unfold queue_put.
    case_decide; [exists []; by rewrite app_nil_r|]. exists [c]. split; [|done]. by apply Forall_singleton, Hc. }
  by apply (installed_idle reg A s _ cs).
Qed.
End installed.

Section invariant.
Context {sizes : TableSizes} (DEVPORT_MAPPING : arr Z) (ports : ports_ok DEVPORT_MAPPING) (owner : list Z -> Z).
Context (egress : list Z) (egress_bits : Forall (fun e => e = 0 \/ e = 1) egress).

(** The offset to the port to which a packet is forwarded leads to its pipe. *)
Lemma forwarded_offset ft :
  0 <= dev_port ft < MAX_DEV_PORT_ID -> aget DEVPORT_MAPPING (dev_port ft) <> -1 ->
  offset_ok (with_egress_offset ft (i8 (dev_port_to_pipe (aget DEVPORT_MAPPING (dev_port ft)) - pipe_of ft))).
Proof using ports.
  intros Hd Hne. pose proof (dev_port_to_pipe_bound _ Hd) as Hpb. unfold offset_ok, pipe_of in *.
  cbn [dev_port session_id_egress_offset with_egress_offset].
  destruct (po_range _ ports (dev_port ft) Hd) as [|Hr]; [done|].
  pose proof (dev_port_to_pipe_bound _ Hr) as Hpe. unfold NUM_PIPES in *. unfold i8. rewrite Z.mod_small by lia. lia.
Qed.

Lemma abs_add A s ft :
  abs_ok owner egress A s -> tuple_ok owner ft -> proto_ok ft -> addr_ok ft -> fits ft (a_flows s) ->
  Z.of_nat (length (a_queue s)) < DATAPLANE_RINGBUFFER_SIZE ->
  fd_inv owner (spec_add DEVPORT_MAPPING ft s) -> abs_ok owner egress A (spec_add DEVPORT_MAPPING ft s).
Proof using ports.
  intros [Hinv [Ps Pf] Hin] [Hd Hpipe] Hp Haddr Hfits Hroom. unfold spec_add.
  destruct (Z.eqb_spec (aget DEVPORT_MAPPING (dev_port ft)) (-1)) as [|Hne]; [by split|].
  pose proof (forwarded_offset ft Hd Hne) as Ho.
  pose proof (dev_port_to_pipe_bound _ Hd) as Hpb. unfold pipe_of in *.
  set (pipe := dev_port_to_pipe (dev_port ft)) in *.
  destruct (a_free_flows s pipe) as [|id l] eqn:Ef; [by split|].
  destruct (a_flows s !! flow_key ft) as [x|] eqn:Ek; [by split|].
  cbn [a_sessions spec_take_flow a_free_sessions]. rewrite Ps, Ek, (Pf pipe Hpb), Ef.
  unfold spec_send_add. rewrite decide_False by (unfold dp_full; cbn; lia). cbn zeta.
  set (ft' := with_egress_offset ft _) in *. intros Hinv'.
  destruct (proj1 (io_free _ _ _ (fi_flows _ _ Hinv) pipe id Hpb)) as [Hid Hfree]; [rewrite Ef; left|].
  split; [exact Hinv'| |].
  - split; cbn [a_flows a_sessions a_free_flows a_free_sessions spec_put spec_take_session spec_take_flow]; [by rewrite Ps|].
    intros q Hq. unfold fupd. case_decide; [by rewrite (Pf pipe Hpb)|by apply Pf].
  - apply (installed_add egress flow_id_to_register_index _ A s _ (flow_key ft) ft' id id); try done.
    + pose proof (pipe_id_range _ _ Hpb Hid). lia.
    + intros k' y Hk'. symmetry. apply (io_owned _ _ _ (fi_flows _ _ Hinv) _ _ Hk').
    + cbn [a_queue spec_put]. by apply queue_send_room.
Qed.

Lemma abs_remove A s ft x :
  abs_ok owner egress A s -> pipe_ok owner ft -> proto_ok ft -> offset_ok ft ->
  a_flows s !! flow_key ft = Some x -> proto x.1 = proto ft ->
  Z.of_nat (length (a_queue s)) + 2 <= DATAPLANE_RINGBUFFER_SIZE ->
  fd_inv owner (spec_remove_flow ft x.2 s) -> abs_ok owner egress A (spec_remove_flow ft x.2 s).
Proof using egress_bits.
  intros [Hinv [Ps Pf] Hin] [Hp Hpipe] Hpr Ho Hk Hpx Hroom. destruct x as [ft0 id]. cbn [fst snd] in *.
  unfold spec_remove_flow, spec_cleanup. cbn [a_sessions spec_put spec_give_flow]. rewrite Ps, Hk. cbn [snd].
  destruct (io_owned _ _ _ (fi_flows _ _ Hinv) _ _ Hk) as (_ & Hid & _ & _). cbn [snd] in Hid.
  intros Hinv'. split; [exact Hinv'| |].
  - split; cbn [a_flows a_sessions a_free_flows a_free_sessions spec_put spec_give_session spec_give_flow]; [by rewrite Ps|].
    intros q Hq. unfold fupd. case_decide; [rewrite Pf by (by rewrite Hpipe); done|by apply Pf].
  - apply (installed_remove egress _ A s _ (flow_key ft) ft ft0 id [DP_CLEAR_REGISTERS (MatchTableCmd ft 0 id)]);
      [done|exact (io_distinct _ _ _ (fi_flows _ _ Hinv))|done|done|done| |].
    + cbn [a_queue spec_put spec_give_session spec_give_flow].
      rewrite (queue_send_room (a_queue s)) by lia. rewrite queue_send_room by (rewrite length_app; cbn; lia).
      by rewrite <- app_assoc.
    + apply Forall_singleton, clear_idle; [done|unfold pipe_of; by rewrite Hpipe|unfold pipe_of; by rewrite Hpipe|done].
Qed.

Lemma abs_bloom A s cmd b' :
  abs_ok owner egress A s -> (forall c, cmd = Some c -> idle_command egress c) ->
  abs_ok owner egress A (FdState (a_flows s) (a_sessions s) (a_free_flows s) (a_free_sessions s)
    (queue_send (a_queue s) cmd) b').
Proof using.
  intros [[H1 H2] Hpair Hin] Hc. split; [by split|exact Hpair|]. by apply installed_send.
Qed.

Lemma irrelevant_command_idle b pipe ft hs c :
  0 <= pipe < NUM_PIPES -> get_hashes ft = Some hs -> irrelevant_command b pipe hs = Some c -> idle_command egress c.
Proof using.
  intros Hp Hh. unfold irrelevant_command. destruct (bc_send _); [|done]. intros [= <-]. split; [|done].
  intros A. cbn [command_valid pipe_id bloom_filter_indices]. split; [done|]. split; [done|].
  assert (forall i, 0 <= i < NUM_BLOOMFILTERS -> position hs i < BLOOMFILTER_WIDTH) as Hw
    by (intros i Hi; apply (proj2 (get_hashes_spec _ _ Hh) i Hi)).
  repeat apply Forall_cons_2; try apply Forall_nil_2; (case_match; [by apply Hw|done]).
Qed.

Lemma relevant_command_idle b pipe hs c : relevant_command b pipe hs = Some c -> idle_command egress c.
Proof using. unfold relevant_command. destruct (bc_send _); [|done]. by intros [= <-]. Qed.

(** The commands that the flow database may get: their tuples arrive on the pipe of
    their key, a new flow has the address of a parsed tuple and fits in its table, and
    the queue has room. *)
Definition command_fits (s : fd_state) (c : packet_item_t) : Prop :=
  Z.of_nat (length (a_queue s)) + 2 <= DATAPLANE_RINGBUFFER_SIZE /\
  match c with
  | PKT_ADD_FLOW ft => tuple_ok owner ft /\ proto_ok ft /\ addr_ok ft /\ fits ft (a_flows s)
  | PKT_REMOVE_FLOW ft => tuple_ok owner ft /\ proto_ok ft /\ offset_ok ft
  | PKT_ADD_BLOOM_FILTER_IRRELEVANT ft | PKT_FIX_BLOOM_FILTER_RELEVANT ft => markable ft
  | PKT_TIMEOUT_FLOW id => 0 <= id < FEATURE_SIZE
  | PKT_REMOVE_BLOOM_FILTER _ => True
  end.

(** Equal keys have equal protocols. *)
Lemma flow_key_proto ft1 ft2 :
  flow_key ft1 = flow_key ft2 -> proto_ok ft1 -> proto_ok ft2 -> proto ft1 = proto ft2.
Proof using.
  intros E H1 H2. unfold flow_key, h_bytes in E. unfold proto. unfold proto_ok in H1, H2.
  apply app_inj_len in E as [_ E]; [|by rewrite !length_le_bytes].
  apply app_inj_len in E as [_ E]; [|by rewrite !length_le_bytes].
  apply app_inj_len in E as [_ E]; [|by rewrite !length_le_bytes].
  apply app_inj_len in E as [_ E]; [|by rewrite !length_le_bytes].
  apply app_inj_len in E as [E _]; [|by rewrite !length_le_bytes].
  destruct H1 as [E1|E1], H2 as [E2|E2]; rewrite E1, E2 in *; done.
Qed.

Lemma abs_command A s c :
  abs_ok owner egress A s -> command_fits s c ->
  fd_inv owner (spec_command DEVPORT_MAPPING c s) -> abs_ok owner egress A (spec_command DEVPORT_MAPPING c s).
Proof using ports egress_bits.
  intros Ha [Hroom Hc]. destruct c as [ft|ft|ft|ft|ft|id]; cbn [spec_command].
  - destruct Hc as (Ht & Hp & Had & Hf). apply abs_add; [done|done|done|done|done|lia].
  - destruct Hc as (Ht & Hp & Ho). destruct (a_flows s !! flow_key ft) as [x|] eqn:Ek; [|done].
    apply abs_remove; [done|by apply tuple_pipe_ok|done|done|done| |done].
    pose proof (in_flows _ _ _ _ (ao_installed _ _ _ _ Ha) _ _ Ek) as [Hpx _]. apply flow_key_proto; [|done|done].
    symmetry. apply (io_owned _ _ _ (fi_flows _ _ (ao_ids _ _ _ _ Ha)) _ _ Ek).
  - intros _. destruct Hc as [Hd [hs Hh]]. rewrite Hh. apply abs_bloom; [done|]. intros c.
    eapply irrelevant_command_idle; [by apply dev_port_to_pipe_bound|done].
  - intros _. destruct Hc as [Hd [hs Hh]]. rewrite Hh. apply abs_bloom; [done|]. intros c. apply relevant_command_idle.
  - done.
  - destruct (id_owner (a_flows s) id) as [ft|] eqn:Eo; [|done]. apply id_owner_elem in Eo as (k & Hk).
    destruct (io_owned _ _ _ (fi_flows _ _ (ao_ids _ _ _ _ Ha)) _ _ Hk) as (Hp & _ & Hpipe & ->).
    pose proof (in_flows _ _ _ _ (ao_installed _ _ _ _ Ha) _ _ Hk) as (Hpx & Hdx & Hox & _).
    exact (abs_remove A s ft (ft, id) Ha (conj Hp Hpipe) Hpx Hox Hk eq_refl Hroom).
Qed.
End invariant.

(** *** Reachable states *)

Section system.
Context {sw : Type} {switch : Switch sw} {sizes : TableSizes} {laws : SwitchLaws sw}.
Context (DEVPORT_MAPPING : arr Z) (owner : list Z -> Z) (egress : list Z) (bits : dp_bits).
Implicit Types (x : controller_t sw).

(** A switch and registers as [prepare_dataplane] and [prepare_features] leave them. *)
Record prepared (s0 : sw) (rs : list feature_register_t) : Prop := Prepared {
  pr_ipv4 : v_ipv4 (view s0) = ∅;
  pr_ipv6 : v_ipv6 (view s0) = ∅;
  pr_bits : bits_ok (dataplane_init s0 rs) bits;
  pr_features : Forall register_wf rs;
  pr_egress : on_egress <$> rs = egress }.

(** The states that the two threads can reach, with the abstract state of the flow
    database. *)
Inductive reachable : controller_t sw -> fd_state -> Prop :=
  | reach_start s0 rs x :
      prepared s0 rs -> ct_start s0 rs = Ok x -> reachable x initial_state
  | reach_command x s c uuid garbage x' :
      reachable x s -> command_fits owner s c ->
      ct_step false DEVPORT_MAPPING (CtCommand c uuid garbage) x = Ok x' ->
      reachable x' (spec_command DEVPORT_MAPPING c s)
  | reach_dataplane x s x' :
      reachable x s -> ct_step false DEVPORT_MAPPING CtDataplane x = Ok x' ->
      reachable x' (set_queue (List.tl (a_queue s)) s).

Context (ports : ports_ok DEVPORT_MAPPING) (egress_bits : Forall (fun e => e = 0 \/ e = 1) egress).

(** The data plane thread and its pending commands, whatever the mode of the sessions. *)
Record dp_inv (reg : Z -> Z) (st : dataplane_t sw) (s : fd_state) (A : flow_table) (b : dp_bits) : Prop := DpInv {
  di_installed : installed_ok reg egress A s;
  di_table : table_ok st A;
  di_bits : bits_ok st b;
  di_features : features_ok egress st;
  di_status : dp_status st = SUCCESS }.

Record ct_inv x (s : fd_state) (A : flow_table) (b : dp_bits) : Prop := CtInv {
  ci_rep : fd_rep (ct_db x) s;
  ci_ids : fd_inv owner s;
  ci_paired : paired s;
  ci_dp : dp_inv flow_id_to_register_index (ct_dp x) s A b }.

Lemma ct_abs x s A b : ct_inv x s A b -> abs_ok owner egress A s.
Proof using. intros [_ Hi Hp Hd]. split; [done|done|apply Hd]. Qed.

Lemma dp_inv_initial s0 rs : prepared s0 rs -> forall reg, dp_inv reg (dataplane_init s0 rs) initial_state ∅ bits.
Proof using.
  intros [H4 H6 Hb Hwf He] reg. split.
  - unfold initial_state. split; cbn [a_flows a_queue]; [apply map_Forall_empty|exact I|].
    intros id x. split; [by cbn; rewrite lookup_empty|]. intros (k & ft & Hk & _). by rewrite lookup_empty in Hk.
  - split; [reflexivity|done| |done]. intros p h e. cbn [dataplane_init dp_switch]. unfold entry_at. rewrite H4, H6, !lookup_empty.
    by repeat case_decide.
  - exact Hb.
  - by split.
  - reflexivity.
Qed.

Lemma start_inv s0 rs x : prepared s0 rs -> ct_start s0 rs = Ok x -> ct_inv x initial_state ∅ bits.
Proof using.
  intros Hprep. unfold ct_start. destruct (flowdb_start_ok owner) as (db & -> & Hr & Hinv).
  intros [= <-]. split; cbn [ct_db ct_dp].
  - exact Hr.
  - exact Hinv.
  - unfold initial_state. split; cbn [a_flows a_sessions a_free_sessions a_free_flows]; [reflexivity|]. intros p _. reflexivity.
  - by apply dp_inv_initial.
Qed.

Lemma command_fits_ok s c : command_fits owner s c -> command_ok owner s c.
Proof using.
  intros [Hroom Hc]. destruct c; cbn in *; try exact Hc; try apply Hc. split; [done|lia].
Qed.

Lemma command_inv x s A b c uuid garbage :
  ct_inv x s A b -> command_fits owner s c ->
  exists x', ct_step false DEVPORT_MAPPING (CtCommand c uuid garbage) x = Ok x' /\
    ct_inv x' (spec_command DEVPORT_MAPPING c s) A b.
Proof using ports egress_bits.
  intros Hi Hc. pose proof (ct_abs _ _ _ _ Hi) as Ha. destruct Hi as [Hr Hids _ [_ Ht Hb Hf Hs]]. cbn [ct_step].
  destruct (flowdb_command_ok DEVPORT_MAPPING uuid garbage owner ports (ct_db x) s c Hr Hids (command_fits_ok s c Hc))
    as (db' & -> & Hr' & Hinv'). cbn [rbind]. eexists. split; [reflexivity|].
  destruct (abs_command DEVPORT_MAPPING ports owner egress egress_bits A s c Ha Hc Hinv') as [Hids' Hp' Hin'].
  split; cbn [ct_db ct_dp]; [done|done|done|by split].
Qed.

(** The data plane thread executes the oldest command. *)
Lemma dp_pop (db : flowdb_t) reg st s A b S :
  db_rep S db s -> dp_inv reg st s A b ->
  exists db' st' A' b', ct_step false DEVPORT_MAPPING CtDataplane (Controller db st) = Ok (Controller db' st') /\
    db_rep S db' (set_queue (List.tl (a_queue s)) s) /\ dp_inv reg st' (set_queue (List.tl (a_queue s)) s) A' b'.
Proof using.
  intros Hr [[Hfl Hv HT] Ht Hb Hf Hs]. cbn [ct_step ct_db ct_dp].
  destruct (get_rep _ dp_ring_size _ _ (fd_queue _ _ Hr)) as (ring & -> & Hring).
  destruct (a_queue s) as [|c q] eqn:Eq; cbn [queue_get fst snd rbind List.tl] in *.
  - eexists _, _, A, b. split; [reflexivity|]. split; [by apply rep_set_queue|]. by split.
  - destruct Hv as [Hc Hv].
    destruct (command_step egress st A b c Ht Hb Hf Hc) as (dp & -> & Ht' & Hb' & Hf' & Hs'). cbn [rbind].
    eexists _, _, _, _. split; [reflexivity|]. split; [by apply rep_set_queue|].
    split; [by split|exact Ht'|exact Hb'|exact Hf'|by apply Hs'].
Qed.

Lemma dataplane_inv x s A b :
  ct_inv x s A b -> exists x' A' b', ct_step false DEVPORT_MAPPING CtDataplane x = Ok x' /\
    ct_inv x' (set_queue (List.tl (a_queue s)) s) A' b'.
Proof using.
  intros [Hr Hids Hp Hd]. destruct x as [db st]. cbn [ct_db ct_dp] in *.
  destruct (dp_pop db _ st s A b _ Hr Hd) as (db' & st' & A' & b' & E & Hr' & Hd').
  exists (Controller db' st'), A', b'. split; [exact E|]. split; [exact Hr'|by destruct Hids; split|done|exact Hd'].
Qed.

Lemma reachable_inv x s : reachable x s -> exists A b, ct_inv x s A b.
Proof using ports egress_bits.
  induction 1 as [s0 rs x Hp E|x s c uuid garbage x' _ (A & b & IH) Hc E|x s x' _ (A & b & IH) E].
  - exists ∅, bits. by apply (start_inv s0 rs).
  - exists A, b. destruct (command_inv x s A b c uuid garbage IH Hc) as (x1 & E1 & Hi).
    rewrite E in E1. injection E1 as <-. exact Hi.
  - destruct (dataplane_inv x s A b IH) as (x1 & A' & b' & E1 & Hi).
    rewrite E in E1. injection E1 as <-. by exists A', b'.
Qed.

(** The pending commands lead to the tables of the flows. *)
Lemma dp_drained reg st s A b ring :
  rb_rep DATAPLANE_RINGBUFFER_SIZE ring (a_queue s) -> dp_inv reg st s A b ->
  exists st' ring' T, dataplane_drain st ring = Ok (st', ring') /\
    rb_rep DATAPLANE_RINGBUFFER_SIZE ring' [] /\ dp_status st' = SUCCESS /\ table_ok st' T /\ flow_entries reg (a_flows s) T.
Proof using.
  intros Hring [[_ Hv HT] Ht Hb Hf Hs].
  destruct (commands_run egress _ _ _ _ Ht Hb Hf Hv) as (st' & E & Ht' & _ & _ & Hs').
  destruct (dataplane_drain_ok _ _ _ _ Hring E) as (ring' & Ed & Hring').
  exists st', ring', (table_commands A (a_queue s)). split_and!; auto.
Qed.

(** Then the entries of the switch are those of the flows. *)
Lemma drained_entries reg M T (st : dataplane_t sw) :
  table_ok st T -> flow_entries reg M T ->
  (forall k ft id, M !! k = Some (ft, id) ->
     entry_at (view (dp_switch st)) (proto ft) (aget (entry_hdls st) id) = Some (entry_of ft (reg id))) /\
  (forall p h e, entry_at (view (dp_switch st)) p h = Some e ->
     exists k ft id, M !! k = Some (ft, id) /\ proto ft = p /\ aget (entry_hdls st) id = h /\ e = entry_of ft (reg id)).
Proof using.
  intros Ht HT. split.
  - intros k ft id Hk. apply (tb_installed _ _ Ht). apply HT. by exists k, ft.
  - intros p h e He. destruct (tb_only _ _ Ht _ _ _ He) as (id & ft & r & HTid & Hp & Hh).
    destruct (tb_installed _ _ Ht _ _ _ HTid) as (_ & _ & He').
    apply HT in HTid as (k & ft' & Hk & [= -> ->]). exists k, ft', id.
    rewrite Hp, Hh, He in He'. injection He' as ->. done.
Qed.

Lemma drained x s A b :
  ct_inv x s A b -> exists st ring T, dataplane_drain (ct_dp x) (dataplane_ringbuffer (ct_db x)) = Ok (st, ring) /\
    rb_rep DATAPLANE_RINGBUFFER_SIZE ring [] /\ dp_status st = SUCCESS /\ table_ok st T /\
    flow_entries flow_id_to_register_index (a_flows s) T.
Proof using. intros [Hr _ _ Hd]. exact (dp_drained _ _ _ _ _ _ (fd_queue _ _ Hr) Hd). Qed.

Lemma drained_mirrors x s A b :
  ct_inv x s A b -> exists st ring, dataplane_drain (ct_dp x) (dataplane_ringbuffer (ct_db x)) = Ok (st, ring) /\
    dp_status st = SUCCESS /\ switch_mirrors st s.
Proof using.
  intros Hi. destruct (drained x s A b Hi) as (st & ring & T & E & _ & Hs & Ht & HT).
  exists st, ring. split; [exact E|]. split; [exact Hs|].
  destruct (drained_entries _ _ _ st Ht HT) as [H1 H2]. split; [|exact H2].
  intros k ft id Hk. split; [by apply H1 in Hk|by rewrite (proj1 (ci_paired _ _ _ _ Hi))].
Qed.
End system.

(** *** A controller with one flow *)

Definition no_bits : dp_bits := fun _ _ _ => false.

Lemma sample_prepared : prepared [0] no_bits (constant_switch 0) [sample_count].
Proof.
  split; [done|done| |by constructor; [exact sample_count_wf|constructor]|done].
  intros i p x. reflexivity.
Qed.

Lemma sample_command_fits : command_fits (fun _ => 0) initial_state (PKT_ADD_FLOW (sample_tuple 5)).
Proof.
  split; [vm_compute; discriminate|]. split; [split; [split; [discriminate|reflexivity]|reflexivity]|].
  split; [by left|]. split; [intros _; split; split; discriminate || reflexivity|].
  unfold fits. cbn [a_flows initial_state]. by rewrite map_filter_empty.
Qed.

Lemma one_flow_controller : exists x s ft id,
  reachable sample_ports (fun _ => 0) [0] no_bits (x : controller_t model_sw) s /\
  a_flows s !! flow_key (sample_tuple 5) = Some (ft, id) /\ a_sessions s !! flow_key (sample_tuple 5) = Some (ft, id) /\
  Z.of_nat (length (a_queue s)) + 2 <= DATAPLANE_RINGBUFFER_SIZE.
Proof.
  destruct (flowdb_start_ok (fun _ => 0)) as (db & Es & _).
  set (x0 := Controller db (dataplane_init (constant_switch 0) [sample_count])).
  assert (ct_start (constant_switch 0) [sample_count] = Ok x0) as E0 by (unfold ct_start; by rewrite Es).
  pose proof (start_inv (fun _ => 0) [0] no_bits _ _ _ sample_prepared E0) as Hi0.
  destruct (command_inv sample_ports (fun _ => 0) [0] sample_ports_ok ltac:(repeat constructor; by left) x0 initial_state _ _ _ [] 0 Hi0
    sample_command_fits) as (x & E & Hi).
  destruct (initial_free_cons 0) as (id & l & El).
  destruct (spec_add_room sample_ports (sample_tuple 5) initial_state id l id l) as (ft & _ & _ & Ea);
    [vm_compute; congruence|exact El|exact El|apply lookup_empty|apply lookup_empty|unfold dp_full; vm_compute; congruence|].
  exists x, (spec_add sample_ports (sample_tuple 5) initial_state), ft, id. split.
  - exact (reach_command _ _ _ _ _ _ _ _ _ _ (reach_start _ _ _ _ _ _ _ sample_prepared E0) sample_command_fits E).
  - rewrite Ea. split; [apply lookup_insert_eq|]. split; [apply lookup_insert_eq|].
    cbn [a_queue spec_put spec_take_session spec_take_flow]. unfold initial_state. cbn [a_queue].
    vm_compute. discriminate.
Qed.

(** *** The removal of a flow and its session *)

Lemma paired_removal s ft id :
  paired s -> a_flows s !! flow_key ft = Some (ft, id) ->
  let s' := spec_remove_flow ft id s in
  a_flows s' = delete (flow_key ft) (a_flows s) /\ a_sessions s' = delete (flow_key ft) (a_sessions s) /\
  id ∈ a_free_flows s' (pipe_of ft) /\ id ∈ a_free_sessions s' (pipe_of ft).
Proof.
  intros [Ps _] Hk. unfold spec_remove_flow, spec_cleanup. cbn [a_sessions spec_put spec_give_flow].
  rewrite Ps, Hk. cbn [snd a_flows a_sessions a_free_flows a_free_sessions spec_put spec_give_session spec_give_flow].
  rewrite Ps, !fupd_eq, !pq_push_permutation. split; [done|]. split; [done|]. split; left.
Qed.

(** ** Properties *)

(** Claim C3. With sessions disabled, in every state that the flow database and the data
    plane thread can reach, in any interleaving, every command that fits is executed without leaving an array or
    looping, and once the data plane thread has executed the pending commands the
    switch holds exactly one classification entry for each flow of the flow table, with
    the tuple, the pipe and the register index of the flow's session, and no other
    entry; and each flow has a session of its own under the same id. *)
Theorem controller_mirrors_flows {sw} `{SwitchLaws sw} DEVPORT_MAPPING owner egress bits (x : controller_t sw) s :
  ports_ok DEVPORT_MAPPING -> Forall (fun e => e = 0 \/ e = 1) egress ->
  reachable DEVPORT_MAPPING owner egress bits x s ->
  (forall c uuid garbage, command_fits owner s c -> is_Ok (ct_step false DEVPORT_MAPPING (CtCommand c uuid garbage) x)) /\
  is_Ok (ct_step false DEVPORT_MAPPING CtDataplane x) /\
  exists st ring, dataplane_drain (ct_dp x) (dataplane_ringbuffer (ct_db x)) = Ok (st, ring) /\
    dp_status st = SUCCESS /\ switch_mirrors st s.
Proof.
  intros Hports Hbits Hx. destruct (reachable_inv _ _ _ _ Hports Hbits x s Hx) as (A & b & Hi).
  split; [|split].
  - intros c uuid garbage Hc.
    destruct (command_inv _ _ _ Hports Hbits x s A b c uuid garbage Hi Hc) as (x' & E & _). by exists x'.
  - destruct (dataplane_inv DEVPORT_MAPPING _ _ x s A b Hi) as (x' & _ & _ & E & _). by exists x'.
  - exact (drained_mirrors _ _ x s A b Hi).
Qed.

Lemma controller_mirrors_flows_witness : exists (x : controller_t model_sw) st ring ft id,
  dataplane_drain (ct_dp x) (dataplane_ringbuffer (ct_db x)) = Ok (st, ring) /\
  entry_at (view (dp_switch st)) (proto ft) (aget (entry_hdls st) id) =
    Some (entry_of ft (flow_id_to_register_index id)).
Proof.
  destruct one_flow_controller as (x & s & ft & id & Hx & Hk & _).
  destruct (controller_mirrors_flows sample_ports (fun _ => 0) [0] no_bits x s) as (_ & _ & st & ring & E & _ & Hin & _).
  - exact sample_ports_ok.
  - constructor; [by left|constructor].
  - exact Hx.
  - exists x, st, ring, ft, id. split; [exact E|]. apply (Hin _ _ _ Hk).
Defined.

(** The ageing pass sends the id of an idle session as the id of the flow to
    remove. While no command was dropped this is right: in every reachable state the
    timeout of a stored session removes exactly its flow and the session, and gives
    both ids back to the pipe of the session. *)
Theorem timeout_removes_the_idle_session {sw} `{SwitchLaws sw} DEVPORT_MAPPING owner egress bits (x : controller_t sw) s k ft id uuid garbage :
  ports_ok DEVPORT_MAPPING -> Forall (fun e => e = 0 \/ e = 1) egress ->
  reachable DEVPORT_MAPPING owner egress bits x s ->
  a_sessions s !! k = Some (ft, id) -> Z.of_nat (length (a_queue s)) + 2 <= DATAPLANE_RINGBUFFER_SIZE ->
  exists x' s', ct_step false DEVPORT_MAPPING (CtCommand (PKT_TIMEOUT_FLOW id) uuid garbage) x = Ok x' /\
    fd_rep (ct_db x') s' /\
    a_flows s' = delete k (a_flows s) /\ a_sessions s' = delete k (a_sessions s) /\
    id ∈ a_free_flows s' (pipe_of ft) /\ id ∈ a_free_sessions s' (pipe_of ft).
Proof.
  intros Hports Hbits Hx Hk Hroom. destruct (reachable_inv _ _ _ _ Hports Hbits x s Hx) as (A & b & Hi).
  pose proof (ci_paired _ _ _ _ _ _ Hi) as Hp.
  rewrite (proj1 Hp) in Hk. destruct (ci_ids _ _ _ _ _ _ Hi) as [Hf _].
  destruct (io_owned _ _ _ Hf _ _ Hk) as (Hpo & Hid & _ & Hkey). cbn [fst snd] in *. subst k.
  destruct (command_inv _ _ _ Hports Hbits x s A b (PKT_TIMEOUT_FLOW id) uuid garbage Hi) as (x' & E & Hi').
  { split; [exact Hroom|]. pose proof (pipe_id_range _ _ Hpo Hid). lia. }
  eexists x', _. split; [exact E|]. split; [exact (ci_rep _ _ _ _ _ _ Hi')|]. cbn [spec_command].
  rewrite (id_owner_intro _ _ _ _ (io_distinct _ _ _ Hf) Hk). by apply paired_removal.
Qed.

Lemma timeout_removes_the_idle_session_witness : exists (x x' : controller_t model_sw) s s' ft id,
  a_sessions s !! flow_key (sample_tuple 5) = Some (ft, id) /\
  ct_step false sample_ports (CtCommand (PKT_TIMEOUT_FLOW id) [] 0) x = Ok x' /\ fd_rep (ct_db x') s' /\
  a_flows s' = delete (flow_key (sample_tuple 5)) (a_flows s).
Proof.
  destruct one_flow_controller as (x & s & ft & id & Hx & Hk & Hks & Hq).
  destruct (timeout_removes_the_idle_session sample_ports (fun _ => 0) [0] no_bits x s
              (flow_key (sample_tuple 5)) ft id [] 0) as (x' & s' & E & Hr & Hd & _).
  - exact sample_ports_ok.
  - constructor; [by left|constructor].
  - exact Hx.
  - exact Hks.
  - exact Hq.
  - exists x, x', s, s', ft, id. split; [exact Hks|]. split; [exact E|]. split; [exact Hr|exact Hd].
Defined.

(** *** A dropped addition *)

(** The flow is taken back, its session stays. *)
Lemma spec_add_dropped DEVPORT_MAPPING ft s id l :
  let pipe := dev_port_to_pipe (dev_port ft) in
  0 <= pipe < NUM_PIPES -> aget DEVPORT_MAPPING (dev_port ft) <> -1 -> paired s ->
  a_free_flows s pipe = id :: l -> StronglySorted Z.le (id :: l) ->
  a_flows s !! flow_key ft = None -> dp_full s ->
  exists ft', let s1 := spec_add DEVPORT_MAPPING ft s in
    a_flows s1 = a_flows s /\ a_sessions s1 = <[flow_key ft := (ft', id)]> (a_sessions s) /\
    a_free_flows s1 pipe = id :: l /\ a_free_sessions s1 pipe = l.
Proof.
  cbv zeta. set (pipe := dev_port_to_pipe (dev_port ft)). intros Hp Hd [Ps Pf] Ef Hs Hk Hfull.
  eexists. unfold spec_add. rewrite (proj2 (Z.eqb_neq _ _) Hd). fold pipe. rewrite Ef, Hk.
  cbn [a_sessions spec_take_flow a_free_sessions]. rewrite Ps, Hk, (Pf pipe Hp), Ef.
  unfold spec_send_add. rewrite decide_True by exact Hfull.
  cbn [a_flows a_sessions a_free_flows a_free_sessions spec_give_flow spec_take_session spec_take_flow].
  rewrite Ps. change (flow_key (with_egress_offset ft _)) with (flow_key ft).
  change (dev_port_to_pipe (dev_port (with_egress_offset ft _))) with pipe.
  rewrite !fupd_eq, Ef, (Pf pipe Hp), Ef. cbn [pq_pop snd].
  split; [by rewrite delete_insert_id|]. split; [reflexivity|]. split; [by apply pq_push_least|done].
Qed.

(** When the command for a new flow is dropped because the queue is full, the
    flow's id is given back but its session keeps the same id. The next flow of the
    pipe gets that flow id and another session id, so that the timeout of the first,
    idle session removes the second flow although that flow is active, and the idle
    session stays. *)
Theorem dropped_add_misdirects_timeouts DEVPORT_MAPPING uuid garbage owner db s ft1 ft2 id id2 l ring :
  ports_ok DEVPORT_MAPPING -> fd_rep db s -> fd_inv owner s -> paired s ->
  tuple_ok owner ft1 -> tuple_ok owner ft2 -> flow_key ft1 <> flow_key ft2 ->
  pipe_of ft1 = pipe_of ft2 ->
  aget DEVPORT_MAPPING (dev_port ft1) <> -1 -> aget DEVPORT_MAPPING (dev_port ft2) <> -1 ->
  a_flows s !! flow_key ft1 = None -> a_flows s !! flow_key ft2 = None ->
  a_free_flows s (pipe_of ft1) = id :: id2 :: l -> dp_full s -> rb_rep DATAPLANE_RINGBUFFER_SIZE ring [] ->
  exists db1 db2 db3 s2 s3 x1 x2,
    flowdb_command false DEVPORT_MAPPING uuid garbage db (PKT_ADD_FLOW ft1) = Ok db1 /\
    flowdb_command false DEVPORT_MAPPING uuid garbage (with_dataplane_ringbuffer ring db1) (PKT_ADD_FLOW ft2) = Ok db2 /\
    fd_rep db2 s2 /\ a_flows s2 !! flow_key ft1 = None /\ a_sessions s2 !! flow_key ft1 = Some (x1, id) /\
    a_flows s2 !! flow_key ft2 = Some (x2, id) /\ a_sessions s2 !! flow_key ft2 = Some (x2, id2) /\
    flowdb_command false DEVPORT_MAPPING uuid garbage db2 (PKT_TIMEOUT_FLOW id) = Ok db3 /\
    fd_rep db3 s3 /\ a_flows s3 !! flow_key ft2 = None /\ a_sessions s3 !! flow_key ft1 = Some (x1, id).
Proof.
  intros Hports Hr Hinv Hpair Ht1 Ht2 Hne Hpipe Hd1 Hd2 Hk1 Hk2 Ef Hfull Hring. unfold pipe_of in *.
  pose proof (dev_port_to_pipe_bound _ (proj1 Ht1)) as Hp.
  destruct (flowdb_command_ok _ uuid garbage owner Hports db s (PKT_ADD_FLOW ft1) Hr Hinv Ht1) as (db1 & E1 & Hr1 & Hinv1).
  pose proof (hr_sorted _ _ (hs_rep _ _ (fd_flow_heaps _ _ Hr) _ Hp)) as Hs. rewrite Ef in Hs.
  destruct (spec_add_dropped DEVPORT_MAPPING ft1 s id (id2 :: l) Hp Hd1 Hpair Ef Hs Hk1 Hfull) as (x1 & Ff & Fs & Fff & Ffs).
  cbn [spec_command] in *. set (s1 := spec_add DEVPORT_MAPPING ft1 s) in *.
  pose proof (rep_set_queue _ _ _ _ _ Hr1 Hring) as Hr1'. apply (inv_set_queue _ []) in Hinv1.
  destruct (flowdb_command_ok _ uuid garbage owner Hports _ _ (PKT_ADD_FLOW ft2) Hr1' Hinv1 Ht2) as (db2 & E2 & Hr2 & Hinv2).
  cbn [spec_command] in *.
  destruct (spec_add_room DEVPORT_MAPPING ft2 (set_queue [] s1) id (id2 :: l) id2 l) as (x2 & Ex2 & _ & Es2).
  { exact Hd2. } { cbn. by rewrite <- Hpipe. } { cbn. by rewrite <- Hpipe. }
  { cbn. by rewrite Ff. } { cbn. rewrite Fs, lookup_insert_ne by done. by rewrite (proj1 Hpair). }
  { by vm_compute. }
  rewrite Es2 in Hr2, Hinv2. set (s2 := spec_put _ _) in Hr2, Hinv2.
  assert (a_flows s2 = <[flow_key ft2 := (x2, id)]> (a_flows s)) as Gf by (cbn; by rewrite Ff).
  assert (a_sessions s2 = <[flow_key ft2 := (x2, id2)]> (<[flow_key ft1 := (x1, id)]> (a_sessions s))) as Gs by (cbn; by rewrite Fs).
  assert (a_flows s2 !! flow_key ft2 = Some (x2, id)) as Hk by (rewrite Gf; apply lookup_insert_eq).
  destruct (io_owned _ _ _ (fi_flows _ _ Hinv2) _ _ Hk) as (Hpo & Hid & _ & _). cbn [snd] in Hid.
  destruct (flowdb_command_ok _ uuid garbage owner Hports _ _ (PKT_TIMEOUT_FLOW id) Hr2 Hinv2) as (db3 & E3 & Hr3 & _).
  { split; [pose proof (pipe_id_range _ _ Hpo Hid); lia|]. by vm_compute. }
  cbn [spec_command] in Hr3. rewrite (id_owner_intro _ _ _ _ (io_distinct _ _ _ (fi_flows _ _ Hinv2)) Hk) in Hr3.
  eexists db1, db2, db3, s2, _, x1, x2. split; [exact E1|]. split; [exact E2|]. split; [exact Hr2|].
  split; [by rewrite Gf, lookup_insert_ne|]. split; [by rewrite Gs, lookup_insert_ne, lookup_insert_eq|].
  split; [exact Hk|]. split; [rewrite Gs; apply lookup_insert_eq|]. split; [exact E3|]. split; [exact Hr3|].
  unfold spec_remove_flow, spec_cleanup. cbn [a_sessions spec_put spec_give_flow]. rewrite Ex2, Gs, lookup_insert_eq.
  cbn [a_flows a_sessions spec_put spec_give_flow spec_give_session]. rewrite Gf, Gs.
  split; [apply lookup_delete_eq|]. rewrite lookup_delete_ne, lookup_insert_ne by done. apply lookup_insert_eq.
Qed.

Definition second_tuple : five_tuple_t :=
  FiveTuple (FiveTupleForHash 0x0A000001 0x0A000002 4321 443 L3_IPV4 L4_TCP) zero_sh 7 5 0.

Lemma initial_free_cons2 p : exists id id2 l, initial_free p = id :: id2 :: l.
Proof.
  pose proof (initial_free_length p) as Hl. destruct (initial_free p) as [|id [|id2 l]].
  - unfold HEAPSIZE, MAX_FLOWS in Hl. simpl in Hl. lia.
  - unfold HEAPSIZE, MAX_FLOWS in Hl. simpl in Hl. lia.
  - eauto.
Qed.

Lemma dropped_add_misdirects_timeouts_witness : exists db db1 db2 db3 s2 s3 x2 id,
  flowdb_command false sample_ports [] 0 db (PKT_ADD_FLOW (sample_tuple 5)) = Ok db1 /\
  flowdb_command false sample_ports [] 0 (with_dataplane_ringbuffer empty_dp_ring db1) (PKT_ADD_FLOW second_tuple) = Ok db2 /\
  fd_rep db2 s2 /\ a_flows s2 !! flow_key second_tuple = Some (x2, id) /\
  flowdb_command false sample_ports [] 0 db2 (PKT_TIMEOUT_FLOW id) = Ok db3 /\
  fd_rep db3 s3 /\ a_flows s3 !! flow_key second_tuple = None.
Proof.
  destruct (flowdb_start_ok (fun _ => 0)) as (db & _ & Hr & Hinv).
  destruct full_dp_ring as (ring & q & Hring & Hq). destruct (initial_free_cons2 0) as (id & id2 & l & El).
  pose proof (rep_set_queue _ _ _ _ _ Hr Hring) as Hr'. apply (inv_set_queue _ q) in Hinv.
  destruct (dropped_add_misdirects_timeouts sample_ports [] 0 (fun _ => 0) (with_dataplane_ringbuffer ring db)
              (set_queue q initial_state) (sample_tuple 5) second_tuple id id2 l empty_dp_ring sample_ports_ok Hr' Hinv)
    as (db1 & db2 & db3 & s2 & s3 & x1 & x2 & E1 & E2 & Hr2 & _ & _ & Hk & _ & E3 & Hr3 & Hn & _).
  - unfold initial_state. split; cbn [set_queue a_flows a_sessions a_free_sessions a_free_flows]; [reflexivity|].
    intros p _. reflexivity.
  - split; [split; [discriminate|reflexivity]|reflexivity].
  - split; [split; [discriminate|reflexivity]|reflexivity].
  - vm_compute. discriminate.
  - reflexivity.
  - vm_compute. discriminate.
  - vm_compute. discriminate.
  - apply lookup_empty.
  - apply lookup_empty.
  - exact El.
  - exact Hq.
  - exact empty_dp_ring_rep.
  - exists (with_dataplane_ringbuffer ring db), db1, db2, db3, s2, s3, x2, id.
    split; [exact E1|]. split; [exact E2|]. split; [exact Hr2|]. split; [exact Hk|]. split; [exact E3|].
    split; [exact Hr3|exact Hn].
Defined.

(** *** From the packet to the switch *)

(** A TCP packet that opens a relevant flow. *)
Record opens_flow (now : Z) (D : dns_map) (h : five_tuple_for_hash_t) (flags : Z) : Prop := OpensFlow {
  of_tcp : l4_proto h = L4_TCP;
  of_fin : Z.land flags TH_FIN = 0;
  of_relevant : exists timeout, D !! dns_key_bytes (toDnsHashtableKey (src_addr h) (l3_proto h)) = Some timeout /\ now <= timeout }.

Lemma opens_flow_commands now D h flags ts port garbage :
  opens_flow now D h flags ->
  let ft := spec_session D (FiveTuple h zero_sh ts port garbage) in
  ft = FiveTuple h (FiveTupleForSessionHash (dst_addr h) false) ts port garbage /\
  spec_commands false now D ft flags = ([PKT_ADD_FLOW ft], []).
Proof.
  intros [Ht Hfin (timeout & Hk & Hle)]. cbv zeta. unfold spec_session. cbn [ft_h].
  rewrite bool_decide_true by (rewrite Hk; eauto). split; [done|].
  unfold spec_commands, spec_heuristic, relevance, with_sh. cbn [ft_h].
  rewrite Ht, Hfin, Hk, (proj2 (Z.ltb_ge _ _) Hle), andb_false_r. done.
Qed.

(** What the handler does with it. *)
Lemma opens_flow_handled env F D h ts port flags garbage fi payload st :
  env_rep env F D -> handler_rep st [] [] ->
  encodable h fi -> 0 <= ts < 2 ^ 48 -> 0 <= port < 2 ^ 16 -> 0 <= flags < 2 ^ 8 ->
  opens_flow (now_sec env) D h flags -> F !! h_bytes h = None ->
  let ft := FiveTuple h (FiveTupleForSessionHash (dst_addr h) false) ts port garbage in
  exists st', packet_handler garbage env (encode_packet h ts port flags fi payload) st = Ok st' /\
    handler_rep st' [PKT_ADD_FLOW ft] [].
Proof.
  intros Henv Hst Hen Hts Hport Hflags Hopen Hnew ft.
  destruct (opens_flow_commands (now_sec env) D h flags ts port garbage Hopen) as [Eft Ec].
  fold ft in Eft. rewrite Eft in Ec.
  destruct (process_packet_ok env _ D Henv ft flags st [] [] Hst) as (st' & Ep & Hst').
  change (h_bytes (ft_h ft)) with (h_bytes h) in Hst'. rewrite Hnew, bool_decide_false, Ec in Hst' by (by intros []).
  exists st'. split; [|exact Hst']. unfold packet_handler. rewrite parse_encode by done. cbn [rbind].
  unfold is_dns, parse_of. cbn [pa_l4Proto pa_l4 th_flags pa_ft]. rewrite (of_tcp _ _ _ _ Hopen).
  change (L4_TCP =? L4_TCP) with true. cbn iota. change (IPPROTO_TCP =? IPPROTO_UDP) with false. cbn [andb].
  rewrite (setup_session_hash_ok env _ D Henv), Eft. cbn [rbind]. exact Ep.
Qed.

(** From the wire to the switch: when the headers of a TCP packet other than
    a FIN are captured, its source address is stored and not expired, its flow is new,
    fits in its table, has a port with a forwarding entry and a free id, then the packet
    handler sends one command, the flow database stores the flow and its session under
    the least free id of the pipe, and the data plane thread installs an entry with
    exactly the tuple of the packet and the register index of that id. *)
Theorem packet_installs_flow {sw} `{SwitchLaws sw} DEVPORT_MAPPING owner egress bits (x : controller_t sw) s
    env F D h ts port flags garbage fi payload st uuid g id l :
  ports_ok DEVPORT_MAPPING -> Forall (fun e => e = 0 \/ e = 1) egress ->
  reachable DEVPORT_MAPPING owner egress bits x s ->
  env_rep env F D -> F = a_flows s -> handler_rep st [] [] ->
  encodable h fi -> 0 <= ts < 2 ^ 48 -> 0 <= port < 2 ^ 16 -> 0 <= flags < 2 ^ 8 ->
  opens_flow (now_sec env) D h flags ->
  let ft := FiveTuple h (FiveTupleForSessionHash (dst_addr h) false) ts port garbage in
  tuple_ok owner ft -> fits ft (a_flows s) -> a_flows s !! flow_key ft = None ->
  aget DEVPORT_MAPPING port <> -1 -> a_free_flows s (pipe_of ft) = id :: l ->
  Z.of_nat (length (a_queue s)) + 2 <= DATAPLANE_RINGBUFFER_SIZE ->
  exists st' x' dp ring,
    packet_handler garbage env (encode_packet h ts port flags fi payload) st = Ok st' /\
    handler_rep st' [PKT_ADD_FLOW ft] [] /\
    ct_step false DEVPORT_MAPPING (CtCommand (PKT_ADD_FLOW ft) uuid g) x = Ok x' /\
    dataplane_drain (ct_dp x') (dataplane_ringbuffer (ct_db x')) = Ok (dp, ring) /\ dp_status dp = SUCCESS /\
    entry_at (view (dp_switch dp)) (l3_proto h) (aget (entry_hdls dp) id) =
      Some (entry_of ft (flow_id_to_register_index id)).
Proof.
  intros Hports Hbits Hx Henv -> Hst Hen Hts Hport Hflags Hopen ft Htuple Hfits Hnew Hmap Hfree Hroom.
  destruct (opens_flow_handled env _ D h ts port flags garbage fi payload st Henv Hst Hen Hts Hport Hflags Hopen Hnew)
    as (st' & Ep & Hst').
  destruct (reachable_inv _ _ _ _ Hports Hbits x s Hx) as (A & b & Hi).
  pose proof (ci_paired _ _ _ _ _ _ Hi) as [Ps Pf].
  pose proof (dev_port_to_pipe_bound _ (proj1 Htuple)) as Hp.
  assert (proto_ok ft) as Hproto by (unfold proto_ok; cbn; destruct (en_l3 _ _ Hen) as [[? _]|[? _]]; tauto).
  destruct (command_inv _ _ _ Hports Hbits x s A b (PKT_ADD_FLOW ft) uuid g Hi) as (x' & Ex & Hi').
  { split; [exact Hroom|]. split; [done|]. split; [done|]. split; [|done]. intros P. cbn in P |- *.
    destruct (en_l3 _ _ Hen) as [(_ & ? & ? & _)|(P' & _)]; [done|]. rewrite P in P'. discriminate P'. }
  destruct (drained _ _ x' _ A b Hi') as (dp & ring & T & Ed & _ & Hs & Ht & HT).
  exists st', x', dp, ring. split; [exact Ep|split; [exact Hst'|split; [exact Ex|split; [exact Ed|split; [exact Hs|]]]]].
  cbn [spec_command] in HT. unfold pipe_of in *.
  unfold spec_add in HT. cbn zeta in HT. change (dev_port ft) with port in HT at 1.
  rewrite (proj2 (Z.eqb_neq _ _) Hmap), Hfree, Hnew in HT.
  cbn [a_sessions spec_take_flow a_free_sessions] in HT. rewrite Ps, Hnew, (Pf _ Hp), Hfree in HT.
  unfold spec_send_add in HT. rewrite decide_False in HT by (unfold dp_full; cbn; lia).
  cbn [a_flows spec_put spec_take_session spec_take_flow] in HT.
  match type of HT with flow_entries _ (<[_ := (?f, _)]> _) _ => set (ft1 := f) in * end.
  destruct (tb_installed _ _ Ht id ft1 (flow_id_to_register_index id)) as (_ & _ & E).
  + apply HT. exists (flow_key ft), ft1. split; [apply lookup_insert_eq|done].
  + exact E.
Qed.

Lemma sample_dns : exists t,
  dns_rep t {[dns_key_bytes (toDnsHashtableKey 0x0A000001 L3_IPV4) := 100]}.
Proof.
  destruct (dns_add_ok dns_hashtable_init ∅ dns_rep_init) with (key := toDnsHashtableKey 0x0A000001 L3_IPV4) (v := 100)
    as (t & _ & Hr); [by rewrite map_size_empty|by exists t].
Qed.

Lemma sample_env : exists env,
  env_rep env ∅ {[dns_key_bytes (toDnsHashtableKey 0x0A000001 L3_IPV4) := 100]} /\ now_sec env = 5.
Proof.
  destruct sample_dns as (t & Ht). exists (HandlerEnv flow_hashtable_init t 5).
  split; [split; [apply flow_rep_init|exact Ht|]|done]. by rewrite map_size_singleton.
Qed.

Lemma sample_opens_flow flags : Z.land flags TH_FIN = 0 ->
  opens_flow 5 {[dns_key_bytes (toDnsHashtableKey 0x0A000001 L3_IPV4) := 100]} (sample_hash 1234 L4_TCP) flags.
Proof. intros Hf. split; [done|exact Hf|]. exists 100. split; [apply lookup_singleton_eq|lia]. Qed.

Lemma started_controller : exists x : controller_t model_sw,
  reachable sample_ports (fun _ => 0) [0] no_bits x initial_state.
Proof.
  destruct (flowdb_start_ok (fun _ => 0)) as (db & Es & _).
  exists (Controller db (dataplane_init (constant_switch 0) [sample_count])).
  eapply reach_start; [exact sample_prepared|]. unfold ct_start. by rewrite Es.
Qed.

Lemma packet_installs_flow_witness : exists env st' (x x' : controller_t model_sw) dp ring id,
  let ft := FiveTuple (sample_hash 1234 L4_TCP) (FiveTupleForSessionHash 0x0A000002 false) 7 5 0 in
  packet_handler 0 env (encode_packet (sample_hash 1234 L4_TCP) 7 5 TH_SYN sample_fillers4 []) empty_handler = Ok st' /\
  ct_step false sample_ports (CtCommand (PKT_ADD_FLOW ft) [] 0) x = Ok x' /\
  dataplane_drain (ct_dp x') (dataplane_ringbuffer (ct_db x')) = Ok (dp, ring) /\
  entry_at (view (dp_switch dp)) L3_IPV4 (aget (entry_hdls dp) id) = Some (entry_of ft (flow_id_to_register_index id)).
Proof.
  destruct sample_env as (env & Henv & Hnow). destruct started_controller as (x & Hx).
  destruct (initial_free_cons 0) as (id & l & El). cbv zeta.
  destruct (packet_installs_flow sample_ports (fun _ => 0) [0] no_bits x initial_state env ∅
              {[dns_key_bytes (toDnsHashtableKey 0x0A000001 L3_IPV4) := 100]} (sample_hash 1234 L4_TCP)
              7 5 TH_SYN 0 sample_fillers4 [] empty_handler [] 0 id l)
    as (st' & x' & dp & ring & E1 & _ & E2 & E3 & _ & E4).
  - exact sample_ports_ok.
  - constructor; [by left|constructor].
  - exact Hx.
  - exact Henv.
  - reflexivity.
  - exact empty_handler_rep.
  - apply sample_encodable. split; [discriminate|reflexivity].
  - split; [discriminate|reflexivity].
  - split; [discriminate|reflexivity].
  - split; [discriminate|reflexivity].
  - rewrite Hnow. apply sample_opens_flow. reflexivity.
  - split; [split; [discriminate|reflexivity]|reflexivity].
  - unfold fits, initial_state. cbn [a_flows]. rewrite map_filter_empty. reflexivity.
  - apply lookup_empty.
  - vm_compute. discriminate.
  - exact El.
  - unfold initial_state. cbn [a_queue]. vm_compute. discriminate.
  - exists env, st', x, x', dp, ring, id. split; [exact E1|]. split; [exact E2|]. split; [exact E3|exact E4].
Defined.

(** The port of a packet is taken from the source MAC address, 16 bits that
    nothing checks: a relevant packet whose last two bytes there are at least
    [MAX_DEV_PORT_ID] makes the flow database read beyond [DEVPORT_MAPPING]. *)
Theorem unchecked_port_over_reads env F D h ts port flags garbage fi payload st DEVPORT_MAPPING us uuid g db :
  env_rep env F D -> handler_rep st [] [] ->
  encodable h fi -> 0 <= ts < 2 ^ 48 -> 0 <= port < 2 ^ 16 -> 0 <= flags < 2 ^ 8 ->
  opens_flow (now_sec env) D h flags -> F !! h_bytes h = None ->
  alen DEVPORT_MAPPING = MAX_DEV_PORT_ID -> MAX_DEV_PORT_ID <= port ->
  exists st' ft, packet_handler garbage env (encode_packet h ts port flags fi payload) st = Ok st' /\
    handler_rep st' [PKT_ADD_FLOW ft] [] /\ dev_port ft = port /\
    flowdb_command us DEVPORT_MAPPING uuid g db (PKT_ADD_FLOW ft) = UB.
Proof.
  intros Henv Hst Hen Hts Hport Hflags Hopen Hnew Hlen Hlarge.
  destruct (opens_flow_handled env F D h ts port flags garbage fi payload st) as (st' & Ep & Hst'); [done..|].
  eexists st', _. split; [exact Ep|]. split; [exact Hst'|]. split; [done|].
  with_strategy transparent [flowdb_command] cbn [flowdb_command]. unfold add_flow.
  rewrite rd_UB; [done|]. rewrite Hlen. cbn [dev_port]. lia.
Qed.

Lemma unchecked_port_over_reads_witness : exists env st' ft,
  packet_handler 0 env (encode_packet (sample_hash 1234 L4_TCP) 7 600 TH_SYN sample_fillers4 []) empty_handler = Ok st' /\
  flowdb_command false sample_ports [] 0 static_flowdb (PKT_ADD_FLOW ft) = UB.
Proof.
  destruct sample_env as (env & Henv & Hnow).
  destruct (unchecked_port_over_reads env ∅ {[dns_key_bytes (toDnsHashtableKey 0x0A000001 L3_IPV4) := 100]}
              (sample_hash 1234 L4_TCP) 7 600 TH_SYN 0 sample_fillers4 [] empty_handler sample_ports false [] 0 static_flowdb)
    as (st' & ft & E & _ & _ & Eu).
  - exact Henv.
  - exact empty_handler_rep.
  - apply sample_encodable. split; [discriminate|reflexivity].
  - split; [discriminate|reflexivity].
  - split; [discriminate|reflexivity].
  - split; [discriminate|reflexivity].
  - rewrite Hnow. apply sample_opens_flow. reflexivity.
  - apply lookup_empty.
  - reflexivity.
  - discriminate.
  - exists env, st', ft. split; [exact E|exact Eu].
Defined.

(** Claim C37. With sessions disabled. The handler does not set [session_id_egress_offset] of the tuple of a FIN
    packet. The flow database uses that tuple for [DP_CLEAR_REGISTERS]: the data plane
    thread then clears the egress totals at the session id plus the indeterminate offset
    and not those of the session, which keep their values for the next owner of the id;
    and when the index is outside of the table it writes beyond it. *)
Theorem fin_clears_other_totals {sw} `{SwitchLaws sw} DEVPORT_MAPPING uuid garbage owner db s ft ft0 id fid (st : dataplane_t sw) :
  ports_ok DEVPORT_MAPPING -> fd_rep db s -> fd_inv owner s -> tuple_ok owner ft ->
  a_flows s !! flow_key ft = Some fid -> a_sessions s !! flow_key ft = Some (ft0, id) ->
  Z.of_nat (length (a_queue s)) + 2 <= DATAPLANE_RINGBUFFER_SIZE ->
  Forall register_wf (dp_features st) -> Forall (fun r => on_egress r = 1) (dp_features st) ->
  session_id_egress_offset ft <> session_id_egress_offset ft0 ->
  let clear := DP_CLEAR_REGISTERS (MatchTableCmd ft 0 id) in
  exists db' s', flowdb_command false DEVPORT_MAPPING uuid garbage db (PKT_REMOVE_FLOW ft) = Ok db' /\ fd_rep db' s' /\
    a_queue s' = a_queue s ++ [DP_REMOVE_FLOW (MatchTableCmd ft fid.2 0); clear] /\
    (0 <= egress_index ft id < FEATURE_SIZE ->
       exists st', dataplane_command st clear = Ok st' /\
         Forall2 (fun r r' => aget (values r') (egress_index ft id) = 0 /\
                    aget (values r') (egress_index ft0 id) = aget (values r) (egress_index ft0 id))
           (dp_features st) (dp_features st')) /\
    (~ (0 <= egress_index ft id < FEATURE_SIZE) -> dp_features st <> [] -> dataplane_command st clear = UB).
Proof.
  intros Hports Hr Hinv Ht Hk Hks Hroom Hwf Heg Hne clear.
  destruct (flowdb_command_ok _ uuid garbage owner Hports db s (PKT_REMOVE_FLOW ft) Hr Hinv Ht) as (db' & E & Hr' & _).
  destruct (io_owned _ _ _ (fi_sessions _ _ Hinv) _ _ Hks) as (Hpo & Hid & _ & _). cbn [snd] in Hid.
  pose proof (pipe_id_range _ _ Hpo Hid) as Hrange.
  eexists db', _. split; [exact E|]. split; [exact Hr'|]. split; [|split].
  - cbn [spec_command]. rewrite Hk. unfold spec_remove_flow, spec_cleanup.
    cbn [a_sessions spec_put spec_give_flow]. rewrite Hks.
    cbn [snd a_queue spec_put spec_give_session spec_give_flow]. rewrite (queue_send_room (a_queue s)) by lia.
    rewrite queue_send_room by (rewrite length_app; cbn; lia). by rewrite <- app_assoc.
  - intros Hin. with_strategy transparent [dataplane_command] cbn [dataplane_command clear mt_session_id mt_five_tuple].
    unfold clear_registers. destruct (clear_totals_ok id ft (dp_features st) Hwf) as (rs & -> & Hcl).
    { apply Forall_fmap. eapply Forall_impl; [exact Heg|]. cbn. intros r ->. unfold egress_index in Hin. lia. }
    destruct (flow_id_decompose id ltac:(lia)) as [_ Hp]. cbn [rbind]. rewrite rd_PIPES by done. cbn [rbind].
    destruct (register_write _ _ _ _ _) as [w s0]. eexists. split; [reflexivity|]. cbn [dp_features].
    clear - Hcl Heg Hne. induction Hcl as [|r r' rs rs' (v & -> & _ & Hv) _ IH]; [constructor|].
    apply Forall_cons in Heg as [Er Heg]. constructor; [|by apply IH]. cbn [values set_values].
    unfold feature_index in Hv. rewrite Er in Hv. unfold egress_index.
    split; rewrite Hv; [by rewrite decide_True by lia|]. by rewrite decide_False by lia.
  - intros Hout Hnil. with_strategy transparent [dataplane_command] cbn [dataplane_command clear mt_session_id mt_five_tuple].
    unfold clear_registers. destruct (dp_features st) as [|r rs]; [done|]. cbn [clear_totals].
    apply Forall_cons in Hwf as [Hw _]. apply Forall_cons in Heg as [Er _]. unfold clear_total, feature_index.
    rewrite Er. unfold wr, in_bounds. rewrite (rw_values _ Hw).
    replace (id + 1 * session_id_egress_offset ft) with (egress_index ft id) by (unfold egress_index; lia).
    destruct (_ && _) eqn:Eb; [|done]. rewrite andb_true_iff, Z.leb_le, Z.ltb_lt in Eb. by destruct Hout.
Qed.

Definition sample_egress_count : feature_register_t :=
  fst (prepare_feature (static_register (fun _ => 1) PACKET_COUNT_REG PACKET_COUNT_REG PROCESS_AND_AGE_FEATURE)).
Lemma sample_egress_count_wf : register_wf sample_egress_count.
Proof. split; [reflexivity|reflexivity|reflexivity|]. left. split; reflexivity. Qed.

Lemma fin_clears_other_totals_witness : exists db db' s s' ft0 id fin,
  fd_rep db s /\ a_sessions s !! flow_key fin = Some (ft0, id) /\
  flowdb_command false sample_ports [] 0 db (PKT_REMOVE_FLOW fin) = Ok db' /\ fd_rep db' s' /\
  session_id_egress_offset fin <> session_id_egress_offset ft0 /\
  last (a_queue s') = Some (DP_CLEAR_REGISTERS (MatchTableCmd fin 0 id)).
Proof.
  destruct one_flow_db as (_ & db & ft & id & sid & _ & _ & _ & _ & Hr & Hinv).
  match type of Hr with fd_rep _ ?s' => set (s := s') in * end.
  set (fin := with_egress_offset (sample_tuple 5) (session_id_egress_offset ft + 1)).
  assert (a_sessions s !! flow_key fin = Some (ft, sid)) as Hks by apply lookup_insert_eq.
  assert (session_id_egress_offset fin <> session_id_egress_offset ft) as Hne by (cbn; lia).
  destruct (fin_clears_other_totals sample_ports [] 0 (fun _ => 0) db s fin ft sid (ft, id)
              (dataplane_init (constant_switch 0) [sample_egress_count]) sample_ports_ok Hr Hinv)
    as (db' & s' & E & Hr' & Eq & _).
  - split; [split; [discriminate|reflexivity]|reflexivity].
  - apply lookup_insert_eq.
  - exact Hks.
  - unfold s, initial_state. cbn [a_queue spec_put spec_take_session spec_take_flow]. vm_compute. discriminate.
  - constructor; [exact sample_egress_count_wf|constructor].
  - constructor; [reflexivity|constructor].
  - exact Hne.
  - exists db, db', s, s', ft, sid, fin. split; [exact Hr|]. split; [exact Hks|]. split; [exact E|].
    split; [exact Hr'|]. split; [exact Hne|]. rewrite Eq. by rewrite last_app.
Defined.
