(* ===== verification/Modes.v ===== *)
(** * The controller in both modes ([controller.c], [config.h])

    [USE_SESSIONS] selects whether flows are grouped in sessions. The flow database and
    the data plane thread, one command at a time, in either mode: a flow counts in the
    registers of the session that it joined when it was added, and the entries of the
    switch lead there. With sessions disabled that session is the flow's own. *)

From S2P Require Import Prelude Structs Heap Ringbuffer IdTable FlowTable SessionTable BloomFilter FlowDb FlowDbSessions.
From S2P Require Import DpApi Features Dataplane DnsTable PacketHandler Controller.

(** ** Specification *)

(** The flow database, and the session that each flow joined, by their ids. *)
Record mode_state : Type := ModeState { md_fs : fs_state; md_joined : Z -> Z }.
Definition md_db (m : mode_state) : fd_state := fs_db (md_fs m).

(** The flow that a command adds joins the session of its key. *)
Definition join (use_sessions : bool) (c : packet_item_t) (s s' : fd_state) (joined : Z -> Z) : Z -> Z :=
  match c with
  | PKT_ADD_FLOW ft =>
      match a_flows s !! flow_key ft, a_flows s' !! flow_key ft, a_sessions s' !! session_key use_sessions ft with
      | None, Some (_, id), Some (_, sid) => fupd joined id sid
      | _, _, _ => joined
      end
  | _ => joined
  end.

(** A command in the mode [use_sessions]. *)
Definition mode_command (use_sessions : bool) (DEVPORT_MAPPING : arr Z) (garbage : Z) (c : packet_item_t)
    (m : mode_state) : mode_state :=
  let x := if use_sessions then fs_command DEVPORT_MAPPING garbage c (md_fs m)
           else FsState (spec_command DEVPORT_MAPPING c (md_db m)) (fs_counts (md_fs m)) in
  ModeState x (join use_sessions c (md_db m) (fs_db x) (md_joined m)).

Definition with_md_db (s : fd_state) (m : mode_state) : mode_state :=
  ModeState (FsState s (fs_counts (md_fs m))) (md_joined m).

Definition mode_initial : mode_state := ModeState fs_initial (fun id => id).

(** What the tables stand for. *)
Definition mode_rep (use_sessions : bool) (db : flowdb_t) (m : mode_state) : Prop :=
  if use_sessions then fs_rep db (md_fs m) else fd_rep db (md_db m).

(** The switch holds the entry of each flow, under the handle cached for its id, with the
    register index of the session that it joined, and no other entry. *)
Definition switch_counts {sw} `{SwitchLaws sw} (st : dataplane_t sw) (m : mode_state) : Prop :=
  (forall k ft id, a_flows (md_db m) !! k = Some (ft, id) ->
     entry_at (view (dp_switch st)) (proto ft) (aget (entry_hdls st) id) =
       Some (entry_of ft (flow_id_to_register_index (md_joined m id)))) /\
  (forall p h e, entry_at (view (dp_switch st)) p h = Some e ->
     exists k ft id, a_flows (md_db m) !! k = Some (ft, id) /\ proto ft = p /\ aget (entry_hdls st) id = h /\
       e = entry_of ft (flow_id_to_register_index (md_joined m id))).

Section modes.
Context {sizes : TableSizes} (use_sessions : bool) (DEVPORT_MAPPING : arr Z) (owner session_owner : list Z -> Z).

(** The tuple of a client arrives on the pipe of its session. *)
Definition mode_tuple (ft : five_tuple_t) : Prop := use_sessions = true -> session_pipe session_owner ft.

(** There is a session for the flow to join. *)
Definition session_room (ft : five_tuple_t) (s : fd_state) : Prop :=
  use_sessions = true ->
  is_Some (a_sessions s !! session_of ft) \/ a_free_sessions s (pipe_of ft) <> [].

(** The commands that the flow database may get, with an indeterminate index that lies
    inside of the counts. *)
Definition mode_fits (garbage : Z) (s : fd_state) (c : packet_item_t) : Prop :=
  command_fits owner s c /\ (use_sessions = true -> 0 <= garbage < FEATURE_SIZE) /\
  match c with
  | PKT_ADD_FLOW ft => mode_tuple ft /\ session_room ft s
  | PKT_REMOVE_FLOW ft => mode_tuple ft
  | _ => True
  end.

(** The ids are not lost; with sessions disabled a flow and its session have one id. *)
Definition mode_ids (m : mode_state) : Prop :=
  if use_sessions then fs_inv owner session_owner (md_fs m)
  else fd_inv owner (md_db m) /\ paired (md_db m) /\ forall id, md_joined m id = id.
End modes.

(** ** Proofs *)

#[local] Opaque FEATURE_SIZE flowdb_command dataplane_command.

Lemma flow_entries_ext reg reg' M T :
  (forall id, reg' id = reg id) -> flow_entries reg M T -> flow_entries reg' M T.
Proof. intros E HT id x. rewrite (HT id x). by setoid_rewrite E. Qed.

Lemma dp_inv_ext {sw} `{SwitchLaws sw} egress reg reg' (st : dataplane_t sw) s A b :
  (forall id, reg' id = reg id) -> dp_inv egress reg st s A b -> dp_inv egress reg' st s A b.
Proof.
  intros E [[Hfl Hv HT] Ht Hb Hf Hs]. split; try done. split; [done|done|]. by apply (flow_entries_ext reg).
Qed.

Definition counts_at (joined : Z -> Z) (id : Z) : Z := flow_id_to_register_index (joined id).

(** *** With sessions enabled *)

Section sessions.
Context {sizes : TableSizes} (DEVPORT_MAPPING : arr Z) (ports : ports_ok DEVPORT_MAPPING) (owner session_owner : list Z -> Z).
Context (egress : list Z) (egress_bits : Forall (fun e => e = 0 \/ e = 1) egress).
Implicit Types (A : flow_table) (x : fs_state).

Notation joined_ok j A s := (installed_ok (counts_at j) egress A s).
Notation inv := (fs_inv owner session_owner).

(** The command for a flow that was just stored under [id]. *)
Lemma send_add_installed j A s s0 k ft id sid :
  joined_ok j A s -> flow_ok (ft, id) -> fits ft (a_flows s) -> id_free id (a_flows s) -> 0 <= id < FEATURE_SIZE ->
  flow_key ft = k -> a_flows s !! k = None -> (forall k' y, a_flows s !! k' = Some y -> flow_key y.1 = k') ->
  a_flows s0 = <[k := (ft, id)]> (a_flows s) -> a_queue s0 = a_queue s ->
  Z.of_nat (length (a_queue s)) < DATAPLANE_RINGBUFFER_SIZE ->
  let s' := spec_send_add ft id sid s0 in
  a_flows s' = <[k := (ft, id)]> (a_flows s) /\ a_sessions s' = a_sessions s0 /\ joined_ok (fupd j id sid) A s'.
Proof using.
  intros Hin Hok Hfits Hfree Hid Hft Hk Hkeys Ef Eq Hroom. unfold spec_send_add.
  rewrite decide_False by (unfold dp_full; rewrite Eq; lia). split; [exact Ef|]. split; [done|].
  apply (installed_add egress (counts_at j) _ A s _ k ft id sid); try done.
  - unfold counts_at. by rewrite fupd_eq.
  - intros i Hi. unfold counts_at. by rewrite fupd_ne.
  - cbn [a_queue spec_put]. rewrite Eq. by apply queue_send_room.
Qed.

Lemma fs_add_installed j A x ft :
  joined_ok j A (fs_db x) -> inv x -> tuple_ok owner ft -> proto_ok ft -> addr_ok ft ->
  fits ft (a_flows (fs_db x)) ->
  session_room true ft (fs_db x) -> Z.of_nat (length (a_queue (fs_db x))) < DATAPLANE_RINGBUFFER_SIZE ->
  let x' := fs_add DEVPORT_MAPPING ft x in
  joined_ok (join true (PKT_ADD_FLOW ft) (fs_db x) (fs_db x') j) A (fs_db x').
Proof using ports.
  intros Hin [Hf _ _] [Hd _] Hp Haddr Hfits Hs Hroom. specialize (Hs eq_refl).
  assert (forall k' y, a_flows (fs_db x) !! k' = Some y -> flow_key y.1 = k') as Hkeys
    by (intros k' y Hk'; symmetry; apply (io_owned _ _ _ Hf _ _ Hk')).
  assert (joined_ok (join true (PKT_ADD_FLOW ft) (fs_db x) (fs_db x) j) A (fs_db x)) as Hsame
    by (cbn [join]; destruct (a_flows (fs_db x) !! flow_key ft); exact Hin).
  unfold fs_add. cbv zeta.
  destruct (Z.eqb_spec (aget DEVPORT_MAPPING (dev_port ft)) (-1)) as [|Hne]; [exact Hsame|].
  pose proof (forwarded_offset _ ports ft Hd Hne) as Ho.
  pose proof (dev_port_to_pipe_bound _ Hd) as Hpb. unfold pipe_of in *.
  set (pipe := dev_port_to_pipe (dev_port ft)) in *.
  destruct (a_free_flows (fs_db x) pipe) as [|id l] eqn:El; [exact Hsame|].
  destruct (a_flows (fs_db x) !! flow_key ft) as [y|] eqn:Ek; [exact Hsame|].
  set (ft' := with_egress_offset ft _) in *.
  destruct (proj1 (io_free _ _ _ Hf pipe id Hpb)) as [Hid Hfree]; [rewrite El; left|].
  assert (0 <= id < FEATURE_SIZE) as Hrange by (pose proof (pipe_id_range _ _ Hpb Hid); lia).
  unfold fs_session. cbn [fs_db fs_counts a_sessions a_free_sessions spec_take_flow].
  change (session_of ft') with (session_of ft). change (flow_key ft') with (flow_key ft).
  change (dev_port ft') with (dev_port ft). fold pipe.
  destruct (a_sessions (fs_db x) !! session_of ft) as [y|] eqn:Es.
  - cbn [fs_db]. destruct (send_add_installed j A (fs_db x) (spec_take_flow (flow_key ft) ft' pipe id (fs_db x))
      (flow_key ft) ft' id (snd y) Hin) as (E1 & E2 & Hin'); try done.
    cbn [join]. rewrite Ek, E1, lookup_insert_eq, E2. cbn [a_sessions spec_take_flow]. rewrite Es. by destruct y.
  - destruct (a_free_sessions (fs_db x) pipe) as [|sid l'] eqn:Efs; [by destruct Hs as [[]|]|]. cbn [fs_db].
    set (s0 := spec_take_session _ _ _ _ _).
    destruct (send_add_installed j A (fs_db x) s0 (flow_key ft) ft' id sid Hin) as (E1 & E2 & Hin'); try done.
    cbn [join]. rewrite Ek, E1, lookup_insert_eq, E2. unfold s0 at 1.
    cbn [a_sessions spec_take_session spec_take_flow]. by rewrite lookup_insert_eq.
Qed.

Lemma fs_remove_installed garbage j A x ft y :
  joined_ok j A (fs_db x) -> inv x -> pipe_ok owner ft -> session_pipe session_owner ft -> offset_ok ft ->
  a_flows (fs_db x) !! flow_key ft = Some y -> proto y.1 = proto ft ->
  Z.of_nat (length (a_queue (fs_db x))) + 2 <= DATAPLANE_RINGBUFFER_SIZE ->
  joined_ok j A (fs_db (fs_remove garbage ft (snd y) x)).
Proof using egress_bits.
  intros Hin [Hf Hs _] [Hp Hpipe] Hsp Ho Hk Hpy Hroom. destruct y as [ft0 id]. cbn [fst snd] in *.
  assert (forall s' cs, a_flows s' = delete (flow_key ft) (a_flows (fs_db x)) ->
            a_queue s' = a_queue (fs_db x) ++ DP_REMOVE_FLOW (MatchTableCmd ft id 0) :: cs ->
            Forall (idle_command egress) cs -> joined_ok j A s') as Hrm.
  { intros s' cs E1 E2 Hcs. apply (installed_remove egress _ A (fs_db x) s' (flow_key ft) ft ft0 id cs); try done.
    exact (io_distinct _ _ _ Hf). }
  unfold fs_remove, fs_cleanup. cbn [fs_db fs_counts].
  assert (joined_ok j A (spec_unlink ft id (fs_db x))) as Hun.
  { apply (Hrm _ []); [done| |constructor]. apply queue_send_room. cbn. lia. }
  change (a_sessions (spec_unlink ft id (fs_db x))) with (a_sessions (fs_db x)).
  destruct (_ =? 0); [|exact Hun].
  destruct (a_sessions (fs_db x) !! session_of ft) as [y|] eqn:Es; [|exact Hun]. cbn [fs_db].
  apply (Hrm _ [DP_CLEAR_REGISTERS (MatchTableCmd ft 0 (snd y))]); [done| |].
  - cbn [a_queue spec_put spec_give_session spec_give_flow spec_unlink].
    rewrite (queue_send_room (a_queue (fs_db x))) by lia. rewrite queue_send_room by (rewrite length_app; cbn; lia).
    by rewrite <- app_assoc.
  - destruct (io_owned _ _ _ Hs _ _ Es) as (Hpo & Hid & _ & _). unfold session_pipe in Hsp. rewrite <- Hsp in Hpo, Hid.
    by apply Forall_singleton, clear_idle.
Qed.

Lemma fs_command_installed garbage j A x c :
  joined_ok j A (fs_db x) -> inv x -> mode_fits true owner session_owner garbage (fs_db x) c ->
  let x' := fs_command DEVPORT_MAPPING garbage c x in
  joined_ok (join true c (fs_db x) (fs_db x') j) A (fs_db x').
Proof using ports egress_bits.
  intros Hin Hinv ([Hroom Hc] & _ & Hm). destruct c as [ft|ft|ft|ft|ft|id]; cbn [fs_command join spec_command].
  - destruct Hc as (Ht & Hp & Had & Hf), Hm as [_ Hs]. apply fs_add_installed; try done. lia.
  - destruct Hc as (Ht & Hp & Ho). destruct (a_flows (fs_db x) !! flow_key ft) as [y|] eqn:Ek; [|done].
    apply fs_remove_installed; try done; [by apply tuple_pipe_ok|by apply Hm|].
    pose proof (in_flows _ _ _ _ Hin _ _ Ek) as [Hpy _]. apply flow_key_proto; [|done|done].
    symmetry. apply (io_owned _ _ _ (fs_flows _ _ _ Hinv) _ _ Ek).
  - destruct Hc as [Hd [hs Hh]]. rewrite Hh. cbn [fs_db]. apply installed_send; [done|]. intros c.
    eapply irrelevant_command_idle; [by apply dev_port_to_pipe_bound|done].
  - destruct Hc as [Hd [hs Hh]]. rewrite Hh. cbn [fs_db]. apply installed_send; [done|]. intros c. apply relevant_command_idle.
  - done.
  - destruct (id_owner (a_flows (fs_db x)) id) as [ft|] eqn:Eo; [|done]. apply id_owner_elem in Eo as (k & Hk).
    destruct (io_owned _ _ _ (fs_flows _ _ _ Hinv) _ _ Hk) as (Hp & _ & Hpipe & ->).
    pose proof (in_flows _ _ _ _ Hin _ _ Hk) as (Hpx & Hdx & Hox & _).
    exact (fs_remove_installed garbage j A x ft (ft, id) Hin Hinv (conj Hp Hpipe) (fs_pipes _ _ _ Hinv _ _ Hk) Hox Hk eq_refl Hroom).
Qed.
End sessions.

(** *** In either mode *)

Section controller.
Context {sw : Type} {switch : Switch sw} {sizes : TableSizes} {laws : SwitchLaws sw}.
Context (use_sessions : bool) (DEVPORT_MAPPING : arr Z) (owner session_owner : list Z -> Z).
Context (egress : list Z) (bits : dp_bits).
Context (ports : ports_ok DEVPORT_MAPPING) (egress_bits : Forall (fun e => e = 0 \/ e = 1) egress).
Implicit Types (x : controller_t sw) (m : mode_state) (A : flow_table) (b : dp_bits).

Record mode_inv x m A b : Prop := ModeInv {
  mv_rep : mode_rep use_sessions (ct_db x) m;
  mv_ids : mode_ids use_sessions owner session_owner m;
  mv_dp : dp_inv egress (counts_at (md_joined m)) (ct_dp x) (md_db m) A b }.

(** The parts of the state that do not depend on the mode. *)
Lemma mode_db_rep db m : mode_rep use_sessions db m -> exists S, db_rep S db (md_db m).
Proof using. unfold mode_rep. destruct use_sessions; by eexists. Qed.

(** A change of the ring buffer or the filter alone. *)
Lemma mode_rep_same db db' m s' :
  mode_rep use_sessions db m -> (forall S, db_rep S db (md_db m) -> db_rep S db' s') -> mode_rep use_sessions db' (with_md_db s' m).
Proof using. unfold mode_rep. intros Hr Hs. destruct use_sessions; by apply Hs. Qed.

Lemma mode_ids_same m s' :
  mode_ids use_sessions owner session_owner m ->
  a_flows s' = a_flows (md_db m) -> a_sessions s' = a_sessions (md_db m) ->
  a_free_flows s' = a_free_flows (md_db m) -> a_free_sessions s' = a_free_sessions (md_db m) ->
  mode_ids use_sessions owner session_owner (with_md_db s' m).
Proof using.
  unfold mode_ids, md_db. intros Hi E1 E2 E3 E4. destruct use_sessions.
  - destruct Hi. split; cbn [md_fs with_md_db fs_db]; by rewrite ?E1, ?E2, ?E3, ?E4.
  - destruct Hi as ([H1 H2] & [H3 H4] & Hj). cbn [md_fs with_md_db fs_db md_joined].
    split; [split; by rewrite ?E1, ?E2, ?E3, ?E4|]. split; [split; by rewrite ?E1, ?E2, ?E3, ?E4|done].
Qed.

(** The session table. *)
Lemma mode_session_rep db m :
  mode_rep use_sessions db m ->
  session_rep use_sessions (flow_count (session_hashtable db)) (session_hashtable db) (a_sessions (md_db m)) /\
  alen (flow_count (session_hashtable db)) = FEATURE_SIZE /\
  (use_sessions = true -> flow_count (session_hashtable db) = fs_counts (md_fs m)).
Proof using.
  unfold mode_rep. destruct use_sessions; intros Hr.
  - destruct (fd_sessions _ _ Hr) as [Hs Hl]. pose proof (si_count _ _ _ _ (sr_inv _ _ _ _ Hs)) as E.
    cbn [fst snd] in *. by rewrite E.
  - by destruct (fd_sessions _ _ Hr) as [Hs Hl].
Qed.

(** With sessions disabled. *)
Lemma ct_inv_plain x m A b :
  use_sessions = false -> mode_inv x m A b -> ct_inv owner egress x (md_db m) A b.
Proof using.
  intros Eu [Hr Hids Hd]. unfold mode_rep, mode_ids in Hr, Hids. rewrite Eu in *. destruct Hids as (Hi & Hp & Hj).
  split; [exact Hr|exact Hi|exact Hp|].
  apply (dp_inv_ext _ (counts_at (md_joined m))); [|exact Hd]. intros id. unfold counts_at. by rewrite Hj.
Qed.

Lemma plain_joined c s s' joined :
  paired s' -> (forall id, joined id = id) -> forall id, join false c s s' joined id = id.
Proof using.
  intros [Ps _] Hj id. unfold join. destruct c as [ft| | | | |]; try apply Hj.
  destruct (a_flows s !! _); [apply Hj|]. destruct (a_flows s' !! flow_key ft) as [[ft' i]|] eqn:E; [|apply Hj].
  change (session_key false ft) with (flow_key ft). rewrite Ps, E. unfold fupd. case_decide; [done|apply Hj].
Qed.

Lemma mode_command_inv x m A b c uuid garbage :
  mode_inv x m A b -> mode_fits use_sessions owner session_owner garbage (md_db m) c ->
  exists x', ct_step use_sessions DEVPORT_MAPPING (CtCommand c uuid garbage) x = Ok x' /\ ct_dp x' = ct_dp x /\
    mode_inv x' (mode_command use_sessions DEVPORT_MAPPING garbage c m) A b.
Proof using ports egress_bits.
  intros Hi Hc. pose proof Hc as (Hfit & Hg & Hm). unfold mode_command. destruct (decide (use_sessions = true)) as [Eu|Eu].
  - destruct Hi as [Hr Hids [Hin Ht Hb Hf Hs]]. unfold mode_rep, mode_ids in Hr, Hids. rewrite Eu in *.
    destruct (fs_command_refines DEVPORT_MAPPING uuid garbage owner session_owner ports (Hg eq_refl) (ct_db x) (md_fs m) c Hr Hids)
      as (db' & E & Hr' & Hids').
    { destruct Hfit as [Hroom Hf']. destruct c; cbn in *; try tauto; [split; [apply Hf'|by apply Hm]..|].
      split; [exact Hf'|]. unfold md_db in Hroom. lia. }
    cbn [ct_step]. rewrite E. cbn [rbind]. eexists. split; [reflexivity|]. split; [done|]. cbn [ct_db].
    split; [unfold mode_rep; rewrite Eu; exact Hr'|unfold mode_ids; rewrite Eu; exact Hids'|].
    split; [|exact Ht|exact Hb|exact Hf|exact Hs].
    by apply (fs_command_installed DEVPORT_MAPPING ports owner session_owner egress egress_bits garbage).
  - apply not_true_is_false in Eu. pose proof (ct_inv_plain x m A b Eu Hi) as Hct.
    pose proof (mv_ids _ _ _ _ Hi) as Hids. unfold mode_rep, mode_ids in Hids. rewrite Eu in *.
    destruct (command_inv DEVPORT_MAPPING owner egress ports egress_bits x _ A b c uuid garbage Hct Hfit) as (x' & E & Hct').
    exists x'. split; [exact E|]. split; [cbn [ct_step] in E; by apply rbind_Ok in E as (db & _ & [= <-])|].
    pose proof (ci_paired _ _ _ _ _ _ Hct') as Hp'.
    pose proof (plain_joined c (md_db m) _ (md_joined m) Hp' (proj2 (proj2 Hids))) as Hj.
    split; unfold mode_rep, mode_ids, md_db; rewrite ?Eu; cbn [md_fs fs_db md_joined].
    + apply Hct'.
    + split; [apply Hct'|]. by split.
    + apply (dp_inv_ext _ flow_id_to_register_index); [intros id; unfold counts_at; by rewrite Hj|apply Hct'].
Qed.

Lemma mode_dataplane_inv x m A b :
  mode_inv x m A b -> exists x' A' b', ct_step use_sessions DEVPORT_MAPPING CtDataplane x = Ok x' /\
    mode_inv x' (with_md_db (set_queue (List.tl (a_queue (md_db m))) (md_db m)) m) A' b'.
Proof using.
  intros [Hr Hids Hd]. destruct x as [db st]. cbn [ct_db ct_dp] in *.
  destruct (mode_db_rep _ _ Hr) as [S HrS].
  destruct (dp_pop DEVPORT_MAPPING _ db _ st _ A b S HrS Hd) as (db' & st' & A' & b' & E & _ & Hd').
  exists (Controller db' st'), A', b'. split; [exact E|]. split; [|by apply mode_ids_same|exact Hd'].
  apply (mode_rep_same db); [exact Hr|]. intros S' HrS'.
  destruct (dp_pop DEVPORT_MAPPING _ db _ st _ A b S' HrS' Hd) as (db1 & st1 & A1 & b1 & E1 & Hr1 & _).
  assert (Ok (Controller db' st') = Ok (Controller db1 st1)) as [= <- _] by by rewrite <- E, <- E1.
  exact Hr1.
Qed.

Lemma mode_drained x m A b :
  mode_inv x m A b -> exists st ring, dataplane_drain (ct_dp x) (dataplane_ringbuffer (ct_db x)) = Ok (st, ring) /\
    dp_status st = SUCCESS /\ switch_counts st m /\ (use_sessions = false -> switch_mirrors st (md_db m)).
Proof using.
  intros Hi. destruct (mode_db_rep _ _ (mv_rep _ _ _ _ Hi)) as [S Hr].
  destruct (dp_drained _ _ _ _ _ _ _ (fd_queue _ _ Hr) (mv_dp _ _ _ _ Hi)) as (st & ring & T & E & _ & Hs & Ht & HT).
  exists st, ring. split; [exact E|]. split; [exact Hs|]. split; [exact (drained_entries _ _ _ st Ht HT)|].
  intros Eu. destruct (drained_mirrors _ _ _ _ _ _ (ct_inv_plain _ _ _ _ Eu Hi)) as (st' & ring' & E' & _ & Hm).
  rewrite E in E'. by injection E' as <- <-.
Qed.

Lemma mode_start_inv s rs x :
  prepared egress bits s rs -> ct_start s rs = Ok x -> mode_inv x mode_initial ∅ bits.
Proof using.
  intros Hprep Ex. pose proof (start_inv owner egress bits s rs x Hprep Ex) as Hct.
  unfold ct_start in Ex. apply rbind_Ok in Ex as (db & E & Ex). injection Ex as <-.
  split; cbn [ct_db ct_dp].
  - unfold mode_rep. destruct use_sessions; [|exact (ci_rep _ _ _ _ _ _ Hct)].
    destruct (fs_start_ok owner session_owner) as (db' & E' & Hr' & _). rewrite E in E'. injection E' as <-. exact Hr'.
  - unfold mode_ids. destruct use_sessions.
    + destruct (fs_start_ok owner session_owner) as (db' & _ & _ & Hi). exact Hi.
    + split; [exact (ci_ids _ _ _ _ _ _ Hct)|]. split; [exact (ci_paired _ _ _ _ _ _ Hct)|]. intros id. reflexivity.
  - by apply dp_inv_initial.
Qed.

(** The states that the two threads can reach. *)
Inductive mode_reachable : controller_t sw -> mode_state -> Prop :=
  | mode_start s rs x :
      prepared egress bits s rs -> ct_start s rs = Ok x -> mode_reachable x mode_initial
  | mode_step_command x m c uuid garbage x' :
      mode_reachable x m -> mode_fits use_sessions owner session_owner garbage (md_db m) c ->
      ct_step use_sessions DEVPORT_MAPPING (CtCommand c uuid garbage) x = Ok x' ->
      mode_reachable x' (mode_command use_sessions DEVPORT_MAPPING garbage c m)
  | mode_step_dataplane x m x' :
      mode_reachable x m -> ct_step use_sessions DEVPORT_MAPPING CtDataplane x = Ok x' ->
      mode_reachable x' (with_md_db (set_queue (List.tl (a_queue (md_db m))) (md_db m)) m).

Lemma mode_reachable_inv x m : mode_reachable x m -> exists A b, mode_inv x m A b.
Proof using ports egress_bits.
  induction 1 as [s rs x Hp E|x m c uuid garbage x' _ (A & b & IH) Hc E|x m x' _ (A & b & IH) E].
  - exists ∅, bits. by apply (mode_start_inv s rs).
  - exists A, b. destruct (mode_command_inv x m A b c uuid garbage IH Hc) as (x1 & E1 & _ & Hi).
    rewrite E in E1. injection E1 as <-. exact Hi.
  - destruct (mode_dataplane_inv x m A b IH) as (x1 & A' & b' & E1 & Hi).
    rewrite E in E1. injection E1 as <-. by exists A', b'.
Qed.

(** The session that a new flow joins: that of its key, or the least free one. *)
Definition joins (ft : five_tuple_t) (s : fd_state) (sid : Z) : Prop :=
  match a_sessions s !! session_key use_sessions ft with
  | Some y => sid = snd y
  | None => exists l, a_free_sessions s (pipe_of ft) = sid :: l
  end.

(** The tuple with the offset to the pipe of the port to which its packets are forwarded. *)
Definition forwarded (ft : five_tuple_t) : five_tuple_t :=
  with_egress_offset ft (i8 (dev_port_to_pipe (aget DEVPORT_MAPPING (dev_port ft)) - pipe_of ft)).

(** A new flow is stored under the least free id of its pipe, and joins that session. *)
Lemma mode_add_joins m garbage ft id l sid :
  mode_ids use_sessions owner session_owner m -> tuple_ok owner ft ->
  aget DEVPORT_MAPPING (dev_port ft) <> -1 -> a_flows (md_db m) !! flow_key ft = None ->
  a_free_flows (md_db m) (pipe_of ft) = id :: l -> joins ft (md_db m) sid ->
  Z.of_nat (length (a_queue (md_db m))) < DATAPLANE_RINGBUFFER_SIZE ->
  let m' := mode_command use_sessions DEVPORT_MAPPING garbage (PKT_ADD_FLOW ft) m in
  a_flows (md_db m') !! flow_key ft = Some (forwarded ft, id) /\ md_joined m' id = sid.
Proof using.
  intros Hids Ht Hne Hk Hf Hj Hroom. unfold joins, forwarded, pipe_of in *.
  pose proof (dev_port_to_pipe_bound _ (proj1 Ht)) as Hp.
  unfold mode_command, md_db, mode_ids in *. cbn [md_fs md_joined join]. destruct use_sessions.
  - unfold fs_command, fs_add. cbv zeta. rewrite (proj2 (Z.eqb_neq _ _) Hne), Hf, Hk.
    unfold fs_session. cbn [fs_db fs_counts a_sessions a_free_sessions spec_take_flow].
    set (ft' := with_egress_offset ft _). change (session_of ft') with (session_of ft). change (dev_port ft') with (dev_port ft).
    destruct (a_sessions (fs_db (md_fs m)) !! session_of ft) as [y|] eqn:Es.
    + cbn [fs_db]. unfold spec_send_add. rewrite decide_False by (unfold dp_full; cbn; lia).
      cbn [a_flows a_sessions spec_put spec_take_flow]. rewrite lookup_insert_eq, Es. destruct y as [y0 sid0].
      split; [done|]. by rewrite fupd_eq, Hj.
    + destruct Hj as [l' ->]. cbn [fs_db]. unfold spec_send_add. rewrite decide_False by (unfold dp_full; cbn; lia).
      cbn [a_flows a_sessions spec_put spec_take_session spec_take_flow]. rewrite !lookup_insert_eq.
      split; [done|]. by rewrite fupd_eq.
  - destruct Hids as (_ & [Ps Pf] & _). unfold md_db in Ps, Pf.
    change (session_key false ft) with (flow_key ft) in *. rewrite Ps, Hk in Hj. destruct Hj as [l' Hl]. rewrite (Pf _ Hp), Hf in Hl.
    injection Hl as <- <-. cbn [fs_db]. unfold spec_command, spec_add. cbv zeta. rewrite (proj2 (Z.eqb_neq _ _) Hne), Hf, Hk.
    cbn [a_sessions spec_take_flow a_free_sessions]. rewrite Ps, Hk, (Pf _ Hp), Hf.
    unfold spec_send_add. rewrite decide_False by (unfold dp_full; cbn; lia).
    cbn [a_flows a_sessions spec_put spec_take_session spec_take_flow]. rewrite !lookup_insert_eq. split; [done|]. by rewrite fupd_eq.
Qed.
End controller.

(** ** Properties *)

(** Claim C5. From the wire to the registers, in either mode: when the headers of a TCP packet
    other than a FIN are captured, its source address is stored and not expired, its flow
    is new, fits in its table, has a port with a forwarding entry and a free id, then the
    packet handler sends one command, the flow database stores the flow under the least
    free id of the pipe, and the data plane thread installs an entry with exactly the
    tuple of the packet and the register index of a session: with sessions enabled, as by
    default, the session of the client and direction when there is one; otherwise a new
    one under the least free session id, which with sessions disabled is the flow's id. *)
Theorem packet_joins_session {sw} `{SwitchLaws sw} use_sessions DEVPORT_MAPPING owner session_owner egress bits
    (x : controller_t sw) m env D h ts port flags garbage fi payload st uuid g id l sid :
  ports_ok DEVPORT_MAPPING -> Forall (fun e => e = 0 \/ e = 1) egress ->
  mode_reachable use_sessions DEVPORT_MAPPING owner session_owner egress bits x m ->
  env_rep env (a_flows (md_db m)) D -> handler_rep st [] [] ->
  encodable h fi -> 0 <= ts < 2 ^ 48 -> 0 <= port < 2 ^ 16 -> 0 <= flags < 2 ^ 8 ->
  opens_flow (now_sec env) D h flags ->
  let ft := FiveTuple h (FiveTupleForSessionHash (dst_addr h) false) ts port garbage in
  mode_fits use_sessions owner session_owner g (md_db m) (PKT_ADD_FLOW ft) ->
  aget DEVPORT_MAPPING port <> -1 -> a_flows (md_db m) !! flow_key ft = None ->
  a_free_flows (md_db m) (pipe_of ft) = id :: l -> joins use_sessions ft (md_db m) sid ->
  exists st' x' dp ring,
    packet_handler garbage env (encode_packet h ts port flags fi payload) st = Ok st' /\
    handler_rep st' [PKT_ADD_FLOW ft] [] /\
    ct_step use_sessions DEVPORT_MAPPING (CtCommand (PKT_ADD_FLOW ft) uuid g) x = Ok x' /\
    dataplane_drain (ct_dp x') (dataplane_ringbuffer (ct_db x')) = Ok (dp, ring) /\ dp_status dp = SUCCESS /\
    entry_at (view (dp_switch dp)) (l3_proto h) (aget (entry_hdls dp) id) =
      Some (entry_of ft (flow_id_to_register_index sid)).
Proof.
  intros Hports Hbits Hx Henv Hst Hen Hts Hport Hflags Hopen ft Hfits Hmap Hnew Hfree Hj.
  destruct (opens_flow_handled env _ D h ts port flags garbage fi payload st Henv Hst Hen Hts Hport Hflags Hopen Hnew)
    as (st' & Ep & Hst').
  destruct (mode_reachable_inv _ _ _ _ _ _ Hports Hbits x m Hx) as (A & b & Hi).
  destruct (mode_command_inv _ _ _ _ _ Hports Hbits x m A b (PKT_ADD_FLOW ft) uuid g Hi Hfits) as (x' & Ex & _ & Hi').
  destruct (mode_drained _ _ _ _ x' _ A b Hi') as (dp & ring & Ed & Hs & [Hin _] & _).
  exists st', x', dp, ring. split; [exact Ep|split; [exact Hst'|split; [exact Ex|split; [exact Ed|split; [exact Hs|]]]]].
  destruct Hfits as ([Hroom (Ht & _)] & _).
  destruct (mode_add_joins use_sessions DEVPORT_MAPPING owner session_owner m g ft id l sid
              (mv_ids _ _ _ _ _ _ _ _ Hi) Ht Hmap Hnew Hfree Hj ltac:(lia)) as (Ek & <-).
  exact (Hin _ _ _ Ek).
Qed.

(** A controller with a flow of the client and its session. *)
Lemma started_mode us : exists x : controller_t model_sw,
  mode_reachable us sample_ports (fun _ => 0) (fun _ => 0) [0] no_bits x mode_initial.
Proof.
  destruct (flowdb_start_ok (fun _ => 0)) as (db & Es & _).
  exists (Controller db (dataplane_init (constant_switch 0) [sample_count])).
  eapply mode_start; [exact sample_prepared|]. unfold ct_start. by rewrite Es.
Qed.

Lemma sample_room us ft : session_room us ft initial_state.
Proof.
  intros _. right. unfold initial_state. cbn [a_free_sessions]. destruct (initial_free_cons (pipe_of ft)) as (id & l & ->).
  discriminate.
Qed.

Definition sample_new : five_tuple_t :=
  FiveTuple (sample_hash 1234 L4_TCP) (FiveTupleForSessionHash 0x0A000002 false) 7 5 0.

Lemma sample_mode_fits us : mode_fits us (fun _ => 0) (fun _ => 0) 17 initial_state (PKT_ADD_FLOW sample_new).
Proof.
  split; [|split].
  - split; [unfold initial_state; cbn [a_queue]; vm_compute; discriminate|].
    split; [split; [split; [discriminate|reflexivity]|reflexivity]|]. split; [by left|].
    split; [intros _; split; split; discriminate || reflexivity|].
    unfold fits, initial_state. cbn [a_flows]. rewrite map_filter_empty. reflexivity.
  - intros _. rewrite FEATURE_SIZE_val. lia.
  - split; [intros _; reflexivity|apply sample_room].
Qed.

(** In the default mode. *)
Lemma packet_joins_session_witness : exists env st' (x x' : controller_t model_sw) dp ring id sid,
  packet_handler 0 env (encode_packet (sample_hash 1234 L4_TCP) 7 5 TH_SYN sample_fillers4 []) empty_handler = Ok st' /\
  ct_step true sample_ports (CtCommand (PKT_ADD_FLOW sample_new) [] 17) x = Ok x' /\
  dataplane_drain (ct_dp x') (dataplane_ringbuffer (ct_db x')) = Ok (dp, ring) /\
  entry_at (view (dp_switch dp)) L3_IPV4 (aget (entry_hdls dp) id) =
    Some (entry_of sample_new (flow_id_to_register_index sid)).
Proof.
  destruct sample_env as (env & Henv & Hnow). destruct (started_mode true) as (x & Hx).
  destruct (initial_free_cons 0) as (id & l & El).
  destruct (packet_joins_session true sample_ports (fun _ => 0) (fun _ => 0) [0] no_bits x mode_initial env
              {[dns_key_bytes (toDnsHashtableKey 0x0A000001 L3_IPV4) := 100]} (sample_hash 1234 L4_TCP)
              7 5 TH_SYN 0 sample_fillers4 [] empty_handler [] 17 id l id)
    as (st' & x' & dp & ring & E1 & _ & E2 & E3 & _ & E4).
  - exact sample_ports_ok.
  - constructor; [by left|constructor].
  - exact Hx.
  - exact Henv.
  - exact empty_handler_rep.
  - apply sample_encodable. split; [discriminate|reflexivity].
  - split; [discriminate|reflexivity].
  - split; [discriminate|reflexivity].
  - split; [discriminate|reflexivity].
  - rewrite Hnow. apply sample_opens_flow. reflexivity.
  - exact (sample_mode_fits true).
  - vm_compute. discriminate.
  - apply lookup_empty.
  - exact El.
  - exists l. exact El.
  - exists env, st', x, x', dp, ring, id, id. split; [exact E1|]. split; [exact E2|]. split; [exact E3|exact E4].
Defined.

(** *** Timeouts with sessions enabled *)

(** What an addition does when there is a free flow id: the session of the key, or a new one. *)
Lemma fs_add_new DEVPORT_MAPPING ft x p id l sid l' :
  dev_port_to_pipe (dev_port ft) = p -> aget DEVPORT_MAPPING (dev_port ft) <> -1 ->
  a_flows (fs_db x) !! flow_key ft = None -> a_free_flows (fs_db x) p = id :: l ->
  a_sessions (fs_db x) !! session_of ft = None -> a_free_sessions (fs_db x) p = sid :: l' -> ~ dp_full (fs_db x) ->
  exists offset, let ft' := with_egress_offset ft offset in let s' := fs_db (fs_add DEVPORT_MAPPING ft x) in
    a_flows s' = <[flow_key ft := (ft', id)]> (a_flows (fs_db x)) /\
    a_sessions s' = <[session_of ft := (ft', sid)]> (a_sessions (fs_db x)) /\
    a_free_flows s' p = l /\ a_free_sessions s' p = l' /\
    a_queue s' = queue_send (a_queue (fs_db x)) (Some (DP_ADD_FLOW (MatchTableCmd ft' id sid))).
Proof.
  intros <- Hne Hk Hf Hs Hfs Hroom. eexists. cbv zeta. unfold fs_add. cbv zeta. rewrite (proj2 (Z.eqb_neq _ _) Hne), Hf, Hk.
  unfold fs_session. cbn [fs_db fs_counts a_sessions a_free_sessions spec_take_flow].
  set (ft' := with_egress_offset ft _). change (session_of ft') with (session_of ft). change (dev_port ft') with (dev_port ft).
  rewrite Hs, Hfs. cbn [fs_db]. unfold spec_send_add. rewrite decide_False by exact Hroom.
  cbn [a_flows a_sessions a_free_flows a_free_sessions a_queue spec_put spec_take_session spec_take_flow].
  by rewrite !fupd_eq, Hf, Hfs.
Qed.

Lemma fs_add_join DEVPORT_MAPPING ft x p id l y :
  dev_port_to_pipe (dev_port ft) = p -> aget DEVPORT_MAPPING (dev_port ft) <> -1 ->
  a_flows (fs_db x) !! flow_key ft = None -> a_free_flows (fs_db x) p = id :: l ->
  a_sessions (fs_db x) !! session_of ft = Some y -> ~ dp_full (fs_db x) ->
  exists offset, let ft' := with_egress_offset ft offset in let s' := fs_db (fs_add DEVPORT_MAPPING ft x) in
    a_flows s' = <[flow_key ft := (ft', id)]> (a_flows (fs_db x)) /\ a_sessions s' = a_sessions (fs_db x) /\
    a_free_flows s' p = l /\ a_free_sessions s' = a_free_sessions (fs_db x) /\
    a_queue s' = queue_send (a_queue (fs_db x)) (Some (DP_ADD_FLOW (MatchTableCmd ft' id (snd y)))).
Proof.
  intros <- Hne Hk Hf Hs Hroom. eexists. cbv zeta. unfold fs_add. cbv zeta. rewrite (proj2 (Z.eqb_neq _ _) Hne), Hf, Hk.
  unfold fs_session. cbn [fs_db fs_counts a_sessions a_free_sessions spec_take_flow].
  set (ft' := with_egress_offset ft _). change (session_of ft') with (session_of ft).
  rewrite Hs. cbn [fs_db]. unfold spec_send_add. rewrite decide_False by exact Hroom.
  cbn [a_flows a_sessions a_free_flows a_free_sessions a_queue spec_put spec_take_session spec_take_flow].
  by rewrite !fupd_eq, Hf.
Qed.

(** Claim C36. The ageing pass sends the id of an idle session as the id of the flow to remove. With
    sessions enabled the two ids are unrelated: when another client's flow has that
    number, the timeout removes this flow, active or not, and the idle session stays. *)
Theorem session_timeout_removes_other_flow {sw} `{SwitchLaws sw} DEVPORT_MAPPING owner session_owner egress bits
    (x : controller_t sw) m uuid garbage k ft k2 ft2 sid :
  ports_ok DEVPORT_MAPPING -> Forall (fun e => e = 0 \/ e = 1) egress ->
  mode_reachable true DEVPORT_MAPPING owner session_owner egress bits x m -> 0 <= garbage < FEATURE_SIZE ->
  a_sessions (md_db m) !! k = Some (ft, sid) -> a_flows (md_db m) !! k2 = Some (ft2, sid) -> session_of ft2 <> k ->
  Z.of_nat (length (a_queue (md_db m))) + 2 <= DATAPLANE_RINGBUFFER_SIZE ->
  exists x' x2 q, ct_step true DEVPORT_MAPPING (CtCommand (PKT_TIMEOUT_FLOW sid) uuid garbage) x = Ok x' /\
    fs_rep (ct_db x') x2 /\ a_flows (fs_db x2) = delete k2 (a_flows (md_db m)) /\
    a_sessions (fs_db x2) !! k = Some (ft, sid) /\
    a_queue (fs_db x2) = a_queue (md_db m) ++ DP_REMOVE_FLOW (MatchTableCmd ft2 sid 0) :: q.
Proof.
  intros Hports Hbits Hx Hg Hs Hf Hne Hroom.
  destruct (mode_reachable_inv _ _ _ _ _ _ Hports Hbits x m Hx) as (A & b & Hi).
  pose proof (fs_flows _ _ _ (mv_ids _ _ _ _ _ _ _ _ Hi)) as Hfl.
  destruct (io_owned _ _ _ Hfl _ _ Hf) as (Hp & Hid & _ & Hkey). cbn [fst snd] in *.
  destruct (mode_command_inv _ _ _ _ _ Hports Hbits x m A b (PKT_TIMEOUT_FLOW sid) uuid garbage Hi) as (x' & E & _ & Hi').
  { split; [|by split]. split; [exact Hroom|]. pose proof (pipe_id_range _ _ Hp Hid). lia. }
  pose proof (mv_rep _ _ _ _ _ _ _ _ Hi') as Hr. unfold mode_rep, mode_command in Hr. cbn [md_fs fs_command] in Hr.
  unfold md_db in *. rewrite (id_owner_intro _ _ _ _ (io_distinct _ _ _ Hfl) Hf) in Hr.
  exists x', (fs_remove garbage ft2 sid (md_fs m)). unfold fs_remove, fs_cleanup in *. cbn [fs_db fs_counts] in *.
  change (a_sessions (spec_unlink ft2 sid (fs_db (md_fs m)))) with (a_sessions (fs_db (md_fs m))) in *.
  assert (a_queue (spec_unlink ft2 sid (fs_db (md_fs m))) = a_queue (fs_db (md_fs m)) ++ [DP_REMOVE_FLOW (MatchTableCmd ft2 sid 0)]) as Eq
    by (apply queue_send_room; cbn; lia).
  assert (a_flows (spec_unlink ft2 sid (fs_db (md_fs m))) = delete k2 (a_flows (fs_db (md_fs m)))) as Ef by (unfold spec_unlink; cbn [a_flows spec_put spec_give_flow]; by rewrite <- Hkey).
  destruct (_ =? 0); [destruct (a_sessions (fs_db (md_fs m)) !! session_of ft2) as [y|]|]; cbn [fs_db] in *.
  - exists [DP_CLEAR_REGISTERS (MatchTableCmd ft2 0 (snd y))]. split; [exact E|]. split; [exact Hr|]. split; [exact Ef|].
    split; [by apply lookup_delete_Some|]. cbn [a_queue spec_put spec_give_session].
    rewrite queue_send_room by (rewrite Eq, length_app; cbn; lia). by rewrite Eq, <- app_assoc.
  - exists []. split; [exact E|]. split; [exact Hr|]. split; [exact Ef|]. split; [exact Hs|exact Eq].
  - exists []. split; [exact E|]. split; [exact Hr|]. split; [exact Ef|]. split; [exact Hs|exact Eq].
Qed.

(** A flow of the client [c]. *)
Definition client_flow (c port : Z) : five_tuple_t :=
  FiveTuple (FiveTupleForHash 0x0A000001 c port 443 L3_IPV4 L4_TCP) (FiveTupleForSessionHash c false) 7 5 0.

Lemma client_fits c port s :
  0 <= c < 2 ^ 32 -> (length (a_queue s) <= 10)%nat -> (size (a_flows s) <= 10)%nat -> session_room true (client_flow c port) s ->
  mode_fits true (fun _ => 0) (fun _ => 0) 17 s (PKT_ADD_FLOW (client_flow c port)).
Proof.
  intros Hc Hq Hs Hroom. assert (DATAPLANE_RINGBUFFER_SIZE = 4096) as Eq by reflexivity. split; [|split].
  - split; [lia|]. split; [split; [split; [discriminate|reflexivity]|reflexivity]|]. split; [by left|].
    split; [intros _; split; [split; [discriminate|reflexivity]|exact Hc]|].
    unfold fits. eapply Z.le_lt_trans; [apply inj_le, map_subseteq_size, map_filter_subseteq|].
    change (capacity (client_flow c port)) with 86014. lia.
  - intros _. rewrite FEATURE_SIZE_val. lia.
  - split; [intros _; reflexivity|exact Hroom].
Qed.

Lemma sample_add_step (x : controller_t model_sw) m ft :
  mode_reachable true sample_ports (fun _ => 0) (fun _ => 0) [0] no_bits x m ->
  mode_fits true (fun _ => 0) (fun _ => 0) 17 (md_db m) (PKT_ADD_FLOW ft) ->
  exists (x' : controller_t model_sw) m', mode_reachable true sample_ports (fun _ => 0) (fun _ => 0) [0] no_bits x' m' /\
    md_fs m' = fs_add sample_ports ft (md_fs m).
Proof.
  intros Hx Hf. assert (Forall (fun e => e = 0 \/ e = 1) [0]) as Hbits by (constructor; [by left|constructor]).
  destruct (mode_reachable_inv _ _ _ _ _ _ sample_ports_ok Hbits x m Hx) as (A & b & Hi).
  destruct (mode_command_inv _ _ _ _ _ sample_ports_ok Hbits x m A b (PKT_ADD_FLOW ft) [] 17 Hi Hf) as (x' & E & _ & _).
  exists x', (mode_command true sample_ports 17 (PKT_ADD_FLOW ft) m). split; [|reflexivity].
  exact (mode_step_command _ _ _ _ _ _ x m _ [] 17 x' Hx Hf E).
Qed.

(** Two flows of one client and one of another: the second flow and the second session
    have the same id. *)
Lemma two_clients_from (x0 : controller_t model_sw) m0 i1 i2 i3 l :
  mode_reachable true sample_ports (fun _ => 0) (fun _ => 0) [0] no_bits x0 m0 ->
  a_flows (md_db m0) = ∅ -> a_sessions (md_db m0) = ∅ -> a_queue (md_db m0) = [] ->
  a_free_flows (md_db m0) 0 = i1 :: i2 :: i3 :: l -> a_free_sessions (md_db m0) 0 = i1 :: i2 :: i3 :: l ->
  exists (x : controller_t model_sw) m ft o,
    mode_reachable true sample_ports (fun _ => 0) (fun _ => 0) [0] no_bits x m /\
    a_sessions (md_db m) !! session_of (client_flow 3 1234) = Some (ft, i2) /\
    a_flows (md_db m) !! flow_key (client_flow 2 4321) = Some (with_egress_offset (client_flow 2 4321) o, i2) /\
    (length (a_queue (md_db m)) <= 10)%nat.
Proof.
  intros Hx0 F0 S0 Q0 FF0 FS0. unfold md_db in *.
  assert (forall q c, (length q < 10)%nat -> queue_send q (Some c) = q ++ [c]) as Hsend
    by (intros q c Hq; apply queue_send_room; assert (DATAPLANE_RINGBUFFER_SIZE = 4096) as -> by reflexivity; lia).
  assert (forall s, (length (a_queue s) <= 10)%nat -> ~ dp_full s) as Hnf
    by (intros s Hq; unfold dp_full; assert (DATAPLANE_RINGBUFFER_SIZE = 4096) as -> by reflexivity; lia).
  assert (aget sample_ports 5 <> -1) as H5 by (vm_compute; discriminate).
  destruct (sample_add_step x0 m0 (client_flow 2 1234) Hx0) as (x1 & m1 & Hx1 & E1).
  { unfold md_db. apply client_fits; [lia|rewrite Q0; cbn; lia|rewrite F0, map_size_empty; lia|intros _; right].
    change (pipe_of (client_flow 2 1234)) with 0. by rewrite FS0. }
  destruct (fs_add_new sample_ports (client_flow 2 1234) (md_fs m0) 0 i1 (i2 :: i3 :: l) i1 (i2 :: i3 :: l))
    as (o1 & F1 & S1 & FF1 & FS1 & Q1).
  { reflexivity. } { exact H5. } { by rewrite F0, lookup_empty. } { exact FF0. } { by rewrite S0, lookup_empty. } { exact FS0. }
  { apply Hnf. rewrite Q0. cbn. lia. }
  rewrite <- E1 in *. rewrite F0 in F1. rewrite S0 in S1. rewrite Q0, Hsend in Q1 by (cbn; lia).
  assert (a_sessions (fs_db (md_fs m1)) !! session_of (client_flow 2 4321) = Some (with_egress_offset (client_flow 2 1234) o1, i1)) as Es2
    by (rewrite S1; apply lookup_insert_eq).
  destruct (sample_add_step x1 m1 (client_flow 2 4321) Hx1) as (x2 & m2 & Hx2 & E2).
  { unfold md_db. apply client_fits; [lia|rewrite Q1; cbn; lia| |intros _; left; rewrite Es2; eauto].
    rewrite F1, map_size_insert_None, map_size_empty by apply lookup_empty. lia. }
  destruct (fs_add_join sample_ports (client_flow 2 4321) (md_fs m1) 0 i2 (i3 :: l) (with_egress_offset (client_flow 2 1234) o1, i1))
    as (o2 & F2 & S2 & FF2 & FS2 & Q2).
  { reflexivity. } { exact H5. } { rewrite F1, lookup_insert_ne by (vm_compute; discriminate). apply lookup_empty. } { exact FF1. }
  { exact Es2. } { apply Hnf. rewrite Q1. cbn. lia. }
  rewrite <- E2 in *. rewrite F1 in F2. rewrite S1 in S2.  rewrite Q1, Hsend in Q2 by (cbn; lia).
  assert (a_sessions (fs_db (md_fs m2)) !! session_of (client_flow 3 1234) = None) as Es3
    by (rewrite S2, lookup_insert_ne by (vm_compute; discriminate); apply lookup_empty).
  destruct (sample_add_step x2 m2 (client_flow 3 1234) Hx2) as (x3 & m3 & Hx3 & E3).
  { unfold md_db. apply client_fits; [lia|rewrite Q2; cbn; lia| |intros _; right].
    - rewrite F2, map_size_insert, (map_size_insert_None (flow_key (client_flow 2 1234))), map_size_empty by apply lookup_empty.
      case_match; unfold Datatypes.id; lia.
    - change (pipe_of (client_flow 3 1234)) with 0. by rewrite FS2, FS1. }
  destruct (fs_add_new sample_ports (client_flow 3 1234) (md_fs m2) 0 i3 l i2 (i3 :: l)) as (o3 & F3 & S3 & _ & _ & Q3).
  { reflexivity. } { exact H5. }
  { rewrite F2, !lookup_insert_ne by (vm_compute; discriminate). apply lookup_empty. } { exact FF2. } { exact Es3. }
  { by rewrite FS2, FS1. } { apply Hnf. rewrite Q2. cbn. lia. }
  rewrite <- E3 in *. exists x3, m3, (with_egress_offset (client_flow 3 1234) o3), o2.
  split; [exact Hx3|]. split; [rewrite S3; apply lookup_insert_eq|]. split.
  - rewrite F3, lookup_insert_ne by (vm_compute; discriminate). rewrite F2. apply lookup_insert_eq.
  - rewrite Q3, Q2, Hsend by (cbn; lia). cbn. lia.
Qed.

Lemma two_clients : exists (x : controller_t model_sw) m ft o sid,
  mode_reachable true sample_ports (fun _ => 0) (fun _ => 0) [0] no_bits x m /\
  a_sessions (md_db m) !! session_of (client_flow 3 1234) = Some (ft, sid) /\
  a_flows (md_db m) !! flow_key (client_flow 2 4321) = Some (with_egress_offset (client_flow 2 4321) o, sid) /\
  (length (a_queue (md_db m)) <= 10)%nat.
Proof.
  destruct (started_mode true) as (x0 & Hx0).
  assert (exists i1 i2 i3 l, initial_free 0 = i1 :: i2 :: i3 :: l) as (i1 & i2 & i3 & l & El).
  { pose proof (initial_free_length 0) as Hl. unfold HEAPSIZE, MAX_FLOWS in Hl.
    destruct (initial_free 0) as [|i1 [|i2 [|i3 l]]]; [cbn in Hl; lia..|by exists i1, i2, i3, l]. }
  destruct (two_clients_from x0 mode_initial i1 i2 i3 l Hx0 eq_refl eq_refl eq_refl El El) as (x & m & ft & o & H').
  exists x, m, ft, o, i2. exact H'.
Qed.

(** The session of the second client is idle; the removed flow is the first client's. *)
Lemma session_timeout_removes_other_flow_witness : exists (x x' : controller_t model_sw) m x2 ft o sid,
  a_sessions (md_db m) !! session_of (client_flow 3 1234) = Some (ft, sid) /\
  a_flows (md_db m) !! flow_key (client_flow 2 4321) = Some (with_egress_offset (client_flow 2 4321) o, sid) /\
  ct_step true sample_ports (CtCommand (PKT_TIMEOUT_FLOW sid) [] 17) x = Ok x' /\ fs_rep (ct_db x') x2 /\
  a_flows (fs_db x2) = delete (flow_key (client_flow 2 4321)) (a_flows (md_db m)) /\
  a_sessions (fs_db x2) !! session_of (client_flow 3 1234) = Some (ft, sid).
Proof.
  destruct two_clients as (x & m & ft & o & sid & Hx & Hs & Hf & Hq).
  destruct (session_timeout_removes_other_flow sample_ports (fun _ => 0) (fun _ => 0) [0] no_bits x m [] 17
              (session_of (client_flow 3 1234)) ft (flow_key (client_flow 2 4321))
              (with_egress_offset (client_flow 2 4321) o) sid) as (x' & x2 & q & E & Hr & Ef & Es & _).
  - exact sample_ports_ok.
  - constructor; [by left|constructor].
  - exact Hx.
  - rewrite FEATURE_SIZE_val. lia.
  - exact Hs.
  - exact Hf.
  - intros E. vm_compute in E. discriminate E.
  - assert (DATAPLANE_RINGBUFFER_SIZE = 4096) as -> by reflexivity. lia.
  - exists x, x', m, x2, ft, o, sid. split; [exact Hs|]. split; [exact Hf|]. split; [exact E|]. split; [exact Hr|].
    split; [exact Ef|exact Es].
Defined.
