(* ===== verification/System.v ===== *)
(** * All threads ([controller.c])

    The state that the threads of [low_level_controller] share, and one step of any of
    them: the packet handler on a captured packet, one command of the flow database, of
    the data plane thread or of the DNS database, a round of the exporter, and one index
    of the maintenance of the Bloom filter. Whatever the order of the steps, each does to
    the shared state what the specification says. The registers of [features.c] with their
    totals are part of it: a round of the exporter advances them by what it reads,
    DP_CLEAR_REGISTERS clears the totals of one id, and the exported lines show exactly
    these totals. *)

From S2P Require Import Prelude Structs Ringbuffer IdTable FlowTable SessionTable BloomFilter FlowDb FlowDbSessions.
From S2P Require Import DpApi Features Dataplane DnsTable PacketHandler DnsDb Export Controller Modes.

(** ** State and steps *)

(** The flow database and the data plane thread with what they share, the packet and the
    DNS ring buffer, the DNS table, the array of [features.c], the command of the
    maintenance thread, and what was written to the two pipes. *)
Record system_t (sw : Type) : Type := System {
  sy_controller : controller_t sw;
  sy_rings : handler_t;
  sy_dns : dns_hashtable_t;
  sy_last_flow_update : arr Z;
  sy_command : bloom_command;
  sy_dns_pipe : list dns_line;
  sy_feature_pipe : list (list field) }.
Arguments System {sw} _ _ _ _ _ _ _.
Arguments sy_controller {sw} _.
Arguments sy_rings {sw} _.
Arguments sy_dns {sw} _.
Arguments sy_last_flow_update {sw} _.
Arguments sy_command {sw} _.
Arguments sy_dns_pipe {sw} _.
Arguments sy_feature_pipe {sw} _.

(** A step and its inputs: the clock, the captured packet, the text of libuuid, the random
    numbers, and the values of uninitialised variables. *)
Inductive sys_event : Type :=
  | SysPacket (now garbage : Z) (packet : list Z)
  | SysFlowdb (uuid : list Z) (garbage : Z)
  | SysDataplane
  | SysDns (now : Z)
  | SysExport (now : timespec) (sec : Z)
  | SysMaintenance (pipe index : Z) (random : Z -> Z -> Z).

Section step.
Context {sw : Type} `{Switch sw} `{Resolver}.
Context (use_sessions DEBUG : bool) (inet_ntop : Z -> list Z -> list Z) (DEVPORT_MAPPING : arr Z).
Implicit Types (x : system_t sw).

Definition with_controller c x : system_t sw :=
  System c (sy_rings x) (sy_dns x) (sy_last_flow_update x) (sy_command x) (sy_dns_pipe x) (sy_feature_pipe x).
Definition with_rings r x : system_t sw :=
  System (sy_controller x) r (sy_dns x) (sy_last_flow_update x) (sy_command x) (sy_dns_pipe x) (sy_feature_pipe x).
Definition with_dns t pipe x : system_t sw :=
  System (sy_controller x) (sy_rings x) t (sy_last_flow_update x) (sy_command x) pipe (sy_feature_pipe x).

Definition packet_step (now garbage : Z) (packet : list Z) x : res (system_t sw) :=
  let env := HandlerEnv (flow_hashtable (ct_db (sy_controller x))) (sy_dns x) now in
  let! rings := packet_handler garbage env packet (sy_rings x) in
  Ok (with_rings rings x).

(** The body of the inner loop of [flowdb_thread]. *)
Definition flowdb_step (uuid : list Z) (garbage : Z) x : res (system_t sw) :=
  let! '(_, command, ring) := ringbuffer_get PACKET_RINGBUFFER_SIZE (h_packets (sy_rings x)) in
  let x := with_rings (Handler ring (h_dns (sy_rings x))) x in
  match command with
  | Some command =>
      let! c := ct_step use_sessions DEVPORT_MAPPING (CtCommand command uuid garbage) (sy_controller x) in
      Ok (with_controller c x)
  | None => Ok x
  end.

Definition dataplane_step x : res (system_t sw) :=
  let! c := ct_step use_sessions DEVPORT_MAPPING CtDataplane (sy_controller x) in
  Ok (with_controller c x).

(** The body of the inner loop of [dns_db_thread]. *)
Definition dns_step (now : Z) x : res (system_t sw) :=
  let! '(_, item, ring) := ringbuffer_get DNS_RINGBUFFER_SIZE (h_dns (sy_rings x)) in
  let x := with_rings (Handler (h_packets (sy_rings x)) ring) x in
  match item with
  | Some item =>
      let! '(t, pipe) := dns_command inet_ntop now item (sy_dns x, sy_dns_pipe x) in
      Ok (with_dns t pipe x)
  | None => Ok x
  end.

(** A round of [feature_export_thread] after its waiting loop. *)
Definition export_step (now : timespec) (sec : Z) x : res (system_t sw) :=
  let c := sy_controller x in
  let dp := ct_dp c in
  let! '(s, f, lines) :=
    export_round DEBUG (fun af a => inet_ntop af (le_bytes 16 a)) sec now (session_hashtable (ct_db c))
      (dp_switch dp) (Features (dp_features dp) (sy_last_flow_update x) (h_packets (sy_rings x))) in
  Ok (System (Controller (ct_db c) (Dataplane s (entry_hdls dp) (features f) (dp_status dp)))
        (Handler (packet_ringbuffer f) (h_dns (sy_rings x))) (sy_dns x) (last_flow_update f)
        (sy_command x) (sy_dns_pipe x) (sy_feature_pipe x ++ lines)).

Definition maintenance_step (pipe index : Z) (random : Z -> Z -> Z) x : res (system_t sw) :=
  let db := ct_db (sy_controller x) in
  let! '(b, command, ring) :=
    maintenance_index pipe random index (bloom_filter db, sy_command x, dataplane_ringbuffer db) in
  Ok (System (Controller (with_bloom_filter b (with_dataplane_ringbuffer ring db)) (ct_dp (sy_controller x)))
        (sy_rings x) (sy_dns x) (sy_last_flow_update x) command (sy_dns_pipe x) (sy_feature_pipe x)).

Definition sys_step (e : sys_event) x : res (system_t sw) :=
  match e with
  | SysPacket now garbage packet => packet_step now garbage packet x
  | SysFlowdb uuid garbage => flowdb_step uuid garbage x
  | SysDataplane => dataplane_step x
  | SysDns now => dns_step now x
  | SysExport now sec => export_step now sec x
  | SysMaintenance pipe index random => maintenance_step pipe index random x
  end.

Definition sys_run (es : list sys_event) x : res (system_t sw) := foldM sys_step es x.

(** The start of the threads: the structures are initialised, [prepare_features] has
    prepared the registers [rs]; the DNS table is given. *)
Definition sys_start (s : sw) (rs : list feature_register_t) (dns : dns_hashtable_t) : res (system_t sw) :=
  let! c := ct_start s rs in
  Ok (System c empty_handler dns (amake FEATURE_SIZE 0) empty_bloom_command [] []).
End step.

(** ** Specification *)

(** The abstract state: that of the flow database, the two queues, the stored addresses,
    the registers of [features.c] with their totals, and the lines of the exporter. *)
Record sys_state : Type := SysState {
  ss_mode : mode_state;
  ss_packets : list packet_item_t;
  ss_items : list dns_item_t;
  ss_dns : dns_map;
  ss_registers : list feature_register_t;
  ss_lines : list (list field) }.

Definition ss_db (σ : sys_state) : fd_state := md_db (ss_mode σ).
Definition with_db db σ :=
  SysState (with_md_db db (ss_mode σ)) (ss_packets σ) (ss_items σ) (ss_dns σ) (ss_registers σ) (ss_lines σ).
Definition with_registers rs σ := SysState (ss_mode σ) (ss_packets σ) (ss_items σ) (ss_dns σ) rs (ss_lines σ).

Definition sys_initial (D : dns_map) (rs : list feature_register_t) : sys_state := SysState mode_initial [] [] D rs [].

(** One register after a round of the exporter: what was the current buffer is the previous
    one, and every total grew by the difference of the two buffers modulo 2^32. What was
    read into the current buffer is the input of the round. *)
Definition register_advanced (r r' : feature_register_t) : Prop :=
  register_wf r' /\ table_hdl r' = table_hdl r /\ process_register r' = process_register r /\
  on_egress r' = on_egress r /\ previous r' = current r /\
  accumulated_on feature_ids (values r) (current r') (previous r') (values r').

Section specification.
Context {sizes : TableSizes} (use_sessions DEBUG : bool) (inet_ntop : Z -> list Z -> list Z) (DEVPORT_MAPPING : arr Z).
Context (owner session_owner : list Z -> Z).

(** A packet sends the commands of its classification. *)
Definition packet_spec (now garbage : Z) (packet : list Z) (σ σ' : sys_state) : Prop :=
  exists r, parse_headers garbage packet = Ok r /\
    match r with
    | None => σ' = σ
    | Some p =>
        let ft := spec_session (ss_dns σ) (pa_ft p) in
        let known := bool_decide (is_Some (a_flows (ss_db σ) !! flow_key ft)) in
        let r := spec_commands known now (ss_dns σ) ft (th_flags (pa_l4 p)) in
        σ' = SysState (ss_mode σ) (queue_puts PACKET_RINGBUFFER_SIZE (ss_packets σ) r.1)
               (queue_puts DNS_RINGBUFFER_SIZE (ss_items σ) r.2) (ss_dns σ) (ss_registers σ) (ss_lines σ)
    end.

(** The flow database executes the oldest command. *)
Definition flowdb_spec (garbage : Z) (σ σ' : sys_state) : Prop :=
  match ss_packets σ with
  | [] => σ' = σ
  | c :: q =>
      σ' = SysState (mode_command use_sessions DEVPORT_MAPPING garbage c (ss_mode σ)) q
             (ss_items σ) (ss_dns σ) (ss_registers σ) (ss_lines σ)
  end.

(** The data plane thread takes the oldest command; DP_CLEAR_REGISTERS clears the totals of
    one id. *)
Definition dataplane_spec (σ σ' : sys_state) : Prop :=
  exists rs, command_registers (List.hd_error (a_queue (ss_db σ))) (ss_registers σ) rs /\
    σ' = with_registers rs (with_db (set_queue (List.tl (a_queue (ss_db σ))) (ss_db σ)) σ).

(** The DNS database forgets an expired address. *)
Definition dns_spec (σ σ' : sys_state) : Prop :=
  match ss_items σ with
  | [] => σ' = σ
  | DNS_REMOVE_IP key :: q =>
      σ' = SysState (ss_mode σ) (ss_packets σ) q (delete (dns_key_bytes key) (ss_dns σ)) (ss_registers σ) (ss_lines σ)
  | DNS_ADD_PKT _ _ :: _ => False
  end.

(** A round of the exporter advances the registers, sends the timeouts of stored sessions,
    no session twice, and writes a line for each stored session with its count and the
    totals of the advanced registers. *)
Definition export_spec (now : timespec) (σ σ' : sys_state) : Prop :=
  exists ids fc rs,
    Forall2 register_advanced (ss_registers σ) rs /\
    NoDup ids /\ Forall (fun id => exists k ft, a_sessions (ss_db σ) !! k = Some (ft, id)) ids /\
    alen fc = FEATURE_SIZE /\ (use_sessions = true -> fc = fs_counts (md_fs (ss_mode σ))) /\ Forall exportable rs /\
    σ' = SysState (ss_mode σ) (ss_packets σ ++ (PKT_TIMEOUT_FLOW <$> ids)) (ss_items σ) (ss_dns σ) rs
           (ss_lines σ ++ print_header DEBUG now rs ++
            session_lines DEBUG (fun af a => inet_ntop af (le_bytes 16 a)) fc rs (a_sessions (ss_db σ)) feature_ids ++ [[]]).

(** The maintenance takes one off the drawn counters and sends one command when a counter
    became 0; on a full queue it restores counters instead. *)
Definition maintenance_spec (pipe index : Z) (random : Z -> Z) (σ σ' : sys_state) : Prop :=
  let s := ss_db σ in
  let hit := existsb (zeroed (a_bloom s) pipe index random) all_filters in
  exists b1 b' indices,
    aged (a_bloom s) pipe index random all_filters b1 /\
    (if hit && bool_decide (dp_full s) then restored b1 pipe indices all_filters b' else b' = b1) /\
    σ' = with_db (FdState (a_flows s) (a_sessions s) (a_free_flows s) (a_free_sessions s)
           (queue_send (a_queue s)
              (if hit then Some (DP_REMOVE_BLOOM_FILTER (BloomFilterCmd indices pipe)) else None)) b') σ.

Definition sys_spec (e : sys_event) (σ σ' : sys_state) : Prop :=
  match e with
  | SysPacket now garbage packet => packet_spec now garbage packet σ σ'
  | SysFlowdb _ garbage => flowdb_spec garbage σ σ'
  | SysDataplane => dataplane_spec σ σ'
  | SysDns _ => dns_spec σ σ'
  | SysExport now _ => export_spec now σ σ'
  | SysMaintenance pipe index random => maintenance_spec pipe index (random index) σ σ'
  end.

Fixpoint sys_specs (σ : sys_state) (es : list sys_event) (σ' : sys_state) : Prop :=
  match es with
  | [] => σ' = σ
  | e :: es => exists σ1, sys_spec e σ σ1 /\ sys_specs σ1 es σ'
  end.

(** What the steps may assume. A packet is not in the DNS branch, which reads beyond it,
    and arrives on a port of the pipe of its flow; a FIN has by chance an offset that
    leads to a pipe. The flow database runs while there is room for the commands of its
    next one, and a new flow fits in its table. With sessions enabled the packets of a
    session arrive on one pipe, a new flow finds a session or a free id for one, and the
    indeterminate index lies inside of the counts. *)
Definition sys_admissible (σ : sys_state) (e : sys_event) : Prop :=
  match e with
  | SysPacket _ garbage packet =>
      forall p, parse_headers garbage packet = Ok (Some p) ->
        is_dns p = false /\ tuple_ok owner (pa_ft p) /\
        (Z.land (th_flags (pa_l4 p)) TH_FIN <> 0 -> offset_ok (pa_ft p)) /\
        mode_tuple use_sessions session_owner (spec_session (ss_dns σ) (pa_ft p))
  | SysFlowdb _ garbage =>
      Z.of_nat (length (a_queue (ss_db σ))) + 2 <= DATAPLANE_RINGBUFFER_SIZE /\
      (use_sessions = true -> 0 <= garbage < FEATURE_SIZE) /\
      forall ft, ss_packets σ !! 0%nat = Some (PKT_ADD_FLOW ft) ->
        fits ft (a_flows (ss_db σ)) /\ session_room use_sessions ft (ss_db σ)
  | SysMaintenance pipe index _ => 0 <= pipe < NUM_PIPES /\ 0 <= index < BLOOMFILTER_WIDTH
  | SysDataplane | SysDns _ | SysExport _ _ => True
  end.

(** Every step of the sequence is admissible, whatever the earlier ones left open. *)
Fixpoint sys_paced (σ : sys_state) (es : list sys_event) : Prop :=
  match es with
  | [] => True
  | e :: es => sys_admissible σ e /\ forall σ1, sys_spec e σ σ1 -> sys_paced σ1 es
  end.
End specification.

(** The concrete state stands for the abstract one. *)
Record sys_rep (use_sessions : bool) {sw} (x : system_t sw) (σ : sys_state) : Prop := SysRep {
  sr_db : mode_rep use_sessions (ct_db (sy_controller x)) (ss_mode σ);
  sr_rings : handler_rep (sy_rings x) (ss_packets σ) (ss_items σ);
  sr_dns : dns_rep (sy_dns x) (ss_dns σ);
  sr_registers : dp_features (ct_dp (sy_controller x)) = ss_registers σ;
  sr_lines : sy_feature_pipe x = ss_lines σ }.

(** ** Proofs *)

#[local] Opaque FEATURE_SIZE flowdb_command dataplane_command packet_handler ringbuffer_get dns_command
  export_round maintenance_index ct_step dns_key_bytes.

(** *** Pending commands *)

(** What waits in the packet ring buffer. *)
Definition pending_ok (use_sessions : bool) (owner session_owner : list Z -> Z) (c : packet_item_t) : Prop :=
  match c with
  | PKT_ADD_FLOW ft => (tuple_ok owner ft /\ proto_ok ft /\ addr_ok ft) /\ mode_tuple use_sessions session_owner ft
  | PKT_REMOVE_FLOW ft => (tuple_ok owner ft /\ proto_ok ft /\ offset_ok ft) /\ mode_tuple use_sessions session_owner ft
  | PKT_ADD_BLOOM_FILTER_IRRELEVANT ft | PKT_FIX_BLOOM_FILTER_RELEVANT ft => markable ft
  | PKT_TIMEOUT_FLOW id => 0 <= id < FEATURE_SIZE
  | PKT_REMOVE_BLOOM_FILTER _ => True
  end.

Definition is_removal (item : dns_item_t) : Prop :=
  match item with DNS_REMOVE_IP _ => True | DNS_ADD_PKT _ _ => False end.

Lemma queue_puts_Forall {A} (P : A -> Prop) size (q items : list A) :
  Forall P q -> Forall P items -> Forall P (queue_puts size q items).
Proof.
  rewrite !Forall_forall. intros Hq Hi x [Hx|Hx]%queue_puts_elem; auto.
Qed.

Lemma pending_fits {sizes : TableSizes} us owner session_owner garbage s c :
  pending_ok us owner session_owner c -> Z.of_nat (length (a_queue s)) + 2 <= DATAPLANE_RINGBUFFER_SIZE ->
  (us = true -> 0 <= garbage < FEATURE_SIZE) ->
  (forall ft, c = PKT_ADD_FLOW ft -> fits ft (a_flows s) /\ session_room us ft s) ->
  mode_fits us owner session_owner garbage s c.
Proof.
  intros Hc Hq Hg Hf. unfold mode_fits, command_fits.
  destruct c as [ft|ft|ft|ft|ft|id]; cbn in *; try tauto. destruct (Hf ft eq_refl). tauto.
Qed.

(** The session part does not matter. *)
Lemma spec_session_ok owner D ft :
  tuple_ok owner ft -> proto_ok ft -> addr_ok ft ->
  tuple_ok owner (spec_session D ft) /\ proto_ok (spec_session D ft) /\ addr_ok (spec_session D ft) /\
  (offset_ok ft -> offset_ok (spec_session D ft)).
Proof. intros Ht Hp Ha. unfold spec_session. repeat case_match; auto. Qed.

Lemma tuple_markable owner ft : tuple_ok owner ft -> proto_ok ft -> markable ft.
Proof.
  intros [Hd _] Hp. split; [exact Hd|]. unfold get_hashes.
  destruct Hp as [-> | ->]; eexists; reflexivity.
Qed.

Lemma relevance_removals now D address proto : Forall is_removal (relevance now D address proto).2.
Proof. unfold relevance. repeat case_match; repeat constructor. Qed.

Lemma heuristic_removals now D h : Forall is_removal (spec_heuristic now D h).2.
Proof.
  unfold spec_heuristic. pose proof (relevance_removals now D (src_addr h) (l3_proto h)) as H1.
  pose proof (relevance_removals now D (dst_addr h) (l3_proto h)) as H2.
  destruct (relevance now D (src_addr h) _) as [[] l1]; [exact H1|].
  destruct (relevance now D (dst_addr h) _) as [b l2]. by apply Forall_app.
Qed.

Lemma spec_commands_pending us owner session_owner known now D ft flags :
  tuple_ok owner ft -> proto_ok ft -> addr_ok ft -> (Z.land flags TH_FIN <> 0 -> offset_ok ft) -> mode_tuple us session_owner ft ->
  let r := spec_commands known now D ft flags in
  Forall (pending_ok us owner session_owner) r.1 /\ Forall is_removal r.2.
Proof.
  intros Ht Hp Had Ho Hs. pose proof (tuple_markable owner ft Ht Hp) as Hm.
  pose proof (heuristic_removals now D (ft_h ft)) as Hh. unfold spec_commands. cbv zeta.
  destruct (_ && _ && known); [by split|].
  destruct ((l4_proto (ft_h ft) =? L4_TCP) && negb (Z.land flags TH_FIN =? 0)) eqn:Ef.
  - apply andb_true_iff in Ef as [_ Ef]. apply negb_true_iff, Z.eqb_neq in Ef.
    split; [|constructor]. apply Forall_singleton. split; [|exact Hs]. split; [exact Ht|]. split; [exact Hp|]. by apply Ho.
  - destruct (spec_heuristic now D (ft_h ft)) as [b items]. split; [|exact Hh].
    destruct b; [apply Forall_cons_2; [by split_and!|]|]; (destruct (_ =? L4_UDP); [by apply Forall_singleton|constructor]).
Qed.

(** *** Invariant *)

Section system.
Context {sw : Type} {switch : Switch sw} {sizes : TableSizes} {laws : SwitchLaws sw} `{Resolver}.
Context (use_sessions DEBUG : bool) (inet_ntop : Z -> list Z -> list Z) (DEVPORT_MAPPING : arr Z).
Context (owner session_owner : list Z -> Z).
Context (egress : list Z) (ports : ports_ok DEVPORT_MAPPING) (egress_bits : Forall (fun e => e = 0 \/ e = 1) egress).
Implicit Types (x : system_t sw) (σ : sys_state).

Notation step := (sys_step use_sessions DEBUG inet_ntop DEVPORT_MAPPING).
Notation spec := (sys_spec use_sessions DEBUG inet_ntop DEVPORT_MAPPING).
Notation admissible := (sys_admissible use_sessions owner session_owner).

Definition processing (st : dataplane_t sw) : list process_fn := process_register <$> dp_features st.
Definition static_processing : list process_fn := PROCESS_AND_AGE_FEATURE :: repeat PROCESS_FEATURE 6.

Record sys_inv x σ : Prop := SysInv {
  sv_rep : sys_rep use_sessions x σ;
  sv_controller : exists A b, mode_inv use_sessions owner session_owner egress (sy_controller x) (ss_mode σ) A b;
  sv_packets : Forall (pending_ok use_sessions owner session_owner) (ss_packets σ);
  sv_items : Forall is_removal (ss_items σ);
  sv_dns : Z.of_nat (size (ss_dns σ)) < DNS_HASHTABLE_SIZE;
  sv_processing : processing (ct_dp (sy_controller x)) = static_processing;
  sv_update : alen (sy_last_flow_update x) = FEATURE_SIZE;
  sv_command : indices_wf (bc_indices (sy_command x)) /\ bc_send (sy_command x) = false }.

(** A step leads to a state of the specification where the invariant holds. *)
Definition simulated (e : sys_event) x σ : Prop :=
  exists x' σ', step e x = Ok x' /\ spec e σ σ' /\ sys_inv x' σ'.

Lemma packet_simulated now garbage packet x σ :
  sys_inv x σ -> admissible σ (SysPacket now garbage packet) ->
  simulated (SysPacket now garbage packet) x σ.
Proof using.
  intros Hi Ha. destruct Hi as [Hrep Hct Hp Hq Hd Hpr Hu Hc]. pose proof Hrep as [Hdb Hrings Hdns Hrs Hl].
  unfold simulated. cbn [sys_step sys_spec]. unfold packet_step, packet_spec.
  set (env := HandlerEnv (flow_hashtable (ct_db (sy_controller x))) (sy_dns x) now).
  destruct (mode_db_rep _ _ _ Hdb) as [S HdbS].
  assert (env_rep env (a_flows (ss_db σ)) (ss_dns σ)) as Henv by (split; [exact (fd_flows _ _ HdbS)|exact Hdns|exact Hd]).
  destruct (packet_handler_ok garbage env _ _ packet _ _ _ Henv Hrings) as (r & Er & Hr).
  destruct (parse_headers_ok garbage packet) as (r0 & Er0 & Hproto). rewrite Er in Er0. injection Er0 as <-.
  destruct r as [p|].
  - destruct (Ha p Er) as (Hnd & Ht & Ho & Hms). specialize (Hr Hnd). cbn zeta in Hr.
    destruct (Hproto p eq_refl) as (_ & _ & Hl3 & _).
    assert (proto_ok (pa_ft p)) as Hpo by (unfold proto_ok; tauto).
    destruct (spec_session_ok owner (ss_dns σ) (pa_ft p) Ht Hpo (parse_headers_addresses _ _ _ Er)) as (Ht' & Hpo' & Had' & Ho').
    change (h_bytes (ft_h (spec_session (ss_dns σ) (pa_ft p)))) with (flow_key (spec_session (ss_dns σ) (pa_ft p))) in Hr.
    set (known := bool_decide _) in Hr.
    destruct (spec_commands_pending use_sessions owner session_owner known now (ss_dns σ)
                (spec_session (ss_dns σ) (pa_ft p)) (th_flags (pa_l4 p)) Ht' Hpo' Had')
      as [Hcs His]; [by intros ?%Ho; apply Ho'|exact Hms|]. cbn [now_sec env] in Hr.
    destruct (spec_commands _ _ _ _ _) as [commands items] eqn:Ec. destruct Hr as (rings & Eh & Hr').
    rewrite Eh. cbn [rbind]. eexists _, _. split; [reflexivity|]. split.
    + exists (Some p). split; [exact Er|]. fold known. rewrite Ec. reflexivity.
    + split; [by split| |by apply queue_puts_Forall|by apply queue_puts_Forall|done|done|done|done]. exact Hct.
  - rewrite Hr. cbn [rbind]. eexists _, _. split; [reflexivity|]. split; [by exists None|].
    split; [by split|done|done|done|done|done|done|done].
Qed.

Lemma flowdb_simulated uuid garbage x σ :
  sys_inv x σ -> admissible σ (SysFlowdb uuid garbage) -> simulated (SysFlowdb uuid garbage) x σ.
Proof using ports egress_bits.
  intros Hi (Hroom & Hg & Hfit). destruct Hi as [Hrep (A & b & Hct) Hp Hq Hd Hpr Hu Hc]. pose proof Hrep as [Hdb [Hrp Hrd] Hdns Hrs Hl].
  unfold simulated. cbn [sys_step sys_spec]. unfold flowdb_step, flowdb_spec.
  destruct (get_rep _ (proj1 ringbuffer_sizes) _ _ Hrp) as (ring & -> & Hring).
  destruct (ss_packets σ) as [|c q] eqn:Eq; cbn [queue_get fst snd rbind] in *.
  - eexists _, _. split; [reflexivity|]. split; [reflexivity|].
    split; [split; rewrite ?Eq; try done; by split|by exists A, b|by rewrite Eq|done|done|done|done|done].
  - apply Forall_cons in Hp as [Hpc Hp].
    assert (mode_fits use_sessions owner session_owner garbage (ss_db σ) c) as Hf
      by (apply pending_fits; [done|done|exact Hg|intros ft ->; by apply Hfit]).
    destruct (mode_command_inv _ _ _ _ _ ports egress_bits _ _ A b c uuid garbage Hct Hf) as (c' & E & Edp & Hct').
    cbn [sy_controller with_rings]. rewrite E. cbn [rbind]. eexists _, _. split; [reflexivity|].
    split; [reflexivity|].
    split; cbn [ss_packets ss_items ss_dns ss_mode sy_controller sy_last_flow_update sy_command with_controller with_rings].
    + split; [exact (mv_rep _ _ _ _ _ _ _ _ Hct')|by split|exact Hdns| |exact Hl].
      cbn [sy_controller with_controller ss_registers]. by rewrite Edp.
    + by exists A, b.
    + exact Hp.
    + exact Hq.
    + exact Hd.
    + by rewrite Edp.
    + exact Hu.
    + exact Hc.
Qed.

Lemma dataplane_simulated x σ : sys_inv x σ -> simulated SysDataplane x σ.
Proof using.
  intros Hi. destruct Hi as [Hrep (A & b & Hct) Hp Hq Hd Hpr Hu Hc]. pose proof Hrep as [Hdb Hrings Hdns Hrs Hl].
  unfold simulated. cbn [sys_step sys_spec]. unfold dataplane_step, dataplane_spec.
  destruct (mode_dataplane_inv _ DEVPORT_MAPPING _ _ _ _ _ A b Hct) as (c' & A' & b' & E & Hct'). rewrite E. cbn [rbind].
  assert (command_registers (List.hd_error (a_queue (ss_db σ))) (ss_registers σ) (dp_features (ct_dp c'))) as Ecr.
  { rewrite <- Hrs. destruct (mode_db_rep _ _ _ Hdb) as [S HdbS].
    with_strategy transparent [ct_step] cbn [ct_step] in E.
    destruct (get_rep _ dp_ring_size _ _ (fd_queue _ _ HdbS)) as (ring & Eg & _). rewrite Eg in E.
    change (a_queue (md_db (ss_mode σ))) with (a_queue (ss_db σ)) in E.
    destruct (a_queue (ss_db σ)) as [|c q]; cbn [queue_get fst snd rbind List.hd_error] in *; [by injection E as <-|].
    apply rbind_Ok in E as (dp & E & [= <-]).
    exact (dataplane_command_registers _ _ _ (proj1 (di_features _ _ _ _ _ _ (mv_dp _ _ _ _ _ _ _ _ Hct))) E). }
  pose proof (command_registers_process _ _ _ Ecr) as Edp. rewrite <- Hrs in Edp.
  eexists _, _. split; [reflexivity|]. split; [exists (dp_features (ct_dp c')); split; [exact Ecr|reflexivity]|].
  split; cbn [ss_packets ss_items ss_dns ss_mode sy_controller sy_last_flow_update sy_command with_controller with_db with_registers].
  - split; [exact (mv_rep _ _ _ _ _ _ _ _ Hct')|done|done|done|done].
  - by exists A', b'.
  - exact Hp.
  - exact Hq.
  - exact Hd.
  - unfold processing. by rewrite Edp.
  - exact Hu.
  - exact Hc.
Qed.

Lemma dns_simulated now x σ : sys_inv x σ -> simulated (SysDns now) x σ.
Proof using.
  intros Hi. destruct Hi as [Hrep Hct Hp Hq Hd Hpr Hu Hc]. pose proof Hrep as [Hdb [Hrp Hrd] Hdns Hrs Hl].
  unfold simulated. cbn [sys_step sys_spec]. unfold dns_step, dns_spec.
  destruct (get_rep _ (proj2 (proj2 ringbuffer_sizes)) _ _ Hrd) as (ring & -> & Hring).
  destruct (ss_items σ) as [|[|key] q] eqn:Eq; cbn [queue_get fst snd rbind] in *.
  - eexists _, _. split; [reflexivity|]. split; [reflexivity|].
    split; [split; rewrite ?Eq; try done; by split|done|done|by rewrite Eq|done|done|done|done].
  - by apply Forall_cons in Hq as [[] _].
  - apply Forall_cons in Hq as [_ Hq]. cbn [sy_dns sy_dns_pipe with_rings].
    destruct (dns_command_removal inet_ntop now key (sy_dns x) (sy_dns_pipe x) _ Hdns Hd) as (t & -> & Ht). cbn [rbind].
    eexists _, _. split; [reflexivity|]. split; [reflexivity|].
    split; cbn [ss_packets ss_items ss_dns ss_mode sy_controller sy_last_flow_update sy_command with_dns with_rings];
      [split; [exact Hdb|by split|exact Ht|exact Hrs|exact Hl]|exact Hct|exact Hp|exact Hq| |exact Hpr|exact Hu|exact Hc].
    rewrite map_size_delete. case_match; unfold id; lia.
Qed.

Lemma export_simulated now sec x σ : sys_inv x σ -> simulated (SysExport now sec) x σ.
Proof using egress_bits.
  intros Hi. destruct Hi as [Hrep (A & b & Hct) Hp Hq Hd Hpr Hu Hc]. pose proof Hrep as [Hdb [Hrp Hrd] Hdns Hrs Hl].
  unfold simulated. cbn [sys_step sys_spec]. unfold export_step, export_spec.
  set (dp := ct_dp (sy_controller x)) in *.
  destruct (mode_session_rep _ _ _ Hdb) as (Hs & Hfc & Hcounts).
  destruct (di_features _ _ _ _ _ _ (mv_dp _ _ _ _ _ _ _ _ Hct)) as [Hwf Heg]. fold dp in Hwf, Heg.
  destruct (export_round_ok DEBUG (fun af a => inet_ntop af (le_bytes 16 a)) sec now use_sessions _ _ (dp_switch dp)
      (Features (dp_features dp) (sy_last_flow_update x) (h_packets (sy_rings x))) (ss_packets σ) Hs Hfc)
    as (s' & f' & ids & -> & Hv & [Hwf' Hpr'] & Hpass & Hex & Heg' & Hu' & Hnd & Hids & Hring).
  { by split. }
  { cbn [features]. apply (Forall_fmap on_egress (fun e => e = 0 \/ e = 1)). by rewrite Heg. }
  { exact Hu. }
  { exact Hrp. }
  cbn [rbind features] in *. eexists _, _. split; [reflexivity|]. split.
  { exists ids, (flow_count (session_hashtable (ct_db (sy_controller x)))), (features f').
    split; [rewrite <- Hrs; eapply Forall2_impl; [exact Hpass|]; intros r r' (? & ? & ? & ? & ? & _ & ?); by split_and!|].
    split; [exact Hnd|]. split; [exact Hids|]. split; [exact Hfc|]. split; [exact Hcounts|]. split; [exact Hex|reflexivity]. }
  split; cbn [ss_packets ss_items ss_dns ss_mode ss_lines sy_controller sy_rings sy_dns sy_last_flow_update sy_command sy_feature_pipe ct_dp ct_db].
  - split; [exact Hdb|by split|exact Hdns|reflexivity|]. cbn [sy_feature_pipe ss_lines]. by rewrite Hl.
  - exists A, b. destruct Hct as [Hr Hmi [Hin Ht Hb _ Hst]].
    split; cbn [ct_db ct_dp]; [exact Hr|exact Hmi|]. split; cbn [dp_status]; [exact Hin| | | |exact Hst].
    + apply (table_ok_same dp); [done| |exact Ht]. intros p h. cbn [dp_switch]. by rewrite Hv.
    + intros i p y. cbn [dp_switch]. rewrite Hv. apply Hb.
    + split; [exact Hwf'|]. cbn [dp_features]. by rewrite Heg'.
  - apply Forall_app. split; [exact Hp|]. apply Forall_fmap. eapply Forall_impl; [exact Hids|].
    intros id (k & ft & Hk). cbn [compose pending_ok].
    destruct (session_stored _ _ _ _ _ _ Hs Hk) as [Hrange _]. exact Hrange.
  - exact Hq.
  - exact Hd.
  - exact Hpr'.
  - exact Hu'.
  - exact Hc.
Qed.

Lemma maintenance_simulated pipe index random x σ :
  sys_inv x σ -> admissible σ (SysMaintenance pipe index random) ->
  simulated (SysMaintenance pipe index random) x σ.
Proof using.
  intros Hi [Hpipe Hindex]. destruct Hi as [Hrep (A & b & Hct) Hp Hq Hd Hpr Hu [Hix Hsend]].
  pose proof Hrep as [Hdb Hrings Hdns Hrs Hl]. destruct (mode_db_rep _ _ _ Hdb) as [S HdbS].
  unfold simulated. cbn [sys_step sys_spec]. unfold maintenance_step, maintenance_spec. fold (ss_db σ) in HdbS.
  rewrite (fd_bloom _ _ HdbS).
  destruct (maintenance_index_ok _ (sy_command x) _ _ pipe index random (fd_bloom_wf _ _ HdbS) (fd_queue _ _ HdbS) Hix Hsend Hpipe Hindex)
    as (b1 & b' & c' & ring & -> & Hwf & Hsend' & _ & Haged & Hix' & Hring & Hb'). cbn [rbind].
  eexists _, _. split; [reflexivity|]. split.
  { exists b1, b', (bc_indices c'). split; [exact Haged|]. split; [exact Hb'|reflexivity]. }
  match goal with |- sys_inv _ (with_db ?s _) => set (s' := s) end.
  assert (mode_rep use_sessions (with_bloom_filter b' (with_dataplane_ringbuffer ring (ct_db (sy_controller x))))
            (with_md_db s' (ss_mode σ))) as Hdb'
    by (apply (mode_rep_same _ (ct_db (sy_controller x))); [exact Hdb|intros S' []; by split]).
  split; cbn [ss_packets ss_items ss_dns ss_mode ss_lines with_db sy_controller sy_last_flow_update sy_command ct_dp];
    [split; [exact Hdb'|exact Hrings|exact Hdns|exact Hrs|exact Hl]| |exact Hp|exact Hq|exact Hd|exact Hpr|exact Hu|by split].
  exists A, b. destruct Hct as [_ Hids [Hin Ht Hb Hf Hst]].
  split; cbn [ct_db ct_dp]; [exact Hdb'|by apply mode_ids_same|]. split; [|exact Ht|exact Hb|exact Hf|exact Hst].
  apply installed_send; [exact Hin|]. intros c. destruct (existsb _ _); [|done]. intros [= <-]. by split.
Qed.

Lemma step_simulated e x σ : sys_inv x σ -> admissible σ e -> simulated e x σ.
Proof using ports egress_bits.
  destruct e; intros Hi Ha.
  - by apply packet_simulated.
  - by apply flowdb_simulated.
  - by apply dataplane_simulated.
  - by apply dns_simulated.
  - by apply export_simulated.
  - by apply maintenance_simulated.
Qed.

Lemma run_simulated es x σ :
  sys_inv x σ -> sys_paced use_sessions DEBUG inet_ntop DEVPORT_MAPPING owner session_owner σ es ->
  exists x' σ', sys_run use_sessions DEBUG inet_ntop DEVPORT_MAPPING es x = Ok x' /\
    sys_specs use_sessions DEBUG inet_ntop DEVPORT_MAPPING σ es σ' /\ sys_inv x' σ'.
Proof using ports egress_bits.
  revert x σ. induction es as [|e es IH]; intros x σ Hi Hp; unfold sys_run; cbn [foldM sys_specs sys_paced] in *.
  { by exists x, σ. }
  destruct Hp as [Ha Hp]. destruct (step_simulated e x σ Hi Ha) as (x1 & σ1 & -> & Hs & Hi1). cbn [rbind].
  destruct (IH x1 σ1 Hi1 (Hp σ1 Hs)) as (x' & σ' & E & Hs' & Hi'). unfold sys_run in E. rewrite E.
  exists x', σ'. split; [done|]. split; [by exists σ1|done].
Qed.

Lemma sys_start_inv bits s rs dns D :
  prepared egress bits s rs -> process_register <$> rs = static_processing ->
  dns_rep dns D -> Z.of_nat (size D) < DNS_HASHTABLE_SIZE ->
  exists x, sys_start s rs dns = Ok x /\ sys_inv x (sys_initial D rs).
Proof using.
  intros Hprep Hproc Hdns Hroom. unfold sys_start.
  destruct (flowdb_start_ok owner) as (db & Es & _).
  assert (ct_start s rs = Ok (Controller db (dataplane_init s rs))) as E by (unfold ct_start; by rewrite Es).
  pose proof (mode_start_inv use_sessions owner session_owner egress bits s rs _ Hprep E) as Hi. rewrite E. cbn [rbind].
  eexists. split; [reflexivity|]. unfold sys_initial.
  split; cbn [ss_packets ss_items ss_dns ss_mode sy_controller sy_last_flow_update sy_command].
  - split; [exact (mv_rep _ _ _ _ _ _ _ _ Hi)|exact empty_handler_rep|exact Hdns| |done].
    unfold ct_start in E. apply rbind_Ok in E as (? & _ & [= <-]). reflexivity.
  - by exists ∅, bits.
  - constructor.
  - constructor.
  - exact Hroom.
  - exact Hproc.
  - reflexivity.
  - split; [exact empty_indices_wf|reflexivity].
Qed.
End system.

(** ** Properties *)

(** All threads together, with sessions enabled, as by default, or disabled.
    From the start of the threads, with any stored addresses, every paced sequence of
    steps of the packet handler, the flow database, the data plane thread, the DNS
    database, the exporter and the maintenance thread, in any order, runs without leaving
    an array or looping; each step does to the shared state what its specification says;
    and whenever the data plane thread then executes the pending commands, the switch
    holds exactly one entry for each stored flow, with the registers of the session that
    the flow joined, and no other. With sessions disabled each flow has a session of its
    own under the same id. *)
Theorem system_refines {sw} `{SwitchLaws sw} `{resolver : Resolver} use_sessions DEBUG inet_ntop DEVPORT_MAPPING owner session_owner
    egress bits s rs dns D es :
  ports_ok DEVPORT_MAPPING -> Forall (fun e => e = 0 \/ e = 1) egress ->
  prepared egress bits s rs -> process_register <$> rs = static_processing ->
  dns_rep dns D -> Z.of_nat (size D) < DNS_HASHTABLE_SIZE ->
  sys_paced use_sessions DEBUG inet_ntop DEVPORT_MAPPING owner session_owner (sys_initial D rs) es ->
  exists (x x' : system_t sw) σ', sys_start s rs dns = Ok x /\
    sys_run use_sessions DEBUG inet_ntop DEVPORT_MAPPING es x = Ok x' /\
    sys_specs use_sessions DEBUG inet_ntop DEVPORT_MAPPING (sys_initial D rs) es σ' /\ sys_rep use_sessions x' σ' /\
    exists st ring,
      dataplane_drain (ct_dp (sy_controller x')) (dataplane_ringbuffer (ct_db (sy_controller x'))) = Ok (st, ring) /\
      dp_status st = SUCCESS /\ switch_counts st (ss_mode σ') /\
      (use_sessions = false -> switch_mirrors st (ss_db σ')).
Proof.
  intros Hports Hbits Hprep Hproc Hdns Hroom Hpaced.
  destruct (sys_start_inv use_sessions owner session_owner egress bits s rs dns D Hprep Hproc Hdns Hroom) as (x & Ex & Hi).
  destruct (run_simulated use_sessions DEBUG inet_ntop DEVPORT_MAPPING owner session_owner egress Hports Hbits es x _ Hi Hpaced)
    as (x' & σ' & E & Hs & Hi').
  exists x, x', σ'. split; [exact Ex|]. split; [exact E|]. split; [exact Hs|]. split; [exact (sv_rep _ _ _ _ _ _ Hi')|].
  destruct (sv_controller _ _ _ _ _ _ Hi') as (A & b & Hct). exact (mode_drained _ _ _ _ _ _ A b Hct).
Qed.

(** The seven registers, prepared. *)
Definition sample_registers : list feature_register_t :=
  (fun r => fst (prepare_feature r)) <$> STATIC_FEATURES_ARRAY (fun _ => 0).

Lemma sample_registers_prepared : prepared (repeat 0 7) no_bits (constant_switch 0) sample_registers.
Proof.
  split; [reflexivity|reflexivity|intros i p x; reflexivity| |reflexivity].
  apply Forall_fmap, Forall_forall. intros r _. apply (to_wf _ _ _ (prepare_totals r)).
Qed.

Definition sample_tcp (flags : Z) : list Z := encode_packet (sample_hash 1234 L4_TCP) 7 5 flags sample_fillers4 [].

(** The first packet of a flow, its handling by the two threads, a round of the exporter
    and a step of the maintenance. *)
Definition sample_events : list sys_event :=
  [SysPacket 5 0 (sample_tcp TH_SYN); SysFlowdb [] 0; SysDataplane; SysExport (Timespec 6 0) 6;
   SysMaintenance 0 0 (fun _ _ => 0)].

Definition sample_dns_map : dns_map := {[dns_key_bytes (toDnsHashtableKey 0x0A000001 L3_IPV4) := 100]}.

Lemma sample_parse : parse_headers 0 (sample_tcp TH_SYN) =
  Ok (Some (parse_of (sample_hash 1234 L4_TCP) 7 5 TH_SYN 0 sample_fillers4)).
Proof.
  apply parse_encode; [apply sample_encodable; split; [discriminate|reflexivity]| | |];
    (split; [discriminate|reflexivity]).
Qed.

(** The state in which the flow waits. *)
Definition sample_waiting (rs : list feature_register_t) : sys_state := SysState mode_initial [PKT_ADD_FLOW sample_new] [] sample_dns_map rs [].

(** The packet opens a flow. *)
Lemma sample_packet_spec rs σ1 :
  packet_spec 5 0 (sample_tcp TH_SYN) (sys_initial sample_dns_map rs) σ1 -> σ1 = sample_waiting rs.
Proof.
  intros (r & Er & Hr). rewrite sample_parse in Er. injection Er as <-.
  destruct (opens_flow_commands 5 sample_dns_map (sample_hash 1234 L4_TCP) TH_SYN 7 5 0) as [Eft Ec];
    [apply sample_opens_flow; reflexivity|].
  cbn [pa_ft parse_of th_flags pa_l4 sys_initial ss_dns ss_mode ss_packets ss_items ss_registers ss_lines] in Hr.
  rewrite Eft in Hr, Ec. change (l4_proto (sample_hash 1234 L4_TCP) =? L4_TCP) with true in Hr. cbn iota in Hr.
  rewrite bool_decide_false in Hr by (change (a_flows (ss_db _)) with (∅ : id_map); rewrite lookup_empty; by intros []).
  rewrite Ec in Hr. exact Hr.
Qed.

Lemma sample_packet_admissible us rs :
  sys_admissible us (fun _ => 0) (fun _ => 0) (sys_initial sample_dns_map rs) (SysPacket 5 0 (sample_tcp TH_SYN)).
Proof.
  intros p E. rewrite sample_parse in E. injection E as <-. split; [reflexivity|].
  split; [split; [split; [discriminate|reflexivity]|reflexivity]|]. split; [intros Hf; by destruct Hf|].
  intros _. unfold session_pipe, spec_session. case_match; reflexivity.
Qed.

Lemma sample_add_admissible us rs :
  sys_admissible us (fun _ => 0) (fun _ => 0) (sample_waiting rs) (SysFlowdb [] 0).
Proof.
  split; [unfold sample_waiting, ss_db, md_db, mode_initial, fs_initial, initial_state; cbn [ss_mode md_fs fs_db a_queue]; vm_compute; discriminate|].
  split; [intros _; rewrite FEATURE_SIZE_val; lia|]. intros ft _. split; [|apply sample_room].
  unfold fits, sample_waiting, ss_db, md_db, mode_initial, fs_initial, initial_state. cbn [ss_mode md_fs fs_db a_flows].
  rewrite map_filter_empty. unfold capacity. case_decide; reflexivity.
Qed.

Lemma sample_paced us DEBUG inet_ntop rs :
  sys_paced us DEBUG inet_ntop sample_ports (fun _ => 0) (fun _ => 0) (sys_initial sample_dns_map rs) sample_events.
Proof.
  cbn [sys_paced sample_events sys_spec]. split; [apply sample_packet_admissible|].
  intros σ1 ->%sample_packet_spec. split; [apply sample_add_admissible|].
  intros σ2 _. split; [exact I|]. intros σ3 _. split; [exact I|]. intros σ4 _. split; [|done].
  split; split; discriminate || reflexivity.
Qed.

(** In the default mode. *)
Lemma system_refines_witness : exists (x x' : system_t model_sw) σ' st ring,
  sys_start (constant_switch 0) sample_registers (sy_dns x) = Ok x /\
  sys_run (H0 := records_resolver []) true false (fun _ a => a) sample_ports sample_events x = Ok x' /\
  sys_specs true false (fun _ a => a) sample_ports (sys_initial sample_dns_map sample_registers) sample_events σ' /\
  dataplane_drain (ct_dp (sy_controller x')) (dataplane_ringbuffer (ct_db (sy_controller x'))) = Ok (st, ring) /\
  switch_counts st (ss_mode σ').
Proof.
  destruct sample_dns as (t & Ht).
  destruct (system_refines (resolver := records_resolver []) true false (fun _ a => a) sample_ports (fun _ => 0) (fun _ => 0)
              (repeat 0 7) no_bits (constant_switch 0) sample_registers t sample_dns_map sample_events)
    as (x & x' & σ' & Ex & Er & Hs & _ & st & ring & Ed & _ & Hm & _).
  - exact sample_ports_ok.
  - repeat constructor; reflexivity.
  - exact sample_registers_prepared.
  - reflexivity.
  - exact Ht.
  - unfold sample_dns_map. rewrite map_size_singleton. reflexivity.
  - exact (sample_paced true false (fun _ a => a) _).
  - exists x, x', σ', st, ring. split.
    + unfold sys_start in Ex. apply rbind_Ok in Ex as (c & Ec & Ex). injection Ex as <-. cbn [sy_dns].
      unfold sys_start. rewrite Ec. reflexivity.
    + split; [exact Er|]. split; [exact Hs|]. split; [exact Ed|exact Hm].
Defined.
