(* ===== verification/Startup.v ===== *)
(** * The start of the threads ([controller.c], [dataplane.c])

    [low_level_controller] starts its threads before the switch is prepared: the data
    plane thread calls [prepare_dataplane] and [prepare_features] itself, before its first
    command, while the other threads already run. The state of [System.v] together with
    the position of the data plane thread and what the preparation configures, from the
    static data on: the registers are those of the static array until [prepare_features]
    sets their buffers. *)

From S2P Require Import Prelude Words Structs RuntimeConfig Ringbuffer Probe IdTable FlowTable SessionTable BloomFilter FlowDb FlowDbSessions.
From S2P Require Import DpApi Features Dataplane DnsTable Prepare PacketHandler DnsDb Export Controller Modes System.
From stdpp Require Import strings.
#[local] Open Scope Z_scope.

(** ** State and steps *)

(** Where the data plane thread is. *)
Inductive dataplane_pc : Type := PREPARE_DATAPLANE | PREPARE_FEATURES | COMMANDS.

Record boot_t (sw T : Type) : Type := Boot {
  bt_pc : dataplane_pc;
  bt_pd : pd_state T;
  bt_system : system_t sw }.
Arguments Boot {sw T} _ _ _.
Arguments bt_pc {sw T} _.
Arguments bt_pd {sw T} _.
Arguments bt_system {sw T} _.

Section step.
Context {sw T : Type} `{Switch sw} `{Resolver} `{TableApi T} `{PortApi}.
Context (use_sessions DEBUG : bool) (inet_ntop : Z -> list Z -> list Z) (cf : pd_config) (hdls : nat -> arr Z).
Implicit Types (b : boot_t sw T) (x : system_t sw).

(** [prepare_features] on the arrays that the exporter and the data plane thread share. *)
Definition prepare_features_step x : res (system_t sw) :=
  let c := sy_controller x in
  let dp := ct_dp c in
  let! '(s, f) :=
    prepare_features (dp_switch dp) (Features (dp_features dp) (sy_last_flow_update x) (h_packets (sy_rings x))) in
  Ok (System (Controller (ct_db c) (Dataplane s (entry_hdls dp) (features f) (dp_status dp)))
        (Handler (packet_ringbuffer f) (h_dns (sy_rings x))) (sy_dns x) (last_flow_update f)
        (sy_command x) (sy_dns_pipe x) (sy_feature_pipe x)).

(** The next action of [dataplane_thread]; [None] when the process ends. *)
Definition dataplane_thread_step b : res (option (boot_t sw T)) :=
  match bt_pc b with
  | PREPARE_DATAPLANE =>
      obind (prepare_dataplane cf hdls (bt_pd b)) (fun pd => Ok (Some (Boot PREPARE_FEATURES pd (bt_system b))))
  | PREPARE_FEATURES =>
      let! x := prepare_features_step (bt_system b) in
      Ok (Some (Boot COMMANDS (bt_pd b) x))
  | COMMANDS =>
      let! x := dataplane_step use_sessions (DEVPORT_MAPPING (bt_pd b)) (bt_system b) in
      Ok (Some (Boot COMMANDS (bt_pd b) x))
  end.

(** A step of any thread: the flow database reads [DEVPORT_MAPPING] as it is. *)
Definition boot_step (e : sys_event) b : res (option (boot_t sw T)) :=
  match e with
  | SysDataplane => dataplane_thread_step b
  | _ =>
      let! x := sys_step use_sessions DEBUG inet_ntop (DEVPORT_MAPPING (bt_pd b)) e (bt_system b) in
      Ok (Some (Boot (bt_pc b) (bt_pd b) x))
  end.

Fixpoint boot_run (es : list sys_event) b : res (option (boot_t sw T)) :=
  match es with [] => Ok (Some b) | e :: es => obind (boot_step e b) (boot_run es) end.

(** [low_level_controller]: the structures are initialised, the registers are the static
    ones, [pd] is the state of the switch and of [DEVPORT_MAPPING]. The DNS table [dns] is
    that of [dns_hashtable_init], or with the addresses of [add_relevant_dns_entry]. *)
Definition low_level_controller (egress : Z -> Z) (s : sw) (pd : pd_state T) (dns : dns_hashtable_t) : res (boot_t sw T) :=
  let! x := sys_start s (STATIC_FEATURES_ARRAY egress) dns in
  Ok (Boot PREPARE_DATAPLANE pd x).
End step.

(** ** Specification *)

Record boot_state : Type := BootState {
  bs_pc : dataplane_pc;
  bs_mapping : arr Z;
  bs_system : sys_state }.

(** [DEVPORT_MAPPING] before the preparation: zero, not -1, which would be no port. *)
Definition static_mapping : arr Z := amake MAX_DEV_PORT_ID 0.

(** The registers after [prepare_features]: each total is zero, the two buffers are set. *)
Definition prepared_registers (egress : Z -> Z) : list feature_register_t :=
  (fun r => fst (prepare_feature r)) <$> STATIC_FEATURES_ARRAY egress.

(** The registers are the static ones, with null pointers for the buffers. *)
Definition boot_initial (egress : Z -> Z) (D : dns_map) : boot_state :=
  BootState PREPARE_DATAPLANE static_mapping (sys_initial D (STATIC_FEATURES_ARRAY egress)).

(** The array holds exactly the pairs. *)
Definition holds_pairs (pairs : list (Z * Z)) (m : arr Z) : Prop :=
  ports_ok m /\ forall p q, 0 <= p < MAX_DEV_PORT_ID -> aget m p = q /\ q <> -1 <-> (p, q) ∈ pairs.

Section specification.
Context {sizes : TableSizes} (use_sessions DEBUG : bool) (inet_ntop : Z -> list Z -> list Z) (pairs : list (Z * Z)).
Context (egress : Z -> Z).
Context (owner session_owner : list Z -> Z).

(** The data plane thread prepares the array and the registers before its first command;
    all other steps are those of the running system, with the array as it is. *)
Definition boot_spec (e : sys_event) (β β' : boot_state) : Prop :=
  match e, bs_pc β with
  | SysDataplane, PREPARE_DATAPLANE =>
      exists m, holds_pairs pairs m /\ β' = BootState PREPARE_FEATURES m (bs_system β)
  | SysDataplane, PREPARE_FEATURES =>
      β' = BootState COMMANDS (bs_mapping β) (with_registers (prepared_registers egress) (bs_system β))
  | _, pc => exists σ', sys_spec use_sessions DEBUG inet_ntop (bs_mapping β) e (bs_system β) σ' /\
      β' = BootState pc (bs_mapping β) σ'
  end.

(** The position of the data plane thread after a step. *)
Definition next_pc (pc : dataplane_pc) (e : sys_event) : dataplane_pc :=
  match e, pc with
  | SysDataplane, PREPARE_DATAPLANE => PREPARE_FEATURES
  | SysDataplane, PREPARE_FEATURES => COMMANDS
  | _, _ => pc
  end.

Fixpoint boot_specs (β : boot_state) (es : list sys_event) (β' : boot_state) : Prop :=
  match es with
  | [] => β' = β
  | e :: es => exists β1, boot_spec e β β1 /\ boot_specs β1 es β'
  end.

(** As for the running system; and the exporter comes after the preparation, since it
    waits for a second first. *)
Definition boot_admissible (β : boot_state) (e : sys_event) : Prop :=
  match e with SysExport _ _ => bs_pc β = COMMANDS | _ => True end /\
  sys_admissible use_sessions owner session_owner (bs_system β) e.

Fixpoint boot_paced (β : boot_state) (es : list sys_event) : Prop :=
  match es with
  | [] => True
  | e :: es => boot_admissible β e /\ forall β1, boot_spec e β β1 -> boot_paced β1 es
  end.
End specification.

(** A switch that was loaded with the program. *)
Definition loaded_switch {sw} `{SwitchLaws sw} (s : sw) : Prop :=
  v_ipv4 (view s) = ∅ /\ v_ipv6 (view s) = ∅ /\ forall i p x, v_bloom (view s) i p x = 0.

(** ** Proofs *)

#[local] Opaque FEATURE_SIZE flowdb_command dataplane_command packet_handler ringbuffer_get dns_command
  export_round maintenance_index ct_step prepare_features prepare_dataplane.

Lemma specs_pc us DEBUG inet_ntop pairs egress es : forall β β',
  boot_specs us DEBUG inet_ntop pairs egress β es β' -> bs_pc β' = foldl next_pc (bs_pc β) es.
Proof.
  induction es as [|e es IH]; intros β β'; cbn [boot_specs foldl]; [by intros ->|].
  intros (β1 & Hs & Hs'). rewrite (IH _ _ Hs'). f_equal. unfold boot_spec in Hs.
  destruct e, (bs_pc β); cbn [next_pc]; first [by destruct Hs as (m & _ & ->)|by rewrite Hs].
Qed.

(** *** Before the preparation *)

Section early.
Context {sw : Type} {switch : Switch sw} {sizes : TableSizes} {laws : SwitchLaws sw} `{Resolver}.
Context (use_sessions DEBUG : bool) (inet_ntop : Z -> list Z -> list Z) (egress : Z -> Z).
Implicit Types (x : system_t sw).

(** The state with its registers prepared. *)
Definition ready x : system_t sw :=
  let dp := ct_dp (sy_controller x) in
  System (Controller (ct_db (sy_controller x)) (Dataplane (dp_switch dp) (entry_hdls dp) (prepared_registers egress) (dp_status dp)))
    (sy_rings x) (sy_dns x) (amake FEATURE_SIZE 0) (sy_command x) (sy_dns_pipe x) (sy_feature_pipe x).

(** The steps of the threads that do not use the registers. *)
Definition without_registers (e : sys_event) : Prop :=
  match e with SysDataplane | SysExport _ _ => False | _ => True end.

Lemma step_ready m e x :
  without_registers e ->
  sys_step use_sessions DEBUG inet_ntop m e (ready x) =
    (let! x' := sys_step use_sessions DEBUG inet_ntop m e x in Ok (ready x')).
Proof using.
  destruct x as [[db dp] rings dns lfu command dp_pipe f_pipe].
  destruct e as [now garbage packet|uuid garbage| |now|now sec|pipe index random]; intros He; try by destruct He.
  - cbn [sys_step]. unfold packet_step. cbn [ready sy_controller sy_rings sy_dns ct_db]. by destruct (packet_handler _ _ _ _).
  - cbn [sys_step]. unfold flowdb_step. cbn [ready sy_controller sy_rings h_packets].
    destruct (ringbuffer_get _ _) as [[[st [c|]] ring]| |]; cbn [rbind]; [|reflexivity..].
    cbn [with_rings sy_controller sy_rings h_dns ct_db ct_dp].
    with_strategy transparent [ct_step] cbn [ct_step ct_db]. by destruct (flowdb_command _ _ _ _ _ _).
  - cbn [sys_step]. unfold dns_step. cbn [ready sy_rings h_dns].
    destruct (ringbuffer_get _ _) as [[[st [c|]] ring]| |]; cbn [rbind]; [|reflexivity..].
    cbn [with_rings sy_dns sy_dns_pipe]. by destruct (dns_command _ _ _ _) as [[t pipe]| |].
  - cbn [sys_step]. unfold maintenance_step. cbn [ready sy_controller ct_db sy_command].
    by destruct (maintenance_index _ _ _ _) as [[[b c] ring]| |].
Qed.

Lemma step_keeps_registers m e x x' :
  without_registers e -> sys_step use_sessions DEBUG inet_ntop m e x = Ok x' ->
  ct_dp (sy_controller x') = ct_dp (sy_controller x).
Proof using.
  destruct e as [now garbage packet|uuid garbage| |now|now sec|pipe index random]; intros He; try by destruct He.
  - cbn [sys_step]. unfold packet_step. intros E. by apply rbind_Ok in E as (rings & _ & [= <-]).
  - cbn [sys_step]. unfold flowdb_step. intros E. apply rbind_Ok in E as ([[st o] ring] & _ & E).
    destruct o as [c|]; [|by injection E as <-]. apply rbind_Ok in E as (c' & E & [= <-]).
    with_strategy transparent [ct_step] cbn [ct_step] in E. by apply rbind_Ok in E as (db & _ & [= <-]).
  - cbn [sys_step]. unfold dns_step. intros E. apply rbind_Ok in E as ([[st o] ring] & _ & E).
    destruct o as [c|]; [|by injection E as <-]. by apply rbind_Ok in E as ([t pipe] & _ & [= <-]).
  - cbn [sys_step]. unfold maintenance_step. intros E. by apply rbind_Ok in E as ([[b c] ring] & _ & [= <-]).
Qed.

(** The specification of such a step does not depend on the registers either. *)
Lemma spec_without_registers m e rs σ σ1 :
  without_registers e -> sys_spec use_sessions DEBUG inet_ntop m e (with_registers rs σ) σ1 ->
  exists σ', σ1 = with_registers rs σ' /\ sys_spec use_sessions DEBUG inet_ntop m e σ σ' /\ ss_registers σ' = ss_registers σ.
Proof using.
  destruct e as [now garbage packet|uuid garbage| |now|now sec|pipe index random]; intros He; try by destruct He.
  - intros (r & Er & Hr). cbn [ss_dns ss_mode ss_packets ss_items ss_lines ss_registers with_registers] in Hr. destruct r as [p|].
    + eexists (SysState _ _ _ _ (ss_registers σ) _). split; [exact Hr|]. split; [|reflexivity].
      exists (Some p). split; [exact Er|reflexivity].
    + exists σ. split; [exact Hr|]. split; [|reflexivity]. exists None. split; [exact Er|reflexivity].
  - cbn [sys_spec]. unfold flowdb_spec. cbn [ss_packets with_registers]. destruct (ss_packets σ) as [|c q]; intros ->.
    + exists σ. split; [reflexivity|]. split; reflexivity.
    + eexists (SysState _ _ _ _ (ss_registers σ) _). split; [reflexivity|]. split; reflexivity.
  - cbn [sys_spec]. unfold dns_spec. cbn [ss_items with_registers]. destruct (ss_items σ) as [|[|key] q]; [intros ->|done|intros ->].
    + exists σ. split; [reflexivity|]. split; reflexivity.
    + eexists (SysState _ _ _ _ (ss_registers σ) _). split; [reflexivity|]. split; reflexivity.
  - intros (b1 & b' & indices & Ha & Hb & ->).
    eexists (with_db _ σ). split; [reflexivity|]. split; [|reflexivity].
    exists b1, b', indices. split; [exact Ha|]. split; [exact Hb|reflexivity].
Qed.

(** A step of the prepared state is one of the state before the preparation. *)
Lemma early_step m e x x1 :
  without_registers e -> sys_step use_sessions DEBUG inet_ntop m e (ready x) = Ok x1 ->
  exists x', sys_step use_sessions DEBUG inet_ntop m e x = Ok x' /\ x1 = ready x' /\
    ct_dp (sy_controller x') = ct_dp (sy_controller x).
Proof using.
  intros He. rewrite step_ready by done. intros E. apply rbind_Ok in E as (x' & E & [= <-]).
  exists x'. split; [done|]. split; [done|]. by apply (step_keeps_registers m e).
Qed.

(** The registers are the static ones. *)
Definition unprepared x : Prop := dp_features (ct_dp (sy_controller x)) = STATIC_FEATURES_ARRAY egress.

(** The exporter then reads a register into the buffer at its null pointer. *)
Lemma unprepared_export m now sec x :
  unprepared x -> sys_step use_sessions DEBUG inet_ntop m (SysExport now sec) x = UB.
Proof using.
  intros E. cbn [sys_step]. unfold export_step. with_strategy transparent [export_round] unfold export_round.
  unfold read_features. cbn [features]. rewrite E. reflexivity.
Qed.

(** The preparation of the registers. *)
Lemma prepare_features_step_ok us owner session_owner x σ :
  unprepared x ->
  sys_inv us owner session_owner (on_egress <$> prepared_registers egress) (ready x)
    (with_registers (prepared_registers egress) σ) ->
  exists x', prepare_features_step x = Ok x' /\
    sys_inv us owner session_owner (on_egress <$> prepared_registers egress) x' (with_registers (prepared_registers egress) σ).
Proof using.
  intros Hx [[R1 R2 R3 R5 R4] (A & b & Hct) Hp Hq Hd Hpr Hu Hc].
  destruct x as [[db dp] rings dns lfu command dp_pipe f_pipe]. unfold unprepared, prepare_features_step in *.
  cbn [sy_controller sy_rings sy_dns sy_last_flow_update sy_command sy_dns_pipe sy_feature_pipe ct_db ct_dp] in *.
  rewrite Hx. destruct (prepare_features_spec egress (dp_switch dp) lfu (h_packets rings))
    as (s' & f' & -> & Ef & El & (E4 & E6 & Eb) & _ & _ & Er & _).
  cbn [rbind]. rewrite Ef, El, Er. eexists. split; [reflexivity|].
  destruct Hct as [Hr Hids [Hin Ht Hb Hf Hst]]. unfold ready in *.
  cbn [sy_controller sy_rings sy_dns sy_last_flow_update sy_command sy_dns_pipe sy_feature_pipe ct_db ct_dp] in *.
  split; cbn [sy_controller sy_rings sy_dns sy_last_flow_update sy_command sy_feature_pipe ct_db ct_dp];
    [split; [exact R1|destruct rings; exact R2|exact R3|exact R5|exact R4]| |exact Hp|exact Hq|exact Hd|exact Hpr|exact Hu|exact Hc].
  exists A, b. split; cbn [ct_db ct_dp]; [exact Hr|exact Hids|].
  split; [exact Hin| | |exact Hf|exact Hst].
  - eapply table_ok_same; [| |exact Ht]; [done|]. intros p h. cbn [dp_switch]. unfold entry_at. by rewrite E4, E6.
  - intros i p y. cbn [dp_switch]. rewrite Eb. apply Hb.
Qed.
End early.

(** *** Invariant *)

Section boot.
Context {sw T : Type} {switch : Switch sw} {sizes : TableSizes} {laws : SwitchLaws sw} `{resolver : Resolver} `{table_laws : TableApiLaws T} `{PortApi}.
Context (use_sessions DEBUG : bool) (inet_ntop : Z -> list Z -> list Z) (cf : pd_config) (hdls : nat -> arr Z).
Context (ports : list Z) (pairs : list (Z * Z)) (owner session_owner : list Z -> Z) (egress : Z -> Z).
Context (egress_bits : forall r, egress r = 0 \/ egress r = 1).
Implicit Types (b : boot_t sw T) (β : boot_state).

Notation step := (boot_step use_sessions DEBUG inet_ntop cf hdls).
Notation spec := (boot_spec use_sessions DEBUG inet_ntop pairs egress).
Notation admissible := (boot_admissible use_sessions owner session_owner).
Notation registers := (on_egress <$> prepared_registers egress).
Notation inv := (sys_inv use_sessions owner session_owner registers).

(** The running system is as the invariant of the threads says; before, it will be once
    the registers are prepared. *)
Record boot_inv b β : Prop := BootInv {
  bv_pc : bt_pc b = bs_pc β;
  bv_mapping : DEVPORT_MAPPING (bt_pd b) = bs_mapping β;
  bv_ports : ports_ok (bs_mapping β);
  bv_pd : match bs_pc β with
          | PREPARE_DATAPLANE => configurable cf hdls ports pairs (bt_pd b) /\ bs_mapping β = static_mapping
          | _ => configured cf ports pairs (bt_pd b)
          end;
  bv_system : match bs_pc β with
              | COMMANDS => inv (bt_system b) (bs_system β)
              | _ => unprepared egress (bt_system b) /\ ss_registers (bs_system β) = STATIC_FEATURES_ARRAY egress /\
                  inv (ready egress (bt_system b)) (with_registers (prepared_registers egress) (bs_system β))
              end }.

Lemma boot_rep b β : boot_inv b β -> sys_rep use_sessions (bt_system b) (bs_system β).
Proof using.
  intros [_ _ _ _ Hs].
  assert (forall x rs, inv (ready egress x) (with_registers rs (bs_system β)) ->
    dp_features (ct_dp (sy_controller x)) = ss_registers (bs_system β) -> sys_rep use_sessions x (bs_system β)) as Hearly
    by (intros x rs [[R1 R2 R3 _ R4] _ _ _ _ _ _ _] R5; split; [exact R1|exact R2|exact R3|exact R5|exact R4]).
  destruct (bs_pc β); [destruct Hs as (Hu & Er & Hs); apply (Hearly _ _ Hs); rewrite Er; exact Hu..|exact (sv_rep _ _ _ _ _ _ Hs)].
Qed.

(** A flow that is added before the preparation. *)
Lemma early_addition b β garbage ft id l sid q uuid :
  boot_inv b β -> bs_pc β = PREPARE_DATAPLANE -> admissible β (SysFlowdb uuid garbage) ->
  ss_packets (bs_system β) = PKT_ADD_FLOW ft :: q -> a_flows (ss_db (bs_system β)) !! flow_key ft = None ->
  a_free_flows (ss_db (bs_system β)) (pipe_of ft) = id :: l -> joins use_sessions ft (ss_db (bs_system β)) sid ->
  a_flows (md_db (mode_command use_sessions (bs_mapping β) garbage (PKT_ADD_FLOW ft) (ss_mode (bs_system β))))
      !! flow_key ft = Some (with_egress_offset ft (- pipe_of ft), id).
Proof using.
  intros [_ _ _ Hpd Hs] Epc [_ (Hroom & _)] Eq Hk Hf Hj. rewrite Epc in *. destruct Hpd as [_ Em], Hs as (_ & _ & Hs).
  pose proof (sv_packets _ _ _ _ _ _ Hs) as Hp. cbn [ss_packets with_registers] in Hp. rewrite Eq in Hp. apply Forall_cons in Hp as [((Ht & _) & _) _].
  destruct (sv_controller _ _ _ _ _ _ Hs) as (A & bits & Hct).
  destruct (mode_add_joins use_sessions (bs_mapping β) owner session_owner (ss_mode (bs_system β)) garbage ft id l sid
    (mv_ids _ _ _ _ _ _ _ _ Hct) Ht) as [-> _]; [|exact Hk|exact Hf|exact Hj|unfold ss_db in Hroom; lia|].
  - rewrite Em. unfold static_mapping. rewrite aget_amake. discriminate.
  - rewrite Em. unfold forwarded, static_mapping. rewrite aget_amake. change (dev_port_to_pipe 0) with 0.
    pose proof (dev_port_to_pipe_bound _ (proj1 Ht)) as Hb. fold (pipe_of ft) in Hb. unfold NUM_PIPES in Hb.
    unfold i8. rewrite Z.mod_small by lia. do 3 f_equal. lia.
Qed.

Lemma registers_bits : Forall (fun e => e = 0 \/ e = 1) registers.
Proof using egress_bits.
  apply Forall_fmap, Forall_fmap. unfold STATIC_FEATURES_ARRAY. repeat (apply Forall_cons_2; [apply egress_bits|]). constructor.
Qed.

(** A step of the system in the present phase. *)
Lemma system_step e b β :
  boot_inv b β -> e <> SysDataplane \/ bs_pc β = COMMANDS -> admissible β e ->
  exists x' σ', sys_step use_sessions DEBUG inet_ntop (bs_mapping β) e (bt_system b) = Ok x' /\
    sys_spec use_sessions DEBUG inet_ntop (bs_mapping β) e (bs_system β) σ' /\
    boot_inv (Boot (bt_pc b) (bt_pd b) x') (BootState (bs_pc β) (bs_mapping β) σ').
Proof using egress_bits.
  intros [Hpc Hm Hp Hpd Hs] He [Hex Ha].
  assert (forall x σ, inv x σ -> sys_admissible use_sessions owner session_owner σ e ->
    simulated use_sessions DEBUG inet_ntop (bs_mapping β) owner session_owner registers e x σ) as Hsim
    by (intros x σ Hx Hσ; exact (step_simulated _ _ _ _ _ _ _ Hp registers_bits e x _ Hx Hσ)).
  destruct (bs_pc β) eqn:Epc.
  3: { destruct (Hsim _ _ Hs Ha) as (x' & σ' & E & Hσ & Hi). exists x', σ'. split; [exact E|]. split; [exact Hσ|].
       by split. }
  all: destruct Hs as (Hu & Er & Hs).
  all: assert (sys_admissible use_sessions owner session_owner (with_registers (prepared_registers egress) (bs_system β)) e)
    as Ha' by (destruct e; exact Ha).
  all: destruct (Hsim _ _ Hs Ha') as (x1 & σ1 & E & Hσ1 & Hi).
  all: assert (without_registers e) as Hw by (destruct e; try done; by destruct He as [[]|]).
  all: destruct (early_step use_sessions DEBUG inet_ntop egress (bs_mapping β) e _ x1 Hw E) as (x' & E' & -> & Edp).
  all: destruct (spec_without_registers use_sessions DEBUG inet_ntop (bs_mapping β) e _ _ σ1 Hw Hσ1) as (σ' & -> & Hσ & Er').
  all: exists x', σ'; split; [exact E'|]; split; [exact Hσ|].
  all: split; cbn [bt_pc bt_pd bt_system bs_pc bs_mapping bs_system]; try done.
  all: split; [unfold unprepared; by rewrite Edp|split; [by rewrite Er'|exact Hi]].
Qed.

Definition boot_simulated (e : sys_event) b β : Prop :=
  exists b' β', step e b = Ok (Some b') /\ spec e β β' /\ boot_inv b' β'.

Lemma thread_simulated b β : boot_inv b β -> boot_simulated SysDataplane b β.
Proof using egress_bits table_laws.
  intros Hi. pose proof Hi as [Hpc Hm Hp Hpd Hs]. unfold boot_simulated. cbn [boot_step]. unfold dataplane_thread_step.
  rewrite Hpc. unfold boot_spec. destruct (bs_pc β) eqn:Epc.
  - destruct Hpd as [Hpd _]. destruct (prepare_dataplane_ok cf hdls (bt_pd b) ports pairs Hpd) as (pd & -> & Hc).
    unfold obind. cbn [rbind]. eexists _, _. split; [reflexivity|]. split.
    + exists (DEVPORT_MAPPING pd). split; [split; apply Hc|reflexivity].
    + split; cbn [bt_pc bt_pd bt_system bs_pc bs_mapping bs_system]; try done. apply Hc.
  - destruct Hs as (Hu & _ & Hs). destruct (prepare_features_step_ok egress use_sessions owner session_owner _ _ Hu Hs) as (x' & -> & Hi').
    cbn [rbind]. eexists _, _. split; [reflexivity|]. split; [reflexivity|].
    by split.
  - destruct (system_step SysDataplane b β Hi (or_intror Epc) (conj I I)) as (x' & σ' & E & Hσ & Hi').
    cbn [sys_step] in E. rewrite Hm, E. cbn [rbind]. eexists _, _. split; [reflexivity|].
    rewrite Hpc, Epc in Hi'. split; [by exists σ'|exact Hi'].
Qed.

Lemma boot_step_simulated e b β : boot_inv b β -> admissible β e -> boot_simulated e b β.
Proof using egress_bits table_laws.
  intros Hi Ha. assert (e = SysDataplane \/ e <> SysDataplane) as [->|He] by (destruct e; by (left + right)); [by apply thread_simulated|].
  destruct (system_step e b β Hi (or_introl He) Ha) as (x' & σ' & E & Hσ & Hi').
  exists (Boot (bt_pc b) (bt_pd b) x'), (BootState (bs_pc β) (bs_mapping β) σ').
  rewrite <- (bv_mapping _ _ Hi) in E at 1.
  split; [|split; [|exact Hi']].
  - destruct e; try done; cbn [boot_step]; by rewrite E.
  - destruct e; try done; by exists σ'.
Qed.

Lemma boot_run_simulated es b β :
  boot_inv b β -> boot_paced use_sessions DEBUG inet_ntop pairs egress owner session_owner β es ->
  exists b' β', boot_run use_sessions DEBUG inet_ntop cf hdls es b = Ok (Some b') /\
    boot_specs use_sessions DEBUG inet_ntop pairs egress β es β' /\ boot_inv b' β'.
Proof using egress_bits table_laws.
  revert b β. induction es as [|e es IH]; intros b β Hi Hp; cbn [boot_run boot_specs boot_paced] in *.
  { by exists b, β. }
  destruct Hp as [Ha Hp]. destruct (boot_step_simulated e b β Hi Ha) as (b1 & β1 & -> & Hs & Hi1).
  destruct (IH b1 β1 Hi1 (Hp β1 Hs)) as (b' & β' & E & Hs' & Hi'). unfold obind. cbn [rbind].
  exists b', β'. split; [exact E|]. split; [by exists β1|exact Hi'].
Qed.

Lemma static_mapping_ok : ports_ok static_mapping.
Proof using.
  split; [reflexivity|]. intros p _. right. unfold static_mapping, MAX_DEV_PORT_ID. rewrite aget_amake. lia.
Qed.

Lemma boot_start_inv s (pd : pd_state T) dns D :
  loaded_switch s -> configurable cf hdls ports pairs pd -> DEVPORT_MAPPING pd = static_mapping ->
  dns_rep dns D -> Z.of_nat (size D) < DNS_HASHTABLE_SIZE ->
  exists b, low_level_controller egress s pd dns = Ok b /\ boot_inv b (boot_initial egress D).
Proof using.
  intros (H4 & H6 & Hb) Hcf Hm Hdns Hroom.
  destruct (sys_start_inv use_sessions owner session_owner registers no_bits s (prepared_registers egress) dns D)
    as (x & Ex & Hi).
  { split; [exact H4|exact H6| |exact (proj1 (prepared_ready egress))|done].
    intros i p y. cbn [dataplane_init dp_switch]. by rewrite Hb. }
  { reflexivity. }
  { exact Hdns. }
  { exact Hroom. }
  unfold low_level_controller, sys_start, ct_start in *.
  destruct (flowdb_start static_flowdb) as [db| |]; cbn [rbind] in *; [|discriminate..]. injection Ex as <-.
  eexists. split; [reflexivity|].
  split; cbn [bt_pc bt_pd bt_system bs_pc bs_mapping bs_system boot_initial]; [done|exact Hm|exact static_mapping_ok|by split|].
  split; [reflexivity|]. split; [reflexivity|]. exact Hi.
Qed.
End boot.

(** ** Properties *)

Section properties.
Context {sw T : Type} {switch : Switch sw} {sizes : TableSizes} {laws : SwitchLaws sw} `{resolver : Resolver} `{table_laws : TableApiLaws T} `{PortApi}.
Context (access : string -> Z) (DEBUG : bool) (inet_ntop : Z -> list Z -> list Z) (cf : pd_config) (hdls : nat -> arr Z).
Context (ports : list Z) (pairs : list (Z * Z)) (owner session_owner : list Z -> Z) (egress : Z -> Z).
Context (s : sw) (pd : pd_state T) (dns : dns_hashtable_t) (D : dns_map).

(** What the start relies on: a switch that was loaded with the program, tables and ports
    that accept the configuration, and a DNS table with room. *)
Record bootable : Prop := Bootable {
  bo_switch : loaded_switch s;
  bo_config : configurable cf hdls ports pairs pd;
  bo_mapping : DEVPORT_MAPPING pd = static_mapping;
  bo_dns : dns_rep dns D;
  bo_room : Z.of_nat (size D) < DNS_HASHTABLE_SIZE;
  bo_egress r : egress r = 0 \/ egress r = 1 }.

Lemma boot_runs es :
  let use_sessions := load_runtime_config access in
  bootable -> boot_paced use_sessions DEBUG inet_ntop pairs egress owner session_owner (boot_initial egress D) es ->
  exists b b' β', low_level_controller egress s pd dns = Ok b /\
    boot_run use_sessions DEBUG inet_ntop cf hdls es b = Ok (Some b') /\
    boot_specs use_sessions DEBUG inet_ntop pairs egress (boot_initial egress D) es β' /\
    boot_inv use_sessions cf hdls ports pairs owner session_owner egress b' β'.
Proof using table_laws.
  intros us [H1' H2' H3' H4' H5' H6'] Hp.
  destruct (boot_start_inv us cf hdls ports pairs owner session_owner egress s pd dns D H1' H2' H3' H4' H5') as (b & Eb & Hi).
  destruct (boot_run_simulated us DEBUG inet_ntop cf hdls ports pairs owner session_owner egress H6' es b _ Hi Hp)
    as (b' & β' & E & Hs & Hi').
  exists b, b', β'. split; [exact Eb|]. split; [exact E|]. split; [exact Hs|exact Hi'].
Qed.

(** Claim C1. The whole program from [low_level_controller] on. On a switch loaded with
    the program, with a configuration that the SDK accepts and either mode of the session
    table, every paced sequence of steps of all threads, which run while the data plane
    thread prepares the switch, ends without leaving an array or looping; each step does
    to the shared state what its specification says, the totals that the exporter prints
    included: they grow by the difference of two reads and are cleared by the commands of
    the flow database. Once the preparation is over, the static tables hold exactly the configured entries, [DEVPORT_MAPPING] the same pairs as
    the forwarding table, and when the pending commands are executed the switch holds one
    entry for each stored flow, also of those that were added before, with the registers
    of the session that it joined, and no other. *)
Theorem controller_starts es :
  let use_sessions := load_runtime_config access in
  bootable -> boot_paced use_sessions DEBUG inet_ntop pairs egress owner session_owner (boot_initial egress D) es ->
  exists b b' β', low_level_controller egress s pd dns = Ok b /\
    boot_run use_sessions DEBUG inet_ntop cf hdls es b = Ok (Some b') /\
    boot_specs use_sessions DEBUG inet_ntop pairs egress (boot_initial egress D) es β' /\
    bt_pc b' = foldl next_pc PREPARE_DATAPLANE es /\ sys_rep use_sessions (bt_system b') (bs_system β') /\
    (bt_pc b' = COMMANDS -> configured cf ports pairs (bt_pd b') /\
     exists st ring,
       let c := sy_controller (bt_system b') in
       dataplane_drain (ct_dp c) (dataplane_ringbuffer (ct_db c)) = Ok (st, ring) /\
       dp_status st = SUCCESS /\ switch_counts st (ss_mode (bs_system β')) /\
       (use_sessions = false -> switch_mirrors st (ss_db (bs_system β')))).
Proof using table_laws.
  intros us Hb Hp. subst us. destruct (boot_runs es Hb Hp) as (b & b' & β' & Eb & E & Hs & [Hpc Hm Hpo Hpd Hsys]).
  exists b, b', β'. split; [exact Eb|]. split; [exact E|]. split; [exact Hs|]. split; [rewrite Hpc; exact (specs_pc _ _ _ _ _ _ _ _ Hs)|]. split.
  - exact (boot_rep _ _ _ _ _ _ _ _ _ _ (BootInv _ _ _ _ _ _ _ _ _ _ Hpc Hm Hpo Hpd Hsys)).
  - rewrite Hpc. intros Epc. rewrite Epc in *. split; [exact Hpd|].
    destruct (sv_controller _ _ _ _ _ _ Hsys) as (A & bits & Hct). exact (mode_drained _ _ _ _ _ _ A bits Hct).
Qed.

(** Claim C40. The exporter does not wait for the preparation: whatever the threads did
    before, a round while the data plane thread still prepares the switch reads the
    registers into the buffers at null pointers. *)
Theorem early_export_undefined es now sec :
  let use_sessions := load_runtime_config access in
  bootable -> boot_paced use_sessions DEBUG inet_ntop pairs egress owner session_owner (boot_initial egress D) es ->
  exists b b', low_level_controller egress s pd dns = Ok b /\
    boot_run use_sessions DEBUG inet_ntop cf hdls es b = Ok (Some b') /\
    (bt_pc b' <> COMMANDS -> boot_step use_sessions DEBUG inet_ntop cf hdls (SysExport now sec) b' = UB).
Proof using table_laws.
  intros us Hb Hp. subst us. destruct (boot_runs es Hb Hp) as (b & b' & β' & Eb & E & Hs & [Hpc Hm Hpo Hpd Hsys]).
  exists b, b'. split; [exact Eb|]. split; [exact E|]. intros Hne. cbn [boot_step]. rewrite Hpc in Hne.
  rewrite (unprepared_export (load_runtime_config access) DEBUG inet_ntop egress); [reflexivity|].
  destruct (bs_pc β'); [exact (proj1 Hsys)|exact (proj1 Hsys)|]. exfalso. apply Hne. reflexivity.
Qed.

(** A flow that the flow database adds before the preparation gets the offset to
    pipe 0, for the entries of [DEVPORT_MAPPING] are still zero: whatever the port to
    which the switch will forward it, and although the port may have no entry at all. *)
Theorem early_flow_leads_to_pipe_0 es ft id l sid q uuid garbage :
  let use_sessions := load_runtime_config access in
  bootable -> boot_paced use_sessions DEBUG inet_ntop pairs egress owner session_owner (boot_initial egress D) es ->
  exists b b' β', low_level_controller egress s pd dns = Ok b /\
    boot_run use_sessions DEBUG inet_ntop cf hdls es b = Ok (Some b') /\
    boot_specs use_sessions DEBUG inet_ntop pairs egress (boot_initial egress D) es β' /\
    (bs_pc β' = PREPARE_DATAPLANE ->
     boot_admissible use_sessions owner session_owner β' (SysFlowdb uuid garbage) ->
     ss_packets (bs_system β') = PKT_ADD_FLOW ft :: q -> a_flows (ss_db (bs_system β')) !! flow_key ft = None ->
     a_free_flows (ss_db (bs_system β')) (pipe_of ft) = id :: l -> joins use_sessions ft (ss_db (bs_system β')) sid ->
     exists b2 σ, boot_step use_sessions DEBUG inet_ntop cf hdls (SysFlowdb uuid garbage) b' = Ok (Some b2) /\
       sys_rep use_sessions (bt_system b2) σ /\
       a_flows (ss_db σ) !! flow_key ft = Some (with_egress_offset ft (- pipe_of ft), id)).
Proof using table_laws.
  intros us Hb Hp. subst us. destruct (boot_runs es Hb Hp) as (b & b' & β' & Eb & E & Hs & Hi).
  exists b, b', β'. split; [exact Eb|]. split; [exact E|]. split; [exact Hs|]. intros Epc Ha Eq Hk Hf Hj.
  pose proof (early_addition _ _ _ _ _ _ _ _ b' β' garbage ft id l sid q uuid Hi Epc Ha Eq Hk Hf Hj) as Hadd.
  destruct (boot_step_simulated _ DEBUG inet_ntop _ _ _ _ _ _ _ (bo_egress Hb) _ b' β' Hi Ha) as (b2 & β2 & E2 & Hspec & Hi2).
  exists b2, (bs_system β2). split; [exact E2|]. split; [exact (boot_rep _ _ _ _ _ _ _ _ _ _ Hi2)|].
  unfold boot_spec in Hspec. destruct Hspec as (σ' & Hσ & ->). cbn [sys_spec] in Hσ. unfold flowdb_spec in Hσ.
  rewrite Eq in Hσ. rewrite Hσ. exact Hadd.
Qed.
End properties.

(** *** A start *)

#[local] Existing Instance sample_port_api.

(** Without the file that disables the sessions. *)
Definition no_file (_ : string) : Z := -1.

Lemma sample_bootable : exists dns,
  bootable sample_config (fun _ => amake MAX_FLOWS 0) [5; 130] [(5, 130); (130, 5)] (fun _ => 0)
    (constant_switch 0) sample_pd dns sample_dns_map.
Proof.
  destruct sample_dns as (t & Ht). exists t. split.
  - split; [reflexivity|]. split; [reflexivity|]. intros i p x. reflexivity.
  - exact sample_configurable.
  - reflexivity.
  - exact Ht.
  - unfold sample_dns_map. rewrite map_size_singleton. reflexivity.
  - intros r. left. reflexivity.
Qed.

(** The packet of a flow arrives before the preparation. *)
Definition early_events : list sys_event := [SysPacket 5 0 (sample_tcp TH_SYN)].

Definition sample_early (β : boot_state) : Prop :=
  exists rs, β = BootState PREPARE_DATAPLANE static_mapping (sample_waiting rs).

Lemma early_reached us DEBUG inet_ntop pairs egress β :
  boot_spec us DEBUG inet_ntop pairs egress (SysPacket 5 0 (sample_tcp TH_SYN)) (boot_initial egress sample_dns_map) β -> sample_early β.
Proof.
  intros (σ & Hσ & ->). cbn [sys_spec] in Hσ. apply sample_packet_spec in Hσ as ->. eexists. reflexivity.
Qed.

Lemma early_paced us DEBUG inet_ntop pairs egress :
  boot_paced us DEBUG inet_ntop pairs egress (fun _ => 0) (fun _ => 0) (boot_initial egress sample_dns_map) early_events.
Proof. split; [split; [exact I|apply sample_packet_admissible]|]. intros β _. exact I. Qed.

(** The flow is added before the preparation; then come a command of the data plane
    thread, a round of the exporter and a step of the maintenance. *)
Definition boot_events : list sys_event :=
  early_events ++ [SysFlowdb [] 0; SysDataplane; SysDataplane; SysDataplane; SysExport (Timespec 6 0) 6;
                   SysMaintenance 0 0 (fun _ _ => 0)].

Lemma boot_events_paced us DEBUG inet_ntop pairs egress :
  boot_paced us DEBUG inet_ntop pairs egress (fun _ => 0) (fun _ => 0) (boot_initial egress sample_dns_map) boot_events.
Proof.
  split; [split; [exact I|apply sample_packet_admissible]|]. intros β1 [rs ->]%early_reached.
  split; [split; [exact I|apply sample_add_admissible]|]. intros β2 (σ2 & _ & ->).
  split; [split; exact I|]. intros β3 (m & _ & ->).
  split; [split; exact I|]. intros β4 ->.
  split; [split; exact I|]. intros β5 (σ5 & _ & ->).
  split; [split; [reflexivity|exact I]|]. intros β6 (σ6 & _ & ->).
  split; [split; [exact I|split; split; discriminate || reflexivity]|]. intros β7 _. exact I.
Qed.

Lemma controller_starts_witness : exists dns (b b' : boot_t model_sw model_table) β' st ring,
  low_level_controller (fun _ => 0) (constant_switch 0) sample_pd dns = Ok b /\
  boot_run (H0 := records_resolver []) true false (fun _ a => a) sample_config (fun _ => amake MAX_FLOWS 0) boot_events b
    = Ok (Some b') /\
  bt_pc b' = COMMANDS /\ configured sample_config [5; 130] [(5, 130); (130, 5)] (bt_pd b') /\
  dataplane_drain (ct_dp (sy_controller (bt_system b'))) (dataplane_ringbuffer (ct_db (sy_controller (bt_system b'))))
    = Ok (st, ring) /\ switch_counts st (ss_mode (bs_system β')).
Proof.
  destruct sample_bootable as (dns & Hb).
  destruct (controller_starts (resolver := records_resolver []) no_file false (fun _ a => a) sample_config (fun _ => amake MAX_FLOWS 0)
              [5; 130] [(5, 130); (130, 5)] (fun _ => 0) (fun _ => 0) (fun _ => 0) (constant_switch 0) sample_pd dns sample_dns_map
              boot_events)
    as (b & b' & β' & Eb & E & _ & Epc & _ & Hrun).
  - exact Hb.
  - exact (boot_events_paced true false (fun _ a => a) _ _).
  - destruct (Hrun Epc) as (Hc & st & ring & Ed & _ & Hs & _).
    exists dns, b, b', β', st, ring. split; [exact Eb|]. split; [exact E|]. split; [exact Epc|]. split; [exact Hc|].
    split; [exact Ed|exact Hs].
Defined.

Lemma early_export_undefined_witness : exists dns (b b' : boot_t model_sw model_table),
  low_level_controller (fun _ => 0) (constant_switch 0) sample_pd dns = Ok b /\
  boot_run (H0 := records_resolver []) true false (fun _ a => a) sample_config (fun _ => amake MAX_FLOWS 0) early_events b
    = Ok (Some b') /\
  boot_step (H0 := records_resolver []) true false (fun _ a => a) sample_config (fun _ => amake MAX_FLOWS 0)
    (SysExport (Timespec 6 0) 6) b' = UB.
Proof.
  destruct sample_bootable as (dns & Hb).
  destruct (early_export_undefined (resolver := records_resolver []) no_file false (fun _ a => a) sample_config (fun _ => amake MAX_FLOWS 0)
              [5; 130] [(5, 130); (130, 5)] (fun _ => 0) (fun _ => 0) (fun _ => 0) (constant_switch 0) sample_pd dns sample_dns_map
              early_events (Timespec 6 0) 6 Hb (early_paced true false (fun _ a => a) _ _))
    as (b & b' & Eb & E & Hex).
  exists dns, b, b'. split; [exact Eb|]. split; [exact E|]. apply Hex.
  unfold low_level_controller in Eb. apply rbind_Ok in Eb as (x & _ & [= <-]).
  cbn [early_events boot_run boot_step bt_pd bt_pc bt_system] in E. unfold obind in E.
  apply rbind_Ok in E as (o & E1 & E). apply rbind_Ok in E1 as (x' & _ & [= <-]). injection E as <-. discriminate.
Defined.

Lemma early_flow_leads_to_pipe_0_witness : exists dns (b b' b2 : boot_t model_sw model_table) σ id,
  low_level_controller (fun _ => 0) (constant_switch 0) sample_pd dns = Ok b /\
  boot_run (H0 := records_resolver []) true false (fun _ a => a) sample_config (fun _ => amake MAX_FLOWS 0) early_events b
    = Ok (Some b') /\
  boot_step (H0 := records_resolver []) true false (fun _ a => a) sample_config (fun _ => amake MAX_FLOWS 0)
    (SysFlowdb [] 0) b' = Ok (Some b2) /\
  sys_rep true (bt_system b2) σ /\ a_flows (ss_db σ) !! flow_key sample_new = Some (with_egress_offset sample_new 0, id).
Proof.
  destruct sample_bootable as (dns & Hb). destruct (initial_free_cons 0) as (id & l & El).
  destruct (early_flow_leads_to_pipe_0 (resolver := records_resolver []) no_file false (fun _ a => a) sample_config (fun _ => amake MAX_FLOWS 0)
              [5; 130] [(5, 130); (130, 5)] (fun _ => 0) (fun _ => 0) (fun _ => 0) (constant_switch 0) sample_pd dns sample_dns_map
              early_events sample_new id l id [] [] 0 Hb (early_paced true false (fun _ a => a) _ _))
    as (b & b' & β' & Eb & E & Hs & Hadd).
  destruct Hs as (β1 & Hs & ->). apply early_reached in Hs as [rs ->]. cbn [bs_pc bs_system] in Hadd.
  destruct Hadd as (b2 & σ & E2 & Hr & Hk).
  - reflexivity.
  - split; [exact I|apply sample_add_admissible].
  - reflexivity.
  - apply lookup_empty.
  - exact El.
  - exists l. exact El.
  - exists dns, b, b', b2, σ, id. split; [exact Eb|]. split; [exact E|]. split; [exact E2|]. split; [exact Hr|exact Hk].
Defined.
